(* ===== verification/_CoqProject ===== *)
-Q . S2P
Prelude.v
PyStr.v
PyVal.v
Context.v
Exceptions.v
Handler.v
Orm.v
Service.v
Cascade.v
ServiceFacts.v
Responses.v
Repository.v
Rbac.v
AuthChain.v
ApiKey.v
Revocations.v
Utils.v
Accounts.v
Sessions.v
Contract.v
ApiDocs.v
Admin.v
Widget.v
Endpoints.v
LogSanitize.v
FireForget.v
FireSpec.v
ApiLog.v
Models.v
Migrations.v
AdminSite.v
Settings.v
Metrics.v
Middleware.v
Urls.v
Server.v
Throttles.v
Operations.v
Entry.v
Boot.v
Health.v
S3.v
Mail.v
Database.v
PyAst.v
Gates.v
TextGates.v
Globs.v
Imports.v
Packages.v
Profiler.v
