(* ===== verification/Prelude.v ===== *)
(** * Verification of the Django boilerplate

    The program is a Django REST service skeleton: an app [core] of shared
    infrastructure (exceptions, response envelopes, ORM base classes and a
    service layer, RBAC, audit logging, metrics, health checks, storage and
    mail helpers) and an app [accounts] on top of it (users, JWT sessions, API
    keys, roles), with layered settings.  This library is a shallow embedding
    of that Python code, file by file, with the theorems that make it correct.

    ** How the code is modelled

    A call returns or raises: [result].  Code with effects is an [act] over an
    explicit state, which keeps, as Python does, what was written before a
    raise; [atomic] is [transaction.atomic].  A run-time value is a
    [PyVal.pyval], a dictionary an insertion-ordered association list, a [str]
    a [string] of Latin-1 code points ([PyStr]).  The database is a finite map
    from model and primary key to a row ([Orm.database]), the clock a counter
    of readings.  Threads are explicit: code that shares state across threads
    is a step relation whose schedules are lists of actions, one per operation
    on the shared state ([Handler], [FireForget], [Database]) or one per stage
    of a view ([Sessions]; [Revocations], where a revocation runs under a row
    lock and the last-used stamp of an authentication is four steps without).

    Code outside the repository enters as a parameter of a Section, or as a
    class when several files share it: [Orm.Django] with [Orm.DjangoLaws]
    (validation, constraints, lookups, ordering, a clock that does not go
    back), [Endpoints.Dispatch] (DRF's [APIView.dispatch]) and
    [Health.FunctionView] (its [@api_view]), [S3.S3Store] (an object store
    that keeps what was put and transfers a body when it is read), [Middleware.Stack] (the layers
    that are not ours; [Middleware.OuterLaws] adds what they leave alone),
    [Throttles.Throttling] (DRF's rate throttles), [Boot.KitRegistry] (the kit's services) and
    [Widget.Django_html] (escaping, attributes, JSON).  Theorems that use the laws
    have a witness over a concrete instance.

    ** The files

    Foundations:
    - this file: outcomes, the state-and-exception monad, list and option
      lemmas, tactics and hint databases;
    - [PyStr], [PyVal]: Python's strings, values and dictionaries.

    Requests, errors and answers ([apps/core]):
    - [Context]: [context.py] and the context half of [utils/logging.py];
    - [Exceptions]: the exception classes of [base/exception.py],
      [exceptions] and [accounts/exceptions.py];
    - [Handler]: [exceptions/handler.py], with its cache built under a
      double-checked lock;
    - [Responses]: [base/response.py] and [responses], the builders;
    - [Contract]: the typed envelope and the OpenAPI documents of
      [api_schemas], set against what the code answers; [ApiDocs]: the
      error documents of [openapi/metadata.py] and the key's security scheme;
      [Operations]: the documented operations beside their responses;
    - [Middleware]: [middleware/bind_request_id.py] and [request_logging.py]
      inside the stack the settings list;
    - [Urls]: the three URL tables, [resolve] and [reverse]; [Server]: the
      stack around the tables around the key views of [Endpoints], one
      request through all of it; [Throttles]: [middleware/throttling.py] and
      the throttles of [accounts/views.py] over the rates of the settings;
    - [Utils]: [utils/network.py], [data.py], [filters.py], [timing.py].

    Data ([apps/core/base] and the models):
    - [Orm]: [model.py], [manager.py], [audit.py] over the tables;
    - [Models]: the declared models of both apps as data, and the schema that
      instantiates [Orm]; [Migrations]: the migration files, run;
    - [Service]: [service.py], every operation; [Cascade] proves its
      soft-delete cascade exact and [ServiceFacts] the other guarantees;
    - [Repository]: [repository.py], which delegates to the service;
    - [Admin]: [admin.py] of [core/base] and the key admin of [accounts];
      [AdminSite]: the registered admins under Django's checks; [Widget]: the
      page fragment of [core/base/widgets.py].

    Identity ([apps/accounts] and the registries of [core]):
    - [Rbac]: permissions, the registry, the Django backend;
    - [AuthChain]: the provider registry and the composite authentication;
    - [ApiKey]: key authentication, creation, revocation, views;
      [Revocations]: revocations of one key that overlap with each other and
      with authentications that use it;
    - [Accounts]: user service, managers, adapters, login, token rotation,
      logout and profile views;
    - [Sessions]: refresh and logout requests that overlap;
    - [Endpoints]: the chain, the permission, the key views and the handler
      composed as a request meets them.

    Logging and operations:
    - [LogSanitize]: [utils/log_sanitization.py];
    - [FireForget], [FireSpec]: [dispatch/fire_and_forget.py] and the abstract
      pool it refines;
    - [ApiLog]: the audit log of HTTP calls, [api_log];
    - [Metrics]: [metrics.py], the function and duration loggers, the metrics
      middleware and the task registry;
    - [Health]: [lifecycle/healthcheck.py] and [views.py];
    - [S3], [Mail], [Database]: [utils/s3.py] with [aws.py], [ses.py], [db.py]
      with [valkey.py];
    - [Settings]: [config/settings], every module as a list of statements;
    - [Entry], [Boot]: the entry points, and the [ready] methods of the
      applications over one state that holds every registry;
    - [PyAst], [Gates], [TextGates], [Globs]: the checkers under [scripts],
      over syntax trees with the standard library's [ast.walk] and
      [Path.glob];
    - [Profiler]: the percentiles of [scripts/profile_audit_path.py].

    The modules themselves:
    - [Imports]: Python's import, [sys.modules] and partly loaded packages,
      with a reference that evaluates each module after those it imports;
      [Packages]: what every module of [core] and [accounts] imports and
      binds, and what the packages export.

    [Entry], [Settings] and [Boot] run first and leave the registries the
    others start from.  A request passes the stack of [Middleware], is routed
    by [Urls], and meets the rest in the order [Context], [AuthChain] (with
    [ApiKey] and the token provider), [Rbac], a view of [Accounts], [ApiKey] or [Health],
    [Service] over [Orm], then [Responses] or, on a raise, [Handler] over
    [Exceptions].  [LogSanitize] and [ApiLog] record it and hand the row to
    [FireForget].

    ** What the theorems show

    - Data: the cascade ends and deactivates exactly the rows it should;
      updates whose data names no key and soft deletes touch one row (or that
      set) and fail without a trace; the audit timestamps stay ordered along
      every sequence of service calls whose data leaves keys and creation
      times alone; reads stay within the page ceiling and the allow-lists;
      pages of a listing without ties hold each row once, however the database
      orders each read within the model's ordering; the migrations build
      exactly the declared models, and the admins use fields that exist and
      write none they should not.
    - Contract: the published schemas accept what the builders and the handler
      answer (what the documents of single endpoints promise beyond them is
      compared, and found different, in [Contract.detail_documents_unmet]);
      which published error examples are the handler's own bodies.
    - Identity: which header opens which account, that a revoked key opens
      none; over HTTP, through the middleware and the URL tables, a key row
      changes only for the route's method and an authorised caller, and a
      success answer means the key is locked out; revocations that overlap
      with each other and with last-used stamps answer and leave the tables as
      if one after the other, and none waits for ever; once a rotation or logout has been answered
      its token is never accepted again, whatever runs beside it (two
      rotations that overlap both succeed, as [Sessions] shows);
      logout ends only one's own session; permission checks are the role
      tables' answer, and Django's [has_perm], over both configured backends,
      is theirs joined with the other backend's; a resource once registered
      for a model stays.
    - Logging: redaction as non-interference (with sanitising enabled, two
      inputs that differ in secrets only produce the same record; the audit
      row of a call that raised is the exception); logging never changes the
      answer of a call, and a row is queued, counted as dropped or reported
      lost; the bounded queue refines the abstract pool, loses and repeats no
      task, drains in time, and what it gives up at shutdown is accounted for.
    - Operations: readiness is the conjunction of the probes for a caller
      whose privileges can be read; metric labels are bounded; the metrics
      address check behind the authentication; stored JSON and generated keys
      round-trip and nothing oversized is read; one engine per URL under every
      interleaving; settings precedence, and which configurations refuse to
      boot; the start of the process leaves every registry filled and may be
      repeated, given a positive number of queue workers.
    - Limits: the authentication endpoints serve at most five anonymous
      requests of one address a minute, whatever the environment says, of
      requests that come one after the other.
    - Requests: every record logged in a request carries its id; every named
      route is reversed and resolved back, and no path has two; the JSON
      editor shows the stored document, up to what HTML does to newlines, and
      cannot be broken out of.
    - Checkers: for each, the condition on the tree under which it passes.
    - Modules: the imports among the two apps succeed in every order, given
      those from outside, and packages export what they list, which they would
      not if [core.base] imported at its top.

    Where a theorem records that the code falls short of its intent, its
    comment says so (the retry of [create_key] that never runs, the bound of
    the queue that the executor's backlog escapes, and others).

    ** Bounds and fuel

    - [Service.cascade_loop] takes one unit of fuel per queue entry;
      [cascade_fuel] is more than the number of active rows, and each entry but
      the first is a row that was deactivated, so it never runs out
      (proved in [Cascade]).  The depth limit is the code's own.
    - [FireForget.drain_loop] polls a clock; with a clock that reaches the
      deadline after [N] readings, more than [N] units suffice (proved).
    - [LogSanitize]'s recursion counts down the six levels the code allows.
    - [Exceptions.mro_fuel] is fed the class's depth in the hierarchy.
    - [Contract]'s schema checker descends once per schema level.
    - [Imports.step] takes a unit per import statement or [__getattr__] under
      way; twice the number of modules and three suffices (proved).
    - [PyAst.walk_loop] takes one unit per node of the tree, which is how many
      it visits (proved).
    - Integers are Python's, hence [Z] and [nat] without wrap-around; a value
      is stored as it is given: the conversions that Django's fields and the
      database make on saving, and what they refuse, are left to the parameters
      of [Orm.Django].

    ** Not modelled

    - The resilience kit ([resilient], retries, breakers, its middleware and
      its context): a third-party package; its calls are parameters.
    - The counting of DRF's throttles and of the kit's burst throttle, and
      throttled requests that overlap: DRF documents that its cache operations
      are not atomic and may let more through ([Throttles.overlapping_exceeds]).
    - Assigning to an attribute other than a column, a foreign key's [f_id] or
      [pk], and database failures in the middle of a refresh or logout.
    - What the script of the JSON editor does in a browser.
    - The WSGI, ASGI and Celery objects, and the patterns below
      [admin.site.urls].
    - What importing a module does besides binding names (Django's registries
      that a model class enters, say), third-party modules that fail to import
      or import the project's in their turn; tests and migrations as modules.
    - The descriptions of single responses in the OpenAPI documents.
    - The set-up and the dummy call of [scripts/profile_audit_path.py];
      Python's parser, whose trees the checkers start from.
    - Code points above U+00FF, and the float arithmetic of durations and of
      percentiles. *)
From stdpp Require Import base list gmap strings pretty numbers.
From Stdlib Require Import Lia.

(** ** Outcomes of Python code

    A Python call either returns a value or raises.  [result E A] is that
    outcome with exceptions drawn from [E]; [act S E A] threads a state [S]
    which, as in Python, keeps the effects made before a raise. *)
Inductive result (E A : Type) : Type :=
| Ok (a : A)
| Raise (e : E).
Arguments Ok {E A} a.
Arguments Raise {E A} e.

#[export] Instance result_ret {E} : MRet (result E) := fun A a => Ok a.
#[export] Instance result_bind {E} : MBind (result E) := fun A B k m =>
  match m with
  | Ok a => k a
  | Raise e => Raise e
  end.

(** Did the call return? *)
Definition returns {E A} (r : result E A) : bool :=
  match r with
  | Ok _ => true
  | Raise _ => false
  end.

(** State and exceptions: the state survives a raise. *)
Definition act (S E A : Type) : Type := S -> result E A * S.

#[export] Instance act_ret {S E} : MRet (act S E) := fun A a s => (Ok a, s).
#[export] Instance act_bind {S E} : MBind (act S E) := fun A B k m s =>
  match m s with
  | (Ok a, s') => k a s'
  | (Raise e, s') => (Raise e, s')
  end.

Definition raise {S E A} (e : E) : act S E A := fun s => (Raise e, s).
Definition get_state {S E} : act S E S := fun s => (Ok s, s).
Definition modify {S E} (f : S -> S) : act S E unit := fun s => (Ok tt, f s).
Definition lift_result {S E A} (r : result E A) : act S E A := fun s => (r, s).

(** [with transaction.atomic(): m]: an exception leaving the block rolls the
    state back to what it was on entry (nested blocks are savepoints). *)
Definition atomic {S E A} (m : act S E A) : act S E A := fun s =>
  match m s with
  | (Ok a, s') => (Ok a, s')
  | (Raise e, _) => (Raise e, s)
  end.

(** Python's [for x in xs: body x]. *)
Fixpoint for_each {S E A} (body : A -> act S E unit) (xs : list A) : act S E unit :=
  match xs with
  | [] => mret tt
  | x :: xs' => body x ≫= fun _ => for_each body xs'
  end.

(** A [for] loop that may only raise. *)
Fixpoint for_check {E A} (body : A -> result E unit) (xs : list A) : result E unit :=
  match xs with
  | [] => Ok tt
  | x :: xs' => body x ≫= fun _ => for_check body xs'
  end.

(** Python's [a or b] on optional values. *)
Definition or_else {A} (a b : option A) : option A :=
  match a with
  | Some _ => a
  | None => b
  end.

(** ** Automation *)
Create HintDb py discriminated.
#[export] Hint Constructors or and : py.
#[export] Hint Resolve eq_refl I : py.

(** Case analysis on every [match] scrutinee of the goal, closing the
    branches that contradict a hypothesis. *)
Ltac cases :=
  repeat (case_match; simplify_eq/=; try congruence).

(** Unfold the monads so that a run of an action computes. *)
Ltac run_act :=
  unfold mbind, mret, act_bind, act_ret, result_bind, result_ret, raise, get_state,
    modify, lift_result, atomic in *; simpl in *.

(** Compute lookups in a map built by insertions at literal keys. *)
Ltac row_simpl :=
  repeat first [rewrite lookup_insert_eq|rewrite lookup_insert_ne by (done || congruence)].

(** Case analysis on the thread a lookup in an updated pool finds. *)
Ltac lookup_cases H :=
  apply lookup_insert_Some in H as [[<- <-]|[? H]].

(** ** Generic lemmas *)

Lemma returns_Ok {E A} (r : result E A) : returns r = true <-> exists a, r = Ok a.
Proof. destruct r; naive_solver. Qed.

Lemma atomic_rollback {S E A} (m : act S E A) s e s' :
  atomic m s = (Raise e, s') -> s' = s.
Proof. unfold atomic. cases. Qed.

Lemma atomic_ok {S E A} (m : act S E A) s a s' :
  atomic m s = (Ok a, s') <-> m s = (Ok a, s').
Proof. unfold atomic. split; cases. Qed.

Lemma bind_ok {S E A B} (m : act S E A) (k : A -> act S E B) s b s' :
  (m ≫= k) s = (Ok b, s') <-> exists a s1, m s = (Ok a, s1) /\ k a s1 = (Ok b, s').
Proof.
  unfold mbind, act_bind. destruct (m s) as [[a|e] s1]; naive_solver.
Qed.

Lemma result_bind_ok {E A B} (m : result E A) (k : A -> result E B) b :
  m ≫= k = Ok b <-> exists a, m = Ok a /\ k a = Ok b.
Proof. unfold mbind, result_bind. destruct m; naive_solver. Qed.

Lemma for_check_Ok {E A} (body : A -> result E unit) xs :
  for_check body xs = Ok tt <-> Forall (fun x => body x = Ok tt) xs.
Proof.
  induction xs as [|x xs IH]; simpl; [naive_solver|].
  rewrite Forall_cons_iff. unfold mbind, result_bind.
  destruct (body x) as [[]|e]; naive_solver.
Qed.

Lemma for_check_Raise {E A} (body : A -> result E unit) xs e :
  for_check body xs = Raise e ->
  exists pre x post, xs = pre ++ x :: post /\ body x = Raise e /\
    Forall (fun y => body y = Ok tt) pre.
Proof.
  induction xs as [|x xs IH]; simpl; [discriminate|].
  destruct (body x) as [[]|e'] eqn:Hx; unfold mbind, result_bind; simpl; intros H.
  - destruct (IH H) as (pre & y & post & -> & Hy & Hpre).
    exists (x :: pre), y, post. repeat split; auto.
  - simplify_eq. exists [], x, xs. auto.
Qed.

(** Lists *)
Lemma partition_perm {A} (f : A -> bool) l yes no : List.partition f l = (yes, no) -> yes ++ no ≡ₚ l.
Proof.
  revert yes no. induction l as [|x l IH]; intros yes no; cbn [List.partition]; [by intros [= <- <-]|].
  destruct (List.partition f l) as [g d]. specialize (IH g d eq_refl).
  destruct (f x); intros [= <- <-]; [by rewrite <- IH|]. by rewrite <- Permutation_middle, IH.
Qed.

Lemma filter_length_le {A} (P : A -> Prop) `{!∀ x, Decision (P x)} (l : list A) :
  length (filter P l) <= length l.
Proof. induction l as [|x l IH]; [done|]. rewrite filter_cons. case_decide; simpl; lia. Qed.

Lemma Forall_filter_in {A} (P : A -> Prop) `{!∀ x, Decision (P x)} (l : list A) :
  Forall P (filter P l).
Proof.
  induction l as [|x l IH]; [constructor|]. rewrite filter_cons.
  case_decide; [by constructor|done].
Qed.

#[export] Hint Resolve filter_length_le Forall_filter_in : py.
