(* ===== verification/PyStr.v ===== *)
(** * Python strings

    A [str] of the source is a [string] here: a sequence of code points below
    256 (Latin-1, which is also what WSGI hands to Django for header values).
    On that range [lower], [upper] and [strip] are given by Python's own
    tables, written out below; lengths and slices count code points.  The one
    character of the source outside the range, the ellipsis U+2026 of the
    truncation markers, is represented by its cp1252 byte, 0x85. *)
From stdpp Require Import base list gmap strings pretty numbers.
From Stdlib Require Import Ascii Lia ZArith.
From S2P Require Import Prelude.

Declare Scope py_scope.
Delimit Scope py_scope with py.
#[global] Open Scope py_scope.
#[global] Arguments String.append !_ _ /.

(** ** Characters *)
Definition ord (c : ascii) : nat := nat_of_ascii c.
Definition chr (n : nat) : ascii := ascii_of_nat n.

(** Lower case of one Latin-1 character: A-Z and the accented capitals
    0xC0-0xDE (0xD7 is the multiplication sign). *)
Definition lower_char (c : ascii) : ascii :=
  let n := ord c in
  if (65 <=? n) && (n <=? 90) then chr (n + 32)
  else if (192 <=? n) && (n <=? 222) && negb (n =? 215) then chr (n + 32)
  else c.

(** Upper case of an ASCII letter; the class names it is applied to in the
    source are ASCII identifiers. *)
Definition upper_char (c : ascii) : ascii :=
  let n := ord c in
  if (97 <=? n) && (n <=? 122) then chr (n - 32) else c.

(** [str.isspace] on Latin-1. *)
Definition is_space (c : ascii) : bool :=
  let n := ord c in
  ((9 <=? n) && (n <=? 13)) || ((28 <=? n) && (n <=? 32)) || (n =? 133) || (n =? 160).

Definition is_upper (c : ascii) : bool := let n := ord c in (65 <=? n) && (n <=? 90).
Definition is_lower (c : ascii) : bool := let n := ord c in (97 <=? n) && (n <=? 122).
Definition is_digit (c : ascii) : bool := let n := ord c in (48 <=? n) && (n <=? 57).

(** ** Strings *)
Definition slen (s : string) : nat := String.length s.

Fixpoint smap (f : ascii -> ascii) (s : string) : string :=
  match s with
  | EmptyString => EmptyString
  | String c s' => String (f c) (smap f s')
  end.

Definition lower (s : string) : string := smap lower_char s.
Definition upper (s : string) : string := smap upper_char s.

(** Replace every character by a string ("".join over a generator). *)
Fixpoint sbind (f : ascii -> string) (s : string) : string :=
  match s with
  | EmptyString => EmptyString
  | String c s' => f c +:+ sbind f s'
  end.

(** [s.replace(c, t)] for a one-character [c]. *)
Definition replace_char (c : ascii) (t : string) (s : string) : string :=
  sbind (fun d => if decide (d = c) then t else String d EmptyString) s.

Fixpoint stake (n : nat) (s : string) : string :=
  match n, s with
  | S n', String c s' => String c (stake n' s')
  | _, _ => EmptyString
  end.

Fixpoint sdrop (n : nat) (s : string) : string :=
  match n, s with
  | S n', String _ s' => sdrop n' s'
  | O, _ => s
  | _, EmptyString => EmptyString
  end.

(** [s[:i]] and [s[i:]] with Python's treatment of negative and
    out-of-range indices. *)
Definition clamp_index (len : nat) (i : Z) : nat :=
  Z.to_nat (if (i <? 0)%Z then Z.max 0 (Z.of_nat len + i) else Z.min i (Z.of_nat len)).
Definition slice_to (s : string) (i : Z) : string := stake (clamp_index (slen s) i) s.
Definition slice_from (s : string) (i : Z) : string := sdrop (clamp_index (slen s) i) s.

(** [s.startswith(p)], [s.endswith(p)], [p in s]. *)
Fixpoint startswith (p s : string) : bool :=
  match p, s with
  | EmptyString, _ => true
  | String c p', String d s' => bool_decide (c = d) && startswith p' s'
  | _, _ => false
  end.
Definition endswith (p s : string) : bool :=
  bool_decide (slen p <= slen s) && String.eqb (sdrop (slen s - slen p) s) p.
(** [s.removesuffix(p)] when there is one. *)
Fixpoint strip_suffix (p s : string) : option string :=
  if bool_decide (s = p) then Some ""
  else match s with
       | "" => None
       | String c s' => String c <$> strip_suffix p s'
       end.

Fixpoint contains (p s : string) : bool :=
  startswith p s ||
  match s with
  | EmptyString => false
  | String _ s' => contains p s'
  end.

(** [s.lstrip(chars)], [s.rstrip(chars)], [s.strip(chars)] for a test on
    characters. *)
Fixpoint lstrip (f : ascii -> bool) (s : string) : string :=
  match s with
  | EmptyString => EmptyString
  | String c s' => if f c then lstrip f s' else s
  end.
Fixpoint rstrip (f : ascii -> bool) (s : string) : string :=
  match s with
  | EmptyString => EmptyString
  | String c s' =>
      match rstrip f s' with
      | EmptyString => if f c then EmptyString else String c EmptyString
      | t => String c t
      end
  end.
Definition strip_by (f : ascii -> bool) (s : string) : string := rstrip f (lstrip f s).
Definition strip (s : string) : string := strip_by is_space s.
Definition is_char (d : ascii) (c : ascii) : bool := bool_decide (c = d).

(** [s.partition(c)]: the text before the first [c] and, when there is one,
    the text after it. *)
Fixpoint cut_char (d : ascii) (s : string) : string * option string :=
  match s with
  | EmptyString => (EmptyString, None)
  | String c s' =>
      if decide (c = d) then (EmptyString, Some s')
      else let '(a, r) := cut_char d s' in (String c a, r)
  end.

(** [s.split(c)]: at least one piece. *)
Fixpoint split_char (d : ascii) (s : string) : list string :=
  match s with
  | EmptyString => [EmptyString]
  | String c s' =>
      if decide (c = d) then EmptyString :: split_char d s'
      else match split_char d s' with
           | [] => [String c EmptyString]
           | w :: ws => String c w :: ws
           end
  end.

(** [s.split(sep)[0]] for a two-character separator. *)
Fixpoint before_pair (d1 d2 : ascii) (s : string) : string :=
  match s with
  | String c (String c' _ as s') =>
      if decide (c = d1 /\ c' = d2) then EmptyString else String c (before_pair d1 d2 s')
  | _ => s
  end.

(** [sep.join(parts)] *)
Fixpoint join (sep : string) (parts : list string) : string :=
  match parts with
  | [] => EmptyString
  | [p] => p
  | p :: ps => p +:+ sep +:+ join sep ps
  end.

(** Truth value of a string. *)
Definition str_true (s : string) : bool := negb (String.eqb s "").

(** [a or b] on strings. *)
Definition str_or (a b : string) : string := if str_true a then a else b.

(** [f"{n}"] for an integer. *)
Definition str_int (z : Z) : string := pretty z.

(** [int(s)] for a decimal literal with optional sign and surrounding white
    space; underscores between digits are allowed, as in Python. *)
Definition digit_val (c : ascii) : Z := Z.of_nat (ord c - 48).
Fixpoint digits_val (acc : Z) (after_digit : bool) (s : string) : option Z :=
  match s with
  | EmptyString => if after_digit then Some acc else None
  | String c s' =>
      if is_digit c then digits_val (10 * acc + digit_val c) true s'
      else if after_digit && is_char "_" c then digits_val acc false s'
      else None
  end.
Definition parse_int (s : string) : option Z :=
  match strip s with
  | String c s' =>
      if is_char "-" c then Z.opp <$> digits_val 0 false s'
      else if is_char "+" c then digits_val 0 false s'
      else digits_val 0 false (String c s')
  | EmptyString => None
  end.

(** The two-digit lower-case hexadecimal form of [f"{n:02x}"], [n] < 256. *)
Definition hex_digit (n : nat) : ascii :=
  if n <? 10 then chr (48 + n) else chr (87 + n).
Definition hex2 (n : nat) : string :=
  String (hex_digit (n / 16)) (String (hex_digit (n mod 16)) EmptyString).

(** Membership in a literal list of names. *)
Definition str_in (s : string) (l : list string) : bool := bool_decide (s ∈ l).

(** A test on every character. *)
Fixpoint all_chars (f : ascii -> bool) (s : string) : bool :=
  match s with EmptyString => true | String c s' => f c && all_chars f s' end.

(** ** Lemmas *)

Lemma slen_app a b : slen (a +:+ b) = slen a + slen b.
Proof. unfold slen. induction a as [|c a IH]; simpl; [done|]. by rewrite IH. Qed.

Lemma str_app_assoc a b c : (a +:+ b) +:+ c = a +:+ (b +:+ c).
Proof. induction a as [|x a IH]; simpl; [done|]. by f_equal. Qed.

Lemma str_app_nil_r a : a +:+ "" = a.
Proof. induction a as [|x a IH]; simpl; [done|]. by f_equal. Qed.

(** Strings with suffixes of one length agree when both parts do. *)
Lemma str_app_inj a b s t : slen s = slen t -> a +:+ s = b +:+ t -> a = b /\ s = t.
Proof.
  intros Hl. revert b. induction a as [|c a IH]; intros [|d b]; simpl; intros E.
  - done.
  - apply (f_equal slen) in E. unfold slen in *. simpl in E.
    fold (slen (b +:+ t)) in E. rewrite slen_app in E. unfold slen in *. lia.
  - apply (f_equal slen) in E. unfold slen in *. simpl in E.
    fold (slen (a +:+ s)) in E. rewrite slen_app in E. unfold slen in *. lia.
  - injection E as -> E. apply IH in E as [-> ->]. done.
Qed.

Lemma slen_stake n s : slen (stake n s) = Nat.min n (slen s).
Proof.
  unfold slen. revert s. induction n as [|n IH]; intros [|c s]; simpl; auto; by rewrite IH.
Qed.

Lemma slen_sdrop n s : slen (sdrop n s) = slen s - n.
Proof.
  unfold slen. revert s. induction n as [|n IH]; intros [|c s]; simpl; auto; by rewrite IH.
Qed.

Lemma stake_sdrop n s : stake n s +:+ sdrop n s = s.
Proof. revert s. induction n as [|n IH]; intros [|c s]; simpl; auto; by f_equal. Qed.

Lemma stake_all n s : slen s <= n -> stake n s = s.
Proof.
  revert s. induction n as [|n IH]; intros [|c s] H; unfold slen in *; simpl in *; auto; try lia;
  f_equal; apply IH; lia.
Qed.

Lemma stake_app_le n a b : n <= slen a -> stake n (a +:+ b) = stake n a.
Proof.
  revert a. induction n as [|n IH]; intros [|c a] H; unfold slen in *; simpl in *; auto; try lia;
  f_equal; apply IH; lia.
Qed.

Lemma slen_smap f s : slen (smap f s) = slen s.
Proof. unfold slen. induction s as [|c s IH]; simpl; auto. Qed.

Lemma smap_app f a b : smap f (a +:+ b) = smap f a +:+ smap f b.
Proof. induction a as [|c a IH]; simpl; [done|]. by f_equal. Qed.

Lemma str_true_spec s : str_true s = true <-> s <> "".
Proof. unfold str_true. rewrite negb_true_iff, String.eqb_neq. done. Qed.

Lemma startswith_spec p s : startswith p s = true <-> exists r, s = p +:+ r.
Proof.
  revert s. induction p as [|c p IH]; intros s; simpl.
  - naive_solver.
  - destruct s as [|d s]; [naive_solver|].
    rewrite andb_true_iff, bool_decide_eq_true, IH. naive_solver.
Qed.

Lemma startswith_app p a b : startswith p a = true -> startswith p (a +:+ b) = true.
Proof. rewrite !startswith_spec. intros [r ->]. exists (r +:+ b). apply str_app_assoc. Qed.

Lemma startswith_self p s : startswith p (p +:+ s) = true.
Proof. apply startswith_spec. by exists s. Qed.

Lemma sdrop_app p s : sdrop (slen p) (p +:+ s) = s.
Proof. induction p as [|c p IH]; [by destruct s|]. exact IH. Qed.

Lemma cut_char_spec d s :
  match cut_char d s with
  | (a, Some b) => s = a +:+ String d b
  | (a, None) => s = a
  end.
Proof.
  induction s as [|c s IH]; simpl; [done|].
  case_decide; subst; [done|].
  destruct (cut_char d s) as [a [b|]]; simpl; by f_equal.
Qed.

Lemma split_char_ne d s : split_char d s <> [].
Proof. destruct s as [|c s]; simpl; [done|]. case_decide; [done|]. by destruct (split_char d s). Qed.

(** Joining what [split] cut gives the string back. *)
Lemma join_split_char d s : join (String d "") (split_char d s) = s.
Proof.
  induction s as [|c s IH]; simpl; [done|].
  pose proof (split_char_ne d s) as Hne.
  case_decide; subst; simpl.
  - destruct (split_char d s) as [|w ws]; [done|]. by rewrite IH.
  - destruct (split_char d s) as [|w [|w' ws]]; simpl in *; [done| |]; by f_equal.
Qed.

Lemma str_in_spec s l : str_in s l = true <-> s ∈ l.
Proof. unfold str_in. by rewrite bool_decide_eq_true. Qed.

(** No occurrence of a character. *)
Definition free_of (d : ascii) (s : string) : Prop := ~ (exists a b, s = a +:+ String d b).

Lemma free_of_cons d c s : free_of d (String c s) <-> c <> d /\ free_of d s.
Proof.
  unfold free_of. split.
  - intros Hn. split; [intros ->; apply Hn; by exists "", s|].
    intros (a & b & ->). apply Hn. by exists (String c a), b.
  - intros [Hc Hn] ([|x a] & b & E); simplify_eq/=; eauto.
Qed.

Lemma free_of_app d a b : free_of d a -> free_of d b -> free_of d (a +:+ b).
Proof.
  induction a as [|c a IH]; simpl; [done|]. rewrite !free_of_cons. naive_solver.
Qed.

Lemma free_of_nil d : free_of d "".
Proof. intros ([|] & b & E); done. Qed.

Lemma split_char_no_sep d s : free_of d s -> split_char d s = [s].
Proof.
  induction s as [|c s IH]; intros Hn; simpl; [done|].
  destruct (decide (c = d)) as [->|Hc].
  - destruct Hn. by exists "", s.
  - rewrite IH; [done|]. intros (a & b & ->). apply Hn. by exists (String c a), b.
Qed.

Lemma split_char_app d a b : free_of d a ->
  split_char d (a +:+ String d b) = a :: split_char d b.
Proof.
  induction a as [|c a IH]; intros Hn; simpl; [by rewrite decide_True|].
  destruct (decide (c = d)) as [->|Hc]; [destruct Hn; by exists "", a|].
  rewrite IH; [done|]. intros (x & y & ->). apply Hn. by exists (String c x), y.
Qed.

Lemma cut_char_app d a b : free_of d a ->
  cut_char d (a +:+ String d b) = (a, Some b).
Proof.
  induction a as [|c a IH]; intros Hn; simpl; [by rewrite decide_True|].
  destruct (decide (c = d)) as [->|Hc]; [destruct Hn; by exists "", a|].
  rewrite IH; [done|]. intros (x & y & ->). apply Hn. by exists (String c x), y.
Qed.

Lemma all_chars_app f a b : all_chars f (a +:+ b) = all_chars f a && all_chars f b.
Proof. induction a as [|c a IH]; simpl; [done|]. by rewrite IH, andb_assoc. Qed.

Lemma all_chars_impl (f g : ascii -> bool) s :
  (forall c, f c = true -> g c = true) -> all_chars f s = true -> all_chars g s = true.
Proof.
  intros Hfg. induction s as [|c s IH]; simpl; [done|]. rewrite !andb_true_iff. naive_solver.
Qed.

(** *** Integers in decimal *)

Fixpoint all_digits (s : string) : bool :=
  match s with
  | String c s' => is_digit c && all_digits s'
  | EmptyString => true
  end.

Lemma pretty_digit m : (m < 10)%N ->
  is_digit (pretty_N_char m) = true /\ digit_val (pretty_N_char m) = Z.of_N m.
Proof.
  intros H. destruct m as [|p]; [done|].
  do 4 (destruct p as [p|p|]; try done); exfalso; lia.
Qed.

(** Reading back the digits [pretty] puts in front of [s]. *)
Lemma digits_val_pretty n s b :
  digits_val 0 b (pretty_N_go n s) = digits_val (Z.of_N n) (b || negb (n =? 0)%N) s.
Proof.
  revert s b. induction n as [n IH] using (well_founded_induction N.lt_wf_0). intros s b.
  destruct (decide (n = 0%N)) as [->|Hn]; [by rewrite pretty_N_go_0, orb_false_r|].
  rewrite pretty_N_go_step by lia. rewrite IH by (apply N.div_lt; lia).
  destruct (pretty_digit (n `mod` 10)) as [Hd Hv]; [by apply N.mod_lt|].
  cbn [digits_val]. rewrite Hd, Hv.
  assert (Hz : (10 * Z.of_N (n `div` 10) + Z.of_N (n `mod` 10))%Z = Z.of_N n).
  { pose proof (N.div_mod n 10). lia. }
  rewrite Hz. destruct (N.eqb_spec n 0) as [->|_]; [done|]. by rewrite orb_true_r.
Qed.

Lemma all_digits_pretty n s : all_digits s = true -> all_digits (pretty_N_go n s) = true.
Proof.
  revert s. induction n as [n IH] using (well_founded_induction N.lt_wf_0). intros s Hs.
  destruct (decide (n = 0%N)) as [->|Hn]; [by rewrite pretty_N_go_0|].
  rewrite pretty_N_go_step by lia. apply IH; [apply N.div_lt; lia|]. cbn [all_digits].
  rewrite Hs. destruct (pretty_digit (n `mod` 10)) as [-> _]; [by apply N.mod_lt|done].
Qed.

Lemma is_digit_space c : is_digit c = true -> is_space c = false /\ is_char "-" c = false /\ is_char "+" c = false.
Proof. destruct c as [[] [] [] [] [] [] [] []]; vm_compute; intros H; try discriminate H; auto. Qed.

Lemma rstrip_digits s : all_digits s = true -> rstrip is_space s = s.
Proof.
  induction s as [|c s IH]; [done|]. cbn [all_digits rstrip]. intros [Hc Hs]%andb_true_iff.
  rewrite (IH Hs). destruct s; [|done]. by destruct (is_digit_space c Hc) as [-> _].
Qed.

(** [int(str(z)) == z], and the digits of a natural number read on their own. *)
Lemma str_int_digits z : (0 <= z)%Z ->
  all_digits (str_int z) = true /\ str_true (str_int z) = true /\ digits_val 0 false (str_int z) = Some z.
Proof.
  intros Hz. unfold str_int, pretty, pretty_Z. destruct z as [|p|p]; [done| |lia].
  unfold pretty, pretty_positive, pretty, pretty_N. rewrite decide_False by done.
  assert (Hv : digits_val 0 false (pretty_N_go (N.pos p) "") = Some (Z.pos p)) by (by rewrite digits_val_pretty).
  split; [by apply all_digits_pretty|]. split; [|done].
  destruct (pretty_N_go (N.pos p) ""); [discriminate Hv|done].
Qed.

Lemma parse_int_str_int z : parse_int (str_int z) = Some z.
Proof.
  assert (Hd : forall s n, all_digits s = true -> digits_val 0 false s = Some n -> parse_int s = Some n).
  { intros s n Ha Hv. unfold parse_int, strip, strip_by. destruct s as [|c s]; [discriminate Hv|].
    pose proof Ha as Hc. cbn [all_digits] in Hc. apply andb_true_iff in Hc as [Hc _].
    destruct (is_digit_space c Hc) as (Hs & Hm & Hp). cbn [lstrip]. rewrite Hs, rstrip_digits, Hm, Hp by done. done. }
  destruct (decide (0 <= z)%Z) as [Hz|Hz].
  - destruct (str_int_digits z Hz) as (Ha & _ & Hv). eauto.
  - destruct z as [|p|p]; [lia|lia|]. destruct (str_int_digits (Z.pos p)) as (Ha & Ht & Hv); [done|].
    change (str_int (Z.neg p)) with (String "-" (str_int (Z.pos p))).
    unfold parse_int, strip, strip_by. cbn [lstrip is_space]. 
    change (is_space "-") with false. cbn iota. cbn [rstrip]. rewrite rstrip_digits by done.
    destruct (str_int (Z.pos p)) as [|c s] eqn:E; [discriminate Ht|]. change (is_char "-" "-") with true. cbn iota.
    by rewrite Hv.
Qed.

Create Rewrite HintDb slen.
#[export] Hint Rewrite slen_app slen_stake slen_sdrop slen_smap : slen.

(** Solve a goal about the lengths of strings. *)
Ltac slen := autorewrite with slen in *; simpl in *; try lia.
