(* ===== verification/PyVal.v ===== *)
(** * Python values and dictionaries

    [pyval] covers the run-time values the modelled code inspects: JSON-like
    data, byte strings, the non-list iterables, references to model rows and
    opaque objects.  Dictionaries keep insertion order, as in Python:
    assigning to a present key keeps its place, a new key goes last. *)
From stdpp Require Import base list gmap strings pretty numbers.
From Stdlib Require Import Ascii Lia ZArith.
From S2P Require Import Prelude PyStr.

(** ** Insertion-ordered dictionaries *)
Section odict.
Context {K A : Type} `{!EqDecision K}.

(** [d.get(k)] *)
Fixpoint od_get (k : K) (d : list (K * A)) : option A :=
  match d with
  | [] => None
  | (k', a) :: d' => if decide (k' = k) then Some a else od_get k d'
  end.

(** [d[k] = a] *)
Fixpoint od_set (k : K) (a : A) (d : list (K * A)) : list (K * A) :=
  match d with
  | [] => [(k, a)]
  | (k', b) :: d' => if decide (k' = k) then (k', a) :: d' else (k', b) :: od_set k a d'
  end.

(** [d.pop(k, None)] *)
Fixpoint od_del (k : K) (d : list (K * A)) : list (K * A) :=
  match d with
  | [] => []
  | (k', b) :: d' => if decide (k' = k) then d' else (k', b) :: od_del k d'
  end.

(** [k in d] *)
Definition od_mem (k : K) (d : list (K * A)) : bool :=
  match od_get k d with Some _ => true | None => false end.

(** [d.setdefault(k, a)] *)
Definition od_setdefault (k : K) (a : A) (d : list (K * A)) : list (K * A) :=
  if od_mem k d then d else od_set k a d.

(** [d.update(e)] and the literal with repeated keys. *)
Definition od_update (d e : list (K * A)) : list (K * A) :=
  fold_left (fun acc ka => od_set ka.1 ka.2 acc) e d.
End odict.

(** ** Values *)
Inductive pykey : Type :=
| KStr (s : string)
| KInt (z : Z)
| KNone.

#[export] Instance pykey_eq_dec : EqDecision pykey.
Proof. solve_decision. Defined.

(** [VFloat] carries the repr of the float; [VObj cls str_ repr_] is an object
    of another class, [str_ = None] when its [__str__] raises. *)
Inductive pyval : Type :=
| VNone
| VBool (b : bool)
| VInt (z : Z)
| VFloat (repr_ : string)
| VStr (s : string)
| VBytes (s : string)
| VList (l : list pyval)
| VTuple (l : list pyval)
| VSet (l : list pyval)
| VDict (d : list (pykey * pyval))
| VRef (model : string) (pk : Z)
| VObj (cls : string) (str_ : option string) (repr_ : string).

(** Truth value, as in [if value:]. *)
Definition truthy (v : pyval) : bool :=
  match v with
  | VNone => false
  | VBool b => b
  | VInt z => bool_decide (z <> 0%Z)
  | VFloat r => negb (str_in r ["0.0"; "-0.0"])
  | VStr s | VBytes s => str_true s
  | VList l | VTuple l | VSet l => bool_decide (l <> [])
  | VDict d => bool_decide (d <> [])
  | VRef _ _ | VObj _ _ _ => true
  end.

(** [isinstance(v, dict)] and the like. *)
Definition is_dict (v : pyval) : bool := match v with VDict _ => true | _ => false end.
Definition is_str (v : pyval) : bool := match v with VStr _ => true | _ => false end.

(** [d.get(k)] on a value known to be a dict with string keys. *)
Definition dict_get (k : string) (v : pyval) : option pyval :=
  match v with VDict d => od_get (KStr k) d | _ => None end.

(** *** [repr] and [str] *)
Definition printable (c : ascii) : bool :=
  let n := ord c in
  ((32 <=? n) && (n <=? 126)) || ((161 <=? n) && negb (n =? 173)).

Definition repr_char (q : ascii) (keep : ascii -> bool) (c : ascii) : string :=
  if bool_decide (c = "\"%char) then "\\"
  else if bool_decide (c = q) then String "\" (String q "")
  else if bool_decide (ord c = 10) then "\n"
  else if bool_decide (ord c = 13) then "\r"
  else if bool_decide (ord c = 9) then "\t"
  else if keep c then String c ""
  else "\x" +:+ hex2 (ord c).

Definition dquote : ascii := chr 34.
Definition squote : ascii := chr 39.

Definition repr_str_with (keep : ascii -> bool) (s : string) : string :=
  let q := if contains (String squote "") s && negb (contains (String dquote "") s)
           then dquote else squote in
  String q (sbind (repr_char q keep) s) +:+ String q "".

Definition repr_str (s : string) : string := repr_str_with printable s.
Definition repr_bytes (s : string) : string :=
  "b" +:+ repr_str_with (fun c => (32 <=? ord c) && (ord c <=? 126)) s.

Definition repr_key (k : pykey) : string :=
  match k with
  | KStr s => repr_str s
  | KInt z => str_int z
  | KNone => "None"
  end.

(** [str(key)] of a dictionary key. *)
Definition str_key (k : pykey) : string :=
  match k with
  | KStr s => s
  | _ => repr_key k
  end.

Fixpoint py_repr (v : pyval) : string :=
  let items := fix items (l : list pyval) : list string :=
    match l with [] => [] | x :: l' => py_repr x :: items l' end in
  let pairs := fix pairs (d : list (pykey * pyval)) : list string :=
    match d with
    | [] => []
    | (k, x) :: d' => (repr_key k +:+ ": " +:+ py_repr x) :: pairs d'
    end in
  match v with
  | VNone => "None"
  | VBool b => if b then "True" else "False"
  | VInt z => str_int z
  | VFloat r => r
  | VStr s => repr_str s
  | VBytes s => repr_bytes s
  | VList l => "[" +:+ join ", " (items l) +:+ "]"
  | VTuple [x] => "(" +:+ py_repr x +:+ ",)"
  | VTuple l => "(" +:+ join ", " (items l) +:+ ")"
  | VSet [] => "set()"
  | VSet l => "{" +:+ join ", " (items l) +:+ "}"
  | VDict d => "{" +:+ join ", " (pairs d) +:+ "}"
  | VRef m pk => m +:+ " object (" +:+ str_int pk +:+ ")"
  | VObj _ _ r => r
  end.

(** [str(v)]; [None] when [__str__] raises. *)
Definition py_str (v : pyval) : option string :=
  match v with
  | VStr s => Some s
  | VObj _ s _ => s
  | _ => Some (py_repr v)
  end.

(** The recursion depth of a value, the measure for code that descends. *)
Fixpoint vdepth (v : pyval) : nat :=
  let maxl := fix maxl (l : list pyval) : nat :=
    match l with [] => 0 | x :: l' => Nat.max (vdepth x) (maxl l') end in
  let maxd := fix maxd (d : list (pykey * pyval)) : nat :=
    match d with [] => 0 | (_, x) :: d' => Nat.max (vdepth x) (maxd d') end in
  match v with
  | VList l | VTuple l | VSet l => S (maxl l)
  | VDict d => S (maxd d)
  | _ => 0
  end.

(** ** Laws of the dictionaries *)
Section odict_laws.
Context {K A : Type} `{!EqDecision K}.
Implicit Types (d e : list (K * A)) (k : K) (a : A).

Lemma od_get_set_eq k a d : od_get k (od_set k a d) = Some a.
Proof.
  induction d as [|[k' b] d IH]; simpl; [by rewrite decide_True|].
  case_decide; simpl; [by rewrite decide_True|]. by rewrite decide_False.
Qed.

Lemma od_set_new k a d : od_get k d = None -> od_set k a d = d ++ [(k, a)].
Proof.
  induction d as [|[k' b] d IH]; [done|]. cbn [od_get od_set]. destruct (decide _); [done|].
  intros Hd. by rewrite IH.
Qed.

Lemma od_get_set_ne k k' a d : k <> k' -> od_get k' (od_set k a d) = od_get k' d.
Proof.
  intros Hne. induction d as [|[k1 b] d IH]; simpl; [by rewrite decide_False|].
  case_decide; simpl; subst; [by rewrite !decide_False|].
  by rewrite IH.
Qed.

Lemma od_get_set k k' a d :
  od_get k' (od_set k a d) = if decide (k = k') then Some a else od_get k' d.
Proof. case_decide; subst; [apply od_get_set_eq|by apply od_get_set_ne]. Qed.

Lemma od_get_del_ne k k' d : k <> k' -> od_get k' (od_del k d) = od_get k' d.
Proof.
  intros Hne. induction d as [|[k1 b] d IH]; simpl; [done|].
  case_decide; simpl; subst; [by rewrite decide_False|]. by rewrite IH.
Qed.

Lemma od_get_elem k a d : od_get k d = Some a -> (k, a) ∈ d.
Proof.
  induction d as [|[k' b] d IH]; simpl; [done|]. case_decide; subst; intros; simplify_eq.
  - left.
  - right. auto.
Qed.

Lemma od_get_None k d : od_get k d = None <-> k ∉ d.*1.
Proof.
  induction d as [|[k' b] d IH]; simpl.
  - split; [intros _; apply not_elem_of_nil|done].
  - rewrite not_elem_of_cons. case_decide; naive_solver.
Qed.

Lemma elem_od_get k a d : NoDup d.*1 -> (k, a) ∈ d -> od_get k d = Some a.
Proof.
  induction d as [|[k' b] d IH]; simpl; [by intros _ ?%not_elem_of_nil|].
  rewrite list.NoDup_cons. intros [Hk Hd] [?|?]%elem_of_cons; simplify_eq.
  - by rewrite decide_True.
  - rewrite decide_False; [auto|]. intros ->. apply Hk. apply list_elem_of_fmap. by exists (k, a).
Qed.

Lemma od_set_keys k a d : (od_set k a d).*1 = if decide (k ∈ d.*1) then d.*1 else d.*1 ++ [k].
Proof.
  induction d as [|[k' b] d IH]; [done|]. simpl od_set.
  destruct (decide (k' = k)) as [->|Hk]; rewrite !fmap_cons; cbn [fst].
  - rewrite decide_True; [done|]. left.
  - rewrite IH. destruct (decide (k ∈ d.*1)) as [H1|H1].
    + rewrite decide_True; [done|]. by right.
    + rewrite decide_False; [done|]. rewrite elem_of_cons. naive_solver.
Qed.

Lemma od_set_NoDup k a d : NoDup d.*1 -> NoDup (od_set k a d).*1.
Proof.
  intros Hd. rewrite od_set_keys. case_decide; [done|].
  apply list.NoDup_app. repeat split; [done| |apply NoDup_singleton].
  intros x ? ->%list_elem_of_singleton. done.
Qed.

Lemma od_get_perm d e k : NoDup d.*1 -> d ≡ₚ e -> od_get k d = od_get k e.
Proof.
  intros Hnd Hp. assert (NoDup e.*1) as Hne by by rewrite <- Hp.
  destruct (od_get k e) as [a|] eqn:E.
  - apply od_get_elem in E. apply elem_od_get; [done|]. by rewrite Hp.
  - apply od_get_None. apply od_get_None in E. by rewrite Hp.
Qed.

Lemma od_setdefault_get k a d : od_get k (od_setdefault k a d) = or_else (od_get k d) (Some a).
Proof.
  unfold od_setdefault, od_mem. destruct (od_get k d) eqn:H; simpl; [done|]. apply od_get_set_eq.
Qed.

Lemma od_setdefault_get_ne k k' a d : k <> k' -> od_get k' (od_setdefault k a d) = od_get k' d.
Proof. intros. unfold od_setdefault. case_match; [done|]. by apply od_get_set_ne. Qed.

Lemma od_mem_spec k d : od_mem k d = true <-> k ∈ d.*1.
Proof.
  unfold od_mem. destruct (od_get k d) eqn:H.
  - split; [|done]. intros _. destruct (decide (k ∈ d.*1)) as [|Hn]; [done|].
    apply od_get_None in Hn. congruence.
  - apply od_get_None in H. naive_solver.
Qed.
End odict_laws.

#[export] Hint Resolve od_get_set_eq od_set_NoDup : py.

