(* ===== verification/Context.v ===== *)
(** * Request and domain context

    [apps/core/context.py] (the request-id slot) and the context half of
    [apps/core/utils/logging.py]: the legacy shims, [domain_context] and
    [RequestContextFilter].  A [ContextVar] is a slot with one-shot reset
    tokens; the four variables of the source live in one record [ctxs]. *)
From stdpp Require Import base list gmap strings pretty numbers.
From Stdlib Require Import Lia ZArith.
From S2P Require Import Prelude PyStr PyVal.

(** ** [contextvars.ContextVar] *)

(** [cv_cur = None] is the unset variable; [cv_used] holds the tokens already
    consumed by [reset]; tokens are numbered from 0. *)
Record ctxvar (V : Type) := CtxVar {
  cv_cur : option V;
  cv_next : nat;
  cv_used : gset nat;
}.
Arguments CtxVar {V}. Arguments cv_cur {V}. Arguments cv_next {V}. Arguments cv_used {V}.

Record token (V : Type) := Token { tok_id : nat; tok_old : option V }.
Arguments Token {V}. Arguments tok_id {V}. Arguments tok_old {V}.

Inductive ctx_exn := TokenUsed.

(** [var.get(default)] *)
Definition cv_get {V} (default : V) (v : ctxvar V) : V :=
  match cv_cur v with
  | Some x => x
  | None => default
  end.

(** [var.set(x)] and the token it returns. *)
Definition cv_set {V} (x : V) (v : ctxvar V) : token V * ctxvar V :=
  (Token (cv_next v) (cv_cur v), CtxVar (Some x) (S (cv_next v)) (cv_used v)).

(** [var.reset(token)]: a token works once. *)
Definition cv_reset {V} (t : token V) (v : ctxvar V) : result ctx_exn (ctxvar V) :=
  if decide (tok_id t ∈ cv_used v) then Raise TokenUsed
  else Ok (CtxVar (tok_old t) (cv_next v) ({[tok_id t]} ∪ cv_used v)).

Definition cv_empty {V} : ctxvar V := CtxVar None 0 ∅.

(** ** The variables of the program *)

(** [request_id_ctx] holds an optional string, default [None]; the other three
    are declared in [core/utils/logging.py] with default [None]. *)
Record ctxs := Ctxs {
  request_id_ctx : ctxvar (option string);
  partner_id_var : ctxvar (option Z);
  app_number_var : ctxvar (option string);
  query_id_var : ctxvar (option Z);
}.

Definition ctxs_empty : ctxs := Ctxs cv_empty cv_empty cv_empty cv_empty.

Definition with_request_id (v : ctxvar (option string)) (s : ctxs) : ctxs :=
  Ctxs v (partner_id_var s) (app_number_var s) (query_id_var s).
Definition with_partner_id (v : ctxvar (option Z)) (s : ctxs) : ctxs :=
  Ctxs (request_id_ctx s) v (app_number_var s) (query_id_var s).
Definition with_app_number (v : ctxvar (option string)) (s : ctxs) : ctxs :=
  Ctxs (request_id_ctx s) (partner_id_var s) v (query_id_var s).
Definition with_query_id (v : ctxvar (option Z)) (s : ctxs) : ctxs :=
  Ctxs (request_id_ctx s) (partner_id_var s) (app_number_var s) v.

(** *** [core/context.py] *)

Definition set_request_context (rid : option string) : act ctxs ctx_exn (token (option string)) :=
  fun s =>
    let '(t, v) := cv_set rid (request_id_ctx s) in
    (Ok t, with_request_id v s).

Definition clear_request_context (t : option (token (option string))) : act ctxs ctx_exn unit :=
  fun s =>
    match t with
    | Some t =>
        match cv_reset t (request_id_ctx s) with
        | Ok v => (Ok tt, with_request_id v s)
        | Raise e => (Raise e, s)
        end
    | None => (Ok tt, with_request_id (snd (cv_set None (request_id_ctx s))) s)
    end.

Definition get_request_id (s : ctxs) : option string := cv_get None (request_id_ctx s).

(** *** The shims of [core/utils/logging.py] *)

Definition legacy_set_request_context (rid : option string) : act ctxs ctx_exn unit :=
  match rid with
  | Some r => set_request_context (Some r) ≫= fun _ => mret tt
  | None => mret tt
  end.

Definition legacy_clear_request_context : act ctxs ctx_exn unit := clear_request_context None.

(** *** [domain_context] *)

(** An entry of [tokens]: which variable, and the token to reset it with. *)
Inductive dtoken :=
| TPartner (t : token (option Z))
| TApp (t : token (option string))
| TQuery (t : token (option Z)).

(** [var.reset(token)] for one entry of [tokens]. *)
Definition reset_one (d : dtoken) : act ctxs ctx_exn unit := fun s =>
  match d with
  | TPartner t =>
      match cv_reset t (partner_id_var s) with
      | Ok v => (Ok tt, with_partner_id v s)
      | Raise e => (Raise e, s)
      end
  | TApp t =>
      match cv_reset t (app_number_var s) with
      | Ok v => (Ok tt, with_app_number v s)
      | Raise e => (Raise e, s)
      end
  | TQuery t =>
      match cv_reset t (query_id_var s) with
      | Ok v => (Ok tt, with_query_id v s)
      | Raise e => (Raise e, s)
      end
  end.

(** The entry half: push the supplied identifiers, collecting the tokens. *)
Definition push_domain (partner_id : option Z) (app_number : option string)
    (query_id : option Z) (s0 : ctxs) : list dtoken * ctxs :=
  let '(ts1, s1) :=
    match partner_id with
    | Some p => let '(t, v) := cv_set (Some p) (partner_id_var s0) in
                ([TPartner t], with_partner_id v s0)
    | None => ([], s0)
    end in
  let '(ts2, s2) :=
    match app_number with
    | Some a => let '(t, v) := cv_set (Some a) (app_number_var s1) in
                (ts1 ++ [TApp t], with_app_number v s1)
    | None => (ts1, s1)
    end in
  match query_id with
  | Some q => let '(t, v) := cv_set (Some q) (query_id_var s2) in
              (ts2 ++ [TQuery t], with_query_id v s2)
  | None => (ts2, s2)
  end.

(** [with domain_context(...): body]; the [finally] clause resets in reverse
    order, and a raise inside it replaces the body's outcome. *)
Definition domain_context {A} (partner_id : option Z) (app_number : option string)
    (query_id : option Z) (body : act ctxs ctx_exn A) : act ctxs ctx_exn A := fun s0 =>
  let '(tokens, s1) := push_domain partner_id app_number query_id s0 in
  let '(r, s2) := body s1 in
  match for_each reset_one (reverse tokens) s2 with
  | (Ok _, s3) => (r, s3)
  | (Raise e, s3) => (Raise e, s3)
  end.

(** *** [RequestContextFilter.filter] *)

(** A log record is its attribute dictionary. *)
Abbreviation log_record := (list (string * pyval)).

Definition attr_if_missing (name : string) (v : option pyval) (r : log_record) : log_record :=
  match v with
  | Some x => if od_mem name r then r else od_set name x r
  | None => r
  end.

Definition request_context_filter (s : ctxs) (r : log_record) : bool * log_record :=
  let rid :=
    match get_request_id s with
    | Some i => if str_true i then VStr i
                else default VNone (od_get "request_id" r)
    | None => default VNone (od_get "request_id" r)
    end in
  let r1 := od_set "request_id" rid r in
  let r2 := attr_if_missing "partner_id" (VInt <$> cv_get None (partner_id_var s)) r1 in
  let r3 := attr_if_missing "app_number" (VStr <$> cv_get None (app_number_var s)) r2 in
  let r4 := attr_if_missing "query_id" (VInt <$> cv_get None (query_id_var s)) r3 in
  (true, r4).

(** ** Properties *)

(** The identifiers a log record would be stamped with. *)
Definition domain_ids (s : ctxs) : option Z * option string * option Z :=
  (cv_get None (partner_id_var s), cv_get None (app_number_var s), cv_get None (query_id_var s)).

(** Code that holds no token of an enclosing block leaves them unused. *)
Definition cv_kept {V} (v v' : ctxvar V) : Prop :=
  (cv_next v <= cv_next v') /\
  (forall i, i < cv_next v -> i ∈ cv_used v' -> i ∈ cv_used v).
Definition keeps_tokens {A} (body : act ctxs ctx_exn A) : Prop :=
  forall s r s', body s = (r, s') ->
    cv_kept (partner_id_var s) (partner_id_var s') /\
    cv_kept (app_number_var s) (app_number_var s') /\
    cv_kept (query_id_var s) (query_id_var s').

(** Tokens are handed out in order, so the used ones are below the counter. *)
Definition cv_wf {V} (v : ctxvar V) : Prop := forall i, i ∈ cv_used v -> i < cv_next v.
Definition ctxs_wf (s : ctxs) : Prop :=
  cv_wf (partner_id_var s) /\ cv_wf (app_number_var s) /\ cv_wf (query_id_var s).

Lemma cv_reset_fresh {V} (t : token V) v :
  tok_id t ∉ cv_used v ->
  cv_reset t v = Ok (CtxVar (tok_old t) (cv_next v) ({[tok_id t]} ∪ cv_used v)).
Proof. intros. unfold cv_reset. by rewrite decide_False. Qed.

Lemma cv_wf_next {V} (v : ctxvar V) : cv_wf v -> cv_next v ∉ cv_used v.
Proof. intros H Hin. specialize (H _ Hin). lia. Qed.

(** Inside the block the supplied identifiers win, the others show through. *)
Lemma push_domain_ids p a q s :
  domain_ids (snd (push_domain p a q s)) =
  (or_else p (cv_get None (partner_id_var s)), or_else a (cv_get None (app_number_var s)),
   or_else q (cv_get None (query_id_var s))).
Proof. unfold push_domain, domain_ids. destruct p, a, q; done. Qed.

(** After the block a supplied variable is back to its value before it, and
    the reset itself never fails. *)
Lemma reset_domain p a q s s2 :
  let '(tokens, s1) := push_domain p a q s in
  ctxs_wf s ->
  cv_kept (partner_id_var s1) (partner_id_var s2) ->
  cv_kept (app_number_var s1) (app_number_var s2) ->
  cv_kept (query_id_var s1) (query_id_var s2) ->
  exists s3, for_each reset_one (reverse tokens) s2 = (Ok tt, s3) /\
    cv_cur (partner_id_var s3) = cv_cur (partner_id_var (if p is Some _ then s else s2)) /\
    cv_cur (app_number_var s3) = cv_cur (app_number_var (if a is Some _ then s else s2)) /\
    cv_cur (query_id_var s3) = cv_cur (query_id_var (if q is Some _ then s else s2)) /\
    request_id_ctx s3 = request_id_ctx s2.
Proof.
  assert (Hfresh : forall V (v v' : ctxvar V) x, cv_wf v ->
    cv_kept (CtxVar (Some x) (S (cv_next v)) (cv_used v)) v' ->
    cv_next v ∉ cv_used v').
  { intros V v v' x Hwf [_ Hk] Hin. apply Hk in Hin; simpl in *; [|lia].
    by apply cv_wf_next in Hwf. }
  destruct p, a, q; cbn; intros (Hp & Ha & Hq) Kp Ka Kq;
    unfold mbind, act_bind, mret, act_ret, reset_one; cbn;
    repeat (rewrite cv_reset_fresh by (cbn; eauto); cbn);
    eexists; (split; [reflexivity|cbn; auto]).
Qed.

(** A [domain_context] block runs its body with the supplied identifiers
    in force (the others showing through), returns or raises exactly what the
    body did, and on the way out puts every supplied variable back to its
    value before the block, whatever the body did to it; so nested blocks
    compose. *)
Theorem domain_context_scoped {A} p a q (body : act ctxs ctx_exn A) s :
  ctxs_wf s ->
  keeps_tokens body ->
  exists s1 r s2 s3,
    domain_ids s1 = (or_else p (cv_get None (partner_id_var s)),
      or_else a (cv_get None (app_number_var s)), or_else q (cv_get None (query_id_var s))) /\
    body s1 = (r, s2) /\
    domain_context p a q body s = (r, s3) /\
    cv_cur (partner_id_var s3) = cv_cur (partner_id_var (if p is Some _ then s else s2)) /\
    cv_cur (app_number_var s3) = cv_cur (app_number_var (if a is Some _ then s else s2)) /\
    cv_cur (query_id_var s3) = cv_cur (query_id_var (if q is Some _ then s else s2)) /\
    request_id_ctx s3 = request_id_ctx s2.
Proof.
  intros Hwf Hbody. pose proof (push_domain_ids p a q s) as Hids.
  unfold domain_context. pose proof (reset_domain p a q s) as Hreset.
  destruct (push_domain p a q s) as [tokens s1]. simpl in Hids.
  destruct (body s1) as [r s2] eqn:Hrun.
  destruct (Hbody _ _ _ Hrun) as (Kp & Ka & Kq).
  destruct (Hreset s2 Hwf Kp Ka Kq) as (s3 & Hr & H).
  exists s1, r, s2, s3. rewrite Hr. auto.
Qed.

(** A body that overwrites a variable of the block and then fails. *)
Definition sample_body : act ctxs ctx_exn unit := fun s =>
  (Raise TokenUsed, with_query_id (snd (cv_set (Some 5%Z) (query_id_var s))) s).

Lemma domain_context_scoped_witness :
  exists s1 r s2 s3,
    domain_ids s1 = (Some 1%Z, None, Some 9%Z) /\
    sample_body s1 = (r, s2) /\
    domain_context (Some 1%Z) None (Some 9%Z) sample_body ctxs_empty = (r, s3) /\
    cv_cur (partner_id_var s3) = None /\
    cv_cur (app_number_var s3) = cv_cur (app_number_var s2) /\
    cv_cur (query_id_var s3) = None /\
    request_id_ctx s3 = request_id_ctx s2.
Proof.
  apply (domain_context_scoped (Some 1%Z) None (Some 9%Z) sample_body ctxs_empty).
  - repeat split; intros i Hi; cbn in Hi; set_solver.
  - intros s r s' H. unfold sample_body in H. injection H as <- <-.
    unfold cv_kept. cbn. repeat split; auto.
Defined.

(** [clear_request_context(token)] undoes the matching
    [set_request_context]: after set, any balanced code that leaves the token
    alone and clear, the request id is the one before the set; without a token
    the slot is cleared. *)
Theorem request_context_roundtrip rid s :
  cv_wf (request_id_ctx s) ->
  exists t s1 s2,
    set_request_context rid s = (Ok t, s1) /\ get_request_id s1 = rid /\
    clear_request_context (Some t) s1 = (Ok tt, s2) /\
    get_request_id s2 = get_request_id s /\
    clear_request_context (Some t) s2 = (Raise TokenUsed, s2) /\
    get_request_id (snd (clear_request_context None s1)) = None.
Proof.
  intros Hwf. eexists _, _, _. split; [reflexivity|]. split; [reflexivity|].
  unfold clear_request_context. cbn.
  rewrite cv_reset_fresh by (cbn; by apply cv_wf_next). cbn.
  split; [reflexivity|]. split; [reflexivity|]. split; [|reflexivity].
  unfold cv_reset. cbn. rewrite decide_True by set_solver. reflexivity.
Qed.

Lemma request_context_roundtrip_witness :
  exists t s1 s2,
    set_request_context (Some "req-1") ctxs_empty = (Ok t, s1) /\
    get_request_id s1 = Some "req-1" /\
    clear_request_context (Some t) s1 = (Ok tt, s2) /\
    get_request_id s2 = get_request_id ctxs_empty /\
    clear_request_context (Some t) s2 = (Raise TokenUsed, s2) /\
    get_request_id (snd (clear_request_context None s1)) = None.
Proof.
  apply (request_context_roundtrip (Some "req-1") ctxs_empty).
  intros i Hi. cbn in Hi. set_solver.
Defined.
