(* ===== verification/Exceptions.v ===== *)
(** * The exception hierarchy

    [core/base/exception.py], [core/exceptions/*.py] and
    [accounts/exceptions.py]: the classes with their class attributes and
    inheritance, construction, [get_error_code], [get_details],
    [to_error_dict], and the helpers of [core/exceptions/utils.py].

    [ResilienceKitError], the kit's root class, stands for nothing here but
    the place above [BaseCustomError]; the code relies on it declaring no
    [status_code] (the handler would otherwise never reach its map). *)
From stdpp Require Import base list gmap strings pretty numbers.
From Stdlib Require Import Ascii Lia ZArith.
From S2P Require Import Prelude PyStr PyVal.

(** ** Classes *)

(** [Subclass name parent code message status] is a class a downstream app
    derives, with the class attributes it overrides. *)
Inductive exn_class :=
| BaseCustomError
| APIError
| AuthenticationFailedError | APIKeyRevokedError | PermissionDeniedError
| TokenExpiredError | TokenInvalidError | TokenRevokedError
| InfrastructureError | ServiceUnavailableError | ExternalServiceError
| TransientError | ExternalTimeoutError | S3Exception | S3NotFoundError
| SESException | OutboundURLNotAllowedError | PartnerPushError
| RateLimitError
| RepositoryError | EntityNotFoundError | InactiveParentError | InvalidInputError
| ValidationError
| APIKeyGenerationError | NoFieldsToUpdateError | InvalidTimezoneError
| Subclass (name : string) (parent : exn_class)
    (code : option string) (message : option string) (status : option Z).

#[export] Instance exn_class_eq_dec : EqDecision exn_class.
Proof. solve_decision. Defined.

(** The statement [class Name(Parent)] with the attributes its body sets;
    [d_parent = None] above the root of the hierarchy. *)
Record decl := Decl {
  d_class : exn_class;
  d_name : string;
  d_parent : option exn_class;
  d_message : option string;
  d_code : option string;
  d_status : option Z;
}.

(** [core/base/exception.py] *)
Definition base_decls : list decl :=
  [Decl BaseCustomError "BaseCustomError" None
     (Some "An unexpected error occurred.")
     None None].

(** [core/exceptions/auth.py] *)
Definition auth_decls : list decl :=
  [Decl AuthenticationFailedError "AuthenticationFailedError" (Some BaseCustomError)
     (Some "Authentication failed.")
     (Some "AUTHENTICATION_FAILED") (Some 401%Z);
   Decl APIKeyRevokedError "APIKeyRevokedError" (Some AuthenticationFailedError)
     (Some "API key has been revoked.")
     (Some "API_KEY_REVOKED") None;
   Decl PermissionDeniedError "PermissionDeniedError" (Some BaseCustomError)
     (Some "Permission denied.")
     (Some "PERMISSION_DENIED") (Some 403%Z);
   Decl TokenExpiredError "TokenExpiredError" (Some AuthenticationFailedError)
     (Some "Token has expired.")
     (Some "TOKEN_EXPIRED") None;
   Decl TokenInvalidError "TokenInvalidError" (Some AuthenticationFailedError)
     (Some "Token is invalid.")
     (Some "TOKEN_INVALID") None;
   Decl TokenRevokedError "TokenRevokedError" (Some AuthenticationFailedError)
     (Some "Token has been revoked.")
     (Some "TOKEN_REVOKED") None].

(** [core/exceptions/infrastructure.py], first half *)
Definition infrastructure_decls : list decl :=
  [Decl InfrastructureError "InfrastructureError" (Some BaseCustomError)
     (Some "An internal system error occurred.")
     (Some "INFRASTRUCTURE_ERROR") None;
   Decl ServiceUnavailableError "ServiceUnavailableError" (Some InfrastructureError)
     (Some "Service is currently unavailable.")
     (Some "SERVICE_UNAVAILABLE") None;
   Decl ExternalServiceError "ExternalServiceError" (Some InfrastructureError)
     (Some "An external service error occurred.")
     (Some "EXTERNAL_SERVICE_ERROR") None;
   Decl TransientError "TransientError" (Some ExternalServiceError)
     (Some "A temporary failure occurred. Please retry.")
     (Some "TRANSIENT_ERROR") None;
   Decl ExternalTimeoutError "ExternalTimeoutError" (Some ExternalServiceError)
     (Some "External service call timed out.")
     (Some "EXTERNAL_TIMEOUT") None].

(** [core/exceptions/infrastructure.py], second half *)
Definition external_decls : list decl :=
  [Decl S3Exception "S3Exception" (Some ExternalServiceError)
     (Some "An S3 operation failed.")
     (Some "S3_ERROR") None;
   Decl S3NotFoundError "S3NotFoundError" (Some S3Exception)
     (Some "S3 object not found.")
     (Some "S3_NOT_FOUND_ERROR") None;
   Decl SESException "SESException" (Some ExternalServiceError)
     (Some "An SES email operation failed.")
     (Some "SES_ERROR") None;
   Decl OutboundURLNotAllowedError "OutboundURLNotAllowedError" (Some InfrastructureError)
     (Some "Outbound URL is not allowed.")
     (Some "OUTBOUND_URL_NOT_ALLOWED") None;
   Decl PartnerPushError "PartnerPushError" (Some ExternalServiceError)
     (Some "Failed to push lead to partner.")
     (Some "PARTNER_PUSH_ERROR") None].

(** [core/exceptions/repository.py] *)
Definition repository_decls : list decl :=
  [Decl RepositoryError "RepositoryError" (Some BaseCustomError)
     (Some "A data access error occurred.")
     (Some "REPOSITORY_ERROR") None;
   Decl EntityNotFoundError "EntityNotFoundError" (Some RepositoryError)
     (Some "Entity not found.")
     (Some "ENTITY_NOT_FOUND") None;
   Decl InactiveParentError "InactiveParentError" (Some RepositoryError)
     (Some "Cannot activate: parent resource is inactive.")
     (Some "INACTIVE_PARENT") None;
   Decl InvalidInputError "InvalidInputError" (Some RepositoryError)
     (Some "Invalid input.")
     (Some "INVALID_INPUT") None].

(** [core/exceptions/validation.py], [rate_limit.py] and [api.py] *)
Definition validation_decls : list decl :=
  [Decl ValidationError "ValidationError" (Some BaseCustomError)
     (Some "Validation failed.")
     (Some "VALIDATION_ERROR") (Some 400%Z)].
Definition rate_limit_decls : list decl :=
  [Decl RateLimitError "RateLimitError" (Some BaseCustomError)
     (Some "Rate limit exceeded.")
     (Some "RATE_LIMITED") (Some 429%Z)].
Definition api_decls : list decl :=
  [Decl APIError "APIError" (Some BaseCustomError)
     (Some "HTTP request failed.")
     (Some "API_ERROR") (Some 502%Z)].

(** [accounts/exceptions.py] *)
Definition accounts_decls : list decl :=
  [Decl APIKeyGenerationError "APIKeyGenerationError" (Some InfrastructureError)
     (Some "Failed to generate a unique API key prefix after 3 attempts.")
     (Some "API_KEY_GENERATION") None;
   Decl NoFieldsToUpdateError "NoFieldsToUpdateError" (Some BaseCustomError)
     (Some "No valid fields to update.")
     (Some "NO_FIELDS_TO_UPDATE") None;
   Decl InvalidTimezoneError "InvalidTimezoneError" (Some BaseCustomError)
     (Some "Invalid timezone. Use a valid IANA timezone identifier.")
     (Some "INVALID_TIMEZONE") None].

Definition all_decls : list decl :=
  base_decls ++ auth_decls ++ infrastructure_decls ++ external_decls ++ repository_decls ++
  validation_decls ++ rate_limit_decls ++ api_decls ++ accounts_decls.

Definition decl_of (c : exn_class) : option decl :=
  match c with
  | Subclass n p code m s => Some (Decl c n (Some p) m code s)
  | _ => List.find (fun d => bool_decide (d_class d = c)) all_decls
  end.

(** The base class. *)
Definition parent (c : exn_class) : option exn_class := d ← decl_of c; d_parent d.

(** Number of [Subclass] layers; the built-in part is at most four deep. *)
Fixpoint layers (c : exn_class) : nat :=
  match c with
  | Subclass _ p _ _ _ => S (layers p)
  | _ => 5
  end.

(** The method resolution order. *)
Fixpoint mro_fuel (n : nat) (c : exn_class) : list exn_class :=
  match n with
  | O => []
  | S n' => c :: match parent c with Some p => mro_fuel n' p | None => [] end
  end.
Definition mro (c : exn_class) : list exn_class := mro_fuel (layers c) c.

(** [issubclass(c, d)] *)
Definition subclass (c d : exn_class) : bool := bool_decide (d ∈ mro c).

(** [type(exc).__name__] *)
Definition class_name (c : exn_class) : string := default "" (d_name <$> decl_of c).

(** The attributes a class body declares itself. *)
Definition own_message (c : exn_class) : option string := d ← decl_of c; d_message d.
Definition own_code (c : exn_class) : option string := d ← decl_of c; d_code d.
Definition own_status (c : exn_class) : option Z := d ← decl_of c; d_status d.

(** Attribute lookup along the method resolution order. *)
Definition class_attr {A} (own : exn_class -> option A) (c : exn_class) : option A :=
  head (omap own (mro c)).

Definition default_message (c : exn_class) : string := default "" (class_attr own_message c).
Definition error_code (c : exn_class) : option string := class_attr own_code c.
Definition class_status (c : exn_class) : option Z := class_attr own_status c.

(** ** Error codes from class names *)

(** [re.sub(r"(Error|Exception)$", "", name)] on a name with no line break. *)
Definition strip_error_suffix (name : string) : string :=
  if endswith "Error" name then stake (slen name - 5) name
  else if endswith "Exception" name then stake (slen name - 9) name
  else name.

(** [re.sub(r"(?<=[a-z0-9])(?=[A-Z])", "_", name)] *)
Fixpoint insert_underscores (s : string) : string :=
  match s with
  | String c (String d _ as s') =>
      if (is_lower c || is_digit c) && is_upper d
      then String c (String "_" (insert_underscores s'))
      else String c (insert_underscores s')
  | _ => s
  end.

Definition derive_error_code (name : string) (strip_suffix : bool) : string :=
  upper (insert_underscores (if strip_suffix then strip_error_suffix name else name)).

(** ** Instances *)

(** What the constructors of the various classes store besides the message. *)
Inductive payload :=
| PPlain
| PEntity (entity_name : string) (entity_id : pyval)
| PService (service_name : string)
| PRate (limit window_seconds retry_after remaining reset_at : Z)
| PValidation (field : option string) (details : list (pykey * pyval))
| PApi (response_body : option string) (details : list (pykey * pyval)).

(** [e_status] is the instance attribute set by [status_code=...]. *)
Record exc := Exc {
  e_class : exn_class;
  e_message : string;
  e_status : option Z;
  e_request_id : option string;
  e_payload : payload;
}.

(** [BaseCustomError.__init__]; [rid] is [get_request_id()] at the time. *)
Definition base_init (c : exn_class) (message : option string) (status_code : option Z)
    (rid : option string) (p : payload) : exc :=
  let m := match message with
           | Some m => str_or m (default_message c)
           | None => default_message c
           end in
  Exc c m status_code rid p.

Definition entity_not_found (entity_name : string) (entity_id : pyval) (status_code : option Z)
    (rid : option string) : exc :=
  base_init EntityNotFoundError
    (Some (entity_name +:+ " with id=" +:+ default "" (py_str entity_id) +:+ " not found."))
    status_code rid (PEntity entity_name entity_id).

Definition inactive_parent (message : option string) (status_code : option Z)
    (rid : option string) : exc :=
  base_init InactiveParentError
    (Some (match message with
           | Some m => str_or m (default_message InactiveParentError)
           | None => default_message InactiveParentError
           end)) status_code rid PPlain.

Definition service_unavailable (service_name : string) (message : option string)
    (status_code : option Z) (rid : option string) : exc :=
  let fallback :=
    "Service '" +:+ service_name +:+ "' is currently unavailable (circuit breaker open)." in
  base_init ServiceUnavailableError
    (Some (match message with Some m => str_or m fallback | None => fallback end))
    status_code rid (PService service_name).

Definition rate_limit_error (limit window_seconds retry_after remaining reset_at : Z)
    (message : option string) (rid : option string) : exc :=
  let fallback :=
    "Rate limit exceeded (" +:+ str_int limit +:+ "/" +:+ str_int window_seconds +:+ "s)." in
  base_init RateLimitError
    (Some (match message with Some m => str_or m fallback | None => fallback end))
    None rid (PRate limit window_seconds (Z.max 1 retry_after) remaining reset_at).

Definition validation_error (message field : option string)
    (details : option (list (pykey * pyval))) (rid : option string) : exc :=
  base_init ValidationError message None rid (PValidation field (default [] details)).

Definition api_error (message : option string) (status_code : option Z)
    (response_body : option string) (details : option (list (pykey * pyval)))
    (rid : option string) : exc :=
  base_init APIError message status_code rid (PApi response_body (default [] details)).

(** [getattr(exc, "status_code", None)]; [None] is "no such attribute". *)
Definition status_attr (e : exc) : option Z := or_else (e_status e) (class_status (e_class e)).

Definition get_error_code (e : exc) : string :=
  let derived := derive_error_code (class_name (e_class e)) true in
  match error_code (e_class e) with
  | Some c => str_or c derived
  | None => derived
  end.

Definition vopt_str (o : option string) : pyval :=
  match o with Some s => VStr s | None => VNone end.

Definition get_details (e : exc) : option (list (pykey * pyval)) :=
  match e_payload e with
  | PPlain => None
  | PEntity n i => Some [(KStr "entity_name", VStr n); (KStr "entity_id", i)]
  | PService n => Some [(KStr "service_name", VStr n)]
  | PRate l w r m t =>
      Some [(KStr "limit", VInt l); (KStr "window_seconds", VInt w);
            (KStr "retry_after", VInt r); (KStr "remaining", VInt m);
            (KStr "reset_at", VInt t)]
  | PValidation _ d => match d with [] => None | _ => Some d end
  | PApi b d =>
      let d1 := match b with
                | Some s => od_set (KStr "response_body") (VStr s) d
                | None => d
                end in
      Some (match status_attr e with
            | Some s => od_set (KStr "status_code") (VInt s) d1
            | None => d1
            end)
  end.

(** [RateLimitError.response_headers] *)
Definition response_headers (e : exc) : list (string * string) :=
  match e_payload e with
  | PRate l w r m t =>
      [("Retry-After", str_int r); ("X-RateLimit-Limit", str_int l);
       ("X-RateLimit-Remaining", str_int m); ("X-RateLimit-Reset", str_int t)]
  | _ => []
  end.

(** One entry of [errors] in the envelope. *)
Record error_dict := ErrorDict {
  err_code : string;
  err_message : string;
  err_field : option string;
  err_details : option (list (pykey * pyval));
}.

Definition to_error_dict (e : exc) : error_dict :=
  ErrorDict (get_error_code e) (e_message e)
    (match e_payload e with PValidation f _ => f | _ => None end) (get_details e).

(** Any exception of the program: one of ours, or a Python or Django one
    given by its class name and message. *)
Inductive py_exn :=
| Custom (e : exc)
| Builtin (cls msg : string).

(** [type(e).__name__], [str(e)], and what [except Exception] catches. *)
Definition exn_type_name (e : py_exn) : string :=
  match e with Custom c => class_name (e_class c) | Builtin cls _ => cls end.
Definition exn_str (e : py_exn) : string :=
  match e with Custom c => e_message c | Builtin _ msg => msg end.
Definition is_exception (e : py_exn) : bool :=
  match e with
  | Builtin cls _ => negb (str_in cls ["BaseException"; "KeyboardInterrupt"; "SystemExit"; "GeneratorExit"])
  | Custom _ => true
  end.
