(* ===== verification/Handler.v ===== *)
(** * The DRF exception handler

    [core/exceptions/handler.py]: the registry that maps exception classes to
    status codes, its lazily built cache under double-checked locking, and
    [api_exception_handler], which renders every exception as the envelope.
    The registrations made at import time and in [AccountsConfig.ready] are
    [core_registrations] and [accounts_registrations]. *)
From stdpp Require Import base list gmap strings pretty numbers.
From Stdlib Require Import Ascii Lia ZArith.
From S2P Require Import Prelude PyStr PyVal Exceptions.

(** ** The envelope *)

(** A response body is a dictionary with string keys. *)
Abbreviation body := (list (pykey * pyval)).

Record response := Response {
  resp_status : Z;
  resp_body : body;
  resp_headers : list (string * string);
}.

Definition vopt_dict (o : option (list (pykey * pyval))) : pyval :=
  match o with Some d => VDict d | None => VNone end.

Definition error_value (d : error_dict) : pyval :=
  VDict [(KStr "code", VStr (err_code d)); (KStr "message", VStr (err_message d));
         (KStr "field", vopt_str (err_field d)); (KStr "details", vopt_dict (err_details d))].

(** [_build_error_dict] *)
Definition build_error_dict (code message : string) (field : option string)
    (details : option (list (pykey * pyval))) : pyval :=
  error_value (ErrorDict code message field details).

(** The dictionary literal the handler answers with. *)
Definition envelope (message : string) (errors : list pyval) (rid : option string) : body :=
  [(KStr "success", VBool false); (KStr "message", VStr message); (KStr "data", VNone);
   (KStr "errors", VList errors); (KStr "request_id", vopt_str rid)].

(** ** The status registry *)
Abbreviation status_map := (list (exn_class * Z)).

Record registry := Registry {
  builder : status_map;
  cache : option status_map;
}.

Definition registry_empty : registry := Registry [] None.

Definition register_exception_mapping (c : exn_class) (status_code : Z) (r : registry) : registry :=
  Registry (builder r ++ [(c, status_code)]) None.

Definition get_status_map (r : registry) : status_map * registry :=
  match cache r with
  | Some m => (m, r)
  | None => (builder r, Registry (builder r) (Some (builder r)))
  end.

(** The [for exc_class, code in _get_status_map()] loop. *)
Fixpoint first_match (c : exn_class) (m : status_map) : option Z :=
  match m with
  | [] => None
  | (d, code) :: m' => if subclass c d then Some code else first_match c m'
  end.

Definition core_registrations : status_map :=
  [(EntityNotFoundError, 404%Z); (ServiceUnavailableError, 503%Z);
   (ExternalTimeoutError, 502%Z); (S3Exception, 502%Z); (SESException, 502%Z);
   (ExternalServiceError, 502%Z); (OutboundURLNotAllowedError, 400%Z);
   (InactiveParentError, 409%Z); (InvalidInputError, 400%Z)].

Definition accounts_registrations : status_map :=
  [(NoFieldsToUpdateError, 400%Z); (InvalidTimezoneError, 400%Z);
   (APIKeyGenerationError, 500%Z)].

Definition register_all (l : status_map) (r : registry) : registry :=
  fold_left (fun r cz => register_exception_mapping cz.1 cz.2 r) l r.

Definition booted : registry :=
  register_all accounts_registrations (register_all core_registrations registry_empty).

(** ** [api_exception_handler] *)

(** An exception as the handler tells them apart: ours, the kit's own, any
    other one (its class name and [request_id] attribute). *)
Inductive raised :=
| RCustom (e : exc)
| RKit (k : pyval)
| ROther (cls : string) (request_id : option string).

(** The status of one of our exceptions. *)
Definition custom_status (e : exc) (r : registry) : Z * registry :=
  match status_attr e with
  | Some s => (s, r)
  | None => let '(m, r') := get_status_map r in (default 500%Z (first_match (e_class e) m), r')
  end.

(** [a or b] on optional strings. *)
Definition rid_or (a b : option string) : option string :=
  match a with
  | Some s => if str_true s then Some s else b
  | None => b
  end.

(** The [errors] of one field of a DRF error dictionary. *)
Definition field_errors (field : pykey) (msgs : pyval) : option (list pyval) :=
  match msgs with
  | VList l =>
      mapM (fun m => s ← py_str m;
                     Some (build_error_dict "VALIDATION_ERROR" s (Some (str_key field)) None)) l
  | _ => s ← py_str msgs;
         Some [build_error_dict "VALIDATION_ERROR" s (Some (str_key field)) None]
  end.

Fixpoint all_field_errors (d : body) : option (list pyval) :=
  match d with
  | [] => Some []
  | (f, msgs) :: d' => a ← field_errors f msgs; b ← all_field_errors d'; Some (a ++ b)
  end.

(** Message and [errors] for a response DRF has built. *)
Definition drf_errors (code : string) (data : pyval) : option (string * list pyval) :=
  match data with
  | VDict d =>
      let detail := default VNone (od_get (KStr "detail") d) in
      let remaining := od_del (KStr "detail") d in
      message ← (if truthy detail then py_str detail else Some "Validation failed");
      match remaining with
      | [] => Some (message, [build_error_dict code message None None])
      | _ => errors ← all_field_errors remaining; Some (message, errors)
      end
  | VList l =>
      strs ← mapM py_str l;
      Some (join "; " strs, (fun s => build_error_dict code s None None) <$> strs)
  | _ => s ← py_str data; Some (s, [build_error_dict code s None None])
  end.

Section handler.
(** The kit's [from_exception], the kit's [str] of a bridged exception and
    DRF's [exception_handler] ([None] when DRF does not know the exception;
    otherwise the status and [response.data]). *)
Context (from_exception : pyval -> body * Z * list (string * string)).
Context (kit_str : exc -> string).
Context (exception_handler : string -> option (Z * pyval * list (string * string))).

(** [rid] is [get_request_id()]; [None] is a [str()] that raised. *)
Definition api_exception_handler (e : raised) (rid : option string) (r : registry)
    : option response * registry :=
  match e with
  | RCustom x =>
      let '(status_code, r') := custom_status x r in
      (Some (Response status_code
               (envelope (kit_str x) [error_value (to_error_dict x)]
                  (rid_or (e_request_id x) rid)) []), r')
  | RKit k =>
      let '(b, status_code, headers) := from_exception k in
      (Some (Response status_code (od_set (KStr "request_id") (vopt_str rid) b) headers), r)
  | ROther cls xrid =>
      match exception_handler cls with
      | None =>
          (Some (Response 500
                   (envelope "An unexpected error occurred."
                      [build_error_dict "INTERNAL_SERVER_ERROR" "An unexpected error occurred."
                         None None] rid) []), r)
      | Some (status_code, data, headers) =>
          (match drf_errors (derive_error_code cls false) data with
           | Some (message, errors) =>
               Some (Response status_code (envelope message errors (rid_or xrid rid)) headers)
           | None => None
           end, r)
      end
  end.
End handler.

(** ** Lemmas *)

Definition envelope_keys : list pykey :=
  [KStr "success"; KStr "message"; KStr "data"; KStr "errors"; KStr "request_id"].

Lemma od_set_keys_in {K A} `{!EqDecision K} (k : K) (a : A) d : k ∈ d.*1 -> (od_set k a d).*1 = d.*1.
Proof. intros H. rewrite od_set_keys. by rewrite decide_True. Qed.

Lemma first_match_app c m1 m2 :
  first_match c (m1 ++ m2) = or_else (first_match c m1) (first_match c m2).
Proof. induction m1 as [|[d z] m1 IH]; simpl; [done|]. by destruct (subclass c d). Qed.

Lemma get_status_map_builder r :
  (forall m, cache r = Some m -> m = builder r) -> (get_status_map r).1 = builder r.
Proof. unfold get_status_map. destruct (cache r) eqn:H; naive_solver. Qed.

Lemma register_all_builder l r : builder (register_all l r) = builder r ++ l.
Proof.
  revert r. induction l as [|[c z] l IH]; intros r; simpl; [by rewrite app_nil_r|].
  rewrite IH. simpl. by rewrite <- app_assoc.
Qed.

Lemma register_all_cache l r : l <> [] -> cache (register_all l r) = None.
Proof.
  revert r. induction l as [|[c z] l IH]; intros r Hl; [done|].
  destruct l as [|cz l]; [done|]. apply IH. done.
Qed.

Lemma mro_Subclass n p code msg st :
  mro (Subclass n p code msg st) = Subclass n p code msg st :: mro p.
Proof. reflexivity. Qed.

Lemma mro_head c : c ∈ mro c.
Proof. unfold mro. destruct c; simpl; left. Qed.

Lemma subclass_refl c : subclass c c = true.
Proof. apply bool_decide_eq_true. apply mro_head. Qed.

Lemma subclass_Subclass n p code msg st d :
  subclass (Subclass n p code msg st) d =
  bool_decide (d = Subclass n p code msg st) || subclass p d.
Proof.
  unfold subclass. rewrite mro_Subclass.
  destruct (decide (d = Subclass n p code msg st)) as [->|Hd].
  - rewrite (bool_decide_eq_true_2 (_ ∈ _)) by left. by rewrite bool_decide_eq_true_2.
  - rewrite (bool_decide_eq_false_2 (d = _)) by done. simpl.
    apply bool_decide_ext. rewrite elem_of_cons. naive_solver.
Qed.

Lemma first_match_Subclass n p code msg st m :
  Subclass n p code msg st ∉ m.*1 -> first_match (Subclass n p code msg st) m = first_match p m.
Proof.
  induction m as [|[d z] m IH]; [done|]. rewrite fmap_cons, not_elem_of_cons. cbn [fst].
  intros [Hd Hm]. simpl. rewrite subclass_Subclass, bool_decide_eq_false_2 by congruence.
  simpl. by rewrite IH.
Qed.

Lemma class_status_Subclass n p code msg :
  class_status (Subclass n p code msg None) = class_status p.
Proof. reflexivity. Qed.

Lemma od_get_in {K A} `{!EqDecision K} (k : K) (d : list (K * A)) :
  k ∈ d.*1 -> exists a, od_get k d = Some a.
Proof.
  intros H. destruct (od_get k d) as [a|] eqn:E; [by exists a|].
  apply od_get_None in E. done.
Qed.

(** The status our exceptions answer with once the process has started. *)
Definition status_of (c : exn_class) : Z :=
  match class_status c with
  | Some s => s
  | None => default 500%Z (first_match c (builder booted))
  end.

(** The table of [docs/exceptions.md]. *)
Definition documented_status (c : exn_class) : Z :=
  match c with
  | EntityNotFoundError => 404
  | ServiceUnavailableError => 503
  | APIError | ExternalServiceError | TransientError | ExternalTimeoutError | S3Exception
  | S3NotFoundError | SESException | PartnerPushError => 502
  | OutboundURLNotAllowedError | InvalidInputError | ValidationError | NoFieldsToUpdateError
  | InvalidTimezoneError => 400
  | InactiveParentError => 409
  | RateLimitError => 429
  | AuthenticationFailedError | APIKeyRevokedError | TokenExpiredError | TokenInvalidError
  | TokenRevokedError => 401
  | PermissionDeniedError => 403
  | _ => 500
  end%Z.

(** ** Concurrency of the registry

    Any number of threads call [_get_status_map] and
    [register_exception_mapping]; a step is one access to a shared variable
    or to the lock, as the interpreter may switch threads between any two. *)

(** Where a thread is in its function.  A reader remembers how many
    registrations had completed when it was called ([n], a ghost). *)
Inductive pc :=
| RStart
| RWait (n : nat)
| RLocked (n : nat)
| RReturn (n : nat)
| RDone (n : nat) (m : option status_map)
| WStart (c : exn_class) (z : Z)
| WLocked (c : exn_class) (z : Z)
| WAppended
| WDone.

(** [completed] counts the registrations that have returned (a ghost). *)
Record shared := Shared {
  reg : registry;
  lock : option nat;
  completed : nat;
  threads : gmap nat pc;
}.

Definition at_pc (s : shared) (t : nat) (p : pc) (r : registry) (l : option nat) (k : nat) : shared :=
  Shared r l k (<[t := p]> (threads s)).

Inductive step : shared -> shared -> Prop :=
| step_spawn s t p :
    threads s !! t = None ->
    (p = RStart \/ exists c z, p = WStart c z) ->
    step s (at_pc s t p (reg s) (lock s) (completed s))
| step_fast s t m :
    threads s !! t = Some RStart -> cache (reg s) = Some m ->
    step s (at_pc s t (RDone (completed s) (Some m)) (reg s) (lock s) (completed s))
| step_slow s t :
    threads s !! t = Some RStart -> cache (reg s) = None ->
    step s (at_pc s t (RWait (completed s)) (reg s) (lock s) (completed s))
| step_acquire_r s t n :
    threads s !! t = Some (RWait n) -> lock s = None ->
    step s (at_pc s t (RLocked n) (reg s) (Some t) (completed s))
| step_rebuild s t n :
    threads s !! t = Some (RLocked n) ->
    step s (at_pc s t (RReturn n) (snd (get_status_map (reg s))) (lock s) (completed s))
| step_return s t n :
    threads s !! t = Some (RReturn n) ->
    step s (at_pc s t (RDone n (cache (reg s))) (reg s) None (completed s))
| step_acquire_w s t c z :
    threads s !! t = Some (WStart c z) -> lock s = None ->
    step s (at_pc s t (WLocked c z) (reg s) (Some t) (completed s))
| step_append s t c z :
    threads s !! t = Some (WLocked c z) ->
    step s (at_pc s t WAppended (Registry (builder (reg s) ++ [(c, z)]) (cache (reg s)))
              (lock s) (completed s))
| step_invalidate s t :
    threads s !! t = Some WAppended ->
    step s (at_pc s t WDone (Registry (builder (reg s)) None) None (S (completed s))).

Definition initial (r : registry) : shared := Shared r None (length (builder r)) ∅.

Inductive reachable (r : registry) : shared -> Prop :=
| reach_init : reachable r (initial r)
| reach_step s s' : reachable r s -> step s s' -> reachable r s'.

(** Who holds the lock, from where it is. *)
Definition holds (p : pc) : bool :=
  match p with
  | RLocked _ | RReturn _ | WLocked _ _ | WAppended => true
  | _ => false
  end.

(** What a thread knows. *)
Definition pc_ok (s : shared) (p : pc) : Prop :=
  match p with
  | RWait n | RLocked n => n <= completed s
  | RReturn n => n <= completed s /\ cache (reg s) = Some (builder (reg s))
  | RDone n m => exists l, m = Some l /\ l `prefix_of` builder (reg s) /\ n <= length l
  | WLocked _ _ => length (builder (reg s)) = completed s
  | WAppended => length (builder (reg s)) = S (completed s)
  | RStart | WStart _ _ | WDone => True
  end.

Record shared_inv (s : shared) : Prop := {
  inv_lock : forall t p, threads s !! t = Some p -> holds p = true -> lock s = Some t;
  inv_pc : forall t p, threads s !! t = Some p -> pc_ok s p;
  inv_cache : forall m, cache (reg s) = Some m ->
    m `prefix_of` builder (reg s) /\ completed s <= length m;
  inv_count : completed s <= length (builder (reg s));
  inv_settled : (forall t, threads s !! t <> Some WAppended) ->
    length (builder (reg s)) = completed s /\
    (forall m, cache (reg s) = Some m -> m = builder (reg s));
}.

Lemma prefix_app_self {A} (l k : list A) : l `prefix_of` l ++ k.
Proof. by exists k. Qed.

Lemma initial_inv r :
  (forall m, cache r = Some m -> m = builder r) -> shared_inv (initial r).
Proof.
  intros Hr. split; unfold initial; simpl; try (intros; done).
  intros m Hm. rewrite (Hr m Hm). split; [by exists []; rewrite app_nil_r|lia].
Qed.

(** The lock admits one holder. *)
Lemma holds_unique s t t' p p' :
  shared_inv s -> threads s !! t = Some p -> threads s !! t' = Some p' ->
  holds p = true -> holds p' = true -> t = t'.
Proof. intros I H H' Hp Hp'. eapply inv_lock in H, H'; eauto. congruence. Qed.

(** While another thread holds the lock, or none does, no registration is
    half done. *)
Lemma settled_held s t p :
  shared_inv s -> threads s !! t = Some p -> holds p = true -> p <> WAppended ->
  forall t', threads s !! t' <> Some WAppended.
Proof.
  intros I H Hp Hn t' H'. pose proof (holds_unique s t t' _ _ I H H' Hp eq_refl). congruence.
Qed.

Lemma settled_free s :
  shared_inv s -> lock s = None -> forall t', threads s !! t' <> Some WAppended.
Proof. intros I Hl t' H'. eapply inv_lock in H'; eauto. congruence. Qed.

(** A step that leaves the registry alone. *)
Lemma inv_move s t p p' l :
  shared_inv s ->
  threads s !! t = p' -> p' <> Some WAppended -> p <> WAppended ->
  pc_ok s p ->
  (holds p = true -> l = Some t) ->
  (forall t' q, t' <> t -> threads s !! t' = Some q -> holds q = true -> l = Some t') ->
  shared_inv (at_pc s t p (reg s) l (completed s)).
Proof.
  intros [Il Ip Ic In Is] Ht Hnp Hp Hok Hl Hothers. split; unfold at_pc; simpl; auto.
  - intros t' q Hq Hh. lookup_cases Hq; eauto.
  - intros t' q Hq. lookup_cases Hq; [|apply Ip in Hq]; [destruct p|destruct q]; done.
  - intros Hset. apply Is. intros t' H'. destruct (decide (t' = t)) as [->|Hne].
    + congruence.
    + apply (Hset t'). by rewrite lookup_insert_ne.
Qed.

Lemma step_rebuild_inv s t n :
  shared_inv s -> threads s !! t = Some (RLocked n) ->
  shared_inv (at_pc s t (RReturn n) (snd (get_status_map (reg s))) (lock s) (completed s)).
Proof.
  intros I Ht. pose proof (settled_held s t _ I Ht eq_refl ltac:(done)) as Hset.
  destruct (inv_settled s I Hset) as [Hlen Hcache].
  pose proof (inv_pc s I t _ Ht) as Hn. simpl in Hn.
  assert (Hr : snd (get_status_map (reg s)) = Registry (builder (reg s)) (Some (builder (reg s)))).
  { unfold get_status_map. destruct (cache (reg s)) eqn:E; [|done].
    rewrite <- (Hcache _ eq_refl) at 2. destruct (reg s). simpl in *. by subst. }
  rewrite Hr. split; unfold at_pc; simpl.
  - intros t' q Hq Hh. lookup_cases Hq; eapply inv_lock; eauto.
  - intros t' q Hq. lookup_cases Hq; [done|]. apply (inv_pc s I) in Hq.
    destruct q; simpl in *; naive_solver.
  - intros m [= <-]. split; [by exists []; rewrite app_nil_r|lia].
  - lia.
  - intros _. split; [done|]. intros m [= <-]. done.
Qed.

Lemma step_append_inv s t c z :
  shared_inv s -> threads s !! t = Some (WLocked c z) ->
  shared_inv (at_pc s t WAppended (Registry (builder (reg s) ++ [(c, z)]) (cache (reg s)))
                (lock s) (completed s)).
Proof.
  intros I Ht. pose proof (inv_pc s I t _ Ht) as Hlen. simpl in Hlen.
  split; unfold at_pc; simpl.
  - intros t' q Hq Hh. lookup_cases Hq; eapply inv_lock; eauto.
  - intros t' q Hq. lookup_cases Hq; [simpl; rewrite length_app; simpl; lia|].
    assert (Hh : holds q = false).
    { destruct (holds q) eqn:E; [|done]. by destruct (holds_unique s t t' _ _ I Ht Hq eq_refl E). }
    apply (inv_pc s I) in Hq. destruct q; simpl in *; try done.
    destruct Hq as (l & -> & Hpre & Hl). exists l. repeat split; auto.
    by apply prefix_app_r.
  - intros m Hm. destruct (inv_cache s I m Hm). split; [by apply prefix_app_r|done].
  - rewrite length_app. simpl. lia.
  - intros Hset. by destruct (Hset t); rewrite lookup_insert_eq.
Qed.

Lemma step_invalidate_inv s t :
  shared_inv s -> threads s !! t = Some WAppended ->
  shared_inv (at_pc s t WDone (Registry (builder (reg s)) None) None (S (completed s))).
Proof.
  intros I Ht. pose proof (inv_pc s I t _ Ht) as Hlen. simpl in Hlen.
  assert (Hother : forall t' q, t <> t' -> threads s !! t' = Some q -> holds q = false).
  { intros t' q Hne Hq. destruct (holds q) eqn:E; [|done].
    by destruct Hne; eapply (holds_unique s); eauto. }
  split; unfold at_pc; simpl.
  - intros t' q Hq Hh. lookup_cases Hq; [done|]. by rewrite (Hother t' q) in Hh.
  - intros t' q Hq. lookup_cases Hq; [done|].
    pose proof (Hother t' q ltac:(done) Hq) as Hh. apply (inv_pc s I) in Hq.
    destruct q; simpl in *; try done; lia.
  - done.
  - lia.
  - intros _. split; [lia|done].
Qed.

Lemma step_inv s s' : shared_inv s -> step s s' -> shared_inv s'.
Proof.
  intros I H. destruct H;
    [| | | |by apply step_rebuild_inv| | |by apply step_append_inv|by apply step_invalidate_inv].
  - (* spawn *) eapply inv_move; eauto; try done; destruct H0 as [->|(c & z & ->)]; try done;
      intros; eapply inv_lock; eauto.
  - eapply inv_move; eauto; try done; [|intros; eapply inv_lock; eauto].
    destruct (inv_cache s I m H0). exists m. auto.
  - eapply inv_move; eauto; try done; [simpl; lia|intros; eapply inv_lock; eauto].
  - eapply inv_move; eauto; try done; [apply (inv_pc s I t _ H)|].
    intros t' q _ Hq Hh. eapply inv_lock in Hq; eauto. congruence.
  - pose proof (inv_pc s I t _ H) as Hn. destruct Hn as [Hn Hc].
    eapply inv_move; eauto; try done.
    + exists (builder (reg s)). split; [done|]. split; [by exists []; rewrite app_nil_r|].
      pose proof (inv_count s I). lia.
    + intros t' q Hne Hq Hh. by destruct Hne; eapply (holds_unique s); eauto.
  - eapply inv_move; eauto; try done.
    + destruct (inv_settled s I (settled_free s I H0)). done.
    + intros t' q _ Hq Hh. eapply inv_lock in Hq; eauto. congruence.
Qed.

Lemma reachable_inv r s :
  (forall m, cache r = Some m -> m = builder r) -> reachable r s -> shared_inv s.
Proof. intros Hr H. induction H; eauto using initial_inv, step_inv. Qed.

(** ** Properties *)

(** Every exception class of the program answers with the HTTP status the
    exception documentation gives it, through the instance override, the
    class attribute or the first registered mapping; a class a downstream app
    derives without a status of its own and without a registration answers
    with its parent's status. *)
Theorem status_table c n code msg :
  (match c with Subclass _ _ _ _ _ => True | _ => status_of c = documented_status c end) /\
  status_of (Subclass n c code msg None) = status_of c.
Proof.
  split.
  - destruct c; exact I || (vm_compute; reflexivity).
  - unfold status_of. rewrite class_status_Subclass. destruct (class_status c); [done|].
    rewrite first_match_Subclass; [done|].
    unfold booted. rewrite !register_all_builder. intros H.
    simpl in H. rewrite !elem_of_cons, elem_of_nil in H. naive_solver.
Qed.

(** Mappings are tried in registration order and the first that covers
    the class wins: a registration never changes the status of a class that
    was already covered, gives its own status to the classes it is the first
    to cover, and leaves all others on the 500 default; registering
    invalidates the cached map, so the very next lookup sees it. *)
Theorem registration_order d z r e :
  (forall m, cache r = Some m -> m = builder r) ->
  status_attr e = None ->
  let r' := register_exception_mapping d z r in
  (custom_status e r').1 =
    match first_match (e_class e) (builder r) with
    | Some old => old
    | None => if subclass (e_class e) d then z else 500%Z
    end /\
  (forall m, cache (custom_status e r').2 = Some m -> m = builder (custom_status e r').2).
Proof.
  intros Hr He. unfold custom_status. rewrite He. simpl. split.
  - rewrite first_match_app. destruct (first_match (e_class e) (builder r)); [done|].
    simpl. by destruct (subclass (e_class e) d).
  - by intros m [= <-].
Qed.

Definition sample_exc (c : exn_class) : exc := base_init c None None (Some "req-7") PPlain.

Lemma registration_order_witness :
  (custom_status (sample_exc S3NotFoundError)
     (register_exception_mapping S3NotFoundError 404 booted)).1 = 502%Z /\
  (custom_status (sample_exc RepositoryError)
     (register_exception_mapping BaseCustomError 418 booted)).1 = 418%Z.
Proof.
  split.
  - destruct (registration_order S3NotFoundError 404 booted (sample_exc S3NotFoundError))
      as [H _]; [intros m H; vm_compute in H; congruence|reflexivity|].
    rewrite H. vm_compute. reflexivity.
  - destruct (registration_order BaseCustomError 418 booted (sample_exc RepositoryError))
      as [H _]; [intros m H; vm_compute in H; congruence|reflexivity|].
    rewrite H. vm_compute. reflexivity.
Defined.

(** C29: under any interleaving of concurrent lookups and registrations, a
    lookup that returns returns a map (never [None]), and that map is an
    initial part of the registrations made, in order, and contains every
    registration that had completed when the lookup began: no torn read and
    no stale cache. *)
Theorem status_map_linearizable r s t n m :
  (forall m, cache r = Some m -> m = builder r) ->
  reachable r s ->
  threads s !! t = Some (RDone n m) ->
  exists l, m = Some l /\ l `prefix_of` builder (reg s) /\ n <= length l.
Proof. intros Hr Hs Ht. exact (inv_pc s (reachable_inv r s Hr Hs) t _ Ht). Qed.

(** A lookup that starts while a registration is between its two writes. *)
Lemma status_map_linearizable_witness :
  exists s n m, reachable registry_empty s /\ threads s !! 0 = Some (RDone n m) /\
    exists l, m = Some l /\ l `prefix_of` builder (reg s) /\ n <= length l.
Proof.
  pose proof (reach_init registry_empty) as R.
  eapply reach_step in R; [|apply (step_spawn _ 1 (WStart EntityNotFoundError 404));
                            [reflexivity|right; eauto]]; vm_compute in R.
  eapply reach_step in R; [|eapply (step_acquire_w _ 1); reflexivity]; vm_compute in R.
  eapply reach_step in R; [|eapply (step_append _ 1); reflexivity]; vm_compute in R.
  eapply reach_step in R; [|apply (step_spawn _ 0 RStart); [reflexivity|by left]]; vm_compute in R.
  eapply reach_step in R; [|eapply (step_slow _ 0); reflexivity]; vm_compute in R.
  eapply reach_step in R; [|eapply (step_invalidate _ 1); reflexivity]; vm_compute in R.
  eapply reach_step in R; [|eapply (step_acquire_r _ 0); reflexivity]; vm_compute in R.
  eapply reach_step in R; [|eapply (step_rebuild _ 0); reflexivity]; vm_compute in R.
  eapply reach_step in R; [|eapply (step_return _ 0); reflexivity]; vm_compute in R.
  eexists _, _, _. split; [exact R|]. split; [reflexivity|].
  refine (status_map_linearizable registry_empty _ 0 _ _ _ R eq_refl).
  intros m' Hm'. discriminate Hm'.
Defined.

(** What an entry of [errors] looks like. *)
Definition is_error_entry (v : pyval) : Prop :=
  exists d, v = error_value d.

Lemma field_errors_entries f msgs l : field_errors f msgs = Some l -> Forall is_error_entry l.
Proof.
  destruct msgs; simpl; intros H;
    try (first [apply bind_Some in H as (x & _ & [= <-])|injection H as <-]; repeat constructor; by eexists).
  apply mapM_Some in H. induction H as [|m v ms vs H]; constructor; [|done].
  apply bind_Some in H as (y & _ & [= <-]). by eexists.
Qed.

Lemma all_field_errors_entries d l : all_field_errors d = Some l -> Forall is_error_entry l.
Proof.
  revert l. induction d as [|[f msgs] d IH]; simpl; intros l H; [by simplify_eq|].
  apply bind_Some in H as (a & Ha & H). apply bind_Some in H as (b & Hb & [= <-]).
  apply Forall_app. eauto using field_errors_entries.
Qed.

Lemma drf_errors_entries code data m l :
  drf_errors code data = Some (m, l) -> Forall is_error_entry l.
Proof.
  unfold drf_errors. intros H.
  destruct data; try (first [apply bind_Some in H as (x & _ & [= <- <-])|injection H as <- <-]; repeat constructor; by eexists).
  - apply bind_Some in H as (x & _ & [= <- <-]). apply Forall_fmap, Forall_true.
    intros s. by eexists.
  - apply bind_Some in H as (x & _ & H). destruct (od_del _ _).
    + simplify_eq. repeat constructor. by eexists.
    + apply bind_Some in H as (y & Hy & [= <- <-]). eauto using all_field_errors_entries.
Qed.

(** The handler answers every exception with the same five-key envelope.
    Our exceptions and those DRF does not know always get an answer, with
    [success] false, [data] null, well-formed [errors] entries and the
    request id of the exception or else of the request; the kit's own
    exceptions get the kit's envelope with the request id patched in. *)
Theorem handler_envelope from_exception kit_str exception_handler e rid r :
  (forall k b st h, from_exception k = (b, st, h) -> b.*1 = envelope_keys) ->
  let '(out, r') := api_exception_handler from_exception kit_str exception_handler e rid r in
  (forall resp, out = Some resp ->
     (resp_body resp).*1 = envelope_keys /\
     match e with
     | RKit _ => od_get (KStr "request_id") (resp_body resp) = Some (vopt_str rid)
     | _ => exists message errors i, resp_body resp = envelope message errors i /\
              Forall is_error_entry errors
     end) /\
  match e with
  | RCustom x => exists resp, out = Some resp /\ resp_status resp = (custom_status x r).1
  | RKit _ => exists resp, out = Some resp
  | ROther cls _ =>
      exception_handler cls = None ->
      exists resp, out = Some resp /\ resp_status resp = 500%Z
  end.
Proof.
  intros Hkit. destruct e as [x|k|cls xrid]; unfold api_exception_handler.
  - destruct (custom_status x r) as [st r']. split; [|eauto].
    intros resp [= <-]. split; [done|]. eexists _, _, _. split; [done|].
    repeat constructor. by eexists.
  - destruct (from_exception k) as [[b st] h] eqn:E. apply Hkit in E. split; [|eauto].
    intros resp [= <-]. cbn [resp_body]. split; [|apply od_get_set_eq].
    rewrite od_set_keys_in; [done|]. rewrite E. by repeat constructor.
  - destruct (exception_handler cls) as [[[st data] h]|].
    + split; [|done]. intros resp H.
      destruct (drf_errors _ data) as [[m es]|] eqn:E; simplify_eq. split; [done|].
      eexists _, _, _. split; [done|]. eauto using drf_errors_entries.
    + split; [|eauto]. intros resp [= <-]. split; [done|]. eexists _, _, _. split; [done|].
      repeat constructor. by eexists.
Qed.

(** A kit and a DRF that know one exception each. *)
Definition sample_kit (k : pyval) : body * Z * list (string * string) :=
  (envelope "Circuit open." [] None, 503%Z, []).
Definition sample_drf (cls : string) : option (Z * pyval * list (string * string)) :=
  if String.eqb cls "NotFound" then Some (404%Z, VDict [(KStr "detail", VStr "Not found.")], [])
  else None.

Lemma handler_envelope_witness :
  exists resp,
    (api_exception_handler sample_kit e_message sample_drf (RCustom (sample_exc EntityNotFoundError))
       None booted).1 = Some resp /\ resp_status resp = 404%Z /\
    (resp_body resp).*1 = envelope_keys.
Proof.
  pose proof (handler_envelope sample_kit e_message sample_drf
    (RCustom (sample_exc EntityNotFoundError)) None booted) as H.
  destruct (api_exception_handler sample_kit e_message sample_drf
    (RCustom (sample_exc EntityNotFoundError)) None booted) as [out r'].
  destruct H as [Hb (resp & Hout & Hst)].
  - intros k b st h [= <- _ _]. reflexivity.
  - exists resp. split; [exact Hout|]. split; [rewrite Hst; vm_compute; reflexivity|].
    apply Hb, Hout.
Defined.
