(* ===== verification/Orm.v ===== *)
(** * Models, rows and the audit fields

    [core/base/model.py], [core/base/manager.py] and [core/base/audit.py], on
    top of the tables the ORM keeps.  A table row is its column map; an
    instance is its attribute map.  Django itself is not part of the source:
    validation ([full_clean]), the database constraints and the lookups other
    than equality are members of the [Django] interface, while INSERT and
    UPDATE are written out over the table map as Django documents them
    (UPDATE when the primary key exists, INSERT otherwise; [auto_now] and
    [auto_now_add] columns stamped at save). *)
From stdpp Require Import base list gmap strings pretty numbers.
From Stdlib Require Import Ascii Lia ZArith.
From S2P Require Import Prelude PyStr PyVal Exceptions.

(** ** Schema *)

(** A reverse relation: the model whose foreign key [rel_fk] points here,
    whether it is [on_delete=CASCADE], and whether it is one-to-one (its
    reverse accessor then yields an instance and not a manager). *)
Record relation := Rel {
  rel_model : string;
  rel_fk : string;
  rel_cascade : bool;
  rel_one_to_one : bool;
}.

(** Concrete fields other than the key, with their defaults, the reverse
    relations in [_meta.related_objects] order, and the foreign keys among the
    fields with the models they point to. *)
Record model_meta := Meta {
  m_fields : list (string * pyval);
  m_related : list relation;
  m_fks : list (string * string);
}.

Definition schema := string -> model_meta.

Definition has_field (sch : schema) (m f : string) : bool :=
  bool_decide (f ∈ (m_fields (sch m)).*1).

(** [core/base/repository.py: _has_is_active] and
    [hasattr(related_model, "is_active")]. *)
Definition has_is_active (sch : schema) (m : string) : bool := has_field sch m "is_active".

(** ** State *)
Abbreviation row := (gmap string pyval).
Abbreviation key := (string * Z)%type.
Abbreviation database := (gmap key row).

(** A log record: level, message and the extra fields. *)
Inductive log_entry := Log (level msg : string) (extra : list (string * pyval)).

(** [w_ticks] counts the readings of the clock, [w_seq] is the key sequence. *)
Record world := World {
  w_db : database;
  w_ticks : nat;
  w_seq : Z;
  w_log : list log_entry;
}.

Definition with_db (d : database) (w : world) : world := World d (w_ticks w) (w_seq w) (w_log w).
Definition log (e : log_entry) (w : world) : world :=
  World (w_db w) (w_ticks w) (w_seq w) (w_log w ++ [e]).

Record instance := Inst { i_model : string; i_attrs : row }.

Definition i_get (f : string) (i : instance) : option pyval := i_attrs i !! f.
Definition i_set (f : string) (v : pyval) (i : instance) : instance :=
  Inst (i_model i) (<[f := v]> (i_attrs i)).
Definition i_pk (i : instance) : option Z :=
  match i_attrs i !! "id" with
  | Some (VInt z) => Some z
  | _ => None
  end.

(** The instance a query builds from a row. *)
Definition load (m : string) (pk : Z) (r : row) : instance := Inst m (<["id" := VInt pk]> r).

Definition is_active_row (r : row) : bool :=
  match r !! "is_active" with
  | Some v => truthy v
  | None => false
  end.

(** ** The interface to Django *)

(** [dj_full_clean] and [dj_constraints] judge an instance (a row about to be
    written) against the tables; [dj_lookup] is a filter keyword other than
    plain equality, and [dj_filter_check] the [FieldError] of an unknown keyword;
    [dj_order] sorts a query. *)
Class Django := {
  dj_schema : schema;
  dj_clock : nat -> Z;
  dj_full_clean : database -> instance -> option string;
  dj_constraints : database -> string -> Z -> row -> option string;
  dj_lookup : string -> pyval -> row -> bool;
  dj_filter_check : string -> list (string * pyval) -> option string;
  dj_order : list string -> list instance -> list instance;
}.

(** What the code relies on. *)
Class DjangoLaws `{Django} : Prop := {
  dj_clock_mono : forall i j, i <= j -> (dj_clock i <= dj_clock j)%Z;
  dj_order_perm : forall keys l, dj_order keys l ≡ₚ l;
  dj_schema_id : forall m, "id" ∉ (m_fields (dj_schema m)).*1;
}.

Section orm.
Context `{Django}.

Abbreviation M := (act world py_exn).

(** [timezone.now()] *)
Definition now : M Z := fun w =>
  (Ok (dj_clock (w_ticks w)), World (w_db w) (S (w_ticks w)) (w_seq w) (w_log w)).

(** Columns a save writes: all of them, or [update_fields]. *)
Definition saved (update_fields : option (list string)) (f : string) : bool :=
  match update_fields with
  | None => true
  | Some l => bool_decide (f ∈ l) || bool_decide (f +:+ "_id" ∈ l)
  end.

(** The value a column gets from the attributes, absent ones from the row. *)
Definition write_cols (fields : list string) (sel : string -> bool) (attrs r : row) : row :=
  fold_left (fun acc f => if sel f then match attrs !! f with
                                        | Some v => <[f := v]> acc
                                        | None => acc
                                        end else acc) fields r.

Definition field_names (m : string) : list string := (m_fields (dj_schema m)).*1.

(** Stamp an automatic timestamp on the instance, if its model has it. *)
Definition auto_stamp (f : string) (cond : bool) (i : instance) : M instance :=
  if cond && has_field dj_schema (i_model i) f
  then t ← now; mret (i_set f (VInt t) i)
  else mret i.

(** Check the database constraints and write the row. *)
Definition write_row (m : string) (pk : Z) (r : row) : M unit := fun w =>
  match dj_constraints (w_db w) m pk r with
  | Some msg => (Raise (Builtin "IntegrityError" msg), w)
  | None => (Ok tt, with_db (<[(m, pk) := r]> (w_db w)) w)
  end.

Definition next_seq : M Z := fun w =>
  (Ok (w_seq w), World (w_db w) (w_ticks w) (w_seq w + 1) (w_log w)).

(** INSERT: the given key or the next of the sequence. *)
Definition insert_row (i : instance) : M instance :=
  i1 ← auto_stamp "created_at" true i;
  i2 ← auto_stamp "updated_at" true i1;
  pk ← (match i_pk i2 with Some z => mret z | None => next_seq end);
  w ← get_state;
  match w_db w !! (i_model i, pk) with
  | Some _ => raise (Builtin "IntegrityError" "duplicate key")
  | None =>
      write_row (i_model i) pk (write_cols (field_names (i_model i)) (fun _ => true) (i_attrs i2) ∅)
        ≫= fun _ => mret (i_set "id" (VInt pk) i2)
  end.

(** [django.db.models.Model.save] *)
Definition django_save (update_fields : option (list string)) (i : instance) : M instance :=
  w ← get_state;
  match i_pk i with
  | Some pk =>
      match w_db w !! (i_model i, pk) with
      | Some r =>
          i1 ← auto_stamp "updated_at" (saved update_fields "updated_at") i;
          write_row (i_model i) pk
            (write_cols (field_names (i_model i)) (saved update_fields) (i_attrs i1) r)
            ≫= fun _ => mret i1
      | None =>
          match update_fields with
          | Some _ =>
              raise (Builtin "DatabaseError" "Save with update_fields did not affect any rows.")
          | None => insert_row i
          end
      end
  | None => insert_row i
  end.

Definition full_clean (i : instance) : M unit := fun w =>
  match dj_full_clean (w_db w) i with
  | Some msg => (Raise (Builtin "ValidationError" msg), w)
  | None => (Ok tt, w)
  end.

(** [BaseModel.save] *)
Definition save (skip_validation : bool) (update_fields : option (list string)) (i : instance)
    : M instance :=
  (if skip_validation then mret tt else full_clean i) ≫= fun _ => django_save update_fields i.

(** *** Setting attributes *)

(** [k] as [f_id] for a foreign key [f] of the model: [f] and its target. *)
Definition fk_attname (m k : string) : option (string * string) :=
  f ← strip_suffix "_id" k; to ← od_get f (m_fks (dj_schema m));
  if has_field dj_schema m f then Some (f, to) else None.

(** The column an attribute of that name keeps its value in: a field its own,
    [pk] the key, [f_id] that of the foreign key [f]; any other name is an
    attribute of its own that no save writes. *)
Definition column_of (m k : string) : string :=
  if has_field dj_schema m k then k
  else if bool_decide (k = "pk") then "id"
  else match fk_attname m k with Some (f, _) => f | None => k end.
Definition column_value (m k : string) (v : pyval) : pyval :=
  if has_field dj_schema m k then v
  else match fk_attname m k, v with
       | Some (_, to), VInt z => VRef to z
       | _, _ => v
       end.

(** [ForwardManyToOneDescriptor.__set__] takes an instance of the target model
    or [None]. *)
Definition fk_accepts (m k : string) (v : pyval) : bool :=
  match od_get k (m_fks (dj_schema m)), v with
  | Some to, VRef to' _ => String.eqb to to'
  | Some _, VNone => true
  | Some _, _ => false
  | None, _ => true
  end.

(** [setattr(instance, k, v)] *)
Definition set_attr (i : instance) (kv : string * pyval) : result py_exn instance :=
  if fk_accepts (i_model i) kv.1 kv.2
  then Ok (i_set (column_of (i_model i) kv.1) (column_value (i_model i) kv.1 kv.2) i)
  else Raise (Builtin "ValueError" ("Cannot assign to " +:+ i_model i +:+ "." +:+ kv.1)).

(** [for field, value in data.items(): setattr(instance, field, value)] *)
Fixpoint set_attrs (i : instance) (d : list (string * pyval)) : result py_exn instance :=
  match d with
  | [] => Ok i
  | kv :: d' => i' ← set_attr i kv; set_attrs i' d'
  end.

(** [self.model( **data)]: every field at its default or at the argument of its
    name, then [pk] and the [f_id] names, as Django's [Model.__init__] has it;
    what is no attribute of the model is a [TypeError]. *)
Definition is_column (m k : string) : bool := bool_decide (k = "id") || has_field dj_schema m k.
Definition construct (m : string) (data : list (string * pyval)) : M instance :=
  let '(named, others) := List.partition (fun kv => is_column m kv.1) data in
  let '(known, unknown) := List.partition (fun kv => is_column m (column_of m kv.1)) others in
  i ← lift_result (set_attrs (Inst m (list_to_map (m_fields (dj_schema m)))) (named ++ known));
  match unknown with
  | [] => mret i
  | _ => raise (Builtin "TypeError"
           (m +:+ "() got unexpected keyword arguments: " +:+ join ", " (repr_str <$> unknown.*1)))
  end.

(** [Model.delete]: the collector is the database's; the row goes. *)
Definition hard_delete (i : instance) : M unit := fun w =>
  match i_pk i with
  | Some pk => (Ok tt, with_db (delete (i_model i, pk) (w_db w)) w)
  | None => (Raise (Builtin "ValueError" "object can't be deleted because its id is None"), w)
  end.

(** ** Queries *)

(** One filter keyword against a row of key [pk]. *)
Definition match_kw (pk : Z) (r : row) (kv : string * pyval) : bool :=
  if bool_decide (kv.1 = "pk") || bool_decide (kv.1 = "id")
  then match kv.2 with VInt z => bool_decide (z = pk) | _ => false end
  else if bool_decide (kv.1 = "is_active")
  then match kv.2 with VBool b => Bool.eqb (is_active_row r) b | v => dj_lookup kv.1 v r end
  else dj_lookup kv.1 kv.2 r.

Definition match_all (kws : list (string * pyval)) (pk : Z) (r : row) : bool :=
  forallb (match_kw pk r) kws.

(** [model.objects.filter( **kws)], in key order. *)
Definition query (d : database) (m : string) (kws : list (string * pyval)) : list instance :=
  (fun kr : key * row => load m kr.1.2 kr.2) <$>
    filter (fun kr : key * row => kr.1.1 = m /\ match_all kws kr.1.2 kr.2 = true) (map_to_list d).

(** [SoftDeletableQuerySet.active] and [.inactive] *)
Definition active (d : database) (m : string) : list instance := query d m [("is_active", VBool true)].
Definition inactive (d : database) (m : string) : list instance := query d m [("is_active", VBool false)].

(** [filter(pk=pk[, is_active=True]).first()] *)
Definition first_by_pk (d : database) (m : string) (pk : Z) (active_only : bool) : option instance :=
  match d !! (m, pk) with
  | Some r => if negb active_only || is_active_row r then Some (load m pk r) else None
  | None => None
  end.

(** ** Audit stamping *)

(** [_stamp] on a dictionary and on an instance. *)
Definition stamp_dict (field : string) (user : pyval) (d : list (string * pyval)) :
    list (string * pyval) := od_setdefault field user d.
Definition stamp_instance (field : string) (user : pyval) (i : instance) : instance :=
  match i_get field i with
  | Some _ => i_set field user i
  | None => i
  end.

Definition audit_field (on_create : bool) : string :=
  if on_create then "created_by" else "updated_by".

(** [apply_audit_fields] *)
Definition apply_audit_dict (d : list (string * pyval)) (user : option pyval) (on_create : bool)
    : list (string * pyval) :=
  match user with
  | Some u => if truthy u then stamp_dict (audit_field on_create) u d else d
  | None => d
  end.
Definition apply_audit_instance (i : instance) (user : option pyval) (on_create : bool) : instance :=
  match user with
  | Some u => if truthy u then stamp_instance (audit_field on_create) u i else i
  | None => i
  end.
End orm.
