(* ===== verification/Service.v ===== *)
(** * The service layer

    [core/base/service.py]: [BaseService] over the tables of [Orm]: filtered
    and paginated reads, create, update, bulk writes, and deletion with the
    breadth-first soft-delete cascade.  A service is the record of the class
    attributes and the hooks a subclass overrides; a hook receives the
    instance or data dictionary it may mutate and hands back its new state.
    [@transaction.atomic] is [atomic]. *)
From stdpp Require Import base list gmap strings pretty numbers sorting.
From Stdlib Require Import Ascii Lia ZArith.
From S2P Require Import Prelude PyStr PyVal Exceptions Orm.

Abbreviation M := (act world py_exn).
Abbreviation data := (list (string * pyval)).
Abbreviation user := (option pyval).

Record service := Service {
  model : string;
  allowed_filter_fields : option (list string);
  allowed_order_fields : option (list string);
  MAX_CASCADE_DEPTH : nat;
  max_page_size : Z;
  pre_create : data -> user -> M data;
  post_create : instance -> user -> M instance;
  pre_update : instance -> data -> user -> M (instance * data);
  post_update : instance -> user -> M instance;
  pre_delete : instance -> M instance;
  post_delete : instance -> user -> M unit;
}.

(** [BaseService] itself: the class defaults and the no-op hooks. *)
Definition base_service (m : string) : service :=
  Service m None None 10 100
    (fun d _ => mret d) (fun i _ => mret i)
    (fun i d _ => mret (i, d)) (fun i _ => mret i)
    (fun i => mret i) (fun _ _ => mret tt).

Definition value_error {A} (msg : string) : result py_exn A := Raise (Builtin "ValueError" msg).

Section service.
Context `{Django} (svc : service).

(** ** Validation of keywords *)

(** [key.split("__")[0]] *)
Definition base_field (k : string) : string := before_pair "_" "_" k.

Definition validate_filter_keys (filters : data) : result py_exn unit :=
  match allowed_filter_fields svc with
  | None => Ok tt
  | Some allowed =>
      for_check (fun kv : string * pyval =>
        if str_in (base_field kv.1) allowed then Ok tt
        else value_error ("Filter on '" +:+ kv.1 +:+ "' is not allowed.")) filters
  end.

Definition validate_order_keys (order_by : list string) : result py_exn unit :=
  match allowed_order_fields svc with
  | None => Ok tt
  | Some allowed =>
      for_check (fun raw =>
        if str_in (base_field (lstrip (is_char "-") raw)) allowed then Ok tt
        else value_error ("Ordering by '" +:+ raw +:+ "' is not allowed.")) order_by
  end.

(** [qs.filter( **kws)]: evaluated on the tables as they are now. *)
Definition qs_filter (d : database) (kws : data) : result py_exn (list instance) :=
  match dj_filter_check (model svc) kws with
  | Some msg => Raise (Builtin "FieldError" msg)
  | None => Ok (query d (model svc) kws)
  end.

(** ** Reads *)

Definition get_by_id (pk : Z) (d : database) : option instance :=
  first_by_pk d (model svc) pk false.

Definition not_found (pk : Z) : py_exn :=
  Custom (entity_not_found (model svc) (VInt pk) None None).

Definition get_by_id_or_fail (pk : Z) (d : database) : result py_exn instance :=
  match get_by_id pk d with
  | Some i => Ok i
  | None => Raise (not_found pk)
  end.

(** A filter on a column the model lacks is a [FieldError]. *)
Definition locate (pk : Z) (active_only : bool) (d : database) : result py_exn (option instance) :=
  if active_only && negb (has_is_active dj_schema (model svc))
  then Raise (Builtin "FieldError" "Cannot resolve keyword 'is_active' into field.")
  else Ok (first_by_pk d (model svc) pk active_only).

Definition get_active_by_id (pk : Z) (d : database) : result py_exn (option instance) :=
  locate pk true d.

Definition get_active_by_id_or_fail (pk : Z) (d : database) : result py_exn instance :=
  o ← get_active_by_id pk d;
  match o with
  | Some i => Ok i
  | None => Raise (not_found pk)
  end.

(** [qs[start:stop]] *)
Definition slice_qs {A} (start stop : Z) (l : list A) : result py_exn (list A) :=
  if (start <? 0)%Z || (stop <? 0)%Z then value_error "Negative indexing is not supported."
  else Ok (take (Z.to_nat (stop - start)) (drop (Z.to_nat start) l)).

(** [filters] once [is_active] has been added, and the caller's dictionary
    after the call: a non-empty one is mutated in place. *)
Definition effective_filters (filters : option data) (active_only : bool) : data :=
  let f := default [] filters in
  if active_only then od_set "is_active" (VBool true) f else f.
Definition caller_filters_after (filters : option data) (active_only : bool) : option data :=
  match filters with
  | Some (kv :: f) =>
      Some (if active_only then od_set "is_active" (VBool true) (kv :: f) else kv :: f)
  | o => o
  end.

(** The page-size ceiling. *)
Definition capped_limit (limit : option Z) : Z :=
  Z.min (default (max_page_size svc) limit) (max_page_size svc).

Definition list_capped_log (limit : option Z) : list log_entry :=
  let l := default (max_page_size svc) limit in
  if (max_page_size svc <? l)%Z
  then [Log "WARNING" "list_limit_capped"
          [("service", VStr (model svc)); ("requested", VInt l); ("max", VInt (max_page_size svc))]]
  else [].

(** [list]; [select_related] and [prefetch_related] do not change which rows
    come back. *)
Definition list_ (filters : option data) (order_by : list string) (limit offset : option Z)
    (active_only : bool) : M (list instance) := fun w =>
  let f := effective_filters filters active_only in
  let rows :=
    qs ← (match f with
          | [] => Ok (query (w_db w) (model svc) [])
          | _ => validate_filter_keys f ≫= fun _ => qs_filter (w_db w) f
          end);
    match order_by with
    | [] => Ok qs
    | _ => validate_order_keys order_by ≫= fun _ => Ok (dj_order order_by qs)
    end in
  match rows with
  | Raise e => (Raise e, w)
  | Ok qs =>
      let w' := fold_left (fun w e => log e w) (list_capped_log limit) w in
      let c := capped_limit limit in
      (match offset with
       | Some o => slice_qs o (o + c) qs
       | None => slice_qs 0 c qs
       end, w')
  end.

Definition list_active (filters : option data) (order_by : list string) (limit offset : option Z) :=
  list_ filters order_by limit offset true.

Definition filter_ (kws : data) (d : database) : result py_exn (list instance) :=
  validate_filter_keys kws ≫= fun _ => qs_filter d kws.

Definition exists_ (kws : data) (d : database) : result py_exn bool :=
  l ← filter_ kws d; Ok (bool_decide (l <> [])).

Definition count (filters : option data) (d : database) : result py_exn nat :=
  match default [] filters with
  | [] => Ok (length (query d (model svc) []))
  | f => l ← filter_ f d; Ok (length l)
  end.

(** ** Writes *)

Definition create (d : data) (u : user) : M instance := atomic (
  d1 ← pre_create svc d u;
  i ← construct (model svc) (apply_audit_dict d1 u true);
  i1 ← save false None i;
  post_create svc i1 u).

Fixpoint mapM_act {A B} (f : A -> M B) (l : list A) : M (list B) :=
  match l with
  | [] => mret []
  | x :: l' => y ← f x; ys ← mapM_act f l'; mret (y :: ys)
  end.

(** [QuerySet.bulk_create]: the rows are inserted as they are; with
    [ignore_conflicts] a rejected row is skipped. *)
Definition ignoring (ignore_conflicts : bool) (i : instance) : M instance := fun w =>
  match insert_row i w with
  | (Raise e, w') => if ignore_conflicts then (Ok i, w) else (Raise e, w')
  | ok => ok
  end.

Definition bulk_create (data_list : list data) (ignore_conflicts validate : bool)
    : M (list instance) := atomic (
  instances ← mapM_act (construct (model svc)) data_list;
  (if validate then for_each full_clean instances else mret tt) ≫= fun _ =>
  mapM_act (ignoring ignore_conflicts) instances).

Definition update (pk : Z) (d : data) (u : user) (active_only : bool) : M (option instance) := atomic (
  w ← get_state;
  o ← lift_result (locate pk active_only (w_db w));
  match o with
  | None => mret None
  | Some i =>
      '(i1, d1) ← pre_update svc i d u;
      changed ← lift_result (set_attrs i1 d1);
      i2 ← save false None (apply_audit_instance changed u false);
      i3 ← post_update svc i2 u;
      mret (Some i3)
  end).

Definition update_or_fail (pk : Z) (d : data) (u : user) (active_only : bool) : M instance := atomic (
  o ← update pk d u active_only;
  match o with
  | Some i => mret i
  | None => raise (not_found pk)
  end).

(** [QuerySet.bulk_update]: the named columns of each row. *)
Definition bulk_update_row (fields : list string) (i : instance) : M unit := fun w =>
  match i_pk i with
  | None => (Raise (Builtin "ValueError" "All bulk_update() objects must have a primary key set."), w)
  | Some pk =>
      match w_db w !! (i_model i, pk) with
      | None => (Ok tt, w)
      | Some r => write_row (i_model i) pk
                    (write_cols fields (fun _ => true) (i_attrs i) r) w
      end
  end.

Definition bulk_update (instances : list instance) (fields : list string) (validate : bool)
    : M unit := atomic (
  (if validate then for_each full_clean instances else mret tt) ≫= fun _ =>
  for_each (bulk_update_row fields) instances).

(** ** The soft-delete cascade *)

(** [getattr(current, accessor).filter(is_active=True)] *)
Definition refers_to (cur : key) (v : option pyval) : bool :=
  match v with
  | Some (VRef m z) => bool_decide ((m, z) = cur)
  | _ => false
  end.
Definition is_child (rel : relation) (cur k : key) (r : row) : bool :=
  bool_decide (k.1 = rel_model rel) && refers_to cur (r !! rel_fk rel) &&
  is_active_row r.

Definition children (d : database) (rel : relation) (cur : key) : list key :=
  (filter (fun kr : key * row => is_child rel cur kr.1 kr.2 = true) (map_to_list d)).*1.

(** [update_kwargs] applied to a row. *)
Definition deactivated (m : string) (u : user) (t : Z) (r : row) : row :=
  let r1 := <["updated_at" := VInt t]> (<["is_active" := VBool false]> r) in
  match u with
  | Some v => if has_field dj_schema m "updated_by" then <["updated_by" := v]> r1 else r1
  | None => r1
  end.

Definition related_update (rel : relation) (cur : key) (u : user) (t : Z) (d : database) : database :=
  map_imap (fun k r => Some (if is_child rel cur k r then deactivated k.1 u t r else r)) d.

(** The [for rel in current._meta.related_objects] loop: the rows it queues. *)
Fixpoint cascade_rels (rels : list relation) (cur : key) (u : user) : M (list key) :=
  match rels with
  | [] => mret []
  | rel :: rels' =>
      if negb (rel_cascade rel) || negb (has_is_active dj_schema (rel_model rel))
      then cascade_rels rels' cur u
      else if rel_one_to_one rel
      then raise (Builtin "AttributeError" "object has no attribute 'filter'")
      else
        w ← get_state;
        t ← now;
        if negb (has_field dj_schema (rel_model rel) "updated_at")
        then raise (Builtin "FieldDoesNotExist" "updated_at")
        else
          modify (fun w => with_db (related_update rel cur u t (w_db w)) w) ≫= fun _ =>
          rest ← cascade_rels rels' cur u;
          mret (children (w_db w) rel cur ++ rest)
  end.

Definition depth_cap_log (cur : key) (depth : nat) : log_entry :=
  Log "WARNING" "cascade_soft_delete depth cap reached"
    [("model", VStr cur.1); ("pk", VInt cur.2); ("depth", VInt (Z.of_nat depth));
     ("max_depth", VInt (Z.of_nat (MAX_CASCADE_DEPTH svc)))].

(** The [while frontier] loop; [None] when the fuel is used up. *)
Fixpoint cascade_loop (fuel : nat) (frontier : list (key * nat)) (u : user) : M (option unit) :=
  match frontier, fuel with
  | [], _ => mret (Some tt)
  | _ :: _, O => mret None
  | (cur, depth) :: rest, S fuel' =>
      if MAX_CASCADE_DEPTH svc <=? depth
      then modify (log (depth_cap_log cur depth)) ≫= fun _ => cascade_loop fuel' rest u
      else
        ch ← cascade_rels (m_related (dj_schema cur.1)) cur u;
        cascade_loop fuel' (rest ++ ((fun k => (k, S depth)) <$> ch)) u
  end.

(** One iteration for the root and one for every active row is enough. *)
Definition active_keys (d : database) : gset key := dom (filter (fun kr => is_active_row kr.2 = true) d).
Definition cascade_fuel (d : database) : nat := S (size (active_keys d)).

Definition cascade_soft_delete_bfs (root : key) (u : user) : M unit :=
  w ← get_state;
  o ← cascade_loop (cascade_fuel (w_db w)) [(root, 0)] u;
  match o with
  | Some _ => mret tt
  | None => raise (Builtin "RuntimeError" "out of fuel")
  end.

(** [delete] *)
Definition delete_ (pk : Z) (soft active_only cascade_soft_delete : bool) (u : user) : M bool := atomic (
  w ← get_state;
  o ← lift_result (locate pk active_only (w_db w));
  match o with
  | None => mret false
  | Some i =>
      i1 ← pre_delete svc i;
      i4 ← (if soft && (if i_get "is_active" i1 is Some _ then true else false)
            then
              let i2 := i_set "is_active" (VBool false) i1 in
              let stamp := match u with
                           | Some v => if truthy v then i_get "updated_by" i1 ≫= fun _ => Some v
                                       else None
                           | None => None
                           end in
              let i3 := match stamp with Some v => i_set "updated_by" v i2 | None => i2 end in
              let fields := ["is_active"; "updated_at"] ++
                match stamp with Some _ => ["updated_by_id"] | None => [] end in
              i4 ← save false (Some fields) i3;
              (if cascade_soft_delete
               then match i_pk i4 with
                    | Some pk' => cascade_soft_delete_bfs (i_model i4, pk') u
                    | None => mret tt
                    end
               else mret tt) ≫= fun _ => mret i4
            else hard_delete i1 ≫= fun _ => mret i1);
      post_delete svc i4 u ≫= fun _ =>
      mret true
  end).
End service.
