(* ===== verification/Cascade.v ===== *)
(** * The soft-delete cascade is exact

    What [BaseService._cascade_soft_delete_bfs] does to the tables: it ends,
    it deactivates exactly the active rows within [MAX_CASCADE_DEPTH] active
    CASCADE edges of the root, and changes nothing else. *)
From stdpp Require Import base list gmap strings pretty numbers sorting.
From Stdlib Require Import Ascii Lia ZArith.
From S2P Require Import Prelude PyStr PyVal Exceptions Orm Service.

Section cascade.
Context `{Django} (svc : service) (u : user).

(** ** The graph *)

Definition is_active (d : database) (k : key) : Prop :=
  exists r, d !! k = Some r /\ is_active_row r = true.

(** An edge the walk follows, through one of the relations [rels]. *)
Definition edge_via (rels : list relation) (d : database) (x c : key) : Prop :=
  exists rel r, rel ∈ rels /\ rel_cascade rel = true /\
    has_is_active dj_schema (rel_model rel) = true /\
    d !! c = Some r /\ c.1 = rel_model rel /\ refers_to x (r !! rel_fk rel) = true.
Definition edge (d : database) (x : key) : key -> Prop :=
  edge_via (m_related (dj_schema x.1)) d x.

(** A walk of [n] edges from the root over active rows. *)
Inductive walk (d : database) (root : key) : nat -> key -> Prop :=
| walk_root : walk d root 0 root
| walk_step n x c : walk d root n x -> edge d x c -> is_active d c -> walk d root (S n) c.

(** Rows within the cascade's reach. *)
Definition in_reach (d : database) (root k : key) : Prop :=
  exists n, 1 <= n <= MAX_CASCADE_DEPTH svc /\ walk d root n k.

(** Cascading relations have a plural accessor, and their model has the
    timestamp the update writes and a foreign key of its own. *)
Definition cascade_rel_ok (rel : relation) : Prop :=
  rel_cascade rel = true -> has_is_active dj_schema (rel_model rel) = true ->
  rel_one_to_one rel = false /\ has_field dj_schema (rel_model rel) "updated_at" = true /\
  rel_fk rel ∉ ["is_active"; "updated_at"; "updated_by"].
Definition cascade_schema : Prop :=
  forall m, Forall cascade_rel_ok (m_related (dj_schema m)).

(** ** One relation *)

Lemma deactivated_inactive m t r : is_active_row (deactivated m u t r) = false.
Proof.
  unfold is_active_row, deactivated. destruct u as [v|]; [destruct (has_field _ _ _)|]; row_simpl; done.
Qed.

Lemma deactivated_fk m t r f :
  f ∉ ["is_active"; "updated_at"; "updated_by"] -> deactivated m u t r !! f = r !! f.
Proof.
  rewrite !not_elem_of_cons. intros (H1 & H2 & H3 & _). unfold deactivated.
  destruct u as [v|]; [destruct (has_field _ _ _)|]; by row_simpl.
Qed.

Lemma related_update_lookup rel cur t d k :
  related_update rel cur u t d !! k =
  (fun r => if is_child rel cur k r then deactivated k.1 u t r else r) <$> d !! k.
Proof. unfold related_update. rewrite map_lookup_imap. by destruct (d !! k). Qed.

Lemma children_spec d rel cur k :
  k ∈ children d rel cur <-> exists r, d !! k = Some r /\ is_child rel cur k r = true.
Proof.
  unfold children. rewrite list_elem_of_fmap. split.
  - intros ([k' r] & -> & Hin). apply list_elem_of_filter in Hin as [Hc Hin].
    apply elem_of_map_to_list in Hin. eauto.
  - intros (r & Hr & Hc). exists (k, r). split; [done|].
    apply list_elem_of_filter. split; [done|]. by apply elem_of_map_to_list.
Qed.

Lemma children_NoDup d rel cur : NoDup (children d rel cur).
Proof.
  unfold children. apply (sublist_NoDup _ (map_to_list d).*1); [apply NoDup_fst_map_to_list|].
  apply fmap_sublist, sublist_filter.
Qed.

Lemma is_child_spec rel cur k r :
  is_child rel cur k r = true <->
  k.1 = rel_model rel /\ refers_to cur (r !! rel_fk rel) = true /\ is_active_row r = true.
Proof. unfold is_child. rewrite !andb_true_iff, bool_decide_eq_true. naive_solver. Qed.

Lemma is_child_deactivated rel cur k t r : is_child rel cur k (deactivated k.1 u t r) = false.
Proof. unfold is_child. rewrite deactivated_inactive. by rewrite andb_false_r. Qed.

(** ** The rows one node queues *)

(** From [d] to [d'] the rows [ch] have been deactivated and no other. *)
Definition deactivates (d d' : database) (ch : list key) : Prop :=
  forall k, (k ∉ ch -> d' !! k = d !! k) /\
    (k ∈ ch -> exists r t, d !! k = Some r /\ is_active_row r = true /\
                           d' !! k = Some (deactivated k.1 u t r)).

Lemma deactivates_active d d' ch k :
  deactivates d d' ch -> is_active d' k <-> is_active d k /\ k ∉ ch.
Proof.
  intros Hd. destruct (Hd k) as [Hout Hin]. unfold is_active.
  destruct (decide (k ∈ ch)) as [Hk|Hk].
  - destruct (Hin Hk) as (r & t & _ & _ & ->). split; [|naive_solver].
    intros (r' & [= <-] & Hr). by rewrite deactivated_inactive in Hr.
  - rewrite Hout by done. naive_solver.
Qed.

Lemma deactivates_edge rels d d' ch x c :
  Forall cascade_rel_ok rels -> deactivates d d' ch ->
  edge_via rels d' x c <-> edge_via rels d x c.
Proof.
  intros Hok Hd. destruct (Hd c) as [Hout Hin]. unfold edge_via.
  destruct (decide (c ∈ ch)) as [Hk|Hk]; [|by rewrite Hout].
  destruct (Hin Hk) as (r & t & -> & _ & ->).
  assert (Hfk : forall rel, rel ∈ rels -> rel_cascade rel = true ->
    has_is_active dj_schema (rel_model rel) = true ->
    deactivated c.1 u t r !! rel_fk rel = r !! rel_fk rel).
  { intros rel Hrel Hc Ha. rewrite list.Forall_forall in Hok.
    apply deactivated_fk. by apply (Hok rel Hrel Hc Ha). }
  split; intros (rel & r' & Hrel & Hc & Ha & [= <-] & Hm & Hr); exists rel; eexists;
    (split_and!; try done); rewrite Hfk in * by done; done.
Qed.

Lemma deactivates_app d d1 d2 ch1 ch2 :
  deactivates d d1 ch1 -> deactivates d1 d2 ch2 -> deactivates d d2 (ch1 ++ ch2).
Proof.
  intros H1 H2 k. pose proof (deactivates_active d d1 ch1 k H1) as Hact.
  destruct (H1 k) as [O1 I1], (H2 k) as [O2 I2].
  rewrite not_elem_of_app, elem_of_app. split.
  - intros [? ?]. rewrite O2, O1; done.
  - destruct (decide (k ∈ ch2)) as [Hk|Hk]; intros Hor.
    + destruct (I2 Hk) as (r & t & Hr & Ha & ?).
      assert (k ∉ ch1) as Hn by (apply Hact; by exists r).
      rewrite O1 in Hr by done. eauto.
    + destruct Hor as [Hk1|]; [|done]. rewrite O2 by done. by apply I1.
Qed.

Lemma related_update_deactivates rel cur t d :
  deactivates d (related_update rel cur u t d) (children d rel cur).
Proof.
  intros k. rewrite related_update_lookup. setoid_rewrite children_spec. split.
  - intros Hk. destruct (d !! k) as [r|] eqn:E; [|done]. simpl.
    destruct (is_child rel cur k r) eqn:Ec; [|done]. destruct Hk. eauto.
  - intros (r & -> & Hc). exists r, t. simpl. rewrite Hc. split_and!; try done.
    by apply is_child_spec in Hc as (_ & _ & ?).
Qed.

Lemma edge_via_cons rel rels d x c :
  edge_via (rel :: rels) d x c <-> edge_via [rel] d x c \/ edge_via rels d x c.
Proof. unfold edge_via. setoid_rewrite elem_of_cons. setoid_rewrite elem_of_nil. naive_solver. Qed.

Lemma cascade_rels_spec rels cur w :
  Forall cascade_rel_ok rels ->
  exists ch w', cascade_rels rels cur u w = (Ok ch, w') /\
    NoDup ch /\ deactivates (w_db w) (w_db w') ch /\
    (forall k, k ∈ ch <-> is_active (w_db w) k /\ edge_via rels (w_db w) cur k).
Proof.
  revert w. induction rels as [|rel rels IH]; intros w Hok.
  - exists [], w. split_and!; [done|constructor| |].
    + intros k. split; [done|]. by intros ?%elem_of_nil.
    + intros k. rewrite elem_of_nil. split; [done|]. intros (_ & rel & r & Hr & _).
      by apply elem_of_nil in Hr.
  - apply Forall_cons_iff in Hok as [Hrel Hok]. simpl cascade_rels.
    destruct (negb (rel_cascade rel) || negb (has_is_active dj_schema (rel_model rel))) eqn:E.
    + destruct (IH w Hok) as (ch & w' & Hrun & Hnd & Hd & Hch). exists ch, w'.
      split_and!; try done. intros k. rewrite edge_via_cons, Hch.
      assert (~ edge_via [rel] (w_db w) cur k); [|naive_solver].
      intros (rel' & r & ->%list_elem_of_singleton & Hc & Ha & _).
      by rewrite Hc, Ha in E.
    + apply orb_false_iff in E as [Hc%negb_false_iff Ha%negb_false_iff].
      destruct (Hrel Hc Ha) as (Ho & Hu & Hfk). rewrite Ho. run_act. rewrite Hu. simpl.
      set (t := dj_clock (w_ticks w)).
      set (w1 := with_db (related_update rel cur u t (w_db w))
                   (World (w_db w) (S (w_ticks w)) (w_seq w) (w_log w))).
      destruct (IH w1 Hok) as (ch & w' & Hrun & Hnd & Hd & Hch).
      exists (children (w_db w) rel cur ++ ch), w'.
      match goal with |- context [cascade_rels rels cur u ?W] => change W with w1 end.
      rewrite Hrun.
      pose proof (related_update_deactivates rel cur t (w_db w)) as Hd1.
      change (related_update rel cur u t (w_db w)) with (w_db w1) in Hd1.
      assert (Hch' : forall k, k ∈ ch <-> (is_active (w_db w) k /\ k ∉ children (w_db w) rel cur) /\
                                          edge_via rels (w_db w) cur k).
      { intros k. rewrite Hch, (deactivates_active _ _ _ _ Hd1).
        by rewrite (deactivates_edge rels _ _ _ _ _ Hok Hd1). }
      split_and!; [done| | |].
      * apply list.NoDup_app. split_and!; [apply children_NoDup| |done].
        intros k Hk Hk'. apply Hch' in Hk'. naive_solver.
      * by eapply deactivates_app.
      * intros k. rewrite elem_of_app, Hch', edge_via_cons.
        assert (Hone : k ∈ children (w_db w) rel cur <->
                       is_active (w_db w) k /\ edge_via [rel] (w_db w) cur k).
        { rewrite children_spec. unfold is_active, edge_via.
          setoid_rewrite is_child_spec. setoid_rewrite list_elem_of_singleton. naive_solver. }
        destruct (decide (k ∈ children (w_db w) rel cur)); naive_solver.
Qed.

(** ** The loop *)

Section loop.
Context (d0 : database) (root : key).
Context (Hschema : cascade_schema) (Hroot : ~ is_active d0 root).

(** [P] are the queue entries already served and [Q] those waiting, in the
    order they were queued. *)
Record loop_inv (P Q : list (key * nat)) (d : database) : Prop := {
  li_queued : exists L, P ++ Q = (root, 0) :: L /\ deactivates d0 d L.*1 /\
    (forall k n, (k, n) ∈ L -> 1 <= n <= MAX_CASCADE_DEPTH svc /\ walk d0 root n k);
  li_nodup : NoDup (P ++ Q).*1;
  li_served : forall x n c, (x, n) ∈ P -> n < MAX_CASCADE_DEPTH svc -> edge d0 x c ->
    is_active d0 c -> exists n', (c, n') ∈ P ++ Q /\ n' <= S n;
  li_depth : forall e q, e ∈ P ++ Q -> q ∈ Q -> e.2 <= S q.2;
  li_sorted : StronglySorted (fun a b : key * nat => a.2 <= b.2) Q;
}.

Lemma queued_walk P Q d k n : loop_inv P Q d -> (k, n) ∈ P ++ Q -> walk d0 root n k.
Proof.
  intros [(L & -> & _ & Hw) _ _ _ _]. rewrite elem_of_cons.
  intros [[= -> ->]|H1]; [constructor|by apply Hw].
Qed.

Lemma loop_start : loop_inv [] [(root, 0)] d0.
Proof.
  split.
  - exists []. split_and!; [done| |by intros ?? ?%elem_of_nil].
    intros k. split; [done|by intros ?%elem_of_nil].
  - apply NoDup_singleton.
  - by intros ??? ?%elem_of_nil.
  - intros e q ->%list_elem_of_singleton ->%list_elem_of_singleton. simpl. lia.
  - by repeat constructor.
Qed.

Lemma loop_cap P x n Q d :
  MAX_CASCADE_DEPTH svc <= n -> loop_inv P ((x, n) :: Q) d -> loop_inv (P ++ [(x, n)]) Q d.
Proof.
  intros Hn [Hq Hnd Hs Hd Hso]. rewrite cons_middle, app_assoc in Hq, Hnd, Hs, Hd.
  split; try done.
  - intros y m c. rewrite elem_of_app, list_elem_of_singleton.
    intros [Hin|[= -> ->]]; [by apply Hs|lia].
  - intros e q He Hq'. apply Hd; [done|]. by right.
  - by inversion Hso.
Qed.

Lemma loop_expand P x n Q d d' ch :
  n < MAX_CASCADE_DEPTH svc -> loop_inv P ((x, n) :: Q) d ->
  NoDup ch -> deactivates d d' ch ->
  (forall k, k ∈ ch <-> is_active d k /\ edge d x k) ->
  loop_inv (P ++ [(x, n)]) (Q ++ ((fun k => (k, S n)) <$> ch)) d'.
Proof.
  intros Hn Hinv Hndc Hdc Hch.
  assert (Hx : walk d0 root n x).
  { eapply queued_walk; [done|]. rewrite elem_of_app. right. left. }
  destruct Hinv as [(L & HL & Hd0 & Hw) Hnd Hs Hd Hso].
  rewrite cons_middle, app_assoc in HL, Hnd, Hs, Hd.
  set (PX := P ++ [(x, n)]) in *. set (new := (fun k => (k, S n)) <$> ch).
  assert (Hnew : forall e, e ∈ new -> e.2 = S n /\ e.1 ∈ ch).
  { intros e (k & -> & Hk)%list_elem_of_fmap. done. }
  assert (Hfst : new.*1 = ch).
  { unfold new. rewrite <- list_fmap_compose. apply list_fmap_id. }
  assert (Hedge : forall c, edge d x c <-> edge d0 x c).
  { intros c. eapply deactivates_edge; [apply Hschema|done]. }
  assert (Hact : forall k, is_active d k <-> is_active d0 k /\ k ∉ L.*1).
  { intros k. by apply deactivates_active. }
  apply StronglySorted_inv in Hso as [HsoQ HallQ]. rewrite list.Forall_forall in HallQ.
  assert (HleQ : forall q, q ∈ Q -> n <= q.2 <= S n).
  { intros q Hq. split; [by apply (HallQ q)|].
    apply (Hd q (x, n)); [rewrite elem_of_app; by right|left]. }
  assert (Hle : forall e, e ∈ PX ++ Q -> e.2 <= S n).
  { intros e He. apply (Hd e (x, n)); [done|left]. }
  split.
  - exists (L ++ new). split_and!.
    + by rewrite app_assoc, HL.
    + rewrite fmap_app, Hfst. by eapply deactivates_app.
    + intros k m. rewrite elem_of_app. intros [Hin|Hin]; [by apply Hw|].
      apply Hnew in Hin as [Hm Hk]. simpl in *. subst m. split; [lia|].
      apply Hch in Hk as [Ha He]. rewrite Hedge in He. apply Hact in Ha as [Ha _].
      by econstructor.
  - rewrite app_assoc, fmap_app, Hfst. apply list.NoDup_app. split_and!; [done| |done].
    intros k Hk Hk'. apply Hch in Hk' as [Ha _]. apply Hact in Ha as [Ha Hn'].
    rewrite HL, fmap_cons, elem_of_cons in Hk. destruct Hk as [->|Hk]; done.
  - intros y m c Hin Hm He Ha. rewrite app_assoc. setoid_rewrite (elem_of_app (PX ++ Q)).
    unfold PX in Hin. rewrite elem_of_app, list_elem_of_singleton in Hin.
    destruct Hin as [Hin|[= -> ->]].
    { destruct (Hs y m c Hin Hm He Ha) as (n' & ? & ?). eauto. }
    destruct (decide (c ∈ L.*1)) as [Hc|Hc].
    + apply list_elem_of_fmap in Hc as ([c' n'] & -> & Hc). exists n'.
      assert ((c', n') ∈ PX ++ Q) as Hc' by (rewrite HL; by right).
      split; [by left|]. apply (Hle _ Hc').
    + exists (S n). split; [|done]. right. apply list_elem_of_fmap. exists c.
      split; [done|]. apply Hch. rewrite Hedge, Hact. done.
  - intros e q. rewrite app_assoc, !(elem_of_app (PX ++ Q)), (elem_of_app Q).
    intros [He|He] [Hq|Hq].
    + etrans; [by apply Hle|]. destruct (HleQ q Hq). lia.
    + apply Hnew in Hq as [-> _]. apply Hle in He. lia.
    + apply Hnew in He as [-> _]. destruct (HleQ q Hq). lia.
    + apply Hnew in He as [-> _], Hq as [-> _]. lia.
  - apply StronglySorted_app. split_and!; [|done|].
    + intros a b Ha Hb. apply Hnew in Hb as [-> _]. by apply HleQ.
    + unfold new. clear. induction ch as [|k ch IH]; [constructor|].
      rewrite fmap_cons. constructor; [done|]. rewrite list.Forall_forall.
      intros e (k' & -> & _)%list_elem_of_fmap. done.
Qed.

Lemma active_keys_spec d k : k ∈ active_keys d <-> is_active d k.
Proof.
  unfold active_keys, is_active. rewrite elem_of_dom. unfold is_Some.
  setoid_rewrite map_lookup_filter_Some. naive_solver.
Qed.

(** Every row is queued at most once. *)
Lemma loop_length P Q d : loop_inv P Q d -> length (P ++ Q) <= S (size (active_keys d0)).
Proof.
  intros [(L & HL & Hd & _) Hnd _ _ _]. rewrite HL in *. simpl. apply le_n_S.
  rewrite fmap_cons, list.NoDup_cons in Hnd. destruct Hnd as [_ Hnd].
  rewrite <- (length_fmap fst L), <- (size_list_to_set (C := gset key)) by done.
  apply subseteq_size. intros k Hk%elem_of_list_to_set. apply active_keys_spec.
  destruct (Hd k) as [_ Hin]. destruct (Hin Hk) as (r & t & ? & ? & _). by exists r.
Qed.

Lemma cascade_loop_run fuel P Q w :
  loop_inv P Q (w_db w) -> S (size (active_keys d0)) <= fuel + length P ->
  exists w' P', cascade_loop svc fuel Q u w = (Ok (Some tt), w') /\ loop_inv P' [] (w_db w').
Proof.
  revert P Q w. induction fuel as [|fuel IH]; intros P [|[x n] Q] w Hinv Hf.
  - exists w, P. done.
  - apply loop_length in Hinv. rewrite length_app in Hinv. simpl in *. lia.
  - exists w, P. done.
  - simpl cascade_loop. destruct (MAX_CASCADE_DEPTH svc <=? n) eqn:E.
    + apply Nat.leb_le in E. run_act.
      apply (IH (P ++ [(x, n)])); [by apply loop_cap|rewrite length_app; simpl; lia].
    + apply Nat.leb_gt in E.
      destruct (cascade_rels_spec (m_related (dj_schema x.1)) x w (Hschema x.1))
        as (ch & w1 & Hrun & Hnd & Hd & Hch).
      unfold mbind, act_bind. rewrite Hrun.
      apply (IH (P ++ [(x, n)])); [by eapply loop_expand|rewrite length_app; simpl; lia].
Qed.

(** When the queue is empty the rows served are those in reach. *)
Lemma loop_end P d :
  loop_inv P [] d ->
  exists L, deactivates d0 d L /\ (forall k, k ∈ L <-> in_reach d0 root k).
Proof.
  intros [(L & HL & Hd & Hw) _ Hs _ _]. rewrite app_nil_r in *. exists L.*1. split; [done|].
  assert (Hall : forall k n, walk d0 root n k -> n <= MAX_CASCADE_DEPTH svc ->
                 exists n', (k, n') ∈ P /\ n' <= n).
  { intros k n Hk. induction Hk as [|n x c Hx IH He Ha]; intros Hn.
    - exists 0. rewrite HL. split; [left|lia].
    - destruct IH as (m & Hm & ?); [lia|].
      destruct (Hs x m c Hm ltac:(lia) He Ha) as (n' & Hn' & ?).
      exists n'. split; [done|lia]. }
  intros k. rewrite list_elem_of_fmap. split.
  - intros ([k' n] & -> & Hin). exists n. by apply Hw.
  - intros (n & Hn & Hk). destruct (Hall k n Hk ltac:(lia)) as (n' & Hin & _).
    rewrite HL, elem_of_cons in Hin. destruct Hin as [[= -> ->]|Hin]; [|by exists (k, n')].
    destruct Hroot. inversion Hk; subst; [lia|done].
Qed.

Lemma cascade_run w :
  w_db w = d0 ->
  exists w' L, cascade_soft_delete_bfs svc root u w = (Ok tt, w') /\
    deactivates d0 (w_db w') L /\ (forall k, k ∈ L <-> in_reach d0 root k).
Proof.
  intros E. unfold cascade_soft_delete_bfs. unfold get_state, mbind, act_bind.
  destruct (cascade_loop_run (cascade_fuel (w_db w)) [] [(root, 0)] w) as (w' & P' & Hrun & Hinv);
    [rewrite E; apply loop_start|unfold cascade_fuel; rewrite E; simpl; lia|].
  rewrite Hrun. destruct (loop_end _ _ Hinv) as (L & HL). by exists w', L.
Qed.
End loop.
End cascade.

(** ** Properties *)

(** C1: the soft-delete cascade ends (no fuel runs out, no exception) on
    every graph, cyclic ones included, and is exact: a row is deactivated,
    its timestamp renewed and the acting user stamped, if and only if it is
    reached from the root by at most [MAX_CASCADE_DEPTH] CASCADE edges
    over active rows; every other row of the database is untouched. *)
Theorem cascade_exact `{Django} svc u root w :
  cascade_schema -> ~ is_active (w_db w) root ->
  exists w', cascade_soft_delete_bfs svc root u w = (Ok tt, w') /\
    forall k,
      (in_reach svc (w_db w) root k ->
         exists r t, w_db w !! k = Some r /\ w_db w' !! k = Some (deactivated k.1 u t r)) /\
      (~ in_reach svc (w_db w) root k -> w_db w' !! k = w_db w !! k).
Proof.
  intros Hs Hr. destruct (cascade_run svc u (w_db w) root Hs Hr w eq_refl) as (w' & L & Hrun & Hd & HL).
  exists w'. split; [done|]. intros k. destruct (Hd k) as [Hout Hin]. rewrite <- HL.
  split; [|done]. intros Hk. destruct (Hin Hk) as (r & t & ? & _ & ?). eauto.
Qed.

(** Three rows in a cycle: 1 -> 2 -> 3 -> 1 of the one model "node". *)
Definition node_meta : model_meta :=
  Meta [("parent", VNone); ("is_active", VBool true); ("updated_at", VInt 0); ("updated_by", VNone)]
    [Rel "node" "parent" true false] [("parent", "node"); ("updated_by", "user")].
Definition sample_django : Django :=
  Build_Django (fun m => if String.eqb m "node" then node_meta else Meta [] [] [])
    Z.of_nat (fun _ _ => None) (fun _ _ _ _ => None) (fun _ _ _ => true) (fun _ _ => None)
    (fun _ l => l).
#[local] Existing Instance sample_django.
Definition node (parent : Z) (act : bool) : row :=
  list_to_map [("parent", VRef "node" parent); ("is_active", VBool act); ("updated_at", VInt 0);
               ("updated_by", VNone)].
Definition cycle_db : database :=
  list_to_map [(("node", 1%Z), node 3 false); (("node", 2%Z), node 1 true);
               (("node", 3%Z), node 2 true)].
Definition cycle_world : world := World cycle_db 0 4 [].

Lemma node_schema : cascade_schema.
Proof.
  intros m. unfold sample_django, dj_schema. destruct (String.eqb m "node"); [|constructor].
  constructor; [|constructor]. intros _ _. split; [reflexivity|]. split; [reflexivity|].
  apply (bool_decide_unpack _). by vm_compute.
Qed.

Lemma cascade_exact_witness :
  (exists w', cascade_soft_delete_bfs (base_service "node") ("node", 1%Z) (Some (VRef "user" 9))
     cycle_world = (Ok tt, w') /\
   forall k,
      (in_reach (base_service "node") cycle_db ("node", 1%Z) k ->
         exists r t, cycle_db !! k = Some r /\
           w_db w' !! k = Some (deactivated k.1 (Some (VRef "user" 9)) t r)) /\
      (~ in_reach (base_service "node") cycle_db ("node", 1%Z) k -> w_db w' !! k = cycle_db !! k)) /\
  (is_active_row <$> w_db (snd (cascade_soft_delete_bfs (base_service "node") ("node", 1%Z)
     (Some (VRef "user" 9)) cycle_world)) !! ("node", 3%Z)) = Some false.
Proof.
  split; [|vm_compute; reflexivity].
  apply (cascade_exact (base_service "node") (Some (VRef "user" 9)) ("node", 1%Z) cycle_world).
  - apply node_schema.
  - assert (Hoff : is_active_row <$> w_db cycle_world !! ("node", 1%Z) = Some false)
      by (vm_compute; reflexivity).
    intros (r & Hr & Ha). rewrite Hr in Hoff. cbn in Hoff. congruence.
Defined.
