(* ===== verification/ServiceFacts.v ===== *)
(** * What the service layer guarantees

    Reads stay within the page ceiling and the allow-lists and never surface
    soft-deleted rows; every write is all-or-nothing; an update whose data
    names no key touches one row; the audit timestamps stay in order along
    every sequence of writes whose data leaves keys and creation times alone.
    Two examples show what other data does. *)
From stdpp Require Import base list gmap strings pretty numbers sorting.
From Stdlib Require Import Ascii Lia ZArith.
From S2P Require Import Prelude PyStr PyVal Exceptions Orm Service Cascade.

Section facts.
Context `{HL : DjangoLaws} (svc : service).

(** ** Reads *)

Lemma slice_qs_ok {A} start stop (l l' : list A) :
  slice_qs start stop l = Ok l' ->
  (0 <= start)%Z /\ l' `sublist_of` l /\ (Z.of_nat (length l') <= Z.max 0 (stop - start))%Z.
Proof.
  unfold slice_qs, value_error. intros Hs. destruct ((start <? 0)%Z || (stop <? 0)%Z) eqn:E; [done|].
  apply orb_false_iff in E as [E1%Z.ltb_ge E2%Z.ltb_ge]. injection Hs as <-.
  split; [lia|]. split.
  - etrans; [apply sublist_take|apply sublist_drop].
  - rewrite length_take. lia.
Qed.

Lemma query_active d kws i :
  od_get "is_active" kws = Some (VBool true) -> i ∈ query d (model svc) kws ->
  exists pk r, d !! (model svc, pk) = Some r /\ i = load (model svc) pk r /\ is_active_row r = true.
Proof.
  intros Hk Hi. unfold query in Hi.
  apply list_elem_of_fmap in Hi as ([[m pk] r] & -> & Hin).
  apply list_elem_of_filter in Hin as [[Hm Hall] Hin]. apply elem_of_map_to_list in Hin.
  simpl in *. subst m. exists pk, r. split_and!; [done|done|].
  apply od_get_elem in Hk. unfold match_all in Hall. rewrite forallb_forall in Hall.
  apply list_elem_of_In in Hk. specialize (Hall _ Hk). unfold match_kw in Hall. simpl in Hall.
  by destruct (is_active_row r).
Qed.

Lemma validate_filter_keys_ok kws allowed :
  allowed_filter_fields svc = Some allowed ->
  validate_filter_keys svc kws = Ok tt <-> Forall (fun k => base_field k ∈ allowed) kws.*1.
Proof.
  intros Ha. unfold validate_filter_keys. rewrite Ha, for_check_Ok, Forall_fmap.
  apply Forall_proper; [|done]. intros kv. simpl. unfold value_error.
  destruct (str_in (base_field kv.1) allowed) eqn:E; [apply str_in_spec in E; naive_solver|].
  split; [done|]. intros H'%str_in_spec. congruence.
Qed.

Lemma validate_order_keys_ok keys allowed :
  allowed_order_fields svc = Some allowed ->
  validate_order_keys svc keys = Ok tt <->
  Forall (fun raw => base_field (lstrip (is_char "-") raw) ∈ allowed) keys.
Proof.
  intros Ha. unfold validate_order_keys. rewrite Ha, for_check_Ok.
  apply Forall_proper; [|done]. intros raw. unfold value_error.
  destruct (str_in _ allowed) eqn:E; [apply str_in_spec in E; naive_solver|].
  split; [done|]. intros H'%str_in_spec. congruence.
Qed.

Lemma log_fold es w : w_db (fold_left (fun w e => log e w) es w) = w_db w.
Proof. revert w. induction es as [|e es IH]; intros w; [done|]. simpl. by rewrite IH. Qed.

Lemma effective_filters_active filters :
  od_get "is_active" (effective_filters filters true) = Some (VBool true).
Proof. apply od_get_set_eq. Qed.

Lemma effective_filters_keys filters active_only k :
  k ∈ (default [] filters).*1 -> k ∈ (effective_filters filters active_only).*1.
Proof.
  intros Hk. unfold effective_filters. destruct active_only; [|done]. rewrite od_set_keys.
  destruct (decide _); [done|]. apply elem_of_app. by left.
Qed.

(** The rows a listing draws from. *)
Lemma list_rows filters order_by limit offset active_only w rows w' :
  list_ svc filters order_by limit offset active_only w = (Ok rows, w') ->
  w_db w' = w_db w /\
  exists qs, rows `sublist_of` qs /\
    (forall i, i ∈ qs -> i ∈ query (w_db w) (model svc) (effective_filters filters active_only)) /\
    (effective_filters filters active_only <> [] ->
     validate_filter_keys svc (effective_filters filters active_only) = Ok tt) /\
    (order_by <> [] -> validate_order_keys svc order_by = Ok tt) /\
    (Z.of_nat (length rows) <= Z.max 0 (capped_limit svc limit))%Z.
Proof.
  unfold list_. set (f := effective_filters filters active_only).
  assert (Hq : forall qs, (match f with
                | [] => Ok (query (w_db w) (model svc) [])
                | _ => validate_filter_keys svc f ≫= fun _ => qs_filter svc (w_db w) f
                end) = Ok qs ->
     qs = query (w_db w) (model svc) f /\ (f <> [] -> validate_filter_keys svc f = Ok tt)).
  { intros qs. destruct f as [|kv f'] eqn:Ef; [by intros [= <-]|].
    rewrite result_bind_ok. intros ([] & Hv & Hf). unfold qs_filter in Hf.
    destruct (dj_filter_check _ _); [done|]. injection Hf as <-. done. }
  unfold mbind at 1. unfold result_bind at 1.
  destruct (match f with [] => _ | _ :: _ => _ end) as [qs|e] eqn:E; [|done].
  destruct (Hq _ eq_refl) as [-> Hv].
  set (o := match order_by with [] => _ | _ :: _ => _ end).
  assert (Ho : forall qs', o = Ok qs' -> qs' ≡ₚ query (w_db w) (model svc) f /\
    (order_by <> [] -> validate_order_keys svc order_by = Ok tt)).
  { intros qs'. unfold o. destruct order_by; [by intros [= <-]|].
    rewrite result_bind_ok. intros ([] & Hk & [= <-]). split; [apply dj_order_perm|done]. }
  destruct o as [qs'|e]; [|done]. destruct (Ho _ eq_refl) as [Hp Hok]. clear Ho.
  intros H'. injection H' as Hs <-. rewrite log_fold. split; [done|]. exists qs'.
  assert (Hsl : exists a b, slice_qs a b qs' = Ok rows /\ (b - a = capped_limit svc limit)%Z).
  { destruct offset as [a|]; [exists a, (a + capped_limit svc limit)%Z
      |exists 0%Z, (capped_limit svc limit)]; (split; [done|lia]). }
  destruct Hsl as (a & b & (_ & Hsub & Hlen)%slice_qs_ok & Hab). rewrite Hab in Hlen.
  split_and!; try done. intros i. by rewrite Hp.
Qed.
End facts.

(** C5: [list] never returns more rows than [max_page_size], with or without
    a caller limit; by default it returns only active rows of the service's
    model; it changes no table; and it answers only what the allow-lists
    permit, whether or not deleted rows are asked for: with a filter allow-list
    every filter key, lookup suffix removed, is on it, the [is_active] that
    [active_only] adds included, and with an ordering allow-list every ordering
    key, its minus signs and suffix removed. *)
Theorem list_safe `{DjangoLaws} svc filters order_by limit offset active_only w rows w' :
  (0 <= max_page_size svc)%Z ->
  list_ svc filters order_by limit offset active_only w = (Ok rows, w') ->
  (Z.of_nat (length rows) <= max_page_size svc)%Z /\ w_db w' = w_db w /\
  (active_only = true -> Forall (fun i => exists pk r, w_db w !! (model svc, pk) = Some r /\
     i = load (model svc) pk r /\ is_active_row r = true) rows) /\
  (forall allowed, allowed_filter_fields svc = Some allowed ->
     Forall (fun k => base_field k ∈ allowed) (default [] filters).*1 /\
     (active_only = true -> "is_active" ∈ allowed)) /\
  (forall allowed, allowed_order_fields svc = Some allowed ->
     Forall (fun raw => base_field (lstrip (is_char "-") raw) ∈ allowed) order_by).
Proof.
  intros Hm Hl. apply list_rows in Hl as (Hdb & qs & Hsub & Hqs & Hv & Ho & Hlen).
  unfold capped_limit in Hlen. split_and!; [lia|done| | |].
  - intros ->. rewrite list.Forall_forall. intros i Hi.
    apply (query_active svc _ (effective_filters filters true)); [apply effective_filters_active|].
    apply Hqs. eapply elem_of_sublist; eauto.
  - intros allowed Ha.
    assert (Hall : Forall (fun k => base_field k ∈ allowed) (effective_filters filters active_only).*1).
    { destruct (effective_filters filters active_only) as [|kv f] eqn:Ef; [constructor|].
      apply (validate_filter_keys_ok svc _ allowed Ha), Hv. done. }
    rewrite list.Forall_forall in Hall. split.
    + apply list.Forall_forall. intros k Hk. by apply Hall, effective_filters_keys.
    + intros ->. apply (Hall "is_active"), od_mem_spec. unfold od_mem. by rewrite effective_filters_active.
  - intros allowed Ha. destruct order_by as [|raw l]; [constructor|].
    apply (validate_order_keys_ok svc _ allowed Ha), Ho. done.
Qed.

(** A table with one active and one deleted row. *)
Definition two_rows : world :=
  World (list_to_map [(("node", 1%Z), node 0 true); (("node", 2%Z), node 0 false)]) 0 3 [].
#[local] Existing Instance sample_django.
Lemma sample_laws : DjangoLaws.
Proof.
  split; [intros i j; simpl; lia|done|]. intros m. unfold sample_django, dj_schema.
  destruct (String.eqb m "node"); apply (bool_decide_unpack _); by vm_compute.
Qed.

Lemma list_safe_witness :
  exists rows w', list_ (base_service "node") None [] (Some 1000%Z) None true two_rows = (Ok rows, w') /\
    length rows = 1 /\ (Z.of_nat (length rows) <= 100)%Z /\ w_db w' = w_db two_rows.
Proof.
  destruct (list_ (base_service "node") None [] (Some 1000%Z) None true two_rows) as [res w'] eqn:E.
  assert (Hres : (match (list_ (base_service "node") None [] (Some 1000%Z) None true two_rows).1 with
                  | Ok rows => length rows | Raise _ => 0 end) = 1) by (vm_compute; reflexivity).
  rewrite E in Hres. cbn [fst] in Hres. destruct res as [rows|]; [|discriminate Hres].
  exists rows, w'. split; [reflexivity|]. split; [exact Hres|].
  destruct (@list_safe sample_django sample_laws (base_service "node") None [] (Some 1000%Z) None
    true two_rows rows w' ltac:(discriminate) E) as (Hlen & Hdb & _).
  split; [exact Hlen|exact Hdb].
Defined.

(** ** Setting attributes *)
Section attributes.
Context `{Django}.

(** The value the data gives a column last, by whichever of its names. *)
Fixpoint given (m f : string) (d : data) : option pyval :=
  match d with
  | [] => None
  | kv :: d' => or_else (given m f d')
      (if decide (column_of m kv.1 = f) then Some (column_value m kv.1 kv.2) else None)
  end.

Lemma given_None m f d : given m f d = None <-> Forall (fun kv => column_of m kv.1 <> f) d.
Proof.
  induction d as [|kv d IH]; cbn [given]; [done|]. rewrite list.Forall_cons, <- IH.
  destruct (given m f d); cbn [or_else]; [split; [done|by intros [_ ?]]|].
  destruct (decide _); naive_solver.
Qed.

(** A name that is neither [pk] nor ends in [_id] is its own column. *)
Definition plain (k : string) : Prop := k <> "pk" /\ strip_suffix "_id" k = None.

Lemma plain_column m k v : plain k -> column_of m k = k /\ column_value m k v = v.
Proof.
  intros [Hk Hs]. unfold column_of, column_value, fk_attname. rewrite Hs. cbn.
  rewrite bool_decide_eq_false_2 by done. by destruct (has_field _ _ _).
Qed.

Lemma given_plain m f d : NoDup d.*1 -> Forall plain d.*1 -> given m f d = od_get f d.
Proof.
  induction d as [|[k v] d IH]; [done|]. rewrite !fmap_cons, list.NoDup_cons, list.Forall_cons.
  intros [Hk Hnd] [Hp Hd]. cbn [given od_get fst snd]. rewrite IH by done.
  destruct (plain_column m k v Hp) as [-> ->]. destruct (decide (k = f)) as [->|].
  - apply od_get_None in Hk. cbn [fst] in Hk. by rewrite Hk.
  - by destruct (od_get f d).
Qed.
End attributes.

(** ** Saving one instance *)

Section saving.
Context `{Django}.

Lemma write_cols_lookup fields sel attrs r f :
  write_cols fields sel attrs r !! f =
  if bool_decide (f ∈ fields) && sel f then or_else (attrs !! f) (r !! f) else r !! f.
Proof.
  unfold write_cols. revert r. induction fields as [|g fields IH]; intros r; cbn [fold_left].
  { by rewrite bool_decide_eq_false_2 by apply not_elem_of_nil. }
  rewrite IH. destruct (decide (f = g)) as [->|Hne].
  - rewrite (bool_decide_eq_true_2 (g ∈ g :: fields)) by left. cbn [andb].
    destruct (sel g); [|by rewrite andb_false_r]. rewrite andb_true_r.
    destruct (attrs !! g) eqn:Ea; simpl; row_simpl; by destruct (bool_decide _).
  - assert (bool_decide (f ∈ g :: fields) = bool_decide (f ∈ fields)) as ->.
    { apply bool_decide_ext. rewrite elem_of_cons. naive_solver. }
    destruct (sel g); [|done]. destruct (attrs !! g); [|done]. by row_simpl.
Qed.

(** The instance after [auto_now] stamped it, when it did. *)
Definition stamped (f : string) (cond : bool) (t : Z) (i : instance) : instance :=
  if cond && has_field dj_schema (i_model i) f then i_set f (VInt t) i else i.

Lemma auto_stamp_run f cond i w :
  exists w', auto_stamp f cond i w = (Ok (stamped f cond (dj_clock (w_ticks w)) i), w') /\
    w_db w' = w_db w /\ w_seq w' = w_seq w /\ w_ticks w <= w_ticks w'.
Proof.
  unfold auto_stamp, stamped. destruct (cond && has_field _ _ _); run_act; eexists;
    (split; [reflexivity|]); simpl; auto.
Qed.

Lemma stamped_model f cond t i : i_model (stamped f cond t i) = i_model i.
Proof. unfold stamped. by destruct (_ && _). Qed.

Lemma stamped_pk f cond t i : f <> "id" -> i_pk (stamped f cond t i) = i_pk i.
Proof. intros Hf. unfold stamped, i_pk. destruct (_ && _); simpl; [|done]. by row_simpl. Qed.

(** A save that returns: an UPDATE of the row or an INSERT. *)
Inductive save_outcome (uf : option (list string)) (i i' : instance) (w w' : world) : Prop :=
| saved_update pk r t :
    i_pk i = Some pk -> w_db w !! (i_model i, pk) = Some r ->
    i' = stamped "updated_at" (saved uf "updated_at") t i ->
    t = dj_clock (w_ticks w) -> w_ticks w <= w_ticks w' ->
    w_db w' = <[(i_model i, pk) :=
      write_cols (field_names (i_model i)) (saved uf) (i_attrs i') r]> (w_db w) ->
    save_outcome uf i i' w w'
| saved_insert pk n1 n2 :
    (forall z, i_pk i = Some z -> z = pk) -> w_db w !! (i_model i, pk) = None ->
    i' = i_set "id" (VInt pk) (stamped "updated_at" true (dj_clock n2)
           (stamped "created_at" true (dj_clock n1) i)) ->
    w_ticks w <= n1 <= n2 -> n2 <= w_ticks w' -> 
    w_db w' = <[(i_model i, pk) := write_cols (field_names (i_model i)) (fun _ => true)
      (i_attrs (stamped "updated_at" true (dj_clock n2)
           (stamped "created_at" true (dj_clock n1) i))) ∅]> (w_db w) ->
    save_outcome uf i i' w w'.

Lemma write_row_ok m pk r w w' :
  write_row m pk r w = (Ok tt, w') -> w' = with_db (<[(m, pk) := r]> (w_db w)) w.
Proof. unfold write_row. destruct (dj_constraints _ _ _ _); naive_solver. Qed.

Lemma insert_row_ok uf i w i' w' :
  insert_row i w = (Ok i', w') -> save_outcome uf i i' w w'.
Proof.
  unfold insert_row. rewrite bind_ok. intros (i1 & w1 & H1 & H2).
  destruct (auto_stamp_run "created_at" true i w) as (w1' & Hr1 & Hdb1 & Hs1 & Ht1).
  rewrite Hr1 in H1. injection H1 as <- <-. rewrite bind_ok in H2. destruct H2 as (i2 & w2 & H1 & H2).
  set (c := stamped "created_at" true (dj_clock (w_ticks w)) i) in *.
  destruct (auto_stamp_run "updated_at" true c w1') as (w2' & Hr2 & Hdb2 & Hs2 & Ht2).
  rewrite Hr2 in H1. injection H1 as <- <-. rewrite bind_ok in H2. destruct H2 as (pk & w3 & H1 & H2).
  set (i2 := stamped "updated_at" true (dj_clock (w_ticks w1')) c) in *.
  assert (Hpk : (forall z, i_pk i = Some z -> z = pk) /\ w_db w3 = w_db w2' /\ w_ticks w3 = w_ticks w2').
  { assert (i_pk i2 = i_pk i) as E by (unfold i2, c; by rewrite !stamped_pk).
    rewrite E in H1. destruct (i_pk i); run_act; unfold next_seq in *; simplify_eq/=; naive_solver. }
  clear H1. destruct Hpk as (Hpk & Hdb3 & Ht3). rewrite bind_ok in H2. destruct H2 as (w4 & w5 & H1 & H2).
  unfold get_state in H1. injection H1 as <- <-.
  destruct (w_db w3 !! (i_model i, pk)) eqn:E; [done|].
  rewrite bind_ok in H2. destruct H2 as ([] & w6 & H1%write_row_ok & H2).
  unfold mret, act_ret in H2. injection H2 as <- <-. subst w6.
  assert (w_db w3 = w_db w) as Hdb by congruence. rewrite Hdb in *.
  eapply (saved_insert _ _ _ _ _ pk (w_ticks w) (w_ticks w1')); simpl; try done; lia.
Qed.

Lemma save_ok sv uf i w i' w' : save sv uf i w = (Ok i', w') -> save_outcome uf i i' w w'.
Proof.
  unfold save. rewrite bind_ok. intros ([] & w1 & Hc & Hsv).
  assert (w1 = w) as ->.
  { destruct sv; unfold full_clean in Hc; run_act; [naive_solver|].
    destruct (dj_full_clean _ _); naive_solver. }
  unfold django_save in Hsv. rewrite bind_ok in Hsv. destruct Hsv as (w0 & w1 & Hg & Hsv).
  unfold get_state in Hg. injection Hg as <- <-.
  destruct (i_pk i) as [pk|] eqn:Epk; [|by eapply insert_row_ok].
  destruct (w_db w !! (i_model i, pk)) as [r|] eqn:Er.
  - rewrite bind_ok in Hsv. destruct Hsv as (i1 & w1 & Hi1 & Hw1).
    destruct (auto_stamp_run "updated_at" (saved uf "updated_at") i w) as (w2 & Hr & Hdb & Hs & Ht).
    rewrite Hr in Hi1. injection Hi1 as <- <-.
    rewrite bind_ok in Hw1. destruct Hw1 as ([] & w3 & Hi1%write_row_ok & Hw1).
    unfold mret, act_ret in Hw1. injection Hw1 as <- <-. subst w3. rewrite Hdb.
    eapply saved_update; eauto.
  - destruct uf; [done|]. by eapply insert_row_ok.
Qed.

(** ** Failing saves *)

(** [m] never touches the tables; [m] touches them only when it returns. *)
Definition pure_db {A} (m : M A) : Prop := forall w r w', m w = (r, w') -> w_db w' = w_db w.
Definition raise_safe {A} (m : M A) : Prop :=
  forall w e w', m w = (Raise e, w') -> w_db w' = w_db w.

Lemma pure_raise_safe {A} (m : M A) : pure_db m -> raise_safe m.
Proof. intros Hm w e w'. apply Hm. Qed.

Lemma pure_mret {A} (a : A) : pure_db (mret a).
Proof. intros w r w'. by intros [= <- <-]. Qed.

Lemma pure_bind {A B} (m : M A) (k : A -> M B) : pure_db m -> (forall a, pure_db (k a)) -> pure_db (m ≫= k).
Proof.
  intros Hm Hk w r w'. unfold mbind, act_bind. destruct (m w) as [[a|e] w1] eqn:E; apply Hm in E.
  - intros H1%Hk. congruence.
  - intros [= <- <-]. done.
Qed.

Lemma raise_safe_bind {A B} (m : M A) (k : A -> M B) :
  pure_db m -> (forall a, raise_safe (k a)) -> raise_safe (m ≫= k).
Proof.
  intros Hm Hk w e w'. unfold mbind, act_bind. destruct (m w) as [[a|e'] w1] eqn:E; apply Hm in E.
  - intros H1%Hk. congruence.
  - intros [= <- <-]. done.
Qed.

Lemma raise_safe_ret {A B} (m : M A) (f : A -> B) :
  raise_safe m -> raise_safe (m ≫= fun a => mret (f a)).
Proof.
  intros Hm w e w'. unfold mbind, act_bind. destruct (m w) as [[a|e'] w1] eqn:E; [done|].
  intros [= <- <-]. by eapply Hm.
Qed.

Lemma write_row_safe m pk r : raise_safe (write_row m pk r).
Proof. intros w e w'. unfold write_row. destruct (dj_constraints _ _ _ _); naive_solver. Qed.

Lemma auto_stamp_pure f c i : pure_db (auto_stamp f c i).
Proof.
  intros w r w'. destruct (auto_stamp_run f c i w) as (w1 & -> & ? & _). by intros [= <- <-].
Qed.

Lemma insert_row_safe i : raise_safe (insert_row i).
Proof.
  unfold insert_row. apply raise_safe_bind; [apply auto_stamp_pure|intros i1].
  apply raise_safe_bind; [apply auto_stamp_pure|intros i2].
  apply raise_safe_bind; [destruct (i_pk i2); [apply pure_mret|by intros w r w' [= <- <-]]|intros pk].
  apply raise_safe_bind; [by intros w r w' [= <- <-]|intros w].
  destruct (w_db w !! _); [by intros w0 e w' [= <- <-]|].
  apply (raise_safe_ret _ (fun _ => i_set "id" (VInt pk) i2)), write_row_safe.
Qed.

Lemma save_safe sv uf i : raise_safe (save sv uf i).
Proof.
  unfold save. apply raise_safe_bind.
  { destruct sv; [apply pure_mret|]. intros w r w'. unfold full_clean.
    destruct (dj_full_clean _ _); by intros [= <- <-]. }
  intros _. unfold django_save. apply raise_safe_bind; [by intros w r w' [= <- <-]|intros w].
  destruct (i_pk i) as [pk|]; [|apply insert_row_safe].
  destruct (w_db w !! _).
  - apply raise_safe_bind; [apply auto_stamp_pure|intros i1].
    apply (raise_safe_ret _ (fun _ => i1)), write_row_safe.
  - destruct uf; [by intros w0 e w' [= <- <-]|apply insert_row_safe].
Qed.
End saving.

(** ** Services with the default hooks *)
Record quiet (svc : service) : Prop := {
  q_pre_create : forall d u w, pre_create svc d u w = (Ok d, w);
  q_post_create : forall i u w, post_create svc i u w = (Ok i, w);
  q_pre_update : forall i d u w, pre_update svc i d u w = (Ok (i, d), w);
  q_post_update : forall i u w, post_update svc i u w = (Ok i, w);
  q_pre_delete : forall i w, pre_delete svc i w = (Ok i, w);
  q_post_delete : forall i u w, post_delete svc i u w = (Ok tt, w);
}.

Lemma base_service_quiet m : quiet (base_service m).
Proof. by split. Qed.

Section writes.
Context `{Django} (svc : service) (Hq : quiet svc).

Lemma locate_ok pk ao d o : locate svc pk ao d = Ok o -> o = first_by_pk d (model svc) pk ao.
Proof. unfold locate. destruct (_ && _); naive_solver. Qed.

Lemma first_by_pk_Some d m pk ao i :
  first_by_pk d m pk ao = Some i ->
  exists r, d !! (m, pk) = Some r /\ i = load m pk r /\ (ao = true -> is_active_row r = true).
Proof.
  unfold first_by_pk. destruct (d !! (m, pk)) as [r|]; [|done].
  destruct (negb ao || is_active_row r) eqn:E; [|done]. intros [= <-].
  exists r. split_and!; [done|done|]. intros ->. by destruct (is_active_row r).
Qed.

Lemma set_attrs_ok i (d : data) i' :
  set_attrs i d = Ok i' ->
  i_model i' = i_model i /\ forall f, i_attrs i' !! f = or_else (given (i_model i) f d) (i_attrs i !! f).
Proof.
  revert i. induction d as [|kv d IH]; intros i; cbn [set_attrs given]; [by intros [= <-]|].
  rewrite result_bind_ok. intros (i1 & H1 & (Hm & Hl)%IH). unfold set_attr in H1.
  destruct (fk_accepts _ _ _); [|done]. injection H1 as <-. cbn [i_model i_set] in *. split; [done|].
  intros f. rewrite Hl. destruct (given _ _ d); [done|]. cbn [or_else i_attrs i_set].
  destruct (decide (column_of (i_model i) kv.1 = f)) as [<-|Hne]; row_simpl; by destruct (i_attrs i !! _).
Qed.

Lemma audit_instance_model i u b : i_model (apply_audit_instance i u b) = i_model i.
Proof. unfold apply_audit_instance, stamp_instance. destruct u as [v|]; [|done].
  destruct (truthy v); [|done]. by destruct (i_get _ i). Qed.

Lemma audit_instance_lookup i u f :
  f <> "updated_by" -> i_attrs (apply_audit_instance i u false) !! f = i_attrs i !! f.
Proof.
  intros Hf. unfold apply_audit_instance, stamp_instance. destruct u as [v|]; [|done].
  destruct (truthy v); [|done]. destruct (i_get _ i); [|done]. simpl. by row_simpl.
Qed.

Lemma stamped_lookup f cond t i g : g <> f -> i_attrs (stamped f cond t i) !! g = i_attrs i !! g.
Proof. intros Hf. unfold stamped. destruct (_ && _); simpl; [|done]. by row_simpl. Qed.

(** What an update did, seen from its outcome. *)
Lemma update_outcome pk (d : data) u ao w res w' :
  update svc pk d u ao w = (res, w') ->
  match res with
  | Raise _ => w' = w
  | Ok None => w' = w /\ first_by_pk (w_db w) (model svc) pk ao = None
  | Ok (Some i') => exists i, first_by_pk (w_db w) (model svc) pk ao = Some i /\
      exists i1, set_attrs i d = Ok i1 /\
      save_outcome None (apply_audit_instance i1 u false) i' w w'
  end.
Proof.
  unfold update. destruct res as [o|e]; [|by apply atomic_rollback].
  rewrite atomic_ok, bind_ok. intros (w0 & w1 & Hg & Hr). unfold get_state in Hg. injection Hg as <- <-.
  rewrite bind_ok in Hr. destruct Hr as (o' & w1 & Hl & Hr).
  unfold lift_result in Hl. injection Hl as Hl <-. apply locate_ok in Hl. rewrite <- Hl.
  destruct o' as [i|]; [|by run_act; simplify_eq].
  rewrite bind_ok in Hr. destruct Hr as ([i1 d1] & w1 & Hp & Hr).
  rewrite (q_pre_update _ Hq) in Hp. injection Hp as <- <- <-.
  rewrite bind_ok in Hr. destruct Hr as (ic & w1 & Hset & Hr).
  unfold lift_result in Hset. injection Hset as Hset <-.
  rewrite bind_ok in Hr. destruct Hr as (i2 & w2 & Hs%save_ok & Hr).
  rewrite bind_ok in Hr. destruct Hr as (i3 & w3 & Hp & Hr).
  rewrite (q_post_update _ Hq) in Hp. injection Hp as <- <-. run_act. injection Hr as <- <-. eauto.
Qed.
End writes.

(** C3: for a service without hooks of its own, as every service of the
    repository is, and data that sets the primary key under neither of its
    names ([id], [pk]), [update] is all-or-nothing and touches one row.  It
    returns nothing only when the row is missing (or deleted, with
    [active_only]); when it returns the row, each column holds the value the
    data gives it last, by the field's name or as [f_id] for a foreign key, or
    else its old one, the acting user and a fresh timestamp aside, and every
    other row of the database is untouched; when it raises, nothing has
    changed.  [update_moves] below is what happens to data with a key. *)
Theorem update_one_row `{Django} svc pk d u ao w res w' :
  quiet svc -> given (model svc) "id" d = None ->
  update svc pk d u ao w = (res, w') ->
  match res with
  | Raise _ => w' = w
  | Ok None => w' = w /\ first_by_pk (w_db w) (model svc) pk ao = None
  | Ok (Some i) => exists r r', w_db w !! (model svc, pk) = Some r /\
      (ao = true -> is_active_row r = true) /\ w_db w' = <[(model svc, pk) := r']> (w_db w) /\
      (forall f, f ∈ field_names (model svc) -> f ∉ ["id"; "updated_at"; "updated_by"] ->
         r' !! f = or_else (given (model svc) f d) (r !! f)) /\
      ("updated_at" ∈ field_names (model svc) ->
         r' !! "updated_at" = Some (VInt (dj_clock (w_ticks w)))) /\
      (forall v old, u = Some v -> truthy v = true -> r !! "updated_by" = Some old ->
         "updated_by" ∈ field_names (model svc) -> r' !! "updated_by" = Some v)
  end.
Proof.
  intros Hq Hid Hu. apply update_outcome in Hu; [|done]. destruct res as [[i'|]|e]; [|done|done].
  destruct Hu as (i & (r & Hr & -> & Ha)%first_by_pk_Some & ic & (Hmc & Hset)%set_attrs_ok & Hs).
  cbn [i_model i_attrs load] in Hmc, Hset.
  set (i1 := apply_audit_instance ic u false) in Hs.
  assert (Hm : i_model i1 = model svc) by (unfold i1; by rewrite audit_instance_model).
  assert (Hpk : i_pk i1 = Some pk).
  { unfold i_pk, i1. rewrite audit_instance_lookup, Hset, Hid by done. cbn. by row_simpl. }
  destruct Hs as [pk' r0 t Hpk' Hr0 Hi' Ht _ Hdb|pk' n1 n2 Hpk' Hr0];
    [|apply Hpk' in Hpk as <-; rewrite Hm in Hr0; congruence].
  rewrite Hm in *. assert (pk' = pk) as -> by congruence. assert (r0 = r) as -> by congruence.
  exists r. eexists. split_and!; [done|done|exact Hdb| | |].
  - intros f Hf. rewrite !not_elem_of_cons. intros (Hf1 & Hf2 & Hf3 & _).
    rewrite write_cols_lookup, bool_decide_eq_true_2 by done. simpl.
    rewrite Hi', stamped_lookup by done. unfold i1.
    rewrite audit_instance_lookup, Hset by done. row_simpl.
    by destruct (given (model svc) f d), (r !! f).
  - intros Hf. rewrite write_cols_lookup, bool_decide_eq_true_2 by done. cbn [andb saved].
    rewrite Hi'. unfold stamped. rewrite Hm. unfold has_field.
    rewrite bool_decide_eq_true_2 by done. cbn [andb saved i_set i_attrs]. row_simpl. by rewrite Ht.
  - intros v old -> Hv Hold Hf. rewrite write_cols_lookup, bool_decide_eq_true_2 by done. cbn [andb saved].
    rewrite Hi', stamped_lookup by done. unfold i1, apply_audit_instance. rewrite Hv.
    unfold stamp_instance, i_get, audit_field.
    rewrite Hset. row_simpl. rewrite Hold.
    by destruct (given (model svc) "updated_by" d); cbn; row_simpl.
Qed.

Lemma update_one_row_witness :
  exists r', w_db (snd (update (base_service "node") 1 [("parent", VRef "node" 2)]
                          (Some (VRef "user" 9)) true two_rows)) =
             <[("node", 1%Z) := r']> (w_db two_rows) /\
    r' !! "updated_by" = Some (VRef "user" 9).
Proof.
  destruct (update (base_service "node") 1 [("parent", VRef "node" 2)] (Some (VRef "user" 9))
              true two_rows) as [res w'] eqn:E.
  pose proof (update_one_row (base_service "node") 1 [("parent", VRef "node" 2)]
    (Some (VRef "user" 9)) true two_rows res w' (base_service_quiet _) eq_refl E) as Ht.
  assert (Hres : (match (update (base_service "node") 1 [("parent", VRef "node" 2)] (Some (VRef "user" 9))
      true two_rows).1 with Ok (Some _) => true | _ => false end) = true) by (vm_compute; reflexivity).
  rewrite E in Hres. cbn [fst] in Hres. destruct res as [[i|]|]; [|discriminate Hres..].
  destruct Ht as (r & r' & Hr & _ & Hdb & _ & _ & Hu). exists r'. split; [exact Hdb|].
  assert (Hold : w_db two_rows !! ("node", 1%Z) ≫= (fun r => r !! "updated_by") = Some VNone)
    by (vm_compute; reflexivity).
  cbn [model base_service] in Hr. rewrite Hr in Hold.
  apply (Hu (VRef "user" 9) VNone); [reflexivity|reflexivity|exact Hold|].
  apply (bool_decide_unpack _). vm_compute. exact I.
Defined.

(** Data with a key moves the write: [update(1, {"pk": 2})] finds row 1 and
    saves its columns into row 2. *)
Example update_moves :
  let w' := snd (update (base_service "node") 1 [("pk", VInt 2)] None true two_rows) in
  w_db w' !! ("node", 1%Z) = w_db two_rows !! ("node", 1%Z) /\
  (w_db two_rows !! ("node", 2%Z) ≫= fun r => r !! "is_active") = Some (VBool false) /\
  (w_db w' !! ("node", 2%Z) ≫= fun r => r !! "is_active") = Some (VBool true).
Proof. split_and!; by vm_compute. Qed.

(** ** The audit timestamps *)

(** [created_at <= updated_at <= now] on the rows of a model with both. *)
Definition stamps_ok `{Django} (n : nat) (k : key) (r : row) : Prop :=
  "created_at" ∈ field_names k.1 -> "updated_at" ∈ field_names k.1 ->
  exists a b, r !! "created_at" = Some (VInt a) /\ r !! "updated_at" = Some (VInt b) /\
    (a <= b <= dj_clock n)%Z.
Definition stamps_inv `{Django} (w : world) : Prop :=
  forall k r, w_db w !! k = Some r -> stamps_ok (w_ticks w) k r.

(** The writes of the service layer, as steps. *)
Inductive service_write `{Django} (w w' : world) : Prop :=
| write_create svc d u res :
    quiet svc -> given (model svc) "id" d = None -> create svc d u w = (res, w') -> service_write w w'
| write_update svc pk (d : data) u ao res :
    quiet svc -> given (model svc) "id" d = None -> given (model svc) "created_at" d = None ->
    update svc pk d u ao w = (res, w') -> service_write w w'
| write_delete svc pk soft ao casc u res :
    quiet svc -> delete_ svc pk soft ao casc u w = (res, w') -> service_write w w'.

Section stamps.
Context `{HL : DjangoLaws}.

Lemma stamps_ok_mono n n' k r : n <= n' -> stamps_ok n k r -> stamps_ok n' k r.
Proof.
  intros Hn Hs H1 H2. destruct (Hs H1 H2) as (a & b & ? & ? & ?).
  exists a, b. pose proof (dj_clock_mono n n' Hn). split_and!; try done; lia.
Qed.

Lemma stamps_inv_upd w w' k r :
  stamps_inv w -> w_ticks w <= w_ticks w' -> w_db w' = <[k := r]> (w_db w) ->
  stamps_ok (w_ticks w') k r -> stamps_inv w'.
Proof.
  intros Hi Ht Hdb Hr k' r'. rewrite Hdb. intros [[<- <-]|[_ Hk]]%lookup_insert_Some; [done|].
  eauto using stamps_ok_mono.
Qed.

Lemma stamps_inv_same w w' :
  stamps_inv w -> w_ticks w <= w_ticks w' -> w_db w' = w_db w -> stamps_inv w'.
Proof. intros Hi Ht Hdb k r. rewrite Hdb. eauto using stamps_ok_mono. Qed.

(** Saving keeps the timestamps ordered, provided the instance still carries
    its row's creation time and the save writes [updated_at]. *)
Lemma save_stamps uf i i' w w' :
  stamps_inv w -> save_outcome uf i i' w w' -> saved uf "updated_at" = true ->
  (forall pk r, i_pk i = Some pk -> w_db w !! (i_model i, pk) = Some r ->
     i_attrs i !! "created_at" = r !! "created_at") ->
  stamps_inv w'.
Proof.
  intros Hi Hs Huf Hc. destruct Hs as [pk r t Hpk Hr Hi' Ht Htk Hdb|pk n1 n2 Hpk Hr Hi' Hn1 Hn2 Hdb].
  - eapply stamps_inv_upd; [done|done|exact Hdb|]. intros H1 H2. simpl in *.
    destruct (Hi _ _ Hr H1 H2) as (a & b & Ha & Hb & Hab). simpl in *.
    rewrite !write_cols_lookup, !bool_decide_eq_true_2, Huf by done.
    rewrite Hi'. rewrite stamped_lookup by done. rewrite (Hc pk r Hpk Hr), Ha.
    unfold stamped, has_field. rewrite Huf, bool_decide_eq_true_2 by done. simpl. row_simpl.
    exists a, t. split_and!; [by destruct (saved uf "created_at")|done| |].
    + subst t. lia.
    + subst t. by apply dj_clock_mono.
  - eapply stamps_inv_upd; [done| |exact Hdb|]; [lia|]. intros H1 H2. simpl in *.
    rewrite !write_cols_lookup, !bool_decide_eq_true_2 by done. cbn [andb].
    rewrite stamped_lookup by done. unfold stamped, has_field.
    rewrite !(bool_decide_eq_true_2 (_ ∈ (m_fields (dj_schema (i_model i))).*1)) by done.
    cbn [andb i_model i_set i_attrs]. row_simpl. cbn [or_else].
    eexists _, _. split_and!; [done|done|by apply dj_clock_mono; lia|by apply dj_clock_mono; lia].
Qed.

Lemma deactivated_stamps m u t r :
  deactivated m u t r !! "created_at" = r !! "created_at" /\
  deactivated m u t r !! "updated_at" = Some (VInt t).
Proof.
  unfold deactivated. destruct u; [destruct (has_field _ _ _)|]; by row_simpl.
Qed.

Lemma cascade_rels_stamps rels cur u w res w' :
  stamps_inv w -> cascade_rels rels cur u w = (res, w') -> stamps_inv w'.
Proof.
  revert w res. induction rels as [|rel rels IH]; intros w res Hi; simpl.
  { run_act. by intros [= <- <-]. }
  destruct (_ || _); [by apply IH|]. destruct (rel_one_to_one rel); [by run_act; intros [= <- <-]|].
  run_act. destruct (negb _).
  { intros [= <- <-]. eapply stamps_inv_same; [done| |done]. simpl. lia. }
  match goal with |- context [cascade_rels rels cur u ?W] => set (w1 := W) end.
  assert (Hw1 : stamps_inv w1).
  { intros k r. unfold w1. simpl. rewrite related_update_lookup. intros Hk.
    destruct (w_db w !! k) as [r0|] eqn:E; [|done]. simpl in Hk. injection Hk as <-.
    specialize (Hi k r0 E). destruct (is_child rel cur k r0); [|eapply stamps_ok_mono; [|done]; lia].
    intros H1 H2. destruct (Hi H1 H2) as (a & b & Ha & Hb & Hab).
    destruct (deactivated_stamps k.1 u (dj_clock (w_ticks w)) r0) as [-> ->].
    exists a, (dj_clock (w_ticks w)). split_and!; [done|done|lia|]. apply dj_clock_mono. lia. }
  destruct (cascade_rels rels cur u w1) as [[ch|e] w2] eqn:E; intros [= <- <-]; by eapply IH.
Qed.

Lemma cascade_loop_stamps svc fuel Q u w res w' :
  stamps_inv w -> cascade_loop svc fuel Q u w = (res, w') -> stamps_inv w'.
Proof.
  revert Q w res. induction fuel as [|fuel IH]; intros [|[x n] Q] w res Hi; simpl;
    try (by run_act; intros [= <- <-]).
  destruct (_ <=? n).
  - unfold modify, mbind, act_bind. apply IH. eapply stamps_inv_same; [done| |done]. done.
  - unfold mbind, act_bind.
    destruct (cascade_rels _ _ _ _) as [[ch|e] w1] eqn:E; apply cascade_rels_stamps in E; try done.
    + by apply IH.
    + by intros [= <- <-].
Qed.

Lemma cascade_stamps svc root u w res w' :
  stamps_inv w -> cascade_soft_delete_bfs svc root u w = (res, w') -> stamps_inv w'.
Proof.
  intros Hi. unfold cascade_soft_delete_bfs, get_state. unfold mbind, act_bind.
  destruct (cascade_loop _ _ _ _ _) as [[o|e] w1] eqn:E; apply cascade_loop_stamps in E; try done.
  - destruct o; run_act; by intros [= <- <-].
  - by intros [= <- <-].
Qed.

(** A constructed instance holds what the data gives, or the default. *)
Lemma construct_ok m (d : data) w i w' :
  construct m d w = (Ok i, w') ->
  w' = w /\ i_model i = m /\ exists d', d' ≡ₚ d /\
    forall f, i_attrs i !! f = or_else (given m f d') ((list_to_map (m_fields (dj_schema m)) : row) !! f).
Proof.
  unfold construct. destruct (List.partition _ d) as [named others] eqn:E1.
  destruct (List.partition _ others) as [known unknown] eqn:E2.
  apply partition_perm in E1, E2. rewrite bind_ok. intros (i0 & w0 & Hs & Hr).
  unfold lift_result in Hs. injection Hs as (Hm & Hl)%set_attrs_ok <-.
  destruct unknown; [|done]. unfold mret, act_ret in Hr. injection Hr as <- <-. split_and!; [done|done|].
  exists (named ++ known). split; [|done]. rewrite app_nil_r in E2. by rewrite E2.
Qed.

Lemma construct_plain m (d : data) w i w' :
  NoDup d.*1 -> Forall plain d.*1 -> construct m d w = (Ok i, w') ->
  w' = w /\ i_model i = m /\
  forall f, i_attrs i !! f = or_else (od_get f d) ((list_to_map (m_fields (dj_schema m)) : row) !! f).
Proof.
  intros Hnd Hp (-> & Hm & d' & Hd & Hl)%construct_ok. split_and!; [done|done|]. intros f.
  rewrite Hl, given_plain, (od_get_perm d' d); rewrite ?Hd; done.
Qed.

Lemma constructed_pk m (d : data) w i w' :
  given m "id" d = None -> construct m d w = (Ok i, w') -> w' = w /\ i_pk i = None /\ i_model i = m.
Proof.
  intros Hid (-> & Hm & d' & Hd & Hl)%construct_ok. split_and!; [done| |done]. unfold i_pk. rewrite Hl.
  assert (given m "id" d' = None) as -> by (apply given_None; rewrite Hd; by apply given_None).
  rewrite (not_elem_of_list_to_map_1 _ _ (dj_schema_id m)). done.
Qed.

Lemma audit_dict_id m (d : data) u : given m "id" d = None -> given m "id" (apply_audit_dict d u true) = None.
Proof.
  intros Hid. unfold apply_audit_dict, stamp_dict, od_setdefault. destruct u; [|done].
  destruct (truthy p); [|done]. destruct (od_mem _ _) eqn:Em; [done|].
  assert (od_get "created_by" d = None) as Hn by (unfold od_mem in Em; by destruct (od_get _ d)).
  cbn [audit_field]. rewrite given_None in *. rewrite od_set_new by done. apply Forall_app. split; [done|].
  apply Forall_singleton. cbn [fst]. by destruct (plain_column m "created_by" VNone) as [-> _].
Qed.

Lemma create_stamps svc (d : data) u w res w' :
  quiet svc -> given (model svc) "id" d = None -> stamps_inv w -> create svc d u w = (res, w') -> stamps_inv w'.
Proof.
  intros Hq Hid Hi. unfold create. destruct res as [i'|e]; [|by intros ->%atomic_rollback].
  rewrite atomic_ok, bind_ok. intros (d1 & w1 & Hp & Hr).
  rewrite (q_pre_create _ Hq) in Hp. injection Hp as <- <-.
  rewrite bind_ok in Hr. destruct Hr as (i & w1 & Hc & Hr).
  apply constructed_pk in Hc as (-> & Hpk & _); [|by apply audit_dict_id].
  rewrite bind_ok in Hr. destruct Hr as (i1 & w1 & Hs%save_ok & Hr).
  rewrite (q_post_create _ Hq) in Hr. injection Hr as <- <-.
  eapply save_stamps; [done|exact Hs|done|]. intros pk r Hpk'. congruence.
Qed.

Lemma update_stamps svc pk (d : data) u ao w res w' :
  quiet svc -> given (model svc) "id" d = None -> given (model svc) "created_at" d = None -> stamps_inv w ->
  update svc pk d u ao w = (res, w') -> stamps_inv w'.
Proof.
  intros Hq Hid Hc Hi Hu. apply update_outcome in Hu; [|done].
  destruct res as [[i'|]|e]; [|by destruct Hu as [-> _]|by subst].
  destruct Hu as (i & (r & Hr & -> & Ha)%first_by_pk_Some & ic & (Hm & Hset)%set_attrs_ok & Hs).
  cbn [i_model i_attrs load] in Hm, Hset.
  eapply save_stamps; [done|exact Hs|done|]. intros pk' r' Hpk' Hr'.
  rewrite audit_instance_model, Hm in Hr'. unfold i_pk in Hpk'.
  rewrite audit_instance_lookup, Hset in Hpk' |- * by done. rewrite Hid in Hpk'. rewrite Hc.
  cbn in Hpk' |- *. revert Hpk'. row_simpl. intros [= <-]. simplify_eq. done.
Qed.

Lemma soft_fields_only f l :
  f ∉ ["is_active"; "updated_at"; "updated_by"; "updated_by_id"] ->
  l = ["is_active"; "updated_at"] ++ [] \/ l = ["is_active"; "updated_at"] ++ ["updated_by_id"] ->
  saved (Some l) f = false.
Proof.
  rewrite !not_elem_of_cons. intros (H1 & H2 & H3 & H4 & _) Hl.
  assert (E1 : f +:+ "_id" <> "is_active").
  { intros E. destruct (str_app_inj f "is_act" "_id" "ive" eq_refl E) as [_ E']. discriminate. }
  assert (E2 : f +:+ "_id" <> "updated_at").
  { intros E. destruct (str_app_inj f "updated" "_id" "_at" eq_refl E) as [_ E']. discriminate. }
  assert (E3 : f +:+ "_id" <> "updated_by_id").
  { intros E. by destruct (str_app_inj f "updated_by" "_id" "_id" eq_refl E). }
  unfold saved. rewrite !bool_decide_eq_false_2; [done| |];
    destruct Hl as [->| ->]; cbn [app]; rewrite !not_elem_of_cons;
      split_and!; try done; apply not_elem_of_nil.
Qed.

(** A service delete, seen from its outcome. *)
Lemma delete_outcome svc pk soft ao casc u w b w' :
  quiet svc -> delete_ svc pk soft ao casc u w = (Ok b, w') ->
  match first_by_pk (w_db w) (model svc) pk ao with
  | None => b = false /\ w' = w
  | Some i => b = true /\
      if soft && (if i_get "is_active" i is Some _ then true else false)
      then exists fields i3 i4 w1,
             i_pk i3 = Some pk /\ i_model i3 = model svc /\ saved (Some fields) "updated_at" = true /\
             saved (Some fields) "is_active" = true /\
             i_attrs i3 !! "created_at" = i_attrs i !! "created_at" /\
             i_attrs i3 !! "is_active" = Some (VBool false) /\
             (forall f, f ∉ ["is_active"; "updated_at"; "updated_by"; "updated_by_id"] ->
                saved (Some fields) f = false) /\
             save_outcome (Some fields) i3 i4 w w1 /\
             if casc then exists pk', i_pk i4 = Some pk' /\
               cascade_soft_delete_bfs svc (i_model i4, pk') u w1 = (Ok tt, w')
             else w' = w1
      else w' = with_db (delete (model svc, pk) (w_db w)) w
  end.
Proof.
  intros Hq. unfold delete_. rewrite atomic_ok, bind_ok.
  intros (w0 & w1 & Hg & Hr). unfold get_state in Hg. injection Hg as <- <-.
  rewrite bind_ok in Hr. destruct Hr as (o' & w1 & Hl & Hr).
  unfold lift_result in Hl. injection Hl as Hl <-. apply locate_ok in Hl. rewrite <- Hl.
  destruct o' as [i|]; [|by run_act; simplify_eq].
  symmetry in Hl. apply first_by_pk_Some in Hl as (r & Hr0 & -> & Ha).
  rewrite bind_ok in Hr. destruct Hr as (i1 & w1 & Hp & Hr).
  rewrite (q_pre_delete _ Hq) in Hp. injection Hp as <- <-.
  rewrite bind_ok in Hr. destruct Hr as (i4 & w2 & Hbody & Hr).
  rewrite bind_ok in Hr. destruct Hr as ([] & w3 & Hp & Hr).
  rewrite (q_post_delete _ Hq) in Hp. injection Hp as <-.
  unfold mret, act_ret in Hr. injection Hr as <- <-.
  split; [done|].
  revert Hbody. destruct (soft && _); intros Hbody.
  - cbv zeta in Hbody. rewrite bind_ok in Hbody. destruct Hbody as (i5 & w3 & Hs%save_ok & Hbody).
    match type of Hs with save_outcome (Some ?fs) ?i3 _ _ _ => exists fs, i3, i5, w3 end.
    set (st := match u with Some v => _ | None => None end) in *.
    split_and!; try done.
    + destruct st; unfold i_pk; simpl; by row_simpl.
    + by destruct st.
    + destruct st; simpl; by row_simpl.
    + destruct st; simpl; by row_simpl.
    + intros f Hf. apply soft_fields_only; [done|]. by destruct st; [right|left].
    + rewrite bind_ok in Hbody. destruct Hbody as ([] & w4 & Hc & Hb).
      run_act. injection Hb as <- <-. destruct casc; [|by injection Hc].
      destruct (i_pk i5) as [pk'|] eqn:E; [by exists pk'|].
      destruct Hs as [pk' r' t Hpk' _ -> _ _ _|pk' n1 n2 _ _ -> _ _ _];
        [|unfold i_pk in E; simpl in E; revert E; by row_simpl].
      by rewrite stamped_pk, Hpk' in E.
  - rewrite bind_ok in Hbody. destruct Hbody as ([] & w3 & Hh & Hb). run_act. injection Hb as <- <-.
    unfold hard_delete, i_pk in Hh. simpl in Hh. revert Hh. row_simpl. by intros [= <-].
Qed.

Lemma delete_stamps svc pk soft ao casc u w res w' :
  quiet svc -> stamps_inv w -> delete_ svc pk soft ao casc u w = (res, w') -> stamps_inv w'.
Proof.
  intros Hq Hi Hd. destruct res as [b|e].
  2: { unfold delete_ in Hd. by apply atomic_rollback in Hd as ->. }
  apply delete_outcome in Hd; [|done].
  destruct (first_by_pk (w_db w) (model svc) pk ao) as [i|] eqn:Ef; [|by destruct Hd as [_ ->]].
  apply first_by_pk_Some in Ef as (r & Hr & -> & _). destruct Hd as [_ Hd].
  destruct (soft && _).
  - destruct Hd as (fields & i3 & i4 & w1 & Hpk & Hm & Hu & _ & Hc & _ & _ & Hs & Hcasc).
    assert (stamps_inv w1) as H1.
    { eapply save_stamps; [done|exact Hs|done|]. intros pk' r'. rewrite Hpk, Hm.
      intros [= <-] Hr'. rewrite Hc. simpl. row_simpl. congruence. }
    destruct casc; [|by subst]. destruct Hcasc as (pk' & _ & Hrun). by eapply cascade_stamps.
  - subst w'. intros k r'. simpl. intros [_ Hk]%lookup_delete_Some. by apply Hi.
Qed.

Lemma service_write_stamps w w' : stamps_inv w -> service_write w w' -> stamps_inv w'.
Proof. intros Hi []; eauto using create_stamps, update_stamps, delete_stamps. Qed.
End stamps.

(** C4: every row of a model with both audit timestamps keeps
    [created_at <= updated_at <= now] under any sequence of service creates,
    updates and (soft, cascading or hard) deletes, failing ones included, whose
    data names neither the primary key (creates and updates) nor [created_at]
    (updates), by services without hooks of their own: nothing in the cascade,
    the audit stamping or the saving itself puts them out of order.  Data that
    does name [created_at] can ([update_backdates] below). *)
Theorem audit_timestamps_ordered `{DjangoLaws} w w' :
  stamps_inv w -> rtc service_write w w' -> stamps_inv w'.
Proof. intros Hi Hr. induction Hr; eauto using service_write_stamps. Qed.

(** A model with both timestamps. *)
Definition audited_django : Django :=
  Build_Django (fun _ => Meta [("name", VStr ""); ("created_at", VNone); ("updated_at", VNone);
                               ("is_active", VBool true)] [] [])
    Z.of_nat (fun _ _ => None) (fun _ _ _ _ => None) (fun _ _ _ => true) (fun _ _ => None)
    (fun _ l => l).
Lemma audited_laws : @DjangoLaws audited_django.
Proof.
  split; [intros i j; simpl; lia|done|]. intros m. apply (bool_decide_unpack _). by vm_compute.
Qed.

Lemma audit_timestamps_ordered_witness :
  exists w, bool_decide (is_Some (w_db w !! ("doc", 1%Z))) = true /\ @stamps_inv audited_django w.
Proof.
  exists (snd (@update audited_django (base_service "doc") 1 [("name", VStr "b")] None true
            (snd (@create audited_django (base_service "doc") [("name", VStr "a")] None
                    (World ∅ 5 1 []))))).
  split; [vm_compute; reflexivity|].
  apply (@audit_timestamps_ordered audited_django audited_laws (World ∅ 5 1 [])).
  - intros k r Hk. simpl in Hk. by rewrite lookup_empty in Hk.
  - eapply rtc_l; [|apply rtc_once].
    + eapply (@write_create audited_django _ _ (base_service "doc") [("name", VStr "a")] None);
        [apply base_service_quiet|by vm_compute|apply surjective_pairing].
    + eapply (@write_update audited_django _ _ (base_service "doc") 1 [("name", VStr "b")] None true);
        [apply base_service_quiet|by vm_compute|by vm_compute|apply surjective_pairing].
Defined.

(** A caller that passes [created_at] to an update puts a row's creation after
    its last change, where no constraint stops it. *)
Example update_backdates :
  let w := snd (@create audited_django (base_service "doc") [("name", VStr "a")] None (World ∅ 5 1 [])) in
  let w' := snd (@update audited_django (base_service "doc") 1 [("created_at", VInt 99)] None true w) in
  (w_db w' !! ("doc", 1%Z) ≫= fun r => r !! "created_at") = Some (VInt 99) /\
  (w_db w' !! ("doc", 1%Z) ≫= fun r => r !! "updated_at") = Some (VInt 7).
Proof. split; by vm_compute. Qed.

(** C2: a soft delete that finds its row deactivates that row and, through
    the cascade, exactly the rows within reach of it; it changes no other
    column of the row than [is_active], [updated_at] and [updated_by], and no
    other row; one that does not find it (or finds it deleted already) answers
    false and changes nothing. *)
Theorem soft_delete_exact `{DjangoLaws} svc pk ao u w b w' :
  quiet svc -> cascade_schema -> "is_active" ∈ field_names (model svc) ->
  delete_ svc pk true ao true u w = (Ok b, w') ->
  (forall r, w_db w !! (model svc, pk) = Some r -> is_Some (r !! "is_active")) ->
  match first_by_pk (w_db w) (model svc) pk ao with
  | None => b = false /\ w' = w
  | Some _ => b = true /\ exists r r' d1,
      w_db w !! (model svc, pk) = Some r /\ d1 = <[(model svc, pk) := r']> (w_db w) /\
      is_active_row r' = false /\
      (forall f, f ∉ ["is_active"; "updated_at"; "updated_by"; "updated_by_id"] ->
         r' !! f = r !! f) /\
      w_db w' !! (model svc, pk) = Some r' /\
      forall k, k <> (model svc, pk) ->
        (in_reach svc d1 (model svc, pk) k ->
           exists r0 t, w_db w !! k = Some r0 /\ w_db w' !! k = Some (deactivated k.1 u t r0)) /\
        (~ in_reach svc d1 (model svc, pk) k -> w_db w' !! k = w_db w !! k)
  end.
Proof.
  intros Hq Hsch Hact Hd Hrow. apply delete_outcome in Hd; [|done].
  destruct (first_by_pk (w_db w) (model svc) pk ao) as [i|] eqn:Ef; [|done].
  apply first_by_pk_Some in Ef as (r & Hr & -> & _). destruct Hd as [-> Hd]. split; [done|].
  destruct (Hrow r Hr) as [act Hact0].
  unfold i_get in Hd. cbn [load i_attrs] in Hd. rewrite lookup_insert_ne, Hact0 in Hd by done.
  cbn [andb] in Hd.
  destruct Hd as (fields & i3 & i4 & w1 & Hpk & Hm & Hu & Hsa & _ & Hia & Hother & Hs & pk' & Hpk' & Hrun).
  destruct Hs as [pk0 r0 t Hpk0 Hr0 Hi4 Ht _ Hdb|pk0 n1 n2 Hpk0 Hr0];
    [|apply Hpk0 in Hpk; subst; rewrite Hm in Hr0; congruence].
  rewrite Hm in *. assert (pk0 = pk) as -> by congruence. assert (r0 = r) as -> by congruence.
  rewrite Hi4, stamped_pk, Hpk in Hpk' by done. injection Hpk' as <-.
  rewrite Hi4, stamped_model, Hm in Hrun.
  set (r' := write_cols _ _ _ _) in Hdb.
  assert (Hr' : is_active_row r' = false).
  { unfold is_active_row, r'. rewrite write_cols_lookup, bool_decide_eq_true_2, Hsa by done.
    simpl. by rewrite Hi4, stamped_lookup, Hia. }
  destruct (cascade_run svc u (w_db w1) (model svc, pk) Hsch) with (w := w1)
    as (w2 & L & Hrun' & Hde & HL); [|done|].
  { intros (r1 & Hr1 & Ha). rewrite Hdb, lookup_insert_eq in Hr1. congruence. }
  assert (w2 = w') as -> by congruence. clear Hrun'.
  assert (Hroot : (model svc, pk) ∉ L).
  { intros Hin. destruct (Hde (model svc, pk)) as [_ Hin']. destruct (Hin' Hin) as (r1 & t1 & Hr1 & Ha & _).
    rewrite Hdb, lookup_insert_eq in Hr1. congruence. }
  exists r, r', (w_db w1). split_and!; [done|done|done| | |].
  - intros f Hf. unfold r'. rewrite write_cols_lookup, Hother by done. by rewrite andb_false_r.
  - destruct (Hde (model svc, pk)) as [Hout _]. by rewrite Hout, Hdb, lookup_insert_eq.
  - intros k Hk. destruct (Hde k) as [Hout Hin]. rewrite <- HL. split.
    + intros Hk'. destruct (Hin Hk') as (r1 & t1 & Hr1 & _ & Hr2).
      rewrite Hdb, lookup_insert_ne in Hr1 by done. eauto.
    + intros Hk'. by rewrite Hout, Hdb, lookup_insert_ne.
Qed.

Lemma soft_delete_exact_witness :
  exists w', delete_ (base_service "node") 2 true true true (Some (VRef "user" 9))
    (World (list_to_map [(("node", 1%Z), node 2 true); (("node", 2%Z), node 0 true)]) 0 3 []) =
    (Ok true, w') /\
  exists r', w_db w' !! ("node", 2%Z) = Some r' /\ is_active_row r' = false.
Proof.
  set (w := World _ 0 3 []).
  destruct (delete_ (base_service "node") 2 true true true (Some (VRef "user" 9)) w) as [res w'] eqn:E.
  assert (Hres : (delete_ (base_service "node") 2 true true true (Some (VRef "user" 9)) w).1 = Ok true)
    by (vm_compute; reflexivity).
  rewrite E in Hres. cbn [fst] in Hres. subst res. exists w'. split; [reflexivity|].
  pose proof (@soft_delete_exact sample_django sample_laws (base_service "node") 2 true
    (Some (VRef "user" 9)) w true w' (base_service_quiet _) node_schema
    ltac:(apply (bool_decide_unpack _); by vm_compute) E) as Ht.
  assert (forall r, w_db w !! (model (base_service "node"), 2%Z) = Some r -> is_Some (r !! "is_active"))
    as Hrow.
  { assert (Ha : w_db w !! ("node", 2%Z) ≫= (fun r => r !! "is_active") = Some (VBool true))
      by (vm_compute; reflexivity).
    intros r Hr. cbn [model base_service] in Hr. rewrite Hr in Ha. eexists. exact Ha. }
  specialize (Ht Hrow).
  assert (Hf : bool_decide (is_Some (first_by_pk (w_db w) "node" 2 true)) = true)
    by (vm_compute; reflexivity).
  cbn [model base_service] in Ht. destruct (first_by_pk _ _ _ _); [|discriminate Hf].
  destruct Ht as (_ & r & r' & d1 & _ & _ & Ha & _ & Hr & _). exists r'. by split.
Defined.
