(* ===== verification/Responses.v ===== *)
(** * The response builders

    [core/base/response.py] and [core/responses/*.py]: the envelope the views
    answer with, and the pagination arithmetic of [PaginatedResponse]. *)
From stdpp Require Import base list gmap strings pretty numbers.
From Stdlib Require Import Ascii Lia ZArith.
From S2P Require Import Prelude PyStr PyVal Exceptions Handler.

Section responses.
(** [_request_id_var.get(None)] *)
Context (ctx_rid : option string).

Definition base_response (success : bool) (message : string) (data errors : pyval)
    (request_id : option string) (status_code : Z) : response :=
  Response status_code
    [(KStr "success", VBool success); (KStr "message", VStr message); (KStr "data", data);
     (KStr "errors", errors); (KStr "request_id", vopt_str (rid_or request_id ctx_rid))] [].

Definition success_response (data : pyval) (message : string) (status_code : Z) : response :=
  base_response true message data VNone None status_code.

Definition error_response (message : string) (errors : option (list pyval)) (status_code : Z)
    : response :=
  base_response false message VNone (match errors with Some l => VList l | None => VNone end)
    None status_code.

(** A Django [Page], by the attributes the code reads. *)
Record page := Page {
  pg_items : list pyval;
  pg_count : Z;
  pg_per_page : Z;
  pg_number : Z;
  pg_num_pages : Z;
  pg_has_previous : bool;
  pg_has_next : bool;
}.

(** [math.ceil(total_count / page_size)], exact for the counts a table can
    have (below 2^53). *)
Definition ceil_div (a b : Z) : Z := (- ((- a) / b))%Z.

Record pagination := Pagination {
  total_count : Z;
  page_size : Z;
  page_number : Z;
  total_pages : Z;
  has_previous : bool;
  has_next : bool;
}.

(** The two ways of filling the [pagination] block. *)
Definition paginate (pg : option page) (items : option (list pyval))
    (count size number : option Z) : result py_exn (list pyval * pagination) :=
  match pg with
  | Some p =>
      Ok (default (pg_items p) items,
          Pagination (pg_count p) (pg_per_page p) (pg_number p) (pg_num_pages p)
            (pg_has_previous p) (pg_has_next p))
  | None =>
      match count, size, number with
      | Some c, Some s, Some n =>
          let pages := if (0 <? s)%Z then ceil_div c s else 0%Z in
          Ok (default [] items, Pagination c s n pages (1 <? n)%Z (n <? pages)%Z)
      | _, _, _ =>
          Raise (Builtin "ValueError"
            ("When 'page' is not provided, 'total_count', 'page_size', " +:+
             "and 'page_number' are required."))
      end
  end.

Definition pagination_value (p : pagination) : pyval :=
  VDict [(KStr "total_count", VInt (total_count p)); (KStr "page_size", VInt (page_size p));
         (KStr "page_number", VInt (page_number p)); (KStr "total_pages", VInt (total_pages p));
         (KStr "has_previous", VBool (has_previous p)); (KStr "has_next", VBool (has_next p))].

Definition paginated_response (pg : option page) (items : option (list pyval))
    (count size number : option Z) (message : string) (status_code : Z) : result py_exn response :=
  '(its, p) ← paginate pg items count size number;
  Ok (base_response true message
        (VDict [(KStr "items", VList its); (KStr "pagination", pagination_value p)])
        VNone None status_code).

(** [StandardPageNumberPagination.get_paginated_response] *)
Definition get_paginated_response (p : page) (data : list pyval) : result py_exn response :=
  paginated_response (Some p) (Some data) None None None "Success" 200.
End responses.

(** ** Lemmas *)

Lemma ceil_div_spec a b : (0 < b)%Z ->
  (b * (ceil_div a b - 1) < a <= b * ceil_div a b)%Z.
Proof.
  intros Hb. unfold ceil_div. pose proof (Z.div_mod (- a) b ltac:(lia)).
  pose proof (Z.mod_pos_bound (- a) b Hb). nia.
Qed.

(** Every builder answers with the five envelope keys; a paginated answer
    reports the least number of pages of the given size that holds the total,
    has a next page exactly when items remain beyond the current one and a
    previous one exactly beyond page 1, and the call raises [ValueError]
    exactly when neither a page nor all three numbers are given. *)
Theorem pagination_correct rid pg items count size number message status_code :
  match paginated_response rid pg items count size number message status_code with
  | Raise e => pg = None /\ (count = None \/ size = None \/ number = None) /\
      exists m, e = Builtin "ValueError" m
  | Ok r => (resp_body r).*1 = envelope_keys /\ resp_status r = status_code /\
      (pg <> None \/ exists c s n p,
         count = Some c /\ size = Some s /\ number = Some n /\
         paginate None items count size number = Ok (default [] items, p) /\
         (has_previous p = true <-> (1 < n)%Z) /\
         ((0 < s)%Z -> (forall k, (c <= s * k)%Z <-> (total_pages p <= k)%Z) /\
            ((has_next p = true) <-> (s * n < c)%Z)) /\
         ((s <= 0)%Z -> total_pages p = 0%Z))
  end.
Proof.
  unfold paginated_response. destruct pg as [p|]; [simpl; split_and!; try done; by left|].
  destruct count as [c|], size as [s|], number as [n|]; simpl; try by eauto 8.
  split_and!; [done|done|]. right. eexists c, s, n, _. split_and!; try done; simpl.
  - apply Z.ltb_lt.
  - intros Hs. assert ((0 <? s)%Z = true) as -> by by apply Z.ltb_lt.
    pose proof (ceil_div_spec c s Hs) as Hc.
    assert (Hk : forall k, (c <= s * k)%Z <-> (ceil_div c s <= k)%Z).
    { intros k. split; nia. }
    split; [done|]. rewrite Z.ltb_lt. specialize (Hk n). lia.
  - intros Hs. by assert ((0 <? s)%Z = false) as -> by (apply Z.ltb_ge; lia).
Qed.
