(* ===== verification/Repository.v ===== *)
(** * The repository facade

    [core/base/repository.py] ([BaseRepository]) over the tables of [Orm]. *)
From stdpp Require Import base list gmap strings pretty numbers sorting.
From Stdlib Require Import Ascii Lia ZArith.
From S2P Require Import Prelude PyStr PyVal Exceptions Orm Service Cascade ServiceFacts Responses.

Section repository.
Context `{Django} (m : string).

(** ** Reads *)

Definition get_by_id (pk : Z) (d : database) : option instance := first_by_pk d m pk false.

Definition get_active_by_id (pk : Z) (d : database) : option instance :=
  first_by_pk d m pk (has_is_active dj_schema m).

Definition list_all (active_only : bool) (d : database) : list instance :=
  if active_only && has_is_active dj_schema m then active d m else query d m [].

(** [qs[offset : offset + page_size], total]: the count is read at the call,
    from the tables [d]; the slice is a query set of its own, read when it is
    iterated, from the tables [d'] of that time and in whatever order [plan]
    the database then returns the rows. *)
Definition list_paginated (plan : list instance -> list instance) (page page_size : Z) (active_only : bool)
    (d d' : database) : result py_exn (list instance * nat) :=
  let offset := (Z.max (page - 1) 0 * page_size)%Z in
  rows ← slice_qs offset (offset + page_size) (plan (list_all active_only d'));
  Ok (rows, length (list_all active_only d)).

Definition filter_ (kws : data) (d : database) : result py_exn (list instance) :=
  match dj_filter_check m kws with
  | Some msg => Raise (Builtin "FieldError" msg)
  | None => Ok (query d m kws)
  end.

Definition exists_ (kws : data) (d : database) : result py_exn bool :=
  l ← filter_ kws d; Ok (bool_decide (l <> [])).

Definition count (kws : data) (d : database) : result py_exn nat :=
  match kws with
  | [] => Ok (length (query d m []))
  | _ => l ← filter_ kws d; Ok (length l)
  end.

(** ** Writes *)

Definition add (i : instance) (u : user) : M instance :=
  atomic (save false None (apply_audit_instance i u true)).

Definition add_all (instances : list instance) (u : user) : M (list instance) := atomic (
  let stamped := (fun i => apply_audit_instance i u true) <$> instances in
  for_each full_clean stamped ≫= fun _ =>
  mapM_act insert_row stamped).

Definition update (pk : Z) (d : data) (u : user) : M (option instance) := atomic (
  w ← get_state;
  match first_by_pk (w_db w) m pk false with
  | None => mret None
  | Some i =>
      changed ← lift_result (set_attrs i d);
      i' ← save false None (apply_audit_instance changed u false);
      mret (Some i')
  end).

Definition delete_hard (i : instance) : M unit := atomic (hard_delete i).

(** [deleted, _ = qs.filter(pk=pk).delete()] *)
Definition delete_hard_by_id (pk : Z) : M nat := atomic (
  w ← get_state;
  match first_by_pk (w_db w) m pk false with
  | None => mret 0
  | Some i => hard_delete i ≫= fun _ => mret 1
  end).
End repository.

(** ** Paging *)

(** The rows of page [p]. *)
Definition page_rows {A} (size : nat) (l : list A) (p : nat) : list A :=
  take size (drop ((p - 1) * size) l).

Lemma pages_concat {A} size (l : list A) n :
  0 < size -> concat (page_rows size l <$> seq 1 n) = take (n * size) l.
Proof.
  intros Hs. induction n as [|n IH]; [done|].
  rewrite seq_S, fmap_app, concat_app, IH. cbn. rewrite app_nil_r.
  unfold page_rows. replace (S n - 1) with n by lia.
  rewrite take_take_drop. f_equal. lia.
Qed.

Lemma list_paginated_rows `{Django} m plan page size ao d d' :
  (0 <= size)%Z ->
  list_paginated m plan page size ao d d' =
  Ok (page_rows (Z.to_nat size) (plan (list_all m ao d')) (Z.to_nat (Z.max page 1)),
      length (list_all m ao d)).
Proof.
  intros Hs. unfold list_paginated, slice_qs, page_rows.
  set (o := (Z.max (page - 1) 0 * size)%Z). assert (0 <= o)%Z by (unfold o; nia).
  assert ((o <? 0)%Z || (o + size <? 0)%Z = false) as ->
    by (apply orb_false_iff; split; apply Z.ltb_ge; lia).
  run_act. do 2 f_equal. f_equal.
  - f_equal. lia.
  - f_equal. unfold o. rewrite Z2Nat.inj_mul by lia. f_equal. lia.
Qed.

Lemma page_rows_length {A} size (l : list A) p :
  length (page_rows size l p) = Nat.min size (length l - (p - 1) * size).
Proof. unfold page_rows. by rewrite length_take, length_drop. Qed.

Lemma page_rows_part {A} size (l l' : list A) p :
  l ≡ₚ l' -> NoDup l' -> page_rows size l p ⊆+ l' /\ NoDup (page_rows size l p).
Proof.
  intros Hl Hnd. assert (Hs : page_rows size l p `sublist_of` l).
  { unfold page_rows. etrans; [apply sublist_take|apply sublist_drop]. }
  split; [rewrite <- Hl; by apply sublist_submseteq|]. eapply sublist_NoDup; [|exact Hs]. by rewrite Hl.
Qed.

Lemma load_pk m pk r : i_pk (load m pk r) = Some pk.
Proof. unfold i_pk. cbn. by row_simpl. Qed.

(** A query set holds rows of its table, none twice. *)
Lemma query_rows `{Django} d m kws i :
  i ∈ query d m kws -> exists pk r, d !! (m, pk) = Some r /\ i = load m pk r.
Proof.
  unfold query. intros ([[m' pk] r] & -> & [[Hm _] Hin]%list_elem_of_filter)%list_elem_of_fmap.
  apply elem_of_map_to_list in Hin. cbn in *. subst m'. eauto.
Qed.

Lemma list_all_rows `{Django} m ao d i :
  i ∈ list_all m ao d -> exists pk r, d !! (m, pk) = Some r /\ i = load m pk r.
Proof. unfold list_all, active. destruct (_ && _); apply query_rows. Qed.

Lemma query_NoDup `{Django} d m kws : NoDup (query d m kws).
Proof.
  unfold query. apply NoDup_fmap_2_strong; [|apply list.NoDup_filter, NoDup_map_to_list].
  intros [[m1 k1] r1] [[m2 k2] r2] [[E1 _] H1]%list_elem_of_filter [[E2 _] H2]%list_elem_of_filter Heq.
  apply elem_of_map_to_list in H1, H2. cbn in *. subst m1 m2. injection Heq as Heq.
  assert (Hid : (<["id" := VInt k1]> r1 : row) !! "id" = (<["id" := VInt k2]> r2 : row) !! "id") by by rewrite Heq.
  revert Hid. row_simpl. intros [= ->]. congruence.
Qed.

Lemma list_all_NoDup `{Django} m ao d : NoDup (list_all m ao d).
Proof. unfold list_all, active. destruct (_ && _); apply query_NoDup. Qed.

(** C6: paging through a listing while its tables do not change.  The database
    may answer each read in any order that respects the model's [ordering]
    [R].  Every page reports the exact total and holds as many rows as its
    place allows, none twice, all of them rows of the listing; page numbers
    below 1 are page 1.  When the ordering leaves no ties among the rows, the
    pages up to the page count that [PaginatedResponse] computes hold every
    row of the listing exactly once, in that order, however each was read.
    With ties, or no ordering, this fails ([pages_may_repeat] below). *)
Theorem pages_cover `{Django} m (R : instance -> instance -> Prop) size ao d (plan : Z -> list instance -> list instance) :
  let all := list_all m ao d in
  let pages := Z.to_nat (ceil_div (Z.of_nat (length all)) size) in
  (0 < size)%Z ->
  (forall p, plan p all ≡ₚ all /\ StronglySorted R (plan p all)) ->
  (forall p, exists rows, list_paginated m (plan p) p size ao d d = Ok (rows, length all) /\
     rows ⊆+ all /\ NoDup rows /\
     length rows = Nat.min (Z.to_nat size) (length all - Z.to_nat (Z.max p 1 - 1) * Z.to_nat size)) /\
  (forall q, (q < 1)%Z -> list_paginated m (plan 1%Z) q size ao d d = list_paginated m (plan 1%Z) 1 size ao d d) /\
  ((forall i j, i ∈ all -> j ∈ all -> R i j -> R j i -> i = j) ->
   exists chunks,
     Forall2 (fun p rows => list_paginated m (plan (Z.of_nat p)) (Z.of_nat p) size ao d d = Ok (rows, length all))
       (seq 1 pages) chunks /\
     concat chunks ≡ₚ all /\ StronglySorted R (concat chunks)).
Proof.
  intros all pages Hs Hplan. split; [|split].
  - intros p. destruct (Hplan p) as [Hp _]. eexists. split; [apply list_paginated_rows; lia|]. fold all.
    destruct (page_rows_part (Z.to_nat size) _ _ (Z.to_nat (Z.max p 1)) Hp (list_all_NoDup m ao d)).
    split_and!; [done|done|].
    rewrite page_rows_length, (Permutation_length Hp). do 3 f_equal. lia.
  - intros q Hq. rewrite !list_paginated_rows by lia. by replace (Z.max q 1) with 1%Z by lia.
  - intros Hties. set (all' := plan 1%Z all).
    assert (Hsame : forall p, plan p all = all').
    { intros p. apply (StronglySorted_unique_strong R); [|apply Hplan..|].
      - intros i j Hi Hj. apply Hties; [rewrite <- (proj1 (Hplan p))|rewrite <- (proj1 (Hplan 1%Z))]; done.
      - etrans; [apply Hplan|symmetry; apply Hplan]. }
    exists (page_rows (Z.to_nat size) all' <$> seq 1 pages).
    assert (Hc : concat (page_rows (Z.to_nat size) all' <$> seq 1 pages) = all').
    { rewrite pages_concat by lia. apply take_ge. unfold all'. rewrite (Permutation_length (proj1 (Hplan 1%Z))).
      pose proof (ceil_div_spec (Z.of_nat (length all)) size Hs). unfold pages. nia. }
    rewrite Hc. split_and!; [|apply Hplan..].
    apply Forall2_fmap_r, Forall_Forall2_diag, list.Forall_forall. intros p Hp%elem_of_seq.
    rewrite list_paginated_rows by lia. fold all. rewrite Hsame.
    by replace (Z.to_nat (Z.max (Z.of_nat p) 1)) with p by lia.
Qed.

(** Three rows, two to a page. *)
Definition three_rows : database :=
  list_to_map [(("node", 1%Z), node 0 true); (("node", 2%Z), node 1 true);
               (("node", 3%Z), node 1 true)].
#[local] Existing Instance sample_django.

(** Ordered by key; the query set lists them as 1, 3, 2 or the like. *)
Definition by_key (i j : instance) : Prop :=
  match i_pk i, i_pk j with Some x, Some y => (x <= y)%Z | _, _ => False end.
#[local] Instance by_key_dec : RelDecision by_key.
Proof. intros i j. unfold by_key. destruct (i_pk i), (i_pk j); apply _. Defined.
Definition sort_by_key : list instance -> list instance := merge_sort by_key.

Lemma pages_cover_witness :
  length (list_all "node" true three_rows) = 3 /\
  exists chunks,
    Forall2 (fun p rows => list_paginated "node" sort_by_key (Z.of_nat p) 2 true three_rows three_rows =
                           Ok (rows, length (list_all "node" true three_rows)))
      (seq 1 2) chunks /\ concat chunks ≡ₚ list_all "node" true three_rows.
Proof.
  split; [vm_compute; reflexivity|].
  destruct (pages_cover "node" by_key 2 true three_rows (fun _ => sort_by_key) eq_refl) as (_ & _ & Hc).
  - intros _. split; [apply merge_sort_Permutation|]. apply (bool_decide_unpack _). by vm_compute.
  - destruct Hc as (chunks & H2 & Hp & _); [|by exists chunks].
    intros i j (x & r & Hr & ->)%list_all_rows (y & r' & Hr' & ->)%list_all_rows. unfold by_key.
    rewrite !load_pk. intros ? ?. assert (x = y) as -> by lia. congruence.
Defined.

(** Without an ordering the second read may answer in another order: row 1 is
    then on both pages and row 3 on neither. *)
Example pages_may_repeat :
  let plan p := if (p =? 1)%Z then sort_by_key else fun l => reverse (sort_by_key l) in
  (forall p, plan p (list_all "node" true three_rows) ≡ₚ list_all "node" true three_rows) /\
  (fun p => match list_paginated "node" (plan p) p 2 true three_rows three_rows with
            | Ok (rows, _) => i_pk <$> rows | Raise _ => [] end) <$> [1; 2]%Z =
    [[Some 1; Some 2]; [Some 1]]%Z.
Proof.
  split; [|by vm_compute]. intros p. cbn. destruct (p =? 1)%Z; [|rewrite reverse_Permutation]; apply merge_sort_Permutation.
Qed.
