(* ===== verification/Rbac.v ===== *)
(** * Role-based access control

    [core/rbac_registry.py], [core/permissions.py], [core/enums.py],
    [accounts/backends.py], [accounts/permissions.py] and the role part of
    [accounts/models.py]: which user may do what, as asked by DRF views and by
    Django's admin.  The role tables are a function from users to their
    roles; [cached_property] and the per-request cache are state threaded
    through the checks. *)
From stdpp Require Import base list gmap strings pretty numbers.
From Stdlib Require Import Ascii Lia ZArith.
From S2P Require Import Prelude PyStr PyVal Exceptions.

(** ** Vocabulary *)

Definition Resource_values : list string := ["account"; "role"; "api_key"].
Definition Action_values : list string := ["create"; "read"; "update"; "delete"].

(** ** The resource registry *)
Abbreviation resource_map := (list (string * string)).

Definition register_resource (model_dotted_name resource : string) (r : resource_map)
    : result py_exn resource_map :=
  let key := lower model_dotted_name in
  match od_get key r with
  | None => Ok (od_set key resource r)
  | Some existing =>
      if String.eqb existing resource then Ok r
      else Raise (Builtin "ValueError"
             ("register_resource(" +:+ repr_str key +:+ "): already mapped to " +:+
              repr_str existing +:+ ", refusing to overwrite with " +:+ repr_str resource +:+ "."))
  end.

Definition resource_for (app_label model_name : string) (r : resource_map) : option string :=
  od_get (lower (app_label +:+ "." +:+ model_name)) r.

Definition app_resources (app_label : string) (r : resource_map) : list string :=
  (filter (fun kv : string * string => startswith (lower (app_label +:+ ".")) kv.1 = true) r).*2.

Definition registered_mappings (r : resource_map) : resource_map := r.

(** [AccountsConfig.ready] *)
Definition accounts_resources : list (string * string) :=
  [("accounts.user", "account"); ("accounts.role", "role"); ("accounts.permission", "role");
   ("accounts.apikey", "api_key")].
Fixpoint register_each (l : list (string * string)) (r : resource_map) : result py_exn resource_map :=
  match l with
  | [] => Ok r
  | (m, res) :: l' => r' ← register_resource m res r; register_each l' r'
  end.

(** ** Users and roles *)
Record role := Role {
  role_name : string;
  is_superuser_role : bool;
  is_default : bool;
  permissions : list (string * string);
}.

(** The [roles] relation of the database. *)
Definition role_table := Z -> list role.

(** [a_cached] is the value [cached_property] stored on the instance. *)
Record account := Account {
  a_id : Z;
  a_authenticated : bool;
  a_active : bool;
  a_cached : option bool;
}.

(** [user.roles.filter(permissions__resource=.., permissions__action=..).exists()] *)
Definition role_grants (roles : role_table) (uid : Z) (resource action : string) : bool :=
  existsb (fun r => bool_decide ((resource, action) ∈ permissions r)) (roles uid).

(** [user.roles.filter(permissions__resource__in=resources).exists()] *)
Definition role_grants_any (roles : role_table) (uid : Z) (resources : list string) : bool :=
  existsb (fun r => existsb (fun p => str_in p.1 resources) (permissions r)) (roles uid).

Definition has_superuser_role (roles : role_table) (u : account) : bool * account :=
  match a_cached u with
  | Some b => (b, u)
  | None =>
      let b := existsb is_superuser_role (roles (a_id u)) in
      (b, Account (a_id u) (a_authenticated u) (a_active u) (Some b))
  end.

(** ** DRF permission checks *)

(** [request._permission_cache] *)
Abbreviation perm_cache := (option (list ((string * string) * bool))).

Definition user_has_permission (roles : role_table) (user : option account)
    (resource action : string) (request : option perm_cache)
    : bool * option account * option perm_cache :=
  match user with
  | None => (false, None, request)
  | Some u =>
      if negb (a_authenticated u) then (false, Some u, request)
      else
        let '(super, u') := has_superuser_role roles u in
        if super then (true, Some u', request)
        else match request with
             | Some c =>
                 let cache := default [] c in
                 match od_get (resource, action) cache with
                 | Some b => (b, Some u', Some (Some cache))
                 | None =>
                     let b := role_grants roles (a_id u) resource action in
                     (b, Some u', Some (Some (od_set (resource, action) b cache)))
                 end
             | None => (role_grants roles (a_id u) resource action, Some u', None)
             end
  end.

(** [HasResourcePermission.has_permission]; an absent attribute is "". *)
Definition has_permission (roles : role_table) (user : option account)
    (view_resource view_action : option string) (request : perm_cache)
    : bool * option account * perm_cache :=
  let resource := default "" view_resource in
  let action := default "" view_action in
  if negb (str_true resource) || negb (str_true action) then (false, user, request)
  else
    let '(b, u', c) := user_has_permission roles user resource action (Some request) in
    (b, u', default None c).

(** [accounts.permissions.is_superuser_role] *)
Definition user_is_superuser_role (roles : role_table) (u : account) : bool * account :=
  if negb (a_authenticated u) then (false, u) else has_superuser_role roles u.

(** ** The Django authentication backend *)

Definition PERM_ACTION_MAP : list (string * string) :=
  [("view", "read"); ("add", "create"); ("change", "update"); ("delete", "delete")].

(** [perm.split(".")] into two, then [codename.split("_", 1)] into two. *)
Definition parse_perm (perm : string) : option (string * string * string) :=
  match split_char "." perm with
  | [app_label; codename] =>
      match cut_char "_" codename with
      | (action_prefix, Some model_name) => Some (app_label, action_prefix, model_name)
      | (_, None) => None
      end
  | _ => None
  end.

Definition has_perm (reg : resource_map) (roles : role_table) (u : account) (perm : string)
    : bool * account :=
  if negb (a_active u) then (false, u)
  else
    let '(super, u') := has_superuser_role roles u in
    if super then (true, u')
    else match parse_perm perm with
         | None => (false, u')
         | Some (app_label, action_prefix, model_name) =>
             match od_get action_prefix PERM_ACTION_MAP, resource_for app_label model_name reg with
             | Some action, Some resource =>
                 if str_true action && str_true resource
                 then (role_grants roles (a_id u) resource action, u')
                 else (false, u')
             | _, _ => (false, u')
             end
         end.

Definition has_module_perms (reg : resource_map) (roles : role_table) (u : account)
    (app_label : string) : bool * account :=
  if negb (a_active u) then (false, u)
  else
    let '(super, u') := has_superuser_role roles u in
    if super then (true, u')
    else match app_resources app_label reg with
         | [] => (false, u')
         | resources => (role_grants_any roles (a_id u) resources, u')
         end.

(** *** [User.has_perm]

    [AUTHENTICATION_BACKENDS] of the settings, asked in order until one grants.
    allauth's backend is Django's [ModelBackend], which looks at the user and
    group permissions of Django's own tables: a function of the model. *)
Inductive backend := RBACBackend | AllauthBackend.
Definition AUTHENTICATION_BACKENDS : list backend := [RBACBackend; AllauthBackend].

Section user_has_perm.
Context (reg : resource_map) (roles : role_table) (model_backend : account -> string -> bool).

Definition backend_has_perm (b : backend) (u : account) (perm : string) : bool * account :=
  match b with
  | RBACBackend => has_perm reg roles u perm
  | AllauthBackend => (model_backend u perm, u)
  end.
Fixpoint any_backend (bs : list backend) (u : account) (perm : string) : bool * account :=
  match bs with
  | [] => (false, u)
  | b :: bs' => let '(granted, u') := backend_has_perm b u perm in
                if granted then (true, u') else any_backend bs' u' perm
  end.

(** [PermissionsMixin.has_perm]: an active user with the [is_superuser] flag
    passes before any backend is asked. *)
Definition user_has_perm (is_superuser : bool) (u : account) (perm : string) : bool * account :=
  if a_active u && is_superuser then (true, u) else any_backend AUTHENTICATION_BACKENDS u perm.
End user_has_perm.

(** ** Lemmas *)

(** What a user may do, without caches. *)
Definition allowed (roles : role_table) (uid : Z) (resource action : string) : bool :=
  existsb is_superuser_role (roles uid) || role_grants roles uid resource action.

(** The cached superuser flag agrees with the tables. *)
Definition account_ok (roles : role_table) (u : account) : Prop :=
  forall b, a_cached u = Some b -> b = existsb is_superuser_role (roles (a_id u)).

(** Every cached decision is the one for user [uid]. *)
Definition cache_ok (roles : role_table) (uid : Z) (c : perm_cache) : Prop :=
  forall res act b, od_get (res, act) (default [] c) = Some b -> b = role_grants roles uid res act.

Lemma superuser_ok roles u :
  account_ok roles u ->
  exists u', has_superuser_role roles u = (existsb is_superuser_role (roles (a_id u)), u') /\
    account_ok roles u' /\ a_id u' = a_id u /\ a_authenticated u' = a_authenticated u /\
    a_active u' = a_active u.
Proof.
  unfold account_ok, has_superuser_role. intros H. destruct (a_cached u) as [b|] eqn:E.
  - exists u. rewrite E. rewrite (H b) by done. naive_solver.
  - eexists. split; [done|]. simpl. split_and!; try done. naive_solver.
Qed.

Lemma user_has_permission_spec roles u res act c :
  account_ok roles u -> cache_ok roles (a_id u) c ->
  exists u' c', user_has_permission roles (Some u) res act (Some c) =
      (a_authenticated u && allowed roles (a_id u) res act, Some u', Some c') /\
    a_id u' = a_id u /\ a_authenticated u' = a_authenticated u /\ a_active u' = a_active u /\
    account_ok roles u' /\ cache_ok roles (a_id u) c'.
Proof.
  intros Hu Hc. unfold user_has_permission, allowed.
  destruct (a_authenticated u) eqn:Ea; simpl; [|by exists u, c].
  destruct (superuser_ok roles u Hu) as (u' & -> & Hu' & Hid & Hau & Hac).
  destruct (existsb is_superuser_role (roles (a_id u))); simpl; [exists u', c; by rewrite Hid, Hau|].
  destruct (od_get (res, act) (default [] c)) as [b|] eqn:E.
  - exists u', (Some (default [] c)). rewrite (Hc _ _ _ E). split_and!; try done; congruence.
  - eexists u', _. split; [done|]. split_and!; try done; [congruence|].
    intros res' act' b. simpl. rewrite od_get_set. case_decide; [naive_solver|]. apply Hc.
Qed.

#[local] Arguments user_has_permission : simpl never.

Lemma PERM_ACTION_MAP_spec p a :
  od_get p PERM_ACTION_MAP = Some a ->
  free_of "." p /\ free_of "_" p /\ str_true a = true.
Proof.
  simpl. repeat case_decide; intros [= <-]; subst;
    (split_and!; [| |done]; rewrite !free_of_cons; split_and!; try done; apply free_of_nil).
Qed.

Lemma parse_perm_build app prefix model a :
  od_get prefix PERM_ACTION_MAP = Some a -> free_of "." app -> free_of "." model ->
  parse_perm (app +:+ "." +:+ prefix +:+ "_" +:+ model) = Some (app, prefix, model).
Proof.
  intros (Hp1 & Hp2 & _)%PERM_ACTION_MAP_spec Ha Hm. unfold parse_perm.
  change (app +:+ "." +:+ prefix +:+ "_" +:+ model)
    with (app +:+ String "." (prefix +:+ String "_" model)).
  rewrite (split_char_app "." app (prefix +:+ String "_" model)) by done.
  rewrite (split_char_no_sep "." (prefix +:+ String "_" model)).
  - by rewrite cut_char_app.
  - apply free_of_app; [done|]. rewrite free_of_cons. done.
Qed.

(** ** Properties *)

(** C19: the DRF permission check answers yes exactly to an authenticated user
    who holds a superuser role or a role granting the (resource, action)
    pair, and no to views that declare no resource or action; the caches
    never change an answer: on a request whose cache holds decisions for this
    user, hit or miss, the answer is the uncached one and the cache stays
    coherent. *)
Theorem permission_check_exact roles u vr va c :
  account_ok roles u -> cache_ok roles (a_id u) c ->
  exists u' c', has_permission roles (Some u) vr va c =
    (match vr, va with
     | Some r, Some a => str_true r && str_true a && a_authenticated u && allowed roles (a_id u) r a
     | _, _ => false
     end, Some u', c') /\
    a_id u' = a_id u /\ account_ok roles u' /\ cache_ok roles (a_id u) c'.
Proof.
  intros Hu Hc. unfold has_permission.
  destruct vr as [r|], va as [a|]; simpl; rewrite ?orb_true_r; try (by exists u, c).
  destruct (str_true r), (str_true a); simpl; try (by exists u, c).
  destruct (user_has_permission_spec roles u r a c Hu Hc) as (u' & c' & -> & ? & _ & _ & ? & ?).
  by exists u', c'.
Qed.

Definition editor : role := Role "editor" false true [("account", "read"); ("account", "update")].
Definition sample_roles : role_table := fun uid => if (uid =? 1)%Z then [editor] else [].

Lemma permission_check_exact_witness :
  exists u' c', has_permission sample_roles (Some (Account 1 true true None)) (Some "account")
    (Some "read") None = (true, Some u', c') /\
    a_id u' = 1%Z /\ account_ok sample_roles u' /\ cache_ok sample_roles 1 c'.
Proof.
  apply (permission_check_exact sample_roles (Account 1 true true None) (Some "account") (Some "read")
    None).
  - intros b Hb. discriminate Hb.
  - intros res act b Hb. discriminate Hb.
Defined.

(** The backend changes of the account only its cached superuser flag, which the
    second backend does not look at. *)
Definition ignores_cache (model_backend : account -> string -> bool) : Prop :=
  forall u c perm, model_backend (Account (a_id u) (a_authenticated u) (a_active u) c) perm = model_backend u perm.

Lemma user_has_perm_either reg roles model_backend u perm :
  ignores_cache model_backend ->
  (user_has_perm reg roles model_backend false u perm).1 = (has_perm reg roles u perm).1 || model_backend u perm.
Proof.
  intros Hc. unfold user_has_perm. rewrite andb_false_r. cbn [any_backend AUTHENTICATION_BACKENDS backend_has_perm].
  assert (Hu : exists c, (has_perm reg roles u perm).2 = Account (a_id u) (a_authenticated u) (a_active u) c).
  { assert (Hs : exists c, (has_superuser_role roles u).2 = Account (a_id u) (a_authenticated u) (a_active u) c).
    { unfold has_superuser_role. destruct (a_cached u) eqn:E; [|by eexists]. exists (Some b). rewrite <- E. by destruct u. }
    unfold has_perm. destruct (negb (a_active u)); [exists (a_cached u); by destruct u|].
    destruct (has_superuser_role roles u) as [super u'] eqn:E. cbn [snd] in Hs.
    by repeat (case_match; cbn [snd]). }
  destruct (has_perm reg roles u perm) as [b u']. cbn in *. destruct Hu as [c ->]. rewrite Hc.
  by destruct b, (model_backend u perm).
Qed.

(** C20: how Django's permission check, [user.has_perm], and the DRF check of
    the same permission relate.  An active user with Django's [is_superuser]
    flag passes Django's check always; an inactive one never does, if the
    second backend refuses inactive users as documented.  For an active
    authenticated user without the flag, ["app.prefix_model"] on a model whose
    resource is registered is granted exactly when the DRF check grants that
    resource and the action the prefix stands for, or Django's own permission
    tables do; on a model without a registration, or for a malformed string,
    exactly to the holders of a superuser role and those Django's tables name.
    So the two checks agree wherever Django's own tables grant nothing and the
    flag is not set, and part on those two. *)
Theorem backend_agrees reg roles model_backend u app prefix model :
  account_ok roles u -> free_of "." app -> free_of "." model -> ignores_cache model_backend ->
  (forall v perm, a_active v = false -> model_backend v perm = false) ->
  let perm := app +:+ "." +:+ prefix +:+ "_" +:+ model in
  let check flag s := (user_has_perm reg roles model_backend flag u s).1 in
  (a_active u = false -> forall flag s, check flag s = false) /\
  (a_active u = true -> forall s, check true s = true) /\
  (a_active u = true -> a_authenticated u = true ->
   forall action, od_get prefix PERM_ACTION_MAP = Some action ->
   check false perm =
   match resource_for app model reg with
   | Some resource => if str_true resource
       then (user_has_permission roles (Some u) resource action None).1.1 || model_backend u perm
       else existsb is_superuser_role (roles (a_id u)) || model_backend u perm
   | None => existsb is_superuser_role (roles (a_id u)) || model_backend u perm
   end) /\
  (a_active u = true -> forall s, parse_perm s = None ->
   check false s = existsb is_superuser_role (roles (a_id u)) || model_backend u s).
Proof.
  intros Hu Ha Hm Hc Hin perm check.
  destruct (superuser_ok roles u Hu) as (u' & Hs & _ & Hid & _).
  assert (Hck : forall s, check false s = (has_perm reg roles u s).1 || model_backend u s)
    by (intros s; by apply user_has_perm_either).
  split_and!.
  - intros Hna flag s. unfold check, user_has_perm. rewrite Hna. cbn [andb any_backend AUTHENTICATION_BACKENDS backend_has_perm].
    unfold has_perm. rewrite Hna. cbn. by rewrite Hin.
  - intros Hac s. unfold check, user_has_perm. by rewrite Hac.
  - intros Hac Hau action Hact. rewrite Hck. unfold has_perm, user_has_permission. rewrite Hac, Hau. cbn [negb]. rewrite Hs.
    unfold perm. rewrite (parse_perm_build app prefix model action) by done. rewrite Hact.
    apply PERM_ACTION_MAP_spec in Hact as (_ & _ & ->).
    destruct (resource_for app model reg) as [res|]; [destruct (str_true res)|];
      by destruct (existsb is_superuser_role (roles (a_id u))).
  - intros Hac s Hp. rewrite Hck. unfold has_perm. rewrite Hac. cbn [negb]. rewrite Hs, Hp.
    by destruct (existsb is_superuser_role (roles (a_id u))).
Qed.

(** A second backend that grants user 1 one permission of Django's tables. *)
Definition sample_model_backend (u : account) (perm : string) : bool :=
  a_active u && (a_id u =? 1)%Z && String.eqb perm "sites.change_site".

Lemma backend_agrees_witness :
  let check := fun s => (user_has_perm accounts_resources sample_roles sample_model_backend false (Account 1 true true None) s).1 in
  check "accounts.change_user" =
    (user_has_permission sample_roles (Some (Account 1 true true None)) "account" "update" None).1.1 || false /\
  check "sites.change_site" = true.
Proof.
  destruct (backend_agrees accounts_resources sample_roles sample_model_backend (Account 1 true true None)
    "accounts" "change" "user") as (_ & _ & H & _).
  - intros b Hb. discriminate Hb.
  - rewrite !free_of_cons. repeat (split; [discriminate|]). apply free_of_nil.
  - rewrite !free_of_cons. repeat (split; [discriminate|]). apply free_of_nil.
  - intros u c perm. reflexivity.
  - intros v perm Hv. unfold sample_model_backend. by rewrite Hv.
  - split; [exact (H eq_refl eq_refl "update" eq_refl)|vm_compute; reflexivity].
Defined.

(** C21: The resource registry never changes a model's resource: registering
    succeeds exactly when the (case-insensitive) model is new or already has
    that resource, afterwards it has it, every other model keeps its
    resource, and doing it twice is doing it once; a conflict raises
    [ValueError].  A resource is visible in the sidebar check of its app. *)
Theorem registry_stable name res r :
  NoDup r.*1 ->
  match register_resource name res r with
  | Ok r' => NoDup r'.*1 /\ od_get (lower name) r' = Some res /\
      (forall k, k <> lower name -> od_get k r' = od_get k r) /\
      (forall k old, od_get k r = Some old -> od_get k r' = Some old) /\
      register_resource name res r' = Ok r' /\
      (forall app, startswith (lower (app +:+ ".")) (lower name) = true -> res ∈ app_resources app r')
  | Raise e => (exists msg, e = Builtin "ValueError" msg) /\
      exists old, od_get (lower name) r = Some old /\ old <> res
  end.
Proof.
  intros Hnd. unfold register_resource.
  assert (Happ : forall r', od_get (lower name) r' = Some res -> forall app,
    startswith (lower (app +:+ ".")) (lower name) = true -> res ∈ app_resources app r').
  { intros r' Hr app Hp. unfold app_resources. apply list_elem_of_fmap. exists (lower name, res).
    split; [done|]. apply list_elem_of_filter. split; [done|]. by apply od_get_elem. }
  destruct (od_get (lower name) r) as [old|] eqn:E.
  - destruct (String.eqb old res) eqn:Eq.
    + apply String.eqb_eq in Eq as ->. rewrite E, String.eqb_refl. split_and!; eauto.
    + apply String.eqb_neq in Eq. eauto.
  - split_and!; [by apply od_set_NoDup|apply od_get_set_eq| | |by rewrite od_get_set_eq, String.eqb_refl|].
    + intros k Hk. by apply od_get_set_ne.
    + intros k old Hk. rewrite od_get_set_ne; [done|]. intros <-. congruence.
    + apply Happ, od_get_set_eq.
Qed.

Lemma registry_stable_witness :
  register_resource "Accounts.User" "role" accounts_resources =
    Raise (Builtin "ValueError"
      "register_resource('accounts.user'): already mapped to 'account', refusing to overwrite with 'role'.") /\
  exists old, od_get (lower "Accounts.User") accounts_resources = Some old /\ old <> "role".
Proof.
  split; [vm_compute; reflexivity|].
  pose proof (registry_stable "Accounts.User" "role" accounts_resources
    ltac:(apply (bool_decide_unpack _); by vm_compute)) as H.
  destruct (register_resource "Accounts.User" "role" accounts_resources) as [r'|e] eqn:E.
  - vm_compute in E. discriminate E.
  - apply H.
Defined.
