(* ===== verification/AuthChain.v ===== *)
(** * The authentication chain

    [core/auth/registry.py], [core/auth/composite.py] and the adapters of
    [accounts/auth_providers.py]: named providers, ordered by
    [settings.AUTH_ENABLED_PROVIDERS], behind one DRF authentication class. *)
From stdpp Require Import base list gmap strings pretty numbers.
From Stdlib Require Import Ascii Lia ZArith.
From S2P Require Import Prelude PyStr PyVal Exceptions.

Section chain.
(** [W] is the world a provider may read and change, [R] the request and [U]
    the [(user, auth)] pair. *)
Context {W R U : Type}.

(** [p_header = None] when the provider has no [authenticate_header]. *)
Record provider := Provider {
  p_name : string;
  p_authenticate : R -> act W py_exn (option U);
  p_header : option (R -> option string);
}.

(** ** The registry *)
Record auth_registry := AuthRegistry {
  ar_providers : list (string * provider);
  ar_warned : list string;
}.

Definition register (p : provider) (r : auth_registry) : auth_registry :=
  AuthRegistry (od_set (p_name p) p (ar_providers r)) (ar_warned r).
Definition unregister (name : string) (r : auth_registry) : auth_registry :=
  AuthRegistry (od_del name (ar_providers r)) (ar_warned r).
Definition registered_names (r : auth_registry) : list string := (ar_providers r).*1.
Definition _reset (r : auth_registry) : auth_registry := AuthRegistry [] [].

(** [sorted(names)] *)
Fixpoint insert_sorted (s : string) (l : list string) : list string :=
  match l with
  | [] => [s]
  | t :: l' => if String.leb s t then s :: l else t :: insert_sorted s l'
  end.
Definition sorted (l : list string) : list string := fold_right insert_sorted [] l.

(** The warning for an unknown name: the name and the names registered. *)
Abbreviation warning := (string * list string)%type.

(** One turn of the loop over the configured names. *)
Definition resolve_name (name : string) (r : auth_registry)
    : option provider * auth_registry * list warning :=
  match od_get name (ar_providers r) with
  | Some p => (Some p, r, [])
  | None =>
      if str_in name (ar_warned r) then (None, r, [])
      else (None, AuthRegistry (ar_providers r) (name :: ar_warned r),
            [(name, sorted (registered_names r))])
  end.

Fixpoint enabled_loop (names : list string) (r : auth_registry)
    : list provider * auth_registry * list warning :=
  match names with
  | [] => ([], r, [])
  | name :: names' =>
      let '(p, r1, w1) := resolve_name name r in
      let '(ps, r2, w2) := enabled_loop names' r1 in
      (match p with Some p => p :: ps | None => ps end, r2, w1 ++ w2)
  end.

(** [setting] is [AUTH_ENABLED_PROVIDERS], if configured. *)
Definition enabled_providers (setting : option (list string)) (r : auth_registry) :=
  enabled_loop (default ["api_key"] setting) r.

(** ** [CompositeAuthentication] *)

(** [_providers_for]: the snapshot stored on the request wins. *)
Definition providers_for (setting : option (list string)) (cached : option (list provider))
    (r : auth_registry) : list provider * option (list provider) * auth_registry * list warning :=
  match cached with
  | Some ps => (ps, cached, r, [])
  | None => let '(ps, r', ws) := enabled_providers setting r in (ps, Some ps, r', ws)
  end.

(** The loop of [authenticate]. *)
Fixpoint try_providers (ps : list provider) (req : R) : act W py_exn (option U) :=
  match ps with
  | [] => mret None
  | p :: ps' =>
      o ← p_authenticate p req;
      match o with
      | Some u => mret (Some u)
      | None => try_providers ps' req
      end
  end.

Definition authenticate (setting : option (list string)) (cached : option (list provider))
    (r : auth_registry) (req : R) (w : W)
    : result py_exn (option U) * W * option (list provider) * auth_registry * list warning :=
  let '(ps, c, r', ws) := providers_for setting cached r in
  let '(res, w') := try_providers ps req w in
  (res, w', c, r', ws).

(** [authenticate_header]: the first non-empty hint. *)
Fixpoint first_header (ps : list provider) (req : R) : option string :=
  match ps with
  | [] => None
  | p :: ps' =>
      match p_header p with
      | Some h =>
          match h req with
          | Some v => if str_true v then Some v else first_header ps' req
          | None => first_header ps' req
          end
      | None => first_header ps' req
      end
  end.

Definition authenticate_header (setting : option (list string)) (cached : option (list provider))
    (r : auth_registry) (req : R)
    : option string * option (list provider) * auth_registry * list warning :=
  let '(ps, c, r', ws) := providers_for setting cached r in
  (first_header ps req, c, r', ws).

(** ** The providers of the accounts app *)

Definition APIKeyProvider (auth : R -> act W py_exn (option U)) : provider :=
  Provider "api_key" auth (Some (fun _ => Some "X-API-Key")).
Definition JWTProvider (auth : R -> act W py_exn (option U)) (header : R -> option string) : provider :=
  Provider "jwt" auth (Some header).
Definition GoogleOAuthProvider : provider :=
  Provider "oauth_google" (fun _ => mret None) None.

(** ** Lemmas *)

(** The providers a list of names stands for. *)
Definition selected (names : list string) (r : auth_registry) : list provider :=
  omap (fun n => od_get n (ar_providers r)) names.
Definition unknown (names : list string) (r : auth_registry) : list string :=
  filter (fun n => n ∉ (ar_providers r).*1) names.

Lemma selected_cons n names r :
  selected (n :: names) r =
  match od_get n (ar_providers r) with
  | Some p => p :: selected names r
  | None => selected names r
  end.
Proof. reflexivity. Qed.

Lemma enabled_loop_spec names r :
  let '(ps, r', ws) := enabled_loop names r in
  ps = selected names r /\ ar_providers r' = ar_providers r /\
  (forall n, n ∈ ar_warned r' <-> n ∈ ar_warned r \/ n ∈ unknown names r) /\
  NoDup ws.*1 /\ (forall n, n ∈ ws.*1 <-> n ∈ unknown names r /\ n ∉ ar_warned r).
Proof.
  unfold unknown. revert r. induction names as [|n names IH]; intros r; cbn [enabled_loop].
  { split_and!; try done; [|constructor|]; intros m; rewrite ?elem_of_nil; naive_solver. }
  unfold resolve_name. rewrite filter_cons.
  destruct (od_get n (ar_providers r)) as [p|] eqn:E.
  - assert (n ∈ (ar_providers r).*1) as Hn.
    { apply od_mem_spec. unfold od_mem. by rewrite E. }
    specialize (IH r). destruct (enabled_loop names r) as [[ps r2] w2].
    destruct IH as (-> & Hp & Hw & Hnd & Hws). rewrite decide_False by tauto.
    by rewrite selected_cons, E.
  - apply od_get_None in E. rewrite decide_True by done.
    destruct (str_in n (ar_warned r)) eqn:Ew.
    + apply str_in_spec in Ew.
      specialize (IH r). destruct (enabled_loop names r) as [[ps r2] w2].
      destruct IH as (-> & Hp & Hw & Hnd & Hws). rewrite selected_cons.
      apply od_get_None in E. rewrite E. apply od_get_None in E.
      split_and!; try done; intros m; rewrite ?Hw, ?Hws, elem_of_cons; naive_solver.
    + assert (n ∉ ar_warned r) as Hn by (rewrite <- str_in_spec; congruence).
      set (r1 := AuthRegistry (ar_providers r) (n :: ar_warned r)).
      specialize (IH r1). destruct (enabled_loop names r1) as [[ps r2] w2].
      destruct IH as (-> & Hp & Hw & Hnd & Hws). rewrite selected_cons.
      apply od_get_None in E. rewrite E. apply od_get_None in E. simpl in *.
      split_and!; try done.
      * intros m. rewrite Hw, !elem_of_cons. naive_solver.
      * rewrite list.NoDup_cons. split; [|done]. rewrite Hws, elem_of_cons. naive_solver.
      * intros m. rewrite elem_of_cons, Hws, !elem_of_cons. destruct (decide (m = n)); naive_solver.
Qed.

(** A run of providers that all pass. *)
Inductive all_pass (req : R) : list provider -> W -> W -> Prop :=
| pass_nil w : all_pass req [] w w
| pass_cons p ps w w1 w2 :
    p_authenticate p req w = (Ok None, w1) -> all_pass req ps w1 w2 -> all_pass req (p :: ps) w w2.

Lemma try_providers_spec ps req w res w' :
  try_providers ps req w = (res, w') ->
  (res = Ok None /\ all_pass req ps w w') \/
  exists pre p post w1, ps = pre ++ p :: post /\ all_pass req pre w w1 /\
    p_authenticate p req w1 = (res, w') /\ res <> Ok None.
Proof.
  revert w. induction ps as [|p ps IH]; intros w; simpl.
  { unfold mret, act_ret. intros [= <- <-]. left. split; [done|constructor]. }
  unfold mbind, act_bind. destruct (p_authenticate p req w) as [[[u|]|e] w1] eqn:E.
  - unfold mret, act_ret. intros [= <- <-]. right. exists [], p, ps, w. split_and!; try done. constructor.
  - intros H. destruct (IH w1 H) as [[-> ?]|(pre & q & post & w2 & -> & ? & ? & ?)].
    + left. split; [done|]. by econstructor.
    + right. exists (p :: pre), q, post, w2. split_and!; try done. by econstructor.
  - intros [= <- <-]. right. exists [], p, ps, w. split_and!; try done. constructor.
Qed.
End chain.

Arguments provider : clear implicits.
Arguments auth_registry : clear implicits.

(** ** Properties *)

(** C22: the composite class consults the registered providers among the
    configured names, in configuration order, and stops at the first that
    accepts or raises: the result is that provider's, every provider before it
    passed, and none after it runs; when all pass the answer is [None].  The
    chain is fixed at the first use of the request: a later call on the same
    request consults the same providers whatever the registry has become. *)
Theorem chain_first_wins {W R U} setting (r r2 : auth_registry W R U) req w :
  let '(res, w', c, r', ws) := authenticate setting None r req w in
  exists ps, c = Some ps /\ ps = selected (default ["api_key"] setting) r /\
    ((res = Ok None /\ all_pass req ps w w') \/
     exists pre p post w1, ps = pre ++ p :: post /\ all_pass req pre w w1 /\
       p_authenticate p req w1 = (res, w') /\ res <> Ok None) /\
    (forall w2, authenticate setting c r2 req w2 =
       let '(res2, w2') := try_providers ps req w2 in (res2, w2', c, r2, [])).
Proof.
  unfold authenticate, providers_for, enabled_providers.
  pose proof (enabled_loop_spec (default ["api_key"] setting) r) as He.
  destruct (enabled_loop _ r) as [[ps r'] ws]. destruct He as (-> & _).
  set (ps := selected _ r). destruct (try_providers ps req w) as [res w'] eqn:E.
  exists ps. split_and!; try done. by apply try_providers_spec.
Qed.

(** An unknown name in the configuration never disables the others and is
    warned about exactly once in the life of the process, however many
    requests resolve the chain; a name the registry knows is never warned
    about. *)
Theorem unknown_warned_once {W R U} setting (r : auth_registry W R U) :
  let '(ps, r1, ws1) := enabled_providers setting r in
  let '(ps2, r2, ws2) := enabled_providers setting r1 in
  ps = selected (default ["api_key"] setting) r /\ ps2 = ps /\
  NoDup ws1.*1 /\
  (forall n, n ∈ ws1.*1 <->
     (n ∈ default ["api_key"] setting) /\ n ∉ registered_names r /\ n ∉ ar_warned r) /\
  ws2 = [] /\ ar_providers r2 = ar_providers r.
Proof.
  unfold enabled_providers. set (names := default ["api_key"] setting).
  pose proof (enabled_loop_spec names r) as H1. destruct (enabled_loop names r) as [[ps r1] ws1].
  destruct H1 as (-> & Hp1 & Hw1 & Hnd1 & Hws1).
  pose proof (enabled_loop_spec names r1) as H2. destruct (enabled_loop names r1) as [[ps2 r2] ws2].
  destruct H2 as (-> & Hp2 & Hw2 & Hnd2 & Hws2).
  split_and!; try done.
  - unfold selected. by rewrite Hp1.
  - intros n. rewrite Hws1. unfold unknown. rewrite list_elem_of_filter.
    unfold registered_names. naive_solver.
  - destruct ws2 as [|[n l] ws2]; [done|]. exfalso.
    destruct (proj1 (Hws2 n)) as [Hu Hn]; [left|]. apply Hn. apply Hw1. right.
    unfold unknown in *. by rewrite Hp1 in Hu.
  - congruence.
Qed.
