(* ===== verification/ApiKey.v ===== *)
(** * API keys

    [accounts/authentication.py], the [APIKey] model of [accounts/models.py],
    [APIKeyService] of [accounts/services.py] and the two key views of
    [accounts/views.py], over the tables of [Orm].  The secret column is the
    decrypted value, as the encrypted field hands it out. *)
From stdpp Require Import base list gmap strings pretty numbers.
From Stdlib Require Import Ascii Lia ZArith.
From S2P Require Import Prelude PyStr PyVal Exceptions Orm Service Cascade ServiceFacts Handler.
From S2P Require Import Responses.

Definition key_model : string := "accounts.APIKey".
Definition user_model : string := "accounts.User".

(** Columns of a key row. *)
Definition str_col (f : string) (r : row) : string :=
  match r !! f with Some (VStr s) => s | _ => "" end.
Definition is_null (f : string) (r : row) : bool :=
  match r !! f with None | Some VNone => true | Some _ => false end.

(** The service account a key belongs to. *)
Definition owner (r : row) : option Z :=
  match r !! "user" with
  | Some (VRef m pk) => if String.eqb m user_model then Some pk else None
  | _ => None
  end.

Definition ascii_only (s : string) : bool := forallb (fun c => ord c <? 128) (String.list_ascii_of_string s).

(** [secrets.compare_digest(a, b)] on strings: only ASCII is accepted. *)
Definition compare_digest (a b : string) : result py_exn bool :=
  if ascii_only a && ascii_only b then Ok (String.eqb a b)
  else Raise (Builtin "TypeError"
         "comparing strings with non-ASCII characters is not supported").

Definition auth_failed {A} (msg : string) : result py_exn A := Raise (Builtin "AuthenticationFailed" msg).

(** The world of the authentication path: the tables and the [rate_limit]
    cache, a map from keys to expiry times. *)
Record auth_world := AuthWorld { aw_world : world; aw_cache : gmap string Z }.

Section apikey.
Context `{Django}.

(** ** The lookup *)

Definition live_key (prefix : string) (k : key) (r : row) : bool :=
  String.eqb k.1 key_model && String.eqb (str_col "prefix" r) prefix &&
  is_active_row r && is_null "revoked_at" r.

(** [filter(prefix=.., is_active=True, revoked_at__isnull=True).first()] *)
Definition find_key (d : database) (prefix : string) : option (Z * row) :=
  match filter (fun kr : key * row => live_key prefix kr.1 kr.2 = true) (map_to_list d) with
  | (k, r) :: _ => Some (k.2, r)
  | [] => None
  end.

Definition user_active (d : database) (uid : Z) : bool :=
  match d !! (user_model, uid) with
  | Some r => is_active_row r
  | None => false
  end.

Definition debounce_key (pk : Z) : string := "apikey_used_" +:+ str_int pk.

(** [debounce_cache.get(key)] *)
Definition cache_live (c : gmap string Z) (k : string) (t : Z) : bool :=
  match c !! k with
  | Some expiry => (t <? expiry)%Z
  | None => false
  end.

(** The debounced [last_used_at] write. *)
Definition touch_last_used (pk : Z) (a : auth_world) : auth_world :=
  let w := aw_world a in
  let t := dj_clock (w_ticks w) in
  if cache_live (aw_cache a) (debounce_key pk) t then a
  else
    let d := alter (fun r => <["last_used_at" := VInt t]> r) (key_model, pk) (w_db w) in
    AuthWorld (World d (S (w_ticks w)) (w_seq w) (w_log w))
      (<[debounce_key pk := (t + 300)%Z]> (aw_cache a)).

(** [APIKeyAuthentication.authenticate]; the result is the user's and the
    key's primary keys. *)
Definition authenticate (header : option string) (a : auth_world)
    : result py_exn (option (Z * Z)) * auth_world :=
  match header with
  | None => (Ok None, a)
  | Some key =>
      if negb (str_true key) then (Ok None, a)
      else if slen key <? 8 then (auth_failed "Invalid API key.", a)
      else
        match find_key (w_db (aw_world a)) (stake 8 key) with
        | None => (auth_failed "Invalid API key.", a)
        | Some (pk, r) =>
            match compare_digest (str_col "secret" r) key with
            | Raise e => (Raise e, a)
            | Ok false => (auth_failed "Invalid API key.", a)
            | Ok true =>
                match owner r with
                | None => (Raise (Builtin "DoesNotExist" "User matching query does not exist."), a)
                | Some uid =>
                    if user_active (w_db (aw_world a)) uid
                    then (Ok (Some (uid, pk)), touch_last_used pk a)
                    else (auth_failed "User account is disabled.", a)
                end
            end
        end
  end.

(** ** Creation *)

(** [secrets.token_urlsafe(32)], the [n]-th draw. *)
Context (token_urlsafe : nat -> string).

Definition new_key (user : pyval) (name : string) (created_by : pyval) (raw_key : string) : data :=
  [("user", user); ("name", VStr name); ("prefix", VStr (stake 8 raw_key));
   ("secret", VStr raw_key); ("created_by", created_by); ("updated_by", created_by)].

(** The [for _ in range(3)] loop from draw [n] on. *)
Fixpoint create_loop (tries n : nat) (user : pyval) (name : string) (created_by : pyval)
    : M (instance * string) := fun w =>
  match tries with
  | O => (Raise (Custom (base_init APIKeyGenerationError None None None PPlain)), w)
  | S tries' =>
      let raw_key := token_urlsafe n in
      match (construct key_model (new_key user name created_by raw_key) ≫= save false None) w with
      | (Ok i, w') => (Ok (i, raw_key), w')
      | (Raise (Builtin cls msg), w') =>
          if String.eqb cls "IntegrityError" then create_loop tries' (S n) user name created_by w'
          else (Raise (Builtin cls msg), w')
      | (Raise e, w') => (Raise e, w')
      end
  end.

Definition create_key (user : pyval) (name : string) (created_by : pyval) (n : nat)
    : M (instance * string) := create_loop 3 n user name created_by.

Definition is_revoked (i : instance) : bool :=
  match i_get "revoked_at" i with
  | None | Some VNone => false
  | Some _ => true
  end.

(** ** Revocation *)

Definition revoke_fields : list string := ["revoked_at"; "updated_at"; "updated_by"].

(** [APIKeyService.revoke]: the row read under the lock, and the rest. *)
Definition revoke_locked (user : pyval) (i : instance) : M (bool * bool) :=
  if is_revoked i then mret (false, true)
  else
    t ← now;
    save false (Some revoke_fields) (i_set "updated_by" user (i_set "revoked_at" (VInt t) i))
      ≫= fun _ => mret (true, false).
Definition revoke (pk : Z) (user : pyval) : M (bool * bool) := atomic (
  w ← get_state;
  match first_by_pk (w_db w) key_model pk true with
  | None => mret (false, false)
  | Some i => revoke_locked user i
  end).

(** ** Views *)
Context (rid : option string).

Definition APIKeyService : service := base_service key_model.

Definition api_key_delete (pk : Z) (user : pyval) : M response :=
  deleted ← delete_ APIKeyService pk true true true (Some user);
  mret (if (deleted : bool) then success_response rid VNone "API key deleted." 200
        else error_response rid "API key not found." None 404).

Definition api_key_revoke (pk : Z) (user : pyval) : M response :=
  '(revoked_now, already_revoked) ← revoke pk user;
  mret (if negb revoked_now && negb already_revoked
        then error_response rid "API key not found." None 404
        else if (already_revoked : bool) then success_response rid VNone "API key already revoked." 200
        else success_response rid VNone "API key revoked." 200).
End apikey.

(** ** Lemmas *)
Section key_facts.
Context `{Django}.

(** What the model guarantees about key rows: the unique prefix is the
    beginning of an ASCII secret. *)
Record keys_wf (d : database) : Prop := {
  kw_unique : forall pk r pk' r', d !! (key_model, pk) = Some r -> d !! (key_model, pk') = Some r' ->
    str_col "prefix" r = str_col "prefix" r' -> pk = pk';
  kw_secret : forall pk r, d !! (key_model, pk) = Some r ->
    str_col "prefix" r = stake 8 (str_col "secret" r) /\ ascii_only (str_col "secret" r) = true /\
    8 <= slen (str_col "secret" r);
}.

Lemma live_key_spec prefix k r :
  live_key prefix k r = true <->
  k.1 = key_model /\ str_col "prefix" r = prefix /\ is_active_row r = true /\
  is_null "revoked_at" r = true.
Proof. unfold live_key. rewrite !andb_true_iff, !String.eqb_eq. tauto. Qed.

Lemma find_key_Some d prefix pk r :
  find_key d prefix = Some (pk, r) -> d !! (key_model, pk) = Some r /\ live_key prefix (key_model, pk) r = true.
Proof.
  unfold find_key. destruct (filter _ _) as [|[k r'] l] eqn:E; [done|]. intros [= <- <-].
  assert ((k, r') ∈ filter (fun kr : key * row => live_key prefix kr.1 kr.2 = true) (map_to_list d))
    as Hin by (rewrite E; left).
  apply list_elem_of_filter in Hin as [Hl Hin]. apply elem_of_map_to_list in Hin. simpl in Hl.
  pose proof Hl as (Hk & _)%live_key_spec. destruct k as [m pk]. simpl in *. by subst m.
Qed.

Lemma find_key_None d prefix :
  find_key d prefix = None ->
  forall pk r, d !! (key_model, pk) = Some r -> live_key prefix (key_model, pk) r = false.
Proof.
  unfold find_key. destruct (filter _ _) as [|[k r'] l] eqn:E; [|done]. intros _ pk r Hr.
  destruct (live_key prefix (key_model, pk) r) eqn:El; [|done].
  assert ((key_model, pk, r) ∈ filter (fun kr : key * row => live_key prefix kr.1 kr.2 = true)
            (map_to_list d)) as Hin.
  { apply list_elem_of_filter. split; [done|]. by apply elem_of_map_to_list. }
  rewrite E in Hin. by apply elem_of_nil in Hin.
Qed.

Lemma find_key_unique d prefix pk r :
  keys_wf d -> d !! (key_model, pk) = Some r -> live_key prefix (key_model, pk) r = true ->
  find_key d prefix = Some (pk, r).
Proof.
  intros Hwf Hr Hl. destruct (find_key d prefix) as [[pk' r']|] eqn:E.
  - apply find_key_Some in E as [Hr' Hl'].
    apply live_key_spec in Hl as (_ & Hp & _), Hl' as (_ & Hp' & _).
    assert (pk' = pk) as -> by (eapply kw_unique; eauto; congruence). congruence.
  - by rewrite (find_key_None _ _ E _ _ Hr) in Hl.
Qed.

(** The key rows that open the door to [key]. *)
Definition opens (d : database) (key : string) (uid pk : Z) : Prop :=
  exists r, d !! (key_model, pk) = Some r /\ str_col "secret" r = key /\
    is_active_row r = true /\ is_null "revoked_at" r = true /\
    owner r = Some uid /\ user_active d uid = true.
End key_facts.

(** C9: API-key authentication accepts exactly the whole secret of a live key
    (active, not revoked) of an active user, and then answers that user and
    key; no header, or an empty one, passes to the next provider; every other
    ASCII key is rejected with [AuthenticationFailed].  Only an acceptance
    writes, and only [last_used_at] of that key and the debounce entry. *)
Theorem api_key_exact `{Django} header a :
  keys_wf (w_db (aw_world a)) ->
  (forall pk r, w_db (aw_world a) !! (key_model, pk) = Some r -> is_Some (owner r)) ->
  let '(res, a') := authenticate header a in
  match header with
  | None => res = Ok None /\ a' = a
  | Some key =>
      (key = "" -> res = Ok None /\ a' = a) /\
      (forall uid pk, res = Ok (Some (uid, pk)) <-> opens (w_db (aw_world a)) key uid pk) /\
      (key <> "" -> ascii_only key = true ->
       (exists uid pk, res = Ok (Some (uid, pk)) /\ a' = touch_last_used pk a) \/
       (exists msg, res = auth_failed msg /\ a' = a))
  end.
Proof.
  intros Hwf Hown. unfold authenticate. destruct header as [key|]; [|done].
  assert (Hop : forall uid pk, opens (w_db (aw_world a)) key uid pk ->
    exists r, find_key (w_db (aw_world a)) (stake 8 key) = Some (pk, r) /\ str_col "secret" r = key /\
      owner r = Some uid /\ user_active (w_db (aw_world a)) uid = true /\ ascii_only key = true /\
      8 <= slen key).
  { intros uid pk (r & Hr & Hs & Ha & Hn & Ho & Hu).
    destruct (kw_secret _ Hwf _ _ Hr) as (Hp & Has & Hl). rewrite Hs in *. exists r.
    split_and!; try done. apply find_key_unique; [done|done|]. by apply live_key_spec. }
  destruct (str_true key) eqn:Ek; cbn [negb].
  2: { assert (key = "") as ->.
       { destruct (decide (key = "")) as [|Hn]; [done|]. apply str_true_spec in Hn. congruence. }
       split_and!; try done. intros uid pk. split; [done|]. intros Ho.
       destruct (Hop _ _ Ho) as (r & _ & _ & _ & _ & _ & Hl). unfold slen in Hl. simpl in Hl. lia. }
  apply str_true_spec in Ek.
  destruct (slen key <? 8) eqn:El; cbn iota beta zeta.
  { apply Nat.ltb_lt in El. split_and!; [done| |intros; right; by eexists].
    intros uid pk. split; [done|]. intros Ho.
    destruct (Hop _ _ Ho) as (r & _ & _ & _ & _ & _ & Hl). lia. }
  destruct (find_key _ (stake 8 key)) as [[pk0 r]|] eqn:Ef; cbn iota beta zeta.
  2: { split_and!; [done| |intros; right; by eexists]. intros uid pk. split; [done|]. intros Ho.
       by destruct (Hop _ _ Ho) as (r & ? & _). }
  apply find_key_Some in Ef as [Hr Hl]. apply live_key_spec in Hl as (_ & Hp & Ha & Hn).
  destruct (kw_secret _ Hwf _ _ Hr) as (_ & Has & _). unfold compare_digest. rewrite Has. cbn [andb].
  destruct (Hown _ _ Hr) as [uid0 Ho0].
  destruct (ascii_only key) eqn:Hak; cbn iota beta zeta.
  2: { split_and!; [done| |done]. intros uid pk. split; [done|]. intros Ho.
       by destruct (Hop _ _ Ho) as (? & _ & _ & _ & _ & ? & _). }
  destruct (String.eqb (str_col "secret" r) key) eqn:Es; cbn iota beta zeta.
  - apply String.eqb_eq in Es. rewrite Ho0.
    destruct (user_active _ uid0) eqn:Hua; cbn iota beta zeta; (split_and!; [done| |intros; eauto]).
    + intros uid pk. split; [intros [= <- <-]; by exists r|]. intros Ho.
      destruct (Hop _ _ Ho) as (r' & [= <- <-] & _ & ? & _). congruence.
    + intros uid pk. split; [done|]. intros Ho.
      destruct (Hop _ _ Ho) as (r' & [= <- <-] & _ & ? & ? & _). congruence.
  - apply String.eqb_neq in Es. split_and!; [done| |intros; right; by eexists].
    intros uid pk. split; [done|]. intros Ho.
    by destruct (Hop _ _ Ho) as (r' & [= <- <-] & ? & _).
Qed.

(** ** Revocation facts *)

(** What a revocation did, seen from its outcome. *)
Lemma revoke_outcome `{Django} pk user w rn ar w' :
  "revoked_at" ∈ field_names key_model ->
  revoke pk user w = (Ok (rn, ar), w') ->
  match first_by_pk (w_db w) key_model pk true with
  | None => rn = false /\ ar = false /\ w' = w
  | Some i =>
      if is_revoked i then rn = false /\ ar = true /\ w' = w
      else rn = true /\ ar = false /\ exists r r',
        w_db w !! (key_model, pk) = Some r /\ w_db w' = <[(key_model, pk) := r']> (w_db w) /\
        r' !! "revoked_at" = Some (VInt (dj_clock (w_ticks w))) /\
        (forall f, f ∉ ["revoked_at"; "updated_at"; "updated_by"] ->
           f +:+ "_id" ∉ revoke_fields -> r' !! f = r !! f)
  end.
Proof.
  intros Hf. unfold revoke, revoke_locked. rewrite atomic_ok, bind_ok. intros (w0 & w1 & Hg & Hr).
  unfold get_state in Hg. injection Hg as <- <-.
  destruct (first_by_pk (w_db w) key_model pk true) as [i|] eqn:Ef;
    [|unfold mret, act_ret in Hr; by injection Hr as <- <- <-].
  apply first_by_pk_Some in Ef as (r & Hr0 & -> & _).
  destruct (is_revoked _); [unfold mret, act_ret in Hr; by injection Hr as <- <- <-|].
  rewrite bind_ok in Hr. destruct Hr as (t & w1 & Ht & Hr). unfold now in Ht. injection Ht as <- <-.
  rewrite bind_ok in Hr. destruct Hr as (i' & w2 & Hs%save_ok & Hr).
  unfold mret, act_ret in Hr. injection Hr as <- <- <-. split_and!; [done|done|].
  destruct Hs as [pk0 r0 t Hpk0 Hr1 Hi' _ _ Hdb|pk0 n1 n2 Hpk0 Hr1]; simpl in *.
  - assert (pk0 = pk) as ->.
    { unfold i_pk in Hpk0. simpl in Hpk0. revert Hpk0. row_simpl. by intros [= ->]. }
    assert (r0 = r) as -> by congruence. exists r. eexists. split_and!; [done|exact Hdb| |].
    + rewrite write_cols_lookup, bool_decide_eq_true_2 by done. cbn.
      rewrite Hi', stamped_lookup by done. simpl. by row_simpl.
    + intros f Hf1 Hf2. rewrite write_cols_lookup. unfold saved.
      rewrite !(bool_decide_eq_false_2 (_ ∈ revoke_fields)) by done. by rewrite andb_false_r.
  - assert (pk = pk0) as <-.
    { apply Hpk0. unfold i_pk. simpl. by row_simpl. }
    congruence.
Qed.

(** C10: Revoking is a one-way transition that locks the key out.  The call
    answers (false, false) for a missing or deleted key and (false, true) for
    a key already revoked, changing nothing; otherwise it stamps [revoked_at]
    on that row alone, and from then on every attempt to authenticate with
    the key's secret is rejected and every further revocation answers
    (false, true) and leaves the timestamp as it is. *)
Theorem revoke_locks_out `{Django} pk user w rn ar w' :
  keys_wf (w_db w) -> "revoked_at" ∈ field_names key_model ->
  revoke pk user w = (Ok (rn, ar), w') ->
  match first_by_pk (w_db w) key_model pk true with
  | None => (rn, ar) = (false, false) /\ w' = w
  | Some i =>
      (rn, ar) = (negb (is_revoked i), is_revoked i) /\
      (is_revoked i = true -> w' = w) /\
      (forall k, k <> (key_model, pk) -> w_db w' !! k = w_db w !! k) /\
      (forall r uid pk' c, w_db w !! (key_model, pk) = Some r ->
         (authenticate (Some (str_col "secret" r)) (AuthWorld w' c)).1 <> Ok (Some (uid, pk'))) /\
      (forall user2, revoke pk user2 w' = (Ok (false, true), w'))
  end.
Proof.
  intros Hwf Hf Hr. apply revoke_outcome in Hr; [|done].
  destruct (first_by_pk (w_db w) key_model pk true) as [i|] eqn:Ef; [|naive_solver].
  pose proof Ef as Hfirst. apply first_by_pk_Some in Ef as (r & Hr0 & -> & Hact).
  (* in the final tables the key's row is active, revoked, and has its old secret *)
  assert (Hfin : w_db w' !! (key_model, pk) <> None /\
    (forall k, k <> (key_model, pk) -> w_db w' !! k = w_db w !! k) /\
    exists r', w_db w' !! (key_model, pk) = Some r' /\ is_active_row r' = true /\
      is_null "revoked_at" r' = false /\ str_col "secret" r' = str_col "secret" r).
  { unfold is_revoked in Hr. unfold i_get in Hr. simpl in Hr. rewrite lookup_insert_ne in Hr by done.
    destruct (r !! "revoked_at") as [v|] eqn:Ev; [destruct v|];
      try (destruct Hr as (_ & _ & ->); rewrite Hr0; split_and!; try done;
           exists r; split_and!; try done; [by apply Hact|unfold is_null; by rewrite Ev]);
      destruct Hr as (_ & _ & r0 & r' & Hr1 & -> & Hrev & Hsame); rewrite Hr0 in Hr1; injection Hr1 as <-;
      rewrite lookup_insert_eq; (split_and!; [done| |]);
      try (intros k Hk; by rewrite lookup_insert_ne);
      exists r'; (split_and!; [done| | |]); unfold is_active_row, is_null, str_col; rewrite ?Hrev; try done;
      rewrite Hsame by (apply (bool_decide_unpack _); by vm_compute); try done; by apply Hact. }
  destruct Hfin as (_ & Hother & r' & Hr' & Ha' & Hn' & Hs').
  split_and!.
  - destruct (is_revoked _); naive_solver.
  - intros E. rewrite E in Hr. naive_solver.
  - done.
  - intros r1 uid pk' c Hr1. rewrite Hr0 in Hr1. injection Hr1 as <-. unfold authenticate.
    destruct (negb _); [done|]. destruct (_ <? 8); [done|].
    destruct (find_key _ _) as [[pk1 r1]|] eqn:Ek; [|done]. simpl in Ek.
    apply find_key_Some in Ek as [Hk1 Hl1]. apply live_key_spec in Hl1 as (_ & _ & _ & Hn1).
    unfold compare_digest. destruct (_ && _); [|done].
    destruct (String.eqb _ _) eqn:Es; [|done]. apply String.eqb_eq in Es.
    destruct (decide (pk1 = pk)) as [->|Hne]; [simpl in Hk1; congruence|].
    destruct Hne. rewrite Hother in Hk1 by congruence. eapply (kw_unique _ Hwf); eauto.
    destruct (kw_secret _ Hwf _ _ Hk1) as [-> _], (kw_secret _ Hwf _ _ Hr0) as [-> _]. congruence.
  - intros user2. unfold revoke, revoke_locked, atomic, get_state, mbind, act_bind, first_by_pk.
    rewrite Hr', Ha'. simpl. unfold is_revoked, i_get. simpl. rewrite lookup_insert_ne by done.
    unfold is_null in Hn'. by destruct (r' !! "revoked_at") as [[]|].
Qed.

(** ** A concrete installation *)

(** The key model with its unique prefix checked by [full_clean], as
    Django's [validate_unique] does. *)
Definition prefix_taken (d : database) (i : instance) : bool :=
  existsb (fun kr : key * row =>
    String.eqb kr.1.1 key_model && String.eqb (str_col "prefix" kr.2) (str_col "prefix" (i_attrs i)) &&
    negb (bool_decide (i_pk i = Some kr.1.2))) (map_to_list d).
Definition key_fields : list (string * pyval) :=
  [("user", VNone); ("name", VStr ""); ("prefix", VStr ""); ("secret", VStr "");
   ("last_used_at", VNone); ("revoked_at", VNone); ("created_at", VNone); ("created_by", VNone);
   ("updated_at", VNone); ("updated_by", VNone); ("is_active", VBool true); ("notes", VNone)].
Definition key_fks : list (string * string) :=
  [("created_by", user_model); ("updated_by", user_model); ("user", user_model)].
Definition key_django : Django :=
  Build_Django (fun m => if String.eqb m key_model then Meta key_fields [] key_fks else Meta [] [] [])
    Z.of_nat
    (fun d i => if prefix_taken d i then Some "API Key with this Prefix already exists." else None)
    (fun _ _ _ _ => None) (fun _ _ _ => true) (fun _ _ => None) (fun _ l => l).
Definition key_row (secret : string) : row :=
  list_to_map [("user", VRef user_model 7); ("prefix", VStr (stake 8 secret));
               ("secret", VStr secret); ("is_active", VBool true); ("revoked_at", VNone)].
Definition key_db : database :=
  list_to_map [((key_model, 1%Z), key_row "abcdefgh-secret");
               ((user_model, 7%Z), <["is_active" := VBool true]> ∅)].
Definition key_world : world := World key_db 0 2 [].

Lemma key_db_rows pk r :
  key_db !! (key_model, pk) = Some r -> pk = 1%Z /\ r = key_row "abcdefgh-secret".
Proof.
  unfold key_db. simpl list_to_map. intros [[E <-]|[_ Hk]]%lookup_insert_Some.
  - by injection E as <-.
  - apply lookup_insert_Some in Hk as [[E _]|[_ Hk]]; [discriminate E|by rewrite lookup_empty in Hk].
Qed.

Lemma key_db_wf : keys_wf key_db.
Proof.
  split.
  - intros pk r pk' r' [-> ->]%key_db_rows [-> ->]%key_db_rows. done.
  - intros pk r [-> ->]%key_db_rows. split; [by vm_compute|]. split; [by vm_compute|].
    vm_compute. lia.
Qed.

Lemma api_key_exact_witness :
  opens (w_db (aw_world (AuthWorld key_world ∅))) "abcdefgh-secret" 7 1 /\
  (@authenticate key_django (Some "abcdefgh-secret") (AuthWorld key_world ∅)).1 = Ok (Some (7%Z, 1%Z)).
Proof.
  assert (Ho : opens (w_db (aw_world (AuthWorld key_world ∅))) "abcdefgh-secret" 7 1).
  { exists (key_row "abcdefgh-secret"). repeat split; by vm_compute. }
  split; [exact Ho|].
  pose proof (@api_key_exact key_django (Some "abcdefgh-secret") (AuthWorld key_world ∅) key_db_wf) as Ht.
  assert (forall pk r, w_db (aw_world (AuthWorld key_world ∅)) !! (key_model, pk) = Some r ->
    is_Some (owner r)) as Hown.
  { intros pk r [-> ->]%key_db_rows. vm_compute. by eexists. }
  specialize (Ht Hown).
  destruct (@authenticate key_django (Some "abcdefgh-secret") (AuthWorld key_world ∅)) as [res a'].
  apply Ht, Ho.
Defined.

Lemma revoke_locks_out_witness :
  exists w', @revoke key_django 1 (VRef user_model 9) key_world = (Ok (true, false), w') /\
    forall uid pk' c, (@authenticate key_django (Some "abcdefgh-secret") (AuthWorld w' c)).1 <>
                      Ok (Some (uid, pk')).
Proof.
  destruct (@revoke key_django 1 (VRef user_model 9) key_world) as [res w'] eqn:E.
  assert (Hres : (@revoke key_django 1 (VRef user_model 9) key_world).1 = Ok (true, false))
    by (vm_compute; reflexivity).
  rewrite E in Hres. cbn [fst] in Hres. subst res. exists w'. split; [reflexivity|].
  pose proof (@revoke_locks_out key_django 1 (VRef user_model 9) key_world true false w' key_db_wf
    ltac:(apply (bool_decide_unpack _); by vm_compute) E) as Ht.
  assert (Hf : bool_decide (is_Some (first_by_pk (w_db key_world) key_model 1 true)) = true)
    by (vm_compute; reflexivity).
  destruct (first_by_pk _ _ _ _); [|discriminate Hf].
  destruct Ht as (_ & _ & _ & Ht & _).
  assert (Hk : key_db !! (key_model, 1%Z) = Some (key_row "abcdefgh-secret")) by reflexivity.
  intros uid pk' c. exact (Ht (key_row "abcdefgh-secret") uid pk' c Hk).
Defined.

(** ** Creation *)

Lemma construct_new_key `{Django} user name by_ raw w i w' :
  construct key_model (new_key user name by_ raw) w = (Ok i, w') ->
  w' = w /\ i_model i = key_model /\ i_attrs i !! "secret" = Some (VStr raw) /\
  i_attrs i !! "prefix" = Some (VStr (stake 8 raw)) /\ i_attrs i !! "user" = Some user.
Proof.
  intros Hc. apply construct_plain in Hc as (-> & Hm & Hl); [|apply (bool_decide_unpack _); by vm_compute|
    repeat constructor; done].
  split_and!; [done|done|..]; by rewrite Hl.
Qed.

Lemma construct_tables `{Django} m (d : data) w res w' : construct m d w = (res, w') -> w' = w.
Proof.
  unfold construct. destruct (List.partition _ _) as [named others]. destruct (List.partition _ others) as [known unknown].
  unfold mbind, act_bind, lift_result. destruct (set_attrs _ _); [|by intros [= _ <-]].
  by destruct unknown; intros [= _ <-].
Qed.

Lemma create_loop_stores `{DjangoLaws} token tries user name by_ n w i raw w' :
  Forall (fun f => f ∈ field_names key_model) ["user"; "prefix"; "secret"] ->
  create_loop token tries n user name by_ w = (Ok (i, raw), w') ->
  exists pk r, w_db w !! (key_model, pk) = None /\ w_db w' = <[(key_model, pk) := r]> (w_db w) /\
     str_col "secret" r = raw /\ str_col "prefix" r = stake 8 raw /\ r !! "user" = Some user.
Proof.
  rewrite !Forall_cons_iff. intros (Hfu & Hfp & Hfs & _).
  revert n w. induction tries as [|tries IH]; intros n w; [done|]. cbn [create_loop].
  destruct ((construct key_model (new_key user name by_ (token n)) ≫= save false None) w)
    as [[i1|e] w1] eqn:E.
  - intros [= <- <- <-]. apply bind_ok in E as (i0 & w0 & Hc & Hs%save_ok).
    assert (Hid : given key_model "id" (new_key user name by_ (token n)) = None).
    { rewrite given_plain; [done|apply (bool_decide_unpack _); by vm_compute|repeat constructor; done]. }
    destruct (constructed_pk _ _ _ _ _ Hid Hc) as (-> & Hpk & _).
    apply construct_new_key in Hc as (_ & Hm & Hsec & Hpre & Huser).
    destruct Hs as [pk r t Hpk' _ _ _ _ _|pk n1 n2 _ Hnone _ _ _ Hdb]; [congruence|].
    rewrite Hm in *. exists pk. eexists. split_and!; [done|exact Hdb| | |];
      unfold str_col; rewrite write_cols_lookup, bool_decide_eq_true_2 by done;
      cbn [andb]; rewrite !stamped_lookup by done; rewrite ?Hsec, ?Hpre, ?Huser; done.
  - assert (w_db w1 = w_db w) as Hdb.
    { unfold mbind, act_bind in E. destruct (construct _ _ w) as [[i0|e'] w0] eqn:Ec.
      - apply construct_new_key in Ec as (-> & _). by apply save_safe in E.
      - apply construct_tables in Ec. congruence. }
    destruct e as [e|cls msg]; [done|]. destruct (String.eqb cls "IntegrityError"); [|done].
    intros Hr. rewrite <- Hdb. by apply IH in Hr.
Qed.

(** [create_key] stores what it hands out: when it returns, the row it
    inserted belongs to the given user, its secret is the returned raw key and
    its prefix the key's first eight characters, and no other row changed;
    but the retry on a prefix collision is dead code: whenever model
    validation rejects the first draw, as it does a taken prefix, the call
    raises [ValidationError] at once and draws no second key. *)
Theorem create_key_stores `{DjangoLaws} token user name by_ n w res w' :
  create_key token user name by_ n w = (res, w') ->
  Forall (fun f => f ∈ field_names key_model) ["user"; "prefix"; "secret"] ->
  (forall i raw, res = Ok (i, raw) -> exists pk r,
     w_db w !! (key_model, pk) = None /\ w_db w' = <[(key_model, pk) := r]> (w_db w) /\
     str_col "secret" r = raw /\ str_col "prefix" r = stake 8 raw /\ r !! "user" = Some user) /\
  (forall i msg, construct key_model (new_key user name by_ (token n)) w = (Ok i, w) ->
     dj_full_clean (w_db w) i = Some msg ->
     res = Raise (Builtin "ValidationError" msg) /\ w' = w).
Proof.
  intros Hr Hf. split.
  - intros i raw ->. by eapply create_loop_stores.
  - intros i msg Hc Hv. unfold create_key in Hr. cbn [create_loop] in Hr.
    unfold mbind, act_bind in Hr. rewrite Hc in Hr. unfold save, full_clean, mbind, act_bind in Hr.
    rewrite Hv in Hr. cbn in Hr. by injection Hr as <- <-.
Qed.

Lemma key_laws : @DjangoLaws key_django.
Proof.
  split; [intros i j; simpl; lia|done|]. intros m. unfold key_django, dj_schema.
  destruct (String.eqb m key_model); apply (bool_decide_unpack _); by vm_compute.
Qed.

(** The second draw would have been free, but the first one collides. *)
Definition two_draws (n : nat) : string := if n =? 0 then "abcdefgh-other" else "zyxwvuts-fresh".

Lemma create_key_stores_witness :
  exists msg, (@create_key key_django two_draws (VRef user_model 7) "ci" VNone 0 key_world).1 =
    Raise (Builtin "ValidationError" msg).
Proof.
  destruct (@create_key key_django two_draws (VRef user_model 7) "ci" VNone 0 key_world) as [res w'] eqn:E.
  destruct (@create_key_stores key_django key_laws _ _ _ _ _ _ _ _ E) as [_ Hc].
  - repeat constructor; apply (bool_decide_unpack _); by vm_compute.
  - eexists. apply (Hc (Inst key_model (list_to_map (new_key (VRef user_model 7) "ci" VNone (two_draws 0))
      ∪ list_to_map key_fields)) "API Key with this Prefix already exists." eq_refl).
    vm_compute. reflexivity.
Defined.
