(* ===== verification/Revocations.v ===== *)
(** * Revocations that overlap

    [APIKeyService.revoke] of [accounts/services.py] as several requests at
    once meet one key, beside the debounced [last_used_at] write of
    [accounts/authentication.py].  [select_for_update] makes a revocation a
    small machine: it waits for the row's lock and reads the row, does its work
    where nobody sees it, and commits, which publishes the work and frees the
    row.  The debounced write is four steps of its own: the cache is asked, the
    clock is read, the [UPDATE] waits for the row and writes, the cache entry is
    set; two of them may both miss the cache and both write.  A schedule is a
    list of arrivals and steps. *)
From stdpp Require Import base list gmap strings.
From Stdlib Require Import Lia ZArith.
From S2P Require Import Prelude PyStr PyVal Exceptions Orm Service ServiceFacts ApiKey.

Inductive key_request := Revoke (user : pyval) | Touch.

(** [Touched] says what was written, if the cache let it. *)
Inductive stage :=
| Arrived
| Locked (i : instance)
| Written (res : bool * bool) (w : world)
| Answered (res : result py_exn (bool * bool))
| Missed
| Timed (t : Z)
| Saved (t : Z)
| Touched (wrote : option Z).
Definition finished (p : stage) : bool := match p with Answered _ | Touched _ => true | _ => false end.

Record key_race := KeyRace {
  key_requests : gmap nat (key_request * stage);
  row_lock : option nat;
  key_tables : auth_world;
}.

Inductive key_action := Arrive (i : nat) (req : key_request) | Advance (i : nat).

(** The tables at another time. *)
Definition at_ticks (n : nat) (w : world) : world := World (w_db w) n (w_seq w) (w_log w).
Definition with_world (w : world) (a : auth_world) : auth_world := AuthWorld w (aw_cache a).

Section revocations.
Context `{Django} (pk : Z).

(** [APIKey.objects.filter(pk=...).update(last_used_at=t)] *)
Definition write_last_used (t : Z) (w : world) : world :=
  with_db (alter (fun r => <["last_used_at" := VInt t]> r) (key_model, pk) (w_db w)) w.

(** One step of request [i]. *)
Definition advance_key (i : nat) (req : key_request) (p : stage) (lock : option nat) (a : auth_world)
    : stage * option nat * auth_world :=
  let w := aw_world a in
  match p, req with
  | Arrived, Revoke _ =>
      match first_by_pk (w_db w) key_model pk true with
      | None => (Answered (Ok (false, false)), lock, a)
      | Some inst => match lock with None => (Locked inst, Some i, a) | Some _ => (Arrived, lock, a) end
      end
  | Locked inst, Revoke user =>
      match revoke_locked user inst w with
      | (Ok res, w') => (Written res w', lock, with_world (at_ticks (w_ticks w') w) a)
      | (Raise e, w') => (Answered (Raise e), None, with_world (at_ticks (w_ticks w') w) a)
      end
  | Written res w', _ => (Answered (Ok res), None, with_world (at_ticks (w_ticks w) w') a)
  | Arrived, Touch =>
      if cache_live (aw_cache a) (debounce_key pk) (dj_clock (w_ticks w)) then (Touched None, lock, a)
      else (Missed, lock, a)
  | Missed, Touch => (Timed (dj_clock (w_ticks w)), lock, with_world (at_ticks (S (w_ticks w)) w) a)
  | Timed t, Touch =>
      match lock with
      | None => (Saved t, None, with_world (write_last_used t w) a)
      | Some _ => (Timed t, lock, a)
      end
  | Saved t, Touch =>
      (Touched (Some t), lock,
       AuthWorld w (<[debounce_key pk := (dj_clock (w_ticks w) + 300)%Z]> (aw_cache a)))
  | _, _ => (p, lock, a)
  end.

Definition perform (act : key_action) (st : key_race) : key_race :=
  match act with
  | Arrive i req =>
      match key_requests st !! i with
      | Some _ => st
      | None => KeyRace (<[i := (req, Arrived)]> (key_requests st)) (row_lock st) (key_tables st)
      end
  | Advance i =>
      match key_requests st !! i with
      | Some (req, p) =>
          let '(p', lock, a) := advance_key i req p (row_lock st) (key_tables st) in
          KeyRace (<[i := (req, p')]> (key_requests st)) lock a
      | None => st
      end
  end.
Definition schedule (acts : list key_action) (st : key_race) : key_race :=
  fold_left (fun st act => perform act st) acts st.
Definition opening (a : auth_world) : key_race := KeyRace ∅ None a.

(** Alone, the four steps are [touch_last_used] on the tables. *)
Lemma touch_alone a :
  aw_world (key_tables (schedule (Arrive 0 Touch :: replicate 4 (Advance 0)) (opening a))) =
  aw_world (touch_last_used pk a).
Proof.
  unfold schedule. cbn [fold_left replicate]. unfold perform at 5. cbn. rewrite lookup_empty. cbn.
  rewrite lookup_insert_eq. cbn. unfold touch_last_used. destruct (cache_live _ _ _); cbn.
  - by rewrite !lookup_insert_eq; cbn; rewrite !lookup_insert_eq; cbn; rewrite !lookup_insert_eq.
  - by repeat (rewrite lookup_insert_eq; cbn).
Qed.

(** ** One request after the other *)

(** What has come of a request as far as the tables go: a revocation's answer,
    or the time a debounced write wrote, if it wrote. *)
Definition outcome (p : stage) : option (result py_exn (bool * bool) + option Z) :=
  match p with
  | Answered r => Some (inl r)
  | Saved t => Some (inr (Some t))
  | Touched o => Some (inr o)
  | _ => None
  end.
Definition settled (reqs : gmap nat (key_request * stage)) (i : nat)
    : option (key_request * (result py_exn (bool * bool) + option Z)) :=
  '(req, p) ← reqs !! i; o ← outcome p; Some (req, o).

(** A request on its own: [revoke] itself; the debounced write skipped; or the
    [UPDATE] with an earlier reading of the clock. *)
Inductive alone (w : world) : key_request -> result py_exn (bool * bool) + option Z -> world -> Prop :=
| alone_revoke user r w' : revoke pk user w = (r, w') -> alone w (Revoke user) (inl r) w'
| alone_skip : alone w Touch (inr None) w
| alone_write m : m <= w_ticks w ->
    alone w Touch (inr (Some (dj_clock m))) (write_last_used (dj_clock m) w).

(** The requests [order], each on its own, time passing between them, lead from
    [w0] to [b] with the outcomes they have in [reqs]. *)
Inductive serial (reqs : gmap nat (key_request * stage)) (w0 : world) : list nat -> world -> Prop :=
| serial_nil : serial reqs w0 [] w0
| serial_snoc order i req o k b c :
    serial reqs w0 order b -> settled reqs i = Some (req, o) -> w_ticks b <= k ->
    alone (at_ticks k b) req o c -> serial reqs w0 (order ++ [i]) c.

(** ** Lemmas *)

Lemma at_ticks_id w : at_ticks (w_ticks w) w = w.
Proof. by destruct w. Qed.

Lemma serial_mono reqs reqs' w0 order b :
  (forall i, i ∈ order -> settled reqs' i = settled reqs i) -> serial reqs w0 order b -> serial reqs' w0 order b.
Proof.
  intros Hr Hs. induction Hs as [|order i req o k b c Hs IH Hi Hk Ha]; [constructor|].
  econstructor; [apply IH|rewrite Hr; [exact Hi|]|exact Hk|exact Ha].
  - intros j Hj. apply Hr, elem_of_app. by left.
  - apply elem_of_app. right. by left.
Qed.

(** *** The clock never goes back *)
Definition forward {A} (m : M A) : Prop := forall w r w', m w = (r, w') -> w_ticks w <= w_ticks w'.

Create HintDb forward discriminated.
Lemma forward_bind {A B} (m : M A) (k : A -> M B) : forward m -> (forall a, forward (k a)) -> forward (m ≫= k).
Proof.
  intros Hm Hk w r w'. unfold mbind, act_bind. destruct (m w) as [[a|e] w1] eqn:E; apply Hm in E.
  - intros H1%Hk. lia.
  - by intros [= <- <-].
Qed.
Lemma forward_still {A} (m : M A) : (forall w r w', m w = (r, w') -> w_ticks w' = w_ticks w) -> forward m.
Proof. intros Hm w r w' ->%Hm. done. Qed.
Lemma forward_now : forward now.
Proof. intros w r w' [= _ <-]. cbn. lia. Qed.
Lemma forward_stamp f c i : forward (auto_stamp f c i).
Proof.
  intros w r w'. destruct (auto_stamp_run f c i w) as (w1 & -> & _ & _ & ?). by intros [= <- <-].
Qed.
Lemma forward_write m k r : forward (write_row m k r).
Proof. apply forward_still. intros w x w'. unfold write_row. destruct (dj_constraints _ _ _ _); by intros [= _ <-]. Qed.
Lemma forward_ret {A} (a : A) : forward (mret a).
Proof. apply forward_still. by intros w r w' [= _ <-]. Qed.
Lemma forward_raise {A} (e : py_exn) : forward (raise (A:=A) e).
Proof. apply forward_still. by intros w r w' [= _ <-]. Qed.
Lemma forward_get : forward get_state.
Proof. apply forward_still. by intros w r w' [= _ <-]. Qed.
Lemma forward_clean i : forward (full_clean i).
Proof. apply forward_still. intros w r w'. unfold full_clean. destruct (dj_full_clean _ _); by intros [= _ <-]. Qed.
Lemma forward_seq : forward next_seq.
Proof. apply forward_still. by intros w r w' [= _ <-]. Qed.
#[local] Hint Resolve forward_now forward_stamp forward_write forward_ret forward_raise forward_get
  forward_clean forward_seq : forward.
Ltac forward :=
  repeat first [ progress eauto with forward | apply forward_bind; [|intros ?]
               | match goal with |- forward (match ?x with _ => _ end) => destruct x end ].

Lemma forward_save sv uf i : forward (save sv uf i).
Proof. unfold save, django_save, insert_row. forward. Qed.
Lemma forward_revoke_locked user inst : forward (revoke_locked user inst).
Proof.
  unfold revoke_locked. destruct (is_revoked inst); [forward|].
  apply forward_bind; [forward|intros t]. apply forward_bind; [apply forward_save|forward].
Qed.

(** [revoke] is the read and then the rest. *)
Lemma revoke_split user w :
  revoke pk user w =
    match first_by_pk (w_db w) key_model pk true with
    | None => (Ok (false, false), w)
    | Some i => atomic (revoke_locked user i) w
    end.
Proof. unfold revoke, atomic, get_state, mbind, act_bind. by destruct (first_by_pk _ _ _ _). Qed.

(** *** The invariant *)

(** What holds of a request at each point; [b] is where the serial run is. *)
Definition stage_ok (b : world) (st : key_race) (i : nat) (req : key_request) (p : stage) : Prop :=
  let w := aw_world (key_tables st) in
  match p with
  | Arrived | Answered _ | Touched _ => row_lock st <> Some i
  | Missed | Saved _ => row_lock st <> Some i /\ req = Touch
  | Timed t => row_lock st <> Some i /\ req = Touch /\ exists m, m <= w_ticks w /\ t = dj_clock m
  | Locked inst => row_lock st = Some i /\ first_by_pk (w_db w) key_model pk true = Some inst /\
      exists user, req = Revoke user
  | Written res w' => row_lock st = Some i /\ exists user k, req = Revoke user /\ w_ticks b <= k /\
      revoke pk user (at_ticks k b) = (Ok res, w') /\ w_ticks w' <= w_ticks w
  end.

(** The tables are those of the serial run [b] at a later time. *)
Record race_inv (w0 : world) (order : list nat) (b : world) (st : key_race) : Prop := {
  ri_stages : forall i req p, key_requests st !! i = Some (req, p) -> stage_ok b st i req p;
  ri_holder : forall i, row_lock st = Some i -> is_Some (key_requests st !! i);
  ri_once : NoDup order;
  ri_order : forall i, i ∈ order <-> is_Some (settled (key_requests st) i);
  ri_serial : serial (key_requests st) w0 order b;
  ri_tables : aw_world (key_tables st) = at_ticks (w_ticks (aw_world (key_tables st))) b;
  ri_time : w_ticks b <= w_ticks (aw_world (key_tables st));
}.

Lemma race_opening a0 : race_inv (aw_world a0) [] (aw_world a0) (opening a0).
Proof.
  split; cbn; try done.
  - by constructor.
  - intros i. unfold settled. rewrite lookup_empty. split; [by intros ?%elem_of_nil|by intros []].
  - constructor.
  - by rewrite at_ticks_id.
Qed.

(** What one step may do.  Either the outcome of the request stands as it was,
    and the step only takes the free lock, or lets time pass; or the step
    settles the request, with the effect the request has on its own, in a
    state where no other request holds the lock, or without any effect. *)
Inductive moved (b : world) (st : key_race) (i : nat) (req : key_request) (p p' : stage) :
    option nat -> auth_world -> Prop :=
| moved_on lock a :
    outcome p' = outcome p ->
    lock = row_lock st \/ row_lock st = None /\ lock = Some i ->
    aw_world a = at_ticks (w_ticks (aw_world a)) b -> w_ticks (aw_world (key_tables st)) <= w_ticks (aw_world a) ->
    stage_ok b (KeyRace (key_requests st) lock a) i req p' -> moved b st i req p p' lock a
| moved_settled o k c lock a :
    outcome p = None -> outcome p' = Some o -> w_ticks b <= k -> alone (at_ticks k b) req o c ->
    c = b \/ (forall j, row_lock st = Some j -> j = i) ->
    lock = (if decide (row_lock st = Some i) then None else row_lock st) ->
    aw_world a = at_ticks (w_ticks (aw_world a)) c -> w_ticks c <= w_ticks (aw_world a) ->
    w_ticks (aw_world (key_tables st)) <= w_ticks (aw_world a) ->
    stage_ok c (KeyRace (key_requests st) lock a) i req p' -> moved b st i req p p' lock a.

Lemma advance_key_spec w0 order b st i req p p' lock a :
  race_inv w0 order b st -> key_requests st !! i = Some (req, p) ->
  advance_key i req p (row_lock st) (key_tables st) = (p', lock, a) -> moved b st i req p p' lock a.
Proof.
  destruct st as [reqs held [w ca]]. intros [Hst _ _ _ _ Htab Htime] Hi. specialize (Hst _ _ _ Hi).
  unfold stage_ok in Hst. cbn [key_requests row_lock key_tables aw_world aw_cache] in *.
  assert (Hdb : w_db w = w_db b) by by rewrite Htab.
  assert (Hw : forall m, at_ticks m w = at_ticks m b) by (intros m; by rewrite Htab).
  assert (Hnow : at_ticks (w_ticks w) b = w) by by rewrite <- Htab.
  destruct p as [|inst|res w'|res| |t|t|o]; cbn [advance_key aw_world aw_cache] in *.
  - destruct req as [user|].
    + destruct (first_by_pk (w_db w) _ _ _) as [inst|] eqn:Ef.
      * destruct held as [j|]; intros [= <- <- <-]; apply moved_on; cbn; auto.
        split_and!; [done|done|by eexists].
      * intros [= <- <- <-]. eapply (moved_settled _ _ _ _ _ _ _ (w_ticks b) b); cbn; auto.
        -- apply alone_revoke. by rewrite at_ticks_id, revoke_split, <- Hdb, Ef.
        -- by rewrite decide_False.
    + destruct (cache_live _ _ _); intros [= <- <- <-].
      * eapply (moved_settled _ _ _ _ _ _ _ (w_ticks b) b); cbn; auto; [|by rewrite decide_False].
        rewrite at_ticks_id. apply alone_skip.
      * by apply moved_on; cbn; auto.
  - destruct Hst as (Hl & Hf & user & ->). pose proof (forward_revoke_locked user inst w) as Hfw.
    destruct (revoke_locked user inst w) as [[res|e] w'] eqn:Er; intros [= <- <- <-]; specialize (Hfw _ _ eq_refl).
    + apply moved_on; cbn; auto. split; [done|]. exists user, (w_ticks w). split_and!; auto.
      rewrite Hnow, revoke_split, Hf. unfold atomic. by rewrite Er.
    + eapply (moved_settled _ _ _ _ _ _ _ (w_ticks w) (at_ticks (w_ticks w) b)); cbn; auto.
      * apply alone_revoke. rewrite Hnow, revoke_split, Hf. unfold atomic. by rewrite Er.
      * right. intros j Hj. congruence.
      * by rewrite decide_True.
  - destruct Hst as (Hl & user & k & -> & Hk & Hr & Hn). intros [= <- <- <-].
    eapply (moved_settled _ _ _ _ _ _ _ k w'); cbn; auto.
    + by apply alone_revoke.
    + right. intros j Hj. congruence.
    + by rewrite decide_True.
  - intros [= <- <- <-]. by apply moved_on; cbn; auto.
  - destruct Hst as [Hl ->]. intros [= <- <- <-]. apply moved_on; cbn; auto.
    split_and!; [done|done|]. exists (w_ticks w). split; [lia|done].
  - destruct Hst as (Hl & -> & m & Hm & ->). destruct held as [j|]; intros [= <- <- <-].
    + apply moved_on; cbn; auto. split_and!; [done|done|]. by exists m.
    + eapply (moved_settled _ _ _ _ _ _ _ (w_ticks w) (write_last_used (dj_clock m) (at_ticks (w_ticks w) b))); cbn; auto.
      * by apply alone_write.
      * by right.
      * unfold write_last_used, with_db. cbn. by rewrite Hdb, Htab.
  - destruct Hst as [Hl ->]. intros [= <- <- <-]. apply moved_on; cbn; auto.
  - intros [= <- <- <-]. by apply moved_on; cbn; auto.
Qed.

(** The stage of another request depends on the lock, on the serial run while it
    is held, and on the time. *)
Lemma stage_ok_other b c st reqs lock a j req p :
  stage_ok b st j req p ->
  (lock = Some j -> row_lock st = Some j) ->
  (row_lock st = Some j -> lock = Some j /\ c = b) ->
  aw_world (key_tables st) = at_ticks (w_ticks (aw_world (key_tables st))) b ->
  aw_world a = at_ticks (w_ticks (aw_world a)) c ->
  w_ticks (aw_world (key_tables st)) <= w_ticks (aw_world a) ->
  stage_ok c (KeyRace reqs lock a) j req p.
Proof.
  intros Hs H1 H2 Hb Hc Ht. destruct p as [|inst|res w'|res| |t|t|o]; cbn in *; try tauto.
  - destruct Hs as (Hl & Hf & ?). destruct (H2 Hl) as [-> ->]. split_and!; [done| |done].
    rewrite Hc. rewrite Hb in Hf. exact Hf.
  - destruct Hs as (Hl & user & k & -> & ? & ? & ?). destruct (H2 Hl) as [-> ->].
    split; [done|]. exists user, k. split_and!; [done|done|done|lia].
  - destruct Hs as (Hl & -> & m & ? & ->). split_and!; [tauto|done|]. exists m. split; [lia|done].
Qed.

Lemma settled_insert reqs i req p j :
  settled (<[i := (req, p)]> reqs) j =
    if decide (i = j) then o ← outcome p; Some (req, o) else settled reqs j.
Proof.
  unfold settled. destruct (decide (i = j)) as [->|Hne]; [by rewrite lookup_insert_eq|by rewrite lookup_insert_ne].
Qed.

(** A step that leaves the outcome as it was leaves the serial run as it was. *)
Lemma settled_same reqs i req p p' :
  reqs !! i = Some (req, p) -> outcome p' = outcome p -> forall j, settled (<[i := (req, p')]> reqs) j = settled reqs j.
Proof.
  intros Hi Ho j. rewrite settled_insert. destruct (decide (i = j)) as [<-|]; [|done].
  unfold settled. by rewrite Hi, Ho.
Qed.

Lemma arrive_inv w0 order b st i req :
  race_inv w0 order b st -> race_inv w0 order b (perform (Arrive i req) st).
Proof.
  intros Hinv. cbn [perform]. destruct (key_requests st !! i) as [x|] eqn:Ei; [done|].
  destruct Hinv as [Hst Hh Hnd Ho Hs Hb Ht].
  assert (Hsame : forall j, settled (<[i := (req, Arrived)]> (key_requests st)) j = settled (key_requests st) j).
  { intros j. rewrite settled_insert. destruct (decide (i = j)) as [<-|]; [|done]. unfold settled. by rewrite Ei. }
  split; cbn [key_requests row_lock key_tables]; try done.
  - intros j req' p [[<- [= <- <-]]|[_ Hj]]%lookup_insert_Some; [|by apply Hst].
    cbn. intros Hl. apply Hh in Hl. rewrite Ei in Hl. by destruct Hl.
  - intros j Hl. apply lookup_insert_is_Some'. by right; apply Hh.
  - intros j. by rewrite Ho, Hsame.
  - by apply (serial_mono (key_requests st)).
Qed.

(** One step keeps the invariant: the serial run stays where it is, or gains
    the request that settled. *)
Lemma moved_inv w0 order b st i req p p' lock a :
  race_inv w0 order b st -> key_requests st !! i = Some (req, p) -> moved b st i req p p' lock a ->
  exists order' b', race_inv w0 order' b' (KeyRace (<[i := (req, p')]> (key_requests st)) lock a).
Proof.
  intros [Hst Hh Hnd Ho Hs Hb Ht] Hi [lock' a' Hout Hl Ha Hf Hok|o k c lock' a' Hp Hp' Hk Hal Hc Hl Ha Hca Hf Hok].
  - exists order, b. pose proof (settled_same _ _ _ _ _ Hi Hout) as Hsame.
    split; cbn [key_requests row_lock key_tables]; auto.
    + intros j req' q [[<- [= <- <-]]|[Hne Hj]]%lookup_insert_Some; [exact Hok|].
      eapply stage_ok_other; [by apply Hst|..]; auto.
      * destruct Hl as [->|[_ ->]]; [done|congruence].
      * destruct Hl as [->|[Hn _]]; [done|congruence].
    + intros j Hj. apply lookup_insert_is_Some'. destruct Hl as [->|[_ ->]]; [right; by apply Hh|left; congruence].
    + intros j. by rewrite Ho, Hsame.
    + by apply (serial_mono (key_requests st)).
    + lia.
  - assert (Hin : i ∉ order) by (rewrite Ho; unfold settled; rewrite Hi; cbn; rewrite Hp; by intros []).
    exists (order ++ [i]), c. split; cbn [key_requests row_lock key_tables]; auto.
    + intros j req' q [[<- [= <- <-]]|[Hne Hj]]%lookup_insert_Some; [exact Hok|].
      eapply stage_ok_other; [by apply Hst|..]; auto; subst lock'.
      * by destruct (decide _).
      * intros Hlj. rewrite decide_False by congruence. split; [done|]. destruct Hc as [->|Hc]; [done|].
        by destruct Hne; rewrite (Hc j).
    + intros j Hj. apply lookup_insert_is_Some'. right. apply Hh. subst lock'. by destruct (decide _).
    + apply NoDup_app. split_and!; [done| |apply NoDup_singleton]. by intros j Hj ->%list_elem_of_singleton.
    + intros j. rewrite elem_of_app, list_elem_of_singleton, Ho, settled_insert.
      destruct (decide (i = j)) as [->|Hne]; [rewrite Hp'; cbn|]; naive_solver.
    + eapply serial_snoc; [|rewrite settled_insert, decide_True, Hp' by done; reflexivity|exact Hk|exact Hal].
      eapply serial_mono; [|exact Hs]. intros j Hj. rewrite settled_insert, decide_False; [done|]. by intros ->.
Qed.

Lemma perform_key_inv w0 order b st act :
  race_inv w0 order b st -> exists order' b', race_inv w0 order' b' (perform act st).
Proof.
  intros Hinv. destruct act as [i req|i]; [exists order, b; by apply arrive_inv|]. cbn [perform].
  destruct (key_requests st !! i) as [[req p]|] eqn:Ei; [|by exists order, b].
  destruct (advance_key i req p (row_lock st) (key_tables st)) as [[p' lock] a] eqn:Ea.
  eapply moved_inv; [exact Hinv|exact Ei|]. by eapply advance_key_spec.
Qed.

Lemma race_schedule w0 order b acts st :
  race_inv w0 order b st -> exists order' b', race_inv w0 order' b' (schedule acts st).
Proof.
  revert order b st. induction acts as [|act acts IH]; intros order b st Hi; [by exists order, b|].
  apply (perform_key_inv _ _ _ _ act) in Hi as (order' & b' & Hi). by eapply IH.
Qed.

Lemma reached a0 acts : exists order b, race_inv (aw_world a0) order b (schedule acts (opening a0)).
Proof. eapply race_schedule, race_opening. Qed.

(** *** Once only *)

(** The key was revoked at time [t]. *)
Definition revoked_since (t : Z) (w : world) : Prop :=
  exists r, w_db w !! (key_model, pk) = Some r /\ r !! "revoked_at" = Some (VInt t).
Definition revokes (o : result py_exn (bool * bool) + option Z) : bool :=
  match o with inl (Ok (b, _)) => b | _ => false end.

Lemma revoked_at_ticks t n w : revoked_since t (at_ticks n w) <-> revoked_since t w.
Proof. done. Qed.

Hypothesis revoked_at_field : "revoked_at" ∈ field_names key_model.

(** On a revoked key no request revokes, and none moves the time. *)
Lemma alone_revoked t w req o w' :
  revoked_since t w -> alone w req o w' -> revoked_since t w' /\ revokes o = false.
Proof.
  intros (r & Hr & Ht) [user res w1 E| |m Hm].
  - destruct res as [[rn ar]|e]; cbn [revokes].
    + apply revoke_outcome in E; [|done]. destruct (first_by_pk _ _ _ _) as [i|] eqn:Ef.
      * apply first_by_pk_Some in Ef as (r0 & Hr0 & -> & _). assert (r0 = r) as -> by congruence.
        assert (Hrev : is_revoked (load key_model pk r) = true).
        { unfold is_revoked, i_get. cbn. by rewrite lookup_insert_ne, Ht. }
        rewrite Hrev in E. destruct E as (-> & _ & ->). split; [by exists r|done].
      * destruct E as (-> & _ & ->). split; [by exists r|done].
    + unfold revoke in E. apply atomic_rollback in E as ->. split; [by exists r|done].
  - split; [by exists r|done].
  - split; [|done]. exists (<["last_used_at" := VInt (dj_clock m)]> r). cbn.
    rewrite lookup_alter, decide_True, Hr by done. split; [done|]. by rewrite lookup_insert_ne.
Qed.

(** Who revokes leaves the key revoked. *)
Lemma alone_revokes w req o w' : alone w req o w' -> revokes o = true -> exists t, revoked_since t w'.
Proof.
  intros [user res w1 E| |m Hm]; [|done|done]. destruct res as [[rn ar]|e]; [|done]. cbn [revokes].
  intros ->. apply revoke_outcome in E; [|done].
  destruct (first_by_pk _ _ _ _) as [i|]; [destruct (is_revoked i)|]; destruct E as (? & ? & E); try done.
  destruct E as (r & r' & _ & Hdb & Ht & _). eexists. exists r'. split; [|exact Ht]. rewrite Hdb.
  apply lookup_insert_eq.
Qed.

Definition revoked_by (reqs : gmap nat (key_request * stage)) (i : nat) : Prop :=
  exists req o, settled reqs i = Some (req, o) /\ revokes o = true.

Lemma serial_once reqs w0 order b :
  serial reqs w0 order b -> NoDup order ->
  (forall i, i ∈ order -> revoked_by reqs i -> exists t, revoked_since t b) /\
  (forall i j, i ∈ order -> j ∈ order -> revoked_by reqs i -> revoked_by reqs j -> i = j).
Proof.
  intros Hs. induction Hs as [|order i req o k b c Hs IH Hi Hk Ha].
  { intros _. split; intros i; [by intros ?%not_elem_of_nil|by intros j ?%not_elem_of_nil]. }
  intros (Hnd & _ & _)%NoDup_app. destruct (IH Hnd) as [IH1 IH2].
  assert (Hnew : forall j, j ∈ order -> revoked_by reqs j -> ~ revoked_by reqs i).
  { intros j Hj Hrj (req' & o' & Hi' & Ho'). destruct (IH1 j Hj Hrj) as [t Ht].
    apply (revoked_at_ticks t k) in Ht. apply (alone_revoked t _ _ _ _ Ht) in Ha as [_ Ha]. congruence. }
  split.
  - intros j [Hj| ->%list_elem_of_singleton]%elem_of_app Hr.
    + destruct (IH1 j Hj Hr) as [t Ht]. exists t. apply (revoked_at_ticks t k) in Ht.
      by apply (alone_revoked t _ _ _ _ Ht) in Ha as [? _].
    + destruct Hr as (req' & o' & Hi' & Ho'). eapply alone_revokes; [exact Ha|]. congruence.
  - intros j l [Hj| ->%list_elem_of_singleton]%elem_of_app [Hl| ->%list_elem_of_singleton]%elem_of_app Hrj Hrl;
      [by apply IH2|by destruct (Hnew j)|by destruct (Hnew l)|done].
Qed.

Lemma perform_revoked t w0 order b st act :
  race_inv w0 order b st -> revoked_since t (aw_world (key_tables st)) ->
  revoked_since t (aw_world (key_tables (perform act st))).
Proof.
  intros Hinv Ht. destruct act as [i req|i]; cbn [perform]; [by destruct (key_requests st !! i)|].
  destruct (key_requests st !! i) as [[req p]|] eqn:Ei; [|done].
  destruct (advance_key i req p (row_lock st) (key_tables st)) as [[p' lock] a] eqn:Ea. cbn [key_tables].
  rewrite (ri_tables _ _ _ _ Hinv) in Ht.
  eapply advance_key_spec in Ea as [lock' a' _ _ Ha _ _|o k c lock' a' _ _ _ Hal _ _ Ha _ _ _]; [| |exact Hinv|exact Ei];
    rewrite Ha; apply revoked_at_ticks; [done|]. apply revoked_at_ticks, (revoked_at_ticks t k) in Ht.
  by apply (alone_revoked t _ _ _ _ Ht) in Hal as [? _].
Qed.

Lemma schedule_revoked t w0 order b acts st :
  race_inv w0 order b st -> revoked_since t (aw_world (key_tables st)) ->
  revoked_since t (aw_world (key_tables (schedule acts st))).
Proof.
  revert order b st. induction acts as [|act acts IH]; intros order b st Hinv Ht; [done|].
  destruct (perform_key_inv _ _ _ _ act Hinv) as (order' & b' & Hinv').
  apply (IH order' b' (perform act st)); [done|by eapply perform_revoked].
Qed.

(** C11: overlapping revocations of one key behave as if they had run one after
    the other.  In every schedule of revocations and debounced [last_used_at]
    writes, each taken apart into its reads, its clock reading, its wait for
    the row and its writes, the requests that have had their say have an order
    in which running [revoke] itself, and the [UPDATE] with a time read no
    later than it runs, one by one from the initial tables, time passing
    between them, gives the tables as they are and every answer; at most one
    request is answered that it revoked the key, and once one is, the time of
    the revocation never changes again.  The debounce itself is not claimed:
    two overlapping writes may both miss the cache. *)
Theorem revocations_serialize a0 acts :
  let st := schedule acts (opening a0) in
  let w := aw_world (key_tables st) in
  (exists order b, NoDup order /\
     (forall i, i ∈ order <-> is_Some (settled (key_requests st) i)) /\
     serial (key_requests st) (aw_world a0) order b /\ w = at_ticks (w_ticks w) b /\ w_ticks b <= w_ticks w) /\
  (forall i j, revoked_by (key_requests st) i -> revoked_by (key_requests st) j -> i = j) /\
  (forall i more, revoked_by (key_requests st) i ->
     exists t, revoked_since t w /\ revoked_since t (aw_world (key_tables (schedule more st)))).
Proof.
  intros st w. destruct (reached a0 acts) as (order & b & Hinv). fold st in Hinv.
  pose proof Hinv as [_ _ Hnd Ho Hs Hb Ht]. split; [by exists order, b|].
  destruct (serial_once _ _ _ _ Hs Hnd) as [H1 H2].
  assert (Hin : forall i, revoked_by (key_requests st) i -> i ∈ order).
  { intros i (req & o & Hi & _). apply Ho. by rewrite Hi. }
  split; [auto|]. intros i more Hi. destruct (H1 i (Hin i Hi) Hi) as [t Hr]. exists t.
  assert (Hw : revoked_since t w) by (unfold w; rewrite Hb; by apply revoked_at_ticks).
  split; [done|]. by eapply schedule_revoked.
Qed.

(** *** No request waits for ever *)

Lemma schedule_app l1 l2 st : schedule (l1 ++ l2) st = schedule l2 (schedule l1 st).
Proof. apply fold_left_app. Qed.

Definition ended (st : key_race) (i : nat) : Prop :=
  forall req p, key_requests st !! i = Some (req, p) -> finished p = true.

(** A finished request stays as it is, whoever moves. *)
Lemma perform_ended i j st : ended st i -> ended (perform (Advance j) st) i.
Proof.
  intros Hi. cbn [perform]. destruct (key_requests st !! j) as [[req p]|] eqn:Ej; [|done].
  destruct (decide (j = i)) as [->|Hne].
  - specialize (Hi _ _ Ej). intros req' q. destruct p; try done; cbn [advance_key]; cbn [key_requests];
      rewrite lookup_insert_eq; by intros [= <- <-].
  - destruct (advance_key j req p _ _) as [[p' lock] a]. intros req' q. cbn [key_requests].
    rewrite lookup_insert_ne by done. apply Hi.
Qed.

Definition moves (l : list nat) : list key_action := l ≫= fun i => replicate 4 (Advance i).
Lemma moves_ended i l st : ended st i -> ended (schedule (moves l) st) i.
Proof.
  revert st. induction l as [|j l IH]; intros st Hi; [done|]. unfold moves. cbn [mbind list_bind].
  rewrite schedule_app. apply IH. by do 4 apply perform_ended.
Qed.

(** Steps a request is from its end. *)
Definition rank (p : stage) : nat :=
  match p with
  | Arrived => 4 | Missed => 3 | Timed _ => 2 | Saved _ => 1
  | Locked _ => 2 | Written _ _ => 1 | Answered _ | Touched _ => 0
  end.

(** With the lock free or its own, each step brings a request nearer to its
    end and leaves the lock free or its own. *)
Lemma step_nearer w0 order b i st :
  race_inv w0 order b st -> row_lock st = None \/ row_lock st = Some i ->
  let st' := perform (Advance i) st in
  (row_lock st' = None \/ row_lock st' = Some i) /\
  (forall req p, key_requests st !! i = Some (req, p) ->
   exists p', key_requests st' !! i = Some (req, p') /\ rank p' <= rank p - 1).
Proof.
  intros Hinv Hl. cbn [perform].
  destruct (key_requests st !! i) as [[req p]|] eqn:Ei; [|split; [done|intros req p; congruence]].
  pose proof (ri_stages _ _ _ _ Hinv _ _ _ Ei) as Hs.
  destruct (advance_key i req p (row_lock st) (key_tables st)) as [[p' lock] a] eqn:Ea.
  cbn [row_lock key_requests]. split.
  - eapply advance_key_spec in Ea as [lock' a' _ Hlk _ _ _|o k c lock' a' _ _ _ _ _ -> _ _ _ _]; [| |exact Hinv|exact Ei].
    + destruct Hlk as [->|[_ ->]]; [done|by right].
    + destruct Hl as [ -> | -> ]; [by left|left]. by rewrite decide_True.
  - intros req' p0 [= <- <-]. exists p'. rewrite lookup_insert_eq. split; [done|].
    assert (Hn : row_lock st <> Some i -> row_lock st = None) by (by destruct Hl).
    destruct p as [|inst|res w'|res| |t|t|o]; cbn in Hs; cbn [advance_key] in Ea.
    + rewrite (Hn Hs) in Ea. destruct req as [user|]; [destruct (first_by_pk _ _ _ _)|destruct (cache_live _ _ _)];
        injection Ea as <- _ _; cbn; lia.
    + destruct Hs as (_ & _ & user & ->). destruct (revoke_locked _ _ _) as [[]]; injection Ea as <- _ _; cbn; lia.
    + injection Ea as <- _ _. cbn. lia.
    + injection Ea as <- _ _. cbn. lia.
    + destruct Hs as [_ ->]. injection Ea as <- _ _. cbn. lia.
    + destruct Hs as (Hi & -> & _). rewrite (Hn Hi) in Ea. injection Ea as <- _ _. cbn. lia.
    + destruct Hs as [_ ->]. injection Ea as <- _ _. cbn. lia.
    + injection Ea as <- _ _. cbn. lia.
Qed.

(** With the lock free or its own, that many steps end a request and free the
    lock. *)
Lemma steps_end i n : forall w0 order b st,
  race_inv w0 order b st -> row_lock st = None \/ row_lock st = Some i ->
  (forall req p, key_requests st !! i = Some (req, p) -> rank p <= n) ->
  let st' := schedule (replicate n (Advance i)) st in ended st' i /\ row_lock st' = None.
Proof.
  induction n as [|n IH]; intros w0 order b st Hinv Hl Hr; cbn [replicate].
  - change (ended st i /\ row_lock st = None). split.
    { intros req p Hi. specialize (Hr _ _ Hi). destruct p; cbn in *; lia || done. }
    destruct Hl as [|Hl]; [done|]. destruct (ri_holder _ _ _ _ Hinv i Hl) as [[req p] Hi].
    specialize (Hr _ _ Hi). pose proof (ri_stages _ _ _ _ Hinv _ _ _ Hi) as Hs. destruct p; cbn in *; lia || done.
  - change (schedule (Advance i :: replicate n (Advance i)) st) with
      (schedule (replicate n (Advance i)) (perform (Advance i) st)).
    destruct (step_nearer _ _ _ _ _ Hinv Hl) as [Hl' Hr'].
    destruct (perform_key_inv _ _ _ _ (Advance i) Hinv) as (order' & b' & Hinv').
    eapply IH; [exact Hinv'|exact Hl'|]. intros req q Hq.
    destruct (key_requests st !! i) as [[req0 p]|] eqn:Ei.
    + destruct (Hr' _ _ eq_refl) as (p' & Hp' & Hle). specialize (Hr _ _ eq_refl).
      assert (q = p') as -> by congruence. lia.
    + exfalso. cbn [perform] in Hq. rewrite Ei in Hq. congruence.
Qed.

Lemma four_steps w0 order b i st :
  race_inv w0 order b st -> row_lock st = None \/ row_lock st = Some i ->
  let st' := schedule (moves [i]) st in ended st' i /\ row_lock st' = None.
Proof.
  intros Hinv Hl. unfold moves. cbn [mbind list_bind]. rewrite app_nil_r.
  eapply steps_end; [done|done|]. intros req p _. destruct p; cbn; lia.
Qed.

Lemma all_end l : forall w0 order b st, race_inv w0 order b st -> row_lock st = None ->
  forall i, i ∈ l -> ended (schedule (moves l) st) i.
Proof.
  induction l as [|j l IH]; intros w0 order b st Hinv Hl i; [by intros ?%not_elem_of_nil|].
  change (moves (j :: l)) with (moves [j] ++ moves l). rewrite schedule_app.
  destruct (four_steps _ _ _ j st Hinv (or_introl Hl)) as [Hj Hl'].
  destruct (race_schedule _ _ _ (moves [j]) _ Hinv) as (order' & b' & Hinv').
  intros [->|Hi]%elem_of_cons; [by apply moves_ended|]. by eapply IH.
Qed.

(** Who has not arrived is not there after any steps. *)
Lemma moves_absent i l st :
  key_requests st !! i = None -> key_requests (schedule (moves l) st) !! i = None.
Proof.
  assert (Hone : forall j s, key_requests s !! i = None -> key_requests (perform (Advance j) s) !! i = None).
  { intros j s Hs. cbn [perform]. destruct (key_requests s !! j) as [[req q]|] eqn:Ej; [|done].
    destruct (advance_key _ _ _ _ _) as [[]]. cbn. rewrite lookup_insert_ne; [done|]. intros ->. congruence. }
  revert st. induction l as [|j l IH]; intros st Hs; [done|].
  change (moves (j :: l)) with (replicate 4 (Advance j) ++ moves l). rewrite schedule_app.
  apply IH. by do 4 apply Hone.
Qed.

(** C12: from every state that can be reached, letting the holder of the lock and
    then the others run, four steps each, answers every request. *)
Theorem revocations_settle a0 acts :
  let st := schedule acts (opening a0) in
  forall i, ended (schedule (moves (option_list (row_lock st) ++ (map_to_list (key_requests st)).*1)) st) i.
Proof.
  intros st i. destruct (reached a0 acts) as (order & b & Hinv). fold st in Hinv.
  set (ids := (map_to_list (key_requests st)).*1).
  destruct (key_requests st !! i) as [x|] eqn:Ei; [|intros req p; by rewrite moves_absent].
  assert (Hi : i ∈ ids).
  { apply list_elem_of_fmap. exists (i, x). by split; [|apply elem_of_map_to_list]. }
  unfold moves. rewrite bind_app. rewrite schedule_app.
  destruct (race_schedule _ _ _ (moves (option_list (row_lock st))) _ Hinv) as (order' & b' & Hinv').
  eapply all_end; [exact Hinv'| |done].
  destruct (row_lock st) as [h|] eqn:El; [|done].
  by destruct (four_steps _ _ _ h st Hinv (or_intror El)).
Qed.
End revocations.

(** ** Witness: two revocations and two debounced writes that overlap

    Both writes miss the cache, and both write. *)
Definition race_actions : list key_action :=
  [Arrive 1 (Revoke (VRef user_model 9)); Arrive 2 (Revoke (VRef user_model 7)); Arrive 3 Touch; Arrive 4 Touch;
   Advance 3; Advance 4; Advance 3; Advance 1; Advance 2; Advance 3; Advance 1; Advance 4; Advance 2; Advance 1;
   Advance 2; Advance 2; Advance 2; Advance 3; Advance 4; Advance 3; Advance 4].

Lemma revocations_serialize_witness :
  let st := @schedule key_django 1 race_actions (opening (AuthWorld key_world ∅)) in
  revoked_by (key_requests st) 1 /\ ~ revoked_by (key_requests st) 2 /\
  exists t, revoked_since 1 t (aw_world (key_tables st)).
Proof.
  intros st.
  destruct (@revocations_serialize key_django 1 ltac:(apply (bool_decide_unpack _); by vm_compute)
    (AuthWorld key_world ∅) race_actions) as (_ & Hone & Htime). fold st in Hone, Htime.
  assert (H1 : revoked_by (key_requests st) 1).
  { assert (Hb : match settled (key_requests st) 1 with Some (_, o) => revokes o | None => false end = true)
      by (by vm_compute).
    unfold revoked_by. destruct (settled (key_requests st) 1) as [[req o]|]; [|discriminate Hb]. by exists req, o. }
  split; [exact H1|]. split.
  - intros H2. specialize (Hone 1 2 H1 H2). discriminate Hone.
  - destruct (Htime 1 [] H1) as (t & Ht & _). by exists t.
Defined.

Example both_write :
  let st := @schedule key_django 1 race_actions (opening (AuthWorld key_world ∅)) in
  (snd <$> settled (key_requests st) 3) = Some (inr (Some 0%Z)) /\
  (snd <$> settled (key_requests st) 4) = Some (inr (Some 3%Z)).
Proof. split; by vm_compute. Qed.
