(* ===== verification/Utils.v ===== *)
(** * Small utilities

    [core/utils/network.py], [core/utils/data.py], [core/utils/filters.py] and
    [core/utils/timing.py].  Query strings and header maps are association
    lists; a clock reading is an integer number of nanoseconds. *)
From stdpp Require Import base list gmap strings pretty numbers.
From Stdlib Require Import Ascii Lia ZArith.
From S2P Require Import Prelude PyStr PyVal Exceptions.

(** ** [network.client_ip] *)

Definition first_hop (xff : string) : string := strip (fst (cut_char "," xff)).

(** [meta] is [request.META]; [use_xff] is [settings.USE_X_FORWARDED_FOR]. *)
Definition client_ip (use_xff : bool) (meta : list (string * string)) : string :=
  let direct := str_or (default "" (od_get "REMOTE_ADDR" meta)) "unknown" in
  if use_xff then
    match od_get "HTTP_X_FORWARDED_FOR" meta with
    | Some xff =>
        if str_true xff then first_hop xff
        else match od_get "HTTP_X_REAL_IP" meta with
             | Some r => if str_true r then strip r else direct
             | None => direct
             end
    | None =>
        match od_get "HTTP_X_REAL_IP" meta with
        | Some r => if str_true r then strip r else direct
        | None => direct
        end
    end
  else direct.

(** ** [data] *)

Definition key_error {A} (k : pykey) : result py_exn A := Raise (Builtin "KeyError" (repr_key k)).
Definition invalid_input {A} (msg : string) (rid : option string) : result py_exn A :=
  Raise (Custom (base_init InvalidInputError (Some msg) None rid PPlain)).

Abbreviation pydict := (list (pykey * pyval)).

(** One row of the strict and of the lenient comprehension. *)
Fixpoint pick_strict (keys : list pykey) (acc row : pydict) : result py_exn pydict :=
  match keys with
  | [] => Ok acc
  | k :: keys' =>
      match od_get k row with
      | Some v => pick_strict keys' (od_set k v acc) row
      | None => key_error k
      end
  end.
Definition pick_lenient (keys : list pykey) (row : pydict) : pydict :=
  fold_left (fun acc k => match od_get k row with Some v => od_set k v acc | None => acc end) keys [].

Fixpoint map_result {A B} (f : A -> result py_exn B) (l : list A) : result py_exn (list B) :=
  match l with
  | [] => Ok []
  | x :: l' => y ← f x; ys ← map_result f l'; Ok (y :: ys)
  end.

Definition filter_dict_keys (data : list pydict) (keys : list pykey) (strict : bool)
    : result py_exn (list pydict) :=
  match keys with
  | [] => Ok data
  | _ => if strict then map_result (pick_strict keys []) data
         else Ok (pick_lenient keys <$> data)
  end.

Definition sanitize_string (value : string) (max_length : Z) (rid : option string)
    : result py_exn string :=
  if (max_length <? Z.of_nat (slen value))%Z
  then invalid_input ("String too long: " +:+ str_int (Z.of_nat (slen value)) +:+ " chars (max: " +:+
                      str_int max_length +:+ ")") rid
  else Ok value.

(** [None] when [str(value)] raises. *)
Definition parse_bool (value : pyval) : option bool :=
  match value with
  | VBool b => Some b
  | _ => s ← py_str value; Some (str_in (lower s) ["true"; "1"; "yes"; "on"])
  end.

(** ** [filters] *)

Inductive target := TInt | TBool | TStr.

Record filter_param := FilterParam {
  fp_query_param : string;
  fp_orm_field : string;
  fp_coerce : target;
}.

(** [FilterParam.__init__] *)
Definition filter_param_init (query_param : string) (orm_field : option string) (coerce : target)
    : filter_param :=
  FilterParam query_param (str_or (default "" orm_field) query_param) coerce.

Definition coerce (rid : option string) (raw : string) (t : target) (param_name : string)
    : result py_exn pyval :=
  match t with
  | TInt =>
      match parse_int raw with
      | Some z => Ok (VInt z)
      | None => invalid_input ("Parameter '" +:+ param_name +:+ "' must be an integer.") rid
      end
  | TBool =>
      let low := lower (strip raw) in
      if str_in low ["true"; "1"; "yes"] then Ok (VBool true)
      else if str_in low ["false"; "0"; "no"] then Ok (VBool false)
      else invalid_input ("Parameter '" +:+ param_name +:+ "' must be a boolean (true/false).") rid
  | TStr => Ok (VStr raw)
  end.

Fixpoint extract_loop (rid : option string) (query_params : list (string * string))
    (fps : list filter_param) (filters : list (string * pyval))
    : result py_exn (list (string * pyval)) :=
  match fps with
  | [] => Ok filters
  | fp :: fps' =>
      match od_get (fp_query_param fp) query_params with
      | None => extract_loop rid query_params fps' filters
      | Some raw =>
          v ← coerce rid raw (fp_coerce fp) (fp_query_param fp);
          extract_loop rid query_params fps' (od_set (fp_orm_field fp) v filters)
      end
  end.

Definition extract_filters (rid : option string) (query_params : list (string * string))
    (fps : list filter_param) : result py_exn (list (string * pyval)) :=
  extract_loop rid query_params fps [].

(** ** [timing.PerfTimer] *)

Record perf_timer := PerfTimer { pt_start : Z; pt_end : option Z }.

(** [now] is [time.perf_counter()]; the source reads seconds and multiplies by
    a thousand, so a nanosecond is [1 / 10^6] of the result's unit. *)
Definition elapsed_ns (now : Z) (t : perf_timer) : Z := (default now (pt_end t) - pt_start t)%Z.
Definition stop (now : Z) (t : perf_timer) : perf_timer := PerfTimer (pt_start t) (Some now).

(** [with perf_timer() as t: body]: the timer is frozen on both exits. *)
Definition with_perf_timer {A} (start stop_at : Z) (body : perf_timer -> result py_exn A)
    : result py_exn A * perf_timer :=
  let t := PerfTimer start None in (body t, stop stop_at t).

(** ** Properties *)

(** The last declared parameter for field [f] that the query supplies. *)
Fixpoint last_supplied (q : list (string * string)) (f : string) (fps : list filter_param)
    : option filter_param :=
  match fps with
  | [] => None
  | fp :: fps' =>
      or_else (last_supplied q f fps')
        (if String.eqb (fp_orm_field fp) f && od_mem (fp_query_param fp) q then Some fp else None)
  end.

Lemma extract_loop_spec rid q fps acc out :
  extract_loop rid q fps acc = Ok out ->
  forall f,
    match last_supplied q f fps with
    | Some fp => exists raw v, od_get (fp_query_param fp) q = Some raw /\
        coerce rid raw (fp_coerce fp) (fp_query_param fp) = Ok v /\ od_get f out = Some v
    | None => od_get f out = od_get f acc
    end.
Proof.
  revert acc. induction fps as [|fp fps IH]; intros acc; [by intros [= <-] f|].
  cbn [extract_loop last_supplied]. intros H f. unfold od_mem.
  destruct (od_get (fp_query_param fp) q) as [raw|] eqn:E.
  - apply result_bind_ok in H as (v & Hv & H). specialize (IH _ H f).
    destruct (last_supplied q f fps); [done|]. cbn [or_else].
    destruct (String.eqb (fp_orm_field fp) f) eqn:Ef; cbn [andb].
    + apply String.eqb_eq in Ef as <-. exists raw, v. by rewrite IH, od_get_set_eq.
    + apply String.eqb_neq in Ef. by rewrite IH, od_get_set_ne.
  - specialize (IH _ H f). rewrite andb_false_r. by destruct (last_supplied q f fps).
Qed.

Lemma coerce_raise rid raw t p e :
  coerce rid raw t p = Raise e -> exists x, e = Custom x /\ get_error_code x = "INVALID_INPUT" /\ t <> TStr.
Proof. unfold coerce, invalid_input. intros H. repeat case_match; simplify_eq; by eexists. Qed.

Lemma extract_loop_raise rid q fps acc e :
  extract_loop rid q fps acc = Raise e ->
  exists fp raw, fp ∈ fps /\ od_get (fp_query_param fp) q = Some raw /\
    coerce rid raw (fp_coerce fp) (fp_query_param fp) = Raise e.
Proof.
  revert acc. induction fps as [|fp fps IH]; intros acc; cbn [extract_loop]; [done|].
  destruct (od_get (fp_query_param fp) q) as [raw|] eqn:Eq.
  - unfold mbind, result_bind. destruct (coerce rid raw _ _) as [v|e'] eqn:Ec.
    + intros (fp' & raw' & ? & ? & ?)%IH. exists fp', raw'. split_and!; try done. by right.
    + intros [= <-]. exists fp, raw. split_and!; try done. left.
  - intros (fp' & raw' & ? & ? & ?)%IH. exists fp', raw'. split_and!; try done. by right.
Qed.

(** Extracting filters looks at exactly the declared parameters: the
    result holds, for each ORM field, the coerced value of the last declared
    parameter for it that the query supplies, and nothing else; parameters
    the query omits are skipped; a supplied value of a declared parameter that
    does not coerce raises [INVALID_INPUT], and nothing else is ever raised. *)
Theorem extract_filters_spec rid q fps :
  match extract_filters rid q fps with
  | Ok out => forall f,
      match last_supplied q f fps with
      | Some fp => exists raw v, od_get (fp_query_param fp) q = Some raw /\
          coerce rid raw (fp_coerce fp) (fp_query_param fp) = Ok v /\ od_get f out = Some v
      | None => od_get f out = None
      end
  | Raise e => exists x fp raw, e = Custom x /\ get_error_code x = "INVALID_INPUT" /\ fp ∈ fps /\
      od_get (fp_query_param fp) q = Some raw /\ fp_coerce fp <> TStr /\
      coerce rid raw (fp_coerce fp) (fp_query_param fp) = Raise e
  end.
Proof.
  destruct (extract_filters rid q fps) as [out|e] eqn:E.
  - intros f. by apply (extract_loop_spec _ _ _ _ _ E f).
  - apply extract_loop_raise in E as (fp & raw & Hfp & Hraw & Hc).
    pose proof (coerce_raise _ _ _ _ _ Hc) as (x & -> & Hx & Ht).
    by exists x, fp, raw.
Qed.

(** The client address ignores both proxy headers unless
    [USE_X_FORWARDED_FOR] is set, and then is the first hop, stripped; it is
    never blank without the proxy headers; but a forwarded header whose first
    hop is blank, as in [" , 10.0.0.1"], makes it the empty string, which the
    module promises never to return. *)
Theorem client_ip_policy meta :
  client_ip false meta <> "" /\
  client_ip false meta = client_ip false (od_del "HTTP_X_FORWARDED_FOR" (od_del "HTTP_X_REAL_IP" meta)) /\
  (forall hop rest, free_of "," hop ->
     client_ip true (od_set "HTTP_X_FORWARDED_FOR" (hop +:+ String "," rest) meta) = strip hop) /\
  (forall r, od_get "HTTP_X_FORWARDED_FOR" meta = None -> od_get "HTTP_X_REAL_IP" meta = Some r ->
     str_true r = true -> client_ip true meta = strip r) /\
  (od_get "HTTP_X_FORWARDED_FOR" meta = None -> od_get "HTTP_X_REAL_IP" meta = None ->
     client_ip true meta = client_ip false meta) /\
  client_ip true (od_set "HTTP_X_FORWARDED_FOR" " , 10.0.0.1" meta) = "".
Proof.
  assert (Hfirst : forall hop rest, free_of "," hop ->
     client_ip true (od_set "HTTP_X_FORWARDED_FOR" (hop +:+ String "," rest) meta) = strip hop).
  { intros hop rest Hf. unfold client_ip, first_hop. rewrite od_get_set_eq, cut_char_app by done.
    assert (str_true (hop +:+ String "," rest) = true) as -> by (apply str_true_spec; by destruct hop).
    done. }
  split_and!.
  - unfold client_ip, str_or. destruct (str_true _) eqn:E; [by apply str_true_spec|done].
  - unfold client_ip. by rewrite !od_get_del_ne.
  - done.
  - intros r Hx Hr Ht. unfold client_ip. by rewrite Hx, Hr, Ht.
  - intros Hx Hr. unfold client_ip. by rewrite Hx, Hr.
  - apply (Hfirst " " " 10.0.0.1"). rewrite free_of_cons. split; [done|]. apply free_of_nil.
Qed.
