(* ===== verification/Accounts.v ===== *)
(** * User accounts

    [accounts/services.py] ([UserService]), [accounts/repositories.py],
    [accounts/managers.py], [accounts/adapters.py], [accounts/serializers.py],
    and the login, token and profile views of [accounts/views.py].  Users are rows of [Orm]; the many-to-many role
    assignments and the token blacklist are state of their own. *)
From stdpp Require Import base list gmap strings pretty numbers.
From Stdlib Require Import Ascii Lia ZArith.
From S2P Require Import Prelude PyStr PyVal Exceptions Orm Service Cascade ServiceFacts Handler.
From S2P Require Import Responses ApiKey Utils.

Section users.
Context `{Django}.

(** ** Repositories *)

Definition get_by_id (pk : Z) (d : database) : option instance := first_by_pk d user_model pk false.

(** [get(email=email)]; the column is unique. *)
Definition has_email (email : string) (kr : key * row) : bool :=
  String.eqb kr.1.1 user_model && String.eqb (str_col "email" kr.2) email.
Definition get_by_email (email : string) (d : database) : result py_exn (option instance) :=
  match filter (fun kr : key * row => has_email email kr = true) (map_to_list d) with
  | [] => Ok None
  | [(k, r)] => Ok (Some (load user_model k.2 r))
  | _ => Raise (Builtin "MultipleObjectsReturned" "get() returned more than one User")
  end.

(** [UserRepository.update]; [User] is not a [BaseModel], so its save does no
    validation, and with no field names it does nothing. *)
Definition user_update (user_id : Z) (d : data) : M instance := atomic (
  w ← get_state;
  match first_by_pk (w_db w) user_model user_id false with
  | None => raise (Builtin "DoesNotExist" "User matching query does not exist.")
  | Some i =>
      i' ← lift_result (set_attrs i d);
      match d with
      | [] => mret i'
      | _ =>
          if forallb (fun f => str_in f (field_names user_model)) d.*1
          then django_save (Some d.*1) i'
          else raise (Builtin "ValueError"
                 "The following fields do not exist in this model, are m2m fields, or are non-concrete fields")
      end
  end).

(** ** [UserService] *)

Definition UPDATABLE_PROFILE_FIELDS : list string := ["timezone"; "first_name"; "last_name"].

(** [v not in available_timezones()]: a set lookup, so an unhashable value is
    a [TypeError]. *)
Definition timezone_known (zones : string -> bool) (v : pyval) : result py_exn bool :=
  match v with
  | VStr s => Ok (zones s)
  | VList _ | VDict _ | VSet _ => Raise (Builtin "TypeError" "unhashable type")
  | _ => Ok false
  end.

Definition plain_error (c : exn_class) (rid : option string) : py_exn :=
  Custom (base_init c None None rid PPlain).

Definition profile_fields (d : data) : data :=
  filter (fun kv : string * pyval => kv.1 ∈ UPDATABLE_PROFILE_FIELDS) d.

Definition update_profile (zones : string -> bool) (rid : option string) (user_id : Z) (d : data)
    : M instance :=
  match profile_fields d with
  | [] => raise (plain_error NoFieldsToUpdateError rid)
  | update_data =>
      known ← lift_result (match od_get "timezone" update_data with
                           | Some v => timezone_known zones v
                           | None => Ok true
                           end);
      if (known : bool) then user_update user_id update_data
      else raise (plain_error InvalidTimezoneError rid)
  end.

(** ** [UserManager] *)

(** Django's [normalize_email] and password hashing. *)
Context (normalize_email : string -> string) (make_password : option string -> string).

Definition create_user (email : string) (username password : option string) (extra : data)
    : M instance :=
  if negb (str_true email) then raise (Builtin "ValueError" "Email is required")
  else
    let email' := normalize_email email in
    let username' := str_or (default "" username) email' in
    i ← construct user_model
          ([("email", VStr email'); ("username", VStr username')] ++
           od_setdefault "is_active" (VBool true) extra);
    django_save None (i_set "password" (VStr (make_password password)) i).

(** [extra_fields.get(k) is not True] *)
Definition is_true (v : option pyval) : bool :=
  match v with Some (VBool true) => true | _ => false end.

Definition create_superuser (email : string) (username password : option string) (extra : data)
    : M instance :=
  let e := od_setdefault "is_superuser" (VBool true) (od_setdefault "is_staff" (VBool true) extra) in
  if negb (is_true (od_get "is_staff" e))
  then raise (Builtin "ValueError" "Superuser must have is_staff=True.")
  else if negb (is_true (od_get "is_superuser" e))
  then raise (Builtin "ValueError" "Superuser must have is_superuser=True.")
  else create_user email username password e.
End users.

(** ** Sign-up adapters *)

(** The tables and the role assignments, [ac_roles] from users to role names. *)
Record signup := Signup {
  su_world : world;
  su_roles : gmap Z (gset string);
}.

Section adapters.
Context `{Django}.
Abbreviation A := (act signup py_exn).

(** The default roles of the [Role] table, by name, and allauth's own
    [save_user], [populate_user] and [connect]. *)
Context (get_default_roles : world -> list string).
Context (allauth_save_user : A Z).

Definition add_log (e : log_entry) : A unit := modify (fun s => Signup (log e (su_world s)) (su_roles s)).

(** [user.roles.add( *roles)] *)
Definition add_roles (uid : Z) (names : list string) : A unit :=
  modify (fun s => Signup (su_world s)
    (<[uid := default ∅ (su_roles s !! uid) ∪ list_to_set names]> (su_roles s))).

Definition assign_default_roles (uid : Z) (email : string) : A unit :=
  s ← get_state;
  match get_default_roles (su_world s) with
  | [] => add_log (Log "WARNING" "No default roles configured: user created without RBAC roles."
                    [("user", VStr email)])
  | names =>
      add_roles uid names ≫= fun _ =>
      add_log (Log "INFO" "Assigned default roles to user"
                 [("user", VStr email); ("roles", VList (VStr <$> names))])
  end.

(** [CustomAccountAdapter.save_user] *)
Definition account_save_user (commit : bool) (email : string) : A Z := atomic (
  uid ← allauth_save_user;
  (if commit then assign_default_roles uid email else mret tt) ≫= fun _ => mret uid).

(** [CustomSocialAccountAdapter.save_user] *)
Definition social_save_user (ip email : string) : A Z := atomic (
  uid ← allauth_save_user;
  (if str_true ip && negb (String.eqb ip "unknown")
   then fun s =>
     let d := alter (fun r => <["last_login_ip" := VStr ip]> r) (user_model, uid) (w_db (su_world s)) in
     (Ok tt, Signup (with_db d (su_world s)) (su_roles s))
   else mret tt) ≫= fun _ =>
  assign_default_roles uid email ≫= fun _ =>
  mret uid).
End adapters.

(** [pre_social_login]: the user the social login is connected to, if any. *)
Definition pre_social_login `{Django} (is_existing : bool) (extra_email : option string)
    (d : database) : result py_exn (option instance) :=
  if is_existing then Ok None
  else match extra_email with
       | None => Ok None
       | Some email =>
           if negb (str_true email) then Ok None
           else
             o ← get_by_email email d;
             match o with
             | Some i => Ok (if match i_get "is_active" i with Some v => truthy v | None => false end
                             then Some i else None)
             | None => Ok None
             end
       end.

(** [populate_user] on the instance allauth filled in. *)
Definition populate_user (extra_data : list (string * pyval)) (user : instance) : instance :=
  i_set "email_verified" (default (VBool false) (od_get "email_verified" extra_data))
    (i_set "avatar_url" (default (VStr "") (od_get "picture" extra_data)) user).

(** ** Serializers *)

(** [GoogleCallbackSerializer.validate_redirect_uri]; [None] is an absent
    setting. *)
Definition validate_redirect_uri (allowed : option (list string)) (value : string)
    : result py_exn string :=
  match default [] allowed with
  | [] => Raise (Builtin "ValidationError"
            ("OAuth redirect URI allowlist is not configured. " +:+
             "Set GOOGLE_OAUTH_ALLOWED_REDIRECT_URIS in your environment."))
  | l => if str_in value l then Ok value
         else Raise (Builtin "ValidationError" "Redirect URI is not permitted.")
  end.

(** [GoogleLogin.post]: [fields] is DRF's validation of the two declared
    fields; a payload that passes it and the allow-list sets [callback_url],
    which [super().post] then uses. *)
Definition google_post {A} (fields : data -> result py_exn (list (string * string)))
    (allowed : option (list string)) (super_post : string -> result py_exn A) (request_data : data)
    : result py_exn A :=
  validated ← fields request_data;
  redirect_uri ← validate_redirect_uri allowed (default "" (od_get "redirect_uri" validated));
  super_post redirect_uri.

(** The [Meta] of the model serializers. *)
Definition RoleSerializer_fields : list string := ["id"; "name"; "description"].
Definition UserSerializer_fields : list string :=
  ["id"; "email"; "first_name"; "last_name"; "full_name"; "avatar_url"; "roles"; "timezone";
   "email_verified"; "date_joined"; "last_login"].
Definition UserSerializer_read_only_fields : list string :=
  ["id"; "email"; "full_name"; "avatar_url"; "roles"; "email_verified"; "date_joined"; "last_login"].
Definition UserProfileSerializer_fields : list string := UserSerializer_fields ++ ["google_connected"].

(** [User.full_name] *)
Definition full_name (first_name last_name : string) : string := strip (first_name +:+ " " +:+ last_name).

(** [CustomJWTSerializer.to_representation]: [super()] is DRF's. *)
Definition jwt_to_representation (super : list (string * pyval)) (instance_ : list (string * pyval))
    : list (string * pyval) :=
  let copy k d := match od_get k instance_ with Some v => od_set k v d | None => d end in
  copy "refresh_expiration" (copy "access_expiration" super).

(** [CustomJWTSerializer.get_user], with the user serializer. *)
Definition jwt_get_user (user_repr : pyval -> pyval) (obj : list (string * pyval)) : pyval :=
  match od_get "user" obj with
  | Some u => if truthy u then user_repr u else VNone
  | None => VNone
  end.

(** [UserProfileSerializer.get_google_connected] over the linked providers. *)
Definition get_google_connected (providers : list string) : bool := str_in "google" providers.

(** ** Tokens *)

(** The [user_id] claim of a signed token. *)
Inductive claim := ClInt (z : Z) | ClStr (s : string) | ClNone.

(** [int(claim)] *)
Definition int_claim (c : claim) : result py_exn Z :=
  match c with
  | ClInt z => Ok z
  | ClStr s => match parse_int s with
               | Some z => Ok z
               | None => Raise (Builtin "ValueError" "invalid literal for int()")
               end
  | ClNone => Raise (Builtin "TypeError" "int() argument must not be 'NoneType'")
  end.

Record rtoken := RToken { t_jti : string; t_user_id : option claim }.

(** [token["user_id"]] *)
Definition token_user_id (t : rtoken) : result py_exn Z :=
  match t_user_id t with
  | Some c => int_claim c
  | None => Raise (Builtin "KeyError" "'user_id'")
  end.

(** The blacklist and the refresh tokens minted so far, newest first, by the
    user they are for. *)
Record token_state := TokenState {
  ts_black : gset string;
  ts_minted : list Z;
}.

Section tokens.
(** simple-jwt: [decode] checks signature, type and expiry; [blacklist_down]
    tells that recording the token fails with [TokenError]; the users are
    those of the repository, with their [is_active]; a minted pair's text. *)
Context (decode : pyval -> option rtoken) (blacklist_down : rtoken -> bool).
Context (users : Z -> option bool) (mint : Z -> nat -> string * string) (rid : option string).
Abbreviation T := (act token_state py_exn).

Definition token_error {X} (msg : string) : T X := raise (Builtin "TokenError" msg).

(** [RefreshToken(raw)]: a blacklisted token does not construct. *)
Definition RefreshToken (raw : pyval) : T rtoken :=
  s ← get_state;
  match decode raw with
  | Some t => if bool_decide (t_jti t ∈ ts_black s) then token_error "Token is blacklisted"
              else mret t
  | None => token_error "Token is invalid or expired"
  end.

Definition blacklist (t : rtoken) : T unit :=
  if blacklist_down t then token_error "blacklist unavailable"
  else modify (fun s => TokenState ({[t_jti t]} ∪ ts_black s) (ts_minted s)).

(** [RefreshToken.for_user(user)], as the [access] and [refresh] text. *)
Definition for_user (uid : Z) : T (string * string) :=
  s ← get_state;
  modify (fun s => TokenState (ts_black s) (uid :: ts_minted s)) ≫= fun _ =>
  mret (mint uid (length (ts_minted s))).

(** [except classes: handler]: the exceptions named are handled. *)
Definition catching {X} (classes : list string) (m : T X) (handler : T X) : T X := fun s =>
  match m s with
  | (Raise (Builtin cls msg), s') =>
      if str_in cls classes then handler s' else (Raise (Builtin cls msg), s')
  | r => r
  end.

Definition bad_token : response := error_response rid "Invalid or expired refresh token" None 401.
Definition token_required : response := error_response rid "Refresh token is required" None 400.
Definition rotation_unavailable : response :=
  error_response rid "Token rotation temporarily unavailable. Please retry." None 503.

Definition token_refresh (refresh : option pyval) : T response :=
  match refresh with
  | None => mret token_required
  | Some raw =>
      if negb (truthy raw) then mret token_required
      else catching ["TokenError"] (
        token ← RefreshToken raw;
        uid ← lift_result (token_user_id token);
        if bool_decide (users uid = Some true) then
          blacklisted ← catching ["TokenError"] (blacklist token ≫= fun _ => mret true) (mret false);
          if (blacklisted : bool) then
            '(access, refresh') ← for_user uid;
            mret (success_response rid
                    (VDict [(KStr "access", VStr access); (KStr "refresh", VStr refresh')]) "Success" 200)
          else mret rotation_unavailable
        else mret bad_token) (mret bad_token)
  end.

Definition logout (request_user : Z) (refresh : option pyval) : T response :=
  match refresh with
  | None => mret token_required
  | Some raw =>
      if negb (truthy raw) then mret token_required
      else catching ["TokenError"; "ValueError"] (
        token ← RefreshToken raw;
        uid ← lift_result (token_user_id token);
        if negb (bool_decide (uid = request_user)) then mret bad_token
        else blacklist token ≫= fun _ =>
             mret (success_response rid VNone "Successfully logged out." 200)) (mret bad_token)
  end.
End tokens.

(** [me]: [profile] is the profile serializer. *)
Definition me `{Django} (profile : instance -> pyval) (zones : string -> bool) (rid : option string)
    (is_get : bool) (user : instance) (uid : Z) (request_data : data) : M response :=
  if is_get then mret (success_response rid (profile user) "Success" 200)
  else
    updated_user ← update_profile zones rid uid request_data;
    mret (success_response rid (profile updated_user) "Success" 200).

(** [GoogleLogin.get_response]: the refresh token also goes into the body. *)
Definition google_get_response (data : list (string * pyval)) (refresh_token : option string)
    : list (string * pyval) :=
  match refresh_token with
  | Some t => if str_true t then od_set "refresh" (VStr t) data else data
  | None => data
  end.

(** ** Properties of the token views *)

(** What [int(token["user_id"])] can raise. *)
Lemma token_user_id_raises t e :
  token_user_id t = Raise e -> exists cls msg, e = Builtin cls msg /\ cls ∈ ["KeyError"; "ValueError"; "TypeError"].
Proof.
  unfold token_user_id. destruct (t_user_id t) as [[z|str|]|]; simpl; [done| | |];
    [destruct (parse_int str); [done|]| |]; intros [= <-]; eexists _, _;
    (split; [done|]); rewrite !elem_of_cons; tauto.
Qed.

(** C16: refresh-token rotation.  A refresh succeeds exactly for a valid token,
    not yet blacklisted, of an active user, while the blacklist can be
    written; it then blacklists that token before minting exactly one new
    pair for that user, so presenting the token again is answered 401.  In
    every other case nothing is minted and nothing blacklisted: 401 for a bad
    token or user, 503 when the blacklist write fails; only a signed token
    without an integer user id escapes, as a [KeyError], [ValueError] or
    [TypeError] (of the failures modelled: a database that cannot be reached is
    not). *)
Theorem refresh_rotation decode down users mint rid raw s :
  truthy raw = true ->
  let refresh := token_refresh decode down users mint rid in
  match decode raw with
  | None => refresh (Some raw) s = (Ok (bad_token rid), s)
  | Some t =>
      if decide (t_jti t ∈ ts_black s) then refresh (Some raw) s = (Ok (bad_token rid), s)
      else match token_user_id t with
      | Raise e => refresh (Some raw) s = (Raise e, s) /\
          exists cls msg, e = Builtin cls msg /\ cls ∈ ["KeyError"; "ValueError"; "TypeError"]
      | Ok uid =>
          if decide (users uid = Some true) then
            if down t then refresh (Some raw) s = (Ok (rotation_unavailable rid), s)
            else exists resp s', refresh (Some raw) s = (Ok resp, s') /\ resp_status resp = 200%Z /\
              s' = TokenState ({[t_jti t]} ∪ ts_black s) (uid :: ts_minted s) /\
              (forall s2, ts_black s' ⊆ ts_black s2 -> refresh (Some raw) s2 = (Ok (bad_token rid), s2))
          else refresh (Some raw) s = (Ok (bad_token rid), s)
      end
  end.
Proof.
  intros Hraw refresh. unfold refresh, token_refresh. rewrite Hraw. cbn [negb].
  unfold catching, RefreshToken, get_state, mbind, act_bind, token_error, raise, lift_result.
  destruct (decode raw) as [t|] eqn:Hd; [|done].
  destruct (decide (t_jti t ∈ ts_black s)) as [Hin|Hin].
  { by rewrite bool_decide_eq_true_2. }
  rewrite bool_decide_eq_false_2 by done. unfold mret, act_ret. cbn beta iota.
  destruct (token_user_id t) as [uid|e] eqn:Hu; cbn beta iota.
  - destruct (decide (users uid = Some true)) as [Ha|Ha].
    + rewrite bool_decide_eq_true_2 by done. unfold blacklist, token_error, raise, modify.
      destruct (down t); [done|]. unfold mret, act_ret, for_user, get_state, modify, mbind, act_bind.
      cbn [ts_black ts_minted]. unfold mret, act_ret. cbn beta iota. destruct (mint uid (length (ts_minted s))) as [acc ref]. cbn beta iota.
      eexists _, _. split_and!; [reflexivity|done|done|].
      intros s2 Hs2. cbn [ts_black] in Hs2. rewrite bool_decide_eq_true_2 by set_solver. done.
    + by rewrite bool_decide_eq_false_2.
  - destruct (token_user_id_raises t e Hu) as (cls & msg & -> & Hc).
    assert (str_in cls ["TokenError"] = false) as ->.
    { apply not_true_iff_false. rewrite str_in_spec, list_elem_of_singleton. intros ->.
      revert Hc. rewrite !elem_of_cons, elem_of_nil. naive_solver. }
    eauto.
Qed.

(** One token "t1" of user 3, who is active. *)
Definition sample_decode (v : pyval) : option rtoken :=
  match v with
  | VStr s => if String.eqb s "t1" then Some (RToken "jti-1" (Some (ClStr "3"))) else None
  | _ => None
  end.
Definition sample_users (uid : Z) : option bool := if (uid =? 3)%Z then Some true else None.
Definition sample_mint (uid : Z) (n : nat) : string * string := ("access", "refresh").

Lemma refresh_rotation_witness :
  exists resp s', token_refresh sample_decode (fun _ => false) sample_users sample_mint None
      (Some (VStr "t1")) (TokenState ∅ []) = (Ok resp, s') /\ resp_status resp = 200%Z /\
    ts_minted s' = [3%Z] /\
    token_refresh sample_decode (fun _ => false) sample_users sample_mint None
      (Some (VStr "t1")) s' = (Ok (bad_token None), s').
Proof.
  pose proof (refresh_rotation sample_decode (fun _ => false) sample_users sample_mint None
    (VStr "t1") (TokenState ∅ []) eq_refl) as H.
  cbv zeta in H. change (sample_decode (VStr "t1")) with (Some (RToken "jti-1" (Some (ClStr "3")))) in H.
  cbn [t_jti ts_black] in H. destruct (decide ("jti-1" ∈ (∅ : gset string))) as [Hin|_];
    [by apply not_elem_of_empty in Hin|].
  change (token_user_id (RToken "jti-1" (Some (ClStr "3")))) with (@Ok py_exn Z 3%Z) in H.
  destruct (decide (sample_users 3 = Some true)) as [_|Hn]; [|by destruct Hn].
  destruct H as (resp & s' & Hr & Hst & Hs' & Hre). exists resp, s'. split; [exact Hr|].
  split; [exact Hst|]. split; [rewrite Hs'; reflexivity|]. apply Hre. reflexivity.
Defined.

(** C17: logout ends exactly the caller's own session.  Given a token it answers
    200 exactly for a valid one, not yet blacklisted, of the authenticated
    user, while the blacklist can be written; it then blacklists that token and
    nothing else, so a refresh or another logout with it is refused from then
    on.  An invalid or blacklisted token, one of another user, one whose user
    id is text that is no number, and a blacklist that cannot be written are
    answered 401; a token without a user id, or with one that is neither text
    nor a number, escapes as a [KeyError] or [TypeError]; no token is answered
    400.  None of these writes anything. *)
Theorem logout_own_session decode down users mint rid me_ raw s :
  let out := logout decode down rid me_ in
  let refused := (Ok (bad_token rid), s) in
  out None s = (Ok (token_required rid), s) /\
  (truthy raw = false -> out (Some raw) s = (Ok (token_required rid), s)) /\
  (truthy raw = true ->
   match decode raw with
   | None => out (Some raw) s = refused
   | Some t =>
       if decide (t_jti t ∈ ts_black s) then out (Some raw) s = refused
       else match token_user_id t with
       | Raise e => exists cls msg, e = Builtin cls msg /\
           (cls = "ValueError" /\ out (Some raw) s = refused \/
            cls ∈ ["KeyError"; "TypeError"] /\ out (Some raw) s = (Raise e, s))
       | Ok uid =>
           if decide (uid = me_) then
             if down t then out (Some raw) s = refused
             else exists s', out (Some raw) s = (Ok (success_response rid VNone "Successfully logged out." 200), s') /\
               s' = TokenState ({[t_jti t]} ∪ ts_black s) (ts_minted s) /\
               token_refresh decode down users mint rid (Some raw) s' = (Ok (bad_token rid), s') /\
               out (Some raw) s' = (Ok (bad_token rid), s')
           else out (Some raw) s = refused
       end
   end).
Proof.
  intros out refused. unfold out, refused, logout, token_refresh.
  split; [done|]. split; [by intros ->|]. intros Hraw. rewrite Hraw. cbn [negb].
  unfold catching, RefreshToken, get_state, mbind, act_bind, token_error, raise, lift_result.
  destruct (decode raw) as [t|] eqn:Hd; [|done].
  destruct (decide (t_jti t ∈ ts_black s)) as [Hin|Hin].
  { by rewrite bool_decide_eq_true_2. }
  rewrite bool_decide_eq_false_2 by done. unfold mret, act_ret. cbn beta iota.
  destruct (token_user_id t) as [uid|e] eqn:Hu; cbn beta iota.
  - destruct (decide (uid = me_)) as [->|Hne]; [|by rewrite bool_decide_eq_false_2].
    rewrite bool_decide_eq_true_2 by done. cbn [negb].
    unfold blacklist, token_error, raise, modify. destruct (down t) eqn:Hdn; [done|].
    eexists. split_and!; try done; cbn [ts_black]; by rewrite bool_decide_eq_true_2 by set_solver.
  - destruct (token_user_id_raises t e Hu) as (cls & msg & -> & Hc). exists cls, msg. split; [done|].
    rewrite !elem_of_cons, elem_of_nil in Hc. destruct Hc as [->|[->|[->|[]]]]; [right|by left|right];
      (split; [rewrite !elem_of_cons; tauto|done]).
Qed.

Lemma logout_own_session_witness :
  (logout sample_decode (fun _ => false) None 4 (Some (VStr "t1")) (TokenState ∅ [])) =
    (Ok (bad_token None), TokenState ∅ []) /\
  exists s', logout sample_decode (fun _ => false) None 3 (Some (VStr "t1")) (TokenState ∅ []) =
    (Ok (success_response None VNone "Successfully logged out." 200), s').
Proof.
  assert (Hfree : "jti-1" ∉ (∅ : gset string)) by apply not_elem_of_empty.
  split.
  - destruct (logout_own_session sample_decode (fun _ => false) sample_users sample_mint None 4
      (VStr "t1") (TokenState ∅ [])) as (_ & _ & H). specialize (H eq_refl).
    change (sample_decode (VStr "t1")) with (Some (RToken "jti-1" (Some (ClStr "3")))) in H.
    cbn [t_jti ts_black] in H. rewrite decide_False in H by exact Hfree. exact H.
  - destruct (logout_own_session sample_decode (fun _ => false) sample_users sample_mint None 3
      (VStr "t1") (TokenState ∅ [])) as (_ & _ & H). specialize (H eq_refl).
    change (sample_decode (VStr "t1")) with (Some (RToken "jti-1" (Some (ClStr "3")))) in H.
    cbn [t_jti ts_black] in H. rewrite decide_False in H by exact Hfree.
    destruct H as (s' & H & _). exists s'. exact H.
Defined.

(** The redirect allow-list fails closed: the provider is called only with a
    listed URI, and never when no list is configured. *)
Lemma google_post_listed {A} fields allowed (super_post : string -> result py_exn A) d a :
  google_post fields allowed super_post d = Ok a ->
  exists l uri, allowed = Some l /\ uri ∈ l /\ super_post uri = Ok a.
Proof.
  unfold google_post. intros (v & _ & (uri & Hv & Hs)%result_bind_ok)%result_bind_ok.
  unfold validate_redirect_uri in Hv. destruct allowed as [[|u l]|]; [done| |done].
  change (default [] (Some (u :: l))) with (u :: l) in Hv. cbv iota in Hv.
  destruct (str_in (default "" (od_get "redirect_uri" v)) (u :: l)) eqn:E; [|done]. injection Hv as <-.
  apply str_in_spec in E. eauto.
Qed.

(** ** Profile updates *)

(** The fields the serializer leaves writable are those the service takes. *)
Lemma writable_fields :
  filter (fun f => f ∉ UserSerializer_read_only_fields) UserSerializer_fields ≡ₚ UPDATABLE_PROFILE_FIELDS.
Proof.
  change (["first_name"; "last_name"; "timezone"] ≡ₚ ["timezone"; "first_name"; "last_name"]).
  rewrite (Permutation_app_comm ["first_name"; "last_name"] ["timezone"]). done.
Qed.

Lemma profile_fields_get (d : data) f :
  od_get f (profile_fields d) = if decide (f ∈ UPDATABLE_PROFILE_FIELDS) then od_get f d else None.
Proof.
  unfold profile_fields. induction d as [|[k v] d IH]; [by destruct (decide _)|].
  rewrite filter_cons. cbn [fst].
  destruct (decide (k ∈ UPDATABLE_PROFILE_FIELDS)) as [Hk|Hk]; cbn [od_get];
    destruct (decide (k = f)) as [->|Hne]; rewrite ?IH;
    destruct (decide (f ∈ UPDATABLE_PROFILE_FIELDS)); done.
Qed.

Lemma profile_fields_NoDup (d : data) : NoDup d.*1 -> NoDup (profile_fields d).*1.
Proof.
  intros Hd. apply (sublist_NoDup _ d.*1); [done|]. apply fmap_sublist, sublist_filter.
Qed.

Lemma profile_fields_keys (d : data) f : f ∈ (profile_fields d).*1 -> f ∈ UPDATABLE_PROFILE_FIELDS.
Proof.
  intros ([k v] & -> & Hin)%list_elem_of_fmap. apply list_elem_of_filter in Hin. apply Hin.
Qed.

Lemma user_update_ok `{Django} uid (d : data) w i w' :
  NoDup d.*1 -> d <> [] -> "id" ∉ d.*1 -> Forall plain d.*1 -> user_update uid d w = (Ok i, w') ->
  exists r r', w_db w !! (user_model, uid) = Some r /\ w_db w' = <[(user_model, uid) := r']> (w_db w) /\
    (forall f, f ∉ d.*1 -> f +:+ "_id" ∉ d.*1 -> f <> "updated_at" -> r' !! f = r !! f) /\
    (forall f v, od_get f d = Some v -> f <> "updated_at" -> r' !! f = Some v).
Proof.
  intros Hnd Hne Hid Hpl. unfold user_update. rewrite atomic_ok, bind_ok. intros (w0 & w1 & Hg & Hr).
  unfold get_state in Hg. injection Hg as <- <-.
  destruct (first_by_pk _ _ _ _) as [i0|] eqn:Ef; [|done].
  apply first_by_pk_Some in Ef as (r & Hr0 & -> & _).
  apply bind_ok in Hr as (ic & w2 & Hset & Hr). unfold lift_result in Hset. injection Hset as Hset <-.
  apply set_attrs_ok in Hset as [Hm Hset]. cbn [i_model i_attrs load] in Hm, Hset.
  assert (Hget : forall f, i_attrs ic !! f = or_else (od_get f d) (<["id" := VInt uid]> r !! f)).
  { intros f. by rewrite Hset, given_plain. }
  clear Hset. destruct d as [|kv d'] eqn:Ed; [done|]. rewrite <- Ed in *. clear Ed kv d'.
  destruct (forallb _ _) eqn:Hall; [|done].
  assert (Hs : save_outcome (Some d.*1) ic i w w').
  { apply (save_ok true). unfold save. by rewrite bind_ok; exists tt, w. }
  destruct Hs as [pk r0 t Hpk Hr1 Hi _ _ Hdb|pk n1 n2 Hpk Hr1].
  - rewrite Hm in *. unfold i_pk in Hpk. rewrite Hget in Hpk.
    apply od_get_None in Hid. rewrite Hid in Hpk. cbn in Hpk. revert Hpk. row_simpl. intros [= <-].
    assert (r0 = r) as -> by (cbn in Hr1; congruence).
    exists r. eexists. split_and!; [done|exact Hdb| |].
    + intros f Hf Hf2 _. rewrite write_cols_lookup. unfold saved.
      rewrite !(bool_decide_eq_false_2 (_ ∈ d.*1)) by done. by rewrite andb_false_r.
    + intros f v Hv Hu. rewrite write_cols_lookup.
      assert (f ∈ d.*1) as Hin.
      { apply od_get_elem in Hv. apply list_elem_of_fmap. by exists (f, v). }
      rewrite forallb_forall in Hall. specialize (Hall f (proj1 (list_elem_of_In _ _) Hin)).
      apply str_in_spec in Hall. rewrite bool_decide_eq_true_2 by done. unfold saved.
      rewrite (bool_decide_eq_true_2 (f ∈ d.*1)) by done. cbn [andb orb].
      by rewrite Hi, stamped_lookup, Hget, Hv by done.
  - assert (uid = pk) as <-.
    { apply Hpk. unfold i_pk. rewrite Hget.
      apply od_get_None in Hid. rewrite Hid. cbn. by row_simpl. }
    rewrite Hm in Hr1. cbn in Hr1. congruence.
Qed.

(** A profile update writes only the whitelisted columns: whatever keys a
    client sends, the time zone and the two names of the caller's own row are
    all that can change (privilege flags, email and roles never), a time zone
    is written only if the IANA database knows it, no writable key gives
    [NO_FIELDS_TO_UPDATE], and every failure leaves the tables as they were. *)
Theorem profile_whitelist `{Django} zones rid uid d w res w' :
  NoDup d.*1 ->
  update_profile zones rid uid d w = (res, w') ->
  match res with
  | Raise e => w' = w /\ (profile_fields d = [] -> e = plain_error NoFieldsToUpdateError rid)
  | Ok _ => exists r r', w_db w !! (user_model, uid) = Some r /\
      w_db w' = <[(user_model, uid) := r']> (w_db w) /\
      (forall f, f ∉ ["updated_at"; "timezone"; "first_name"; "last_name"] -> r' !! f = r !! f) /\
      (forall f v, f ∈ ["timezone"; "first_name"; "last_name"] -> od_get f d = Some v -> r' !! f = Some v) /\
      (forall v, od_get "timezone" d = Some v -> exists z, v = VStr z /\ zones z = true)
  end.
Proof.
  change ["timezone"; "first_name"; "last_name"] with UPDATABLE_PROFILE_FIELDS.
  intros Hnd Hr. unfold update_profile in Hr.
  destruct (profile_fields d) as [|kv d'] eqn:Ed; [by injection Hr as <- <-|].
  assert (Hne : profile_fields d <> []) by congruence. rewrite <- Ed in Hr |- *. clear Ed kv d'.
  set (ud := profile_fields d) in *.
  unfold mbind, act_bind, lift_result in Hr.
  set (chk := match od_get "timezone" ud with Some v => timezone_known zones v | None => Ok true end) in *.
  destruct chk as [[]|e] eqn:Ec; [|by injection Hr as <- <-|by injection Hr as <- <-].
  destruct res as [i|e].
  2: { split; [|done]. by apply atomic_rollback in Hr. }
  apply user_update_ok in Hr as (r & r' & Hr0 & Hdb & Hout & Hin);
    [|by apply profile_fields_NoDup|done| |].
  3: { apply list.Forall_forall. intros f Hf%profile_fields_keys. unfold UPDATABLE_PROFILE_FIELDS in Hf.
       rewrite !elem_of_cons, elem_of_nil in Hf. by destruct Hf as [->|[->|[->|[]]]]. }
  2: { intros Hk%profile_fields_keys. revert Hk. unfold UPDATABLE_PROFILE_FIELDS.
       rewrite !elem_of_cons, elem_of_nil. naive_solver. }
  exists r, r'. split_and!; [done|done| | |].
  - intros f. rewrite not_elem_of_cons. intros [Hu Hf]. apply Hout; [| |done].
    + by intros Hk%profile_fields_keys.
    + intros Hk%profile_fields_keys. revert Hk. unfold UPDATABLE_PROFILE_FIELDS.
      rewrite !elem_of_cons, elem_of_nil. intros [E|[E|[E|[]]]].
      * by destruct (str_app_inj f "timez" "_id" "one" eq_refl E).
      * by destruct (str_app_inj f "first_n" "_id" "ame" eq_refl E).
      * by destruct (str_app_inj f "last_n" "_id" "ame" eq_refl E).
  - intros f v Hf Hv. apply Hin.
    + unfold ud. rewrite profile_fields_get, decide_True; done.
    + intros ->. revert Hf. unfold UPDATABLE_PROFILE_FIELDS.
      rewrite !elem_of_cons, elem_of_nil. naive_solver.
  - intros v Hv. unfold chk in Ec.
    assert (od_get "timezone" ud = Some v) as Hv'.
    { unfold ud. rewrite profile_fields_get, decide_True; [done|].
      unfold UPDATABLE_PROFILE_FIELDS. left. }
    rewrite Hv' in Ec. unfold timezone_known in Ec. destruct v; simplify_eq. by eexists.
Qed.

(** One user who asks for a new name and for staff rights. *)
Definition user_django : Django :=
  Build_Django (fun _ => Meta [("email", VStr ""); ("first_name", VStr ""); ("last_name", VStr "");
                               ("timezone", VStr "UTC"); ("is_staff", VBool false)] [] [])
    Z.of_nat (fun _ _ => None) (fun _ _ _ _ => None) (fun _ _ _ => true) (fun _ _ => None) (fun _ l => l).
Definition user_world : world :=
  World {[ (user_model, 7%Z) := list_to_map [("first_name", VStr "Ann"); ("is_staff", VBool false)] ]} 0 8 [].

Lemma profile_whitelist_witness :
  exists i w', @update_profile user_django (fun _ => true) None 7
      [("first_name", VStr "Eve"); ("is_staff", VBool true)] user_world = (Ok i, w') /\
    exists r', w_db w' !! (user_model, 7%Z) = Some r' /\ r' !! "first_name" = Some (VStr "Eve") /\
      r' !! "is_staff" = Some (VBool false).
Proof.
  destruct (@update_profile user_django (fun _ => true) None 7
      [("first_name", VStr "Eve"); ("is_staff", VBool true)] user_world) as [res w'] eqn:E.
  pose proof (@profile_whitelist user_django (fun _ => true) None 7
    [("first_name", VStr "Eve"); ("is_staff", VBool true)] user_world res w'
    ltac:(apply (bool_decide_unpack _); by vm_compute) E) as Ht.
  assert (Hres : returns (@update_profile user_django (fun _ => true) None 7
      [("first_name", VStr "Eve"); ("is_staff", VBool true)] user_world).1 = true)
    by (vm_compute; reflexivity).
  rewrite E in Hres. destruct res as [i|e]; [|discriminate Hres].
  exists i, w'. split; [reflexivity|]. destruct Ht as (r & r' & Hr & Hdb & Hout & Hin & _).
  exists r'. split; [rewrite Hdb; apply lookup_insert_eq|]. split.
  - apply Hin; [apply (bool_decide_unpack _); by vm_compute|reflexivity].
  - rewrite Hout; [|apply (bool_decide_unpack _); by vm_compute].
    assert (Hs : w_db user_world !! (user_model, 7%Z) ≫= (fun r => r !! "is_staff") = Some (VBool false))
      by (vm_compute; reflexivity).
    rewrite Hr in Hs. exact Hs.
Defined.

(** ** Sign-up *)

(** Sign-up through either adapter is one transaction: if anything in it
    raises, the new user, the address stamp and the role rows are all gone;
    if it returns, the new user holds every default role (besides any it
    already had), no other user's roles changed, and with no default role
    configured a warning is logged. *)
Theorem signup_atomic `{Django} roles save_user ip email commit s res s' :
  (forall s1 r s2, save_user s1 = (r, s2) -> su_roles s2 = su_roles s1) ->
  (social_save_user roles save_user ip email s = (res, s') \/
   (commit = true /\ account_save_user roles save_user commit email s = (res, s'))) ->
  match res with
  | Raise _ => s' = s
  | Ok uid => exists s1,
      (list_to_set (roles (su_world s1)) ⊆ default ∅ (su_roles s' !! uid)) /\
      (default ∅ (su_roles s !! uid) ⊆ default ∅ (su_roles s' !! uid)) /\
      (forall other, other <> uid -> su_roles s' !! other = su_roles s !! other) /\
      (roles (su_world s1) = [] -> exists l, w_log (su_world s') =
         l ++ [Log "WARNING" "No default roles configured: user created without RBAC roles."
                 [("user", VStr email)]])
  end.
Proof.
  intros Hsave Hor. destruct res as [uid|e].
  2: { destruct Hor as [Hr|[-> Hr]]; by apply atomic_rollback in Hr. }
  assert (Hrun : exists s1, su_roles s1 = su_roles s /\
    assign_default_roles roles uid email s1 = (Ok tt, s')).
  { destruct Hor as [Hr|[-> Hr]]; apply atomic_ok, bind_ok in Hr as (uid' & s1 & H1 & Hr).
    - apply bind_ok in Hr as ([] & s2 & H2 & Hr). apply bind_ok in Hr as ([] & s3 & H3 & Hr).
      unfold mret, act_ret in Hr. injection Hr as -> <-. exists s2. split; [|done].
      apply Hsave in H1. destruct (_ && _); [by injection H2 as <-|].
      unfold mret, act_ret in H2. by injection H2 as <-.
    - apply bind_ok in Hr as ([] & s2 & H2 & Hr). unfold mret, act_ret in Hr. injection Hr as -> <-.
      exists s1. split; [by apply Hsave in H1|done]. }
  destruct Hrun as (s1 & Hs1 & Hrun). exists s1. unfold assign_default_roles in Hrun.
  apply bind_ok in Hrun as (s2 & s3 & Hg & Hrun). unfold get_state in Hg. injection Hg as <- <-.
  destruct (roles (su_world s1)) as [|n names] eqn:En.
  - unfold add_log, modify in Hrun. injection Hrun as <-. cbn. rewrite Hs1.
    split_and!; [set_solver|done|done|]. intros _. by eexists.
  - unfold mbind, act_bind, add_roles, add_log, modify in Hrun. injection Hrun as <-. cbn [su_roles].
    rewrite lookup_insert_eq. cbn [default]. rewrite Hs1. split_and!; [set_solver|set_solver| |done].
    intros other Ho. by rewrite lookup_insert_ne.
Qed.

Lemma signup_atomic_witness :
  exists s', @social_save_user (fun _ => ["member"]) (fun s => (Ok 5%Z, s)) "10.0.0.1" "a@b.c"
      (Signup user_world ∅) = (Ok 5%Z, s') /\ "member" ∈ default ∅ (su_roles s' !! 5%Z).
Proof.
  destruct (@social_save_user (fun _ => ["member"]) (fun s => (Ok 5%Z, s)) "10.0.0.1" "a@b.c"
      (Signup user_world ∅)) as [res s'] eqn:E.
  pose proof (@signup_atomic user_django (fun _ => ["member"]) (fun s => (Ok 5%Z, s)) "10.0.0.1" "a@b.c"
    true (Signup user_world ∅) res s' ltac:(intros s1 r s2 [= _ <-]; reflexivity) (or_introl E)) as Ht.
  assert (res = Ok 5%Z) as -> by (vm_compute in E; by injection E as <- _).
  exists s'. split; [reflexivity|]. destruct Ht as (s1 & Hin & _). apply Hin. set_solver.
Defined.
