(* ===== verification/Sessions.v ===== *)
(** * Token requests that overlap

    The refresh and logout views of [accounts/views.py] as several requests at
    once meet the blacklist.  A view reads and writes the shared state in up to
    four places (the blacklist check in [RefreshToken], the user lookup, the
    blacklist write, the new pair), so a request is a small machine with one
    step per place, and a schedule is a list of arrivals and steps.  Run
    without interruption, the machine is the view of [Accounts]. *)
From stdpp Require Import base list gmap strings relations.
From Stdlib Require Import Lia ZArith.
From S2P Require Import Prelude PyStr PyVal Exceptions Orm Handler Responses Accounts.

(** What was asked, and how far the view has come. *)
Inductive token_request :=
| Refresh (raw : option pyval)
| Logout (request_user : Z) (raw : option pyval).

Inductive progress :=
| Arrived
| Checked (t : rtoken)
| Allowed (t : rtoken) (uid : Z)
| Rotating (uid : Z)
| Answered (res : result py_exn response).

Record session_state := SessionState {
  requests : gmap nat (token_request * progress);
  tokens : token_state;
}.

Inductive session_action := Arrive (i : nat) (req : token_request) | Advance (i : nat).

Section sessions.
Context (decode : pyval -> option rtoken) (blacklist_down : rtoken -> bool).
Context (users : Z -> option bool) (mint : Z -> nat -> string * string) (rid : option string).

Definition presented (req : token_request) : option pyval :=
  match req with Refresh raw | Logout _ raw => raw end.

(** An exception in the body of a view: handled, or passed on. *)
Definition handled (req : token_request) (e : py_exn) : result py_exn response :=
  match e with
  | Builtin cls _ =>
      if str_in cls (match req with Refresh _ => ["TokenError"] | Logout _ _ => ["TokenError"; "ValueError"] end)
      then Ok (bad_token rid) else Raise e
  | _ => Raise e
  end.

(** One step of one request. *)
Definition advance (req : token_request) (p : progress) (s : token_state) : progress * token_state :=
  match p with
  | Arrived =>
      match presented req with
      | None => (Answered (Ok (token_required rid)), s)
      | Some raw =>
          if negb (truthy raw) then (Answered (Ok (token_required rid)), s)
          else match RefreshToken decode raw s with
               | (Ok t, s') => (Checked t, s')
               | (Raise e, s') => (Answered (handled req e), s')
               end
      end
  | Checked t =>
      match token_user_id t with
      | Raise e => (Answered (handled req e), s)
      | Ok uid =>
          if match req with
             | Refresh _ => bool_decide (users uid = Some true)
             | Logout me_ _ => bool_decide (uid = me_)
             end
          then (Allowed t uid, s) else (Answered (Ok (bad_token rid)), s)
      end
  | Allowed t uid =>
      match blacklist blacklist_down t s, req with
      | (Ok _, s'), Refresh _ => (Rotating uid, s')
      | (Ok _, s'), Logout _ _ =>
          (Answered (Ok (success_response rid VNone "Successfully logged out." 200)), s')
      | (Raise _, s'), Refresh _ => (Answered (Ok (rotation_unavailable rid)), s')
      | (Raise e, s'), Logout _ _ => (Answered (handled req e), s')
      end
  | Rotating uid =>
      match for_user mint uid s with
      | (Ok (access, refresh), s') =>
          (Answered (Ok (success_response rid
             (VDict [(KStr "access", VStr access); (KStr "refresh", VStr refresh)]) "Success" 200)), s')
      | (Raise e, s') => (Answered (handled req e), s')
      end
  | Answered res => (Answered res, s)
  end.

(** A request arrives under a new number; an absent one does not move. *)
Definition perform (a : session_action) (st : session_state) : session_state :=
  match a with
  | Arrive i req =>
      match requests st !! i with
      | Some _ => st
      | None => SessionState (<[i := (req, Arrived)]> (requests st)) (tokens st)
      end
  | Advance i =>
      match requests st !! i with
      | Some (req, p) =>
          let '(p', s') := advance req p (tokens st) in
          SessionState (<[i := (req, p')]> (requests st)) s'
      | None => st
      end
  end.
Definition schedule (acts : list session_action) (st : session_state) : session_state :=
  fold_left (fun st a => perform a st) acts st.

(** ** One request alone *)

Fixpoint alone (n : nat) (req : token_request) (p : progress) (s : token_state) : progress * token_state :=
  match n with
  | O => (p, s)
  | S n' => let '(p', s') := advance req p s in alone n' req p' s'
  end.

Definition view (req : token_request) : act token_state py_exn response :=
  match req with
  | Refresh raw => token_refresh decode blacklist_down users mint rid raw
  | Logout me_ raw => logout decode blacklist_down rid me_ raw
  end.

(** Four steps of one request, uninterrupted, are the view: they end it with
    the same answer (or the same exception) and the same blacklist and tokens
    as the sequential [token_refresh] or [logout]. *)
Theorem alone_is_the_view req s :
  let '(res, s') := view req s in alone 4 req Arrived s = (Answered res, s').
Proof.
  destruct req as [raw|me_ raw]; cbn [view alone advance presented]; unfold token_refresh, logout.
  all: destruct raw as [raw|]; [|reflexivity]; destruct (truthy raw); cbn [negb]; [|reflexivity].
  all: unfold catching, RefreshToken, get_state, mbind, act_bind, token_error, raise, lift_result, mret, act_ret.
  all: destruct (decode raw) as [t|]; cbn [handled]; [|reflexivity].
  all: destruct (bool_decide (t_jti t ∈ ts_black s)); [reflexivity|].
  all: cbn [advance]; destruct (token_user_id t) as [uid|e].
  2, 4: destruct e as [x|cls msg]; [reflexivity|cbn [handled]; destruct (str_in cls _); reflexivity].
  - destruct (bool_decide (users uid = Some true)); [|reflexivity]. cbn [advance].
    unfold blacklist, token_error, raise, modify. destruct (blacklist_down t); [reflexivity|].
    unfold mret, act_ret, for_user, get_state, modify, mbind, act_bind, mret, act_ret.
    cbn [advance]. unfold for_user, get_state, modify, mbind, act_bind, mret, act_ret.
    cbn beta iota. destruct (mint uid _). reflexivity.
  - destruct (bool_decide (uid = me_)); cbn [negb]; [|reflexivity]. cbn [advance].
    unfold blacklist, token_error, raise, modify. destruct (blacklist_down t); reflexivity.
Qed.

(** ** Every schedule *)

(** What holds of a request at each point. *)
Definition progress_ok (s : token_state) (req : token_request) (p : progress) : Prop :=
  let holds t := exists raw, presented req = Some raw /\ truthy raw = true /\ decode raw = Some t in
  match p with
  | Arrived => True
  | Checked t => holds t
  | Allowed t uid =>
      holds t /\ token_user_id t = Ok uid /\
      match req with Refresh _ => users uid = Some true | Logout me_ _ => uid = me_ end
  | Rotating uid => users uid = Some true /\ exists t, holds t /\ t_jti t ∈ ts_black s
  | Answered (Ok resp) => resp_status resp = 200%Z -> exists t, holds t /\ t_jti t ∈ ts_black s
  | Answered (Raise _) => True
  end.

Record session_inv (st : session_state) : Prop := {
  si_requests : forall i req p, requests st !! i = Some (req, p) -> progress_ok (tokens st) req p;
  si_minted : Forall (fun uid => users uid = Some true) (ts_minted (tokens st));
}.

Lemma progress_ok_mono s s' req p :
  ts_black s ⊆ ts_black s' -> progress_ok s req p -> progress_ok s' req p.
Proof. intros Hs. destruct p as [| | |uid|[resp|]]; cbn [progress_ok]; try done; naive_solver. Qed.

Lemma handled_status req e resp : handled req e = Ok resp -> resp_status resp <> 200%Z.
Proof. destruct e; cbn [handled]; [done|]. destruct (str_in _ _); [|done]. by intros [= <-]. Qed.

(** A step keeps the blacklist growing and what is known of its request. *)
Lemma advance_ok req p s p' s' :
  progress_ok s req p -> Forall (fun uid => users uid = Some true) (ts_minted s) ->
  advance req p s = (p', s') ->
  progress_ok s' req p' /\ Forall (fun uid => users uid = Some true) (ts_minted s') /\
  ts_black s ⊆ ts_black s'.
Proof.
  assert (Hh : forall e s0, progress_ok s0 req (Answered (handled req e))).
  { intros e s0. cbn. destruct (handled req e) as [resp|] eqn:E; [|done].
    by apply handled_status in E. }
  destruct p as [|t|t uid|uid|res]; cbn [advance].
  - intros _ Hm. destruct (presented req) as [raw|] eqn:Ep; [|by intros [= <- <-]].
    destruct (truthy raw) eqn:Et; cbn [negb]; [|by intros [= <- <-]].
    unfold RefreshToken, get_state, mbind, act_bind, token_error, raise, mret, act_ret.
    destruct (decode raw) as [t|] eqn:Ed; [|intros [= <- <-]; split; [apply (Hh (Builtin "TokenError" _))|done]].
    destruct (bool_decide _); intros [= <- <-]; (split; [|done]); [apply (Hh (Builtin "TokenError" _))|]. cbn. by exists raw.
  - intros Ht Hm. cbn in Ht. destruct (token_user_id t) as [uid|e] eqn:Eu; [|intros [= <- <-]; split; [apply Hh|done]].
    destruct req as [raw|me_ raw]; cbn beta iota; case_bool_decide;
      intros [= <- <-]; by split_and!.
  - intros (Ht & Hu & Hreq) Hm. unfold blacklist, token_error, raise, modify.
    destruct (blacklist_down t); destruct req as [raw|me_ raw]; intros [= <- <-];
      (split; [|split; [done|cbn; set_solver]]).
    + done.
    + apply (Hh (Builtin "TokenError" "blacklist unavailable")).
    + split; [done|]. exists t. split; [done|]. cbn. set_solver.
    + intros _. exists t. split; [done|]. cbn. set_solver.
  - intros (Hu & t & Ht & Hb) Hm. unfold for_user, get_state, modify, mbind, act_bind, mret, act_ret.
    destruct (mint uid _) as [a r]. intros [= <- <-]. cbn. split_and!; [eauto| |done].
    by constructor.
  - by intros Hp Hm [= <- <-].
Qed.

Lemma perform_inv a st : session_inv st -> session_inv (perform a st).
Proof.
  intros [Hr Hm]. destruct a as [i req|i]; cbn [perform].
  - destruct (requests st !! i) eqn:E; [done|]. split; [|done]. cbn [requests tokens].
    intros j req' p' Hj. apply lookup_insert_Some in Hj as [[<- [= <- <-]]|[_ Hj]]; [done|eauto].
  - destruct (requests st !! i) as [[req p]|] eqn:E; [|done].
    destruct (advance req p (tokens st)) as [p' s'] eqn:Ea.
    apply advance_ok in Ea as (H1 & H2 & H3); [|eauto|done]. split; [|done]. cbn [requests tokens].
    intros j req' q Hj. apply lookup_insert_Some in Hj as [[<- [= <- <-]]|[_ Hj]]; [done|].
    eapply progress_ok_mono; eauto.
Qed.

Lemma schedule_inv acts st : session_inv st -> session_inv (schedule acts st).
Proof. revert st. induction acts as [|a acts IH]; intros st Hi; [done|]. by apply IH, perform_inv. Qed.

Definition opening (s0 : token_state) : session_state := SessionState ∅ s0.
Lemma opening_inv s0 :
  Forall (fun uid => users uid = Some true) (ts_minted s0) -> session_inv (opening s0).
Proof. intros Hm. by split; [intros i req p|]. Qed.

(** A request with a blacklisted token stays at its arrival or is refused. *)
Definition refused (t : rtoken) (st : session_state) (j : nat) : Prop :=
  t_jti t ∈ ts_black (tokens st) /\
  forall req p raw t', requests st !! j = Some (req, p) -> presented req = Some raw -> truthy raw = true ->
    decode raw = Some t' -> t_jti t' = t_jti t -> p = Arrived \/ p = Answered (Ok (bad_token rid)).

Lemma advance_black req p s p' s' : advance req p s = (p', s') -> ts_black s ⊆ ts_black s'.
Proof.
  destruct p as [|t|t uid|uid|res]; cbn [advance].
  - destruct (presented req) as [raw|]; [|by intros [= _ <-]].
    destruct (truthy raw); cbn [negb]; [|by intros [= _ <-]].
    unfold RefreshToken, get_state, mbind, act_bind, token_error, raise, mret, act_ret.
    destruct (decode raw); [|by intros [= _ <-]]. destruct (bool_decide _); by intros [= _ <-].
  - destruct (token_user_id t); [|by intros [= _ <-]].
    destruct (match req with Refresh _ => _ | _ => _ end); by intros [= _ <-].
  - unfold blacklist, token_error, raise, modify.
    destruct (blacklist_down t), req; intros [= _ <-]; cbn; set_solver.
  - unfold for_user, get_state, modify, mbind, act_bind, mret, act_ret. destruct (mint _ _).
    by intros [= _ <-].
  - by intros [= _ <-].
Qed.

Lemma perform_refused t a st j : refused t st j -> refused t (perform a st) j.
Proof.
  intros [Hb Hr]. destruct a as [i req|i]; cbn [perform].
  - destruct (requests st !! i) eqn:E; [by split|]. split; [done|]. cbn [requests].
    intros req' p' raw t' Hj. apply lookup_insert_Some in Hj as [[<- [= <- <-]]|[_ Hj]]; eauto.
  - destruct (requests st !! i) as [[req p]|] eqn:E; [|by split].
    destruct (advance req p (tokens st)) as [p' s'] eqn:Ea. split; cbn [tokens requests].
    { apply advance_black in Ea. set_solver. }
    intros req' q raw t' Hj Hp Ht Hd Hjti.
    apply lookup_insert_Some in Hj as [[<- [= <- <-]]|[_ Hj]]; [|eauto].
    destruct (Hr req p raw t' E Hp Ht Hd Hjti) as [-> | ->]; cbn [advance] in Ea;
      [|by injection Ea as <- _; right].
    rewrite Hp, Ht in Ea. cbn [negb] in Ea. revert Ea.
    unfold RefreshToken, get_state, mbind, act_bind, token_error, raise. rewrite Hd.
    rewrite bool_decide_eq_true_2 by (by rewrite Hjti). intros [= <- _]. right. by destruct req.
Qed.

Lemma schedule_refused t acts st j : refused t st j -> refused t (schedule acts st) j.
Proof. revert st. induction acts as [|a acts IH]; intros st Hi; [done|]. by apply IH, perform_refused. Qed.
End sessions.

(** C18: whatever requests overlap and however their steps interleave, once one
    refresh or logout has been answered 200 for a token, no request that
    arrives afterwards with that token is answered anything but 401, whether
    it refreshes or logs out; and new pairs are only ever minted for active
    users. *)
Theorem no_replay_after_answer decode down users mint rid s0 before after i req raw t resp j req' p' raw' t' :
  Forall (fun uid => users uid = Some true) (ts_minted s0) ->
  let run := schedule decode down users mint rid in
  let st := run before (opening s0) in
  let st' := run after st in
  requests st !! i = Some (req, Answered (Ok resp)) -> resp_status resp = 200%Z ->
  presented req = Some raw -> decode raw = Some t ->
  requests st !! j = None -> requests st' !! j = Some (req', p') ->
  presented req' = Some raw' -> truthy raw' = true -> decode raw' = Some t' -> t_jti t' = t_jti t ->
  (p' = Arrived \/ p' = Answered (Ok (bad_token rid))) /\
  Forall (fun uid => users uid = Some true) (ts_minted (tokens st')).
Proof.
  intros Hm run st st' Hi Hst Hp Hd Hj Hj' Hp' Ht' Hd' Hjti.
  assert (Hinv : session_inv decode users st) by (by apply schedule_inv, opening_inv).
  split; [|by apply (schedule_inv decode down users mint rid after st Hinv)].
  destruct (si_requests _ _ _ Hinv i _ _ Hi Hst) as (t0 & (raw0 & Hp0 & _ & Hd0) & Hb).
  simplify_eq.
  assert (refused decode rid t st j) as Href by (split; [done|]; intros; congruence).
  destruct (schedule_refused decode down users mint rid t after st j Href) as [_ Hr]. eauto.
Qed.

(** Two requests with the token "t1", the second one after the answer. *)
Lemma no_replay_after_answer_witness :
  exists st st' resp,
    st = schedule sample_decode (fun _ => false) sample_users sample_mint None
           (Arrive 1 (Refresh (Some (VStr "t1"))) :: replicate 4 (Advance 1)) (opening (TokenState ∅ [])) /\
    requests st !! 1 = Some (Refresh (Some (VStr "t1")), Answered (Ok resp)) /\
    st' = schedule sample_decode (fun _ => false) sample_users sample_mint None
            [Arrive 2 (Logout 3 (Some (VStr "t1"))); Advance 2] st /\
    exists p', requests st' !! 2 = Some (Logout 3 (Some (VStr "t1")), p') /\
      (p' = Arrived \/ p' = Answered (Ok (bad_token None))).
Proof.
  eexists _, _, _. split; [reflexivity|]. split; [reflexivity|]. split; [reflexivity|]. eexists.
  split; [reflexivity|].
  eapply (no_replay_after_answer sample_decode (fun _ => false) sample_users sample_mint None
    (TokenState ∅ []) (Arrive 1 (Refresh (Some (VStr "t1"))) :: replicate 4 (Advance 1))
    [Arrive 2 (Logout 3 (Some (VStr "t1"))); Advance 2] 1 _ _ _ _ 2); try reflexivity. constructor.
Defined.

(** Overlap defeats the rotation: two requests that check the token before
    either blacklists it are both answered 200, each with a pair of its own. *)
Lemma concurrent_refresh_mints_twice :
  let st := schedule sample_decode (fun _ => false) sample_users sample_mint None
    ([Arrive 1 (Refresh (Some (VStr "t1"))); Arrive 2 (Refresh (Some (VStr "t1"))); Advance 1; Advance 2] ++
     replicate 3 (Advance 1) ++ replicate 3 (Advance 2)) (opening (TokenState ∅ [])) in
  (exists r1, requests st !! 1 = Some (Refresh (Some (VStr "t1")), Answered (Ok r1)) /\ resp_status r1 = 200%Z) /\
  (exists r2, requests st !! 2 = Some (Refresh (Some (VStr "t1")), Answered (Ok r2)) /\ resp_status r2 = 200%Z) /\
  ts_minted (tokens st) = [3%Z; 3%Z].
Proof.
  split; [|split]; [eexists; split; [vm_compute; reflexivity|reflexivity]..|vm_compute; reflexivity].
Qed.

(** A refresh that has passed its check outlives the logout that ends the session. *)
Lemma refresh_overtaken_by_logout :
  let st := schedule sample_decode (fun _ => false) sample_users sample_mint None
    ([Arrive 1 (Refresh (Some (VStr "t1"))); Advance 1; Arrive 2 (Logout 3 (Some (VStr "t1")))] ++
     replicate 3 (Advance 2) ++ replicate 3 (Advance 1)) (opening (TokenState ∅ [])) in
  (exists r2, requests st !! 2 = Some (Logout 3 (Some (VStr "t1")), Answered (Ok r2)) /\ resp_status r2 = 200%Z) /\
  (exists r1, requests st !! 1 = Some (Refresh (Some (VStr "t1")), Answered (Ok r1)) /\ resp_status r1 = 200%Z) /\
  ts_minted (tokens st) = [3%Z].
Proof.
  split; [|split]; [eexists; split; [vm_compute; reflexivity|reflexivity]..|vm_compute; reflexivity].
Qed.
