(* ===== verification/Contract.v ===== *)
(** * The response contract

    [core/responses/envelope_schema.py] (the typed envelope), the schema and
    example builders of [core/api_schemas/envelope.py], the shared responses
    of [core/api_schemas/responses.py] and the endpoint documents of
    [accounts/api_schemas] and [core/api_schemas/system.py], and the schema
    bases of [core/base/schema.py], set against what the builders, the
    exception handler and the account views really answer. *)
From stdpp Require Import base list gmap strings pretty numbers.
From Stdlib Require Import Ascii Lia ZArith.
From S2P Require Import Prelude PyStr PyVal Exceptions Orm Service Cascade Handler Responses ApiKey Accounts.

(** ** [ResponseEnvelope] *)

(** The annotations the model uses. *)
Inductive annotation :=
| AnyT
| BoolT
| StrT
| ListOfDict
| Optional (t : annotation).

Fixpoint has_type (v : pyval) (t : annotation) : bool :=
  match t with
  | AnyT => true
  | BoolT => match v with VBool _ => true | _ => false end
  | StrT => is_str v
  | ListOfDict => match v with VList l => forallb is_dict l | _ => false end
  | Optional t' => match v with VNone => true | _ => has_type v t' end
  end.

(** A field: its name, its annotation and its default, if it has one. *)
Definition ResponseEnvelope : list (string * annotation * option pyval) :=
  [("success", BoolT, None); ("message", StrT, None); ("data", Optional AnyT, Some VNone);
   ("errors", Optional ListOfDict, Some VNone); ("request_id", Optional StrT, Some VNone)].

(** A body that is an instance of the model: its fields are the model's, in
    order, each of its type. *)
Definition instance_of (fields : list (string * annotation * option pyval)) (b : body) : bool :=
  bool_decide (b.*1 = (fun f => KStr f.1.1) <$> fields) &&
  forallb (fun fv => has_type fv.2.2 fv.1.1.2) (zip fields b).

(** ** Schemas *)

Definition str_schema : pyval := VDict [(KStr "type", VStr "string")].
Definition example_of (t : string) (v : pyval) : pyval := VDict [(KStr "type", VStr t); (KStr "example", v)].
Definition request_id_schema : pyval :=
  VDict [(KStr "type", VStr "string"); (KStr "nullable", VBool true);
         (KStr "example", VStr "b0f1e6c2-1a1e-4f7a-9a6a-0b0e2d2b2a9e")].
Definition errors_schema (example : pyval) : pyval :=
  VDict [(KStr "type", VStr "array"); (KStr "items", VDict [(KStr "type", VStr "object")]);
         (KStr "nullable", VBool true); (KStr "example", example)].

Definition envelope_schema (data_schema : option pyval) (success : bool) (message_example : string) : pyval :=
  VDict [
    (KStr "type", VStr "object");
    (KStr "properties", VDict [
      (KStr "success", example_of "boolean" (VBool success));
      (KStr "message", example_of "string" (VStr message_example));
      (KStr "data", match data_schema with
                    | Some s => if truthy s then s
                                else VDict [(KStr "type", VStr "object"); (KStr "nullable", VBool true)]
                    | None => VDict [(KStr "type", VStr "object"); (KStr "nullable", VBool true)]
                    end);
      (KStr "errors", errors_schema VNone);
      (KStr "request_id", request_id_schema)]);
    (KStr "required", VList [VStr "success"; VStr "message"])].

Definition pagination_schema : pyval :=
  VDict [
    (KStr "type", VStr "object");
    (KStr "properties", VDict [
      (KStr "total_count", example_of "integer" (VInt 42));
      (KStr "page_size", example_of "integer" (VInt 20));
      (KStr "page_number", example_of "integer" (VInt 1));
      (KStr "total_pages", example_of "integer" (VInt 3));
      (KStr "has_previous", example_of "boolean" (VBool false));
      (KStr "has_next", example_of "boolean" (VBool true))]);
    (KStr "required", VList [VStr "total_count"; VStr "page_size"; VStr "page_number";
                             VStr "total_pages"; VStr "has_previous"; VStr "has_next"])].

Definition page_schema (item : pyval) : pyval :=
  VDict [(KStr "type", VStr "object");
    (KStr "properties", VDict [
      (KStr "items", VDict [(KStr "type", VStr "array"); (KStr "items", item)]);
      (KStr "pagination", pagination_schema)]);
    (KStr "required", VList [VStr "items"; VStr "pagination"])].

Definition paginated_envelope_schema (item_schema : pyval) : pyval :=
  envelope_schema (Some (page_schema item_schema)) true "Success".

Definition error_envelope (message_example : string) (errors_example : option (list pyval)) : pyval :=
  VDict [
    (KStr "type", VStr "object");
    (KStr "properties", VDict [
      (KStr "success", example_of "boolean" (VBool false));
      (KStr "message", example_of "string" (VStr message_example));
      (KStr "data", VDict [(KStr "type", VStr "object"); (KStr "nullable", VBool true); (KStr "example", VNone)]);
      (KStr "errors", errors_schema (match errors_example with Some l => VList l | None => VNone end));
      (KStr "request_id", request_id_schema)]);
    (KStr "required", VList [VStr "success"; VStr "message"])].

Definition example_request_id : string := "b0f1e6c2-1a1e-4f7a-9a6a-0b0e2d2b2a9e".

Definition envelope_example (data : pyval) (message : string) : pyval :=
  VDict [(KStr "success", VBool true); (KStr "message", VStr message); (KStr "data", data);
         (KStr "errors", VNone); (KStr "request_id", VStr example_request_id)].

Definition error_example (message : string) (errors : option (list pyval)) : pyval :=
  VDict [(KStr "success", VBool false); (KStr "message", VStr message); (KStr "data", VNone);
         (KStr "errors", match errors with Some l => VList l | None => VNone end);
         (KStr "request_id", VStr example_request_id)].

(** ** The published documents

    An [OpenApiResponse] is its response schema and its named examples; the
    [description]s are prose.  A serializer class is given by its name. *)
Inductive response_schema :=
| Inline (schema : pyval)
| Serializer (name : string).

Record openapi_response := OpenApiResponse {
  oa_response : option response_schema;
  oa_examples : list (string * pyval);
}.

Definition inline (schema : pyval) (examples : list (string * pyval)) : openapi_response :=
  OpenApiResponse (Some (Inline schema)) examples.

(** An object schema of string members with an example each, some required. *)
Definition detail_schema (example : string) (required : bool) : pyval :=
  VDict ([(KStr "type", VStr "object");
          (KStr "properties", VDict [(KStr "detail", example_of "string" (VStr example))])] ++
         (if required then [(KStr "required", VList [VStr "detail"])] else [])).
Definition detail (s : string) : pyval := VDict [(KStr "detail", VStr s)].
Definition no_credentials : string := "Authentication credentials were not provided.".
Definition no_permission : string := "You do not have permission to perform this action.".
Definition throttled : string := "Request was throttled. Expected available in 3600 seconds.".
Definition error_item (code message : string) : pyval :=
  VDict [(KStr "code", VStr code); (KStr "message", VStr message)].

(** [core/api_schemas/responses.py] *)
Definition not_found_response : openapi_response :=
  inline (error_envelope "Partner not found" None) [("not_found", error_example "Partner not found" None)].

Definition required_code : pyval :=
  VDict [(KStr "field", VStr "code"); (KStr "detail", VStr "This field is required.")].
Definition validation_error_response : openapi_response :=
  inline (error_envelope "Invalid input" (Some [required_code]))
    [("validation_error", error_example "Invalid input" (Some [required_code]))].

Definition auth_required_response : openapi_response :=
  inline (detail_schema no_credentials false) [("unauthorized", detail no_credentials)].

Definition forbidden_response : openapi_response :=
  inline (detail_schema no_permission false) [("forbidden", detail no_permission)].

Definition throttle_response : openapi_response :=
  inline (VDict [
      (KStr "type", VStr "object");
      (KStr "properties", VDict [
        (KStr "detail", example_of "string" (VStr throttled));
        (KStr "retry_after", VDict [
          (KStr "type", VStr "integer"); (KStr "nullable", VBool true); (KStr "example", VInt 3600);
          (KStr "description", VStr "Seconds until the next attempt is allowed (when reported).")])]);
      (KStr "required", VList [VStr "detail"])])
    [("throttled", VDict [(KStr "detail", VStr throttled); (KStr "retry_after", VInt 3600)])].

Definition external_dependency_response : openapi_response :=
  inline (error_envelope "External dependency failed."
            (Some [error_item "EXTERNAL_DEPENDENCY_ERROR" "Upstream service returned 503."]))
    [("s3_failure", error_example "S3 service is unavailable."
        (Some [error_item "S3_ERROR" "S3 returned 503 ServiceUnavailable."]));
     ("partner_api_failure", error_example "Partner API returned an error."
        (Some [error_item "PARTNER_PUSH_ERROR" "Partner API responded with 500."]))].

Definition service_unavailable_response : openapi_response :=
  let errors := Some [error_item "SERVICE_UNAVAILABLE" "Database connection failed."] in
  inline (error_envelope "Service temporarily unavailable." errors)
    [("database_unavailable", error_example "Service temporarily unavailable." errors)].

(** [accounts/api_schemas/_common.py] *)
Definition _error_response_schema : pyval :=
  VDict [(KStr "type", VStr "object");
    (KStr "properties", VDict [(KStr "success", example_of "boolean" (VBool false));
                               (KStr "message", str_schema)]);
    (KStr "required", VList [VStr "success"; VStr "message"])].

Definition _validation_error_schema : pyval :=
  VDict [(KStr "type", VStr "object");
    (KStr "description", VStr "DRF validation error -- keys are field names, values are lists of error strings.");
    (KStr "additionalProperties", VDict [(KStr "type", VStr "array"); (KStr "items", str_schema)]);
    (KStr "example", VDict [(KStr "code", VList [VStr "This field is required."]);
                            (KStr "redirect_uri", VList [VStr "Enter a valid URL."])])].

Definition _jwt_token_pair_schema : pyval :=
  VDict [(KStr "type", VStr "object");
    (KStr "properties", VDict [
      (KStr "access", example_of "string" (VStr "eyJhbGciOiJIUzI1NiIs..."));
      (KStr "refresh", example_of "string" (VStr "eyJhbGciOiJIUzI1NiIs..."))]);
    (KStr "required", VList [VStr "access"; VStr "refresh"])].

Definition _throttled_response_schema : pyval := detail_schema throttled true.
Definition _auth_required_schema : pyval := detail_schema no_credentials true.

(** The [responses] of each endpoint, by status. *)
Definition documents := list (Z * openapi_response).

Definition short_error (message : string) : pyval :=
  VDict [(KStr "success", VBool false); (KStr "message", VStr message)].
Definition short_success (message : string) : pyval :=
  VDict [(KStr "success", VBool true); (KStr "message", VStr message)].
Definition unauthorized : openapi_response := inline _auth_required_schema [("unauthorized", detail no_credentials)].
Definition forbidden : openapi_response := inline _auth_required_schema [("forbidden", detail no_permission)].

Definition api_key_delete_schema : documents :=
  [(204, OpenApiResponse None []); (401, unauthorized); (403, forbidden);
   (404, inline _error_response_schema [("not_found", short_error "API key not found.")]);
   (429, throttle_response)]%Z.

Definition api_key_revoke_schema : documents :=
  [(200, OpenApiResponse None [("revoked", short_success "API key revoked.");
                               ("already_revoked", short_success "API key already revoked.")]);
   (401, unauthorized); (403, forbidden);
   (404, inline _error_response_schema [("not_found", short_error "API key not found.")]);
   (429, throttle_response)]%Z.

Definition google_login_schema : documents :=
  [(200, inline _jwt_token_pair_schema []);
   (400, inline _validation_error_schema
      [("missing_fields", VDict [(KStr "code", VList [VStr "This field is required."])]);
       ("invalid_redirect_uri", VDict [(KStr "redirect_uri", VList [VStr "Enter a valid URL."])])]);
   (429, inline _throttled_response_schema [("throttled", detail throttled)])]%Z.

Definition token_refresh_schema : documents :=
  [(200, inline _jwt_token_pair_schema
      [("success", VDict [(KStr "access", VStr "eyJhbGciOiJIUzI1NiIs...");
                          (KStr "refresh", VStr "eyJhbGciOiJIUzI1NiIs...")])]);
   (400, inline _error_response_schema [("missing_refresh", short_error "Refresh token is required.")]);
   (401, inline _error_response_schema [("invalid_refresh", short_error "Token is invalid or expired.")]);
   (429, inline _throttled_response_schema [("throttled", detail throttled)])]%Z.

Definition logout_schema : documents :=
  [(200, inline (VDict [(KStr "type", VStr "object");
             (KStr "properties", VDict [(KStr "message", example_of "string" (VStr "Successfully logged out."))])])
      [("success", VDict [(KStr "message", VStr "Successfully logged out.")])]);
   (400, inline _error_response_schema [("missing_refresh", short_error "Refresh token is required.")]);
   (401, unauthorized); (429, throttle_response)]%Z.

Definition _user_profile_example : pyval :=
  VDict [(KStr "id", VInt 1); (KStr "email", VStr "user@example.com"); (KStr "first_name", VStr "Jane");
    (KStr "last_name", VStr "Doe"); (KStr "full_name", VStr "Jane Doe");
    (KStr "avatar_url", VStr "https://lh3.googleusercontent.com/a/photo");
    (KStr "roles", VList [VDict [(KStr "id", VInt 1); (KStr "name", VStr "user");
                                 (KStr "description", VStr "Default user role")]]);
    (KStr "timezone", VStr "Asia/Kolkata"); (KStr "email_verified", VBool true);
    (KStr "date_joined", VStr "2025-01-15T10:30:00Z"); (KStr "last_login", VStr "2025-06-01T14:22:00Z");
    (KStr "google_connected", VBool true)].

Definition me_get_schema : documents :=
  [(200, OpenApiResponse (Some (Serializer "UserProfileSerializer")) [("success", _user_profile_example)]);
   (401, unauthorized); (429, throttle_response)]%Z.

Definition me_patch_schema : documents :=
  [(200, OpenApiResponse (Some (Serializer "UserProfileSerializer")) [("success", _user_profile_example)]);
   (400, inline _error_response_schema [("no_fields", short_error "No valid fields provided.")]);
   (401, unauthorized); (429, throttle_response)]%Z.

(** [core/api_schemas/system.py] *)
Definition status_schema (status : string) (checks : option (list string)) : pyval :=
  VDict [(KStr "type", VStr "object");
    (KStr "properties", VDict ((KStr "status", example_of "string" (VStr status)) ::
       match checks with
       | Some names => [(KStr "checks", VDict [(KStr "type", VStr "object"); (KStr "nullable", VBool true);
           (KStr "properties", VDict ((fun n => (KStr n, example_of "string" (VStr "connected"))) <$> names))])]
       | None => []
       end))].
Definition status_example (status : string) (checks : list string) : pyval :=
  VDict ((KStr "status", VStr status) ::
    match checks with
    | [] => []
    | _ => [(KStr "checks", VDict ((fun n => (KStr n, VStr "connected")) <$> checks))]
    end).

Definition health_schema : documents :=
  [(200, inline (status_schema "healthy" (Some ["database"]))
      [("healthy", status_example "healthy" []); ("healthy_staff", status_example "healthy" ["database"])]);
   (503, inline (status_schema "unhealthy" None) [("unhealthy", status_example "unhealthy" [])])]%Z.

Definition readiness_schema : documents :=
  let names := ["database"; "cache"; "celery_broker"] in
  [(200, inline (status_schema "ready" (Some names))
      [("ready", status_example "ready" []); ("ready_staff", status_example "ready" names)]);
   (503, inline (status_schema "not_ready" None) [("not_ready", status_example "not_ready" [])])]%Z.

(** ** [BaseSchema] and [BaseModelSchema]

    [core/base/schema.py]: [super_data] is DRF's representation; nulls and
    empty strings are dropped, every other value is kept. *)
Definition is_empty_output (v : pyval) : bool :=
  match v with VNone => true | VStr s => negb (str_true s) | _ => false end.
Definition to_representation (drop_empty_on_output : bool) (super_data : body) : body :=
  if negb drop_empty_on_output then super_data
  else filter (fun kv : pykey * pyval => is_empty_output kv.2 = false) super_data.

(** ** Schema validation

    The part of OpenAPI 3.0 the documents use: [type], [nullable],
    [properties], [required], [additionalProperties] and [items].  The fuel is
    the depth of the schema. *)
Definition schema_type (s : pyval) : option string :=
  match dict_get "type" s with Some (VStr t) => Some t | _ => None end.
Definition nullable (s : pyval) : bool :=
  match dict_get "nullable" s with Some (VBool b) => b | _ => false end.
Definition required (s : pyval) : list pyval :=
  match dict_get "required" s with Some (VList l) => l | _ => [] end.
Definition properties (s : pyval) : list (pykey * pyval) :=
  match dict_get "properties" s with Some (VDict d) => d | _ => [] end.

Definition has_required (d : body) (r : pyval) : bool :=
  match r with VStr k => od_mem (KStr k) d | _ => false end.

Fixpoint accepts (n : nat) (s v : pyval) : bool :=
  match n with
  | O => false
  | S n' =>
      (nullable s && match v with VNone => true | _ => false end) ||
      match schema_type s with
      | None => true
      | Some t =>
          if String.eqb t "object" then
            match v with
            | VDict d =>
                forallb (has_required d) (required s) &&
                forallb (fun kv : pykey * pyval =>
                  match od_get kv.1 (properties s), dict_get "additionalProperties" s with
                  | Some p, _ => accepts n' p kv.2
                  | None, Some p => accepts n' p kv.2
                  | None, None => true
                  end) d
            | _ => false
            end
          else if String.eqb t "array" then
            match v, dict_get "items" s with
            | VList l, Some p => forallb (accepts n' p) l
            | VList _, None => true
            | _, _ => false
            end
          else if String.eqb t "string" then is_str v
          else if String.eqb t "boolean" then match v with VBool _ => true | _ => false end
          else if String.eqb t "integer" then match v with VInt _ => true | _ => false end
          else false
      end
  end.

Definition conforms (s v : pyval) : bool := accepts (S (vdepth s)) s v.

(** A documented example conforms to the schema it illustrates. *)
Definition example_ok (r : openapi_response) : bool :=
  match oa_response r with
  | Some (Inline s) => forallb (fun nv : string * pyval => conforms s nv.2) (oa_examples r)
  | _ => true
  end.

(** ** What the program answers *)

(** Every value a call returns satisfies [P]. *)
Definition yields {S E A} (m : act S E A) (P : A -> Prop) : Prop :=
  forall s a s', m s = (Ok a, s') -> P a.

Lemma yields_ret {S E A} (a : A) (P : A -> Prop) : P a -> yields (S:=S) (E:=E) (mret a) P.
Proof. by intros HP s a' s' [= <- _]. Qed.

Lemma yields_bind {S E A B} (m : act S E A) (k : A -> act S E B) (P : B -> Prop) :
  (forall a, yields (k a) P) -> yields (m ≫= k) P.
Proof. intros Hk s b s' (a & s1 & _ & H)%bind_ok. by eapply Hk. Qed.

Lemma yields_if {S E A} (b : bool) (m1 m2 : act S E A) (P : A -> Prop) :
  yields m1 P -> yields m2 P -> yields (if b then m1 else m2) P.
Proof. by destruct b. Qed.

Lemma yields_catching {X} classes (m h : act token_state py_exn X) (P : X -> Prop) :
  yields m P -> yields h P -> yields (catching classes m h) P.
Proof.
  intros Hm Hh s a s'. unfold catching. destruct (m s) as [[x|[e|cls msg]] s1] eqn:E.
  - intros [= <- _]. by eapply Hm.
  - done.
  - destruct (str_in cls classes); [apply Hh|done].
Qed.

Create HintDb yields discriminated.
#[export] Hint Resolve yields_ret yields_bind yields_if yields_catching : yields.

(** The shape of an instance. *)
Lemma instance_shape b :
  instance_of ResponseEnvelope b = true <->
  exists ok m d e i, b = [(KStr "success", VBool ok); (KStr "message", VStr m); (KStr "data", d);
                          (KStr "errors", e); (KStr "request_id", i)] /\
    has_type e (Optional ListOfDict) = true /\ has_type i (Optional StrT) = true.
Proof.
  unfold instance_of. rewrite andb_true_iff, bool_decide_eq_true. split.
  - intros [Hk Ht]. destruct b as [|[k1 v1] [|[k2 v2] [|[k3 v3] [|[k4 v4] [|[k5 v5] [|]]]]]]; try done.
    simpl in Hk. injection Hk as -> -> -> -> ->. simpl in Ht. rewrite !andb_true_iff in Ht.
    destruct Ht as (H1 & H2 & _ & H4 & H5 & _). destruct v1; try done. destruct v2; try done.
    eauto 10.
  - intros (ok & m & d & e & i & -> & He & Hi). split; [done|]. cbn -[has_type].
    rewrite He, Hi. by destruct d.
Qed.

Lemma opt_str_typed o : has_type (vopt_str o) (Optional StrT) = true.
Proof. by destruct o. Qed.

Lemma error_entries_dicts l : Forall is_error_entry l -> has_type (VList l) (Optional ListOfDict) = true.
Proof. simpl. induction 1 as [|x l (? & ->) _ IH]; [done|]. apply IH. Qed.

Section answers.
Context `{Django}.
(** The kit's projector, the kit's [str] of our exceptions and DRF's handler. *)
Context (from_exception : pyval -> body * Z * list (string * string)).
Context (kit_str : exc -> string).
Context (exception_handler : string -> option (Z * pyval * list (string * string))).
(** The token views' collaborators and the user and profile serializers. *)
Context (decode : pyval -> option rtoken) (blacklist_down : rtoken -> bool).
Context (users : Z -> option bool) (mint : Z -> nat -> string * string).
Context (profile : instance -> pyval) (zones : string -> bool).
Context (rid : option string).

(** The answers of the five account views written in the repository: the token
    refresh, the logout, the profile and the two key endpoints.  The Google
    login inherits its answer from dj-rest-auth and the health views answer
    bodies of their own; neither is an envelope. *)
Inductive account_answer : response -> Prop :=
| va_refresh refresh s s' r :
    token_refresh decode blacklist_down users mint rid refresh s = (Ok r, s') -> account_answer r
| va_logout user refresh s s' r :
    logout decode blacklist_down rid user refresh s = (Ok r, s') -> account_answer r
| va_me is_get user uid d w w' r :
    me profile zones rid is_get user uid d w = (Ok r, w') -> account_answer r
| va_delete pk user w w' r :
    api_key_delete rid pk user w = (Ok r, w') -> account_answer r
| va_revoke pk user w w' r :
    api_key_revoke rid pk user w = (Ok r, w') -> account_answer r.

(** The two builders the views use. *)
Definition simple (r : response) : Prop :=
  (exists data message st, r = success_response rid data message st) \/
  (exists message st, r = error_response rid message None st).

Lemma simple_success data message st : simple (success_response rid data message st).
Proof. left. by eexists _, _, _. Qed.
Lemma simple_error message st : simple (error_response rid message None st).
Proof. right. by eexists _, _. Qed.
#[local] Hint Resolve simple_success simple_error : yields.

Lemma token_refresh_simple refresh : yields (token_refresh decode blacklist_down users mint rid refresh) simple.
Proof.
  unfold token_refresh, token_required, bad_token, rotation_unavailable.
  destruct refresh as [raw|]; [|eauto with yields].
  apply yields_if; [eauto with yields|]. apply yields_catching; [|eauto with yields].
  do 2 (apply yields_bind; intros ?). apply yields_if; [|eauto with yields].
  apply yields_bind; intros b. apply yields_if; [|eauto with yields].
  apply yields_bind; intros [access refresh']. eauto with yields.
Qed.

Lemma logout_simple user refresh : yields (logout decode blacklist_down rid user refresh) simple.
Proof.
  unfold logout, token_required, bad_token. destruct refresh as [raw|]; [|eauto with yields].
  apply yields_if; [eauto with yields|]. apply yields_catching; [|eauto with yields].
  do 2 (apply yields_bind; intros ?). apply yields_if; [eauto with yields|].
  apply yields_bind; intros ?. eauto with yields.
Qed.

Lemma me_simple is_get user uid d : yields (me profile zones rid is_get user uid d) simple.
Proof. unfold me. apply yields_if; [|apply yields_bind; intros ?]; eauto with yields. Qed.

Lemma api_key_delete_simple pk user : yields (api_key_delete rid pk user) simple.
Proof. unfold api_key_delete. apply yields_bind. intros []; eauto with yields. Qed.

Lemma api_key_revoke_simple pk user : yields (api_key_revoke rid pk user) simple.
Proof.
  unfold api_key_revoke. apply yields_bind. intros [[] []]; simpl; eauto with yields.
Qed.

Lemma account_answer_simple r : account_answer r -> simple r.
Proof.
  destruct 1.
  - by eapply token_refresh_simple.
  - by eapply logout_simple.
  - by eapply me_simple.
  - by eapply api_key_delete_simple.
  - by eapply api_key_revoke_simple.
Qed.

(** What the handler renders of anything but a kit exception. *)
Definition of_kit (e : raised) : bool := match e with RKit _ => true | _ => false end.

Lemma raised_envelope e reg r :
  of_kit e = false ->
  (api_exception_handler from_exception kit_str exception_handler e rid reg).1 = Some r ->
  exists message errors i, resp_body r = envelope message errors i /\ Forall is_error_entry errors.
Proof.
  destruct e as [x|k|cls xrid]; [|done|]; intros _; unfold api_exception_handler.
  - destruct (custom_status x reg). intros [= <-]. eexists _, _, _. split; [reflexivity|]. repeat constructor. by eexists.
  - destruct (exception_handler cls) as [[[st data] h]|].
    + destruct (drf_errors _ data) as [[m es]|] eqn:E; [|done]. intros [= <-].
      eexists _, _, _. split; [reflexivity|]. eapply drf_errors_entries, E.
    + intros [= <-]. eexists _, _, _. split; [reflexivity|]. repeat constructor. by eexists.
Qed.
End answers.

(** ** The schemas describe the answers *)

Lemma accepts_mono n m s v : n <= m -> accepts n s v = true -> accepts m s v = true.
Proof.
  revert m s v. induction n as [|n IH]; intros [|m] s v Hle; try done; [lia|].
  assert (Hsub : forall p x, accepts n p x = true -> accepts m p x = true) by (intros; apply IH; [lia|done]).
  cbn [accepts]. rewrite !orb_true_iff. intros [?|Hs]; [by left|right].
  destruct (schema_type s) as [t|]; [|done].
  destruct (String.eqb t "object"); [|destruct (String.eqb t "array"); [|done]]; destruct v; try done.
  - apply andb_true_iff in Hs as [-> Hd]. simpl. rewrite !forallb_forall in *. intros kv Hin.
    specialize (Hd kv Hin). destruct (od_get _ _); [by apply Hsub|]. destruct (dict_get _ s); [by apply Hsub|done].
  - destruct (dict_get "items" s); [|done]. rewrite !forallb_forall in *. auto.
Qed.

Lemma accepts_deeper n s v : conforms s v = true -> vdepth s < n -> accepts n s v = true.
Proof. intros Hc Hn. by apply (accepts_mono (S (vdepth s))). Qed.

Lemma dicts_objects n l :
  has_type (VList l) (Optional ListOfDict) = true ->
  forallb (accepts (S n) (VDict [(KStr "type", VStr "object")])) l = true.
Proof.
  simpl. rewrite !forallb_forall. intros Hl v Hv. specialize (Hl v Hv).
  destruct v; try done. simpl. by apply forallb_forall.
Qed.

Lemma accepts_object n ps rs d :
  accepts (S n) (VDict [(KStr "type", VStr "object"); (KStr "properties", VDict ps);
                        (KStr "required", VList rs)]) (VDict d) =
  forallb (has_required d) rs &&
  forallb (fun kv : pykey * pyval =>
    match od_get kv.1 ps with Some p => accepts n p kv.2 | None => true end) d.
Proof. reflexivity. Qed.

(** An envelope meets an object schema of the five members when [data] meets
    its own. *)
Lemma envelope_accepted n ok message data errors i ds b m ex :
  has_type errors (Optional ListOfDict) = true -> has_type i (Optional StrT) = true ->
  accepts (S (S n)) ds data = true ->
  accepts (S (S (S n)))
    (VDict [(KStr "type", VStr "object");
       (KStr "properties", VDict [(KStr "success", example_of "boolean" b);
          (KStr "message", example_of "string" m); (KStr "data", ds); (KStr "errors", errors_schema ex);
          (KStr "request_id", request_id_schema)]);
       (KStr "required", VList [VStr "success"; VStr "message"])])
    (VDict [(KStr "success", VBool ok); (KStr "message", VStr message); (KStr "data", data);
            (KStr "errors", errors); (KStr "request_id", i)]) = true.
Proof.
  intros He Hi Hd. rewrite accepts_object. apply andb_true_iff. split; [reflexivity|].
  assert (accepts (S (S n)) (errors_schema ex) errors = true) as Hes.
  { destruct errors as [| | | | | |l| | | | |]; try done. by apply (dicts_objects n l). }
  assert (accepts (S (S n)) request_id_schema i = true) as Hri by (by destruct i).
  cbn [forallb fst snd]. change (od_get (KStr "data") _) with (Some ds).
  change (od_get (KStr "errors") _) with (Some (errors_schema ex)).
  change (od_get (KStr "request_id") _) with (Some request_id_schema).
  cbv beta iota. rewrite Hd, Hes, Hri. reflexivity.
Qed.

Lemma pagination_accepted n p : accepts (S (S n)) pagination_schema (pagination_value p) = true.
Proof. reflexivity. Qed.

Lemma vdepth_member k v d : (k, v) ∈ d -> vdepth v < vdepth (VDict d).
Proof.
  induction d as [|[k' v'] d IH]; [by intros ?%elem_of_nil|].
  intros [[= -> ->]|Hin]%elem_of_cons; [cbn; lia|]. specialize (IH Hin). cbn in *. lia.
Qed.

Lemma vdepth_item v l : v ∈ l -> vdepth v < vdepth (VList l).
Proof.
  induction l as [|v' l IH]; [by intros ?%elem_of_nil|].
  intros [->|Hin]%elem_of_cons; [cbn; lia|]. specialize (IH Hin). cbn in *. lia.
Qed.

(** The fuel left for the data is more than its schema needs. *)
Lemma fuel_for_data ps rest v k :
  (k, v) ∈ ps ->
  exists n, vdepth (VDict ((KStr "type", VStr "object") :: (KStr "properties", VDict ps) :: rest)) = S (S n) /\
    vdepth v <= n.
Proof.
  intros Hv%vdepth_member. set (s := VDict (_ :: _)).
  assert (vdepth (VDict ps) < vdepth s) by (apply (vdepth_member (KStr "properties")); right; left).
  exists (vdepth s - 2). lia.
Qed.

(** Replace the fuel of a schema by [S (S (S n))], with [n] enough for the
    schema [v] of the member [k]. *)
Ltac fuel_for k v n Hn :=
  match goal with
  | |- accepts (S (vdepth (VDict (_ :: (_, VDict ?ps) :: ?rest)))) _ _ = true =>
      destruct (fuel_for_data ps rest v (KStr k)) as (n & -> & Hn); [by repeat (left || right)|]
  end.

Lemma page_accepted item its p :
  forallb (conforms item) its = true ->
  conforms (page_schema item) (VDict [(KStr "items", VList its); (KStr "pagination", pagination_value p)]) = true.
Proof.
  intros Hits. unfold conforms, page_schema. set (array := VDict [_; (KStr "items", item)]).
  fuel_for "items" array n Hn. rewrite accepts_object. apply andb_true_iff. split; [reflexivity|].
  cbn [forallb fst snd]. change (od_get (KStr "items") _) with (Some array).
  change (od_get (KStr "pagination") _) with (Some pagination_schema). cbv beta iota.
  rewrite pagination_accepted, andb_true_r.
  assert (vdepth item < vdepth array) by (apply (vdepth_member (KStr "items")); right; left).
  change (forallb (accepts (S n) item) its = true). rewrite forallb_forall in *.
  intros v Hv. apply accepts_deeper; [by apply Hits|lia].
Qed.

(** Every response published. *)
Definition all_documents : list openapi_response :=
  [not_found_response; validation_error_response; auth_required_response; forbidden_response;
   throttle_response; external_dependency_response; service_unavailable_response] ++
  (api_key_delete_schema ++ api_key_revoke_schema ++ google_login_schema ++ token_refresh_schema ++
   logout_schema ++ me_get_schema ++ me_patch_schema ++ health_schema ++ readiness_schema).*2.

(** Any answer of the builders and of the handler's meets the error schema,
    whatever its examples. *)
Lemma envelope_conforms ok message data errors i ex exs :
  has_type errors (Optional ListOfDict) = true -> has_type i (Optional StrT) = true ->
  accepts 2 (VDict [(KStr "type", VStr "object"); (KStr "nullable", VBool true); (KStr "example", VNone)]) data = true ->
  conforms (error_envelope ex exs)
    (VDict [(KStr "success", VBool ok); (KStr "message", VStr message); (KStr "data", data);
            (KStr "errors", errors); (KStr "request_id", i)]) = true.
Proof.
  intros He Hi Hd. unfold conforms, error_envelope.
  fuel_for "data" (VDict [(KStr "type", VStr "object"); (KStr "nullable", VBool true); (KStr "example", VNone)]) n Hn.
  apply envelope_accepted; [done|done|]. eapply accepts_mono; [|exact Hd]. lia.
Qed.

Section described.
Context `{Django}.
Context (from_exception : pyval -> body * Z * list (string * string)).
Context (kit_str : exc -> string).
Context (exception_handler : string -> option (Z * pyval * list (string * string))).
Context (decode : pyval -> option rtoken) (blacklist_down : rtoken -> bool).
Context (users : Z -> option bool) (mint : Z -> nat -> string * string).
Context (profile : instance -> pyval) (zones : string -> bool).
Context (rid : option string).

(** C7: the generic envelope schemas describe the envelopes the program sends.
    A success answer meets [envelope_schema] of whatever schema its data meets;
    a paginated answer meets [paginated_envelope_schema] of the schema its
    items meet; whatever the exception handler answers to one of our
    exceptions, one DRF knows or an unknown one meets [error_envelope], and so
    does what [error_response] builds with a list of objects or nothing for
    [errors]; each of the five account views answers what one of the two
    simple builders gives; and every example published with a schema, in any
    of the endpoint documents, conforms to that schema.  Not every endpoint
    document is met by its endpoint: [detail_documents_unmet] below. *)
Theorem schemas_describe_answers :
  (forall ds data message st ok ex, truthy ds = true -> conforms ds data = true ->
     conforms (envelope_schema (Some ds) ok ex) (VDict (resp_body (success_response rid data message st))) = true) /\
  (forall item pg items count size number message st r,
     paginated_response rid pg items count size number message st = Ok r ->
     (forall its p, paginate pg items count size number = Ok (its, p) -> forallb (conforms item) its = true) ->
     conforms (paginated_envelope_schema item) (VDict (resp_body r)) = true) /\
  (forall e reg r ex exs, of_kit e = false ->
     (api_exception_handler from_exception kit_str exception_handler e rid reg).1 = Some r ->
     conforms (error_envelope ex exs) (VDict (resp_body r)) = true) /\
  (forall message errors st ex exs,
     has_type (match errors with Some l => VList l | None => VNone end) (Optional ListOfDict) = true ->
     conforms (error_envelope ex exs) (VDict (resp_body (error_response rid message errors st))) = true) /\
  (forall r, account_answer decode blacklist_down users mint profile zones rid r ->
     (exists data message st, r = success_response rid data message st) \/
     (exists message st, r = error_response rid message None st)) /\
  (forall data message b, envelope_example data message = VDict b -> instance_of ResponseEnvelope b = true) /\
  forallb example_ok all_documents = true.
Proof.
  split_and!.
  - intros ds data message st ok ex Ht Hc. unfold conforms, envelope_schema. rewrite Ht.
    fuel_for "data" ds n Hn.
    apply envelope_accepted; [done|apply opt_str_typed|]. apply accepts_deeper; [done|lia].
  - intros item pg items count size number message st r Hr Hits.
    unfold paginated_response in Hr. apply result_bind_ok in Hr as ([its p] & Hp & Hr).
    injection Hr as <-. specialize (Hits its p Hp). unfold conforms, paginated_envelope_schema, envelope_schema.
    change (truthy (page_schema item)) with true. cbv iota.
    fuel_for "data" (page_schema item) n Hn. apply envelope_accepted; [done|apply opt_str_typed|].
    apply accepts_deeper; [by apply page_accepted|lia].
  - intros e reg r ex exs Hk Hr. apply raised_envelope in Hr as (m & es & i & -> & He); [|done].
    apply envelope_conforms; [by apply error_entries_dicts|apply opt_str_typed|done].
  - intros message errors st ex exs He. apply envelope_conforms; [done|apply opt_str_typed|done].
  - apply account_answer_simple.
  - intros data message b [= <-]. apply instance_shape. by eexists _, _, _, _, _.
  - vm_compute. reflexivity.
Qed.
End described.

(** ** Where the documents and the answers part *)

(** A schema that requires a member no envelope has rejects every answer. *)
Lemma requires_rejects n s k b :
  schema_type s = Some "object" -> nullable s = false -> VStr k ∈ required s -> KStr k ∉ b.*1 ->
  accepts n s (VDict b) = false.
Proof.
  intros Ht Hn Hk Hb. destruct n as [|n]; [done|]. cbn [accepts]. rewrite Hn, Ht. cbn.
  apply andb_false_iff. left. apply not_true_iff_false. rewrite forallb_forall. intros Hall.
  apply Hb, od_mem_spec. apply (Hall (VStr k)). by apply list_elem_of_In.
Qed.

Lemma typed_keys b : instance_of ResponseEnvelope b = true -> b.*1 = envelope_keys.
Proof. unfold instance_of. rewrite andb_true_iff, bool_decide_eq_true. by intros [-> _]. Qed.

(** The documents of 401, 403 and 429 announce [detail] bodies and that of a
    token refresh a bare token pair: none of the program's answers is of
    these shapes, as each is an envelope.  The short error schema documented
    for 400 and 404 does describe every envelope. *)
Theorem detail_documents_unmet b :
  instance_of ResponseEnvelope b = true ->
  conforms _auth_required_schema (VDict b) = false /\
  conforms _throttled_response_schema (VDict b) = false /\
  conforms _jwt_token_pair_schema (VDict b) = false /\
  conforms _error_response_schema (VDict b) = true.
Proof.
  intros Hb. pose proof (typed_keys b Hb) as Hk.
  assert (Hno : forall k, bool_decide (KStr k ∈ envelope_keys) = false -> KStr k ∉ b.*1).
  { intros k Hn. rewrite Hk. by apply bool_decide_eq_false in Hn. }
  split_and!.
  - apply (requires_rejects _ _ "detail"); [done|done|by left|by apply Hno].
  - apply (requires_rejects _ _ "detail"); [done|done|by left|by apply Hno].
  - apply (requires_rejects _ _ "access"); [done|done|by left|by apply Hno].
  - apply instance_shape in Hb as (ok & m & d & e & i & -> & _). reflexivity.
Qed.

Section statuses.
Context `{Django}.
Context (decode : pyval -> option rtoken) (blacklist_down : rtoken -> bool).
Context (users : Z -> option bool) (mint : Z -> nat -> string * string).
Context (profile : instance -> pyval) (zones : string -> bool) (rid : option string).

(** An answer whose status is documented, or one of the [extra] ones. *)
Definition status_in (docs : documents) (extra : list Z) (r : response) : Prop :=
  resp_status r ∈ docs.*1 ++ extra.
Ltac status := apply yields_ret; unfold status_in; apply (bool_decide_unpack _); by vm_compute.

(** Each view answers with statuses of its own document, but for two: a token
    refresh whose blacklist write fails answers 503, and a deleted API key is
    answered 200 where the document says 204. *)
Theorem view_statuses_documented :
  (forall t, yields (logout decode blacklist_down rid 0 t) (status_in logout_schema [])) /\
  (forall pk u, yields (api_key_revoke rid pk u) (status_in api_key_revoke_schema [])) /\
  (forall u uid d, yields (me profile zones rid true u uid d) (status_in me_get_schema [])) /\
  (forall u uid d, yields (me profile zones rid false u uid d) (status_in me_patch_schema [])) /\
  (forall t, yields (token_refresh decode blacklist_down users mint rid t) (status_in token_refresh_schema [503%Z])) /\
  (forall pk u, yields (api_key_delete rid pk u) (status_in api_key_delete_schema [200%Z])) /\
  503%Z ∉ token_refresh_schema.*1 /\ 200%Z ∉ api_key_delete_schema.*1.
Proof.
  split_and!; [..|by apply (bool_decide_unpack _); vm_compute|by apply (bool_decide_unpack _); vm_compute].
  - intros [raw|]; unfold logout; [|status]. apply yields_if; [status|]. apply yields_catching; [|status].
    do 2 (apply yields_bind; intros ?). apply yields_if; [status|]. apply yields_bind; intros ?. status.
  - intros pk u. unfold api_key_revoke. apply yields_bind. intros [[] []]; status.
  - intros u uid d. status.
  - intros u uid d. apply yields_bind. intros i. status.
  - intros [raw|]; unfold token_refresh; [|status]. apply yields_if; [status|].
    apply yields_catching; [|status]. do 2 (apply yields_bind; intros ?). apply yields_if; [|status].
    apply yields_bind; intros b. apply yields_if; [|status]. apply yields_bind; intros [acc ref]. status.
  - intros pk u. unfold api_key_delete. apply yields_bind. intros []; status.
Qed.
End statuses.

(** The representation keeps exactly the members with something to show, zero
    and false among them. *)
Lemma to_representation_spec d k v :
  NoDup d.*1 ->
  od_get k (to_representation true d) = Some v <-> od_get k d = Some v /\ is_empty_output v = false.
Proof.
  intros Hd. cbn [to_representation negb]. split.
  - intros [Hv Hin]%od_get_elem%list_elem_of_filter. split; [by apply elem_od_get|done].
  - intros [Hin%od_get_elem Hv]. apply elem_od_get; [|by apply list_elem_of_filter].
    eapply sublist_NoDup; [exact Hd|]. apply fmap_sublist, sublist_filter.
Qed.

