(* ===== verification/ApiDocs.v ===== *)
(** * The published errors

    The error half of [core/openapi/metadata.py] (the serializers of the error
    envelope, the [RESPONSES_*] dictionaries with their examples) and the
    security scheme of [accounts/authentication.py], against what the exception
    handler answers and the authentication reads.  A serializer is the list of
    its fields; help texts and descriptions are prose. *)
From stdpp Require Import base list gmap strings.
From Stdlib Require Import Ascii Lia ZArith.
From S2P Require Import Prelude PyStr PyVal Exceptions Handler Orm Responses ApiKey AuthChain Contract.

(** ** Serializers *)

Inductive serializer_type :=
| CharField
| BooleanField
| JSONField
| DictField
| Many (fields : list (string * serializer_type * bool * bool)).

(** A field: its name, its type, [required] and [allow_null]; a field with a
    default is not required. *)
Abbreviation serializer_field := (string * serializer_type * bool * bool)%type.

Definition _ErrorItemSerializer : list serializer_field :=
  [("code", CharField, true, false); ("message", CharField, true, false);
   ("field", CharField, false, true); ("details", DictField, false, true)].
Definition ErrorEnvelopeSerializer : list serializer_field :=
  [("success", BooleanField, false, false); ("message", CharField, true, false);
   ("data", JSONField, false, true); ("errors", Many _ErrorItemSerializer, true, false);
   ("request_id", CharField, false, true)].

(** A value is one a field of this type documents. *)
Fixpoint documents_value (t : serializer_type) (v : pyval) : bool :=
  match t with
  | CharField => is_str v
  | BooleanField => match v with VBool _ => true | _ => false end
  | JSONField => true
  | DictField => is_dict v
  | Many fields =>
      match v with
      | VList l =>
          forallb (fun item =>
            match item with
            | VDict d =>
                (fix all fs := match fs with
                  | [] => true
                  | (name, t', required, allow_null) :: fs' =>
                      match od_get (KStr name) d with
                      | None => negb required
                      | Some VNone => allow_null
                      | Some x => documents_value t' x
                      end && all fs'
                  end) fields
            | _ => false
            end) l
      | _ => false
      end
  end.
(** A body is one the serializer documents. *)
Definition documents_body (fields : list serializer_field) (b : body) : bool :=
  documents_value (Many fields) (VList [VDict b]).

(** ** The [RESPONSES_*] dictionaries *)

Definition example_request_id : string := "550e8400-e29b-41d4-a716-446655440000".
Definition _envelope_example (code message : string) (field : option string) : string * body :=
  (code,
   [(KStr "success", VBool false); (KStr "message", VStr message); (KStr "data", VNone);
    (KStr "errors", VList [VDict [(KStr "code", VStr code); (KStr "message", VStr message);
                                  (KStr "field", vopt_str field); (KStr "details", VNone)]]);
    (KStr "request_id", VStr example_request_id)]).

Definition _err (status : Z) (code message : string) (field : option string) : documents :=
  let '(name, value) := _envelope_example code message field in
  [(status, OpenApiResponse (Some (Contract.Serializer "ErrorEnvelopeSerializer")) [(name, VDict value)])].

(** The arguments of each [RESPONSES_*]. *)
Record error_doc := ErrorDoc { ed_status : Z; ed_code : string; ed_message : string; ed_field : option string }.
Definition BAD_REQUEST : error_doc := ErrorDoc 400 "BAD_REQUEST" "Malformed request." None.
Definition VALIDATION : error_doc := ErrorDoc 400 "VALIDATION_ERROR" "Semantic validation failed." (Some "amount").
Definition UNAUTHORIZED : error_doc := ErrorDoc 401 "AUTHENTICATION_FAILED" "Authentication required." None.
Definition FORBIDDEN : error_doc := ErrorDoc 403 "PERMISSION_DENIED" "Permission denied." None.
Definition NOT_FOUND : error_doc := ErrorDoc 404 "ENTITY_NOT_FOUND" "Requested resource was not found." None.
Definition RATE_LIMITED : error_doc := ErrorDoc 429 "RATE_LIMITED" "Rate limit exceeded." None.
Definition INTERNAL_SERVER_ERROR : error_doc :=
  ErrorDoc 500 "INTERNAL_SERVER_ERROR" "An unexpected error occurred." None.
Definition BAD_GATEWAY : error_doc := ErrorDoc 502 "API_ERROR" "Upstream service returned an error." None.
Definition SERVICE_UNAVAILABLE : error_doc :=
  ErrorDoc 503 "SERVICE_UNAVAILABLE" "Service is currently unavailable." None.
Definition published : list error_doc :=
  [BAD_REQUEST; VALIDATION; UNAUTHORIZED; FORBIDDEN; NOT_FOUND; RATE_LIMITED; INTERNAL_SERVER_ERROR; BAD_GATEWAY;
   SERVICE_UNAVAILABLE].
Definition RESPONSES (e : error_doc) : documents := _err (ed_status e) (ed_code e) (ed_message e) (ed_field e).

(** Later entries of the spread win. *)
Definition spread (ds : list documents) : documents := fold_left od_update ds [].
Definition DEFAULT_RESPONSES : documents :=
  spread (RESPONSES <$> [BAD_REQUEST; UNAUTHORIZED; FORBIDDEN; RATE_LIMITED; INTERNAL_SERVER_ERROR]).

(** ** [APIKeyAuthenticationScheme] *)
Definition scheme_name : string := "apiKeyAuth".
Definition get_security_definition : list (string * string) :=
  [("type", "apiKey"); ("in", "header"); ("name", "X-API-Key");
   ("description", "API key issued per service account. Pass the raw key in the ``X-API-Key`` header.")].
Definition authenticate_header : string := "X-API-Key".

(** ** Lemmas *)

Lemma entry_documented d : documents_body _ErrorItemSerializer
  [(KStr "code", VStr (err_code d)); (KStr "message", VStr (err_message d));
   (KStr "field", vopt_str (err_field d)); (KStr "details", vopt_dict (err_details d))] = true.
Proof. destruct d as [c m [f|] [x|]]; reflexivity. Qed.

Lemma many_cons fields d l :
  documents_value (Many fields) (VList (VDict d :: l)) =
    documents_body fields d && documents_value (Many fields) (VList l).
Proof. unfold documents_body. cbn [documents_value forallb]. by rewrite andb_true_r. Qed.

Lemma entries_documented l : Forall is_error_entry l -> documents_value (Many _ErrorItemSerializer) (VList l) = true.
Proof.
  induction 1 as [|v l [d ->] Hl IH]; [done|]. unfold error_value. by rewrite many_cons, entry_documented, IH.
Qed.

Lemma envelope_documented message errors rid :
  Forall is_error_entry errors -> documents_body ErrorEnvelopeSerializer (envelope message errors rid) = true.
Proof.
  intros He. pose proof (entries_documented errors He) as H.
  assert (He' : documents_body ErrorEnvelopeSerializer (envelope message errors rid) =
                documents_value (Many _ErrorItemSerializer) (VList errors) && true && true)
    by (by destruct rid).
  by rewrite He', H.
Qed.

(** The classes the program declares. *)
Definition declared_classes : list exn_class := d_class <$> all_decls.

(** The codes DRF's own exceptions get. *)
Definition drf_classes : list string :=
  ["ParseError"; "AuthenticationFailed"; "NotAuthenticated"; "PermissionDenied"; "NotFound"; "MethodNotAllowed";
   "NotAcceptable"; "UnsupportedMediaType"; "Throttled"; "ValidationError"].

(** The body of a published example. *)
Definition example (e : error_doc) : body := (_envelope_example (ed_code e) (ed_message e) (ed_field e)).2.

(** The exceptions of four published codes, as their constructors make them. *)
Inductive raised_as : error_doc -> exc -> Prop :=
| as_not_found name id rid : raised_as NOT_FOUND (entity_not_found name id None rid)
| as_rate_limited l w r m t msg rid : raised_as RATE_LIMITED (rate_limit_error l w r m t msg rid)
| as_bad_gateway msg resp d rid : raised_as BAD_GATEWAY (api_error msg None resp d rid)
| as_unavailable name msg rid : raised_as SERVICE_UNAVAILABLE (service_unavailable name msg None rid).



(** Two published codes, and one of the description's table, are not what
    clients get: nothing answers [BAD_REQUEST] (a malformed body is
    [PARSE_ERROR]); a throttled request is [THROTTLED], not [RATE_LIMITED]; and
    missing credentials are [NOT_AUTHENTICATED]. *)
Lemma published_codes_missing :
  Forall (fun c => get_error_code (base_init c None None None PPlain) <> "BAD_REQUEST") declared_classes /\
  (fun cls => derive_error_code cls false) <$> drf_classes =
    ["PARSE_ERROR"; "AUTHENTICATION_FAILED"; "NOT_AUTHENTICATED"; "PERMISSION_DENIED"; "NOT_FOUND";
     "METHOD_NOT_ALLOWED"; "NOT_ACCEPTABLE"; "UNSUPPORTED_MEDIA_TYPE"; "THROTTLED"; "VALIDATION_ERROR"].
Proof. split; [apply (bool_decide_unpack _)|]; by vm_compute. Qed.

(** The default set covers the statuses the module documents. *)
Lemma default_statuses : DEFAULT_RESPONSES.*1 = [400; 401; 403; 429; 500]%Z.
Proof. by vm_compute. Qed.

(** The header of the security scheme is the one the challenge names and,
    as WSGI spells it, the one [authenticate] reads. *)
Lemma security_header :
  od_get "name" get_security_definition = Some authenticate_header /\
  "HTTP_" +:+ upper (replace_char "-" "_" authenticate_header) = "HTTP_X_API_KEY".
Proof. split; by vm_compute. Qed.
