(* ===== verification/Admin.v ===== *)
(** * The admin site

    [core/base/admin.py] and the API-key admin of [accounts/admin.py]: which
    fields a form shows and protects, what saving a form writes, and how a new
    key is shown once.  The [super()] calls go to Django's [ModelAdmin], whose
    read-only fields and field sets are parameters and whose [save_model] is
    [obj.save()]. *)
From stdpp Require Import base list gmap strings pretty numbers.
From Stdlib Require Import Ascii Lia ZArith.
From S2P Require Import Prelude PyStr PyVal Exceptions Orm Service Cascade ServiceFacts ApiKey.

(** ** Field sets *)

(** A field set lists fields, some grouped on one row. *)
Inductive item := FieldName (name : string) | FieldRow (names : list string).
Record fieldset := Fieldset {
  fs_title : option string;
  fs_fields : list item;
  fs_classes : list string;
}.

Definition audit_fields : gset string := {["created_by"; "updated_by"; "created_at"; "updated_at"]}.

Definition audit_fieldset : fieldset :=
  Fieldset (Some "Audit Trail")
    [FieldName "created_by"; FieldName "updated_by"; FieldName "created_at"; FieldName "updated_at"] ["collapse"].

(** [BaseModelAdmin.get_readonly_fields]; [set] then [tuple], in no order. *)
Definition get_readonly_fields (super : list string) : gset string := list_to_set super ∪ audit_fields.

(** [audit_fields & set(fs["fields"])]: only the names, not the rows. *)
Definition shows_audit (fs : fieldset) : bool :=
  existsb (fun i => match i with FieldName n => bool_decide (n ∈ audit_fields) | FieldRow _ => false end) (fs_fields fs).

Definition get_fieldsets (super : list fieldset) : list fieldset :=
  if existsb shows_audit super then super else super ++ [audit_fieldset].

(** [APIKeyAdmin] *)
Definition key_fieldsets : list fieldset :=
  [Fieldset None [FieldName "user"; FieldName "name"; FieldName "is_active"] [];
   Fieldset (Some "Key Info") [FieldName "prefix"; FieldName "last_used_at"] ["collapse"]].
Definition key_add_fieldsets : list fieldset := [Fieldset None [FieldName "user"; FieldName "name"] []].
Definition key_readonly_fields : list string := ["prefix"; "secret"; "last_used_at"].

Definition key_get_fieldsets {O} (obj : option O) : list fieldset :=
  match obj with
  | None => key_add_fieldsets
  | Some _ => get_fieldsets key_fieldsets
  end.
Definition key_get_readonly_fields {O} (obj : option O) : gset string :=
  match obj with
  | None => get_readonly_fields key_readonly_fields
  | Some _ => get_readonly_fields key_readonly_fields ∪ {["user"]}
  end.

(** ** Saving *)
Section saving.
Context `{Django}.

(** [BaseModelAdmin.save_model] *)
Definition save_model (user : pyval) (obj : instance) (change : bool) : M instance :=
  let obj1 := if change then obj else i_set "created_by" user obj in
  save false None (i_set "updated_by" user obj1).

(** [request._raw_api_key], in memory only. *)
Context (token_urlsafe : nat -> string).

Definition key_save_model (user form_user : pyval) (form_name : string) (obj : instance) (change : bool)
    (draw : nat) : M (instance * option string) :=
  if change then
    i ← save_model user (i_set "updated_by" user obj) true;
    mret (i, None)
  else
    '(api_key, raw_key) ← create_key token_urlsafe form_user form_name user draw;
    mret (match i_pk api_key with Some pk => i_set "id" (VInt pk) obj | None => obj end, Some raw_key).

(** [APIKeyAdmin.response_add]: the page with the key, or Django's redirect. *)
Inductive add_response :=
| KeyPage (name prefix key : string)
| DjangoResponse.
Definition text_of (f : string) (i : instance) : string :=
  match i_get f i with Some (VStr s) => s | _ => "" end.
Definition response_add (obj : instance) (raw_key : option string) : M add_response :=
  w ← get_state;
  match i_pk obj with
  | None => raise (Builtin "DoesNotExist" "APIKey matching query does not exist.")
  | Some pk =>
      match first_by_pk (w_db w) key_model pk false with
      | None => raise (Builtin "DoesNotExist" "APIKey matching query does not exist.")
      | Some i =>
          mret (match raw_key with
                | Some k => if str_true k then KeyPage (text_of "name" i) (text_of "prefix" i) k else DjangoResponse
                | None => DjangoResponse
                end)
      end
  end.
End saving.

(** ** Lemmas *)

Lemma shows_audit_spec fs : shows_audit fs = true <-> exists n, FieldName n ∈ fs_fields fs /\ n ∈ audit_fields.
Proof.
  unfold shows_audit. rewrite existsb_exists. split.
  - intros ([n|ns] & Hin & Hn); [|done]. apply bool_decide_eq_true in Hn. exists n.
    by rewrite list_elem_of_In.
  - intros (n & Hin%list_elem_of_In & Hn). exists (FieldName n). split; [done|]. by apply bool_decide_eq_true.
Qed.

Lemma audit_fieldset_shows : shows_audit audit_fieldset = true.
Proof. by vm_compute. Qed.

(** A form always shows the audit trail, and exactly one set is ever added. *)
Lemma fieldsets_show_audit super : existsb shows_audit (get_fieldsets super) = true.
Proof.
  unfold get_fieldsets. destruct (existsb shows_audit super) eqn:E; [done|].
  by rewrite existsb_app, E, orb_false_l.
Qed.

Lemma get_fieldsets_idemp super : get_fieldsets (get_fieldsets super) = get_fieldsets super.
Proof. unfold get_fieldsets at 1. by rewrite fieldsets_show_audit. Qed.

(** The audit fields are read-only on every form, whatever the subclass
    lists; on a key's change form so are its user, prefix and secret. *)
Lemma audit_fields_readonly super : audit_fields ⊆ get_readonly_fields super.
Proof. unfold get_readonly_fields. set_solver. Qed.

Lemma key_form_readonly {O} (o : O) f :
  f ∈ audit_fields ∪ {["user"; "prefix"; "secret"; "last_used_at"]} -> f ∈ key_get_readonly_fields (Some o).
Proof.
  unfold key_get_readonly_fields, get_readonly_fields, key_readonly_fields. cbn [list_to_set].
  set_solver.
Qed.

(** The fields a form shows. *)
Definition shown (fss : list fieldset) : list string :=
  fss ≫= fun fs => fs_fields fs ≫= fun i => match i with FieldName n => [n] | FieldRow ns => ns end.

(** Neither key form shows the secret, and what the change form shows and
    does not protect is the name and the active flag. *)
Lemma key_forms {O} (obj : option O) :
  "secret" ∉ shown (key_get_fieldsets obj) /\
  match obj with
  | None => shown (key_get_fieldsets obj) = ["user"; "name"]
  | Some _ => filter (fun f => f ∉ key_get_readonly_fields obj) (shown (key_get_fieldsets obj)) =
                ["name"; "is_active"]
  end.
Proof. destruct obj as [o|]; (split; [apply (bool_decide_unpack _)|]); by vm_compute. Qed.

Section save_facts.
Context `{Django}.

(** What [save_model] hands to [BaseModel.save]. *)
Definition stamped_by (user : pyval) (change : bool) (i : instance) : instance :=
  i_set "updated_by" user (if change then i else i_set "created_by" user i).

Lemma stamped_by_lookup user change i f :
  i_attrs (stamped_by user change i) !! f =
  if bool_decide (f = "updated_by") then Some user
  else if bool_decide (f = "created_by") && negb change then Some user else i_attrs i !! f.
Proof.
  unfold stamped_by. destruct (bool_decide_reflect (f = "updated_by")) as [->|Hf]; [by simpl; row_simpl|].
  cbn [i_set i_attrs]. rewrite lookup_insert_ne by done.
  destruct change; cbn [negb]; [by rewrite andb_false_r|]. rewrite andb_true_r. cbn [i_set i_attrs].
  destruct (bool_decide_reflect (f = "created_by")) as [->|Hc]; by row_simpl.
Qed.

(** A saved form leaves the editor in [updated_by] of the row; an added row
    also names the creator, and a changed row keeps the creator the object
    carried. *)
Lemma save_model_stamps user obj change w i w' :
  Forall (fun f => f ∈ field_names (i_model obj)) ["created_by"; "updated_by"] ->
  save_model user obj change w = (Ok i, w') ->
  exists pk r, w_db w' = <[(i_model obj, pk) := r]> (w_db w) /\
    r !! "updated_by" = Some user /\
    (change = false -> r !! "created_by" = Some user) /\
    (change = true -> forall v, i_get "created_by" obj = Some v -> r !! "created_by" = Some v).
Proof.
  rewrite !Forall_cons_iff. intros (Hc & Hu & _) Hs. change (save_model user obj change) with
    (save false None (stamped_by user change obj)) in Hs. apply save_ok in Hs.
  assert (i_model (stamped_by user change obj) = i_model obj) as Hm by (by destruct change).
  assert (forall i', (forall f, f = "created_by" \/ f = "updated_by" ->
      i_attrs i' !! f = i_attrs (stamped_by user change obj) !! f) -> forall r0,
    let r := write_cols (field_names (i_model obj)) (fun _ => true) (i_attrs i') r0 in
    r !! "updated_by" = Some user /\ (change = false -> r !! "created_by" = Some user) /\
    (change = true -> forall v, i_get "created_by" obj = Some v -> r !! "created_by" = Some v)) as Hw.
  { intros i' Hi' r0. cbn zeta. rewrite !write_cols_lookup, !bool_decide_eq_true_2 by done. cbn [andb].
    rewrite !Hi', !stamped_by_lookup by auto. split_and!; [done|by intros ->|].
    intros -> v Hv. unfold i_get in Hv. cbn. by rewrite Hv. }
  destruct Hs as [pk r t _ _ -> _ _ ->|pk n1 n2 _ _ _ _ _ ->]; rewrite Hm; exists pk; eexists;
    (split; [reflexivity|]); apply Hw; intros f [-> | ->]; by rewrite !stamped_lookup.
Qed.

(** Adding a key stores one and hands its secret to the page once; changing
    one hands nothing out. *)
Lemma key_add_stores `{!DjangoLaws} token user fu name obj draw w i raw w' :
  Forall (fun f => f ∈ field_names key_model) ["user"; "prefix"; "secret"] ->
  key_save_model token user fu name obj false draw w = (Ok (i, raw), w') ->
  exists k pk r, raw = Some k /\ w_db w !! (key_model, pk) = None /\
    w_db w' = <[(key_model, pk) := r]> (w_db w) /\
    str_col "secret" r = k /\ str_col "prefix" r = stake 8 k /\ r !! "user" = Some fu.
Proof.
  intros Hf. unfold key_save_model, create_key. rewrite bind_ok. intros ([ak rk] & w1 & Hc & Hr).
  unfold mret, act_ret in Hr. injection Hr as <- <- <-.
  destruct (create_loop_stores _ _ _ _ _ _ _ _ _ _ Hf Hc) as (pk & r & ?). by exists rk, pk, r.
Qed.

Lemma key_change_no_key token user fu name obj draw w i raw w' :
  key_save_model token user fu name obj true draw w = (Ok (i, raw), w') -> raw = None.
Proof.
  unfold key_save_model. rewrite bind_ok. intros (j & w1 & _ & Hr).
  unfold mret, act_ret in Hr. by injection Hr as _ <- _.
Qed.

Lemma response_add_key obj raw w n p k w' :
  response_add obj raw w = (Ok (KeyPage n p k), w') -> raw = Some k /\ w' = w.
Proof.
  unfold response_add. rewrite bind_ok. intros (w0 & w1 & Hg & Hr).
  unfold get_state in Hg. injection Hg as <- <-.
  destruct (i_pk obj); [|done]. destruct (first_by_pk _ _ _ _); [|done].
  unfold mret, act_ret in Hr. destruct raw as [s|]; [|done]. destruct (str_true s); [|done].
  by injection Hr as _ _ <- <-.
Qed.
End save_facts.
