(* ===== verification/Widget.v ===== *)
(** * The JSON editor widget

    [core/base/widgets.py]: the textarea the admin shows for a JSON column.
    The page fragment is built as text, so what matters is which parts of it
    are escaped and what text a browser finds in the textarea, by HTML's rules
    for newlines.  Django's [escape] and [escapejs], its [Widget.build_attrs],
    Python's [json] and the browser's reading of character references are
    parameters; the values of attributes are strings, numbers and booleans. *)
From stdpp Require Import base list gmap strings.
From Stdlib Require Import Ascii Lia.
From S2P Require Import Prelude PyStr PyVal Exceptions.

(** ** What the widget calls *)

(** [escape] and the browser's reading of character references; [escapejs];
    [json.dumps(v, indent=2, ensure_ascii=False)], [json.loads]; and
    [build_attrs] of a widget with the attributes [self.attrs]. *)
Class Django_html := {
  escape : string -> string;
  unescape : string -> string;
  escapejs : string -> string;
  json_dumps : pyval -> result py_exn string;
  json_loads : string -> result py_exn pyval;
  build_attrs : list (string * pyval) -> list (string * pyval) -> list (string * pyval) -> list (string * pyval);
}.

(** The characters that end a text, a tag or a quoted attribute. *)
Definition inert_char (c : ascii) : bool := negb (is_char "<" c || is_char ">" c || is_char dquote c).
Definition inert (s : string) : bool := all_chars inert_char s.

(** The five characters [html.escape] replaces. *)
Definition references : list (ascii * string) :=
  [("&"%char, "&amp;"); ("<"%char, "&lt;"); (">"%char, "&gt;"); (dquote, "&quot;"); (squote, "&#x27;")].
Definition escape_char (c : ascii) : string := default (String c "") (od_get c references).

(** *** HTML's newlines *)
Definition lf : ascii := ascii_of_nat 10.
Definition cr : ascii := ascii_of_nat 13.
Definition nul : ascii := ascii_of_nat 0.

(** A carriage return, with the line feed after it if there is one, is read
    as a line feed; [seen] says that the last character was one. *)
Fixpoint newlines_from (seen : bool) (s : string) : string :=
  match s with
  | EmptyString => EmptyString
  | String c s' =>
      if is_char cr c then String lf (newlines_from true s')
      else if seen && is_char lf c then newlines_from false s'
      else String c (newlines_from false s')
  end.
Definition newlines : string -> string := newlines_from false.
(** A line feed right after the opening tag is dropped. *)
Definition drop_newline (s : string) : string :=
  match s with String c s' => if is_char lf c then s' else s | EmptyString => s end.
Definition has_nul (s : string) : bool := negb (all_chars (fun c => negb (is_char nul c)) s).

(** Text these rules leave alone. *)
Definition verbatim (s : string) : bool :=
  all_chars (fun c => negb (is_char cr c || is_char nul c)) s &&
  match s with String c _ => negb (is_char lf c) | EmptyString => true end.

(** [json.loads] and [json.dumps] may each fail in several ways (a
    [RecursionError] of either on a deep document, a plain [ValueError] of
    [loads] on a number of too many digits); nothing is assumed of those.
    [dumps] writes every control character of a string as an escape, so its
    only raw newlines are the line feeds between the lines it lays out. *)
Class Django_html_laws `{Django_html} : Prop := {
  escape_spec : forall s, escape s = sbind escape_char s;
  unescape_escape : forall s, unescape (escape s) = s;
  loads_dumps : forall s v t, json_loads s = Ok v -> json_dumps v = Ok t -> json_loads t = Ok v;
  dumps_verbatim : forall v t, json_dumps v = Ok t -> verbatim t = true;
  (** [{**base_attrs, **extra_attrs}] *)
  build_attrs_merge : forall own base extra, build_attrs own base extra = od_update base extra;
}.

Section widget.
Context `{Django_html}.

(** ** [JsonEditorWidget] *)

(** [__init__]: the attributes handed to [Textarea]. *)
Definition init_attrs (attrs : list (string * pyval)) : list (string * pyval) :=
  od_update [("rows", VInt 18); ("spellcheck", VStr "false"); ("autocomplete", VStr "off");
             ("autocorrect", VStr "off"); ("autocapitalize", VStr "off")] attrs.

(** [except (json.JSONDecodeError, TypeError)] *)
Definition caught (e : py_exn) : bool :=
  match e with Builtin cls _ => str_in cls ["JSONDecodeError"; "TypeError"] | _ => false end.

(** The value as it is shown. *)
Definition pretty_value (value : pyval) : result py_exn pyval :=
  if truthy value then
    match value with
    | VDict _ | VList _ => t ← json_dumps value; Ok (VStr t)
    | VStr s =>
        match (parsed ← json_loads s; json_dumps parsed) with
        | Ok t => Ok (VStr t)
        | Raise e => if caught e then Ok value else Raise e
        end
    | _ => Ok value
    end
  else Ok value.

Definition text_of (v : pyval) : string := default "" (py_str v).

Definition widget_id_of (name : string) (attrs : list (string * pyval)) : pyval :=
  default (VStr ("id_" +:+ name)) (od_get "id" attrs).

Definition editor_class : string :=
  "vLargeTextField border border-base-200 bg-white font-medium " +:+
  "rounded-default shadow-xs text-font-default-light text-sm " +:+
  "focus:outline-2 focus:-outline-offset-2 focus:outline-primary-600 " +:+
  "dark:bg-base-900 dark:border-base-700 dark:text-font-default-dark " +:+
  "dark:scheme-dark px-3 py-2.5 w-full max-w-4xl " +:+
  "font-mono leading-relaxed resize-y tab-size-2".
Definition editor_style : string :=
  "font-family: ui-monospace, SFMono-Regular, 'SF Mono', Menlo, " +:+
  "Consolas, 'Liberation Mono', monospace; " +:+
  "tab-size: 2; white-space: pre;".

Definition final_attrs (own : list (string * pyval)) (name : string) (attrs : list (string * pyval))
    : list (string * pyval) :=
  build_attrs own attrs
    [("name", VStr name); ("id", widget_id_of name attrs); ("class", VStr editor_class);
     ("style", VStr editor_style)].

(** A double quote is written [`] in the literals below. *)
Definition q (s : string) : string := smap (fun c => if is_char "`" c then dquote else c) s.

Definition is_none (v : pyval) : bool := match v with VNone => true | _ => false end.
Definition attr_text (kv : string * pyval) : string := kv.1 +:+ q "=`" +:+ text_of kv.2 +:+ q "`".
Definition attrs_text (attrs : list (string * pyval)) : string :=
  join " " (attr_text <$> filter (fun kv : string * pyval => is_none kv.2 = false) attrs).

Definition template (escaped_id escaped_id_js attrs_str escaped_value : string) : string :=
  q "
        <div class=`flex flex-col gap-1.5 max-w-4xl` id=`" +:+
  escaped_id +:+
  q "_wrapper`>
            <div class=`flex items-center justify-end`>
                <button type=`button` id=`" +:+
  escaped_id +:+
  q "_format`
                    class=`font-medium inline-flex items-center gap-1 rounded-default
                           justify-center whitespace-nowrap cursor-pointer px-2 py-1 text-xs
                           border border-base-200 shadow-xs text-important
                           bg-white dark:bg-base-900 dark:border-base-700
                           hover:bg-base-100 dark:hover:bg-base-800`>
                    <span class=`material-symbols-outlined` style=`font-size: 14px;`>format_align_left</span>
                    Format
                </button>
            </div>
            " +:+
  "<textarea " +:+ attrs_str +:+ ">" +:+ escaped_value +:+ "</textarea>" +:+
  q "
            <div class=`flex items-center justify-end`>
                <div id=`" +:+
  escaped_id +:+
  q "_status` class=`text-xs flex items-center gap-1`></div>
            </div>
        </div>
        <script>
        (function() {
            const ta = document.getElementById(`" +:+
  escaped_id_js +:+
  q "`);
            const statusEl = document.getElementById(`" +:+
  escaped_id_js +:+
  q "_status`);
            const formatBtn = document.getElementById(`" +:+
  escaped_id_js +:+
  q "_format`);

            function validate() {
                const val = ta.value.trim();
                if (!val) {
                    statusEl.innerHTML = '';
                    return;
                }
                try {
                    JSON.parse(val);
                    statusEl.innerHTML =
                        '<span class=`text-green-600 dark:text-green-400 flex items-center gap-1`>' +
                        '<span class=`material-symbols-outlined` style=`font-size:14px`>check_circle</span>' +
                        ' Valid JSON</span>';
                } catch (e) {
                    statusEl.innerHTML =
                        '<span class=`text-red-600 dark:text-red-400 flex items-center gap-1`>' +
                        '<span class=`material-symbols-outlined` style=`font-size:14px`>error</span> ' +
                        e.message.replace(/</g, '&lt;') + '</span>';
                }
            }

            formatBtn.addEventListener(`click`, function() {
                const val = ta.value.trim();
                if (!val) return;
                try {
                    const parsed = JSON.parse(val);
                    ta.value = JSON.stringify(parsed, null, 2);
                    validate();
                } catch (e) {
                    validate();
                }
            });

            ta.addEventListener(`keydown`, function(e) {
                if (e.key === `Tab`) {
                    e.preventDefault();
                    const start = this.selectionStart;
                    const end = this.selectionEnd;
                    this.value = this.value.substring(0, start) + `  ` + this.value.substring(end);
                    this.selectionStart = this.selectionEnd = start + 2;
                    validate();
                }
            });

            ta.addEventListener(`input`, validate);
            validate();
        })();
        </script>
        ".

(** [render]; [own] is [self.attrs], an absent or empty [attrs] is []. *)
Definition render (own : list (string * pyval)) (name : string) (value : pyval) (attrs : list (string * pyval))
    : result py_exn string :=
  value ← pretty_value value;
  let widget_id := text_of (widget_id_of name attrs) in
  Ok (template (escape widget_id) (escapejs widget_id) (attrs_text (final_attrs own name attrs))
        (escape (if truthy value then text_of value else ""))).

(** ** What a browser finds *)

(** The text after the first [p], and the text up to it. *)
Fixpoint after (p s : string) : option string :=
  if startswith p s then Some (sdrop (slen p) s)
  else match s with String _ s' => after p s' | EmptyString => None end.
Fixpoint before (p s : string) : option string :=
  if startswith p s then Some ""
  else match s with String c s' => String c <$> before p s' | EmptyString => None end.

(** What stands between the tags of the first textarea of a page. *)
Definition textarea_source (html : string) : option string :=
  tag ← after "<textarea " html; body ← after ">" tag; before "</textarea>" body.
(** The text a browser reads there: newlines normalised (of the whole page in
    a browser; what surrounds the text begins and ends with a bracket, so the
    part can be normalised alone), references resolved, and one line feed
    right after the opening tag dropped.  [None] for a NUL, which a browser
    replaces by a character outside this alphabet. *)
Definition textarea_text (source : string) : option string :=
  if has_nul source then None else Some (drop_newline (unescape (newlines source))).
Definition displayed (html : string) : option string := textarea_source html ≫= textarea_text.

(** ** Lemmas *)

(** No occurrence of [p] begins in [u], whatever follows it. *)
Fixpoint quiet (p u : string) : bool :=
  match u with
  | EmptyString => true
  | String _ u' => negb (startswith p u || startswith u p) && quiet p u'
  end.

Lemma startswith_overlap p u w : startswith p (u +:+ w) = true -> startswith p u || startswith u p = true.
Proof.
  revert u. induction p as [|c p IH]; intros u; [done|]. destruct u as [|d u]; [by rewrite orb_true_r|].
  cbn. intros [Hc Hs]%andb_true_iff. apply bool_decide_eq_true in Hc as ->.
  rewrite bool_decide_true by done. by apply IH.
Qed.

Lemma not_here p c u w : quiet p (String c u) = true -> startswith p (String c u +:+ w) = false /\ quiet p u = true.
Proof.
  cbn [quiet]. intros [Hn Hq]%andb_true_iff. split; [|done].
  destruct (startswith p (String c u +:+ w)) eqn:E; [|done]. apply startswith_overlap in E. by rewrite E in Hn.
Qed.

Lemma after_quiet p u w : quiet p u = true -> after p (u +:+ w) = after p w.
Proof.
  induction u as [|c u IH]; [done|]. intros Hq. destruct (not_here p c u w Hq) as [Hs Hu].
  cbn [String.append after] in *. by rewrite Hs, IH.
Qed.
Lemma before_quiet p u w : quiet p u = true -> before p (u +:+ w) = String.append u <$> before p w.
Proof.
  induction u as [|c u IH]; [intros _; change ("" +:+ w) with w; by destruct (before p w)|]. intros Hq.
  destruct (not_here p c u w Hq) as [Hs Hu].
  cbn [String.append before] in *. rewrite Hs, IH by done. by destruct (before p w).
Qed.
Lemma after_here p w : after p (p +:+ w) = Some w.
Proof. destruct p as [|c p]; [by destruct w|]. cbn [String.append after]. change (String c (p +:+ w)) with (String c p +:+ w). by rewrite startswith_self, sdrop_app. Qed.
Lemma before_here p w : before p (p +:+ w) = Some "".
Proof. destruct p as [|c p]; [by destruct w|]. cbn [String.append before]. change (String c (p +:+ w)) with (String c p +:+ w). by rewrite startswith_self. Qed.

Lemma inert_quiet c p u : inert_char c = false -> inert u = true -> quiet (String c p) u = true.
Proof.
  intros Hc. induction u as [|d u IH]; [done|]. cbn [inert all_chars quiet]. intros [Hd Hu]%andb_true_iff.
  assert (bool_decide (c = d) = false /\ bool_decide (d = c) = false) as [H1 H2].
  { split; apply bool_decide_eq_false; congruence. }
  cbn [startswith]. rewrite H1, H2. by apply IH.
Qed.

Lemma inert_app a b : inert (a +:+ b) = inert a && inert b.
Proof. apply all_chars_app. Qed.

(** The opening tag holds no angle bracket of its own. *)
Definition no_angle (c : ascii) : bool := negb (is_char "<" c || is_char ">" c).
Lemma inert_no_angle s : inert s = true -> all_chars no_angle s = true.
Proof. apply all_chars_impl. intros [[] [] [] [] [] [] [] []]; by vm_compute. Qed.

Lemma angle_quiet c p u : no_angle c = false -> all_chars no_angle u = true -> quiet (String c p) u = true.
Proof.
  intros Hc. induction u as [|d u IH]; [done|]. cbn [all_chars quiet]. intros [Hd Hu]%andb_true_iff.
  assert (bool_decide (c = d) = false /\ bool_decide (d = c) = false) as [H1 H2].
  { split; apply bool_decide_eq_false; congruence. }
  cbn [startswith]. rewrite H1, H2. by apply IH.
Qed.

(** *** Escaping and newlines *)

Lemma escape_char_cases c :
  (exists e, (c, e) ∈ references /\ escape_char c = e) \/ (escape_char c = String c "" /\ inert_char c = true /\ c <> "&"%char).
Proof.
  unfold escape_char, references. cbn [od_get].
  repeat (case_decide; [left; subst; eexists; split; [|reflexivity];
    apply list_elem_of_In; cbn; tauto|]). right.
  split; [done|]. split; [|congruence]. unfold inert_char, is_char.
  by rewrite !bool_decide_eq_false_2 by congruence.
Qed.

Lemma escape_char_inert c : inert (escape_char c) = true.
Proof.
  destruct (escape_char_cases c) as [(e & Hin & ->)|(-> & Hi & Hc)].
  - unfold references in Hin. rewrite !elem_of_cons, elem_of_nil in Hin.
    destruct Hin as [[= -> ->]|[[= -> ->]|[[= -> ->]|[[= -> ->]|[[= -> ->]|[]]]]]]; done.
  - unfold inert. cbn [all_chars]. by rewrite Hi.
Qed.

Lemma escape_inert `{!Django_html_laws} s : inert (escape s) = true.
Proof.
  rewrite escape_spec. induction s as [|c s IH]; [done|]. cbn [sbind]. by rewrite inert_app, IH, escape_char_inert.
Qed.

(** A reference holds neither a newline nor a NUL, and what it stands for is
    neither. *)
Lemma escape_char_newlines seen c s :
  newlines_from seen (escape_char c +:+ s) =
    if is_char cr c then String lf (newlines_from true s)
    else if seen && is_char lf c then newlines_from false s
    else escape_char c +:+ newlines_from false s.
Proof.
  destruct (escape_char_cases c) as [(e & Hin & ->)|(-> & _ & _)].
  - unfold references in Hin. rewrite !elem_of_cons, elem_of_nil in Hin.
    destruct Hin as [[= -> ->]|[[= -> ->]|[[= -> ->]|[[= -> ->]|[[= -> ->]|[]]]]]]; by destruct seen.
  - reflexivity.
Qed.

Lemma escape_newlines seen s : newlines_from seen (sbind escape_char s) = sbind escape_char (newlines_from seen s).
Proof.
  revert seen. induction s as [|c s IH]; intros seen; [done|]. cbn [sbind newlines_from].
  rewrite escape_char_newlines, !IH. destruct (is_char cr c); [done|]. by destruct (seen && is_char lf c).
Qed.

Lemma has_nul_app a b : has_nul (a +:+ b) = has_nul a || has_nul b.
Proof. unfold has_nul. by rewrite all_chars_app, negb_andb. Qed.

Lemma escape_nul s : has_nul (sbind escape_char s) = has_nul s.
Proof.
  induction s as [|c s IH]; [done|]. cbn [sbind]. rewrite has_nul_app, IH.
  change (String c s) with (String c "" +:+ s). rewrite has_nul_app. f_equal.
  destruct (escape_char_cases c) as [(e & Hin & ->)|(-> & _ & _)]; [|done].
  unfold references in Hin. rewrite !elem_of_cons, elem_of_nil in Hin.
  by destruct Hin as [[= -> ->]|[[= -> ->]|[[= -> ->]|[[= -> ->]|[[= -> ->]|[]]]]]].
Qed.

Lemma newlines_no_cr s :
  all_chars (fun c => negb (is_char cr c || is_char nul c)) s = true -> newlines s = s /\ has_nul s = false.
Proof.
  unfold newlines, has_nul. induction s as [|c s IH]; [done|]. cbn [all_chars newlines_from].
  intros [[Hc Hn]%negb_true_iff%orb_false_iff [Hs Hs']%IH]%andb_true_iff.
  rewrite Hc, Hn, Hs. cbn [andb negb]. done.
Qed.

Lemma verbatim_shown s : verbatim s = true -> drop_newline (newlines s) = s /\ has_nul s = false.
Proof.
  intros [[-> Hn]%newlines_no_cr Hl]%andb_true_iff. split; [|done].
  destruct s as [|c s]; [done|]. cbn [drop_newline]. by apply negb_true_iff in Hl as ->.
Qed.

Lemma escaped_shown `{!Django_html_laws} s :
  textarea_text (escape s) = if has_nul s then None else Some (drop_newline (newlines s)).
Proof.
  unfold textarea_text. rewrite (escape_spec s) at 1. rewrite escape_nul. destruct (has_nul s); [done|].
  unfold newlines. rewrite (escape_spec s), escape_newlines, <- escape_spec. by rewrite unescape_escape.
Qed.

(** *** The attributes *)

Definition plain_attrs (attrs : list (string * pyval)) : bool :=
  forallb (fun kv : string * pyval => inert kv.1 && inert (text_of kv.2)) attrs.

Lemma od_set_plain k v d :
  inert k = true -> inert (text_of v) = true -> plain_attrs d = true -> plain_attrs (od_set k v d) = true.
Proof.
  intros Hk Hv. induction d as [|[k' v'] d IH]; intros Hd.
  - unfold plain_attrs. cbn [od_set forallb fst snd]. by rewrite Hk, Hv.
  - unfold plain_attrs in *. cbn [od_set forallb fst snd] in *. apply andb_true_iff in Hd as [Hh Hd].
    case_decide; cbn [forallb fst snd]; [|by rewrite Hh, IH].
    apply andb_true_iff in Hh as [Hh _]. by rewrite Hd, ?Hh, ?Hk, Hv.
Qed.

Lemma od_update_plain d e : plain_attrs d = true -> plain_attrs e = true -> plain_attrs (od_update d e) = true.
Proof.
  revert d. induction e as [|[k v] e IH]; intros d Hd He; [done|].
  cbn in He. apply andb_true_iff in He as [[Hk Hv]%andb_true_iff He].
  change (od_update d ((k, v) :: e)) with (od_update (od_set k v d) e). apply IH; [|done]. by apply od_set_plain.
Qed.

Lemma no_angle_join l : forallb (all_chars no_angle) l = true -> all_chars no_angle (join " " l) = true.
Proof.
  induction l as [|s l IH]; [done|]. cbn [forallb]. intros [Hs Hl]%andb_true_iff.
  destruct l as [|t l]; [done|].
  change (join " " (s :: t :: l)) with (s +:+ " " +:+ join " " (t :: l)).
  rewrite !all_chars_app, Hs. by apply IH.
Qed.

Lemma attrs_text_no_angle attrs : plain_attrs attrs = true -> all_chars no_angle (attrs_text attrs) = true.
Proof.
  intros Hp. apply no_angle_join. unfold plain_attrs in Hp. rewrite forallb_forall in Hp |- *.
  intros t Ht. apply list_elem_of_In, list_elem_of_fmap in Ht as ([k v] & -> & Hin).
  apply list_elem_of_filter in Hin as [_ Hin]. apply list_elem_of_In in Hin. specialize (Hp _ Hin).
  cbn [fst snd] in Hp. apply andb_true_iff in Hp as [Hk Hv]. unfold attr_text. cbn [fst snd].
  rewrite !all_chars_app, (inert_no_angle k Hk), (inert_no_angle _ Hv). by vm_compute.
Qed.

Lemma od_get_plain k d v : plain_attrs d = true -> od_get k d = Some v -> inert (text_of v) = true.
Proof.
  induction d as [|[k' v'] d IH]; [done|]. cbn. intros [[_ Hv]%andb_true_iff Hd]%andb_true_iff.
  case_decide; [by intros [= <-]|by apply IH].
Qed.

Lemma final_attrs_plain `{!Django_html_laws} own name attrs :
  inert name = true -> plain_attrs attrs = true -> plain_attrs (final_attrs own name attrs) = true.
Proof.
  intros Hn Ha. unfold final_attrs. rewrite build_attrs_merge. apply od_update_plain; [done|].
  assert (Hid : inert (text_of (widget_id_of name attrs)) = true).
  { unfold widget_id_of. destruct (od_get "id" attrs) as [v|] eqn:E; [by eapply od_get_plain|].
    change (inert ("id_" +:+ name) = true). by rewrite inert_app, Hn. }
  unfold plain_attrs. cbn [forallb fst snd]. change (text_of (VStr name)) with name. rewrite Hn, Hid.
  by vm_compute.
Qed.

(** *** The page *)

Lemma template_text eid js attrs text :
  inert eid = true -> all_chars no_angle attrs = true -> inert text = true ->
  textarea_source (template eid js attrs text) = Some text.
Proof.
  intros He Ha Ht. unfold textarea_source, template.
  rewrite !after_quiet by first [by vm_compute|by apply inert_quiet].
  rewrite after_here. cbn [mbind option_bind]. rewrite after_quiet by by apply angle_quiet.
  rewrite after_here. cbn [mbind option_bind]. rewrite before_quiet by by apply inert_quiet.
  rewrite before_here. cbn. by rewrite str_app_nil_r.
Qed.

Lemma render_displays `{!Django_html_laws} own name value attrs shown :
  inert name = true -> plain_attrs attrs = true -> pretty_value value = Ok shown ->
  exists html, render own name value attrs = Ok html /\
    displayed html = let text := if truthy shown then text_of shown else "" in
                     if has_nul text then None else Some (drop_newline (newlines text)).
Proof.
  intros Hn Ha Hs. unfold render. rewrite Hs. cbn [mbind result_bind]. eexists. split; [reflexivity|].
  unfold displayed. rewrite template_text; [|apply escape_inert| |apply escape_inert].
  - cbn [mbind option_bind]. apply escaped_shown.
  - by apply attrs_text_no_angle, final_attrs_plain.
Qed.

(** C40: the editor shows the stored document and nothing else.  For a JSON
    text that can be laid out the browser finds, in the page's first textarea,
    exactly the layout [json.dumps] made, which loads to the same value.  A
    text that is not JSON is found as HTML reads text there: as it was if it
    holds no carriage return (and no NUL) and does not begin with a newline;
    otherwise the newlines are normalised and the first one is lost, since the
    widget, unlike Django's own textarea, writes no newline after the tag.  An
    exception of the [json] calls other than the two the widget catches leaves
    [render].  Nothing the text holds, a closing [textarea] tag or a script,
    ends the textarea early; the field's name and attributes are assumed to
    hold no quote and no angle bracket. *)
Theorem editor_shows `{!Django_html_laws} own name attrs s
  (Hname : inert name = true) (Hattrs : plain_attrs attrs = true) :
  let laid_out := v ← json_loads s; json_dumps v in
  let found t := exists html, render own name (VStr s) attrs = Ok html /\ displayed html = t in
  (s = "" -> found (Some "")) /\
  (forall t, s <> "" -> laid_out = Ok t -> found (Some t) /\ json_loads t = json_loads s) /\
  (forall e, s <> "" -> laid_out = Raise e -> caught e = true ->
     (has_nul s = false -> found (Some (drop_newline (newlines s)))) /\
     (verbatim s = true -> found (Some s))) /\
  (forall e, s <> "" -> laid_out = Raise e -> caught e = false -> render own name (VStr s) attrs = Raise e).
Proof.
  intros laid_out found.
  assert (Hp : s <> "" -> pretty_value (VStr s) =
    match laid_out with Ok t => Ok (VStr t) | Raise e => if caught e then Ok (VStr s) else Raise e end).
  { intros Hne%str_true_spec. unfold pretty_value. change (truthy (VStr s)) with (str_true s). by rewrite Hne. }
  assert (Hfound : forall shown, pretty_value (VStr s) = Ok (VStr shown) -> has_nul shown = false ->
    found (Some (drop_newline (newlines shown)))).
  { intros shown Hs Hnul. destruct (render_displays own name _ attrs _ Hname Hattrs Hs) as (html & Hr & Hd).
    exists html. split; [done|]. rewrite Hd. destruct shown as [|c shown]; [done|].
    change (truthy (VStr (String c shown))) with true. change (text_of (VStr (String c shown))) with (String c shown).
    cbv zeta iota. by rewrite Hnul. }
  split_and!.
  - intros ->. by apply (Hfound "").
  - intros t Hne Ht. rewrite (Hp Hne), Ht in Hfound. unfold laid_out in Ht.
    destruct (json_loads s) as [v|] eqn:El; [|done]. cbn in Ht. pose proof (dumps_verbatim _ _ Ht) as Hv.
    apply verbatim_shown in Hv as [Hv Hn]. split; [|by eapply loads_dumps].
    replace (Some t) with (Some (drop_newline (newlines t))) by by rewrite Hv. by apply Hfound.
  - intros e Hne He Hc. rewrite (Hp Hne), He, Hc in Hfound. split; [by apply Hfound|].
    intros [Hv Hn]%verbatim_shown. replace (Some s) with (Some (drop_newline (newlines s))) by by rewrite Hv. by apply Hfound.
  - intros e Hne He Hc. unfold render. by rewrite (Hp Hne), He, Hc.
Qed.

(** [render] never looks at [self.attrs]: the rows and the spell-checking
    flags that [__init__] sets reach no page. *)
Lemma init_attrs_unused `{!Django_html_laws} own own' name value attrs :
  render own name value attrs = render own' name value attrs.
Proof. unfold render, final_attrs. by rewrite !build_attrs_merge. Qed.

(** Attributes are not escaped: a quote in the field's name starts a new one. *)
Lemma attribute_not_escaped `{!Django_html_laws} own :
  exists rest, attrs_text (final_attrs own (q "x` onfocus=`run()") []) =
    q "name=`x` onfocus=`run()` id=`" +:+ rest.
Proof. unfold final_attrs. rewrite build_attrs_merge. eexists. vm_compute. reflexivity. Qed.
End widget.

(** ** An instance: the five references resolved *)
Fixpoint unescape_from (skip : nat) (s : string) : string :=
  match s, skip with
  | EmptyString, _ => ""
  | String _ s', S n => unescape_from n s'
  | String c s', O =>
      match List.find (fun r : ascii * string => startswith r.2 s) references with
      | Some (d, e) => String d (unescape_from (pred (slen e)) s')
      | None => String c (unescape_from 0 s')
      end
  end.

Lemma references_escape c s : unescape_from 0 (escape_char c +:+ s) = String c (unescape_from 0 s).
Proof.
  destruct (escape_char_cases c) as [(e & Hin & ->)|(-> & Hi & Hc)].
  - unfold references in Hin. rewrite !elem_of_cons, elem_of_nil in Hin.
    destruct Hin as [[= -> ->]|[[= -> ->]|[[= -> ->]|[[= -> ->]|[[= -> ->]|[]]]]]]; done.
  - cbn [String.append unescape_from]. unfold references. cbn [List.find startswith snd].
    rewrite !(bool_decide_eq_false_2 ("&"%char = c)) by congruence. reflexivity.
Qed.

(** Numbers stand for the JSON documents. *)
#[local] Instance sample : Django_html := {|
  escape := sbind escape_char;
  unescape := unescape_from 0;
  escapejs := sbind escape_char;
  json_dumps v := match v with VInt z => Ok (str_int z) | _ => Raise (Builtin "TypeError" "not serializable") end;
  json_loads s := match parse_int s with
                  | Some z => Ok (VInt z)
                  | None => Raise (Builtin "JSONDecodeError" "Expecting value")
                  end;
  build_attrs _ base extra := od_update base extra |}.
Lemma digits_chars s : all_digits s = all_chars is_digit s.
Proof. induction s as [|c s IH]; [done|]. cbn [all_digits all_chars]. by rewrite IH. Qed.

Lemma str_int_verbatim z : verbatim (str_int z) = true.
Proof.
  assert (Hpos : forall z, (0 <= z)%Z -> verbatim (str_int z) = true /\ verbatim (String "-" (str_int z)) = true).
  { intros n Hn. destruct (str_int_digits n Hn) as (Hd & _ & _).
    rewrite digits_chars in Hd.
    assert (Hc : all_chars (fun c => negb (is_char cr c || is_char nul c)) (str_int n) = true).
    { eapply all_chars_impl; [|exact Hd]. intros [[] [] [] [] [] [] [] []]; by vm_compute. }
    unfold verbatim. cbn [all_chars]. rewrite Hc. split; [|done]. destruct (str_int n) as [|c t]; [done|].
    cbn [all_chars] in Hd. apply andb_true_iff in Hd as [Hd _]. revert Hd.
    destruct c as [[] [] [] [] [] [] [] []]; by vm_compute. }
  destruct z as [|p|p]; [by apply (Hpos 0%Z)|by apply (Hpos (Z.pos p))|by apply (Hpos (Z.pos p))].
Qed.

#[local] Instance sample_laws : Django_html_laws.
Proof.
  split; cbn.
  - done.
  - induction s as [|c s IH]; [done|]. cbn [sbind]. by rewrite references_escape, IH.
  - intros s v t Hl Hd. destruct (parse_int s) as [z|]; [|done]. injection Hl as <-. injection Hd as <-.
    by rewrite parse_int_str_int.
  - intros [] t Hd; try done. injection Hd as <-. apply str_int_verbatim.
  - done.
Qed.

Lemma editor_shows_witness :
  exists html, render (init_attrs []) "notes" (VStr "</textarea><script>") [("required", VBool true)] = Ok html /\
    displayed html = Some "</textarea><script>".
Proof.
  destruct (editor_shows (init_attrs []) "notes" [("required", VBool true)] "</textarea><script>" eq_refl eq_refl)
    as (_ & _ & H & _).
  destruct (H (Builtin "JSONDecodeError" "Expecting value")) as [_ Hv]; [done|reflexivity|reflexivity|].
  apply Hv. vm_compute. reflexivity.
Defined.

(** A leading newline does not come back. *)
Example leading_newline : exists html, render (init_attrs []) "notes" (VStr (String lf "x")) [] = Ok html /\
  displayed html = Some "x".
Proof. eexists. split; vm_compute; reflexivity. Qed.
