(* ===== verification/Endpoints.v ===== *)
(** * The API-key endpoints, end to end

    The pieces the other files verify one by one, composed the way a request
    meets them: the authentication chain with the providers that
    [accounts/apps.py] registers and [config/settings/base.py] enables
    ([AuthChain], [ApiKey]), the resource permission ([Rbac]), the key views of
    [accounts/views.py] ([ApiKey]) and the exception handler ([Handler]).
    DRF's [APIView.dispatch], which calls them in this order, is a parameter
    with its documented behaviour, the class [Dispatch]. *)
From stdpp Require Import base list gmap strings pretty numbers.
From Stdlib Require Import Ascii Lia ZArith.
From S2P Require Import Prelude PyStr PyVal Exceptions Orm Service Cascade ServiceFacts Handler Responses Rbac.
From S2P Require Import AuthChain ApiKey Accounts Contract.

Section endpoints.
Context `{Django} {R : Type}.
(** The request's [X-API-Key] header; simple-jwt's authentication and its
    [authenticate_header]. *)
Context (api_key_header : R -> option string).
Context (jwt_authenticate : R -> act auth_world py_exn (option account)) (jwt_header : R -> option string).
(** Role assignments, the request id, and the parameters of the handler. *)
Context (roles : role_table) (rid : option string).
Context (from_exception : pyval -> body * Z * list (string * string)).
Context (kit_str : exc -> string).
Context (exception_handler : string -> option (Z * pyval * list (string * string))).

(** ** Authentication *)

(** [APIKeyProvider.authenticate]: [request.user] becomes the key's user. *)
Definition api_key_authenticate (req : R) : act auth_world py_exn (option account) := fun a =>
  match ApiKey.authenticate (api_key_header req) a with
  | (Ok (Some (uid, _)), a') => (Ok (Some (Account uid true true None)), a')
  | (Ok None, a') => (Ok None, a')
  | (Raise e, a') => (Raise e, a')
  end.

(** The registrations of [AccountsConfig.ready]. *)
Definition ready_providers : auth_registry auth_world R account :=
  register GoogleOAuthProvider
    (register (APIKeyProvider api_key_authenticate)
      (register (JWTProvider jwt_authenticate jwt_header) (AuthRegistry [] []))).

Definition AUTH_ENABLED_PROVIDERS : list string := ["jwt"; "api_key"].

(** [CompositeAuthentication().authenticate(request)] on a fresh request. *)
Definition authentication (req : R) (a : auth_world) : result py_exn (option account) * auth_world :=
  let '(res, a', _, _, _) := AuthChain.authenticate (Some AUTH_ENABLED_PROVIDERS) None ready_providers req a in
  (res, a').

(** ** Views *)
Record api_view := ApiView {
  av_permission : option account -> bool;
  av_handler : option account -> act auth_world py_exn response;
}.

(** A handler that touches the tables only. *)
Definition on_world {A} (m : act world py_exn A) : act auth_world py_exn A := fun a =>
  let '(r, w) := m (aw_world a) in (r, AuthWorld w (aw_cache a)).

Definition user_ref (u : option account) : pyval :=
  match u with Some u => VRef user_model (a_id u) | None => VNone end.

(** A view under [HasResourcePermission], its [action] set by [initial]. *)
Definition resource_view (resource action : string) (h : option account -> act auth_world py_exn response)
    : api_view :=
  ApiView (fun u => (has_permission roles u (Some resource) (Some action) None).1.1) h.

Definition APIKeyDeleteView (pk : Z) : api_view :=
  resource_view "api_key" "delete" (fun u => on_world (api_key_delete rid pk (user_ref u))).
Definition APIKeyRevokeView (pk : Z) : api_view :=
  resource_view "api_key" "update" (fun u => on_world (api_key_revoke rid pk (user_ref u))).

(** [EXCEPTION_HANDLER] on an exception that leaves the view. *)
Definition raised_of (e : py_exn) : raised :=
  match e with Custom x => RCustom x | Builtin cls _ => ROther cls None end.
Definition on_exception (e : py_exn) : option response :=
  (api_exception_handler from_exception kit_str exception_handler (raised_of e) rid booted).1.

(** What [check_permissions] raises. *)
Definition denied (u : option account) : py_exn :=
  match u with
  | None => Builtin "NotAuthenticated" "Authentication credentials were not provided."
  | Some _ => Builtin "PermissionDenied" "You do not have permission to perform this action."
  end.

(** [APIView.dispatch]: [initial] authenticates, checks permissions and then
    throttles, the method handler runs, and an exception raised anywhere in
    these goes to the exception handler. *)
Class Dispatch (throttle : R -> option py_exn)
    (dispatch : api_view -> R -> auth_world -> option response * auth_world) : Prop := {
  dispatch_spec : forall v req a,
    dispatch v req a =
    match authentication req a with
    | (Raise e, a1) => (on_exception e, a1)
    | (Ok u, a1) =>
        if av_permission v u then
          match throttle req with
          | Some e => (on_exception e, a1)
          | None =>
              match av_handler v u a1 with
              | (Ok r, a2) => (Some r, a2)
              | (Raise e, a2) => (on_exception e, a2)
              end
          end
        else (on_exception (denied u), a1)
    end
}.

(** ** Lemmas *)

(** Two databases with the same rows but for [last_used_at]. *)
Definition same_row (r r' : row) : Prop := forall f, f <> "last_used_at" -> r' !! f = r !! f.
Definition touched (d d' : database) : Prop :=
  forall k, match d !! k, d' !! k with
            | Some r, Some r' => same_row r r'
            | None, None => True
            | _, _ => False
            end.

#[export] Instance touched_preorder : PreOrder touched.
Proof.
  split.
  - intros d k. destruct (d !! k); [by intros ?|done].
  - intros d1 d2 d3 H1 H2 k. specialize (H1 k). specialize (H2 k).
    destruct (d1 !! k), (d2 !! k), (d3 !! k); try done. intros f Hf. by rewrite (H2 f Hf), (H1 f Hf).
Qed.

Lemma touch_touched pk a : touched (w_db (aw_world a)) (w_db (aw_world (touch_last_used pk a))).
Proof.
  unfold touch_last_used. destruct (cache_live _ _ _); [done|]. simpl. intros k.
  destruct (decide (k = (key_model, pk))) as [->|Hk].
  - rewrite lookup_alter. rewrite decide_True by done. destruct (w_db (aw_world a) !! _); [|done].
    simpl. intros f Hf. by rewrite lookup_insert_ne.
  - rewrite lookup_alter_ne by done. destruct (w_db (aw_world a) !! k); [by intros ?|done].
Qed.

Lemma api_key_touched req a res a' :
  api_key_authenticate req a = (res, a') -> touched (w_db (aw_world a)) (w_db (aw_world a')).
Proof.
  unfold api_key_authenticate, ApiKey.authenticate, auth_failed. intros Hr.
  repeat (case_match; simplify_eq/=; try done); apply touch_touched.
Qed.

(** The tables' guarantees rest on two columns of the key rows. *)
Lemma keys_wf_cols d d' :
  (forall pk r', d' !! (key_model, pk) = Some r' -> exists r, d !! (key_model, pk) = Some r /\
     str_col "prefix" r' = str_col "prefix" r /\ str_col "secret" r' = str_col "secret" r) ->
  keys_wf d -> keys_wf d'.
Proof.
  intros Hrow [Hu Hs]. split.
  - intros pk r pk' r' Hr Hr' E. destruct (Hrow pk r Hr) as (q & Hq & Hp & _).
    destruct (Hrow pk' r' Hr') as (q' & Hq' & Hp' & _). apply (Hu pk q pk' q' Hq Hq'). congruence.
  - intros pk r Hr. destruct (Hrow pk r Hr) as (q & Hq & Hp & Hse). rewrite Hp, Hse. by apply (Hs pk).
Qed.

Lemma keys_wf_touched d d' : touched d d' -> keys_wf d -> keys_wf d'.
Proof.
  intros Ht. apply keys_wf_cols. intros pk r' Hr'. specialize (Ht (key_model, pk)). rewrite Hr' in Ht.
  destruct (d !! (key_model, pk)) as [r|]; [|done]. exists r. unfold str_col. by rewrite !Ht by done.
Qed.

(** A revoked key's secret opens nothing. *)
Lemma revoked_rejected a pk r uid pk' :
  keys_wf (w_db (aw_world a)) -> w_db (aw_world a) !! (key_model, pk) = Some r ->
  is_null "revoked_at" r = false ->
  (ApiKey.authenticate (Some (str_col "secret" r)) a).1 <> Ok (Some (uid, pk')).
Proof.
  intros Hwf Hr Hn. unfold ApiKey.authenticate.
  destruct (negb _); [done|]. destruct (_ <? 8); [done|].
  destruct (find_key _ _) as [[pk1 r1]|] eqn:Ek; [|done].
  apply find_key_Some in Ek as [Hk1 (_ & _ & _ & Hn1)%live_key_spec].
  unfold compare_digest. destruct (_ && _); [|done].
  destruct (String.eqb _ _) eqn:Es; [|done]. apply String.eqb_eq in Es.
  assert (pk1 = pk) as ->; [|congruence]. eapply (kw_unique _ Hwf); eauto.
  destruct (kw_secret _ Hwf _ _ Hk1) as [-> _], (kw_secret _ Hwf _ _ Hr) as [-> _]. congruence.
Qed.

(** *** The facts about the request's collaborators the endpoints rely on:
    simple-jwt writes no key or user row and hands out a user freshly
    loaded. *)
Record jwt_ok : Prop := {
  jwt_touched : forall req a res a', jwt_authenticate req a = (res, a') ->
    touched (w_db (aw_world a)) (w_db (aw_world a'));
  jwt_fresh : forall req a u a', jwt_authenticate req a = (Ok (Some u), a') -> a_cached u = None;
}.

Lemma authentication_chain req a :
  authentication req a =
  try_providers [JWTProvider jwt_authenticate jwt_header; APIKeyProvider api_key_authenticate] req a.
Proof.
  unfold authentication, AuthChain.authenticate. cbn [providers_for].
  change (enabled_providers (Some AUTH_ENABLED_PROVIDERS) ready_providers) with
    ([JWTProvider jwt_authenticate jwt_header; APIKeyProvider api_key_authenticate], ready_providers,
     @nil (string * list string)).
  cbv beta iota. by destruct (try_providers _ _ _).
Qed.

Lemma authentication_touched req a res a' :
  jwt_ok -> authentication req a = (res, a') -> touched (w_db (aw_world a)) (w_db (aw_world a')).
Proof.
  intros Hj. rewrite authentication_chain. cbn [try_providers p_authenticate JWTProvider APIKeyProvider].
  unfold mbind, act_bind. destruct (jwt_authenticate req a) as [r1 a1] eqn:E1.
  apply jwt_touched in E1; [|done]. destruct r1 as [[u|]|e]; try (intros [= _ <-]; done).
  destruct (api_key_authenticate req a1) as [r2 a2] eqn:E2. apply api_key_touched in E2.
  destruct r2 as [[u|]|e]; intros [= _ <-]; by etrans.
Qed.

Lemma authentication_fresh req a u a' :
  jwt_ok -> authentication req a = (Ok (Some u), a') -> a_cached u = None.
Proof.
  intros Hj. rewrite authentication_chain. cbn [try_providers p_authenticate JWTProvider APIKeyProvider].
  unfold mbind, act_bind. destruct (jwt_authenticate req a) as [r1 a1] eqn:E1.
  destruct r1 as [[u1|]|e]; [intros [= -> <-]; by eapply jwt_fresh| |done].
  unfold api_key_authenticate.
  destruct (ApiKey.authenticate _ a1) as [[[[uid pk]|]|e] a2]; [|done|done]. by intros [= <- _].
Qed.

Lemma authentication_user_ok req a u a' :
  jwt_ok -> authentication req a = (Ok (Some u), a') -> account_ok roles u.
Proof. intros Hj Hu b Hb. rewrite (authentication_fresh _ _ _ _ Hj Hu) in Hb. done. Qed.

(** An exception never looks like a success. *)
Definition succeeded (out : option response) : Prop :=
  exists r, out = Some r /\ od_get (KStr "success") (resp_body r) = Some (VBool true).

Lemma on_exception_fails e : ~ succeeded (on_exception e).
Proof.
  intros (r & Hr & Hs). unfold on_exception, api_exception_handler in Hr. destruct e as [x|cls msg]; simpl in Hr.
  - destruct (custom_status x booted). injection Hr as <-. done.
  - destruct (exception_handler cls) as [[[st data] h]|].
    + destruct (drf_errors _ data) as [[m es]|]; [|done]. injection Hr as <-. done.
    + by injection Hr as <-.
Qed.

(** A view under a resource permission: its handler runs only for an
    authenticated user whose roles allow the action, and otherwise nothing
    but the authentication has happened. *)
Lemma guarded throttle dispatch `{!Dispatch throttle dispatch} res act h req a out a' :
  jwt_ok -> str_true res = true -> str_true act = true ->
  dispatch (resource_view res act h) req a = (out, a') ->
  exists au a1, authentication req a = (au, a1) /\ touched (w_db (aw_world a)) (w_db (aw_world a1)) /\
  ((exists u, au = Ok (Some u) /\ a_authenticated u = true /\ allowed roles (a_id u) res act = true /\
      ((exists r, h (Some u) a1 = (Ok r, a') /\ out = Some r) \/
       (exists e, h (Some u) a1 = (Raise e, a') /\ out = on_exception e))) \/
   (a' = a1 /\ exists e, out = on_exception e)).
Proof.
  intros Hj Hres Hact. rewrite dispatch_spec. destruct (authentication req a) as [au a1] eqn:Ea.
  pose proof (authentication_touched _ _ _ _ Hj Ea) as Ht.
  destruct au as [o|e]; [|intros [= <- <-]; eauto 10].
  destruct (av_permission (resource_view res act h) o) eqn:Ep; [|intros [= <- <-]; eauto 10].
  destruct (throttle req); [intros [= <- <-]; eauto 10|]. simpl in Ep. unfold has_permission in Ep. simpl in Ep.
  rewrite Hres, Hact in Ep. simpl in Ep. destruct o as [u|]; [|done].
  destruct (user_has_permission_spec roles u res act None) as (u' & c & Hp & _);
    [by eapply authentication_user_ok|done|].
  rewrite Hp in Ep. simpl in Ep. apply andb_true_iff in Ep as [Hau Hal]. simpl.
  destruct (h (Some u) a1) as [[r|e] a2] eqn:Eh; intros [= <- <-]; exists (Ok (Some u)), a1; split_and!; try done;
    left; exists u; eauto 10.
Qed.

(** What [APIKeyService.revoke] leaves when it answers that the key is
    revoked, now or before. *)
Lemma revoke_leaves pk user w rn ar w' :
  "revoked_at" ∈ field_names key_model -> keys_wf (w_db w) ->
  revoke pk user w = (Ok (rn, ar), w') -> rn || ar = true ->
  exists r r', w_db w !! (key_model, pk) = Some r /\ is_active_row r = true /\
    w_db w' !! (key_model, pk) = Some r' /\ is_null "revoked_at" r' = false /\
    str_col "secret" r' = str_col "secret" r /\
    (forall k, k <> (key_model, pk) -> w_db w' !! k = w_db w !! k) /\ keys_wf (w_db w').
Proof.
  intros Hf Hwf Hr Hb. apply revoke_outcome in Hr; [|done].
  destruct (first_by_pk (w_db w) key_model pk true) as [i|] eqn:Ef; [|naive_solver].
  apply first_by_pk_Some in Ef as (r & Hr0 & -> & Hact). exists r.
  destruct (is_revoked _) eqn:Erev.
  - destruct Hr as (_ & _ & ->). exists r. split_and!; try done; [by apply Hact|].
    unfold is_revoked, i_get in Erev. simpl in Erev. rewrite lookup_insert_ne in Erev by done.
    unfold is_null. by destruct (r !! "revoked_at") as [[]|].
  - destruct Hr as (_ & _ & r0 & r' & Hr1 & Hdb & Hrev & Hsame). assert (r0 = r) as -> by congruence.
    assert (Hcol : forall f, f ∈ ["prefix"; "secret"] -> str_col f r' = str_col f r).
    { intros f Hfin. unfold str_col. rewrite Hsame; [done|..]; revert Hfin; rewrite !elem_of_cons, elem_of_nil;
        intros [->|[->|[]]]; apply (bool_decide_unpack _); by vm_compute. }
    exists r'. rewrite Hdb, lookup_insert_eq. split_and!; try done.
    + by apply Hact.
    + unfold is_null. by rewrite Hrev.
    + apply Hcol. by right; left.
    + intros k Hk. by rewrite lookup_insert_ne.
    + eapply keys_wf_cols, Hwf. intros pk1 q. destruct (decide (pk1 = pk)) as [->|Hne].
      * rewrite lookup_insert_eq. intros [= <-]. exists r. rewrite !Hcol by (by repeat (left || right)). done.
      * rewrite lookup_insert_ne by congruence. eauto.
Qed.

Lemma api_key_revoke_run pk user w :
  api_key_revoke rid pk user w =
  match revoke pk user w with
  | (Ok (rn, ar), w') =>
      (Ok (if negb rn && negb ar then error_response rid "API key not found." None 404
           else if ar then success_response rid VNone "API key already revoked." 200
           else success_response rid VNone "API key revoked." 200), w')
  | (Raise e, w') => (Raise e, w')
  end.
Proof.
  unfold api_key_revoke, mbind, act_bind. by destruct (revoke pk user w) as [[[rn ar]|e] w'].
Qed.

(** The revoke endpoint.  A success answer carries the request id and means that
    the authentication chain identified an authenticated user whose roles allow
    updating API keys, that the key was a live row, and that it now has a
    revocation time and still its secret; no other row differs from what
    authentication left.  Any other answer leaves every table as
    authentication left it, and authentication itself changes at most
    [last_used_at] columns. *)
Lemma revoke_endpoint throttle dispatch `{!Dispatch throttle dispatch} pk req a out a' :
  jwt_ok -> keys_wf (w_db (aw_world a)) -> "revoked_at" ∈ field_names key_model ->
  dispatch (APIKeyRevokeView pk) req a = (out, a') ->
  exists au a1, authentication req a = (au, a1) /\ touched (w_db (aw_world a)) (w_db (aw_world a1)) /\
  ((succeeded out /\
    (exists r, out = Some r /\ od_get (KStr "request_id") (resp_body r) = Some (vopt_str rid)) /\
    (exists u, au = Ok (Some u) /\ a_authenticated u = true /\
       allowed roles (a_id u) "api_key" "update" = true) /\
    (exists r r', w_db (aw_world a) !! (key_model, pk) = Some r /\ is_active_row r = true /\
       w_db (aw_world a') !! (key_model, pk) = Some r' /\ is_null "revoked_at" r' = false /\
       str_col "secret" r' = str_col "secret" r) /\
    keys_wf (w_db (aw_world a')) /\
    (forall k, k <> (key_model, pk) -> w_db (aw_world a') !! k = w_db (aw_world a1) !! k)) \/
   (~ succeeded out /\ w_db (aw_world a') = w_db (aw_world a1))).
Proof.
  intros Hj Hwf Hf Hd. apply (guarded throttle dispatch) in Hd as (au & a1 & Ha & Ht & Hd); [|done..].
  exists au, a1. split; [done|]. split; [done|]. pose proof (keys_wf_touched _ _ Ht Hwf) as Hwf1.
  destruct Hd as [(u & -> & Hau & Hal & Hh)|[-> (e & ->)]]; [|by right; split; [apply on_exception_fails|]].
  unfold on_world in Hh. rewrite api_key_revoke_run in Hh.
  destruct (revoke pk (user_ref (Some u)) (aw_world a1)) as [[[rn ar]|e] w'] eqn:Er.
  - destruct Hh as [(r & [= <- <-] & ->)|(e & ? & _)]; [|done]. cbn [aw_world].
    destruct (rn || ar) eqn:Eb.
    + left. destruct (revoke_leaves _ _ _ _ _ _ Hf Hwf1 Er Eb) as (r & r' & Hr & Hact & Hr' & Hn & Hs & Hk & Hwf').
      pose proof (Ht (key_model, pk)) as Hrow. rewrite Hr in Hrow.
      destruct (w_db (aw_world a) !! (key_model, pk)) as [r0|]; [|done].
      split_and!; [| |by exists u| |done|done].
      * eexists. split; [done|]. by destruct rn, ar.
      * eexists. split; [done|]. by destruct rn, ar.
      * exists r0, r'. split_and!; [done|by rewrite <- Hact; unfold is_active_row; rewrite Hrow|done|done|].
        rewrite Hs. unfold str_col. by rewrite Hrow.
    + right. split; [|].
      * intros (r & [= <-] & Hs). by destruct rn, ar.
      * apply revoke_outcome in Er; [|done]. destruct (first_by_pk _ _ _ _); [destruct (is_revoked _)|]; naive_solver.
  - destruct Hh as [(r & ? & _)|(e' & [= -> <-] & ->)]; [done|]. right.
    split; [apply on_exception_fails|]. cbn [aw_world]. unfold revoke in Er. apply atomic_rollback in Er. by subst.
Qed.
End endpoints.

(** ** A sample: a caller with a key, and roles that let user 7 update keys *)

(** A dispatcher that behaves as documented, without throttles. *)
Definition sample_dispatch {R} (header : R -> option string) (rid : option string) (v : api_view) (req : R)
    (a : auth_world) : option response * auth_world :=
  let fail e := on_exception rid sample_kit e_message sample_drf e in
  match @authentication key_django R header (fun _ => mret None) (fun _ => None) req a with
  | (Raise e, a1) => (fail e, a1)
  | (Ok u, a1) =>
      if av_permission v u then
        match av_handler v u a1 with
        | (Ok r, a2) => (Some r, a2)
        | (Raise e, a2) => (fail e, a2)
        end
      else (fail (denied u), a1)
  end.

Definition key_roles (uid : Z) : list role :=
  if (uid =? 7)%Z then [Role "operator" false false [("api_key", "update")]] else [].

Lemma sample_dispatches {R} (header : R -> option string) rid :
  @Dispatch key_django R header (fun _ => mret None) (fun _ => None) rid sample_kit e_message sample_drf
    (fun _ => None) (sample_dispatch header rid).
Proof. split. reflexivity. Qed.
