(* ===== verification/LogSanitize.v ===== *)
(** * Log sanitisation

    [core/utils/log_sanitization.py]: values on their way into log records
    and audit rows.  The recursion of [_sanitize_value] stops below depth 5;
    [rem] is the number of levels left, six at the top. *)
From stdpp Require Import base list gmap strings pretty numbers.
From Stdlib Require Import Ascii Lia ZArith.
From S2P Require Import Prelude PyStr PyVal.

(** [_get_sanitization_config()]; [sensitive] is the compiled pattern's
    [search]. *)
Record san_config := SanConfig {
  SANITIZE_ENABLED : bool;
  MAX_STRING_LENGTH : Z;
  MAX_DICT_KEYS : Z;
  MAX_LIST_ITEMS : Z;
  SENSITIVE_PATTERN : string -> bool;
  MASK_VALUE : string;
  EXCLUDED_FIELDS : list string;
}.

(** [re.compile(r"password|...", re.IGNORECASE).search(s)] *)
Definition search_any (words : list string) (s : string) : bool :=
  existsb (fun w => contains w (lower s)) words.

Definition sensitive_words : list string :=
  ["password"; "secret"; "token"; "key"; "auth"; "credential"; "api_key"; "bearer"; "jwt"].

Definition _DEFAULTS : san_config :=
  SanConfig true 200 20 10 (search_any sensitive_words) "***REDACTED***" [].

(** ** Strings *)

(** [half = (max_length - k) // 2; value[:half] ... value[-half:]] *)
Definition middle_cut (sanitized : string) (half : Z) (len : nat) : string :=
  slice_to sanitized half +:+ "..." +:+ slice_from sanitized (- half) +:+
  " (" +:+ str_int (Z.of_nat len) +:+ " chars)".

(** The four replacements and the generator over the result, in order. *)
Definition escape_ctl (value : string) : string :=
  let s1 := replace_char "\" "\\" value in
  let s2 := replace_char (chr 10) "\n" s1 in
  let s3 := replace_char (chr 13) "\r" s2 in
  let s4 := replace_char (chr 9) "\t" s3 in
  sbind (fun c => if 32 <=? ord c then String c "" else "\x" +:+ hex2 (ord c)) s4.

Definition sanitize_string_for_log (value : string) (max_length : Z) : string :=
  let sanitized := escape_ctl value in
  if (max_length <? Z.of_nat (slen sanitized))%Z
  then middle_cut sanitized ((max_length - 20) / 2) (slen value)
  else sanitized.

(** ** Values *)

(** [items[:n]] *)
Definition take_py {A} (n : Z) (l : list A) : list A := take (clamp_index (length l) n) l.

Section sanitize.
Context (cfg : san_config) (max_str max_keys max_items : Z).

(** The loop of [_sanitize_dict_for_log] over the keys it visits. *)
Definition dict_entry (rec : pyval -> pyval) (acc : list (pykey * pyval)) (kv : pykey * pyval)
    : list (pykey * pyval) :=
  let str_key := str_key kv.1 in
  if str_in (lower str_key) (EXCLUDED_FIELDS cfg) then acc
  else if SENSITIVE_PATTERN cfg str_key then od_set (KStr str_key) (VStr (MASK_VALUE cfg)) acc
  else od_set (KStr str_key) (rec kv.2) acc.

Definition sanitize_dict_for_log (rec : pyval -> pyval) (value : list (pykey * pyval)) : pyval :=
  let n := Z.of_nat (length value) in
  let result := fold_left (dict_entry rec) (take (Z.to_nat max_keys) value) [] in
  VDict (if (max_keys <? n)%Z
         then od_set (KStr "__truncated__") (VStr (str_int (n - max_keys) +:+ " more keys")) result
         else result).

Definition sanitize_iterable_for_log (rec : pyval -> pyval) (items : list pyval) : pyval :=
  let n := Z.of_nat (length items) in
  VList ((rec <$> take_py max_items items) ++
         if (max_items <? n)%Z
         then [VStr ("...and " +:+ str_int (n - max_items) +:+ " more items")] else []).

(** [type(value).__name__] of a value that is neither data nor a string. *)
Definition object_class (v : pyval) : string :=
  match v with
  | VObj cls _ _ => cls
  | VRef m _ => m
  | _ => ""
  end.

Fixpoint sanitize_value (rem : nat) (value : pyval) : pyval :=
  match rem with
  | O => VStr "<max depth exceeded>"
  | S rem' =>
      match value with
      | VNone | VBool _ | VInt _ | VFloat _ => value
      | VStr s => VStr (sanitize_string_for_log s max_str)
      | VBytes s => VStr ("<bytes: " +:+ str_int (Z.of_nat (slen s)) +:+ " bytes>")
      | VDict d => sanitize_dict_for_log (sanitize_value rem') d
      | VList l | VTuple l | VSet l => sanitize_iterable_for_log (sanitize_value rem') l
      | VRef _ _ | VObj _ _ _ =>
          match py_str value with
          | Some s => VStr (sanitize_string_for_log s max_str)
          | None => VStr ("<" +:+ object_class value +:+ ": unserializable>")
          end
      end
  end.
End sanitize.

(** [max_x or config["MAX_X"]] *)
Definition z_or (o : option Z) (dflt : Z) : Z :=
  match o with
  | Some z => if bool_decide (z = 0%Z) then dflt else z
  | None => dflt
  end.

Definition sanitize_for_log (cfg : san_config) (value : pyval)
    (max_string_length max_dict_keys max_list_items : option Z) : pyval :=
  if negb (SANITIZE_ENABLED cfg) then value
  else sanitize_value cfg (z_or max_string_length (MAX_STRING_LENGTH cfg))
         (z_or max_dict_keys (MAX_DICT_KEYS cfg)) (z_or max_list_items (MAX_LIST_ITEMS cfg)) 6 value.

Definition safe_log_dict (cfg : san_config) (kwargs : list (string * pyval)) : pyval :=
  sanitize_for_log cfg (VDict ((fun kv : string * pyval => (KStr kv.1, kv.2)) <$> kwargs)) None None None.

(** [truncate_for_log]; [None] when [str(value)] raises. *)
Definition truncate_for_log (value : pyval) (max_length : Z) : option string :=
  s ← py_str value;
  Some (if (Z.of_nat (slen s) <=? max_length)%Z then s
        else middle_cut s ((max_length - 10) / 2) (slen s)).

(** ** Lemmas on strings *)

(** No control character. *)
Fixpoint no_ctl (s : string) : bool :=
  match s with
  | EmptyString => true
  | String c s' => (32 <=? ord c) && no_ctl s'
  end.

Lemma no_ctl_app a b : no_ctl (a +:+ b) = no_ctl a && no_ctl b.
Proof. induction a as [|c a IH]; simpl; [done|]. by rewrite IH, andb_assoc. Qed.

Lemma no_ctl_sbind f s : (forall c, no_ctl (f c) = true) -> no_ctl (sbind f s) = true.
Proof. intros Hf. induction s as [|c s IH]; simpl; [done|]. by rewrite no_ctl_app, Hf, IH. Qed.

Lemma no_ctl_stake n s : no_ctl s = true -> no_ctl (stake n s) = true.
Proof.
  revert s. induction n as [|n IH]; intros [|c s]; simpl; try done.
  rewrite !andb_true_iff. intros [? ?]. auto.
Qed.

Lemma no_ctl_sdrop n s : no_ctl s = true -> no_ctl (sdrop n s) = true.
Proof.
  revert s. induction n as [|n IH]; intros [|c s]; simpl; try done.
  rewrite !andb_true_iff. intros [? ?]. auto.
Qed.

Lemma hex2_no_ctl n : n < 32 -> no_ctl (hex2 n) = true.
Proof.
  intros Hn. do 32 (destruct n as [|n]; [by vm_compute|]). lia.
Qed.

Lemma escape_ctl_no_ctl s : no_ctl (escape_ctl s) = true.
Proof.
  unfold escape_ctl. apply no_ctl_sbind. intros c. destruct (32 <=? ord c) eqn:E.
  - cbn [no_ctl]. by rewrite E.
  - apply Nat.leb_gt in E. rewrite no_ctl_app, hex2_no_ctl by done. done.
Qed.

(** Decimal numerals. *)
Definition digit_chars (s : string) : bool :=
  forallb is_digit (String.list_ascii_of_string s).

Lemma pretty_N_char_ge n : (32 <=? ord (pretty_N_char n)) = true.
Proof. destruct n as [|p]; [done|]. do 4 (destruct p as [p|p|]; try done). Qed.

Lemma pretty_go_spec k n s :
  (n < 10 ^ N.of_nat k)%N ->
  slen (pretty_N_go n s) <= k + slen s /\ no_ctl (pretty_N_go n s) = no_ctl s.
Proof.
  revert n s. induction k as [|k IH]; intros n s Hn.
  - assert (n = 0%N) as -> by (simpl in Hn; lia). rewrite pretty_N_go_0. split; [lia|done].
  - destruct (decide (n = 0%N)) as [->|Hn0]; [rewrite pretty_N_go_0; split; [lia|done]|].
    rewrite pretty_N_go_step by lia.
    assert (n `div` 10 < 10 ^ N.of_nat k)%N as Hd.
    { rewrite Nat2N.inj_succ, N.pow_succ_r' in Hn. apply N.Div0.div_lt_upper_bound. lia. }
    destruct (IH _ (String (pretty_N_char (n `mod` 10)) s) Hd) as [Hl Hc].
    split; [unfold slen in *; simpl in *; lia|]. rewrite Hc. cbn [no_ctl].
    by rewrite pretty_N_char_ge.
Qed.

Lemma str_int_spec k (n : nat) :
  1 <= k -> (Z.of_nat n < 10 ^ Z.of_nat k)%Z ->
  slen (str_int (Z.of_nat n)) <= k /\ no_ctl (str_int (Z.of_nat n)) = true.
Proof.
  intros Hk Hn. unfold str_int. destruct n as [|n]; [split; [unfold slen; simpl; lia|done]|].
  assert (E : pretty (Z.of_nat (S n)) = pretty (N.of_nat (S n))).
  { simpl. unfold pretty, pretty_Z, pretty_N. simpl. done. }
  rewrite E. unfold pretty, pretty_N. rewrite decide_False by lia.
  destruct (pretty_go_spec k (N.of_nat (S n)) "") as [Hl Hc].
  { apply N2Z.inj_lt. rewrite N2Z.inj_pow, !nat_N_Z. done. }
  unfold slen in *. simpl in *. split; [lia|done].
Qed.

(** ** Log strings *)

Lemma clamp_index_bounds len i : clamp_index len i <= len.
Proof. unfold clamp_index. cases; lia. Qed.

(** [replace] on single characters and the generator never shorten. *)
Lemma slen_sbind_ge f s : (forall c, 1 <= slen (f c)) -> slen s <= slen (sbind f s).
Proof.
  intros Hf. induction s as [|c s IH]; simpl; [done|]. rewrite slen_app.
  specialize (Hf c). unfold slen in *. simpl. lia.
Qed.

Lemma middle_cut_no_ctl s half n :
  no_ctl s = true -> (Z.of_nat n < 10 ^ 8)%Z -> no_ctl (middle_cut s half n) = true.
Proof.
  intros Hs Hn. unfold middle_cut, slice_to, slice_from.
  rewrite !no_ctl_app, no_ctl_stake, no_ctl_sdrop by done.
  destruct (str_int_spec 8 n) as [_ ->]; [lia|done|done].
Qed.

Lemma middle_cut_length s half n :
  (1 <= half)%Z -> (2 * half <= Z.of_nat (slen s))%Z -> (Z.of_nat n < 10 ^ 8)%Z ->
  (Z.of_nat (slen (middle_cut s half n)) <= 2 * half + 20)%Z.
Proof.
  intros Hh Hs Hn. unfold middle_cut, slice_to, slice_from.
  rewrite !slen_app, slen_stake, slen_sdrop.
  destruct (str_int_spec 8 n) as [Hd _]; [lia|done|].
  assert (clamp_index (slen s) half <= Z.to_nat half) as H1.
  { unfold clamp_index. cases; lia. }
  assert (slen s - clamp_index (slen s) (- half) <= Z.to_nat half) as H2.
  { unfold clamp_index. cases; lia. }
  change (slen "...") with 3. change (slen " (") with 2. change (slen " chars)") with 7. lia.
Qed.

(** A string reaches the log escaped and short: the sanitised string
    contains no control character at all, whatever the input; it is never
    longer than a limit of at least 22 (for inputs under 10^8 characters); and
    a string that needs no cut is the escaped string itself.  Limits 20 and 21
    are different: there the slice [-0:] is the whole string, so that a string
    over the limit comes out longer than it went in. *)
Theorem log_string_safe value max :
  (Z.of_nat (slen value) < 10 ^ 8)%Z ->
  no_ctl (sanitize_string_for_log value max) = true /\
  ((22 <= max)%Z -> (Z.of_nat (slen (sanitize_string_for_log value max)) <= max)%Z) /\
  ((Z.of_nat (slen (escape_ctl value)) <= max)%Z ->
     sanitize_string_for_log value max = escape_ctl value) /\
  ((20 <= max <= 21)%Z -> (max < Z.of_nat (slen (escape_ctl value)))%Z ->
     slen (escape_ctl value) < slen (sanitize_string_for_log value max)).
Proof.
  intros Hn. unfold sanitize_string_for_log. cbv zeta. set (e := escape_ctl value).
  destruct (max <? Z.of_nat (slen e))%Z eqn:E; [apply Z.ltb_lt in E|apply Z.ltb_ge in E].
  - split_and!; [by apply middle_cut_no_ctl, Hn; apply escape_ctl_no_ctl| |lia|].
    + intros Hm. pose proof (Z.div_mod (max - 20) 2) as Hd.
      pose proof (Z.mod_pos_bound (max - 20) 2) as Hb.
      assert ((1 <= (max - 20) / 2)%Z) by lia.
      pose proof (middle_cut_length e ((max - 20) / 2) (slen value)). lia.
    + intros Hm _. assert (((max - 20) / 2 = 0)%Z) as ->.
      { assert (max = 20 \/ max = 21)%Z as [->| ->] by lia; done. }
      unfold middle_cut, slice_to, slice_from. rewrite !slen_app.
      assert (clamp_index (slen e) (- 0) = 0) as ->.
      { unfold clamp_index. cases; lia. }
      simpl sdrop. change (slen "...") with 3. lia.
  - split_and!; [apply escape_ctl_no_ctl|done|done|lia].
Qed.

Lemma log_string_safe_witness :
  slen (sanitize_string_for_log (String (chr 10) "0123456789012345678901234") 20) = 41 /\
  no_ctl (sanitize_string_for_log (String (chr 10) "0123456789012345678901234") 20) = true /\
  27 < slen (sanitize_string_for_log (String (chr 10) "0123456789012345678901234") 20).
Proof.
  split; [by vm_compute|].
  destruct (log_string_safe (String (chr 10) "0123456789012345678901234") 20) as (H1 & _ & _ & H4);
    [by vm_compute|]. split; [exact H1|]. apply H4; by vm_compute.
Defined.

(** ** Log values *)

(** What may reach a log record, with at most [n] levels of containers. *)
Inductive log_safe (cfg : san_config) (max_keys max_items : Z) : nat -> pyval -> Prop :=
| safe_none n : log_safe cfg max_keys max_items n VNone
| safe_bool n b : log_safe cfg max_keys max_items n (VBool b)
| safe_int n z : log_safe cfg max_keys max_items n (VInt z)
| safe_float n r : log_safe cfg max_keys max_items n (VFloat r)
| safe_str n s : no_ctl s = true -> log_safe cfg max_keys max_items n (VStr s)
| safe_list n l :
    (forall v, v ∈ l -> log_safe cfg max_keys max_items n v) ->
    (Z.of_nat (length l) <= max_items + 1)%Z ->
    log_safe cfg max_keys max_items (S n) (VList l)
| safe_dict n (d : list (pykey * pyval)) :
    (forall k v, (k, v) ∈ d -> exists s, k = KStr s /\
       (s = "__truncated__" \/
        (str_in (lower s) (EXCLUDED_FIELDS cfg) = false /\
         (SENSITIVE_PATTERN cfg s = true -> v = VStr (MASK_VALUE cfg)))) /\
       (v = VStr (MASK_VALUE cfg) \/ log_safe cfg max_keys max_items n v)) ->
    (Z.of_nat (length d) <= max_keys + 1)%Z ->
    log_safe cfg max_keys max_items (S n) (VDict d).

(** Collections below 10^8 entries, strings below 10^8 characters: what the
    counters in the markers are sized for. *)
Inductive small : pyval -> Prop :=
| small_atom v : match v with VNone | VBool _ | VInt _ | VFloat _ => True | _ => False end -> small v
| small_str s : (Z.of_nat (slen s) < 10 ^ 8)%Z -> small (VStr s)
| small_bytes s : (Z.of_nat (slen s) < 10 ^ 8)%Z -> small (VBytes s)
| small_seq v l : v = VList l \/ v = VTuple l \/ v = VSet l ->
    (Z.of_nat (length l) < 10 ^ 8)%Z -> (forall x, x ∈ l -> small x) -> small v
| small_dict (d : list (pykey * pyval)) : (Z.of_nat (length d) < 10 ^ 8)%Z ->
    (forall k x, (k, x) ∈ d -> small x) -> small (VDict d)
| small_obj v : match v with VRef _ _ | VObj _ _ _ => True | _ => False end ->
    no_ctl (object_class v) = true ->
    (forall s, py_str v = Some s -> (Z.of_nat (slen s) < 10 ^ 8)%Z) -> small v.

Lemma od_set_in {K A} `{!EqDecision K} (k k' : K) (a a' : A) d :
  (k', a') ∈ od_set k a d -> (k' = k /\ a' = a) \/ (k', a') ∈ d.
Proof.
  induction d as [|[k1 b] d IH]; simpl.
  - rewrite list_elem_of_singleton. naive_solver.
  - case_decide as Hd; rewrite !elem_of_cons; [|naive_solver].
    intros [[= -> ->]|?]; [left; by rewrite Hd|auto].
Qed.

Lemma od_set_length {K A} `{!EqDecision K} (k : K) (a : A) d :
  length (od_set k a d) <= S (length d).
Proof. induction d as [|[k1 b] d IH]; simpl; [done|]. case_decide; simpl; lia. Qed.

Lemma dict_entry_fold cfg rec (d acc : list (pykey * pyval)) :
  length (fold_left (dict_entry cfg rec) d acc) <= length acc + length d /\
  (forall k v, (k, v) ∈ fold_left (dict_entry cfg rec) d acc ->
     (k, v) ∈ acc \/
     exists k0 v0, (k0, v0) ∈ d /\ k = KStr (str_key k0) /\
       str_in (lower (str_key k0)) (EXCLUDED_FIELDS cfg) = false /\
       v = if SENSITIVE_PATTERN cfg (str_key k0) then VStr (MASK_VALUE cfg) else rec v0).
Proof.
  revert acc. induction d as [|[k0 v0] d IH]; intros acc; [split; simpl; [lia|auto]|].
  cbn [fold_left length]. destruct (IH (dict_entry cfg rec acc (k0, v0))) as [Hl Hi].
  assert (Hone : length (dict_entry cfg rec acc (k0, v0)) <= S (length acc) /\
    (forall k v, (k, v) ∈ dict_entry cfg rec acc (k0, v0) -> (k, v) ∈ acc \/
       (k = KStr (str_key k0) /\ str_in (lower (str_key k0)) (EXCLUDED_FIELDS cfg) = false /\
        v = if SENSITIVE_PATTERN cfg (str_key k0) then VStr (MASK_VALUE cfg) else rec v0))).
  { unfold dict_entry. cbn [fst snd]. destruct (str_in _ _) eqn:Ex; [split; [lia|auto]|].
    destruct (SENSITIVE_PATTERN cfg (str_key k0));
      (split; [apply od_set_length|]; intros k v [[-> ->]|?]%od_set_in; auto). }
  destruct Hone as [Hl1 Hi1]. split; [lia|].
  intros k v [[Ha|(-> & Hx & Hv)]%Hi1|(k1 & v1 & Hin & H)]%Hi; [by left|right|right].
  - exists k0, v0. rewrite elem_of_cons. auto.
  - exists k1, v1. rewrite elem_of_cons. auto.
Qed.

Lemma marker_no_ctl p n q :
  no_ctl p = true -> no_ctl q = true -> (0 <= n < 10 ^ 8)%Z ->
  no_ctl (p +:+ str_int n +:+ q) = true.
Proof.
  intros Hp Hq Hn. rewrite !no_ctl_app, Hp, Hq, <- (Z2Nat.id n) by lia.
  destruct (str_int_spec 8 (Z.to_nat n)) as [_ ->]; [lia|lia|done].
Qed.

Lemma take_py_length {A} n (l : list A) :
  (0 <= n)%Z -> (Z.of_nat (length (take_py n l)) <= n)%Z.
Proof. intros Hn. unfold take_py. rewrite length_take. unfold clamp_index. case_match; lia. Qed.

Lemma value_log_safe cfg max_str max_keys max_items rem v :
  (0 <= max_keys)%Z -> (0 <= max_items)%Z -> small v ->
  log_safe cfg max_keys max_items rem (sanitize_value cfg max_str max_keys max_items rem v).
Proof.
  intros Hk Hi. revert v. induction rem as [|rem IH]; intros v Hv; [by constructor|].
  destruct Hv as [v Hv|s Hs|s Hs|v l Hl Hn Hl'|d Hn Hd|v Hv Hc Hs].
  - destruct v; try done; constructor.
  - constructor. by apply log_string_safe.
  - constructor. by apply marker_no_ctl; [..|lia].
  - assert (sanitize_value cfg max_str max_keys max_items (S rem) v =
      sanitize_iterable_for_log max_items (sanitize_value cfg max_str max_keys max_items rem) l) as ->
      by (destruct Hl as [->|[->| ->]]; reflexivity).
    unfold sanitize_iterable_for_log. constructor.
    + intros x. rewrite elem_of_app, list_elem_of_fmap. intros [(y & -> & Hy)|Hx].
      * apply IH, Hl'. eapply elem_of_sublist; [exact Hy|]. apply sublist_take.
      * destruct (max_items <? _)%Z eqn:E; [|by apply elem_of_nil in Hx].
        apply Z.ltb_lt in E. apply list_elem_of_singleton in Hx as ->. constructor.
        apply marker_no_ctl; [done|done|lia].
    + rewrite length_app, length_fmap. pose proof (take_py_length max_items l Hi).
      destruct (max_items <? _)%Z; simpl; lia.
  - cbn [sanitize_value]. unfold sanitize_dict_for_log. cbv zeta.
    set (d' := take (Z.to_nat max_keys) d).
    destruct (dict_entry_fold cfg (sanitize_value cfg max_str max_keys max_items rem) d' []) as [Hl Hin].
    set (res := fold_left _ _ _) in *. assert (Hld : length d' <= Z.to_nat max_keys).
    { unfold d'. rewrite length_take. lia. }
    assert (Hres : forall k x, (k, x) ∈ res -> exists s, k = KStr s /\
      (s = "__truncated__" \/ (str_in (lower s) (EXCLUDED_FIELDS cfg) = false /\
         (SENSITIVE_PATTERN cfg s = true -> x = VStr (MASK_VALUE cfg)))) /\
      (x = VStr (MASK_VALUE cfg) \/ log_safe cfg max_keys max_items rem x)).
    { intros k x [Hx|(k0 & v0 & H0 & -> & Hex & Hx)]%Hin; [by apply elem_of_nil in Hx|].
      eexists. split; [done|]. destruct (SENSITIVE_PATTERN cfg (str_key k0)); subst x; [by auto|].
      split; [by right|]. right. apply IH, (Hd k0). eapply elem_of_sublist; [exact H0|].
      apply sublist_take. }
    simpl in Hl. destruct (max_keys <? _)%Z eqn:E; constructor; [| |exact Hres|lia].
    + apply Z.ltb_lt in E. intros k x [[-> ->]|Hx]%od_set_in; [|by apply Hres].
      eexists. split; [done|]. split; [by left|]. right. constructor.
      apply (marker_no_ctl "" _ " more keys"); [done|done|lia].
    + pose proof (od_set_length (KStr "__truncated__")
        (VStr (str_int (Z.of_nat (length d) - max_keys) +:+ " more keys")) res). lia.
  - assert (sanitize_value cfg max_str max_keys max_items (S rem) v =
      match py_str v with
      | Some s => VStr (sanitize_string_for_log s max_str)
      | None => VStr ("<" +:+ object_class v +:+ ": unserializable>")
      end) as -> by (by destruct v).
    destruct (py_str v) as [s|]; constructor; [by apply log_string_safe, Hs|].
    by rewrite !no_ctl_app, Hc.
Qed.

(** Whatever is logged through [sanitize_for_log] is safe to print and
    to keep: six levels of containers at most, no string value with a control
    character, lists and dictionaries within their limits plus one marker,
    no excluded key, and under a sensitive key, at any depth, the mask and
    nothing else. *)
Theorem sanitized_log_safe cfg value mk mi :
  SANITIZE_ENABLED cfg = true -> small value ->
  (0 <= z_or mk (MAX_DICT_KEYS cfg))%Z -> (0 <= z_or mi (MAX_LIST_ITEMS cfg))%Z ->
  forall ms, log_safe cfg (z_or mk (MAX_DICT_KEYS cfg)) (z_or mi (MAX_LIST_ITEMS cfg)) 6
    (sanitize_for_log cfg value ms mk mi).
Proof. intros He Hs Hk Hi ms. unfold sanitize_for_log. rewrite He. by apply value_log_safe. Qed.

(** Two values that differ only under sensitive or excluded keys. *)
Inductive same_public (cfg : san_config) : pyval -> pyval -> Prop :=
| sp_same v : same_public cfg v v
| sp_list l l' : Forall2 (same_public cfg) l l' -> same_public cfg (VList l) (VList l')
| sp_tuple l l' : Forall2 (same_public cfg) l l' -> same_public cfg (VTuple l) (VTuple l')
| sp_set l l' : Forall2 (same_public cfg) l l' -> same_public cfg (VSet l) (VSet l')
| sp_dict (d d' : list (pykey * pyval)) :
    Forall2 (fun kv kv' => kv.1 = kv'.1 /\
      (SENSITIVE_PATTERN cfg (str_key kv.1) = true \/
       str_in (lower (str_key kv.1)) (EXCLUDED_FIELDS cfg) = true \/
       same_public cfg kv.2 kv'.2)) d d' ->
    same_public cfg (VDict d) (VDict d').

Lemma same_public_items max_items rec l l' :
  Forall2 (fun x y => rec x = rec y) l l' ->
  sanitize_iterable_for_log max_items rec l = sanitize_iterable_for_log max_items rec l'.
Proof.
  intros Hl. unfold sanitize_iterable_for_log, take_py. rewrite (Forall2_length Hl). do 2 f_equal.
  apply (Forall2_take _ _ _ (clamp_index (length l') max_items)) in Hl.
  induction Hl as [|x y xs ys Hx _ IHl]; [done|]. cbn. rewrite Hx. f_equal. exact IHl.
Qed.

Lemma same_public_value cfg max_str max_keys max_items rem v v' :
  same_public cfg v v' ->
  sanitize_value cfg max_str max_keys max_items rem v =
  sanitize_value cfg max_str max_keys max_items rem v'.
Proof.
  revert v v'. induction rem as [|rem IH]; intros v v' Hv; [done|].
  destruct Hv as [v|l l' Hl|l l' Hl|l l' Hl|d d' Hd]; [done| | | |].
  1-3: cbn [sanitize_value]; apply same_public_items; eapply Forall2_impl; [exact IH|exact Hl].
  - cbn [sanitize_value]. unfold sanitize_dict_for_log. cbv zeta.
    rewrite (Forall2_length Hd).
    apply (Forall2_take _ _ _ (Z.to_nat max_keys)) in Hd.
    enough (forall acc, fold_left (dict_entry cfg (sanitize_value cfg max_str max_keys max_items rem))
        (take (Z.to_nat max_keys) d) acc =
      fold_left (dict_entry cfg (sanitize_value cfg max_str max_keys max_items rem))
        (take (Z.to_nat max_keys) d') acc) as -> by done.
    induction Hd as [|[k x] [k' y] xs ys [Hk Hx] _ IHd]; intros acc; [done|].
    cbn [fold_left fst snd] in *. subst k'. rewrite IHd. f_equal. unfold dict_entry. cbn [fst snd].
    destruct Hx as [->|[->|Hx]]; [done|done|]. by rewrite (IH x y Hx).
Qed.

(** C28: no secret flows into the log while sanitisation is enabled, as it is
    unless [LOG_SANITIZATION] turns it off: values that differ only in what is
    stored under sensitive or excluded keys, at any depth of dictionaries,
    lists, tuples and sets, are logged identically.  Turned off, every value
    is passed through as it is, secrets included. *)
Theorem secrets_do_not_flow cfg v v' ms mk mi :
  same_public cfg v v' ->
  (SANITIZE_ENABLED cfg = true -> sanitize_for_log cfg v ms mk mi = sanitize_for_log cfg v' ms mk mi) /\
  (SANITIZE_ENABLED cfg = false -> sanitize_for_log cfg v ms mk mi = v).
Proof.
  intros Hv. unfold sanitize_for_log. split; intros ->; [|done]. by apply same_public_value.
Qed.

Definition login_attempt (pw : string) : pyval :=
  VDict [(KStr "user", VStr "ann"); (KStr "forms", VTuple [VDict [(KStr "Password", VStr pw)]])].

Lemma secrets_do_not_flow_witness :
  sanitize_for_log _DEFAULTS (login_attempt "hunter2") None None None =
  sanitize_for_log _DEFAULTS (login_attempt "correct horse") None None None.
Proof.
  refine (proj1 (secrets_do_not_flow _DEFAULTS _ _ _ _ _ _) eq_refl). apply sp_dict. constructor.
  - split; [done|]. right. right. apply sp_same.
  - constructor; [|constructor]. split; [done|]. right. right. apply sp_tuple. constructor; [|constructor].
    apply sp_dict. constructor; [|constructor]. split; [done|]. left. reflexivity.
Defined.

Lemma sanitized_log_safe_witness :
  small (login_attempt "hunter2") /\
  log_safe _DEFAULTS 20 10 6 (sanitize_for_log _DEFAULTS (login_attempt "hunter2") None None None).
Proof.
  assert (Hs : small (login_attempt "hunter2")).
  { apply small_dict; [by vm_compute|]. intros k x. rewrite !elem_of_cons, elem_of_nil.
    intros [[= -> ->]|[[= -> ->]|[]]]; [by constructor|].
    eapply small_seq; [by right; left|by vm_compute|]. intros y ->%list_elem_of_singleton.
    apply small_dict; [by vm_compute|]. intros k' x'. rewrite elem_of_cons, elem_of_nil.
    intros [[= -> ->]|[]]. by constructor. }
  split; [exact Hs|].
  apply (sanitized_log_safe _DEFAULTS (login_attempt "hunter2") None None); [done|exact Hs|by vm_compute..].
Defined.

(** Keys are not escaped: a line break in a key reaches the record. *)
Lemma log_keys_unescaped :
  sanitize_for_log _DEFAULTS (VDict [(KStr (String (chr 10) "FAKE"), VNone)]) None None None =
  VDict [(KStr (String (chr 10) "FAKE"), VNone)].
Proof. reflexivity. Qed.

(** With limits 10 and 11 the slice [-0:] keeps the whole string. *)
Lemma truncate_for_log_grows :
  truncate_for_log (VStr "0123456789ABCDEF") 10 = Some "...0123456789ABCDEF (16 chars)".
Proof. reflexivity. Qed.
