(* ===== verification/FireForget.v ===== *)
(** * The fire-and-forget queue

    [core/dispatch/fire_and_forget.py]: a bounded queue, one consumer thread
    that hands tasks to a thread pool, and producers that are refused on
    overflow.  [queue.Queue], [ThreadPoolExecutor], [Event] and [Lock] are the
    standard library's; each of their operations is one atomic step, so a
    schedule is a list of [action]s, one per operation of some thread. *)
From stdpp Require Import base list gmap strings pretty numbers sorting.
From Stdlib Require Import Lia ZArith Permutation.
From S2P Require Import Prelude PyStr PyVal Exceptions.

Section ffq.
Context {T : Type} (task_raises : T -> bool).

(** ** State *)

(** [ThreadPoolExecutor]: submitted tasks wait in order, at most
    [max_workers] run, shutting down refuses new ones.  A finished task
    carries whether [_run_task_safely] logged an exception for it. *)
Record executor := Executor {
  x_pending : list T;
  x_running : list T;
  x_done : list (T * bool);
  x_down : bool;
}.

(** Where the consumer thread is: at the [while] test, inside
    [queue.get(timeout=0.5)], between [get] and [executor.submit] with a task
    in hand, or gone. *)
Inductive consumer :=
| AtLoop
| InGet
| Holding (fn : T)
| Exited.

(** The drop counter and the producers on their way through the overflow
    branch of [submit]: refused but not yet counted, counted with their
    snapshot but not yet logged, and the snapshots logged. *)
Record drops := Drops {
  d_dropped : nat;
  d_refused : nat;
  d_snaps : list nat;
  d_warned : list nat;
}.

Record ffq := FFQ {
  f_maxsize : Z;
  f_max_workers : nat;
  f_items : list T;
  f_unfinished : nat;
  f_consumer : consumer;
  f_exec : executor;
  f_stop : bool;
  f_drained : bool;
  f_drops : drops;
}.

(** The attributes [__init__] sets, once [ThreadPoolExecutor] has taken the
    number of workers, and [__init__] itself: it refuses none or fewer. *)
Definition new_queue (max_in_flight : Z) (max_workers : nat) : ffq :=
  FFQ max_in_flight max_workers [] 0 AtLoop (Executor [] [] [] false) false false (Drops 0 0 [] []).
Definition make_queue (max_in_flight max_workers : Z) : result py_exn ffq :=
  if (max_workers <=? 0)%Z then Raise (Builtin "ValueError" "max_workers must be greater than 0")
  else Ok (new_queue max_in_flight (Z.to_nat max_workers)).

(** ** The operations *)

Definition with_items (l : list T) (n : nat) (q : ffq) : ffq :=
  FFQ (f_maxsize q) (f_max_workers q) l n (f_consumer q) (f_exec q) (f_stop q) (f_drained q) (f_drops q).
Definition with_consumer (c : consumer) (q : ffq) : ffq :=
  FFQ (f_maxsize q) (f_max_workers q) (f_items q) (f_unfinished q) c (f_exec q) (f_stop q)
    (f_drained q) (f_drops q).
Definition with_exec (x : executor) (q : ffq) : ffq :=
  FFQ (f_maxsize q) (f_max_workers q) (f_items q) (f_unfinished q) (f_consumer q) x (f_stop q)
    (f_drained q) (f_drops q).
Definition with_drops (d : drops) (q : ffq) : ffq :=
  FFQ (f_maxsize q) (f_max_workers q) (f_items q) (f_unfinished q) (f_consumer q) (f_exec q)
    (f_stop q) (f_drained q) d.
(** Leaving [_consume_loop]: [self._drained.set()]. *)
Definition leave_loop (q : ffq) : ffq :=
  FFQ (f_maxsize q) (f_max_workers q) (f_items q) (f_unfinished q) Exited (f_exec q) (f_stop q)
    true (f_drops q).

(** [queue.full()]: a bound of zero or less is no bound. *)
Definition full (q : ffq) : bool :=
  (0 <? f_maxsize q)%Z && (f_maxsize q <=? Z.of_nat (length (f_items q)))%Z.

(** [self._queue.put_nowait(fn)]; [None] is [queue.Full]. *)
Definition put_nowait (fn : T) (q : ffq) : option ffq :=
  if full q then None else Some (with_items (f_items q ++ [fn]) (S (f_unfinished q)) q).

(** The overflow branch of [submit]: the producer is refused, counts the drop
    under [_dropped_lock], keeping a snapshot, and then logs the snapshot. *)
Definition refuse (q : ffq) : ffq :=
  let d := f_drops q in
  with_drops (Drops (d_dropped d) (S (d_refused d)) (d_snaps d) (d_warned d)) q.
Definition count_drop (q : ffq) : option ffq :=
  let d := f_drops q in
  match d_refused d with
  | O => None
  | S r => Some (with_drops (Drops (S (d_dropped d)) r (S (d_dropped d) :: d_snaps d) (d_warned d)) q)
  end.
Definition warn (i : nat) (q : ffq) : option ffq :=
  let d := f_drops q in
  match d_snaps d !! i with
  | Some n => Some (with_drops (Drops (d_dropped d) (d_refused d)
                      (take i (d_snaps d) ++ drop (S i) (d_snaps d)) (d_warned d ++ [n])) q)
  | None => None
  end.

(** [submit] run on its own. *)
Definition submit (fn : T) (q : ffq) : bool * ffq :=
  match put_nowait fn q with
  | Some q' => (true, q')
  | None => (false, default q (count_drop (refuse q) ≫= warn 0))
  end.

(** [executor.submit]; [None] is the [RuntimeError] after a shutdown. *)
Definition executor_submit (fn : T) (x : executor) : option executor :=
  if x_down x then None else Some (Executor (x_pending x ++ [fn]) (x_running x) (x_done x) (x_down x)).

(** One step of [_consume_loop]. *)
Definition consume_step (q : ffq) : option ffq :=
  match f_consumer q with
  | AtLoop => Some (if f_stop q then leave_loop q else with_consumer InGet q)
  | InGet =>
      match f_items q with
      | fn :: rest => Some (with_consumer (Holding fn) (with_items rest (f_unfinished q) q))
      | [] => Some (if f_stop q then leave_loop q else with_consumer AtLoop q)
      end
  | Holding fn =>
      let q' := with_items (f_items q) (pred (f_unfinished q)) q in
      match executor_submit fn (f_exec q) with
      | Some x => Some (with_consumer AtLoop (with_exec x q'))
      | None => Some (leave_loop q')
      end
  | Exited => None
  end.

(** The pool: a free worker takes the oldest task; some running task ends,
    its exception logged and swallowed by [_run_task_safely]. *)
Definition worker_start (q : ffq) : option ffq :=
  let x := f_exec q in
  match x_pending x with
  | fn :: rest =>
      if length (x_running x) <? f_max_workers q
      then Some (with_exec (Executor rest (x_running x ++ [fn]) (x_done x) (x_down x)) q) else None
  | [] => None
  end.
Definition worker_finish (i : nat) (q : ffq) : option ffq :=
  let x := f_exec q in
  match x_running x !! i with
  | Some fn => Some (with_exec (Executor (x_pending x) (take i (x_running x) ++ drop (S i) (x_running x))
                       (x_done x ++ [(fn, task_raises fn)]) (x_down x)) q)
  | None => None
  end.

(** [stop]: set the event; join the consumer, at most for the timeout; shut
    the executor down and wait for what it already holds. *)
Definition stop_set (q : ffq) : ffq :=
  FFQ (f_maxsize q) (f_max_workers q) (f_items q) (f_unfinished q) (f_consumer q) (f_exec q) true
    (f_drained q) (f_drops q).
Definition shutdown (q : ffq) : option ffq :=
  let x := f_exec q in
  if f_stop q then Some (with_exec (Executor (x_pending x) (x_running x) (x_done x) true) q) else None.

(** [is_saturated(threshold)] for a threshold of [num/den]. *)
Definition is_saturated (num den : Z) (q : ffq) : bool :=
  if (f_maxsize q <=? 0)%Z then false
  else (num * f_maxsize q <=? Z.of_nat (length (f_items q)) * den)%Z.

(** ** Schedules *)
Inductive action :=
| Submit (fn : T)
| CountDrop
| Warn (i : nat)
| Consume
| WorkerStart
| WorkerFinish (i : nat)
| StopSet
| Shutdown.

Definition apply_action (a : action) (q : ffq) : option ffq :=
  match a with
  | Submit fn => Some (default (refuse q) (put_nowait fn q))
  | CountDrop => count_drop q
  | Warn i => warn i q
  | Consume => consume_step q
  | WorkerStart => worker_start q
  | WorkerFinish i => worker_finish i q
  | StopSet => Some (stop_set q)
  | Shutdown => shutdown q
  end.

(** A run with its history: the tasks accepted, handed to the executor and
    dropped by the consumer at shutdown, and the number of refusals. *)
Record run_state := Run {
  r_q : ffq;
  r_accepted : list T;
  r_handed : list T;
  r_lost : list T;
  r_refusals : nat;
}.

Definition record_action (a : action) (r : run_state) : option run_state :=
  let q := r_q r in
  match apply_action a q with
  | None => None
  | Some q' =>
      Some match a with
           | Submit fn =>
               if full q then Run q' (r_accepted r) (r_handed r) (r_lost r) (S (r_refusals r))
               else Run q' (r_accepted r ++ [fn]) (r_handed r) (r_lost r) (r_refusals r)
           | Consume =>
               match f_consumer q with
               | Holding fn =>
                   if x_down (f_exec q)
                   then Run q' (r_accepted r) (r_handed r) (r_lost r ++ [fn]) (r_refusals r)
                   else Run q' (r_accepted r) (r_handed r ++ [fn]) (r_lost r) (r_refusals r)
               | _ => Run q' (r_accepted r) (r_handed r) (r_lost r) (r_refusals r)
               end
           | _ => Run q' (r_accepted r) (r_handed r) (r_lost r) (r_refusals r)
           end
  end.

Inductive step (r r' : run_state) : Prop :=
| step_action a : record_action a r = Some r' -> step r r'.

Definition start (max_in_flight : Z) (max_workers : nat) : run_state :=
  Run (new_queue max_in_flight max_workers) [] [] [] 0.

Fixpoint run (acts : list action) (r : run_state) : option run_state :=
  match acts with
  | [] => Some r
  | a :: acts' => record_action a r ≫= run acts'
  end.

Lemma run_steps acts r r' : run acts r = Some r' -> rtc step r r'.
Proof.
  revert r. induction acts as [|a acts IH]; simpl; intros r H; [injection H as ->; constructor|].
  destruct (record_action a r) as [r1|] eqn:E; [|discriminate H].
  eapply rtc_l; [by econstructor|by apply IH].
Qed.

(** The consumer's task in hand. *)
Definition in_hand (q : ffq) : list T :=
  match f_consumer q with Holding fn => [fn] | _ => [] end.

(** ** No task is lost or run twice *)
Record conserved (r : run_state) : Prop := {
  cs_fifo : r_accepted r = r_handed r ++ r_lost r ++ in_hand (r_q r) ++ f_items (r_q r);
  cs_exec : r_handed r ≡ₚ (x_done (f_exec (r_q r))).*1 ++ x_running (f_exec (r_q r)) ++
                         x_pending (f_exec (r_q r));
  cs_bound : (0 < f_maxsize (r_q r))%Z -> (Z.of_nat (length (f_items (r_q r))) <= f_maxsize (r_q r))%Z;
  cs_workers : length (x_running (f_exec (r_q r))) <= f_max_workers (r_q r);
  cs_unfinished : f_unfinished (r_q r) = length (in_hand (r_q r)) + length (f_items (r_q r));
  cs_lost : r_lost r <> [] -> length (r_lost r) = 1 /\ x_down (f_exec (r_q r)) = true /\
              f_consumer (r_q r) = Exited;
  cs_drained : f_drained (r_q r) = true <-> f_consumer (r_q r) = Exited;
}.

Lemma take_drop_Permutation {A} (l : list A) i x :
  l !! i = Some x -> l ≡ₚ (take i l ++ drop (S i) l) ++ [x].
Proof.
  intros H. rewrite <- (take_drop_middle l i x H) at 1.
  rewrite <- Permutation_middle. apply Permutation_cons_append.
Qed.

Lemma full_false q : full q = false -> (0 < f_maxsize q)%Z ->
  (Z.of_nat (length (f_items q)) < f_maxsize q)%Z.
Proof. unfold full. rewrite andb_false_iff, Z.ltb_ge, Z.leb_gt. lia. Qed.

Lemma conserved_start m w : conserved (start m w).
Proof. split; simpl; try done; try lia. Qed.

Lemma conserved_submit fn r r' :
  record_action (Submit fn) r = Some r' -> conserved r -> conserved r'.
Proof.
  destruct r as [q acc hand lost n]. unfold record_action. intros H [Hf He Hb Hw Hu Hl Hd].
  simpl in *. unfold put_nowait in H.
  destruct (full q) eqn:E; simpl in H; injection H as <-; split; simpl; try done.
  - rewrite Hf. unfold in_hand. simpl. by rewrite <- !(assoc (++)).
  - intros Hm. rewrite length_app. simpl. pose proof (full_false q E Hm). lia.
  - rewrite length_app, Hu. unfold in_hand. simpl. lia.
Qed.

Lemma conserved_consume r r' :
  record_action Consume r = Some r' -> conserved r -> conserved r'.
Proof.
  destruct r as [[m w items u c x st dr d] acc hand lost n]. intros H [Hf He Hb Hw Hu Hl Hd].
  unfold record_action in H. simpl in *. unfold consume_step, in_hand in *. simpl in *.
  assert (Hdr : c <> Exited -> dr = false).
  { intros Hc. destruct dr; [|done]. by destruct Hc; apply Hd. }
  assert (Hlost : c <> Exited -> lost = []).
  { intros Hc. destruct lost; [done|]. destruct Hl as (_ & _ & Hc'); [done|]. done. }
  destruct c as [| |fn|]; [| | |discriminate H].
  - destruct st; injection H as <-; split; simpl; auto; rewrite ?Hdr, ?Hlost by done; done.
  - destruct items as [|fn rest].
    + destruct st; injection H as <-; split; simpl; auto; rewrite ?Hdr, ?Hlost by done; done.
    + injection H as <-. split; simpl in *; auto; rewrite ?Hdr, ?Hlost by done; try done.
      intros Hm. specialize (Hb Hm). lia.
  - unfold executor_submit in H. destruct x as [pe ru de dn]. simpl in *.
    destruct dn; injection H as <-; split; simpl in *; auto; rewrite ?Hdr, ?Hlost in * by done;
      rewrite ?Hu; try done.
    + rewrite Hf. simpl. by rewrite <- !(assoc (++)).
    + rewrite He. by rewrite <- !(assoc (++)).
Qed.

Lemma conserved_worker a r r' :
  match a with WorkerStart | WorkerFinish _ => True | _ => False end ->
  record_action a r = Some r' -> conserved r -> conserved r'.
Proof.
  intros Ha H [Hf He Hb Hw Hu Hl Hd]. destruct r as [[m w items u c [pe ru de dn] st dr d] acc hand lost n].
  destruct a as [| | | | |i| |]; try done; unfold record_action in H; simpl in *;
    unfold worker_start, worker_finish in H; simpl in H.
  - destruct pe as [|fn pe]; [discriminate H|]. destruct (_ <? _) eqn:E; [|discriminate H].
    apply Nat.ltb_lt in E. injection H as <-. split; simpl; auto.
    + rewrite He. by rewrite <- (assoc (++)).
    + rewrite length_app. simpl. lia.
  - destruct (ru !! i) as [fn|] eqn:E; [|discriminate H]. injection H as <-. split; simpl; auto.
    + pose proof (take_drop_Permutation ru i fn E) as Hp. set (ru' := take i ru ++ drop (S i) ru) in *.
      clearbody ru'. rewrite He, Hp, fmap_app, (comm (++) ru' [fn]). by rewrite <- !(assoc (++)).
    + pose proof (take_drop_Permutation ru i fn E) as Hp%Permutation_length.
      rewrite !length_app in *. simpl in Hp. lia.
Qed.

Lemma conserved_step r r' : step r r' -> conserved r -> conserved r'.
Proof.
  intros [a Ha] Hc. destruct a as [fn| |i| | |i| |];
    [by eapply conserved_submit| | |by eapply conserved_consume|by refine (conserved_worker _ _ _ _ Ha Hc)..| |].
  all: destruct r as [q acc hand lost n]; unfold record_action in Ha; simpl in Ha.
  - unfold count_drop in Ha. destruct (d_refused (f_drops q)); [discriminate Ha|].
    injection Ha as <-. by destruct Hc; split.
  - unfold warn in Ha. destruct (d_snaps (f_drops q) !! i); [|discriminate Ha].
    injection Ha as <-. by destruct Hc; split.
  - injection Ha as <-. by destruct Hc; split.
  - unfold shutdown in Ha. destruct (f_stop q); [|discriminate Ha]. injection Ha as <-.
    destruct Hc as [Hf He Hb Hw Hu Hl Hd]. split; simpl in *; auto.
    intros Hne. destruct (Hl Hne) as (? & _ & ?). auto.
Qed.

Lemma conserved_reachable r r' : rtc step r r' -> conserved r -> conserved r'.
Proof. induction 1; eauto using conserved_step. Qed.

(** C26: Under every schedule of producers, consumer, pool and shutdown the
    queue neither loses nor repeats a task: the tasks accepted so far are, in
    order, those handed to the pool, at most one abandoned because the pool
    was already shut down, the one in the consumer's hand and those still
    queued; those handed over are exactly those done, running or waiting for a
    worker; and neither bound is ever exceeded. *)
Theorem tasks_conserved m w r :
  rtc step (start m w) r ->
  r_accepted r = r_handed r ++ r_lost r ++ in_hand (r_q r) ++ f_items (r_q r) /\
  r_handed r ≡ₚ (x_done (f_exec (r_q r))).*1 ++ x_running (f_exec (r_q r)) ++ x_pending (f_exec (r_q r)) /\
  length (r_lost r) <= 1 /\ (r_lost r <> [] -> x_down (f_exec (r_q r)) = true) /\
  ((0 < f_maxsize (r_q r))%Z -> (Z.of_nat (length (f_items (r_q r))) <= f_maxsize (r_q r))%Z) /\
  length (x_running (f_exec (r_q r))) <= f_max_workers (r_q r) /\
  f_unfinished (r_q r) = length (in_hand (r_q r)) + length (f_items (r_q r)).
Proof.
  intros Hr. destruct (conserved_reachable _ _ Hr (conserved_start m w)) as [Hf He Hb Hw Hu Hl _].
  split_and!; try done.
  - destruct (r_lost r) as [|t l] eqn:E; [simpl; lia|]. destruct Hl as [-> _]; done.
  - intros Hne. by apply Hl.
Qed.

(** ** Drops *)

(** Counts on their way to the log or in it. *)
Definition drop_counts (q : ffq) : list nat := d_snaps (f_drops q) ++ d_warned (f_drops q).
Definition drops_inv (r : run_state) : Prop :=
  drop_counts (r_q r) ≡ₚ seq 1 (d_dropped (f_drops (r_q r))) /\
  r_refusals r = d_dropped (f_drops (r_q r)) + d_refused (f_drops (r_q r)).

Lemma drops_step r r' : step r r' -> drops_inv r -> drops_inv r'.
Proof.
  intros [a Ha] [Hp Hn]. destruct r as [q acc hand lost n]. unfold record_action in Ha.
  assert (Hsame : forall q' l1 l2 l3, f_drops q' = f_drops q -> drops_inv (Run q' l1 l2 l3 n)).
  { intros q' l1 l2 l3 E. unfold drops_inv, drop_counts in *. simpl in *. by rewrite E. }
  destruct a as [fn| |i| | |i| |]; simpl in Ha, Hn.
  - unfold put_nowait in Ha. destruct (full q); simpl in Ha; injection Ha as <-; [|by apply Hsame].
    unfold drops_inv, drop_counts in *. simpl in *. split; [done|lia].
  - unfold count_drop in Ha. destruct (d_refused (f_drops q)) as [|k] eqn:E; [discriminate Ha|].
    injection Ha as <-. unfold drops_inv, drop_counts in *. simpl in *. split; [|lia].
    rewrite Hp. rewrite Permutation_cons_append. change (1 :: seq 2 (d_dropped (f_drops q)))
      with (seq 1 (S (d_dropped (f_drops q)))). by rewrite seq_S.
  - unfold warn in Ha. destruct (d_snaps (f_drops q) !! i) as [k|] eqn:E; [|discriminate Ha].
    injection Ha as <-. unfold drops_inv, drop_counts in *. simpl in *. split; [|lia].
    pose proof (take_drop_Permutation _ _ _ E) as Hq.
    set (sn := take i _ ++ drop (S i) _) in *. clearbody sn.
    rewrite <- Hp, Hq, (comm (++) (d_warned _) [k]). by rewrite <- (assoc (++)).
  - unfold consume_step in Ha.
    destruct (f_consumer q); [destruct (f_stop q)|destruct (f_items q); [destruct (f_stop q)|]| |done];
      try (injection Ha as <-; by apply Hsame).
    unfold executor_submit in Ha. destruct (x_down (f_exec q)); injection Ha as <-; by apply Hsame.
  - unfold worker_start in Ha. destruct (x_pending _); [discriminate Ha|].
    destruct (_ <? _); [|discriminate Ha]. injection Ha as <-. by apply Hsame.
  - unfold worker_finish in Ha. destruct (x_running _ !! i); [|discriminate Ha].
    injection Ha as <-. by apply Hsame.
  - injection Ha as <-. by apply Hsame.
  - unfold shutdown in Ha. destruct (f_stop q); [|discriminate Ha]. injection Ha as <-. by apply Hsame.
Qed.

(** The drop counter never misses or repeats: under every schedule of
    concurrent producers, the counts logged or about to be are the numbers
    from one to the counter, each once, and the counter plus the producers
    about to count is the number of tasks refused. *)
Theorem drop_counter_exact m w r :
  rtc step (start m w) r ->
  drop_counts (r_q r) ≡ₚ seq 1 (d_dropped (f_drops (r_q r))) /\
  r_refusals r = d_dropped (f_drops (r_q r)) + d_refused (f_drops (r_q r)).
Proof.
  intros Hr. assert (Hi : drops_inv (start m w)) by (split; done).
  induction Hr as [|r1 r2 r3 Hs _ IH]; [done|]. by apply IH, (drops_step r1).
Qed.

(** ** Shutdown and progress *)

(** What the consumer can still hand over once the stop event is set. *)
Definition stop_budget (q : ffq) : nat :=
  match f_consumer q with InGet | Holding _ => 1 | _ => 0 end.

Lemma stop_step r r' :
  step r r' -> f_stop (r_q r) = true ->
  f_stop (r_q r') = true /\ exists l, r_handed r' = r_handed r ++ l /\
    length l + stop_budget (r_q r') <= stop_budget (r_q r).
Proof.
  intros [a Ha] Hs. destruct r as [q acc hand lost n]. unfold record_action in Ha. simpl in Hs.
  assert (Hid : forall q' a' l' n', f_stop q' = true -> f_consumer q' = f_consumer q ->
    r' = Run q' a' hand l' n' -> f_stop (r_q r') = true /\ exists l, r_handed r' = hand ++ l /\
      length l + stop_budget (r_q r') <= stop_budget q).
  { intros q' a' l' n' Hs' Hc ->. split; [done|]. exists []. rewrite app_nil_r. simpl.
    unfold stop_budget. by rewrite Hc. }
  destruct a as [fn| |i| | |i| |]; simpl in Ha |- *.
  - unfold put_nowait in Ha. destruct (full q); simpl in Ha; injection Ha as <-; refine (Hid _ _ _ _ _ _ eq_refl); done.
  - unfold count_drop in Ha. destruct (d_refused (f_drops q)); [discriminate Ha|].
    injection Ha as <-. refine (Hid _ _ _ _ _ _ eq_refl); done.
  - unfold warn in Ha. destruct (d_snaps (f_drops q) !! i); [|discriminate Ha].
    injection Ha as <-. refine (Hid _ _ _ _ _ _ eq_refl); done.
  - clear Hid. unfold consume_step in Ha. rewrite Hs in Ha. unfold stop_budget.
    destruct (f_consumer q) as [| |fn|] eqn:Ec; [..|done].
    + injection Ha as <-. split; [done|]. exists []. by rewrite app_nil_r.
    + destruct (f_items q); injection Ha as <-; 
        (split; [done|]; exists []; rewrite app_nil_r; split; [done|simpl; lia]).
    + unfold executor_submit in Ha. destruct (x_down (f_exec q)); injection Ha as <-; split; try done.
      * exists []. rewrite app_nil_r. split; [done|simpl; lia].
      * exists [fn]. by split.
  - unfold worker_start in Ha. destruct (x_pending _); [discriminate Ha|].
    destruct (_ <? _); [|discriminate Ha]. injection Ha as <-. refine (Hid _ _ _ _ _ _ eq_refl); done.
  - unfold worker_finish in Ha. destruct (x_running _ !! i); [|discriminate Ha].
    injection Ha as <-. refine (Hid _ _ _ _ _ _ eq_refl); done.
  - injection Ha as <-. refine (Hid _ _ _ _ _ _ eq_refl); done.
  - unfold shutdown in Ha. rewrite Hs in Ha. injection Ha as <-. refine (Hid _ _ _ _ _ _ eq_refl); done.
Qed.

Lemma stop_run r r' :
  rtc step r r' -> f_stop (r_q r) = true ->
  exists l, r_handed r' = r_handed r ++ l /\ length l + stop_budget (r_q r') <= stop_budget (r_q r).
Proof.
  induction 1 as [r|r1 r2 r3 Hs _ IH]; intros Hst; [exists []; by rewrite app_nil_r|].
  destruct (stop_step _ _ Hs Hst) as (Hst' & l1 & Hl1 & Hb1). destruct (IH Hst') as (l2 & Hl2 & Hb2).
  exists (l1 ++ l2). rewrite Hl2, Hl1, (assoc (++)), length_app. split; [done|lia].
Qed.

(** [stop] does not drain.  Once the stop event is set, at most one more
    task reaches the pool (none, if the consumer is at its loop test or gone):
    under every later schedule the tasks done, running or waiting for a
    worker are those handed over before plus that one, so all the other tasks
    accepted but still queued are never run. *)
Theorem stop_abandons m w r r' :
  rtc step (start m w) r -> f_stop (r_q r) = true -> rtc step r r' ->
  exists l, length l <= 1 /\ (in_hand (r_q r) = [] -> f_consumer (r_q r) <> InGet -> l = []) /\
    (x_done (f_exec (r_q r'))).*1 ++ x_running (f_exec (r_q r')) ++ x_pending (f_exec (r_q r')) ≡ₚ
    r_handed r ++ l.
Proof.
  intros Hr Hs Hr'. destruct (stop_run _ _ Hr' Hs) as (l & Hl & Hb). exists l. unfold stop_budget in Hb at 2.
  split; [destruct (f_consumer (r_q r)); lia|]. split.
  - unfold in_hand. destruct (f_consumer (r_q r)); intros; try done; destruct l; simpl in Hb; done || lia.
  - rewrite <- Hl. symmetry. apply cs_exec. eapply conserved_reachable; [|apply conserved_start].
    by etrans.
Qed.

(** The consumer running by itself. *)
Fixpoint consume_n (n : nat) (r : run_state) : option run_state :=
  match n with
  | O => Some r
  | S n' => match record_action Consume r with Some r' => consume_n n' r' | None => None end
  end.

(** C27: while nothing stops it the consumer delivers: from its loop test,
    with no stop and the pool up, three steps per queued task hand over the
    whole queue in order and leave it empty, with nothing in hand. *)
Theorem consumer_delivers r :
  f_consumer (r_q r) = AtLoop -> f_stop (r_q r) = false -> x_down (f_exec (r_q r)) = false ->
  exists r', consume_n (3 * length (f_items (r_q r))) r = Some r' /\
    r_handed r' = r_handed r ++ f_items (r_q r) /\ f_items (r_q r') = [] /\ f_consumer (r_q r') = AtLoop /\
    x_pending (f_exec (r_q r')) = x_pending (f_exec (r_q r)) ++ f_items (r_q r).
Proof.
  destruct r as [[m w items u c [pe ru de dn] st dr d] acc hand lost n].
  cbn [r_q f_consumer f_stop f_exec x_down x_pending f_items r_handed]. intros -> -> ->.
  revert u pe hand. induction items as [|fn items IH]; intros u pe hand.
  - eexists. split; [done|]. simpl. by rewrite !app_nil_r.
  - replace (3 * length (fn :: items)) with (3 + 3 * length items) by (simpl; lia).
    destruct (IH (pred u) (pe ++ [fn]) (hand ++ [fn])) as (r' & Hr & Hh & Hi & Hc & Hp).
    exists r'. split; [exact Hr|]. rewrite Hh, Hp, <- !(assoc (++)). done.
Qed.
End ffq.

(** ** The registry [_queues] of queue objects, by name *)
Definition queues := list (string * nat).

(** End of [__init__]: a second queue of the same name takes over the entry. *)
Definition register_queue (name : string) (q : nat) (r : queues) : queues := od_set name q r.
Definition get_queue (name : string) (r : queues) : result py_exn nat :=
  match od_get name r with
  | Some q => Ok q
  | None => Raise (Builtin "KeyError" (repr_str name))
  end.
Definition registered_queues (r : queues) : list nat := r.*2.

(** ** Draining *)
Section drain.
(** Time in milliseconds at each pass of the polling loop ([time.sleep(0.05)]
    separates one pass from the next), and what [queue.empty()] says there. *)
Context (clock : nat -> Z) (empty : nat -> nat -> bool).

(** [drain]: the answer and the pass at which it was given. *)
Fixpoint drain_loop (fuel q : nat) (deadline : Z) (n : nat) : option (bool * nat) :=
  match fuel with
  | O => None
  | S fuel' =>
      if empty q n then Some (true, n)
      else if (deadline <=? clock n)%Z then Some (false, n)
      else drain_loop fuel' q deadline (S n)
  end.
Definition drain (fuel q : nat) (timeout : Z) (n : nat) : option (bool * nat) :=
  drain_loop fuel q (clock n + timeout) n.

(** The loop of [drain_all] over the registered queues. *)
Fixpoint drain_each (fuel : nat) (deadline : Z) (qs : list nat) (all_drained : bool) (n : nat)
    : option (bool * nat) :=
  match qs with
  | [] => Some (all_drained, n)
  | q :: qs' =>
      let remaining := Z.max 0 (deadline - clock n) in
      match drain fuel q remaining n with
      | Some (ok, n') => drain_each fuel deadline qs' (if ok then all_drained else false) n'
      | None => None
      end
  end.
Definition drain_all (fuel : nat) (qs : list nat) (timeout : Z) (n : nat) : option (bool * nat) :=
  drain_each fuel (clock n + timeout) qs true n.

Context (clock_mono : forall i j, i <= j -> (clock i <= clock j)%Z).

Lemma drain_loop_spec fuel q deadline n b n' :
  drain_loop fuel q deadline n = Some (b, n') ->
  n <= n' /\ b = empty q n' /\ (b = false -> (deadline <= clock n')%Z) /\
  forall k, n <= k < n' -> (clock k < deadline)%Z.
Proof.
  revert n. induction fuel as [|fuel IH]; intros n; [done|]. cbn [drain_loop].
  destruct (empty q n) eqn:E; [intros [= <- <-]; split_and!; [done|done|done|lia]|].
  destruct (deadline <=? clock n)%Z eqn:Ed.
  - intros [= <- <-]. apply Z.leb_le in Ed. split_and!; [done|done|done|lia].
  - intros (Hn & Hb & Hf & Hk)%IH. apply Z.leb_gt in Ed. split_and!; [lia|done|done|].
    intros k Hk'. destruct (decide (k = n)) as [->|]; [done|]. apply Hk. lia.
Qed.

Lemma drain_loop_total fuel q deadline n N :
  n <= N -> (deadline <= clock N)%Z -> N - n < fuel -> drain_loop fuel q deadline n <> None.
Proof.
  revert n. induction fuel as [|fuel IH]; intros n Hn Hd Hf; [lia|]. cbn [drain_loop].
  destruct (empty q n); [done|]. destruct (deadline <=? clock n)%Z eqn:Ed; [done|].
  apply Z.leb_gt in Ed. assert (n <> N) by (intros ->; lia). apply IH; lia.
Qed.

Lemma drain_each_spec fuel deadline qs all n b n' :
  drain_each fuel deadline qs all n = Some (b, n') ->
  n <= n' /\ (forall k, n <= k < n' -> (clock k < deadline)%Z) /\
  exists ts, length ts = length qs /\ Forall (fun t => n <= t <= n') ts /\
    b = all && forallb (fun qt => empty qt.1 qt.2) (zip qs ts).
Proof.
  revert all n. induction qs as [|q qs IH]; intros all n; cbn [drain_each].
  - intros [= <- <-]. split_and!; [done|lia|]. exists []. by rewrite andb_true_r.
  - cbv zeta. unfold drain. destruct (drain_loop _ _ _ _) as [[ok n1]|] eqn:E; [|done].
    apply drain_loop_spec in E as (Hn1 & Hok & _ & Hk1).
    intros (Hn & Hk & ts & Hl & Ht & Hb)%IH. split_and!; [lia| |].
    + intros k Hk'. destruct (decide (k < n1)) as [Hlt|]; [|apply Hk; lia].
      specialize (Hk1 k ltac:(lia)). assert (clock n <= clock k)%Z by (apply clock_mono; lia). lia.
    + exists (n1 :: ts). split; [simpl; lia|]. split.
      * constructor; [lia|]. eapply List.Forall_impl; [|exact Ht]. simpl. lia.
      * cbn. rewrite Hb, <- Hok. destruct ok, all; done.
Qed.

Lemma drain_each_total fuel deadline qs all n N :
  n <= N -> (deadline <= clock N)%Z -> N - n < fuel -> drain_each fuel deadline qs all n <> None.
Proof.
  revert all n. induction qs as [|q qs IH]; intros all n Hn Hd Hf; [done|]. cbn [drain_each]. cbv zeta.
  unfold drain. destruct (drain_loop _ _ _ _) as [[ok n1]|] eqn:E.
  - pose proof (drain_loop_spec _ _ _ _ _ _ E) as (Hn1 & _ & _ & Hk).
    assert (n1 <= N).
    { destruct (decide (n1 <= N)) as [|Hgt]; [done|]. specialize (Hk N ltac:(lia)).
      assert (clock n <= clock N)%Z by (apply clock_mono; lia).
      destruct (decide (n = N)); [|]; subst; lia. }
    apply IH; lia.
  - exfalso. revert E.
    destruct (decide (clock n + Z.max 0 (deadline - clock n) <= clock N)%Z) as [Hle|Hgt].
    + by apply (drain_loop_total fuel q _ n N).
    + assert (clock n <= clock N)%Z by (apply clock_mono; lia). lia.
Qed.

(** [drain_all] keeps its one shared deadline however many queues are
    registered: with fuel for the passes up to the deadline it returns; it
    never goes to sleep at or after the deadline, so it overruns by one sleep
    at most in total; and it answers true exactly when every queue was seen
    empty at some pass. *)
Theorem drain_all_shared_deadline fuel qs timeout n N :
  (0 <= timeout)%Z -> n <= N -> (clock n + timeout <= clock N)%Z -> N - n < fuel ->
  exists b n', drain_all fuel qs timeout n = Some (b, n') /\ n <= n' /\
    (forall k, n <= k < n' -> (clock k < clock n + timeout)%Z) /\
    exists ts, length ts = length qs /\ Forall (fun t => n <= t <= n') ts /\
      b = forallb (fun qt => empty qt.1 qt.2) (zip qs ts).
Proof.
  intros Ht Hn Hc Hf. destruct (drain_all fuel qs timeout n) as [[b n']|] eqn:E.
  - exists b, n'. split; [done|]. by apply drain_each_spec in E.
  - exfalso. revert E. by apply (drain_each_total _ _ _ _ _ N).
Qed.
End drain.

(** ** Examples and witnesses *)

(** Two tasks into a queue of one slot: the second is refused and counted. *)
Definition overflow_run : list (action (T:=nat)) := [Submit 1; Submit 2; CountDrop; Warn 0; Consume; Consume].

Lemma tasks_conserved_witness :
  exists r, run (fun _ => false) overflow_run (start 1 1) = Some r /\
    r_accepted r = [1] /\ in_hand (r_q r) = [1] /\ r_accepted r = r_handed r ++ r_lost r ++ [1] ++ f_items (r_q r).
Proof.
  eexists. split; [vm_compute; reflexivity|]. split; [vm_compute; reflexivity|]. split; [vm_compute; reflexivity|].
  refine (proj1 (tasks_conserved (fun _ => false) 1 1 _ _)).
  apply (run_steps _ overflow_run). vm_compute. reflexivity.
Defined.

Lemma drop_counter_exact_witness :
  exists r, run (fun _ => false) overflow_run (start 1 1) = Some r /\
    r_refusals r = 1 /\ drop_counts (r_q r) ≡ₚ seq 1 1.
Proof.
  eexists. split; [vm_compute; reflexivity|]. split; [vm_compute; reflexivity|].
  refine (proj1 (drop_counter_exact (fun _ => false) 1 1 _ _)).
  apply (run_steps _ overflow_run). vm_compute. reflexivity.
Defined.

(** Three tasks queued, then [stop] while the consumer waits in [get]: one is
    handed over, two stay in the queue for good. *)
Definition stop_run_1 : list (action (T:=nat)) := [Consume; Submit 1; Submit 2; Submit 3; StopSet].
Definition stop_run_2 : list (action (T:=nat)) := [Consume; Consume; Consume; Shutdown; WorkerStart; WorkerFinish 0].

Lemma stop_abandons_witness :
  exists r r', run (fun _ => false) stop_run_1 (start 10 1) = Some r /\
    run (fun _ => false) stop_run_2 r = Some r' /\ f_items (r_q r') = [2; 3] /\
    f_consumer (r_q r') = Exited /\
    exists l, length l <= 1 /\ (x_done (f_exec (r_q r'))).*1 ++ x_running (f_exec (r_q r')) ++
      x_pending (f_exec (r_q r')) ≡ₚ r_handed r ++ l.
Proof.
  eexists _, _. split; [vm_compute; reflexivity|]. split; [vm_compute; reflexivity|]. split; [vm_compute; reflexivity|]. split; [vm_compute; reflexivity|].
  edestruct (stop_abandons (T:=nat) (fun _ => false) 10 1) as (l & Hl & _ & Hp);
    [apply (run_steps _ stop_run_1); vm_compute; reflexivity|reflexivity|
     apply (run_steps _ stop_run_2); vm_compute; reflexivity|].
  exists l. split; [exact Hl|exact Hp].
Defined.

Lemma consumer_delivers_witness :
  exists r', consume_n (fun _ => false) 6 (Run (with_items [7; 8] 2 (new_queue 5 1)) [7; 8] [] [] 0) = Some r' /\
    r_handed r' = [7; 8].
Proof.
  destruct (consumer_delivers (T:=nat) (fun _ => false)
    (Run (with_items [7; 8] 2 (new_queue 5 1)) [7; 8] [] [] 0)) as (r' & Hr & Hh & _); try reflexivity.
  exists r'. split; [exact Hr|exact Hh].
Defined.

(** One queue that never empties and one that empties late, 100 ms in all. *)
Lemma drain_all_shared_deadline_witness :
  exists n', drain_all (fun n => 50 * Z.of_nat n)%Z (fun q n => (q =? 1) && (2 <=? n)) 10 [0; 1] 100 0 =
    Some (false, n') /\ forall k, 0 <= k < n' -> (50 * Z.of_nat k < 100)%Z.
Proof.
  assert (Hmono : forall i j, i <= j -> (50 * Z.of_nat i <= 50 * Z.of_nat j)%Z) by (intros; lia).
  pose proof (drain_all_shared_deadline (fun n => 50 * Z.of_nat n)%Z (fun q n => (q =? 1) && (2 <=? n))
    Hmono 10 [0; 1] 100 0 2) as Ht. cbv beta in Ht.
  destruct Ht as (b & n' & Hd & _ & Hk & _); [lia|lia|lia|lia|].
  assert (Hb : drain_all (fun n => 50 * Z.of_nat n)%Z (fun q n => (q =? 1) && (2 <=? n)) 10 [0; 1] 100 0 =
    Some (false, 2)) by reflexivity.
  rewrite Hb in Hd. injection Hd as <- <-. exists 2. split; [exact Hb|exact Hk].
Defined.

(** [drain] sees an empty queue while the consumer still holds a task that
    has not been submitted to the pool. *)
Lemma drain_misses_task_in_hand :
  exists r, run (fun _ => false) [Submit 1; Consume; Consume] (start 10 1) = Some r /\
    f_items (r_q r) = [] /\ in_hand (r_q r) = [1] /\ r_handed r = [].
Proof. eexists. split; [vm_compute; reflexivity|]. by repeat split. Qed.
