(* ===== verification/FireSpec.v ===== *)
(** * What the fire-and-forget queue promises, abstractly

    The queue of [FireForget] has an internal queue, a consumer with a task in
    hand and the executor's own backlog.  A caller sees none of this, only
    that tasks are accepted, refused, begun, ended and abandoned.  [pool] is
    the specification of those events, and [queue_refines_pool] shows that
    every schedule of the detailed queue is a behaviour of it. *)
From stdpp Require Import base list gmap strings pretty numbers.
From Stdlib Require Import Lia ZArith.
From S2P Require Import Prelude PyStr PyVal Exceptions FireForget.

Section pool.
Context {T : Type} (task_raises : T -> bool).

(** ** The specification *)

Inductive event :=
| Accepted (fn : T)
| Refused (fn : T)
| Begun (fn : T)
| Ended (fn : T) (failed : bool)
| Abandoned (fn : T)
| Closed.

(** Tasks waiting, oldest first; tasks running; whether the pool was shut down. *)
Record pool := Pool {
  p_waiting : list T;
  p_active : list T;
  p_closed : bool;
}.

(** A pool of [workers] workers which may refuse a task only while at least
    [cap] tasks are waiting, begins tasks oldest first and abandons a waiting
    one only after it was closed. *)
Inductive pool_step (cap : Z) (workers : nat) : event -> pool -> pool -> Prop :=
| ps_accept fn w a c :
    pool_step cap workers (Accepted fn) (Pool w a c) (Pool (w ++ [fn]) a c)
| ps_refuse fn w a c :
    (0 < cap <= Z.of_nat (length w))%Z ->
    pool_step cap workers (Refused fn) (Pool w a c) (Pool w a c)
| ps_begin fn w a c :
    length a < workers ->
    pool_step cap workers (Begun fn) (Pool (fn :: w) a c) (Pool w (a ++ [fn]) c)
| ps_end fn w a1 a2 c :
    pool_step cap workers (Ended fn (task_raises fn)) (Pool w (a1 ++ fn :: a2) c) (Pool w (a1 ++ a2) c)
| ps_abandon fn w1 w2 a :
    pool_step cap workers (Abandoned fn) (Pool (w1 ++ fn :: w2) a true) (Pool (w1 ++ w2) a true)
| ps_close w a c :
    pool_step cap workers Closed (Pool w a c) (Pool w a true).

Inductive behaviour (cap : Z) (workers : nat) : pool -> list event -> pool -> Prop :=
| beh_nil p : behaviour cap workers p [] p
| beh_cons p e p' tr p'' :
    pool_step cap workers e p p' -> behaviour cap workers p' tr p'' ->
    behaviour cap workers p (e :: tr) p''.

(** The tasks of a trace that were accepted, and that were begun, in order. *)
Definition accepted (tr : list event) : list T :=
  omap (fun e => match e with Accepted fn => Some fn | _ => None end) tr.
Definition begun (tr : list event) : list T :=
  omap (fun e => match e with Begun fn => Some fn | _ => None end) tr.
Definition closing (e : event) : bool := match e with Closed => true | _ => false end.

(** ** What a caller sees of the detailed queue *)

(** The event of one action taken in state [q]; most actions are internal. *)
Definition observe (a : action) (q : ffq) : option event :=
  match a with
  | Submit fn => Some (if full q then Refused fn else Accepted fn)
  | Consume =>
      match f_consumer q with
      | Holding fn => if x_down (f_exec q) then Some (Abandoned fn) else None
      | _ => None
      end
  | WorkerStart => Begun <$> head (x_pending (f_exec q))
  | WorkerFinish i => (fun fn => Ended fn (task_raises fn)) <$> x_running (f_exec q) !! i
  | Shutdown => Some Closed
  | _ => None
  end.

Fixpoint trace (acts : list action) (r : run_state) : list event :=
  match acts with
  | [] => []
  | a :: acts' =>
      match record_action task_raises a r with
      | Some r' => option_list (observe a (r_q r)) ++ trace acts' r'
      | None => []
      end
  end.

(** The abstraction: what waits is the executor's backlog, the consumer's
    task in hand and the queue itself, in this order. *)
Definition abs (q : ffq) : pool :=
  Pool (x_pending (f_exec q) ++ in_hand q ++ f_items q) (x_running (f_exec q)) (x_down (f_exec q)).

Lemma behaviour_app cap workers p t1 q t2 s :
  behaviour cap workers p t1 q -> behaviour cap workers q t2 s -> behaviour cap workers p (t1 ++ t2) s.
Proof. induction 1; simpl; [done|]. intros H'. econstructor; eauto. Qed.

Lemma behaviour_one cap workers e p q :
  pool_step cap workers e p q -> behaviour cap workers p [e] q.
Proof. intros. econstructor; [done|constructor]. Qed.

(** A refused task saw [cap] tasks in the queue alone. *)
Lemma full_waiting q :
  full q = true -> (0 < f_maxsize q <= Z.of_nat (length (p_waiting (abs q))))%Z.
Proof. unfold full. rewrite andb_true_iff, Z.ltb_lt, Z.leb_le. simpl. rewrite !length_app. lia. Qed.

(** The bounds are never written. *)
Lemma bounds_fixed a q q' :
  apply_action task_raises a q = Some q' ->
  f_maxsize q' = f_maxsize q /\ f_max_workers q' = f_max_workers q.
Proof.
  destruct a; simpl; unfold put_nowait, count_drop, warn, consume_step, worker_start, worker_finish,
    shutdown; intros H;
    [destruct (full q)|..]; repeat case_match; simplify_eq/=; done.
Qed.

(** ** The simulation *)

Lemma abs_consume q q' :
  consume_step q = Some q' ->
  behaviour (f_maxsize q) (f_max_workers q) (abs q) (option_list (observe Consume q)) (abs q').
Proof.
  destruct q as [m w items u c [pe ru de dn] st dr d]. unfold consume_step, observe, abs. simpl.
  destruct c as [| |fn|]; simpl; [destruct st| | |done].
  - intros [= <-]. constructor.
  - intros [= <-]. constructor.
  - destruct items as [|fn rest]; [destruct st|]; intros [= <-]; constructor.
  - unfold executor_submit. simpl. destruct dn; intros [= <-]; simpl.
    + apply behaviour_one, ps_abandon.
    + rewrite <- (assoc (++)). constructor.
Qed.

Lemma abs_worker_start q q' :
  worker_start q = Some q' ->
  behaviour (f_maxsize q) (f_max_workers q) (abs q) (option_list (observe WorkerStart q)) (abs q').
Proof.
  destruct q as [m w items u c [pe ru de dn] st dr d]. unfold worker_start, observe, abs. simpl.
  destruct pe as [|fn pe]; [done|]. destruct (length ru <? w) eqn:E; [|done].
  apply Nat.ltb_lt in E. intros [= <-]. by apply behaviour_one, ps_begin.
Qed.

Lemma abs_worker_finish i q q' :
  worker_finish task_raises i q = Some q' ->
  behaviour (f_maxsize q) (f_max_workers q) (abs q) (option_list (observe (WorkerFinish i) q)) (abs q').
Proof.
  destruct q as [m w items u c [pe ru de dn] st dr d]. unfold worker_finish, observe, abs. simpl.
  destruct (ru !! i) as [fn|] eqn:E; [|done]. intros [= <-]. unfold in_hand. simpl.
  rewrite <- (take_drop_middle ru i fn E) at 1. apply behaviour_one, ps_end.
Qed.

Lemma abs_action a q q' :
  apply_action task_raises a q = Some q' ->
  behaviour (f_maxsize q) (f_max_workers q) (abs q) (option_list (observe a q)) (abs q').
Proof.
  destruct a as [fn| |i| | |i| |]; simpl; intros H.
  - unfold put_nowait in H. destruct (full q) eqn:E; simpl in H; injection H as <-; apply behaviour_one.
    + apply full_waiting in E. by apply ps_refuse.
    + unfold abs, in_hand. simpl. rewrite !(assoc (++)). apply ps_accept.
  - unfold count_drop in H. case_match; [done|]. injection H as <-. constructor.
  - unfold warn in H. case_match; [|done]. injection H as <-. constructor.
  - by apply abs_consume.
  - by apply abs_worker_start.
  - by apply abs_worker_finish.
  - injection H as <-. constructor.
  - unfold shutdown in H. case_match; [|done]. injection H as <-. apply behaviour_one, ps_close.
Qed.

Lemma record_action_queue a r r' :
  record_action task_raises a r = Some r' -> apply_action task_raises a (r_q r) = Some (r_q r').
Proof. unfold record_action. intros H. repeat case_match; by simplify_eq/=. Qed.

Lemma run_behaviour acts r r' :
  run task_raises acts r = Some r' ->
  behaviour (f_maxsize (r_q r)) (f_max_workers (r_q r)) (abs (r_q r)) (trace acts r) (abs (r_q r')).
Proof.
  revert r. induction acts as [|a acts IH]; intros r; simpl; [intros [= ->]; constructor|].
  destruct (record_action task_raises a r) as [r1|] eqn:E; [|done]. intros H%IH.
  apply record_action_queue in E. destruct (bounds_fixed _ _ _ E) as [Em Ew]. rewrite Em, Ew in H.
  eapply behaviour_app; [|exact H]. by apply abs_action.
Qed.

(** ** Consequences of the specification *)

(** Before it is closed a pool begins tasks in the order it accepted them. *)
Lemma behaviour_fifo cap workers p tr p' :
  behaviour cap workers p tr p' -> p_closed p = false -> forallb (fun e => negb (closing e)) tr = true ->
  p_waiting p ++ accepted tr = begun tr ++ p_waiting p' /\ p_closed p' = false.
Proof.
  induction 1 as [p|p e p1 tr p' Hs _ IH]; [by rewrite app_nil_r|].
  cbn [forallb]. intros Hc [He Ht]%andb_true_iff. inversion Hs; subst; simpl in *; try done;
    (destruct IH as [IH Hc']; [done..|]); (split; [|done]);
    rewrite ?(cons_middle _ _ (accepted tr)), ?(assoc (++)) in *; by rewrite ?IH.
Qed.

(** C25: the queue refines the abstract worker pool: whatever producers,
    consumer, workers and shutdown do, the events a caller sees are a
    behaviour of the pool, ending in the pool state the queue's own state
    stands for.  In particular, while the executor is up the tasks accepted
    are, in order, those begun and those still waiting. *)
Theorem queue_refines_pool m w acts r :
  run task_raises acts (start m w) = Some r ->
  behaviour m w (Pool [] [] false) (trace acts (start m w)) (abs (r_q r)) /\
  (forallb (fun e => negb (closing e)) (trace acts (start m w)) = true ->
   accepted (trace acts (start m w)) = begun (trace acts (start m w)) ++ p_waiting (abs (r_q r))).
Proof.
  intros H%run_behaviour. change (f_maxsize _) with m in H. change (f_max_workers _) with w in H.
  split; [exact H|]. intros Ht. by apply (behaviour_fifo _ _ _ _ _ H).
Qed.

(** ** The bound on tasks in flight *)

(** One task submitted and carried to the executor by the consumer. *)
Definition carry (fn : T) : list action := [Submit fn; Consume; Consume; Consume].

Lemma run_app acts1 acts2 r :
  run task_raises (acts1 ++ acts2) r = run task_raises acts1 r ≫= run task_raises acts2.
Proof.
  revert r. induction acts1 as [|a acts1 IH]; intros r; simpl; [done|].
  destruct (record_action task_raises a r); [apply IH|done].
Qed.

Lemma run_carry m w fn pe acc hand :
  (0 < m)%Z ->
  run task_raises (carry fn)
    (Run (with_exec (Executor pe [] [] false) (new_queue m w)) acc hand [] 0) =
  Some (Run (with_exec (Executor (pe ++ [fn]) [] [] false) (new_queue m w)) (acc ++ [fn]) (hand ++ [fn]) [] 0).
Proof.
  intros Hm. assert (Hf : forall x, full (with_exec x (new_queue (T:=T) m w)) = false).
  { intros x. unfold full. simpl. rewrite andb_false_iff, Z.leb_gt. right. lia. }
  unfold carry. cbn [run]. unfold record_action. cbn [r_q apply_action].
  unfold put_nowait. rewrite Hf. reflexivity.
Qed.

(** [max_in_flight] does not bound the tasks in flight.  The consumer
    moves every task on to the executor, whose backlog has no bound: however
    small the limit and however many tasks are given, there is a schedule on
    which every one of them is accepted and is waiting, with no worker having
    begun any, and none was ever refused. *)
Theorem in_flight_unbounded m w tasks :
  (0 < m)%Z ->
  exists r, run task_raises (tasks ≫= carry) (start m w) = Some r /\
    p_waiting (abs (r_q r)) = tasks /\ r_accepted r = tasks /\ r_refusals r = 0 /\ f_items (r_q r) = [].
Proof.
  intros Hm. unfold start. change (new_queue m w) with (with_exec (Executor [] [] [] false) (new_queue (T:=T) m w)).
  assert (H : forall pe acc hand, exists r,
    run task_raises (tasks ≫= carry) (Run (with_exec (Executor pe [] [] false) (new_queue m w)) acc hand [] 0) = Some r /\
    p_waiting (abs (r_q r)) = pe ++ tasks /\ r_accepted r = acc ++ tasks /\ r_refusals r = 0 /\ f_items (r_q r) = []).
  { induction tasks as [|fn tasks IH]; intros pe acc hand.
    - eexists. split; [done|]. unfold abs. simpl. by rewrite !app_nil_r.
    - rewrite bind_cons, run_app, (run_carry m w fn pe acc hand Hm).
      destruct (IH (pe ++ [fn]) (acc ++ [fn]) (hand ++ [fn])) as (r & Hr & Hrest). exists r.
      rewrite <- !(assoc (++)) in Hrest. split; [exact Hr|exact Hrest]. }
  apply (H [] [] []).
Qed.
End pool.

(** ** Witnesses *)

(** Two tasks, one worker: the first begins and ends, the second waits. *)
Definition two_tasks : list (action (T:=nat)) :=
  (carry 1 ++ carry 2) ++ [WorkerStart; WorkerFinish 0].

Lemma queue_refines_pool_witness :
  exists r, run (fun _ => false) two_tasks (start 5 1) = Some r /\
    trace (fun _ => false) two_tasks (start 5 1) = [Accepted 1; Accepted 2; Begun 1; Ended 1 false] /\
    accepted (trace (fun _ => false) two_tasks (start 5 1)) =
    begun (trace (fun _ => false) two_tasks (start 5 1)) ++ p_waiting (abs (r_q r)).
Proof.
  eexists. split; [vm_compute; reflexivity|]. split; [vm_compute; reflexivity|].
  refine (proj2 (queue_refines_pool (fun _ => false) 5 1 two_tasks _ _) _); vm_compute; reflexivity.
Defined.

Lemma in_flight_unbounded_witness :
  exists r, run (fun _ => false) (seq 0 100 ≫= carry) (start 1 1) = Some r /\
    length (p_waiting (abs (r_q r))) = 100 /\ r_refusals r = 0.
Proof.
  destruct (in_flight_unbounded (fun _ => false) 1 1 (seq 0 100)) as (r & Hr & Hw & _ & Hn & _); [lia|].
  exists r. rewrite Hw. split; [exact Hr|]. split; [reflexivity|exact Hn].
Defined.
