(* ===== verification/ApiLog.v ===== *)
(** * The API audit log

    [core/api_log]: what is stored about one inbound or outbound HTTP call
    ([sanitizers], [error_messages], the row builders of [inbound] and
    [outbound]), how a row gets to its backend ([factory], [backends],
    [dispatch]) and the normalisation of outbound exceptions
    ([core/exceptions/utils.py]).  The UTF-8 decoder and the JSON parser are
    parameters; the JSON printer is modelled. *)
From stdpp Require Import base list gmap strings pretty numbers.
From Stdlib Require Import Ascii Lia ZArith.
From S2P Require Import Prelude PyStr PyVal Exceptions Utils LogSanitize FireForget.

(** ** [json.dumps(value, default=str)] *)

Definition hex4 (n : nat) : string := hex2 (n / 256) +:+ hex2 (n mod 256).
(** The byte 0x85 stands for the ellipsis U+2026 the program writes. *)
Definition ellipsis_char : ascii := chr 133.

Definition json_char (c : ascii) : string :=
  if bool_decide (c = dquote) then String "\" (String dquote "")
  else if bool_decide (c = "\"%char) then "\\"
  else if ord c =? 10 then "\n"
  else if ord c =? 13 then "\r"
  else if ord c =? 9 then "\t"
  else if ord c =? 12 then "\f"
  else if ord c =? 8 then "\b"
  else if (32 <=? ord c) && (ord c <=? 126) then String c ""
  else if ord c =? 133 then "\u2026"
  else "\u" +:+ hex4 (ord c).

Definition json_str (s : string) : string := String dquote (sbind json_char s) +:+ String dquote "".

Definition json_key (k : pykey) : string :=
  match k with
  | KStr s => json_str s
  | KInt z => json_str (str_int z)
  | KNone => json_str "null"
  end.

Definition json_float (repr_ : string) : string :=
  if String.eqb repr_ "inf" then "Infinity"
  else if String.eqb repr_ "-inf" then "-Infinity"
  else if String.eqb repr_ "nan" then "NaN" else repr_.

(** [None] when [default=str] raises. *)
Fixpoint json_dumps (v : pyval) : option string :=
  let items := fix items (l : list pyval) : option (list string) :=
    match l with
    | [] => Some []
    | x :: l' => match json_dumps x, items l' with Some a, Some b => Some (a :: b) | _, _ => None end
    end in
  let pairs := fix pairs (d : list (pykey * pyval)) : option (list string) :=
    match d with
    | [] => Some []
    | (k, x) :: d' =>
        match json_dumps x, pairs d' with
        | Some a, Some b => Some ((json_key k +:+ ": " +:+ a) :: b)
        | _, _ => None
        end
    end in
  match v with
  | VNone => Some "null"
  | VBool b => Some (if b then "true" else "false")
  | VInt z => Some (str_int z)
  | VFloat r => Some (json_float r)
  | VStr s => Some (json_str s)
  | VList l | VTuple l => (fun p => "[" +:+ join ", " p +:+ "]") <$> items l
  | VDict d => (fun p => "{" +:+ join ", " p +:+ "}") <$> pairs d
  | VBytes _ | VSet _ | VRef _ _ | VObj _ _ _ => json_str <$> py_str v
  end.

(** ** [sanitizers] *)

Definition _DEFAULT_SENSITIVE : list string :=
  ["authorization"; "cookie"; "set-cookie"; "x-api-key"; "x-auth-token"; "proxy-authorization"].

(** The settings the package reads; [None] is an absent setting. *)
Record log_settings := LogSettings {
  API_LOG_SENSITIVE_HEADERS : option (list string);
  API_LOG_MAX_BODY_LEN : Z;
  API_LOG_TTL_DAYS : Z;
  API_LOG_BACKEND : string;
  API_LOG_QUEUE_MAX_IN_FLIGHT : Z;
  API_LOG_QUEUE_WORKERS : Z;
  LOG_SANITIZATION : san_config;
}.

(** [_sensitive_headers] behind its one-entry cache, and the [setting_changed]
    receiver that empties it. *)
Record header_cache := HeaderCache { hc_setting : option (list string); hc_cached : option (list string) }.

Definition lowered_headers (raw : option (list string)) : list string :=
  lower <$> default _DEFAULT_SENSITIVE raw.
Definition _sensitive_headers (c : header_cache) : list string * header_cache :=
  match hc_cached c with
  | Some l => (l, c)
  | None => let l := lowered_headers (hc_setting c) in (l, HeaderCache (hc_setting c) (Some l))
  end.
Definition _bust_sensitive_headers_cache (setting : string) (c : header_cache) : header_cache :=
  if String.eqb setting "API_LOG_SENSITIVE_HEADERS" then HeaderCache (hc_setting c) None else c.

(** A non-string header name has no [lower]. *)
Definition redact_header (sensitive : list string) (kv : pykey * pyval) : result py_exn (pykey * pyval) :=
  match kv.1 with
  | KStr k => Ok (KStr k, if str_in (lower k) sensitive then VStr "[REDACTED]" else kv.2)
  | _ => Raise (Builtin "AttributeError" "object has no attribute 'lower'")
  end.
Definition redact_headers (sensitive : list string) (headers : list (pykey * pyval))
    : result py_exn (list (pykey * pyval)) :=
  map_result (redact_header sensitive) headers.

Definition truncate (text : option string) (max_len : Z) : option string :=
  match text with
  | None => None
  | Some t => Some (if (Z.of_nat (slen t) <=? max_len)%Z then t
                    else slice_to t max_len +:+ String ellipsis_char "[truncated]")
  end.

Definition audit_safe (v : pyval) : pyval :=
  match v with
  | VBytes s => VDict [(KStr "__bytes__", VBool true); (KStr "size_bytes", VInt (Z.of_nat (slen s)))]
  | _ => v
  end.

(** An item of a Django [QueryDict]: an uploaded file or a value. *)
Inductive form_item :=
| FileItem (name : string) (content_type : string) (size : Z)
| DataItem (v : pyval).

(** A body as [summarise_body_for_audit] tells them apart; [EncoderBody] is a
    multipart encoder object, with [None] when reading its fields raises, and
    otherwise each field's [name] attribute and [str]. *)
Inductive audit_body :=
| PlainBody (v : pyval)
| FormBody (form : list (string * list form_item))
| EncoderBody (fields : option (list (pyval * string))) (self : pyval).

(** The entry built for one item; [None] when [str(item)] raises. *)
Definition form_entry (key : string) (item : form_item) : option (list (pykey * pyval)) :=
  let name := (KStr "name", VStr key) in
  match item with
  | FileItem f ct size =>
      Some ([name; (KStr "filename", VStr f)] ++
            (if str_true ct then [(KStr "content_type", VStr ct)] else []) ++
            [(KStr "size_bytes", VInt size)])
  | DataItem (VBytes s) => Some [name; (KStr "size_bytes", VInt (Z.of_nat (slen s)))]
  | DataItem (VStr s) =>
      Some [name; (KStr "value", VStr (if (slen s <=? 200) then s
                                       else stake 200 s +:+ String ellipsis_char ""))]
  | DataItem v => s ← py_str v; Some [name; (KStr "value", VStr s)]
  end.

Definition form_entries (form : list (string * list form_item)) : option (list (list (pykey * pyval))) :=
  mapM (fun ki => form_entry ki.1 ki.2) (form ≫= fun kl => (fun i => (kl.1, i)) <$> kl.2).

(** The name of an entry, and the scalar view [{name: value}]. *)
Definition entry_name (e : list (pykey * pyval)) : string :=
  match od_get (KStr "name") e with Some (VStr s) => s | _ => "" end.
Definition scalar_step (acc e : list (pykey * pyval)) : list (pykey * pyval) :=
  match od_get (KStr "value") e with
  | Some v => od_set (KStr (entry_name e)) v acc
  | None => acc
  end.
Definition scalar_view (fields : list (list (pykey * pyval))) : list (pykey * pyval) :=
  fold_left scalar_step fields [].

(** [if "value" in entry and name in redacted: entry["value"] = ...] *)
Definition redact_entry (redacted : pyval) (e : list (pykey * pyval)) : list (pykey * pyval) :=
  match od_get (KStr "value") e, dict_get (entry_name e) redacted with
  | Some _, Some v => od_set (KStr "value") v e
  | _, _ => e
  end.

Definition encoder_entry (f : pyval * string) : pyval :=
  VDict [(KStr "name", if truthy f.1 then f.1 else VStr f.2)].

(** [None] when the summary raises. *)
Definition summarise_body_for_audit (cfg : san_config) (value : audit_body) : option pyval :=
  match value with
  | PlainBody v => Some (audit_safe v)
  | FormBody form =>
      fields ← form_entries form;
      let redacted := sanitize_for_log cfg (VDict (scalar_view fields)) None None None in
      Some (VDict [(KStr "__multipart__", VBool true);
                   (KStr "fields", VList ((fun e => VDict (redact_entry redacted e)) <$> fields))])
  | EncoderBody (Some fields) _ =>
      Some (VDict [(KStr "__multipart__", VBool true); (KStr "fields", VList (encoder_entry <$> fields))])
  | EncoderBody None self => Some (audit_safe self)
  end.

Section bodies.
Context (decode_utf8 : string -> string) (json_loads : string -> result py_exn pyval).

(** Errors [json.loads] reports for malformed text. *)
Definition json_error (e : py_exn) : bool :=
  match e with
  | Builtin cls _ => str_in cls ["ValueError"; "TypeError"; "JSONDecodeError"]
  | Custom _ => false
  end.

Definition _try_parse_json (text : string) : result py_exn pyval :=
  match json_loads text with
  | Ok (VDict d) => Ok (VDict d)
  | Ok (VList l) => Ok (VList l)
  | Ok _ => Ok (VStr text)
  | Raise e => if json_error e then Ok (VStr text) else Raise e
  end.

Definition structured_body (value : pyval) : result py_exn pyval :=
  match value with
  | VBytes s => _try_parse_json (decode_utf8 s)
  | VStr s => _try_parse_json s
  | _ => Ok value
  end.

(** [value = None] is both [None] and [UNSET]. *)
Definition serialize_body (s : log_settings) (value : option pyval) (max_len : option Z) : option string :=
  match value with
  | None | Some VNone => None
  | Some v =>
      let max_len := default (API_LOG_MAX_BODY_LEN s) max_len in
      match structured_body v with
      | Raise _ => None
      | Ok structured =>
          match sanitize_for_log (LOG_SANITIZATION s) structured (Some max_len) None None with
          | VStr t => truncate (Some t) max_len
          | redacted => truncate (json_dumps redacted) max_len
          end
      end
  end.

(** [None] for no body; raises only if [str(body)] does. *)
Definition serialize_error_body (s : log_settings) (body : pyval) (max_len : option Z)
    : result py_exn (option string) :=
  let max_len := default (API_LOG_MAX_BODY_LEN s) max_len in
  match body with
  | VNone => Ok None
  | VStr t => Ok (truncate (Some t) max_len)
  | _ =>
      match json_dumps body with
      | Some t => Ok (truncate (Some t) max_len)
      | None =>
          match py_str body with
          | Some t => Ok (truncate (Some t) max_len)
          | None => Raise (Builtin "Exception" "str() failed")
          end
      end
  end.
End bodies.

(** [now] in seconds. *)
Definition compute_ttl (s : log_settings) (now : Z) : option Z :=
  if (API_LOG_TTL_DAYS s <=? 0)%Z then None else Some (now + API_LOG_TTL_DAYS s * 86400)%Z.

(** ** [exceptions/utils.py] *)

(** Any exception, through the attributes it answers to ([getattr]). *)
Definition attrs := string -> option pyval.

Section outbound_exceptions.
Context (json_loads : string -> result py_exn pyval).

(** The last two preferences: parsed body, then details. *)
Definition details_payload (exc : attrs) : option pyval :=
  match exc "details" with
  | Some (VDict d) => if truthy (VDict d) then Some (VDict d) else None
  | _ => None
  end.
Definition exception_response_payload (exc : attrs) : result py_exn (option pyval) :=
  match exc "response" with
  | Some (VDict d) => Ok (Some (VDict d))
  | _ =>
      match exc "response_body" with
      | Some (VStr body) =>
          if str_true body
          then match json_loads body with
               | Ok (VDict d) => Ok (Some (VDict d))
               | Ok _ => Ok (details_payload exc)
               | Raise e => if json_error e then Ok (details_payload exc) else Raise e
               end
          else Ok (details_payload exc)
      | _ => Ok (details_payload exc)
      end
  end.

(** [a or b or 502] *)
Definition attr_or (o : option pyval) (dflt : pyval) : pyval :=
  match o with Some v => if truthy v then v else dflt | None => dflt end.
Definition exception_wire_status (exc : attrs) : pyval :=
  attr_or (exc "response_status_code") (attr_or (exc "status_code") (VInt 502)).
Definition normalize_outbound_exception (exc : attrs) : result py_exn (list (pykey * pyval)) :=
  body ← exception_response_payload exc;
  Ok [(KStr "status_code", exception_wire_status exc);
      (KStr "response_body", default VNone body)].
End outbound_exceptions.

(** ** [error_messages] *)

Definition build_error_message (e : py_exn) : string :=
  join " | "
    ((exn_type_name e +:+ ": " +:+ exn_str e) ::
     match e with
     | Builtin _ _ => []
     | Custom c =>
         match status_attr c with Some st => ["status_code=" +:+ str_int st] | None => [] end ++
         match get_details c with
         | Some ((_ :: _) as d) => ["details=" +:+ py_repr (VDict d)]
         | _ => []
         end ++
         match e_payload c with
         | PApi (Some b) _ => if str_true b then ["response_body=" +:+ b] else []
         | _ => []
         end
     end).

(** ** Rows *)
Abbreviation row := (list (string * pyval)).

Definition opt_val (o : option string) : pyval := match o with Some s => VStr s | None => VNone end.
Definition error_val (e : option py_exn) : pyval :=
  match e with
  | Some e => VDict [(KStr "type", VStr (exn_type_name e)); (KStr "message", VStr (build_error_message e))]
  | None => VNone
  end.
Definition dict_or_empty (o : option pyval) : list (pykey * pyval) :=
  match o with Some (VDict d) => d | _ => [] end.

(** The thirteen columns both decorators fill. *)
Definition audit_row (direction service_name : string) (request_id : option string) (method url : pyval)
    (status_code : pyval) (elapsed_ms : Z) (request_headers : list (pykey * pyval))
    (request_body : option string) (response_headers : list (pykey * pyval)) (response_body : option string)
    (error : option py_exn) : row :=
  [("direction", VStr direction); ("service_name", VStr service_name);
   ("request_id", VStr (default "" request_id)); ("method", method); ("url", url);
   ("status_code", status_code); ("duration_ms", VInt elapsed_ms);
   ("request_headers", VDict request_headers); ("request_body", opt_val request_body);
   ("response_headers", VDict response_headers); ("response_body", opt_val response_body);
   ("error", error_val error); ("extra", VDict [])].

(** The object an outbound call returns, by the attributes read from it. *)
Record http_result := HttpResult {
  hr_request : option pyval;
  hr_status_code : option pyval;
  hr_body : option pyval;
  hr_headers : option pyval;
}.

(** [str(x or "")]; a failing [__str__] raises. *)
Definition str_or_empty (o : option pyval) : result py_exn pyval :=
  match o with
  | Some v => if truthy v then match py_str v with
                               | Some s => Ok (VStr s)
                               | None => Raise (Builtin "Exception" "str() failed")
                               end
              else Ok (VStr "")
  | None => Ok (VStr "")
  end.

(** The request as the views see it. *)
Record dj_request := DjRequest {
  rq_method : pyval;
  rq_path : pyval;
  rq_content_type : string;
  rq_headers : result py_exn (list (pykey * pyval));
  rq_body : result py_exn pyval;
  rq_post : list (string * list form_item);
  rq_files : list (string * form_item);
}.

(** The response of a view: status, [data] and headers, where it has them. *)
Record dj_response := DjResponse {
  rs_status_code : option pyval;
  rs_data : option pyval;
  rs_headers : result py_exn (list (pykey * pyval));
}.

Section rows.
Context (decode_utf8 : string -> string) (json_loads : string -> result py_exn pyval).
Context (s : log_settings) (sensitive : list string).

(** [build_row] of [log_outbound]: the result, or the exception, of the call. *)
Definition outbound_row (service_name : string) (request_id : option string)
    (outcome : result py_exn http_result) (elapsed_ms : Z) : result py_exn row :=
  let body := serialize_body decode_utf8 json_loads s in
  match outcome with
  | Raise e =>
      Ok (audit_row "outbound" service_name request_id (VStr "") (VStr "") VNone elapsed_ms [] None [] None
            (Some e))
  | Ok r =>
      let ctx := match hr_request r with Some (VDict d) => Some d | _ => None end in
      url ← match ctx with Some d => str_or_empty (od_get (KStr "url") d) | None => Ok (VStr "") end;
      method ← match ctx with Some d => str_or_empty (od_get (KStr "method") d) | None => Ok (VStr "") end;
      let hdrs := match ctx with Some d => dict_or_empty (od_get (KStr "headers") d) | None => [] end in
      let request_body := match ctx with Some d => body (od_get (KStr "body") d) None | None => None end in
      request_headers ← redact_headers sensitive hdrs;
      response_headers ← redact_headers sensitive (dict_or_empty (hr_headers r));
      Ok (audit_row "outbound" service_name request_id method url (default VNone (hr_status_code r))
            elapsed_ms request_headers request_body response_headers (body (hr_body r) None) None)
  end.

(** [_request_from_args]: the [request] keyword if present, or the first
    argument that looks like a request; [None] is an argument that does not. *)
Definition _request_from_args (args : list (option dj_request)) (kwargs : option (option dj_request))
    : option dj_request :=
  match kwargs with
  | Some r => r
  | None => mjoin (List.find (fun a => match a with Some _ => true | None => false end) args)
  end.

Definition _request_headers (request : option dj_request) : list (pykey * pyval) :=
  match request with
  | None => []
  | Some r => match rq_headers r with Ok h => h | Raise _ => [] end
  end.

(** [merged.update(POST)] and [merged.appendlist(k, file)]. *)
Definition append_item (form : list (string * list form_item)) (kf : string * form_item)
    : list (string * list form_item) :=
  od_set kf.1 (default [] (od_get kf.1 form) ++ [kf.2]) form.
Definition merged_form (r : dj_request) : list (string * list form_item) :=
  fold_left append_item (rq_files r) (rq_post r).

Definition inbound_request_body (request : option dj_request) : option string :=
  let body := serialize_body decode_utf8 json_loads s in
  match request with
  | None => None
  | Some r =>
      if startswith "multipart/form-data" (lower (rq_content_type r))
      then match summarise_body_for_audit (LOG_SANITIZATION s) (FormBody (merged_form r)) with
           | Some summary => body (Some summary) None
           | None => None
           end
      else match rq_body r with Ok b => body (Some b) None | Raise _ => None end
  end.

(** [build_row] of [log_inbound]. *)
Definition inbound_row (service_name : string) (request_id : option string) (request : option dj_request)
    (outcome : result py_exn dj_response) (elapsed_ms : Z) : result py_exn row :=
  let body := serialize_body decode_utf8 json_loads s in
  let attr f := match request with
                | Some r => if truthy (f r) then f r else VStr ""
                | None => VStr ""
                end in
  let resp := match outcome with Ok r => Some r | Raise _ => None end in
  let response_headers := match resp with
                          | Some r => match rs_headers r with Ok h => h | Raise _ => [] end
                          | None => []
                          end in
  request_headers ← redact_headers sensitive (_request_headers request);
  response_headers ← redact_headers sensitive response_headers;
  Ok (audit_row "inbound" service_name request_id (attr rq_method) (attr rq_path)
        (match resp with Some r => default VNone (rs_status_code r) | None => VNone end) elapsed_ms
        request_headers (inbound_request_body request) response_headers
        (match resp with Some r => body (rs_data r) None | None => None end)
        (match outcome with Raise e => Some e | Ok _ => None end)).
End rows.

(** ** Dispatch *)


Inductive backend := NoopApiLogBackend | OrmApiLogBackend.

(** [_build_backend] and whether it warned. *)
Definition _build_backend (s : log_settings) : backend * bool :=
  let name := lower (strip (API_LOG_BACKEND s)) in
  if String.eqb name "noop" then (NoopApiLogBackend, false)
  else if str_in name ["orm"; "django"; "db"] then (OrmApiLogBackend, false)
  else (OrmApiLogBackend, true).

(** The process state the pipeline works on: the queue registered under
    [api_log], the cached backend, and the records logged, each with its
    message and correlation payload. *)
Record pipeline := Pipeline {
  pl_queue : option (ffq (T:=row));
  pl_backend : option backend;
  pl_logs : list (string * list (string * pyval));
}.

Section dispatch.
Context (s : log_settings).

Definition pl_log (msg : string) (extra : list (string * pyval)) (p : pipeline) : pipeline :=
  Pipeline (pl_queue p) (pl_backend p) (pl_logs p ++ [(msg, extra)]).

(** [_ensure_queue] and [get_backend], run on their own. *)
Definition _ensure_queue : act pipeline py_exn (ffq (T:=row)) := fun p =>
  match pl_queue p with
  | Some q => (Ok q, p)
  | None =>
      match make_queue (API_LOG_QUEUE_MAX_IN_FLIGHT s) (API_LOG_QUEUE_WORKERS s) with
      | Ok q => (Ok q, Pipeline (Some q) (pl_backend p) (pl_logs p))
      | Raise e => (Raise e, p)
      end
  end.
Definition get_backend (p : pipeline) : backend * pipeline :=
  match pl_backend p with
  | Some b => (b, p)
  | None =>
      let '(b, warned) := _build_backend s in
      let p' := Pipeline (pl_queue p) (Some b) (pl_logs p) in
      (b, if warned then pl_log "Unknown API_LOG_BACKEND=%r; defaulting to orm." [] p' else p')
  end.
Definition init_repository : act pipeline py_exn unit := fun p =>
  (_ensure_queue ≫= fun _ => mret tt) (get_backend p).2.
Definition reset_for_tests (p : pipeline) : pipeline := Pipeline (pl_queue p) None (pl_logs p).

Definition _correlation_extra (service_name direction request_id log_id : option string) : list (string * pyval) :=
  [("service_name", opt_val service_name); ("direction", opt_val direction);
   ("request_id", opt_val request_id); ("log_id", opt_val log_id)].

(** [fire_and_forget]: an [Exception] on the way to the queue is logged and the
    row is lost. *)
Definition fire_and_forget (service_name direction request_id log_id : option string) (r : row) (p : pipeline)
    : result py_exn unit * pipeline :=
  match _ensure_queue p with
  | (Ok q, p1) =>
      let '(_, p2) := get_backend p1 in
      (Ok tt, Pipeline (Some (submit r q).2) (pl_backend p2) (pl_logs p2))
  | (Raise e, p1) =>
      if is_exception e
      then (Ok tt, pl_log "api_log dispatch failed; row dropped"
              (_correlation_extra service_name direction request_id log_id) p1)
      else (Raise e, p1)
  end.

(** [_build]: with [log_id], and again without it on a [TypeError]. *)
Definition _build {A} (build_row : A -> option string -> result py_exn row) (outcome : A) (log_id : string)
    : result py_exn row :=
  match build_row outcome (Some log_id) with
  | Raise (Builtin cls msg) =>
      if String.eqb cls "TypeError" then build_row outcome None else Raise (Builtin cls msg)
  | r => r
  end.

(** Build the row of a finished call and queue it; an [Exception] on the way
    is logged and swallowed. *)
Definition audit_call {A} (build_row : result py_exn A -> Z -> option string -> result py_exn row)
    (service_name direction request_id : option string) (log_id path : string) (elapsed_ms : Z)
    (outcome : result py_exn A) (p : pipeline) : result py_exn unit * pipeline :=
  match _build (fun o id => build_row o elapsed_ms id) outcome log_id with
  | Ok r => fire_and_forget service_name direction request_id (Some log_id) r p
  | Raise e =>
      if is_exception e
      then (Ok tt, pl_log ("api_log build_row failed (" +:+ path +:+ " path)")
              (_correlation_extra service_name direction request_id (Some log_id)) p)
      else (Raise e, p)
  end.

(** [capture_and_dispatch]: [fn] may itself use the pipeline. *)
Definition capture_and_dispatch {A} (fn : act pipeline py_exn A)
    (build_row : result py_exn A -> Z -> option string -> result py_exn row)
    (service_name direction request_id : option string) (log_id : string) (elapsed_ms : Z)
    : act pipeline py_exn A := fun p =>
  match fn p with
  | (Raise exc, p1) =>
      match audit_call build_row service_name direction request_id log_id "error" elapsed_ms (Raise exc) p1 with
      | (Ok _, p2) => (Raise exc, p2)
      | (Raise e, p2) => (Raise e, p2)
      end
  | (Ok r, p1) =>
      match audit_call build_row service_name direction request_id log_id "success" elapsed_ms (Ok r) p1 with
      | (Ok _, p2) => (Ok r, p2)
      | (Raise e, p2) => (Raise e, p2)
      end
  end.

(** A builder that takes no [log_id] keyword, like both decorators'. *)
Definition without_log_id {A} (b : result py_exn A -> Z -> result py_exn row)
    (outcome : result py_exn A) (elapsed_ms : Z) (log_id : option string) : result py_exn row :=
  match log_id with
  | Some _ => Raise (Builtin "TypeError" "build_row() got an unexpected keyword argument 'log_id'")
  | None => b outcome elapsed_ms
  end.

Definition log_outbound decode_utf8 json_loads sensitive (service_name : string) (request_id : option string)
    (log_id : string) (elapsed_ms : Z) (fn : act pipeline py_exn http_result) : act pipeline py_exn http_result :=
  capture_and_dispatch fn
    (without_log_id (outbound_row decode_utf8 json_loads s sensitive service_name request_id))
    (Some service_name) (Some "outbound") request_id log_id elapsed_ms.

Definition log_inbound decode_utf8 json_loads sensitive (service_name : string) (request_id : option string)
    (log_id : string) (elapsed_ms : Z) (args : list (option dj_request)) (kwargs : option (option dj_request))
    (view : act pipeline py_exn dj_response) : act pipeline py_exn dj_response :=
  let request := _request_from_args args kwargs in
  capture_and_dispatch view
    (without_log_id (fun o e => inbound_row decode_utf8 json_loads s sensitive service_name request_id request o e))
    (Some service_name) (Some "inbound") request_id log_id elapsed_ms.

(** [best_effort_atomic] and the backends' [persist] over a database [D] and
    the log: only the database is rolled back. *)
Definition best_effort_atomic {D} (label : string) (body : act (D * list string) py_exn unit)
    : act (D * list string) py_exn unit := fun st =>
  match body st with
  | (Ok _, st') => (Ok tt, st')
  | (Raise e, (_, logs')) =>
      if is_exception e then (Ok tt, (st.1, logs' ++ ["failed to " +:+ label])) else (Raise e, (st.1, logs'))
  end.
Definition persist {D} (create : row -> act (D * list string) py_exn unit) (b : backend) (rows : list row)
    (r : row) : act (D * list string) py_exn (list row) :=
  match b with
  | NoopApiLogBackend => mret (rows ++ [r])
  | OrmApiLogBackend => best_effort_atomic "persist api_log row" (create r) ≫= fun _ => mret rows
  end.
End dispatch.

(** ** The audit is invisible to the call *)

(** The queue is there or is made, unless the settings ask for no workers. *)
Lemma ensure_queue_cases s p :
  (exists q p1, _ensure_queue s p = (Ok q, p1) /\ pl_logs p1 = pl_logs p) \/
  (exists msg, _ensure_queue s p = (Raise (Builtin "ValueError" msg), p) /\
     pl_queue p = None /\ (API_LOG_QUEUE_WORKERS s <= 0)%Z).
Proof.
  unfold _ensure_queue, make_queue. destruct (pl_queue p) as [q|]; [left; by eexists _, _|].
  destruct (_ <=? 0)%Z eqn:E; [right; eexists; by apply Z.leb_le in E|left; by eexists _, _].
Qed.

(** C24: [capture_and_dispatch] returns or raises exactly what the wrapped
    callable did, whatever the row builder does short of a [BaseException]
    that is no [Exception]; the callable runs once.  A row that was built (with
    the log id or, after a [TypeError], without) goes into the bounded queue
    or, when that is full, is counted as dropped; when the queue cannot be
    made, as with no workers configured, the row is lost with one log record
    that carries the correlation ids; and so is one left by a failed build. *)
Theorem dispatch_transparent {A} s (fn : act pipeline py_exn A) build_row svc dir rid log_id elapsed p r p1 :
  (forall o n id e, build_row o n id = Raise e -> is_exception e = true) ->
  fn p = (r, p1) ->
  let extra := _correlation_extra svc dir rid (Some log_id) in
  exists p2, capture_and_dispatch s fn build_row svc dir rid log_id elapsed p = (r, p2) /\
    match _build (fun o id => build_row o elapsed id) r log_id with
    | Ok row =>
        match (_ensure_queue s p1).1 with
        | Ok q => exists q2, pl_queue p2 = Some q2 /\
            (if full q then f_items q2 = f_items q /\ d_dropped (f_drops q2) = S (d_dropped (f_drops q))
             else f_items q2 = f_items q ++ [row] /\ d_dropped (f_drops q2) = d_dropped (f_drops q))
        | Raise _ => pl_queue p1 = None /\ (API_LOG_QUEUE_WORKERS s <= 0)%Z /\ pl_queue p2 = None /\
            pl_logs p2 = pl_logs p1 ++ [("api_log dispatch failed; row dropped", extra)]
        end
    | Raise _ =>
        pl_queue p2 = pl_queue p1 /\
        exists path, pl_logs p2 = pl_logs p1 ++ [("api_log build_row failed (" +:+ path +:+ " path)", extra)]
    end.
Proof.
  intros Hb Hf extra. unfold capture_and_dispatch. rewrite Hf. unfold audit_call.
  assert (Hx : forall e, _build (fun o id => build_row o elapsed id) r log_id = Raise e ->
    is_exception e = true).
  { intros e. unfold _build. destruct (build_row r elapsed (Some log_id)) as [w|e'] eqn:E; [done|].
    destruct e' as [c|cls msg]; [by intros [= <-]|].
    destruct (String.eqb cls "TypeError"); intros He; [exact (Hb _ _ _ _ He)|].
    injection He as <-. exact (Hb _ _ _ _ E). }
  assert (Hq : forall row, exists p2, fire_and_forget s svc dir rid (Some log_id) row p1 = (Ok tt, p2) /\
    match (_ensure_queue s p1).1 with
    | Ok q => exists q2, pl_queue p2 = Some q2 /\
        (if full q then f_items q2 = f_items q /\ d_dropped (f_drops q2) = S (d_dropped (f_drops q))
         else f_items q2 = f_items q ++ [row] /\ d_dropped (f_drops q2) = d_dropped (f_drops q))
    | Raise _ => pl_queue p1 = None /\ (API_LOG_QUEUE_WORKERS s <= 0)%Z /\ pl_queue p2 = None /\
        pl_logs p2 = pl_logs p1 ++ [("api_log dispatch failed; row dropped", extra)]
    end).
  { intros row. unfold fire_and_forget.
    destruct (ensure_queue_cases s p1) as [(q & p1' & -> & _)|(msg & -> & Hn & Hw)]; cbn [fst].
    - destruct (get_backend s p1') as [b p2]. eexists. split; [reflexivity|]. eexists. split; [reflexivity|].
      unfold submit, put_nowait. by destruct (full q).
    - eexists. split; [reflexivity|]. by cbn. }
  destruct r as [a|exc]; (destruct (_build _ _ log_id) as [row|e] eqn:E;
    [destruct (Hq row) as (p2 & -> & Hp2); exists p2; by split|]);
    (rewrite (Hx e eq_refl); eexists; split; [reflexivity|]; split; [reflexivity|by eexists]).
Qed.

(** ** Redaction of rows *)

Lemma redact_headers_spec sens h h' :
  redact_headers sens h = Ok h' ->
  Forall2 (fun kv kv' => kv'.1 = kv.1 /\ exists k, kv.1 = KStr k /\
    kv'.2 = if str_in (lower k) sens then VStr "[REDACTED]" else kv.2) h h'.
Proof.
  revert h'. induction h as [|[k v] h IH]; intros h'; unfold redact_headers; cbn [map_result].
  - intros [= <-]. constructor.
  - unfold mbind, result_bind, redact_header at 1. cbn [fst snd].
    destruct k as [k| |]; [|done|done]. destruct (map_result _ h) as [h1|] eqn:E; [|done].
    intros [= <-]. constructor; [|by apply IH]. cbn [fst snd]. split; [done|]. by exists k.
Qed.

(** Headers that differ only in sensitive values. *)
Definition same_headers (sens : list string) : list (pykey * pyval) -> list (pykey * pyval) -> Prop :=
  Forall2 (fun kv kv' => kv.1 = kv'.1 /\
    ((exists k, kv.1 = KStr k /\ str_in (lower k) sens = true) \/ kv.2 = kv'.2)).

Lemma redact_same_headers sens h h' :
  same_headers sens h h' -> redact_headers sens h = redact_headers sens h'.
Proof.
  induction 1 as [|[k v] [k' v'] h h' [Hk Hv] _ IH]; [done|]. unfold redact_headers in *.
  cbn [map_result fst snd] in *. subst k'. rewrite IH.
  assert (redact_header sens (k, v) = redact_header sens (k, v')) as ->; [|done].
  unfold redact_header. cbn [fst snd]. destruct k as [k| |]; [|done|done].
  destruct Hv as [(k0 & [= <-] & ->)| ->]; done.
Qed.

Section hiding.
Context (decode_utf8 : string -> string) (json_loads : string -> result py_exn pyval).
Context (s : log_settings) (enabled : SANITIZE_ENABLED (LOG_SANITIZATION s) = true).

(** Bodies whose parsed forms differ only under sensitive keys. *)
Definition same_body (b b' : option pyval) : Prop :=
  b = b' \/ exists v v' x x', b = Some v /\ b' = Some v' /\ v <> VNone /\ v' <> VNone /\
    structured_body decode_utf8 json_loads v = Ok x /\ structured_body decode_utf8 json_loads v' = Ok x' /\
    same_public (LOG_SANITIZATION s) x x'.

Lemma serialize_same_body b b' ml :
  same_body b b' -> serialize_body decode_utf8 json_loads s b ml = serialize_body decode_utf8 json_loads s b' ml.
Proof using enabled.
  intros [->|(v & v' & x & x' & -> & -> & Hv & Hv' & Hx & Hx' & Hp)]; [done|].
  assert (Hs : sanitize_for_log (LOG_SANITIZATION s) x (Some (default (API_LOG_MAX_BODY_LEN s) ml)) None None =
    sanitize_for_log (LOG_SANITIZATION s) x' (Some (default (API_LOG_MAX_BODY_LEN s) ml)) None None).
  { unfold sanitize_for_log. rewrite enabled. by apply same_public_value. }
  unfold serialize_body. rewrite Hx, Hx', Hs. destruct v, v'; done.
Qed.

(** Calls that differ only in secrets. *)
Record same_call (sens : list string) (r r' : http_result) : Prop := {
  sc_status : hr_status_code r = hr_status_code r';
  sc_body : same_body (hr_body r) (hr_body r');
  sc_headers : same_headers sens (dict_or_empty (hr_headers r)) (dict_or_empty (hr_headers r'));
  sc_request : hr_request r = hr_request r' \/ exists d d',
    hr_request r = Some (VDict d) /\ hr_request r' = Some (VDict d') /\
    od_get (KStr "url") d = od_get (KStr "url") d' /\
    od_get (KStr "method") d = od_get (KStr "method") d' /\
    same_headers sens (dict_or_empty (od_get (KStr "headers") d)) (dict_or_empty (od_get (KStr "headers") d')) /\
    same_body (od_get (KStr "body") d) (od_get (KStr "body") d');
}.

(** C23: the outbound audit row of a call that returns keeps no secret, while
    sanitisation is enabled as it is by default: calls that differ only in
    sensitive headers and in what their request and response bodies hold
    under sensitive keys leave the same row.  In any row written, each header
    whose name is sensitive in any letter case reads [REDACTED].  The row of a
    call that raises holds no header and no body, only the class of the
    exception and what [build_error_message] makes of it; that text is not
    redacted ([error_rows_leak] below). *)
Theorem outbound_row_hides_secrets sens svc rid elapsed :
  (forall r r', same_call sens r r' ->
     outbound_row decode_utf8 json_loads s sens svc rid (Ok r) elapsed =
     outbound_row decode_utf8 json_loads s sens svc rid (Ok r') elapsed) /\
  (forall o row col h k v, outbound_row decode_utf8 json_loads s sens svc rid o elapsed = Ok row ->
     col ∈ ["request_headers"; "response_headers"] -> od_get col row = Some (VDict h) ->
     (KStr k, v) ∈ h -> str_in (lower k) sens = true -> v = VStr "[REDACTED]") /\
  (forall e row, outbound_row decode_utf8 json_loads s sens svc rid (Raise e) elapsed = Ok row ->
     od_get "request_headers" row = Some (VDict []) /\ od_get "response_headers" row = Some (VDict []) /\
     od_get "request_body" row = Some VNone /\ od_get "response_body" row = Some VNone /\
     od_get "url" row = Some (VStr "") /\ od_get "extra" row = Some (VDict []) /\
     od_get "error" row = Some (VDict [(KStr "type", VStr (exn_type_name e));
                                       (KStr "message", VStr (build_error_message e))])).
Proof using enabled.
  split; [|split].
  - intros r r' [Hst Hb Hh Hr]. unfold outbound_row. rewrite Hst, (serialize_same_body _ _ None Hb).
    rewrite (redact_same_headers _ _ _ Hh).
    destruct Hr as [->|(d & d' & -> & -> & Hu & Hm & Hrh & Hrb)]; [done|].
    rewrite Hu, Hm, (redact_same_headers _ _ _ Hrh), (serialize_same_body _ _ None Hrb). done.
  - intros o row col h k v Hrow Hcol Hget Hin Hk.
    assert (Hred : forall h0 h1, redact_headers sens h0 = Ok h1 -> (KStr k, v) ∈ h1 -> v = VStr "[REDACTED]").
    { intros h0 h1 Hf%redact_headers_spec Hin1. apply list_elem_of_lookup in Hin1 as [i Hi].
      destruct (Forall2_lookup_r _ _ _ _ _ Hf Hi) as ([k0 v0] & _ & Hk0 & k1 & Hk1 & Hv1).
      cbn [fst snd] in *. subst k0. injection Hk1 as <-. by rewrite Hk in Hv1. }
    destruct o as [r|e]; unfold outbound_row in Hrow.
    + repeat (apply result_bind_ok in Hrow as (? & ? & Hrow)). injection Hrow as <-.
      revert Hcol. rewrite !elem_of_cons, elem_of_nil.
      intros [->|[->|[]]]; cbn in Hget; injection Hget as <-; eauto.
    + injection Hrow as <-. revert Hcol. rewrite !elem_of_cons, elem_of_nil.
      intros [->|[->|[]]]; cbn in Hget; injection Hget as <-; by apply elem_of_nil in Hin.
  - intros e row [= <-]. by split_and!.
Qed.
End hiding.

(** What an upstream error response said, its tokens included, reaches the row
    of the call that raised it. *)
Example error_rows_leak :
  contains "access_token=abc123" (build_error_message
    (Custom (api_error (Some "upstream refused") None (Some "access_token=abc123") None None))) = true.
Proof. by vm_compute. Qed.


(** ** Multipart forms *)

Lemma scalar_fold_keys fields (acc : list (pykey * pyval)) :
  (forall k, k ∈ acc.*1 -> k ∈ (fold_left scalar_step fields acc).*1) /\
  (forall e v, e ∈ fields -> od_get (KStr "value") e = Some v ->
     KStr (entry_name e) ∈ (fold_left scalar_step fields acc).*1).
Proof.
  revert acc. induction fields as [|e0 fields IH]; intros acc; [split; [done|by intros e v []%elem_of_nil]|].
  cbn [fold_left]. set (acc' := scalar_step acc e0).
  destruct (IH acc') as [Hk Hf].
  assert (Hacc : forall k, k ∈ acc.*1 -> k ∈ acc'.*1).
  { intros k Hin. unfold acc', scalar_step. destruct (od_get _ e0); [|done]. rewrite od_set_keys.
    destruct (decide _); [done|]. rewrite elem_of_app. auto. }
  split; [auto|]. intros e v [->|He]%elem_of_cons Hv; [|by eapply Hf].
  apply Hk. unfold acc', scalar_step. rewrite Hv, od_set_keys. destruct (decide _); [done|].
  rewrite elem_of_app, list_elem_of_singleton. auto.
Qed.

Lemma dict_fold_mask cfg rec (d acc : list (pykey * pyval)) n :
  SENSITIVE_PATTERN cfg n = true -> str_in (lower n) (EXCLUDED_FIELDS cfg) = false ->
  KStr n ∈ d.*1 \/ od_get (KStr n) acc = Some (VStr (MASK_VALUE cfg)) ->
  od_get (KStr n) (fold_left (dict_entry cfg rec) d acc) = Some (VStr (MASK_VALUE cfg)).
Proof.
  intros Hs Hx. revert acc. induction d as [|[k v] d IH]; intros acc H.
  - destruct H as [H|H]; [by apply elem_of_nil in H|done].
  - cbn [fold_left]. apply IH. unfold dict_entry. cbn [fst snd].
    assert (Hkeep : str_key k <> n -> KStr n ∈ d.*1 \/ od_get (KStr n) acc = Some (VStr (MASK_VALUE cfg))).
    { intros Hne. destruct H as [H|H]; [|by right]. rewrite fmap_cons in H.
      apply elem_of_cons in H as [E|H]; [|by left].
      destruct Hne. simpl in E. by rewrite <- E. }
    destruct (decide (str_key k = n)) as [<-|Hne].
    + rewrite Hx, Hs. right. apply od_get_set_eq.
    + specialize (Hkeep Hne). destruct (str_in (lower (str_key k)) _); [done|].
      destruct (SENSITIVE_PATTERN cfg (str_key k)); rewrite od_get_set_ne by congruence; done.
Qed.

(** What the summary of a multipart form keeps.  File entries are kept as
    they are.  A scalar field under a sensitive name shows the mask, if the
    form has no more scalar names than the dictionary limit and the name is
    not also an excluded field; but a field whose name is excluded, which is
    what the settings do to [password], [api_key] and [access_token], is
    dropped from the redacted view and so keeps its plain value. *)
Theorem multipart_redaction cfg form fields :
  SANITIZE_ENABLED cfg = true -> form_entries form = Some fields ->
  exists es, summarise_body_for_audit cfg (FormBody form) =
      Some (VDict [(KStr "__multipart__", VBool true); (KStr "fields", VList (VDict <$> es))]) /\
    Forall2 (fun e e' =>
      (od_get (KStr "value") e = None -> e' = e) /\
      (str_in (lower (entry_name e)) (EXCLUDED_FIELDS cfg) = true -> entry_name e <> "__truncated__" ->
         e' = e) /\
      (is_Some (od_get (KStr "value") e) ->
       SENSITIVE_PATTERN cfg (entry_name e) = true ->
       str_in (lower (entry_name e)) (EXCLUDED_FIELDS cfg) = false ->
       (Z.of_nat (length (scalar_view fields)) <= MAX_DICT_KEYS cfg)%Z ->
       od_get (KStr "value") e' = Some (VStr (MASK_VALUE cfg)))) fields es.
Proof.
  intros He Hf. unfold summarise_body_for_audit. rewrite Hf. cbn [mbind option_bind]. cbv zeta.
  set (red := sanitize_for_log cfg (VDict (scalar_view fields)) None None None).
  exists (redact_entry red <$> fields). split; [by rewrite <- list_fmap_compose|].
  apply Forall2_fmap_r, Forall_Forall2_diag, list.Forall_forall. intros e Hin.
  assert (Hred : red = sanitize_dict_for_log cfg (MAX_DICT_KEYS cfg)
    (sanitize_value cfg (z_or None (MAX_STRING_LENGTH cfg)) (MAX_DICT_KEYS cfg)
       (z_or None (MAX_LIST_ITEMS cfg)) 5) (scalar_view fields)).
  { unfold red, sanitize_for_log. by rewrite He. }
  clearbody red. set (rec := sanitize_value _ _ _ _ _) in Hred. unfold sanitize_dict_for_log in Hred.
  cbv zeta in Hred. split_and!.
  - intros Hv. unfold redact_entry. by rewrite Hv.
  - intros Hx Hn. unfold redact_entry. destruct (od_get _ e); [|done].
    assert (dict_get (entry_name e) red = None) as ->; [|done].
    destruct (dict_entry_fold cfg rec (take (Z.to_nat (MAX_DICT_KEYS cfg)) (scalar_view fields)) [])
      as [_ Hin'].
    set (res := fold_left _ _ _) in *.
    assert (Hres : od_get (KStr (entry_name e)) res = None).
    { destruct (od_get _ res) as [v|] eqn:Ev; [|done]. apply od_get_elem, Hin' in Ev.
      destruct Ev as [Ev|(k & v' & _ & [= Hk] & Hk' & _)]; [by apply elem_of_nil in Ev|].
      rewrite <- Hk in Hk'. congruence. }
    rewrite Hred. cbn [dict_get]. destruct (_ <? _)%Z; [|done]. rewrite od_get_set_ne by congruence. done.
  - intros [v Hv] Hs Hx Hl. unfold redact_entry. rewrite Hv, Hred. cbn [dict_get].
    destruct (_ <? _)%Z eqn:E; [apply Z.ltb_lt in E; lia|].
    rewrite (dict_fold_mask cfg rec _ [] (entry_name e) Hs Hx); [by rewrite od_get_set_eq|].
    left. rewrite firstn_all2 by lia. by eapply scalar_fold_keys.
Qed.

(** ** Examples and witnesses *)

(** The deployed settings: [LOG_EXCLUDED_FIELDS] has its default. *)
Definition deployed_sanitization : san_config :=
  SanConfig true 200 20 10 (search_any sensitive_words) "***REDACTED***"
    ["password"; "secret_ref"; "api_key"; "private_key"; "access_token"].
Definition deployed : log_settings := LogSettings None 4096 0 "orm" 1000 4%Z deployed_sanitization.

Definition login_form : list (string * list form_item) :=
  [("password", [DataItem (VStr "hunter2")]); ("auth_token", [DataItem (VStr "abc")])].

Lemma multipart_redaction_witness :
  exists e1 e2, summarise_body_for_audit deployed_sanitization (FormBody login_form) =
      Some (VDict [(KStr "__multipart__", VBool true); (KStr "fields", VList [VDict e1; VDict e2])]) /\
    od_get (KStr "value") e1 = Some (VStr "hunter2") /\
    od_get (KStr "value") e2 = Some (VStr "***REDACTED***").
Proof.
  destruct (multipart_redaction deployed_sanitization login_form
    [[(KStr "name", VStr "password"); (KStr "value", VStr "hunter2")];
     [(KStr "name", VStr "auth_token"); (KStr "value", VStr "abc")]]) as (es & Hs & Hes);
    [reflexivity|reflexivity|].
  destruct es as [|e1 [|e2 [|? ?]]]; [by inversion Hes| |
    |apply Forall2_cons_1 in Hes as [_ Hes]; apply Forall2_cons_1 in Hes as [_ Hes]; by inversion Hes].
  { apply Forall2_cons_1 in Hes as [_ Hes]. by inversion Hes. }
  apply Forall2_cons_1 in Hes as [(_ & H1 & _) Hes]. apply Forall2_cons_1 in Hes as [(_ & _ & H2) _].
  exists e1, e2. split; [exact Hs|]. split.
  - by rewrite H1 by (vm_compute; done).
  - apply H2; [by eexists|by vm_compute..].
Defined.

Definition empty_pipeline : pipeline := Pipeline None None [].

Lemma dispatch_transparent_witness :
  exists p2, capture_and_dispatch (A:=unit) deployed (fun p => (Raise (Builtin "ValueError" "boom"), p))
      (without_log_id (fun _ _ => Ok [("direction", VStr "inbound")])) None None None "id-1" 3 empty_pipeline =
      (Raise (Builtin "ValueError" "boom"), p2) /\
    exists q2, pl_queue p2 = Some q2 /\ f_items q2 = [[("direction", VStr "inbound")]].
Proof.
  destruct (dispatch_transparent (A:=unit) deployed (fun p => (Raise (Builtin "ValueError" "boom"), p))
      (without_log_id (fun _ _ => Ok [("direction", VStr "inbound")])) None None None "id-1" 3 empty_pipeline
      (Raise (Builtin "ValueError" "boom")) empty_pipeline) as (p2 & Hc & q2 & Hq & Hi).
  - intros o n [id|] e; [by intros [= <-]|done].
  - reflexivity.
  - exists p2. split; [exact Hc|]. exists q2. split; [exact Hq|exact (proj1 Hi)].
Defined.

(** Two calls with different bearer tokens and passwords. *)
Definition sample_call (bearer pw : string) : http_result :=
  HttpResult (Some (VDict [(KStr "url", VStr "https://p"); (KStr "method", VStr "POST");
      (KStr "headers", VDict [(KStr "Authorization", VStr bearer)]);
      (KStr "body", VDict [(KStr "password", VStr pw)])]))
    (Some (VInt 200)) (Some (VDict [])) None.

Lemma outbound_row_hides_secrets_witness :
  outbound_row (fun x => x) (fun _ => Raise (Builtin "ValueError" "")) deployed
    (lowered_headers None) "partner" None (Ok (sample_call "Bearer a" "x")) 1 =
  outbound_row (fun x => x) (fun _ => Raise (Builtin "ValueError" "")) deployed
    (lowered_headers None) "partner" None (Ok (sample_call "Bearer b" "y")) 1.
Proof.
  apply (outbound_row_hides_secrets (fun x => x) (fun _ => Raise (Builtin "ValueError" "")) deployed eq_refl).
  split; [reflexivity|by left|constructor|]. right. eexists _, _. split_and!; try reflexivity.
  - cbn. constructor; [|constructor]. split; [done|]. left. by exists "Authorization".
  - right. eexists _, _, _, _. split_and!; try reflexivity; try discriminate.
    apply sp_dict. constructor; [|constructor]. split; [done|]. by left.
Defined.

(** A row never carries the log id its failure records would: neither
    decorator's builder takes it. *)
Lemma log_id_not_on_row dec loads s sens svc rid o elapsed row :
  outbound_row dec loads s sens svc rid o elapsed = Ok row -> od_get "log_id" row = None.
Proof.
  destruct o; unfold outbound_row; [|by intros [= <-]]. intros H.
  repeat (apply result_bind_ok in H as (? & ? & H)). by injection H as <-.
Qed.

(** A body of five characters under a limit of four is stored with sixteen. *)
Lemma serialize_body_over_limit :
  slen <$> serialize_body (fun x => x) (fun _ => Raise (Builtin "ValueError" "")) deployed
    (Some (VInt 12345)) (Some 4%Z) = Some 16.
Proof. reflexivity. Qed.
