(* ===== verification/Models.v ===== *)
(** * The declared models

    The model classes of [core/base/model.py], [accounts/models.py] and
    [core/api_log/models.py] as data: their columns with type, nullability,
    default and constraints.  From them come the schema the ORM model of [Orm]
    works over and the laws the other files ask of a schema.  Django's
    [AbstractUser] is a parameter. *)
From stdpp Require Import base list gmap strings pretty numbers.
From Stdlib Require Import Ascii Lia ZArith.
From S2P Require Import Prelude PyStr PyVal Exceptions Orm Service Cascade Rbac ApiKey Utils LogSanitize ApiLog.

(** ** Declarations *)

Inductive on_delete := CASCADE | SET_NULL.

Inductive field_type :=
| BigAutoField
| UUIDField
| CharField (max_length : nat)
| EncryptedCharField (max_length : nat)
| TextField
| EmailField
| URLField (max_length : nat)
| GenericIPAddressField
| BooleanField
| IntegerField
| FloatField
| DateTimeField
| JSONField
| ForeignKey (to : string) (rule : on_delete)
| ManyToManyField (to : string).

(** A field: [fd_default] is the declared default, [fd_auto] tells that the
    column is stamped at save ([auto_now], [auto_now_add]) or generated. *)
Record field := Field {
  fd_name : string;
  fd_type : field_type;
  fd_null : bool;
  fd_blank : bool;
  fd_unique : bool;
  fd_default : option pyval;
  fd_auto : bool;
  fd_choices : list string;
  fd_editable : bool;
  fd_index : bool;
}.

Definition fld (name : string) (t : field_type) : field :=
  Field name t false false false None false [] true false.
Definition nullable_ (f : field) : field :=
  Field (fd_name f) (fd_type f) true true (fd_unique f) (fd_default f) (fd_auto f) (fd_choices f)
    (fd_editable f) (fd_index f).
Definition blank_ (f : field) : field :=
  Field (fd_name f) (fd_type f) (fd_null f) true (fd_unique f) (fd_default f) (fd_auto f) (fd_choices f)
    (fd_editable f) (fd_index f).
Definition unique_ (f : field) : field :=
  Field (fd_name f) (fd_type f) (fd_null f) (fd_blank f) true (fd_default f) (fd_auto f) (fd_choices f)
    (fd_editable f) (fd_index f).
Definition default_ (v : pyval) (f : field) : field :=
  Field (fd_name f) (fd_type f) (fd_null f) (fd_blank f) (fd_unique f) (Some v) (fd_auto f) (fd_choices f)
    (fd_editable f) (fd_index f).
Definition auto_ (f : field) : field :=
  Field (fd_name f) (fd_type f) (fd_null f) (fd_blank f) (fd_unique f) (fd_default f) true (fd_choices f)
    (fd_editable f) (fd_index f).
Definition choices_ (l : list string) (f : field) : field :=
  Field (fd_name f) (fd_type f) (fd_null f) (fd_blank f) (fd_unique f) (fd_default f) (fd_auto f) l
    (fd_editable f) (fd_index f).
Definition hidden_ (f : field) : field :=
  Field (fd_name f) (fd_type f) (fd_null f) (fd_blank f) (fd_unique f) (fd_default f) (fd_auto f)
    (fd_choices f) false (fd_index f).
Definition index_ (f : field) : field :=
  Field (fd_name f) (fd_type f) (fd_null f) (fd_blank f) (fd_unique f) (fd_default f) (fd_auto f)
    (fd_choices f) (fd_editable f) true.

(** The [constraints] of a model's [Meta]. *)
Inductive constraint :=
| UniqueConstraint (fields : list string)
| CheckIn (field : string) (values : list string)
| CheckGte (field other : string).

Record model := Model {
  md_name : string;
  md_fields : list field;
  md_constraints : list constraint;
  md_ordering : list string;
}.

(** *** [core/base/model.py] *)
Definition AUTH_USER_MODEL : string := user_model.
Definition BaseModel_fields : list field :=
  [hidden_ (fld "id" BigAutoField);
   index_ (auto_ (fld "created_at" DateTimeField));
   nullable_ (fld "created_by" (ForeignKey AUTH_USER_MODEL SET_NULL));
   index_ (auto_ (fld "updated_at" DateTimeField));
   nullable_ (fld "updated_by" (ForeignKey AUTH_USER_MODEL SET_NULL));
   index_ (default_ (VBool true) (fld "is_active" BooleanField));
   nullable_ (fld "notes" JSONField)].
Definition BaseModel_constraints : list constraint := [CheckGte "updated_at" "created_at"].

Definition NamedBaseModel_fields : list field :=
  BaseModel_fields ++ [fld "name" (CharField 255); unique_ (fld "code" (CharField 100))].

(** *** [accounts/models.py] *)
Definition permission_model : string := "accounts.Permission".
Definition role_model : string := "accounts.Role".

Definition Permission : model :=
  Model permission_model
    [auto_ (fld "id" BigAutoField);
     choices_ Resource_values (fld "resource" (CharField 100));
     choices_ Action_values (fld "action" (CharField 20))]
    [UniqueConstraint ["resource"; "action"]; CheckIn "resource" Resource_values; CheckIn "action" Action_values]
    ["resource"; "action"].

Definition Role : model :=
  Model role_model
    [auto_ (fld "id" BigAutoField);
     unique_ (fld "name" (CharField 100));
     blank_ (fld "description" TextField);
     default_ (VBool false) (fld "is_superuser_role" BooleanField);
     default_ (VBool false) (fld "is_default" BooleanField);
     blank_ (fld "permissions" (ManyToManyField permission_model));
     index_ (auto_ (fld "created_at" DateTimeField));
     index_ (auto_ (fld "updated_at" DateTimeField))]
    [] ["name"].

(** [User]'s own columns, after those of [AbstractUser], whose [email] it
    redeclares. *)
Definition User_fields : list field :=
  [unique_ (fld "email" EmailField);
   nullable_ (fld "avatar_url" (URLField 500));
   default_ (VBool false) (fld "email_verified" BooleanField);
   blank_ (fld "roles" (ManyToManyField role_model));
   default_ (VStr "Asia/Kolkata") (fld "timezone" (CharField 50));
   nullable_ (fld "last_login_ip" GenericIPAddressField)].
Definition User (abstract_user : list field) : model :=
  Model user_model (filter (fun f => fd_name f <> "email") abstract_user ++ User_fields) [] ["-date_joined"].

Definition APIKey : model :=
  Model key_model
    (BaseModel_fields ++
     [fld "user" (ForeignKey user_model CASCADE);
      fld "name" (CharField 255);
      index_ (hidden_ (unique_ (fld "prefix" (CharField 8))));
      hidden_ (fld "secret" (EncryptedCharField 500));
      hidden_ (nullable_ (fld "last_used_at" DateTimeField));
      index_ (hidden_ (nullable_ (fld "revoked_at" DateTimeField)))])
    BaseModel_constraints ["-created_at"].

(** *** [core/api_log/models.py] *)
Definition Direction_choices : list string := ["inbound"; "outbound"].
Definition ApiLog : model :=
  Model "api_log.ApiLog"
    [auto_ (hidden_ (fld "id" UUIDField));
     choices_ Direction_choices (fld "direction" (CharField 16));
     fld "service_name" (CharField 128);
     index_ (fld "request_id" (CharField 128));
     fld "method" (CharField 16);
     fld "url" TextField;
     nullable_ (fld "status_code" IntegerField);
     nullable_ (fld "duration_ms" FloatField);
     blank_ (default_ (VDict []) (fld "request_headers" JSONField));
     nullable_ (fld "request_body" TextField);
     blank_ (default_ (VDict []) (fld "response_headers" JSONField));
     nullable_ (fld "response_body" TextField);
     nullable_ (fld "error" JSONField);
     blank_ (default_ (VDict []) (fld "extra" JSONField));
     index_ (auto_ (fld "created_at" DateTimeField));
     nullable_ (fld "ttl_expires_at" IntegerField)]
    [] ["-created_at"].

(** ** The schema of the application *)

Definition is_m2m (f : field) : bool := match fd_type f with ManyToManyField _ => true | _ => false end.

(** [field.get_default()] *)
Definition get_default (f : field) : pyval :=
  match fd_default f with
  | Some v => v
  | None =>
      if fd_null f then VNone
      else match fd_type f with
           | CharField _ | EncryptedCharField _ | TextField | EmailField | URLField _ => VStr ""
           | _ => VNone
           end
  end.

Definition concrete (m : model) : list field :=
  filter (fun f => is_m2m f = false /\ fd_name f <> "id") (md_fields m).

(** The reverse relation a field of model [m] declares on the model it points to. *)
Definition reverse (m : model) (target : string) (f : field) : list relation :=
  match fd_type f with
  | ForeignKey to rule =>
      if String.eqb to target
      then [Rel (md_name m) (fd_name f) (match rule with CASCADE => true | SET_NULL => false end) false]
      else []
  | ManyToManyField to => if String.eqb to target then [Rel (md_name m) (fd_name f) false false] else []
  | _ => []
  end.

Section app.
Context (abstract_user : list field).

Definition models : list model := [Permission; Role; User abstract_user; APIKey; ApiLog].

(** The foreign keys of a model and what they point to. *)
Definition foreign_keys (m : model) : list (string * string) :=
  f ← md_fields m;
  match fd_type f with ForeignKey to _ => [(fd_name f, to)] | _ => [] end.

Definition meta_of (m : model) : model_meta :=
  Meta ((fun f => (fd_name f, get_default f)) <$> concrete m)
       (m' ← models; f ← md_fields m'; reverse m' (md_name m) f)
       (foreign_keys m).

Definition app_schema : schema := fun name =>
  match List.find (fun m => String.eqb (md_name m) name) models with
  | Some m => meta_of m
  | None => Meta [] [] []
  end.

(** No model has a second [id]. *)
Lemma app_schema_id m : "id" ∉ (m_fields (app_schema m)).*1.
Proof.
  unfold app_schema. destruct (List.find _ _) as [md|]; [|by intros ?%elem_of_nil].
  unfold meta_of. simpl. rewrite <- list_fmap_compose. intros (f & Hf & Hin)%list_elem_of_fmap.
  simpl in Hf. apply list_elem_of_filter in Hin as [[_ Hne] _]. done.
Qed.

(** A foreign key that deletes with its target; [AbstractUser] has none. *)
Definition cascades (f : field) : bool :=
  match fd_type f with ForeignKey _ CASCADE => true | _ => false end.
Context (user_plain : existsb cascades abstract_user = false).

Lemma reverse_cascade m target f r :
  r ∈ reverse m target f -> rel_cascade r = true ->
  cascades f = true /\ rel_model r = md_name m /\ rel_fk r = fd_name f /\ rel_one_to_one r = false.
Proof.
  unfold reverse, cascades. destruct (fd_type f) as [| | | | | | | | | | | | |to [|]|]; try by intros ?%elem_of_nil.
  all: destruct (String.eqb _ _); [|by intros ?%elem_of_nil]; by intros ->%list_elem_of_singleton.
Qed.

(** Only [APIKey.user] is one. *)
Lemma cascading_model m f :
  m ∈ models -> f ∈ md_fields m -> cascades f = true -> m = APIKey /\ fd_name f = "user".
Proof.
  unfold models. rewrite !elem_of_cons, elem_of_nil. intros Hm Hf Hp.
  assert (Hno : forall l, existsb cascades l = false -> f ∉ l).
  { intros l Hl Hin%list_elem_of_In. assert (existsb cascades l = true) by (apply existsb_exists; eauto). congruence. }
  destruct Hm as [->|[->|[->|[->|[->|[]]]]]].
  - by destruct (Hno (md_fields Permission) eq_refl).
  - by destruct (Hno (md_fields Role) eq_refl).
  - simpl in Hf. apply elem_of_app in Hf as [Hf|Hf].
    + apply list_elem_of_filter in Hf as [_ Hf]. by destruct (Hno abstract_user user_plain).
    + by destruct (Hno User_fields eq_refl).
  - split; [done|]. revert Hf Hp. apply (list.Forall_forall (fun f => cascades f = true -> fd_name f = "user")).
    apply (bool_decide_unpack _). by vm_compute.
  - by destruct (Hno (md_fields ApiLog) eq_refl).
Qed.

(** The declared models keep what the soft-delete cascade needs of them:
    every cascading relation comes from a model with an [updated_at] column,
    is not one-to-one, and its foreign key is none of the columns the cascade
    writes. *)
Lemma app_cascade_schema `{Django} : dj_schema = app_schema -> cascade_schema.
Proof.
  intros Hs m. apply list.Forall_forall. intros r Hr Hc Ha. rewrite Hs in Hr |- *.
  unfold app_schema in Hr. destruct (List.find _ _) as [md|]; [|by apply elem_of_nil in Hr].
  unfold meta_of in Hr. cbn [m_related] in Hr. apply list_elem_of_bind in Hr as (m' & Hr & Hm').
  apply list_elem_of_bind in Hr as (f & Hr & Hf).
  destruct (reverse_cascade _ _ _ _ Hr Hc) as (Hp & Hmodel & Hfk & ->).
  destruct (cascading_model m' f Hm' Hf Hp) as [-> Hname]. rewrite Hmodel, Hfk, Hname.
  split_and!; [done|done|]. apply (bool_decide_unpack _). by vm_compute.
Qed.
End app.

(** The concrete installation of [ApiKey] has the declared columns. *)
Lemma key_fields_declared abstract_user :
  list_to_map (m_fields (app_schema abstract_user key_model)) =@{gmap string pyval} list_to_map key_fields.
Proof. reflexivity. Qed.
