(* ===== verification/Migrations.v ===== *)
(** * The migrations

    The migration files of [accounts] and [core/api_log] as data, and the
    project state they build, to be set against the model classes of [Models].
    Each operation changes the state as Django documents it; an operation on a
    model or field that is not there fails ([None]), as it does there.  What a
    field declares here is what [Models.field] records: type, nullability,
    uniqueness, default, choices, index and editability; labels and help texts
    are left out. *)
From stdpp Require Import base list gmap strings.
From Stdlib Require Import Lia.
From S2P Require Import Prelude PyStr PyVal Orm ApiKey Rbac Models.

(** ** State and operations *)

(** An index: its columns and the condition of a partial one. *)
Record index := Index { ix_fields : list string; ix_condition : list (string * pyval) }.

(** A model of the project state, in the terms of [Models.model]. *)
Record model_state := ModelState { ms_model : model; ms_indexes : list index }.
Abbreviation project_state := (gmap string model_state).

Inductive operation :=
| CreateModel (m : model) (indexes : list index)
| AddField (model_name : string) (f : field)
| RenameField (model_name old_name new_name : string)
| AlterField (model_name : string) (f : field)
| AddIndex (model_name : string) (ix : index)
| AddConstraint (model_name : string) (c : constraint).

Definition with_fields (fs : list field) (ms : model_state) : model_state :=
  let m := ms_model ms in
  ModelState (Model (md_name m) fs (md_constraints m) (md_ordering m)) (ms_indexes ms).
Definition has_named (name : string) (fs : list field) : bool :=
  existsb (fun f => String.eqb (fd_name f) name) fs.
Definition renamed (name : string) (f : field) : field :=
  Field name (fd_type f) (fd_null f) (fd_blank f) (fd_unique f) (fd_default f) (fd_auto f) (fd_choices f)
    (fd_editable f) (fd_index f).

(** What an operation does to the model it names. *)
Definition alter_model (op : operation) (ms : model_state) : option model_state :=
  let m := ms_model ms in
  let fs := md_fields m in
  match op with
  | CreateModel _ _ => None
  | AddField _ f => if has_named (fd_name f) fs then None else Some (with_fields (fs ++ [f]) ms)
  | RenameField _ old new =>
      if has_named old fs && negb (has_named new fs)
      then Some (with_fields ((fun f => if String.eqb (fd_name f) old then renamed new f else f) <$> fs) ms)
      else None
  | AlterField _ g =>
      if has_named (fd_name g) fs
      then Some (with_fields ((fun f => if String.eqb (fd_name f) (fd_name g) then g else f) <$> fs) ms)
      else None
  | AddIndex _ ix => Some (ModelState m (ms_indexes ms ++ [ix]))
  | AddConstraint _ c =>
      Some (ModelState (Model (md_name m) fs (md_constraints m ++ [c]) (md_ordering m)) (ms_indexes ms))
  end.

Definition op_model (op : operation) : string :=
  match op with
  | CreateModel m _ => md_name m
  | AddField n _ | RenameField n _ _ | AlterField n _ | AddIndex n _ | AddConstraint n _ => n
  end.

Definition apply_op (op : operation) (st : project_state) : option project_state :=
  match op, st !! op_model op with
  | CreateModel m ixs, None => Some (<[md_name m := ModelState m ixs]> st)
  | CreateModel _ _, Some _ => None
  | _, Some ms => ms' ← alter_model op ms; Some (<[op_model op := ms']> st)
  | _, None => None
  end.

Record migration := Migration {
  mg_key : string * string;
  mg_dependencies : list (string * string);
  mg_operations : list operation;
}.

Fixpoint apply_ops (ops : list operation) (st : project_state) : option project_state :=
  match ops with
  | [] => Some st
  | op :: ops' => st' ← apply_op op st; apply_ops ops' st'
  end.

(** Run the migrations in order; one may run when its dependencies are applied. *)
Fixpoint migrate (ms : list migration) (applied : list (string * string)) (st : project_state)
    : option (list (string * string) * project_state) :=
  match ms with
  | [] => Some (applied, st)
  | m :: ms' =>
      if forallb (fun d => bool_decide (d ∈ applied)) (mg_dependencies m)
      then st' ← apply_ops (mg_operations m) st; migrate ms' (mg_key m :: applied) st'
      else None
  end.

(** ** The files *)

(** *** [accounts/migrations/0001_initial.py] *)

(** The columns the migration records for [AbstractUser] and the key. *)
Definition abstract_user_0001 : list field :=
  [auto_ (fld "id" BigAutoField);
   fld "password" (CharField 128);
   nullable_ (fld "last_login" DateTimeField);
   default_ (VBool false) (fld "is_superuser" BooleanField);
   unique_ (fld "username" (CharField 150));
   blank_ (fld "first_name" (CharField 150));
   blank_ (fld "last_name" (CharField 150));
   default_ (VBool false) (fld "is_staff" BooleanField);
   default_ (VBool true) (fld "is_active" BooleanField);
   default_ (VObj "function" None "django.utils.timezone.now") (fld "date_joined" DateTimeField);
   blank_ (fld "groups" (ManyToManyField "auth.Group"));
   blank_ (fld "user_permissions" (ManyToManyField "auth.Permission"))].

Definition user_0001 : list field :=
  take 10 abstract_user_0001 ++
  [unique_ (fld "email" EmailField);
   nullable_ (fld "avatar_url" (URLField 500));
   default_ (VBool false) (fld "email_verified" BooleanField);
   default_ (VStr "Asia/Kolkata") (fld "timezone" (CharField 50));
   nullable_ (fld "last_login_ip" GenericIPAddressField)] ++
  drop 10 abstract_user_0001.

Definition apikey_0001 : list field :=
  [hidden_ (fld "id" BigAutoField);
   auto_ (fld "created_at" DateTimeField);
   auto_ (fld "updated_at" DateTimeField);
   index_ (default_ (VBool true) (fld "is_active" BooleanField));
   nullable_ (fld "notes" JSONField);
   fld "name" (CharField 255);
   index_ (hidden_ (unique_ (fld "prefix" (CharField 8))));
   hidden_ (fld "encrypted_key" (EncryptedCharField 500));
   hidden_ (nullable_ (fld "last_used_at" DateTimeField));
   hidden_ (nullable_ (fld "revoked_at" DateTimeField));
   nullable_ (fld "created_by" (ForeignKey user_model SET_NULL));
   nullable_ (fld "updated_by" (ForeignKey user_model SET_NULL));
   fld "user" (ForeignKey user_model CASCADE)].

Definition permission_0001 : model :=
  Model permission_model
    [auto_ (fld "id" BigAutoField);
     choices_ ["account"; "role"; "api_key"] (fld "resource" (CharField 100));
     choices_ ["create"; "read"; "update"; "delete"] (fld "action" (CharField 20))]
    [UniqueConstraint ["resource"; "action"]; CheckIn "resource" ["account"; "role"; "api_key"];
     CheckIn "action" ["create"; "read"; "update"; "delete"]]
    ["resource"; "action"].

Definition role_0001 : model :=
  Model role_model
    [auto_ (fld "id" BigAutoField);
     unique_ (fld "name" (CharField 100));
     blank_ (fld "description" TextField);
     default_ (VBool false) (fld "is_superuser_role" BooleanField);
     default_ (VBool false) (fld "is_default" BooleanField);
     auto_ (fld "created_at" DateTimeField);
     auto_ (fld "updated_at" DateTimeField);
     blank_ (fld "permissions" (ManyToManyField permission_model))]
    [] ["name"].

Definition accounts_0001 : migration :=
  Migration ("accounts", "0001_initial") [("auth", "0012_alter_user_first_name_max_length")]
    [CreateModel (Model user_model user_0001 [] ["-date_joined"]) [];
     CreateModel (Model key_model apikey_0001 [] ["-created_at"]) [];
     CreateModel permission_0001 [];
     CreateModel role_0001 [];
     AddField user_model (blank_ (fld "roles" (ManyToManyField role_model)))].

(** *** [accounts/migrations/0002_rename_apikey_encrypted_key_to_secret.py] *)
Definition accounts_0002 : migration :=
  Migration ("accounts", "0002_rename_apikey_encrypted_key_to_secret") [("accounts", "0001_initial")]
    [RenameField key_model "encrypted_key" "secret";
     AlterField key_model (hidden_ (fld "secret" (EncryptedCharField 500)))].

(** *** [accounts/migrations/0003_...py] *)
Definition accounts_0003 : migration :=
  Migration ("accounts", "0003_alter_apikey_created_at_alter_apikey_revoked_at_and_more")
    [("accounts", "0002_rename_apikey_encrypted_key_to_secret")]
    [AlterField key_model (index_ (auto_ (fld "created_at" DateTimeField)));
     AlterField key_model (index_ (hidden_ (nullable_ (fld "revoked_at" DateTimeField))));
     AlterField key_model (index_ (auto_ (fld "updated_at" DateTimeField)));
     AlterField role_model (index_ (auto_ (fld "created_at" DateTimeField)));
     AlterField role_model (index_ (auto_ (fld "updated_at" DateTimeField)));
     AddIndex key_model (Index ["prefix"] [("is_active", VBool true); ("revoked_at__isnull", VBool true)]);
     AddConstraint key_model (CheckGte "updated_at" "created_at")].

(** *** [core/api_log/migrations/0001_initial.py] *)
Definition api_log_0001 : migration :=
  Migration ("api_log", "0001_initial") []
    [CreateModel
       (Model "api_log.ApiLog"
          [auto_ (hidden_ (fld "id" UUIDField));
           choices_ ["inbound"; "outbound"] (fld "direction" (CharField 16));
           fld "service_name" (CharField 128);
           index_ (fld "request_id" (CharField 128));
           fld "method" (CharField 16);
           fld "url" TextField;
           nullable_ (fld "status_code" IntegerField);
           nullable_ (fld "duration_ms" FloatField);
           blank_ (default_ (VDict []) (fld "request_headers" JSONField));
           nullable_ (fld "request_body" TextField);
           blank_ (default_ (VDict []) (fld "response_headers" JSONField));
           nullable_ (fld "response_body" TextField);
           nullable_ (fld "error" JSONField);
           blank_ (default_ (VDict []) (fld "extra" JSONField));
           index_ (auto_ (fld "created_at" DateTimeField));
           nullable_ (fld "ttl_expires_at" IntegerField)]
          [] ["-created_at"])
       [Index ["service_name"; "created_at"] []; Index ["direction"; "created_at"] []]].

(** The [indexes] of the model classes' [Meta]. *)
Definition declared_indexes (m : string) : list index :=
  if String.eqb m key_model
  then [Index ["prefix"] [("is_active", VBool true); ("revoked_at__isnull", VBool true)]]
  else if String.eqb m "api_log.ApiLog"
  then [Index ["service_name"; "created_at"] []; Index ["direction"; "created_at"] []]
  else [].

Definition all_migrations : list migration := [accounts_0001; accounts_0002; accounts_0003; api_log_0001].

(** Django's own migration, applied before. *)
Definition auth_0012 : string * string := ("auth", "0012_alter_user_first_name_max_length").

(** ** The migrations build the declared models *)

(** Split the right-hand list of a permutation at the head of the left one. *)
Ltac split_at x l k :=
  lazymatch l with
  | x :: ?t => k (@nil field) t
  | ?y :: ?t => split_at x t ltac:(fun l1 l2 => k (y :: l1) l2)
  end.
Ltac same_fields :=
  repeat lazymatch goal with
         | |- [] ≡ₚ [] => constructor
         | |- ?x :: ?l ≡ₚ ?r =>
             split_at x r ltac:(fun l1 l2 => apply (Permutation_cons_app l1 l2 x); cbn [app])
         end.

(** One model of the state agrees with its declaration. *)
Definition as_declared (st : project_state) (m : model) : Prop :=
  exists ms, st !! md_name m = Some ms /\
    md_fields (ms_model ms) ≡ₚ md_fields m /\ md_constraints (ms_model ms) = md_constraints m /\
    md_ordering (ms_model ms) = md_ordering m /\ ms_indexes ms = declared_indexes (md_name m).

Lemma migrate_runs :
  fst <$> migrate all_migrations [auth_0012] ∅ = Some (rev (auth_0012 :: (mg_key <$> all_migrations))).
Proof. vm_compute. reflexivity. Qed.

(** The migrations run in their order from an empty project, each after the
    ones it depends on, and what they build is what the model classes declare:
    the same models and no others, each with the same columns (type,
    nullability, uniqueness, default, choices, index), constraints, ordering
    and indexes, so no model change is left without a migration.  [AbstractUser]
    enters with the columns the first migration records for it, apart from the
    [email] that [User] redeclares. *)
Theorem migrations_match_models abstract_user :
  filter (fun f => fd_name f <> "email") abstract_user ≡ₚ abstract_user_0001 ->
  exists applied st, migrate all_migrations [auth_0012] ∅ = Some (applied, st) /\
    dom st = list_to_set (md_name <$> models abstract_user) /\
    Forall (as_declared st) (models abstract_user).
Proof.
  intros Hu. destruct (migrate all_migrations [auth_0012] ∅) as [[applied st]|] eqn:E.
  2: { pose proof migrate_runs as H. by rewrite E in H. }
  exists applied, st. split; [done|].
  assert (Some (applied, st) = migrate all_migrations [auth_0012] ∅) as E' by done. clear E.
  assert (st = default ∅ (snd <$> migrate all_migrations [auth_0012] ∅)) as -> by (by rewrite <- E'). clear E'.
  split; [vm_compute; reflexivity|]. unfold models.
  repeat apply List.Forall_cons; [..|constructor].
  all: eexists; split; [vm_compute; reflexivity|]; (split; [|by split_and!]).
  3: change (md_fields (User abstract_user)) with
       (filter (fun f => fd_name f <> "email") abstract_user ++ User_fields); rewrite Hu.
  all: match goal with |- ?l ≡ₚ ?r =>
         let l' := eval vm_compute in l in let r' := eval vm_compute in r in change (l' ≡ₚ r')
       end; same_fields.
Qed.

(** [AbstractUser] declares an [email] of its own, which goes. *)
Lemma migrations_match_models_witness :
  exists applied st, migrate all_migrations [auth_0012] ∅ = Some (applied, st) /\
    dom st = list_to_set (md_name <$> models (abstract_user_0001 ++ [blank_ (fld "email" EmailField)])).
Proof.
  destruct (migrations_match_models (abstract_user_0001 ++ [blank_ (fld "email" EmailField)]))
    as (applied & st & Hm & Hd & _).
  - vm_compute. reflexivity.
  - exists applied, st. split; [exact Hm|exact Hd].
Defined.
