(* ===== verification/AdminSite.v ===== *)
(** * The registered admins

    The four [ModelAdmin] classes of [accounts/admin.py] and the inline bases of
    [core/base/admin.py] as data, over the model declarations of [Models], and
    Django's checks of an admin ([admin.E0xx], [admin.E1xx]) as functions: every
    name an admin uses is a field of the model it is used for, of the kind its
    place asks for. *)
From stdpp Require Import base list gmap strings.
From Stdlib Require Import Ascii Lia.
From S2P Require Import Prelude PyStr PyVal Orm Rbac ApiKey Admin Models Migrations.

Record model_admin := ModelAdmin {
  ma_model : string;
  ma_list_display : list string;
  ma_list_filter : list string;
  ma_search_fields : list string;
  ma_ordering : list string;
  ma_readonly_fields : list string;
  ma_filter_horizontal : list string;
  ma_autocomplete_fields : list string;
  (** The field sets of the change form and of the add form; [None] when the
      class leaves them to the form. *)
  ma_fieldsets : option (list fieldset * list fieldset);
}.

(** ** [accounts/admin.py] *)

Definition names (l : list string) : list item := FieldName <$> l.

Definition user_fieldsets : list fieldset :=
  [Fieldset None (names ["email"; "username"; "password"]) [];
   Fieldset (Some "Personal Info") (names ["first_name"; "last_name"; "avatar_url"]) [];
   Fieldset (Some "Permissions") (names ["is_active"; "is_staff"; "roles"]) [];
   Fieldset (Some "Auth Details")
     (names ["email_verified"; "timezone"; "last_login_ip"; "last_login"; "date_joined"]) []].
Definition user_add_fieldsets : list fieldset :=
  [Fieldset None (names ["email"; "username"; "password1"; "password2"; "first_name"; "last_name"; "is_staff";
                         "is_active"; "roles"]) ["wide"]].

Definition UserAdmin : model_admin := {|
  ma_model := user_model;
  ma_list_display := ["email"; "first_name"; "last_name"; "is_staff"; "is_active"];
  ma_list_filter := ["is_staff"; "is_active"; "roles"];
  ma_search_fields := ["email"; "first_name"; "last_name"];
  ma_ordering := ["email"];
  ma_readonly_fields := ["date_joined"; "last_login"; "last_login_ip"];
  ma_filter_horizontal := ["roles"];
  ma_autocomplete_fields := [];
  ma_fieldsets := Some (user_fieldsets, user_add_fieldsets) |}.

Definition PermissionAdmin : model_admin := {|
  ma_model := permission_model;
  ma_list_display := ["resource"; "action"];
  ma_list_filter := ["action"];
  ma_search_fields := ["resource"];
  ma_ordering := ["resource"; "action"];
  ma_readonly_fields := [];
  ma_filter_horizontal := [];
  ma_autocomplete_fields := [];
  ma_fieldsets := None |}.

Definition RoleAdmin : model_admin := {|
  ma_model := role_model;
  ma_list_display := ["name"; "is_superuser_role"; "is_default"; "created_at"];
  ma_list_filter := ["is_superuser_role"; "is_default"];
  ma_search_fields := ["name"];
  ma_ordering := ["name"];
  ma_readonly_fields := [];
  ma_filter_horizontal := ["permissions"];
  ma_autocomplete_fields := [];
  ma_fieldsets := None |}.

(** Its field sets and read-only fields go through [Admin.key_get_fieldsets]
    and [Admin.key_get_readonly_fields]. *)
Definition APIKeyAdmin : model_admin := {|
  ma_model := key_model;
  ma_list_display := ["name"; "prefix"; "user"; "is_active"; "last_used_at"; "created_at"];
  ma_list_filter := ["is_active"];
  ma_search_fields := ["name"; "prefix"; "user__email"];
  ma_ordering := ["-created_at"];
  ma_readonly_fields := key_readonly_fields;
  ma_filter_horizontal := [];
  ma_autocomplete_fields := ["user"];
  ma_fieldsets := Some (key_get_fieldsets (Some tt), key_get_fieldsets (@None unit)) |}.

Definition site : list model_admin := [UserAdmin; PermissionAdmin; RoleAdmin; APIKeyAdmin].

(** The forms of an admin: what is shown and what of it is read-only, on the
    change form and on the add form. *)
Definition forms (a : model_admin) : list (list string * gset string) :=
  match ma_fieldsets a with
  | None => []
  | Some (change, add) =>
      if String.eqb (ma_model a) key_model
      then [(shown change, key_get_readonly_fields (Some tt)); (shown add, key_get_readonly_fields (@None unit))]
      else [(shown change, list_to_set (ma_readonly_fields a)); (shown add, list_to_set (ma_readonly_fields a))]
  end.

(** [BaseTabularInline.readonly_fields] and
    [BaseGenericTabularInline.readonly_fields] *)
Definition inline_readonly_fields : list string := ["created_by"; "updated_by"; "created_at"; "updated_at"].

(** ** Django's checks *)

(** A lookup split at its double underscores. *)
Fixpoint lookup_parts (skip : nat) (s : string) : list string :=
  match s, skip with
  | EmptyString, _ => [""]
  | String _ s', S n => lookup_parts n s'
  | String c s', O =>
      if startswith "__" s then "" :: lookup_parts 1 s'
      else match lookup_parts 0 s' with p :: ps => String c p :: ps | [] => [] end
  end.

Section checks.
(** [AbstractUser]'s columns, and the fields [UserCreationForm] declares. *)
Context (abstract_user : list field) (declared : list string).

(** Some field of the model of this name meets the test. *)
Definition has (test : field -> bool) (model_name name : string) : bool :=
  existsb (fun m => String.eqb (md_name m) model_name &&
                    existsb (fun f => String.eqb (fd_name f) name && test f) (md_fields m))
    (models abstract_user).

Definition any_field (f : field) : bool := true.
Definition points_to (target : string) (f : field) : bool :=
  match fd_type f with ForeignKey to _ => String.eqb to target | ManyToManyField to => String.eqb to target | _ => false end.

Fixpoint resolves (model_name : string) (parts : list string) : bool :=
  match parts with
  | [] => false
  | [name] => has any_field model_name name
  | name :: parts' =>
      existsb (fun target => has (points_to target) model_name name && resolves target parts')
        [permission_model; role_model; user_model; key_model; "api_log.ApiLog"]
  end.

Definition check_list_display (a : model_admin) : bool :=
  forallb (has (fun f => negb (is_m2m f)) (ma_model a)) (ma_list_display a).
Definition check_lookups (a : model_admin) : bool :=
  forallb (fun n => resolves (ma_model a) (lookup_parts 0 n)) (ma_list_filter a ++ ma_search_fields a).
Definition check_ordering (a : model_admin) : bool :=
  forallb (fun n => has any_field (ma_model a) (if startswith "-" n then sdrop 1 n else n)) (ma_ordering a).
Definition check_readonly (a : model_admin) : bool :=
  forallb (has any_field (ma_model a)) (ma_readonly_fields a).
Definition check_filter_horizontal (a : model_admin) : bool :=
  forallb (has is_m2m (ma_model a)) (ma_filter_horizontal a).

(** The related model is registered with an admin that can be searched. *)
Definition check_autocomplete (a : model_admin) : bool :=
  forallb (fun n => existsb (fun b => has (points_to (ma_model b)) (ma_model a) n &&
                                      negb (bool_decide (ma_search_fields b = []))) site)
    (ma_autocomplete_fields a).

(** A form can show a read-only field of the model, one that is editable, or
    one the form class declares; and none twice. *)
Definition form_field_ok (a : model_admin) (readonly : gset string) (n : string) : bool :=
  if bool_decide (n ∈ readonly) then has any_field (ma_model a) n
  else has fd_editable (ma_model a) n || (String.eqb (ma_model a) user_model && str_in n declared).
Definition check_fieldsets (a : model_admin) : bool :=
  forallb (fun form : list string * gset string =>
    bool_decide (NoDup form.1) && forallb (form_field_ok a form.2) form.1) (forms a).

Definition check (a : model_admin) : bool :=
  check_list_display a && check_lookups a && check_ordering a && check_readonly a &&
  check_filter_horizontal a && check_autocomplete a && check_fieldsets a.

(** What a form on a model can write. *)
Definition writable (model_name : string) : list string :=
  a ← filter (fun a => ma_model a = model_name) site; form ← forms a; filter (fun n => n ∉ form.2) form.1.
End checks.

(** ** Lemmas *)

(** The checks see the fields of [AbstractUser] as a set. *)
Lemma has_perm au1 au2 test m n :
  filter (fun f => fd_name f <> "email") au1 ≡ₚ filter (fun f => fd_name f <> "email") au2 ->
  has au1 test m n = has au2 test m n.
Proof.
  intros Hp. unfold has, models. cbn [existsb].
  assert (He : existsb (fun f => String.eqb (fd_name f) n && test f) (md_fields (User au1)) =
               existsb (fun f => String.eqb (fd_name f) n && test f) (md_fields (User au2))); [|by rewrite He].
  cbn [md_fields User]. rewrite !existsb_app. f_equal.
  apply eq_true_iff_eq. rewrite !existsb_exists.
  split; intros (f & Hin%list_elem_of_In & Hf); exists f; (split; [|done]); apply list_elem_of_In.
  - by rewrite <- Hp.
  - by rewrite Hp.
Qed.

Section agree.
Context (au1 au2 : list field).
Context (same : forall test m n, has au1 test m n = has au2 test m n).

Lemma resolves_agree parts : forall m, resolves au1 m parts = resolves au2 m parts.
Proof.
  induction parts as [|n [|n' parts] IH]; intros m; [done|apply same|].
  change (existsb (fun target => has au1 (points_to target) m n && resolves au1 target (n' :: parts))
            [permission_model; role_model; user_model; key_model; "api_log.ApiLog"] =
          existsb (fun target => has au2 (points_to target) m n && resolves au2 target (n' :: parts))
            [permission_model; role_model; user_model; key_model; "api_log.ApiLog"]).
  cbn [existsb]. by rewrite !same, !IH.
Qed.

(** More declared fields never hurt. *)
Lemma check_agree d1 d2 a : d1 ⊆ d2 -> check au2 d1 a = true -> check au1 d2 a = true.
Proof.
  intros Hd. unfold check. rewrite !andb_true_iff. intros ((((((H1 & H2) & H3) & H4) & H5) & H6) & H7).
  unfold check_list_display, check_lookups, check_ordering, check_readonly, check_filter_horizontal,
    check_autocomplete, check_fieldsets in *.
  rewrite forallb_forall in H1, H2, H3, H4, H5, H6, H7. rewrite !forallb_forall.
  split_and!; intros x Hx.
  - rewrite same. by apply H1.
  - rewrite resolves_agree. by apply H2.
  - rewrite same. by apply H3.
  - rewrite same. by apply H4.
  - rewrite same. by apply H5.
  - specialize (H6 x Hx). rewrite existsb_exists in H6 |- *. destruct H6 as (b & Hb & Hc). exists b. by rewrite same.
  - specialize (H7 x Hx). rewrite andb_true_iff, forallb_forall in H7 |- *. destruct H7 as [Hn Hf].
    split; [done|]. intros n Hin. specialize (Hf n Hin). unfold form_field_ok in *. rewrite !same.
    case_bool_decide; [done|]. rewrite orb_true_iff, andb_true_iff, str_in_spec in Hf |- *. naive_solver.
Qed.
End agree.

(** The registered admins meet Django's own checks, whatever else
    [AbstractUser] and [UserCreationForm] declare: every column a list shows is
    a field and no many-to-many one; every filter, search path (through
    [user__email] too), ordering and read-only name resolves to a field;
    [filter_horizontal] names many-to-many fields only; the user box of the key
    form completes against an admin that can be searched; and a form shows no
    name twice, and nothing but read-only fields, editable ones and those the
    form declares.  What the forms can write on a user does not include the
    superuser flag, groups or permissions of Django, so access is given through
    roles only; on a key it is the owner, name and active flag, never the secret. *)
Theorem admin_site_checks abstract_user declared
  (Hu : filter (fun f => fd_name f <> "email") abstract_user ≡ₚ abstract_user_0001)
  (Hd : "password1" ∈ declared /\ "password2" ∈ declared) :
  forallb (check abstract_user declared) site = true /\
  (forall f, f ∈ ["is_superuser"; "groups"; "user_permissions"] -> f ∉ writable user_model) /\
  (forall f, f ∈ writable key_model <-> f ∈ ["user"; "name"; "is_active"]).
Proof.
  assert (Hh : forall test m n, has abstract_user test m n = has abstract_user_0001 test m n).
  { intros test m n. apply has_perm. rewrite Hu. by vm_compute. }
  split; [|split].
  - rewrite forallb_forall. intros a Ha. apply (check_agree _ abstract_user_0001 Hh ["password1"; "password2"]).
    + intros n. rewrite !elem_of_cons, elem_of_nil. destruct Hd. naive_solver.
    + revert a Ha. apply forallb_forall. by vm_compute.
  - intros f. apply (list.Forall_forall (fun f => f ∉ writable user_model)). apply (bool_decide_unpack _). by vm_compute.
  - intros f. assert (He : writable key_model = ["name"; "is_active"; "user"; "name"]) by (by vm_compute).
    rewrite He, !elem_of_cons, elem_of_nil. tauto.
Qed.
Lemma admin_site_checks_witness :
  forallb (check (abstract_user_0001 ++ [blank_ (fld "email" EmailField)]) ["usable_password"; "password1"; "password2"]) site
    = true.
Proof.
  apply (admin_site_checks (abstract_user_0001 ++ [blank_ (fld "email" EmailField)])
           ["usable_password"; "password1"; "password2"]).
  - vm_compute. reflexivity.
  - split; apply (bool_decide_unpack _); vm_compute; reflexivity.
Defined.

(** The inline bases protect the audit fields, as the form base does. *)
Lemma inlines_protect_audit : list_to_set inline_readonly_fields = audit_fields.
Proof. apply (bool_decide_unpack _). by vm_compute. Qed.
