(* ===== verification/Settings.v ===== *)
(** * Settings

    [config/settings]: the environment helpers and the assignments and guards
    of [base.py], the five environment modules and the loader of
    [__init__.py].  A settings module is a list of statements executed in
    order over its namespace; the names of imported modules are left out, the
    checkout's path is symbolic, and a typographic dash is written [--].  The
    legacy-alias hook of the resilience kit, the parsed [.env] file and the
    Secrets Manager client are parameters. *)
From stdpp Require Import base list gmap strings pretty numbers.
From Stdlib Require Import Ascii Lia ZArith.
From S2P Require Import Prelude PyStr PyVal Exceptions.

Abbreviation environ := (list (string * string)).
Abbreviation ns := (list (string * pyval)).

Definition improperly (msg : string) : py_exn := Builtin "ImproperlyConfigured" msg.
Definition value_error (msg : string) : py_exn := Builtin "ValueError" msg.
Definition name_error (x : string) : py_exn :=
  Builtin "NameError" ("name '" +:+ x +:+ "' is not defined").

(** ** The environment *)

(** [os.getenv(name)] and [os.getenv(name, default)]. *)
Definition getenv (env : environ) (name : string) : option string := od_get name env.
Definition getenv_or (env : environ) (name default : string) : string :=
  match getenv env name with Some v => v | None => default end.

(** [os.environ.setdefault] *)
Definition setdefault (name v : string) (env : environ) : environ := od_setdefault name v env.

Definition _env_int (env : environ) (name default : string) : result py_exn Z :=
  let value := getenv_or env name default in
  match parse_int value with
  | Some z => Ok z
  | None => Raise (improperly (name +:+ "=" +:+ repr_str value +:+ " is not a valid integer"))
  end.

Definition _env_bool (env : environ) (name default : string) : result py_exn bool :=
  let value := lower (strip (getenv_or env name default)) in
  if str_in value ["true"; "1"; "yes"; "on"] then Ok true
  else if str_in value ["false"; "0"; "no"; "off"; ""] then Ok false
  else Raise (improperly (name +:+ "=" +:+ repr_str value +:+ " is not a valid boolean")).

(** [[x.strip() for x in s.split(",") if x.strip()]] *)
Definition csv (s : string) : list string := filter (fun x => str_true x = true) (strip <$> split_char "," s).
Definition vstrs (l : list string) : pyval := VList (VStr <$> l).
Definition vdict (d : list (string * pyval)) : pyval := VDict ((fun kv : string * pyval => (KStr kv.1, kv.2)) <$> d).

(** ** Statements *)

Definition expr := environ -> ns -> result py_exn pyval.
Definition cond := environ -> ns -> bool.

Inductive stmt :=
| Assign (x : string) (e : expr)
| AssignIf (c : cond) (x : string) (e : expr)
| RaiseIf (c : cond) (e : py_exn).

Definition exec_stmt (env : environ) (s : stmt) (n : ns) : result py_exn ns :=
  match s with
  | Assign x e => v ← e env n; Ok (od_set x v n)
  | AssignIf c x e => if c env n then v ← e env n; Ok (od_set x v n) else Ok n
  | RaiseIf c e => if c env n then Raise e else Ok n
  end.

Fixpoint exec (env : environ) (prog : list stmt) (n : ns) : result py_exn ns :=
  match prog with
  | [] => Ok n
  | s :: prog' => n' ← exec_stmt env s n; exec env prog' n'
  end.

(** Expressions. *)
Definition lit (v : pyval) : expr := fun _ _ => Ok v.
Definition str (s : string) : expr := lit (VStr s).
Definition bool_ (b : bool) : expr := lit (VBool b).
Definition from_env (f : environ -> pyval) : expr := fun env _ => Ok (f env).
Definition var (x : string) : expr := fun _ n =>
  match od_get x n with Some v => Ok v | None => Raise (name_error x) end.
Definition env_opt (name : string) : expr := from_env (fun env =>
  match getenv env name with Some v => VStr v | None => VNone end).
Definition env_str (name default : string) : expr := from_env (fun env => VStr (getenv_or env name default)).
Definition env_is (name default value : string) : expr := from_env (fun env =>
  VBool (String.eqb (getenv_or env name default) value)).
Definition env_csv (name default : string) : expr := from_env (fun env => vstrs (csv (getenv_or env name default))).

(** [[x.strip() for x in s.split(",") if x.strip()]] over a name. *)
Definition csv_var (x : string) : expr := fun env n =>
  v ← var x env n;
  match v with
  | VStr s => Ok (vstrs (csv s))
  | _ => Raise (Builtin "AttributeError" "object has no attribute 'split'")
  end.
(** [os.getenv(name, default).strip()] *)
Definition env_strip (name default : string) : expr := from_env (fun env => VStr (strip (getenv_or env name default))).
(** An object built by a call, known by its text. *)
Definition call (cls text : string) : expr := lit (VObj cls (Some text) text).

(** A call of [_env_int] or [_env_bool] through the module's own namespace. *)
Definition env_int (name default : string) : expr := fun env n =>
  match od_get "_env_int" n with
  | Some _ => z ← _env_int env name default; Ok (VInt z)
  | None => Raise (name_error "_env_int")
  end.
Definition env_bool (name default : string) : expr := fun env n =>
  match od_get "_env_bool" n with
  | Some _ => b ← _env_bool env name default; Ok (VBool b)
  | None => Raise (name_error "_env_bool")
  end.
Fixpoint eval_items (items : list (string * expr)) (env : environ) (n : ns)
    : result py_exn (list (string * pyval)) :=
  match items with
  | [] => Ok []
  | (k, e) :: items' => v ← e env n; d ← eval_items items' env n; Ok ((k, v) :: d)
  end.
Definition dict (items : list (string * expr)) : expr := fun env n =>
  d ← eval_items items env n; Ok (vdict d).

(** [a or b] on expressions. *)
Definition or_expr (a b : expr) : expr := fun env n =>
  v ← a env n; if truthy v then Ok v else b env n.

(** ** [base.py] *)

Definition helpers : list stmt :=
  [Assign "_env_int" (lit (VObj "function" (Some "_env_int") "<function _env_int>"));
   Assign "_env_bool" (lit (VObj "function" (Some "_env_bool") "<function _env_bool>"))].

Definition unset (name : string) : cond := fun env _ => negb (str_true (getenv_or env name "")).

(** [Path(__file__).resolve().parent.parent.parent], by its place. *)
Definition project_path (sub : string) : expr := call "PosixPath" ("BASE_DIR" +:+ sub).

Definition core_settings : list stmt :=
  [Assign "BASE_DIR" (project_path "");
   Assign "SECRET_KEY" (env_opt "SECRET_KEY");
   RaiseIf (unset "SECRET_KEY") (improperly
     "The SECRET_KEY environment variable is not set. Set it in your .env file or environment.");
   Assign "DEBUG" (env_is "DEBUG" "False" "True");
   Assign "ALLOWED_HOSTS" (env_csv "ALLOWED_HOSTS" "");
   Assign "CSRF_TRUSTED_ORIGINS" (env_csv "CSRF_TRUSTED_ORIGINS" "")].

Definition app_settings : list stmt :=
  [Assign "INSTALLED_APPS" (lit (vstrs
     ["unfold"; "unfold.contrib.filters"; "unfold.contrib.forms"; "django.contrib.admin";
      "django.contrib.auth"; "django.contrib.contenttypes"; "django.contrib.sessions";
      "django.contrib.messages"; "django.contrib.staticfiles"; "django.contrib.sites"; "rest_framework";
      "rest_framework_simplejwt.token_blacklist"; "drf_spectacular"; "corsheaders"; "django_celery_beat";
      "django_celery_results"; "allauth"; "allauth.account"; "allauth.socialaccount";
      "allauth.socialaccount.providers.google"; "dj_rest_auth"; "dj_rest_auth.registration"; "core";
      "core.api_log"; "resilience_kit.adapters.django"; "accounts"]));
   Assign "AUTH_USER_MODEL" (str "accounts.User");
   Assign "SITE_ID" (lit (VInt 1));
   Assign "MIDDLEWARE" (lit (vstrs
     ["django.middleware.security.SecurityMiddleware"; "whitenoise.middleware.WhiteNoiseMiddleware";
      "resilience_kit.adapters.django.middleware.SelectiveCorsMiddleware";
      "resilience_kit.adapters.django.middleware.SecurityHeadersMiddleware";
      "resilience_kit.adapters.django.middleware.BodyLimitMiddleware";
      "resilience_kit.adapters.django.middleware.RequestIdMiddleware";
      "core.middleware.bind_request_id.BindRequestIdMiddleware";
      "resilience_kit.adapters.django.middleware.ExceptionLoggingMiddleware";
      "django.contrib.sessions.middleware.SessionMiddleware"; "django.middleware.common.CommonMiddleware";
      "django.middleware.csrf.CsrfViewMiddleware"; "django.contrib.auth.middleware.AuthenticationMiddleware";
      "allauth.account.middleware.AccountMiddleware"; "django.contrib.messages.middleware.MessageMiddleware";
      "django.middleware.clickjacking.XFrameOptionsMiddleware";
      "core.middleware.request_logging.RequestLoggingMiddleware";
      "resilience_kit.adapters.django.middleware.RateLimitHeadersMiddleware"]));
   Assign "ROOT_URLCONF" (str "config.urls");
   Assign "TEMPLATES" (lit (VList [vdict
     [("BACKEND", VStr "django.template.backends.django.DjangoTemplates"); ("DIRS", VList []);
      ("APP_DIRS", VBool true);
      ("OPTIONS", vdict [("context_processors", vstrs
         ["django.template.context_processors.debug"; "django.template.context_processors.request";
          "django.contrib.auth.context_processors.auth";
          "django.contrib.messages.context_processors.messages"])])]]));
   Assign "WSGI_APPLICATION" (str "config.wsgi.application")].

Definition database_settings : list stmt :=
  [Assign "DATABASES" (dict [("default", dict
     [("ENGINE", str "django.db.backends.postgresql"); ("NAME", env_str "POSTGRES_DB" "app");
      ("USER", env_str "POSTGRES_USER" "postgres"); ("PASSWORD", env_str "POSTGRES_PASSWORD" "postgres");
      ("HOST", env_str "POSTGRES_HOST" "localhost"); ("PORT", env_str "POSTGRES_PORT" "5432");
      ("CONN_MAX_AGE", env_int "DB_CONN_MAX_AGE" "600"); ("CONN_HEALTH_CHECKS", bool_ true)])]);
   Assign "AUTH_PASSWORD_VALIDATORS" (lit (VList
     ((fun v => vdict [("NAME", VStr ("django.contrib.auth.password_validation." +:+ v))]) <$>
        ["UserAttributeSimilarityValidator"; "MinimumLengthValidator"; "CommonPasswordValidator";
         "NumericPasswordValidator"])));
   Assign "LANGUAGE_CODE" (str "en-us"); Assign "TIME_ZONE" (str "Asia/Kolkata");
   Assign "USE_I18N" (bool_ true); Assign "USE_TZ" (bool_ true);
   Assign "STATIC_URL" (str "static/"); Assign "STATIC_ROOT" (project_path "/staticfiles");
   Assign "STORAGES" (lit (vdict [("staticfiles", vdict
     [("BACKEND", VStr "whitenoise.storage.CompressedManifestStaticFilesStorage")])]));
   Assign "DEFAULT_AUTO_FIELD" (str "django.db.models.BigAutoField");
   Assign "SESSION_ENGINE" (str "django.contrib.sessions.backends.cache");
   Assign "SESSION_CACHE_ALIAS" (str "default")].

(** [core/openapi/metadata.py]: the catalogue the schema settings import. *)
Definition nl : string := String (Ascii.ascii_of_nat 10) "".
Definition API_DESCRIPTION : string :=
  "Project API built on the django_boilerplate scaffold. Replace this " +:+
  "description in :data:`core.openapi.metadata.API_DESCRIPTION` with one " +:+
  "specific to your service." +:+ nl +:+ nl +:+
  "## Authentication" +:+ nl +:+ nl +:+
  "- **Bearer JWT** -- `POST /api/auth/login/` (or OAuth provider). " +:+
  "Pass as `Authorization: Bearer <token>`." +:+ nl +:+
  "- **API Key** -- `POST /api/accounts/api-keys/`. " +:+
  "Pass as `X-API-Key: <key>`." +:+ nl +:+ nl +:+
  "## Response Envelope" +:+ nl +:+ nl +:+
  "All responses share a common JSON envelope: `success`, `message`, " +:+
  "`data`, `errors`, `request_id`. Paginated list endpoints wrap items " +:+
  "under `data.items` with a `data.pagination` object." +:+ nl +:+ nl +:+
  "## Error Codes" +:+ nl +:+ nl +:+
  "Errors are returned as `{success: false, errors: [{code, message, " +:+
  "field, details}]}`. The `code` is UPPER_SNAKE_CASE and stable; the " +:+
  "`message` is human-readable and may change between versions. Common " +:+
  "codes:" +:+ nl +:+ nl +:+
  "| Code | Meaning |" +:+ nl +:+
  "| --- | --- |" +:+ nl +:+
  "| `AUTHENTICATION_FAILED` | Credentials missing or invalid (401). |" +:+ nl +:+
  "| `TOKEN_EXPIRED` | JWT `exp` elapsed -- refresh and retry (401). |" +:+ nl +:+
  "| `PERMISSION_DENIED` | Authenticated but lacking RBAC permission (403). |" +:+ nl +:+
  "| `ENTITY_NOT_FOUND` | Requested row does not exist (404). |" +:+ nl +:+
  "| `VALIDATION_ERROR` | Semantic / business-rule validation failed (400). |" +:+ nl +:+
  "| `RATE_LIMITED` | Throttle bucket exhausted (429). |" +:+ nl +:+
  "| `API_ERROR` | Outbound HTTP call failed (502). |" +:+ nl +:+
  "| `SERVICE_UNAVAILABLE` | Circuit breaker open (503). |" +:+ nl +:+ nl +:+
  "## Request Correlation" +:+ nl +:+ nl +:+
  "Every response carries a `request_id` (also surfaced in the " +:+
  "`X-Request-ID` response header). Clients may send their own " +:+
  "`X-Request-ID` header to thread their trace through this service." +:+ nl.
Definition TAGS_METADATA : pyval := VList ((fun t : string * string =>
  vdict [("name", VStr t.1); ("description", VStr t.2)]) <$>
  [("System", "Health and readiness probes. No auth required.");
   ("Auth", "Login, JWT token refresh, logout, and current-user profile.");
   ("API Keys", "Issue, list, and revoke service-account API keys.")]).

Definition DEFAULT_THROTTLE_RATES : list (string * expr) :=
  [("auth", env_str "RATE_LIMIT_AUTH" "20/hour"); ("auth_burst", env_str "RATE_LIMIT_AUTH_BURST" "5/min")].

Definition drf_settings : list stmt :=
  [Assign "AUTH_ENABLED_PROVIDERS" (lit (vstrs ["jwt"; "api_key"]));
   Assign "REST_FRAMEWORK" (dict
     [("DEFAULT_SCHEMA_CLASS", str "drf_spectacular.openapi.AutoSchema");
      ("DEFAULT_PAGINATION_CLASS", str "core.utils.pagination.StandardPageNumberPagination");
      ("PAGE_SIZE", lit (VInt 20));
      ("DEFAULT_RENDERER_CLASSES", lit (vstrs ["rest_framework.renderers.JSONRenderer"]));
      ("DEFAULT_PARSER_CLASSES", lit (vstrs ["rest_framework.parsers.JSONParser"]));
      ("DEFAULT_AUTHENTICATION_CLASSES", lit (vstrs ["core.auth.composite.CompositeAuthentication"]));
      ("DEFAULT_PERMISSION_CLASSES", lit (vstrs ["rest_framework.permissions.IsAuthenticated"]));
      ("EXCEPTION_HANDLER", str "core.exceptions.handler.api_exception_handler");
      ("DEFAULT_THROTTLE_CLASSES", lit (vstrs
         ["resilience_kit.adapters.django.drf_throttles.UserTierThrottle";
          "resilience_kit.adapters.django.drf_throttles.BurstThrottle"]));
      ("DEFAULT_THROTTLE_RATES", dict DEFAULT_THROTTLE_RATES);
      ("NUM_PROXIES", env_int "NUM_PROXIES" "0")]);
   Assign "API_DESCRIPTION" (str API_DESCRIPTION); Assign "TAGS_METADATA" (lit TAGS_METADATA);
   Assign "SPECTACULAR_SETTINGS" (dict
     [("TITLE", str "Django Boilerplate API"); ("DESCRIPTION", var "API_DESCRIPTION"); ("VERSION", str "0.1.0");
      ("SERVE_INCLUDE_SCHEMA", bool_ false); ("COMPONENT_SPLIT_REQUEST", bool_ true);
      ("SCHEMA_PATH_PREFIX", str "/api/");
      ("SECURITY", lit (VList [vdict [("jwtAuth", VList [])]; vdict [("apiKeyAuth", VList [])]]));
      ("TAGS", var "TAGS_METADATA")])].

Definition wildcard_cors : cond := fun env _ =>
  String.eqb (strip (getenv_or env "CORS_ALLOWED_ORIGINS" "http://localhost:3000,http://127.0.0.1:3000")) "*".
Definition cors_settings : list stmt :=
  let origins := env_str "CORS_ALLOWED_ORIGINS" "http://localhost:3000,http://127.0.0.1:3000" in
  [Assign "_cors_origins" origins;
   AssignIf wildcard_cors "CORS_ALLOW_ALL_ORIGINS" (bool_ true);
   AssignIf wildcard_cors "CORS_ALLOW_CREDENTIALS" (bool_ false);
   AssignIf (fun env n => negb (wildcard_cors env n)) "CORS_ALLOWED_ORIGINS"
     (env_csv "CORS_ALLOWED_ORIGINS" "http://localhost:3000,http://127.0.0.1:3000");
   AssignIf (fun env n => negb (wildcard_cors env n)) "CORS_ALLOW_CREDENTIALS" (bool_ true);
   Assign "_cors_excluded" (env_strip "CORS_EXCLUDED_PREFIXES" "");
   Assign "CORS_EXCLUDED_PREFIXES" (from_env (fun env =>
     VTuple (VStr <$> csv (strip (getenv_or env "CORS_EXCLUDED_PREFIXES" "")))))].

Definition valkey_cache (location : expr) (options extra : list (string * expr)) : expr :=
  dict ([("BACKEND", str "django_valkey.cache.ValkeyCache"); ("LOCATION", location);
         ("OPTIONS", dict options)] ++ extra).
Definition rate_limit_extra : list (string * expr) :=
  [("KEY_PREFIX", str "ratelimit"); ("TIMEOUT", lit (VInt 3600))].

Definition cache_settings : list stmt :=
  [Assign "_valkey_cache_url" (env_str "VALKEY_CACHE_URL" "valkey://localhost:6379/2");
   Assign "_valkey_rate_limit_url" (fun env n =>
     match getenv env "VALKEY_RATE_LIMIT_URL" with
     | Some v => Ok (VStr v)
     | None => var "_valkey_cache_url" env n
     end);
   Assign "CACHES" (dict
     [("default", valkey_cache (var "_valkey_cache_url") [] []);
      ("rate_limit", valkey_cache (var "_valkey_rate_limit_url") [] rate_limit_extra)]);
   Assign "USE_X_FORWARDED_FOR" (env_is "USE_X_FORWARDED_FOR" "False" "True");
   Assign "SSRF_BLOCK_PRIVATE_IPS" (env_is "SSRF_BLOCK_PRIVATE_IPS" "True" "True")].

Definition nav_item (title icon link : string) : pyval :=
  vdict [("title", VStr title); ("icon", VStr icon); ("link", VStr link)].
Definition admin_settings : list stmt :=
  [Assign "UNFOLD" (lit (vdict
     [("SITE_TITLE", VStr "Django Boilerplate"); ("SITE_HEADER", VStr "Django Boilerplate");
      ("SHOW_HISTORY", VBool true); ("SHOW_VIEW_ON_SITE", VBool true);
      ("SIDEBAR", vdict
         [("show_search", VBool true); ("show_all_applications", VBool false);
          ("navigation", VList
             [vdict [("title", VStr "Accounts"); ("items", VList
                [nav_item "Users" "people" "/admin/accounts/user/";
                 nav_item "Roles" "shield_person" "/admin/accounts/role/";
                 nav_item "Permissions" "lock" "/admin/accounts/permission/";
                 nav_item "API Keys" "key" "/admin/accounts/apikey/"])];
              vdict [("title", VStr "Celery"); ("items", VList
                [nav_item "Task Results" "task_alt" "/admin/django_celery_results/taskresult/";
                 nav_item "Periodic Tasks" "schedule" "/admin/django_celery_beat/periodictask/"])]])])]))].

Definition celery_settings : list stmt :=
  [Assign "CELERY_BROKER_URL" (env_str "CELERY_BROKER_URL" "");
   Assign "CELERY_RESULT_BACKEND" (env_str "CELERY_RESULT_BACKEND" "django-db");
   Assign "CELERY_BROKER_CONNECTION_RETRY_ON_STARTUP" (bool_ true);
   Assign "CELERY_ACCEPT_CONTENT" (lit (vstrs ["json"]));
   Assign "CELERY_TASK_SERIALIZER" (str "json"); Assign "CELERY_RESULT_SERIALIZER" (str "json");
   Assign "CELERY_RESULT_EXPIRES" (lit (VInt 3600)); Assign "CELERY_TIMEZONE" (var "TIME_ZONE");
   Assign "CELERY_TASK_TRACK_STARTED" (bool_ true);
   Assign "CELERY_TASK_TIME_LIMIT" (env_int "CELERY_TASK_TIME_LIMIT" "1800");
   Assign "CELERY_TASK_SOFT_TIME_LIMIT" (env_int "CELERY_TASK_SOFT_TIME_LIMIT" "1500");
   Assign "CELERY_TASK_ACKS_LATE" (bool_ true); Assign "CELERY_TASK_REJECT_ON_WORKER_LOST" (bool_ true);
   Assign "CELERY_WORKER_PREFETCH_MULTIPLIER" (env_int "CELERY_WORKER_PREFETCH_MULTIPLIER" "1");
   Assign "CELERY_WORKER_POOL" (str "threads");
   Assign "CELERY_WORKER_CONCURRENCY" (env_int "CELERY_WORKER_CONCURRENCY" "4");
   Assign "CELERY_WORKER_SEND_TASK_EVENTS" (env_bool "CELERY_SEND_EVENTS" "true");
   Assign "CELERY_TASK_SEND_SENT_EVENT" (env_bool "CELERY_SEND_EVENTS" "true");
   Assign "CELERY_BEAT_SCHEDULER" (str "django_celery_beat.schedulers:DatabaseScheduler");
   Assign "CELERY_TASK_QUEUES" (lit (VTuple
     ((fun q : string * string => VObj "kombu.Queue" (Some q.1) ("Queue('" +:+ q.1 +:+ "', routing_key='" +:+ q.2 +:+ "')"))
        <$> [("high_priority", "high"); ("default", "default"); ("low_priority", "low")])));
   Assign "CELERY_TASK_DEFAULT_QUEUE" (str "default");
   Assign "CELERY_TASK_DEFAULT_ROUTING_KEY" (str "default");
   Assign "CELERY_TASK_ROUTES" (dict [])].

(** The compiled mask pattern is given by its source. *)
Definition _BASE_MASK_PATTERN : string :=
  "password|passwd|secret|token|key|auth|credential|api_key|apikey|" +:+
  "private|session|cookie|bearer|jwt|access_token|refresh_token".
Definition combined_pattern (env : environ) : string :=
  let user := getenv_or env "LOG_MASK_PATTERN" "" in
  if str_true user then _BASE_MASK_PATTERN +:+ "|" +:+ user else _BASE_MASK_PATTERN.
Definition log_settings : list stmt :=
  [Assign "_BASE_MASK_PATTERN" (str _BASE_MASK_PATTERN);
   Assign "_user_mask_pattern" (env_str "LOG_MASK_PATTERN" "");
   Assign "_combined_pattern" (from_env (fun env => VStr (combined_pattern env)));
   Assign "_sensitive_pattern" (from_env (fun env =>
     VObj "Pattern" (Some (combined_pattern env)) (combined_pattern env)));
   Assign "LOG_SANITIZATION" (dict
     [("SANITIZE_ENABLED", from_env (fun env =>
         VBool (String.eqb (lower (getenv_or env "LOG_SANITIZE_ENABLED" "true")) "true")));
      ("MAX_STRING_LENGTH", env_int "LOG_MAX_STRING_LENGTH" "200");
      ("MAX_DICT_KEYS", env_int "LOG_MAX_DICT_KEYS" "20");
      ("MAX_LIST_ITEMS", env_int "LOG_MAX_LIST_ITEMS" "10");
      ("SENSITIVE_PATTERN", var "_sensitive_pattern");
      ("MASK_VALUE", str "***REDACTED***");
      ("EXCLUDED_FIELDS", from_env (fun env => VSet (VStr <$> split_char ","
         (lower (getenv_or env "LOG_EXCLUDED_FIELDS"
                   "password,secret_ref,api_key,private_key,access_token")))))])].

Definition resilience_settings : list stmt :=
  let lower_true name := from_env (fun env => VBool (String.eqb (lower (getenv_or env name "true")) "true")) in
  [Assign "RESILIENCE" (dict
     [("backend", env_str "RESILIENCE_BACKEND" "redis"); ("redis_url", var "_valkey_rate_limit_url");
      ("redis_key_prefix", env_str "CIRCUIT_BREAKER_KEY_PREFIX" "cb");
      ("fail_open", lower_true "RATE_LIMIT_FAIL_OPEN");
      ("defaults", dict
         [("circuit_breaker", dict
             [("fail_max", env_int "RESILIENCE_CB_FAIL_MAX" "5");
              ("reset_timeout", env_int "RESILIENCE_CB_RESET_TIMEOUT" "30")]);
          ("retry", dict
             [("max_attempts", env_int "RESILIENCE_RETRY_MAX_ATTEMPTS" "3");
              ("wait_min", env_int "RESILIENCE_RETRY_WAIT_MIN" "1");
              ("wait_max", env_int "RESILIENCE_RETRY_WAIT_MAX" "10");
              ("retry_on", lit (VTuple (VStr <$> ["resilience_kit.exceptions.TransientError";
                                                  "resilience_kit.exceptions.ExternalTimeoutError"])))]);
          ("throttle", dict
             [("anon_rate", env_str "RATE_LIMIT_ANON" "100/hour");
              ("user_rate", env_str "RATE_LIMIT_USER" "1000/hour");
              ("admin_rate", env_str "RATE_LIMIT_ADMIN" "5000/hour");
              ("burst_rate", env_str "RATE_LIMIT_BURST" "10/second");
              ("global_rate", env_str "RATE_LIMIT_GLOBAL" "10000/minute");
              ("auth_rate", env_str "RATE_LIMIT_AUTH" "5/min")])]);
      ("ssrf", dict
         [("block_private_ips", env_is "SSRF_BLOCK_PRIVATE_IPS" "True" "True");
          ("outbound_allowlist", env_csv "OUTBOUND_ALLOWLIST" "*")]);
      ("crypto", dict [("field_encryption_key", or_expr (env_opt "FIELD_ENCRYPTION_KEY") (var "SECRET_KEY"))]);
      ("audit", dict
         [("sink", env_str "AUDIT_SINK" "stdlib_logging");
          ("redact_fields", env_csv "AUDIT_REDACT_FIELDS" "password,token,secret,authorization,api_key")]);
      ("rate_limit_headers", dict [("enabled", lower_true "RATE_LIMIT_ENABLE_HEADERS")])])].

Definition auth_settings : list stmt :=
  [Assign "AUTHENTICATION_BACKENDS" (lit (vstrs
     ["accounts.backends.RBACBackend"; "allauth.account.auth_backends.AuthenticationBackend"]));
   Assign "ACCOUNT_LOGIN_METHODS" (lit (VSet [VStr "username"; VStr "email"]));
   Assign "ACCOUNT_SIGNUP_FIELDS" (lit (vstrs ["email*"; "password1*"; "password2*"]));
   Assign "ACCOUNT_EMAIL_VERIFICATION" (str "mandatory"); Assign "ACCOUNT_UNIQUE_EMAIL" (bool_ true);
   Assign "SOCIALACCOUNT_AUTO_SIGNUP" (bool_ true); Assign "SOCIALACCOUNT_EMAIL_VERIFICATION" (str "none");
   Assign "SOCIALACCOUNT_PROVIDERS" (dict [("google", dict
     [("SCOPE", lit (vstrs ["profile"; "email"]));
      ("AUTH_PARAMS", lit (vdict [("access_type", VStr "online")]));
      ("APP", dict [("client_id", env_str "GOOGLE_OAUTH2_CLIENT_ID" "");
                    ("secret", env_str "GOOGLE_OAUTH2_CLIENT_SECRET" "")]);
      ("VERIFIED_EMAIL", bool_ true)])]);
   Assign "ACCOUNT_ADAPTER" (str "accounts.adapters.CustomAccountAdapter");
   Assign "SOCIALACCOUNT_ADAPTER" (str "accounts.adapters.CustomSocialAccountAdapter");
   Assign "_redirect_uris" (env_str "GOOGLE_OAUTH_ALLOWED_REDIRECT_URIS" "");
   Assign "GOOGLE_OAUTH_ALLOWED_REDIRECT_URIS" (csv_var "_redirect_uris");
   Assign "REST_AUTH" (dict
     [("USE_JWT", bool_ true); ("TOKEN_MODEL", lit VNone); ("JWT_AUTH_COOKIE", str "app-auth");
      ("JWT_AUTH_REFRESH_COOKIE", str "app-refresh"); ("JWT_AUTH_HTTPONLY", bool_ true);
      ("JWT_AUTH_SAMESITE", str "Lax"); ("JWT_AUTH_RETURN_EXPIRATION", bool_ true);
      ("JWT_AUTH_SECURE", bool_ true); ("USER_DETAILS_SERIALIZER", str "accounts.serializers.UserSerializer");
      ("JWT_SERIALIZER", str "accounts.serializers.CustomJWTSerializer")]);
   Assign "SIMPLE_JWT" (dict
     [("ACCESS_TOKEN_LIFETIME", lit (VObj "timedelta" (Some "1:00:00") "datetime.timedelta(seconds=3600)"));
      ("REFRESH_TOKEN_LIFETIME", lit (VObj "timedelta" (Some "7 days, 0:00:00") "datetime.timedelta(days=7)"));
      ("ROTATE_REFRESH_TOKENS", bool_ true); ("BLACKLIST_AFTER_ROTATION", bool_ true);
      ("UPDATE_LAST_LOGIN", bool_ true); ("ALGORITHM", str "HS256");
      ("SIGNING_KEY", or_expr (env_opt "JWT_SIGNING_KEY") (var "SECRET_KEY"));
      ("AUTH_HEADER_TYPES", lit (VTuple [VStr "Bearer"])); ("USER_ID_FIELD", str "id");
      ("USER_ID_CLAIM", str "user_id")])].

Definition service_settings : list stmt :=
  [Assign "AWS_REGION" (env_str "AWS_REGION" "ap-south-1");
   Assign "SES_SENDER_EMAIL" (env_str "SES_SENDER_EMAIL" ""); Assign "SES_REGION" (env_str "SES_REGION" "");
   Assign "ASSET_S3_BUCKET" (env_str "ASSET_S3_BUCKET" "");
   Assign "ASSET_S3_KEY_PREFIX" (env_str "ASSET_S3_KEY_PREFIX" "");
   Assign "ASSET_MAX_BYTES" (env_int "ASSET_MAX_BYTES" "26214400");
   Assign "_asset_mime_csv" (env_strip "ASSET_ALLOWED_MIME_TYPES" "");
   Assign "ASSET_ALLOWED_MIME_TYPES" (fun env n =>
     v ← var "_asset_mime_csv" env n; if truthy v then csv_var "_asset_mime_csv" env n else Ok VNone);
   Assign "METRICS_ENABLED" (from_env (fun env =>
     VBool (str_in (lower (getenv_or env "METRICS_ENABLED" "false")) ["1"; "true"; "yes"])));
   Assign "SECURITY_HEADERS_ENABLED" (env_bool "SECURITY_HEADERS_ENABLED" "true");
   Assign "MAX_REQUEST_BODY_BYTES" (env_int "MAX_REQUEST_BODY_BYTES" "2097152")].

Definition api_log_settings : list stmt :=
  [Assign "API_LOG_BACKEND" (from_env (fun env => VStr (lower (strip (getenv_or env "API_LOG_BACKEND" "orm")))));
   Assign "API_LOG_QUEUE_MAX_IN_FLIGHT" (env_int "API_LOG_QUEUE_MAX_IN_FLIGHT" "1000");
   Assign "API_LOG_QUEUE_WORKERS" (env_int "API_LOG_QUEUE_WORKERS" "4");
   Assign "API_LOG_MAX_BODY_LEN" (env_int "API_LOG_MAX_BODY_LEN" "4096");
   Assign "API_LOG_TTL_DAYS" (env_int "API_LOG_TTL_DAYS" "0");
   Assign "API_LOG_SENSITIVE_HEADERS" (lit (vstrs
     ["authorization"; "cookie"; "set-cookie"; "x-api-key"; "x-auth-token"; "proxy-authorization"]));
   Assign "_metrics_ips" (env_strip "METRICS_ALLOWED_IPS" "127.0.0.1");
   Assign "METRICS_ALLOWED_IPS" (csv_var "_metrics_ips");
   Assign "SECURE_REFERRER_POLICY" (str "same-origin"); Assign "X_FRAME_OPTIONS" (str "DENY");
   Assign "SECURE_CONTENT_TYPE_NOSNIFF" (bool_ true); Assign "SECURE_BROWSER_XSS_FILTER" (bool_ true);
   Assign "_outbound_allow" (env_strip "OUTBOUND_URL_ALLOWLIST" "*");
   Assign "OUTBOUND_URL_ALLOWLIST" (fun env n =>
     v ← var "_outbound_allow" env n; if truthy v then csv_var "_outbound_allow" env n else Ok (VList []));
   Assign "_sentinel_hosts" (env_strip "VALKEY_SENTINEL_HOSTS" "");
   Assign "VALKEY_SENTINEL_HOSTS" (fun env n =>
     v ← var "_sentinel_hosts" env n; if truthy v then csv_var "_sentinel_hosts" env n else Ok (VList []));
   Assign "VALKEY_SENTINEL_MASTER_NAME" (env_str "VALKEY_SENTINEL_MASTER_NAME" "")].

Definition base : list stmt :=
  helpers ++ core_settings ++ app_settings ++ database_settings ++ drf_settings ++ cors_settings ++
  cache_settings ++ admin_settings ++ celery_settings ++ log_settings ++ resilience_settings ++ auth_settings ++
  service_settings ++ api_log_settings.

(** The value a module assigns to a name, when it reads neither the
    environment nor other names; and the strings of a list so assigned. *)
Definition assigned (x : string) (prog : list stmt) : option pyval :=
  match List.find (fun s => match s with Assign y _ => String.eqb x y | _ => false end) prog with
  | Some (Assign _ e) => match e [] [] with Ok v => Some v | Raise _ => None end
  | _ => None
  end.
Definition assigned_strings (x : string) (prog : list stmt) : list string :=
  match assigned x prog with
  | Some (VList l) => omap (fun v => match v with VStr s => Some s | _ => None end) l
  | _ => []
  end.

(** [from .base import *]: the names without a leading underscore ([base.py]
    has no [__all__]). *)
Definition public (n : ns) : ns := filter (fun kv => startswith "_" kv.1 = false) n.

(** ** The environment modules *)

Definition set_hosts : stmt := Assign "ALLOWED_HOSTS" (env_csv "ALLOWED_HOSTS" "").
Definition no_hosts : cond := fun _ n =>
  match od_get "ALLOWED_HOSTS" n with Some v => negb (truthy v) | None => true end.
Definition no_database : cond := fun env n => unset "POSTGRES_DB" env n || unset "POSTGRES_HOST" env n.
Definition cors_wildcard_set : cond := fun _ n =>
  match od_get "CORS_ALLOW_ALL_ORIGINS" n with Some v => truthy v | None => false end.
Definition proxy_header : stmt := Assign "SECURE_PROXY_SSL_HEADER"
  (lit (VTuple [VStr "HTTP_X_FORWARDED_PROTO"; VStr "https"])).
Definition console_email : stmt := Assign "EMAIL_BACKEND" (str "django.core.mail.backends.console.EmailBackend").

(** [SECURE_*] of the two TLS-only environments. *)
Definition tls_settings (hsts_seconds : Z) : list stmt :=
  [Assign "SECURE_SSL_REDIRECT" (bool_ true); Assign "SESSION_COOKIE_SECURE" (bool_ true);
   Assign "CSRF_COOKIE_SECURE" (bool_ true); Assign "SECURE_HSTS_SECONDS" (lit (VInt hsts_seconds));
   Assign "SECURE_HSTS_INCLUDE_SUBDOMAINS" (bool_ true); Assign "SECURE_HSTS_PRELOAD" (bool_ true);
   proxy_header].

Definition required_valkey (where_ why : string) (prefix : expr) : list stmt :=
  [Assign "_valkey_url" (env_opt "VALKEY_CACHE_URL");
   RaiseIf (unset "VALKEY_CACHE_URL") 
     (value_error ("VALKEY_CACHE_URL must be set in " +:+ where_ +:+ " environment. " +:+ why));
   Assign "CACHES" (dict
     [("default", valkey_cache (var "_valkey_url")
         [("max_connections", lit (VInt 25)); ("retry_on_timeout", bool_ true)]
         [("KEY_PREFIX", prefix); ("TIMEOUT", lit (VInt 300))]);
      ("rate_limit", valkey_cache (fun env n => match getenv env "VALKEY_RATE_LIMIT_URL" with
                                                | Some v => Ok (VStr v)
                                                | None => var "_valkey_url" env n
                                                end)
         [("max_connections", lit (VInt 20))] rate_limit_extra)])].

Definition required_celery (where_ concurrency : string) : list stmt :=
  [Assign "CELERY_BROKER_URL" (env_opt "CELERY_BROKER_URL");
   Assign "CELERY_RESULT_BACKEND" (env_opt "CELERY_RESULT_BACKEND");
   Assign "CELERY_WORKER_CONCURRENCY" (env_int "CELERY_WORKER_CONCURRENCY" concurrency);
   RaiseIf (unset "CELERY_BROKER_URL") (value_error ("CELERY_BROKER_URL must be set in " +:+ where_ +:+ " environment"));
   RaiseIf (unset "CELERY_RESULT_BACKEND")
     (value_error ("CELERY_RESULT_BACKEND must be set in " +:+ where_ +:+ " environment"))].

Definition require_keys (where_ : string) : list stmt :=
  [RaiseIf (unset "JWT_SIGNING_KEY") (value_error ("JWT_SIGNING_KEY must be explicitly set in " +:+ where_ +:+
     ". Falling back to SECRET_KEY risks JWT forgery on key rotation."));
   RaiseIf (unset "FIELD_ENCRYPTION_KEY") (value_error ("FIELD_ENCRYPTION_KEY must be explicitly set in " +:+ where_ +:+
     ". Falling back to SECRET_KEY risks data corruption on key rotation."))].

Definition default_password : cond := fun env _ =>
  let p := getenv_or env "POSTGRES_PASSWORD" "" in negb (str_true p) || String.eqb p "postgres".
Definition wildcard_message (where_ : string) : string :=
  "CORS_ALLOW_ALL_ORIGINS must not be True in " +:+ where_ +:+ ". " +:+
  "Set CORS_ALLOWED_ORIGINS to specific origins (comma-separated).".

Definition prod : list stmt :=
  [Assign "DEBUG" (bool_ false); set_hosts] ++ tls_settings 31536000 ++
  required_valkey "production" "Valkey is required for caching, rate limiting, and task management."
    (env_str "CACHE_KEY_PREFIX" "app") ++ required_celery "production" "4" ++
  [RaiseIf no_hosts (value_error "ALLOWED_HOSTS must be set in production environment");
   RaiseIf no_database
     (value_error "Database configuration (POSTGRES_DB, POSTGRES_HOST) must be set in production");
   Assign "_db_password" (env_str "POSTGRES_PASSWORD" "");
   RaiseIf default_password (value_error "POSTGRES_PASSWORD must be set to a non-default value in production");
   RaiseIf cors_wildcard_set (value_error (wildcard_message "production"))] ++
  require_keys "production".

Definition uat : list stmt :=
  [Assign "DEBUG" (bool_ false); set_hosts] ++ tls_settings 3600 ++
  required_valkey "UAT"
    "Valkey is required for cache, rate limiting, circuit breaker, and Celery broker." (str "app") ++ required_celery "UAT" "2" ++
  [RaiseIf no_hosts (value_error "ALLOWED_HOSTS must be set in UAT environment");
   RaiseIf no_database (value_error
     ("Database configuration (POSTGRES_DB, POSTGRES_HOST) must be set in UAT -- " +:+
      "POSTGRES_HOST should point at the RDS endpoint."))] ++
  require_keys "UAT" ++
  [RaiseIf cors_wildcard_set (value_error (wildcard_message "UAT"))].

Definition dev : list stmt :=
  [Assign "DEBUG" (env_is "DEBUG" "False" "True"); set_hosts; console_email; proxy_header;
   RaiseIf no_database
     (value_error "Database configuration (POSTGRES_DB, POSTGRES_HOST) must be set in dev environment");
   RaiseIf no_hosts (value_error "ALLOWED_HOSTS must be set in dev environment")] ++
  require_keys "dev environment".

(** [{**x, **items}] for a dictionary setting. *)
Definition dict_update (x : string) (items : list (string * expr)) : expr := fun env n =>
  v ← var x env n; d ← eval_items items env n;
  match v with
  | VDict d0 => Ok (VDict (od_update d0 ((fun kv : string * pyval => (KStr kv.1, kv.2)) <$> d)))
  | _ => Raise (Builtin "TypeError" "object is not a mapping")
  end.

Definition local : list stmt :=
  [Assign "DEBUG" (bool_ true);
   Assign "ALLOWED_HOSTS" (lit (vstrs ["localhost"; "127.0.0.1"; "0.0.0.0"]));
   Assign "CSRF_TRUSTED_ORIGINS" (lit (vstrs ["http://localhost:8000"; "http://127.0.0.1:8000"]));
   console_email;
   Assign "CELERY_BROKER_URL" (env_str "CELERY_BROKER_URL" "");
   Assign "CELERY_RESULT_BACKEND" (env_str "CELERY_RESULT_BACKEND" "django-db");
   Assign "REST_FRAMEWORK" (dict_update "REST_FRAMEWORK" [("DEFAULT_THROTTLE_CLASSES", lit (VList []))]);
   Assign "CACHES" (dict
     [("default", valkey_cache (env_str "VALKEY_CACHE_URL" "valkey://valkey:6379/2") [] []);
      ("rate_limit", valkey_cache (env_str "VALKEY_RATE_LIMIT_URL" "valkey://valkey:6379/3") []
         rate_limit_extra)])].

Definition locmem : expr := dict [("BACKEND", str "django.core.cache.backends.locmem.LocMemCache")].
Definition null_logging : expr := dict
  [("version", lit (VInt 1)); ("disable_existing_loggers", bool_ true);
   ("handlers", dict [("null", dict [("class", str "logging.NullHandler")])]);
   ("root", dict [("handlers", lit (vstrs ["null"])); ("level", str "DEBUG")])].
Definition test : list stmt :=
  [Assign "DEBUG" (bool_ false);
   Assign "ALLOWED_HOSTS" (lit (vstrs ["testserver"; "localhost"; "127.0.0.1"]));
   Assign "PASSWORD_HASHERS" (lit (vstrs ["django.contrib.auth.hashers.MD5PasswordHasher"]));
   Assign "DATABASES" (dict [("default", dict
     [("ENGINE", str "django.db.backends.postgresql"); ("NAME", env_str "POSTGRES_DB" "test_app");
      ("USER", env_str "POSTGRES_USER" "postgres"); ("PASSWORD", env_str "POSTGRES_PASSWORD" "postgres");
      ("HOST", env_str "POSTGRES_HOST" "localhost"); ("PORT", env_str "POSTGRES_PORT" "5432")])]);
   Assign "CACHES" (dict [("default", locmem); ("rate_limit", locmem)]);
   Assign "CELERY_TASK_ALWAYS_EAGER" (bool_ true); Assign "CELERY_TASK_EAGER_PROPAGATES" (bool_ true);
   Assign "CELERY_BROKER_URL" (str "memory://"); Assign "CELERY_RESULT_BACKEND" (str "cache+memory://");
   Assign "REST_FRAMEWORK" (dict_update "REST_FRAMEWORK"
     [("DEFAULT_THROTTLE_CLASSES", lit (VList []));
      ("DEFAULT_PERMISSION_CLASSES", lit (vstrs ["rest_framework.permissions.AllowAny"]))]);
   Assign "LOGGING" null_logging;
   Assign "CORS_ALLOW_ALL_ORIGINS" (bool_ true);
   Assign "CSRF_TRUSTED_ORIGINS" (lit (vstrs ["http://testserver"]));
   Assign "SSRF_BLOCK_PRIVATE_IPS" (bool_ false)].

(** The [setdefault]s [test.py] makes before it imports the base. *)
Definition test_environ (env : environ) : environ :=
  setdefault "RESILIENCE_CRYPTO__FIELD_ENCRYPTION_KEY" "MV5jaCu1Qx7tHzr6IkbAaWBNGoRxqQ0F2pmYpPzfvSE="
    (setdefault "RESILIENCE_CRYPTO__ENVIRONMENT" "dev"
      (setdefault "SECRET_KEY" "test-secret-key-for-testing-only-not-for-production" env)).

(** ** The loader, [config/settings/__init__.py] *)
Section loader.
(** [legacy_env_alias()]; the parsed [.env.<env>] file, if there is one; the
    Secrets Manager ([Raise] is a [ClientError], [Ok None] a response without
    [SecretString]); and [json.loads]. *)
Context (legacy_env_alias : environ -> environ).
Context (dotenv : string -> option environ).
Context (get_secret_value : string -> string -> result string (option string)).
Context (json_loads : string -> result py_exn pyval).

(** The environment [base.py] reads, and the one the module leaves behind. *)
Definition aliased_environ (name : string) (env : environ) : environ :=
  legacy_env_alias (if String.eqb name "test" then test_environ env else env).
Definition module_environ (name : string) (env : environ) : environ :=
  let env1 := aliased_environ name env in
  if String.eqb name "test" then setdefault "RESILIENCE_SSRF__BLOCK_PRIVATE_IPS" "false" env1 else env1.

(** Importing one of the five modules in environment [env]. *)
Definition import_module (name : string) (env : environ) : result py_exn ns :=
  let env1 := aliased_environ name env in
  b ← exec env1 base [];
  if String.eqb name "local" then exec env1 local (public b)
  else if String.eqb name "dev" then exec env1 dev (public b)
  else if String.eqb name "uat"
  then exec env1 uat (match od_get "_env_int" b with
                      | Some f => od_set "_env_int" f (public b)
                      | None => public b
                      end)
  else if String.eqb name "prod" then exec env1 prod (public b)
  else exec env1 test (public b).

Definition _VALID_ENVS : list string := ["local"; "dev"; "uat"; "prod"; "test"].

(** [load_dotenv(override=False)]: names already set win. *)
Definition load_dotenv (file : environ) (env : environ) : environ :=
  fold_left (fun e kv => od_setdefault kv.1 kv.2 e) file env.

(** The warnings given, and the secret as a dictionary or a [RuntimeError]
    when it cannot be read. *)
Definition _load_secrets_from_aws (name region : string) : list string * result py_exn (list (string * string)) :=
  match get_secret_value name region with
  | Raise e =>
      (["FATAL: Failed to retrieve secret '" +:+ name +:+ "' from AWS Secrets Manager: " +:+ e +:+
        ". Application cannot start with missing configuration."],
       Raise (Builtin "RuntimeError"
         ("Cannot start application: AWS Secrets Manager is unreachable or secret '" +:+ name +:+
          "' does not exist. Error: " +:+ e)))
  | Ok None => ([], Ok [])
  | Ok (Some s) => ([],
      v ← json_loads s;
      match v with
      | VDict d => mapM (M:=result py_exn) (fun kv : pykey * pyval =>
          match py_str kv.2 with
          | Some t => Ok (str_key kv.1, t)
          | None => Raise (Builtin "Exception" "str() failed")
          end) d
      | _ => Raise (Builtin "AttributeError" "object has no attribute 'items'")
      end)
  end.

Definition is_runtime_error (e : py_exn) : bool :=
  match e with
  | Builtin cls _ => str_in cls ["RuntimeError"; "RecursionError"; "NotImplementedError"]
  | Custom _ => false
  end.

(** The environment after [.env] and secrets, and the warnings given. *)
Definition secret_environ (name : string) (env : environ) : result py_exn (environ * list string) :=
  let secret_name := getenv_or env "AWS_SECRET_NAME" "" in
  if str_in name ["dev"; "prod"] && str_true secret_name
  then match _load_secrets_from_aws secret_name (getenv_or env "AWS_REGION" "ap-south-1") with
       | (ws, Ok secrets) => Ok (fold_left (fun e kv => od_setdefault kv.1 kv.2 e) secrets env, ws)
       | (ws, Raise e) =>
           if is_runtime_error e
           then if String.eqb name "prod"
                then Raise (Builtin "RuntimeError"
                  ("AWS Secrets Manager unavailable in prod (secret=" +:+ repr_str secret_name +:+
                   "): refusing to boot on .env fallback"))
                else Ok (env, ws ++ ["AWS Secrets Manager unavailable -- using .env values only."])
           else Raise e
       end
  else Ok (env, []).

Definition load_environ (name : string) (env : environ) : result py_exn (environ * list string) :=
  if String.eqb name "test" then Ok (env, [])
  else secret_environ name (match dotenv name with Some file => load_dotenv file env | None => env end).

Definition cloudwatch_enabled (env : environ) : bool :=
  match getenv env "CLOUDWATCH_ENABLED" with Some v => String.eqb v "TRUE" | None => false end.
Definition opt_str (o : option string) : pyval := match o with Some v => VStr v | None => VNone end.
Definition console_handlers (env : environ) : list string :=
  "console" :: (if cloudwatch_enabled env then ["cloudwatch"] else []).
Definition log_handlers (env : environ) : pyval := vdict
  (("console", vdict
      [("level", VStr "INFO"); ("class", VStr "logging.StreamHandler"); ("formatter", VStr "json");
       ("filters", vstrs ["request_context"])]) ::
   (if cloudwatch_enabled env
    then [("cloudwatch", vdict
             [("level", VStr "INFO"); ("class", VStr "cloudwatch.cloudwatch.CloudwatchHandler");
              ("formatter", VStr "json"); ("log_group", opt_str (getenv env "CLOUDWATCH_LOG_GROUP"));
              ("region", opt_str (getenv env "AWS_REGION"))])]
    else [])).
Definition logger_settings (handlers : list string) (level : string) (propagate : bool) : pyval :=
  vdict [("handlers", vstrs handlers); ("level", VStr level); ("propagate", VBool propagate)].
Definition logging_settings (env : environ) : pyval :=
  let level := getenv_or env "LOG_LEVEL" "INFO" in
  vdict [("version", VInt 1); ("disable_existing_loggers", VBool false);
         ("filters", vdict [("request_context", vdict [("()", VStr "core.utils.logging.RequestContextFilter")])]);
         ("formatters", vdict [("json", vdict
            [("()", VStr "pythonjsonlogger.jsonlogger.JsonFormatter");
             ("format", VStr "%(asctime)s %(name)s %(levelname)s %(request_id)s %(message)s")])]);
         ("handlers", log_handlers env);
         ("loggers", vdict
            [("django", logger_settings (console_handlers env) level false);
             ("django.server", logger_settings ["console"] "WARNING" false);
             ("django.request", logger_settings ["console"] "ERROR" false);
             ("", vdict [("handlers", vstrs (console_handlers env)); ("level", VStr level)])])].

(** The Sentry DSN [sentry_sdk.init] is given, if it is called. *)
Definition sentry_dsn (env : environ) : option string :=
  let dsn := strip (getenv_or env "SENTRY_DSN" "") in
  if startswith "https://" dsn || startswith "http://" dsn then Some dsn else None.

(** The module body: the namespace of [config.settings] and the warnings. *)
Definition load_settings (env : environ) : result py_exn (ns * list string) :=
  let name := getenv_or env "DJANGO_ENV" "" in
  if negb (str_true name)
  then Raise (value_error
    ("DJANGO_ENV environment variable is not set. " +:+
     "Set it to one of: local, dev, prod, test (e.g. DJANGO_ENV=local)."))
  else if negb (str_in name _VALID_ENVS)
  then Raise (value_error
    ("Invalid DJANGO_ENV='" +:+ name +:+ "'. Expected one of: " +:+ join ", " _VALID_ENVS))
  else
    ew ← load_environ name env;
    m ← import_module name ew.1;
    Ok (od_set "LOGGING" (logging_settings (module_environ name ew.1))
          (od_set "SETTINGS_MODULE" (VStr ("config.settings." +:+ name)) (public m)), ew.2).
End loader.

(** ** Lemmas on executing a module *)

Definition target (s : stmt) : list string :=
  match s with Assign x _ | AssignIf _ x _ => [x] | RaiseIf _ _ => [] end.
Definition targets (prog : list stmt) : list string := prog ≫= target.

Lemma exec_app env p q n : exec env (p ++ q) n = exec env p n ≫= exec env q.
Proof.
  revert n. induction p as [|s p IH]; intros n; [done|]. cbn [app exec].
  unfold mbind, result_bind in *. destruct (exec_stmt env s n); [apply IH|done].
Qed.

Lemma exec_stmt_keeps env s n n' x :
  exec_stmt env s n = Ok n' -> x ∉ target s -> od_get x n' = od_get x n.
Proof.
  destruct s as [y e|c y e|c e]; simpl; rewrite ?list_elem_of_singleton.
  - intros (v & _ & [= <-])%result_bind_ok Hx. by apply od_get_set_ne.
  - destruct (c env n); [|congruence].
    intros (v & _ & [= <-])%result_bind_ok Hx. by apply od_get_set_ne.
  - destruct (c env n); congruence.
Qed.

Lemma exec_keeps env prog n n' x :
  exec env prog n = Ok n' -> x ∉ targets prog -> od_get x n' = od_get x n.
Proof.
  revert n. induction prog as [|s prog IH]; intros n; cbn [exec]; [congruence|].
  intros (n1 & H1 & H)%result_bind_ok Hx. unfold targets in Hx. cbn [mbind list_bind] in Hx.
  rewrite elem_of_app in Hx. rewrite (IH n1 H) by (intros ?; apply Hx; by right).
  eapply exec_stmt_keeps; [exact H1|]. intros ?. apply Hx. by left.
Qed.

Lemma exec_at env prog n n' i s :
  exec env prog n = Ok n' -> prog !! i = Some s ->
  exists n1 n2, exec env (take i prog) n = Ok n1 /\ exec_stmt env s n1 = Ok n2 /\
    exec env (drop (S i) prog) n2 = Ok n'.
Proof.
  intros H Hi. rewrite <- (take_drop_middle prog i s Hi), exec_app in H.
  apply result_bind_ok in H as (n1 & H1 & H). cbn [exec] in H.
  apply result_bind_ok in H as (n2 & H2 & H). eauto.
Qed.

Lemma is_set_unset env name : (exists v, getenv env name = Some v /\ v <> "") -> forall n, unset name env n = false.
Proof.
  intros (v & Hv & Hne) n. unfold unset, getenv_or. rewrite Hv. by apply negb_false_iff, str_true_spec.
Qed.

(** A guard that passed, and the value of a name assigned for good. *)
Lemma exec_guard env prog n n' i c e :
  exec env prog n = Ok n' -> prog !! i = Some (RaiseIf c e) ->
  exists n1, exec env (take i prog) n = Ok n1 /\ c env n1 = false.
Proof.
  intros H Hi. destruct (exec_at _ _ _ _ _ _ H Hi) as (n1 & n2 & H1 & H2 & _). exists n1. split; [done|].
  cbn in H2. by destruct (c env n1).
Qed.

Lemma exec_assigned env prog n n' i x e :
  exec env prog n = Ok n' -> prog !! i = Some (Assign x e) -> x ∉ targets (drop (S i) prog) ->
  exists n1 v, exec env (take i prog) n = Ok n1 /\ e env n1 = Ok v /\ od_get x n' = Some v.
Proof.
  intros H Hi Hx. destruct (exec_at _ _ _ _ _ _ H Hi) as (n1 & n2 & H1 & H2 & H3).
  cbn in H2. apply result_bind_ok in H2 as (v & Hv & [= <-]). exists n1, v. split_and!; [done|done|].
  rewrite (exec_keeps _ _ _ _ _ H3 Hx). apply od_get_set_eq.
Qed.

Lemma public_get x n : startswith "_" x = false -> od_get x (public n) = od_get x n.
Proof.
  intros Hx. induction n as [|[y v] n IH]; [done|]. unfold public in *. rewrite filter_cons. cbn [fst].
  destruct (decide (startswith "_" y = false)) as [Hy|Hy]; cbn [od_get].
  - by rewrite IH.
  - rewrite IH. destruct (decide (y = x)) as [->|]; [done|done].
Qed.

Lemma public_private x n : startswith "_" x = true -> od_get x (public n) = None.
Proof.
  intros Hx. apply od_get_None. unfold public. intros Hin.
  apply list_elem_of_fmap in Hin as ([y v] & -> & Hin). apply list_elem_of_filter in Hin as [Hy _].
  cbn in *. congruence.
Qed.

Lemma setdefaults_get (l e : environ) k :
  getenv (fold_left (fun e kv => od_setdefault kv.1 kv.2 e) l e) k = or_else (getenv e k) (od_get k l).
Proof.
  unfold getenv. revert e. induction l as [|[k1 v1] l IH]; intros e; cbn [fold_left fst snd od_get].
  - by destruct (od_get k e).
  - rewrite IH. destruct (decide (k1 = k)) as [->|Hne].
    + rewrite od_setdefault_get. by destruct (od_get k e).
    + by rewrite od_setdefault_get_ne.
Qed.

Lemma set_nonempty name env n : unset name env n = false ->
  exists v, getenv env name = Some v /\ v <> "".
Proof.
  unfold unset, getenv_or. rewrite negb_false_iff, str_true_spec.
  destruct (getenv env name) as [v|]; [eauto|done].
Qed.

(** Running a concrete prefix. *)
Lemma exec_assign_ok env x e prog n v :
  e env n = Ok v -> exec env (Assign x e :: prog) n = exec env prog (od_set x v n).
Proof. intros H. cbn [exec exec_stmt]. by rewrite H. Qed.
Lemma exec_pass env c e prog n :
  c env n = false -> exec env (RaiseIf c e :: prog) n = exec env prog n.
Proof. intros H. cbn [exec exec_stmt]. by rewrite H. Qed.

(** Names a concrete program does not assign. *)
Ltac not_target := apply (bool_decide_unpack _); vm_compute; exact I.

(** ** Booting *)
Section boot.
Context (legacy_env_alias : environ -> environ) (dotenv : string -> option environ)
  (get_secret_value : string -> string -> result string (option string))
  (json_loads : string -> result py_exn pyval).
#[local] Abbreviation import := (import_module legacy_env_alias).
#[local] Abbreviation load := (load_settings legacy_env_alias dotenv get_secret_value json_loads).

(** The prefix of [prod] before its first [_env_int] runs through. *)
Lemma prod_prefix env n :
  unset "VALKEY_CACHE_URL" env [] = false -> exists n1, exec env (take 14 prod) n = Ok n1.
Proof.
  intros Hv. unfold prod, tls_settings, required_valkey, required_celery, set_hosts, proxy_header.
  cbn [app take].
  repeat (erewrite exec_assign_ok by reflexivity). rewrite exec_pass by exact Hv.
  destruct (getenv env "VALKEY_RATE_LIMIT_URL") eqn:E;
    (erewrite exec_assign_ok; [repeat (erewrite exec_assign_ok by reflexivity); by eexists|];
     unfold valkey_cache, dict, env_str, env_opt, var, lit, str, from_env;
     cbn [app eval_items]; unfold mbind, result_bind; rewrite od_get_set_eq, E; reflexivity).
Qed.

(** C32: the production settings never load.  Whatever the environment, the
    [.env] file and the secrets hold, importing [prod] raises: it calls
    [_env_int], which [from .base import *] does not bring in; and when the
    base settings load and [VALKEY_CACHE_URL] is set, as the deployment guide
    asks, the error is that [NameError].  So no process starts with
    [DJANGO_ENV=prod]. *)
Theorem prod_never_boots env :
  (exists e, import "prod" env = Raise e) /\
  (forall b, exec (legacy_env_alias env) base [] = Ok b ->
     unset "VALKEY_CACHE_URL" (legacy_env_alias env) [] = false ->
     import "prod" env = Raise (name_error "_env_int")) /\
  (getenv env "DJANGO_ENV" = Some "prod" -> exists e, load env = Raise e).
Proof.
  assert (Hfree : forall e b n1, exec e (take 14 prod) (public b) = Ok n1 -> od_get "_env_int" n1 = None).
  { intros e b n1 H. rewrite (exec_keeps _ _ _ _ _ H) by not_target. by apply public_private. }
  assert (Hraise : forall env0, exists e, import "prod" env0 = Raise e).
  { intros env0. unfold import_module, aliased_environ. cbn [String.eqb Ascii.eqb Bool.eqb].
    destruct (exec (legacy_env_alias env0) base []) as [b|e]; [|by eexists].
    cbn [mbind result_bind]. destruct (exec (legacy_env_alias env0) prod (public b)) as [n|e] eqn:E;
      [|by eexists]. exfalso.
    destruct (exec_at _ _ _ _ 14 _ E eq_refl) as (n1 & n2 & H1 & H2 & _).
    cbn in H2. unfold env_int in H2. rewrite (Hfree _ _ _ H1) in H2. done. }
  split; [apply Hraise|]. split.
  - intros b Hb Hv. unfold import_module, aliased_environ. cbn [String.eqb Ascii.eqb Bool.eqb]. rewrite Hb.
    cbn [mbind result_bind]. destruct (prod_prefix (legacy_env_alias env) (public b) Hv) as [n1 H1].
    rewrite <- (take_drop_middle prod 14 (Assign "CELERY_WORKER_CONCURRENCY"
      (env_int "CELERY_WORKER_CONCURRENCY" "4")) eq_refl), exec_app, H1.
    unfold mbind, result_bind. cbn [exec exec_stmt]. unfold env_int at 1.
    by rewrite (Hfree _ _ _ H1).
  - intros Hd. unfold load_settings, getenv_or. rewrite Hd.
    replace (negb (str_in "prod" _VALID_ENVS)) with false by (by vm_compute).
    cbn [str_true String.eqb negb].
    destruct (load_environ _ _ _ _ _) as [[env1 ws]|e]; [|by eexists]. cbn [mbind result_bind fst].
    destruct (Hraise env1) as [e ->]. by eexists.
Qed.

(** The signing key setting. *)
Lemma base_signing_key env b :
  exec env base [] = Ok b -> unset "JWT_SIGNING_KEY" env [] = false ->
  exists d, od_get "SIMPLE_JWT" b = Some (VDict d) /\
    od_get (KStr "SIGNING_KEY") d = VStr <$> getenv env "JWT_SIGNING_KEY".
Proof.
  intros H Hk. destruct (exec_assigned _ _ _ _ 87 _ _ H eq_refl) as (n1 & v & _ & Hv & Hb); [not_target|].
  apply set_nonempty in Hk as (k & Hk & Hne).
  unfold dict, or_expr, env_opt, from_env in Hv. cbn [eval_items] in Hv.
  unfold mbind, result_bind, lit, bool_, str in Hv. rewrite Hk in Hv.
  replace (truthy (VStr k)) with true in Hv by (symmetry; by apply str_true_spec).
  injection Hv as <-. eexists. split; [exact Hb|]. by rewrite Hk.
Qed.

(** What a checked environment holds. *)
Definition is_set (env : environ) (name : string) : Prop := exists v, getenv env name = Some v /\ v <> "".

Lemma guard_set env prog n n' i name e :
  exec env prog n = Ok n' -> prog !! i = Some (RaiseIf (unset name) e) -> is_set env name.
Proof.
  intros H Hi. destruct (exec_guard _ _ _ _ _ _ _ H Hi) as (n1 & _ & Hc). by eapply set_nonempty.
Qed.

Lemma guard_database env prog n n' i e :
  exec env prog n = Ok n' -> prog !! i = Some (RaiseIf no_database e) ->
  is_set env "POSTGRES_DB" /\ is_set env "POSTGRES_HOST".
Proof.
  intros H Hi. destruct (exec_guard _ _ _ _ _ _ _ H Hi) as (n1 & _ & Hc).
  unfold no_database in Hc. apply orb_false_iff in Hc as [H1 H2].
  split; by eapply set_nonempty.
Qed.

(** A module that assigns [ALLOWED_HOSTS] and later guards it. *)
Lemma guard_hosts env prog n n' i j e :
  exec env prog n = Ok n' -> prog !! i = Some set_hosts -> prog !! j = Some (RaiseIf no_hosts e) ->
  i < j -> "ALLOWED_HOSTS" ∉ targets (drop (S i) prog) ->
  csv (getenv_or env "ALLOWED_HOSTS" "") <> [].
Proof.
  intros H Hi Hj Hij Hx. destruct (exec_guard _ _ _ _ _ _ _ H Hj) as (n1 & H1 & Hc).
  assert (Hi' : take j prog !! i = Some set_hosts) by (by rewrite lookup_take_lt).
  destruct (exec_assigned _ _ _ _ _ _ _ H1 Hi') as (n2 & v & _ & Hv & Hget).
  - intros Hin. apply Hx. unfold targets in *. apply list_elem_of_bind in Hin as (s & Hs & Hin).
    apply list_elem_of_bind. exists s. split; [done|]. rewrite skipn_firstn_comm in Hin.
    eapply elem_of_sublist; [exact Hin|]. apply sublist_take.
  - unfold no_hosts in Hc. rewrite Hget in Hc. injection Hv as <-. intros Hnil.
    unfold vstrs in Hc. by rewrite Hnil in Hc.
Qed.

(** C33: what a [dev] or [uat] boot has checked.  If the [dev] or [uat]
    settings load, then [SECRET_KEY], the database name and host, the JWT
    signing key and the field-encryption key were all set to something, some
    host is allowed, and the key that signs tokens is the JWT key itself, not
    the [SECRET_KEY] it falls back to elsewhere; in [uat], besides, the cache
    and both Celery URLs were set, [DEBUG] is off, requests are redirected to
    HTTPS and no wildcard CORS origin is in force.  That is all: the values are
    not compared with any default, and the database password is not checked, so
    that an environment without [POSTGRES_PASSWORD] boots [uat] on the fallback
    password [postgres], which only [prod] refuses. *)
Theorem live_boot_checked name env n :
  name ∈ ["dev"; "uat"] -> import name env = Ok n ->
  let e := legacy_env_alias env in
  Forall (is_set e) ["SECRET_KEY"; "POSTGRES_DB"; "POSTGRES_HOST"; "JWT_SIGNING_KEY"; "FIELD_ENCRYPTION_KEY"] /\
  csv (getenv_or e "ALLOWED_HOSTS" "") <> [] /\
  (exists d, od_get "SIMPLE_JWT" n = Some (VDict d) /\
     od_get (KStr "SIGNING_KEY") d = VStr <$> getenv e "JWT_SIGNING_KEY") /\
  (name = "uat" ->
     Forall (is_set e) ["VALKEY_CACHE_URL"; "CELERY_BROKER_URL"; "CELERY_RESULT_BACKEND"] /\
     od_get "DEBUG" n = Some (VBool false) /\
     od_get "SECURE_SSL_REDIRECT" n = Some (VBool true) /\
     (forall v, od_get "CORS_ALLOW_ALL_ORIGINS" n = Some v -> truthy v = false)).
Proof.
  intros Hname Hi e. revert Hname. rewrite !elem_of_cons, elem_of_nil. intros [->|[->|[]]];
    unfold import_module, aliased_environ in Hi; cbn [String.eqb Ascii.eqb Bool.eqb] in Hi; fold e in Hi;
    apply result_bind_ok in Hi as (b & Hb & Hn).
  - assert (Hjwt : is_set e "JWT_SIGNING_KEY") by exact (guard_set _ _ _ _ 6 _ _ Hn eq_refl).
    destruct (guard_database _ _ _ _ 4 _ Hn eq_refl) as [Hdb Hhost].
    split_and!; [|by eapply (guard_hosts _ _ _ _ 1 5 _ Hn eq_refl eq_refl); [lia|not_target]| |done].
    + repeat constructor; try done; [exact (guard_set _ _ _ _ 4 _ _ Hb eq_refl)
        |exact (guard_set _ _ _ _ 7 _ _ Hn eq_refl)].
    + destruct (base_signing_key e b Hb) as (d & Hd & Hk); [by apply is_set_unset|].
      exists d. split; [|done]. rewrite (exec_keeps _ _ _ _ _ Hn) by not_target. by rewrite public_get.
  - assert (Hjwt : is_set e "JWT_SIGNING_KEY") by exact (guard_set _ _ _ _ 19 _ _ Hn eq_refl).
    destruct (guard_database _ _ _ _ 18 _ Hn eq_refl) as [Hdb Hhost].
    split_and!; [|by eapply (guard_hosts _ _ _ _ 1 17 _ Hn eq_refl eq_refl); [lia|not_target]| |intros _].
    + repeat constructor; try done; [exact (guard_set _ _ _ _ 4 _ _ Hb eq_refl)
        |exact (guard_set _ _ _ _ 20 _ _ Hn eq_refl)].
    + destruct (base_signing_key e b Hb) as (d & Hd & Hk); [by apply is_set_unset|].
      exists d. split; [|done]. rewrite (exec_keeps _ _ _ _ _ Hn) by not_target.
      destruct (od_get "_env_int" b); [rewrite od_get_set_ne by done|]; by rewrite public_get.
    + split_and!.
      * repeat constructor; [exact (guard_set _ _ _ _ 10 _ _ Hn eq_refl)
          |exact (guard_set _ _ _ _ 15 _ _ Hn eq_refl)|exact (guard_set _ _ _ _ 16 _ _ Hn eq_refl)].
      * destruct (exec_assigned _ _ _ _ 0 _ _ Hn eq_refl) as (n1 & v & _ & Hv & ->); [not_target|].
        by injection Hv as <-.
      * destruct (exec_assigned _ _ _ _ 2 _ _ Hn eq_refl) as (n1 & v & _ & Hv & ->); [not_target|].
        by injection Hv as <-.
      * intros v Hv. destruct (exec_guard _ _ _ _ 21 _ _ Hn eq_refl) as (n1 & H1 & Hc).
        destruct (exec_at _ _ _ _ 21 _ Hn eq_refl) as (n2 & n3 & H2 & H3 & H4).
        rewrite H1 in H2. injection H2 as <-. cbn in H3. rewrite Hc in H3. injection H3 as <-.
        injection H4 as <-. unfold cors_wildcard_set in Hc. by rewrite Hv in Hc.
Qed.

(** Where a setting comes from.  In every environment but [test] a name
    of the process environment wins over the [.env] file, which wins over the
    secrets (read in [dev] and [prod] when [AWS_SECRET_NAME] is set); in
    [test] the process environment is used as it is.  If the secrets cannot
    be read, [prod] refuses to start while [dev] goes on with a warning. *)
Theorem settings_precedence name env :
  let file := default [] (dotenv name) in
  let env1 := load_dotenv file env in
  let sn := getenv_or env1 "AWS_SECRET_NAME" "" in
  let asked := str_in name ["dev"; "prod"] && str_true sn in
  let secrets := (_load_secrets_from_aws get_secret_value json_loads sn (getenv_or env1 "AWS_REGION" "ap-south-1")).2 in
  (forall env' ws, load_environ dotenv get_secret_value json_loads name env = Ok (env', ws) ->
     forall k, getenv env' k =
       if String.eqb name "test" then getenv env k
       else or_else (getenv env k) (or_else (od_get k file)
              (if asked then match secrets with Ok l => od_get k l | Raise _ => None end else None))) /\
  (name = "prod" -> str_true sn = true -> (exists e, secrets = Raise e) ->
     exists e, load_environ dotenv get_secret_value json_loads name env = Raise e) /\
  (forall msg, name = "dev" -> str_true sn = true -> secrets = Raise (Builtin "RuntimeError" msg) ->
     exists ws, ws <> [] /\ load_environ dotenv get_secret_value json_loads name env = Ok (env1, ws)).
Proof.
  intros file env1 sn asked.
  destruct (_load_secrets_from_aws get_secret_value json_loads sn (getenv_or env1 "AWS_REGION" "ap-south-1"))
    as [ws0 secrets0] eqn:Es. intros secrets.
  assert (He : String.eqb name "test" = false ->
    load_environ dotenv get_secret_value json_loads name env =
    secret_environ get_secret_value json_loads name env1).
  { intros Ht. unfold load_environ. rewrite Ht. unfold env1, file. by destruct (dotenv name). }
  assert (H1 : forall k, getenv env1 k = or_else (getenv env k) (od_get k file)) by apply setdefaults_get.
  split_and!.
  - intros env' ws H k. destruct (String.eqb name "test") eqn:Ht.
    { unfold load_environ in H. rewrite Ht in H. by injection H as <- _. }
    rewrite He in H by done. unfold secret_environ in H. fold sn asked in H. rewrite ?Es in H.
    unfold secrets. cbn [snd]. destruct asked.
    + destruct secrets0 as [l|e].
      * injection H as <- _. rewrite setdefaults_get, H1.
        by destruct (getenv env k), (od_get k file), (od_get k l).
      * destruct (is_runtime_error e); [|done]. destruct (String.eqb name "prod"); [done|].
        injection H as <- _. rewrite H1. by destruct (getenv env k), (od_get k file).
    + injection H as <- _. rewrite H1. by destruct (getenv env k), (od_get k file).
  - intros -> Hs [e Hse]. rewrite He by done. cbn [snd] in secrets. unfold secret_environ. fold sn. rewrite Hs, Es. unfold secrets in Hse. rewrite Hse.
    replace (str_in "prod" ["dev"; "prod"]) with true by (by vm_compute). cbn [andb].
    destruct (is_runtime_error e); by eexists.
  - intros msg -> Hs Hse. rewrite He by done. cbn [snd] in secrets. unfold secret_environ. fold sn. rewrite Hs, Es. unfold secrets in Hse. rewrite Hse.
    replace (str_in "dev" ["dev"; "prod"]) with true by (by vm_compute).
    replace (is_runtime_error (Builtin "RuntimeError" msg)) with true by (by vm_compute). cbn [andb].
    eexists. split; [|reflexivity]. by destruct ws0.
Qed.

(** The loader's own [LOGGING] replaces the one a module defines. *)
Lemma module_logging_overridden env n ws :
  load env = Ok (n, ws) -> exists env', od_get "LOGGING" n = Some (logging_settings env').
Proof.
  unfold load_settings. set (name := getenv_or env "DJANGO_ENV" "").
  destruct (negb (str_true name)); [done|]. destruct (negb (str_in name _VALID_ENVS)); [done|].
  intros H. apply result_bind_ok in H as ([env1 ws1] & _ & H). apply result_bind_ok in H as (m & _ & H).
  cbn [fst snd] in H. injection H as <- <-. eexists. apply od_get_set_eq.
Qed.
End boot.

(** ** Witnesses *)
Definition uat_environ : environ :=
  [("DJANGO_ENV", "uat"); ("SECRET_KEY", "s"); ("ALLOWED_HOSTS", "a.example, b.example");
   ("VALKEY_CACHE_URL", "valkey://v:1"); ("CELERY_BROKER_URL", "amqp://"); ("CELERY_RESULT_BACKEND", "django-db");
   ("POSTGRES_DB", "app"); ("POSTGRES_HOST", "db"); ("JWT_SIGNING_KEY", "jwt"); ("FIELD_ENCRYPTION_KEY", "fek")].
Definition no_secret : string -> string -> result string (option string) := fun _ _ => Raise "AccessDenied".
Definition no_json : string -> result py_exn pyval := fun _ => Raise (value_error "").

Lemma prod_never_boots_witness :
  import_module (fun e => e) "prod" uat_environ = Raise (name_error "_env_int").
Proof.
  destruct (prod_never_boots (fun e => e) (fun _ => None) no_secret no_json uat_environ) as (_ & H & _).
  assert (Hb : returns (exec uat_environ base []) = true) by (vm_compute; reflexivity).
  destruct (exec uat_environ base []) as [b|] eqn:E; [|discriminate Hb].
  by apply (H b).
Defined.

(** The fallback password is good enough for [uat]. *)
Example uat_boots_on_fallback_password :
  exists n d p, import_module (fun e => e) "uat" uat_environ = Ok n /\ od_get "DATABASES" n = Some (VDict d) /\
    od_get (KStr "default") d = Some (VDict p) /\ od_get (KStr "PASSWORD") p = Some (VStr "postgres").
Proof. do 3 eexists. split_and!; vm_compute; reflexivity. Qed.

Lemma live_boot_checked_witness :
  exists n, import_module (fun e => e) "uat" uat_environ = Ok n /\ od_get "DEBUG" n = Some (VBool false).
Proof.
  assert (Hb : returns (import_module (fun e => e) "uat" uat_environ) = true) by (vm_compute; reflexivity).
  destruct (import_module (fun e => e) "uat" uat_environ) as [n|] eqn:E; [|discriminate Hb].
  exists n. split; [reflexivity|].
  destruct (live_boot_checked (fun e => e) "uat" uat_environ n) as (_ & _ & _ & H);
    [right; left|exact E|]. apply H. reflexivity.
Defined.

Lemma settings_precedence_witness :
  exists ws, ws <> [] /\ load_environ (fun _ => Some [("AWS_SECRET_NAME", "prod/app"); ("X", "file")]) no_secret no_json
    "dev" [("X", "process")] = Ok ([("X", "process"); ("AWS_SECRET_NAME", "prod/app")], ws).
Proof.
  destruct (settings_precedence (fun _ => Some [("AWS_SECRET_NAME", "prod/app"); ("X", "file")]) no_secret no_json
    "dev" [("X", "process")]) as (_ & _ & H). eapply H; reflexivity.
Defined.
