(* ===== verification/Metrics.v ===== *)
(** * Structured logging and metrics

    [apps/core/metrics.py], [log_duration] of [core/utils/logging.py],
    [core/utils/function_logger.py], the metrics middleware, and the task registry of [core/tasks].  A logger is the list
    of records it was given; a clock reading is an integer, and the float
    arithmetic on two readings is a parameter. *)
From stdpp Require Import base list gmap strings pretty numbers.
From Stdlib Require Import Ascii Lia ZArith.
From S2P Require Import Prelude PyStr PyVal Exceptions LogSanitize Utils.

(** ** Log records *)

Inductive level := DEBUG | INFO | ERROR.

Record log_record := LogRecord {
  lr_level : level;
  lr_msg : string;
  lr_args : list pyval;
  lr_extra : list (string * pyval);
  lr_exc_info : bool;
}.

Abbreviation L := (act (list log_record) py_exn).

(** The attributes of a [logging.LogRecord]: an [extra] key among them makes
    [Logger.makeRecord] raise [KeyError]. *)
Definition record_attributes : list string :=
  ["name"; "msg"; "args"; "levelname"; "levelno"; "pathname"; "filename"; "module"; "exc_info"; "exc_text";
   "stack_info"; "lineno"; "funcName"; "created"; "msecs"; "relativeCreated"; "thread"; "threadName";
   "processName"; "process"; "taskName"; "message"; "asctime"].

(** [logger.<level>(msg, *args, extra=extra)] on an enabled logger. *)
Definition emit (lv : level) (msg : string) (args : list pyval) (extra : list (string * pyval))
    (exc_info : bool) : L unit := fun logs =>
  match List.find (fun k => str_in k record_attributes) extra.*1 with
  | Some k => (Raise (Builtin "KeyError" (repr_str ("Attempt to overwrite " +:+ repr_str k +:+ " in LogRecord"))), logs)
  | None => (Ok tt, logs ++ [LogRecord lv msg args extra exc_info])
  end.

(** A call with positional, explicit keyword and double-star arguments: a
    keyword bound twice is an error. *)
Definition bind_kwargs (fn : string) (positional : list string) (explicit star : list (string * pyval))
    : result py_exn (list (string * pyval)) :=
  match List.find (fun k => str_in k explicit.*1 || str_in k positional) star.*1 with
  | Some k => Raise (Builtin "TypeError" (fn +:+ "() got multiple values for keyword argument " +:+ repr_str k))
  | None => Ok (explicit ++ star)
  end.

(** ** [core/metrics.py] *)

Definition _BOUNDED_LABEL_KEYS : list string := ["event"; "subsystem"; "status"; "partner_slug"; "outcome"].
Definition _FORBIDDEN_LABEL_KEYS : list string :=
  ["request_id"; "app_number"; "query_id"; "partner_id"; "user_id"; "remark_id"; "outbox_id"; "url"; "error";
   "error_message"; "email"; "phone"; "pan"; "aadhaar"].

(** [sorted(_BOUNDED_LABEL_KEYS)] *)
Definition sorted_bounded : list string := ["event"; "outcome"; "partner_slug"; "status"; "subsystem"].

Definition CardinalityViolation (msg : string) : py_exn := Builtin "CardinalityViolation" msg.

Definition check_label (key : string) : result py_exn unit :=
  if str_in key _FORBIDDEN_LABEL_KEYS
  then Raise (CardinalityViolation
    ("metrics label " +:+ repr_str key +:+ " is forbidden (unbounded cardinality). " +:+
     "Pass it via the log `extra=` payload instead. See docs/observability.md."))
  else if negb (str_in key _BOUNDED_LABEL_KEYS)
  then Raise (CardinalityViolation
    ("metrics label " +:+ repr_str key +:+ " is not in the bounded allow-list " +:+
     py_repr (VList (VStr <$> sorted_bounded)) +:+ ". If this value is truly " +:+
     "low-cardinality, add it to _BOUNDED_LABEL_KEYS and update docs/observability.md."))
  else Ok tt.
Definition _assert_bounded (labels : list (string * pyval)) : result py_exn unit :=
  for_check check_label labels.*1.

(** The keyword [status] of the two samplers, and the remaining labels. *)
Definition kw_or (k : string) (dflt : pyval) (kwargs : list (string * pyval)) : pyval :=
  default dflt (od_get k kwargs).
Definition without (ks : list string) (kwargs : list (string * pyval)) : list (string * pyval) :=
  filter (fun kv => str_in kv.1 ks = false) kwargs.

Definition record_duration (event : string) (duration_ms : pyval) (kwargs : list (string * pyval)) : L unit :=
  kw ← lift_result (bind_kwargs "record_duration" ["event"; "duration_ms"] [] kwargs);
  let labels := without ["status"] kw in
  lift_result (_assert_bounded labels) ≫= fun _ =>
  emit INFO "%s metric" [VStr event]
    (od_update [("metric", VStr "duration"); ("event", VStr event); ("duration_ms", duration_ms);
                ("status", kw_or "status" (VStr "ok") kw)] labels) false.

Definition record_counter (event : string) (kwargs : list (string * pyval)) : L unit :=
  kw ← lift_result (bind_kwargs "record_counter" ["event"] [] kwargs);
  let labels := without ["status"; "n"] kw in
  lift_result (_assert_bounded labels) ≫= fun _ =>
  emit INFO "%s counter" [VStr event]
    (od_update [("metric", VStr "counter"); ("event", VStr event); ("n", kw_or "n" (VInt 1) kw);
                ("status", kw_or "status" (VStr "ok") kw)] labels) false.

Definition record_gauge (name : string) (value : pyval) (kwargs : list (string * pyval)) : L unit :=
  kw ← lift_result (bind_kwargs "record_gauge" ["name"; "value"] [] kwargs);
  lift_result (_assert_bounded kw) ≫= fun _ =>
  emit INFO "%s gauge" [VStr name]
    (od_update [("metric", VStr "gauge"); ("event", VStr name); ("value", value)] kw) false.

(** ** [log_duration] *)
Section durations.
(** [(time.perf_counter() - start) * 1000] on two readings, and [round]. *)
Context (to_ms : Z -> Z -> pyval).

(** [isinstance(v, str | int | float)] *)
Definition is_scalar_label (v : pyval) : bool :=
  match v with VStr _ | VInt _ | VBool _ | VFloat _ => true | _ => false end.

Definition _record_metric_safe (event : string) (duration_ms : pyval) (status : string)
    (extras : list (string * pyval)) : L unit :=
  let bounded := filter (fun kv => str_in kv.1 _BOUNDED_LABEL_KEYS && is_scalar_label kv.2 = true) extras in
  kw ← lift_result (bind_kwargs "record_duration" [] [("status", VStr status)] bounded);
  record_duration event duration_ms kw.

(** [with log_duration(logger, event, ...): body].  The
    block [body] runs on the same logger; [start] and [stop] are the clock
    readings around it. *)
Definition log_duration {A} (event : string) (metric : bool) (extras : list (string * pyval))
    (start stop : Z) (body : L A) : L A := fun logs =>
  let duration_ms := to_ms start stop in
  match body logs with
  | (Raise e, logs1) =>
      (emit ERROR "%s failed after %.2fms" [VStr event; duration_ms]
         (od_update [("event", VStr event); ("duration_ms", duration_ms); ("ok", VBool false)] extras) true ≫= fun _ =>
       (if metric then _record_metric_safe event duration_ms "error" extras else mret tt) ≫= fun _ =>
       raise e) logs1
  | (Ok a, logs1) =>
      (emit INFO "%s completed in %.2fms" [VStr event; duration_ms]
         (od_update [("event", VStr event); ("duration_ms", duration_ms); ("ok", VBool true)] extras) false ≫= fun _ =>
       (if metric then _record_metric_safe event duration_ms "ok" extras else mret tt) ≫= fun _ =>
       mret a) logs1
  end.

(** ** [core/utils/function_logger.py] *)

Definition is_function_logging_enabled (env : list (string * string)) : bool :=
  str_in (lower (strip (default "false" (od_get "FUNCTION_LOGGING_ENABLED" env)))) ["1"; "true"; "yes"; "on"].

Definition summary_text (max_length : Z) (text : string) : string :=
  if (max_length <? Z.of_nat (slen text))%Z then slice_to text max_length +:+ "..." else text.
Definition count_str {X} (l : list X) : string := str_int (Z.of_nat (length l)).
(** [type(obj).__name__] *)
Definition type_name (v : pyval) : string :=
  match v with
  | VNone => "NoneType" | VBool _ => "bool" | VInt _ => "int" | VFloat _ => "float" | VStr _ => "str"
  | VBytes _ => "bytes" | VList _ => "list" | VTuple _ => "tuple" | VSet _ => "set" | VDict _ => "dict"
  | VRef m _ => m | VObj cls _ _ => cls
  end.
Definition _summarize (obj : pyval) (max_length : Z) : string :=
  match obj with
  | VDict d => "<dict with " +:+ count_str d +:+ " keys>"
  | VList l => "<list with " +:+ count_str l +:+ " items>"
  | VTuple l => match l with [] => "<tuple>" | _ => "<tuple with " +:+ count_str l +:+ " items>" end
  | VStr _ | VInt _ | VFloat _ | VBool _ | VNone =>
      match py_str obj with
      | Some text => summary_text max_length text
      | None => "<unserializable>"
      end
  | _ => "<" +:+ type_name obj +:+ ">"
  end.

(** [round(x, digits)] on a duration in seconds, from two readings. *)
Context (seconds : Z -> Z -> pyval) (round_s round_ms : Z -> Z -> pyval).

(** [module_of e] is [type(exc).__module__]. *)
Context (enabled : bool) (module_of : py_exn -> string).

Definition _log_enter (name : string) (args : list pyval) (kwargs : list (string * pyval)) : L unit :=
  if negb enabled then mret tt
  else emit DEBUG "Executing %s" [VStr name]
    [("func_args", VStr (_summarize (VTuple args) 200));
     ("func_kwargs", VStr (_summarize (VDict ((fun kv : string * pyval => (KStr kv.1, kv.2)) <$> kwargs)) 200));
     ("args_count", VInt (Z.of_nat (length args))); ("kwargs_count", VInt (Z.of_nat (length kwargs)));
     ("event", VStr "function_enter")] false.

Definition _log_exit (name : string) (result : pyval) (start stop : Z) : L unit :=
  if negb enabled then mret tt
  else emit DEBUG "Completed %s" [VStr name]
    [("duration_seconds", round_s start stop); ("duration_ms", round_ms start stop);
     ("result_summary", VStr (_summarize result 200)); ("result_type", VStr (type_name result));
     ("event", VStr "function_exit")] false.

Definition _log_error (name : string) (start stop : Z) (exc : py_exn) : L unit :=
  emit ERROR "Function %s failed: %s" [VStr name; VStr (exn_type_name exc)]
    [("error_type", VStr (exn_type_name exc));
     ("error_message", VStr (_summarize (VStr (exn_str exc)) 200));
     ("duration_seconds", round_s start stop); ("event", VStr "function_error")] false ≫= fun _ =>
  emit DEBUG "Function %s raised exception - full stack trace" [VStr name]
    [("duration_seconds", seconds start stop); ("duration_ms", round_ms start stop);
     ("error_type", VStr (exn_type_name exc)); ("error_message_full", VStr (exn_str exc));
     ("error_class", VStr (exn_type_name exc)); ("error_module", VStr (module_of exc));
     ("event", VStr "function_error_detailed")] true.

(** [try: m except Exception as exc: h exc] *)
Definition except {A} (m : L A) (h : py_exn -> L A) : L A := fun logs =>
  match m logs with
  | (Raise e, logs') => if is_exception e then h e logs' else (Raise e, logs')
  | ok => ok
  end.

(** The wrapper, synchronous or not: [_log_exit] is inside the [try]. *)
Definition log_function (name : string) (func : list pyval -> list (string * pyval) -> L pyval)
    (args : list pyval) (kwargs : list (string * pyval)) (start stop : Z) : L pyval :=
  _log_enter name args kwargs ≫= fun _ =>
  except (result ← func args kwargs; _log_exit name result start stop ≫= fun _ => mret result)
    (fun exc => _log_error name start stop exc ≫= fun _ => raise exc).
End durations.

(** ** Requests, and the timing middleware

    The request-logging middleware is in [Middleware]. *)
Section middleware.
(** The request as these two see it; [q_user] is the primary key of the
    authenticated user. *)
Record http_request := HttpRequest {
  q_method : string;
  q_path : string;
  q_user : option Z;
  q_meta : list (string * string);
}.
Record http_response := HttpResponse { p_status : Z; p_body : pyval }.

Definition get_user_id (r : http_request) : pyval :=
  match q_user r with Some pk => VInt pk | None => VNone end.

(** [safe_log_dict(...)] as keyword arguments of the record. *)
Definition safe_extra (cfg : san_config) (kwargs : list (string * pyval)) : list (string * pyval) :=
  match safe_log_dict cfg kwargs with
  | VDict d => (fun kv : pykey * pyval => (str_key kv.1, kv.2)) <$> d
  | _ => []
  end.
Definition short_path (r : http_request) : pyval :=
  match truncate_for_log (VStr (q_path r)) 200 with Some s => VStr s | None => VNone end.

Definition MetricsMiddleware (to_ms : Z -> Z -> pyval) (get_response : http_request -> L http_response)
    (request : http_request) (start stop : Z) : L http_response :=
  response ← get_response request;
  let status := if (p_status response <? 500)%Z then "ok" else "error" in
  record_duration "http_request" (to_ms start stop) [("status", VStr status)] ≫= fun _ =>
  mret response.
End middleware.

(** ** [core/tasks] *)
Section tasks.
(** The task [shared_task] builds for a name and keywords; [func] is known by its module
    and qualified name. *)
Context {Task : Type} (shared_task : string -> list (string * pyval) -> string * string -> Task).

Definition register_task (name : option string) (task_kwargs : list (string * pyval)) (func : string * string)
    (registry : list (string * Task)) : Task * list (string * Task) :=
  let task_name := str_or (default "" name) (func.1 +:+ "." +:+ func.2) in
  let task := shared_task task_name task_kwargs func in
  (task, od_set task_name task registry).
Definition registered_tasks (registry : list (string * Task)) : list (string * Task) := registry.
Definition _reset_registry (registry : list (string * Task)) : list (string * Task) := [].

(** The call of [send_task] that [enqueue] makes. *)
Record sent_task := SentTask {
  st_name : string;
  st_args : list pyval;
  st_kwargs : list (string * pyval);
  st_queue : option string;
  st_countdown : pyval;
  st_eta : pyval;
}.
Definition enqueue (default_queue : option string) (task_name : string) (args : list pyval)
    (queue : option string) (countdown eta : pyval) (kwargs : list (string * pyval)) : sent_task :=
  let queue_name := match queue with
                    | Some q => if str_true q then Some q else default_queue
                    | None => default_queue
                    end in
  SentTask task_name args kwargs queue_name countdown eta.
End tasks.

(** ** Lemmas *)

Lemma find_None {A} (f : A -> bool) l : List.find f l = None <-> Forall (fun x => f x = false) l.
Proof.
  induction l as [|x l IH]; simpl; [naive_solver|]. rewrite Forall_cons_iff.
  destruct (f x); naive_solver.
Qed.

Lemma emit_ok lv msg args extra exc logs :
  Forall (fun k => str_in k record_attributes = false) extra.*1 ->
  emit lv msg args extra exc logs = (Ok tt, logs ++ [LogRecord lv msg args extra exc]).
Proof. intros H. unfold emit. by apply find_None in H as ->. Qed.

(** Records whose fields went through the sanitiser. *)
Lemma safe_extra_keys cfg kwargs k :
  k ∈ (safe_extra cfg kwargs).*1 -> k ∈ kwargs.*1 \/ k = "__truncated__".
Proof.
  unfold safe_extra, safe_log_dict, sanitize_for_log.
  set (d := (fun kv : string * pyval => (KStr kv.1, kv.2)) <$> kwargs).
  assert (Hd : forall k0 v0, (k0, v0) ∈ d -> str_key k0 ∈ kwargs.*1).
  { intros k0 v0 ([k1 v1] & [= -> ->] & Hin)%list_elem_of_fmap. apply list_elem_of_fmap. by exists (k1, v1). }
  destruct (negb (SANITIZE_ENABLED cfg)).
  - intros ([k0 v0] & -> & ([k1 v1] & [= -> ->] & Hin)%list_elem_of_fmap)%list_elem_of_fmap.
    left. by apply (Hd k1 v1).
  - cbn [sanitize_value]. unfold sanitize_dict_for_log. cbv zeta.
    set (res := fold_left _ _ _). assert (Hres : forall k0 v0, (k0, v0) ∈ res -> str_key k0 ∈ kwargs.*1).
    { intros k0 v0 Hin. apply (proj2 (dict_entry_fold cfg _ _ _)) in Hin.
      destruct Hin as [Hin|(k1 & v1 & Hin & -> & _)]; [by apply elem_of_nil in Hin|]. apply (Hd k1 v1).
      eapply elem_of_sublist; [exact Hin|]. apply sublist_take. }
    intros ([k0 v0] & -> & ([k1 v1] & [= -> ->] & Hin)%list_elem_of_fmap)%list_elem_of_fmap. cbn [fst].
    destruct (_ <? _)%Z; [apply od_set_in in Hin as [[-> _]|Hin]; [by right|]|]; left; by eapply Hres.
Qed.

Lemma emit_safe cfg lv msg args kwargs exc logs :
  Forall (fun k => str_in k record_attributes = false) kwargs.*1 ->
  emit lv msg args (safe_extra cfg kwargs) exc logs = (Ok tt, logs ++ [LogRecord lv msg args (safe_extra cfg kwargs) exc]).
Proof.
  intros H. apply emit_ok, list.Forall_forall. intros k [Hk| ->]%safe_extra_keys; [|by vm_compute].
  by eapply list.Forall_forall in H.
Qed.

Lemma od_update_keys (d e : list (string * pyval)) k :
  k ∈ (od_update d e).*1 <-> k ∈ d.*1 \/ k ∈ e.*1.
Proof.
  unfold od_update. revert d. induction e as [|[k1 v1] e IH]; intros d; cbn [fold_left fst snd].
  - rewrite fmap_nil, elem_of_nil. naive_solver.
  - rewrite IH, od_set_keys, fmap_cons, elem_of_cons. cbn [fst].
    destruct (decide (k1 ∈ d.*1)); rewrite ?elem_of_app, ?list_elem_of_singleton; naive_solver.
Qed.

Lemma od_update_get (d e : list (string * pyval)) k : NoDup e.*1 ->
  od_get k (od_update d e) = or_else (od_get k e) (od_get k d).
Proof.
  unfold od_update. revert d. induction e as [|[k1 v1] e IH]; intros d; cbn [fold_left fst snd]; [done|].
  rewrite fmap_cons. intros [Hk He]%list.NoDup_cons. cbn [fst] in Hk. rewrite (IH _ He), od_get_set.
  cbn [od_get]. destruct (decide (k1 = k)) as [->|]; [|done].
  by rewrite (proj2 (od_get_None k e)).
Qed.

Lemma check_label_ok k : check_label k = Ok tt <-> k ∈ _BOUNDED_LABEL_KEYS.
Proof.
  unfold check_label. destruct (str_in k _FORBIDDEN_LABEL_KEYS) eqn:Hf.
  - split; [done|]. intros Hb. exfalso. apply str_in_spec in Hf.
    unfold _BOUNDED_LABEL_KEYS, _FORBIDDEN_LABEL_KEYS in *. set_solver.
  - destruct (str_in k _BOUNDED_LABEL_KEYS) eqn:Hb; cbn [negb].
    + apply str_in_spec in Hb. naive_solver.
    + split; [done|]. intros H%str_in_spec. congruence.
Qed.

Lemma assert_bounded_ok labels :
  _assert_bounded labels = Ok tt <-> Forall (fun k => k ∈ _BOUNDED_LABEL_KEYS) labels.*1.
Proof.
  unfold _assert_bounded. rewrite for_check_Ok. apply list.Forall_iff. intros k. apply check_label_ok.
Qed.

Lemma assert_bounded_result labels :
  _assert_bounded labels = Ok tt \/ exists e, _assert_bounded labels = Raise e.
Proof. destruct (_assert_bounded labels) as [[]|e]; eauto. Qed.

Lemma without_keys ks (kwargs : list (string * pyval)) k :
  k ∈ (without ks kwargs).*1 <-> k ∈ kwargs.*1 /\ k ∉ ks.
Proof.
  unfold without. rewrite !list_elem_of_fmap. split.
  - intros ([k1 v] & -> & [H1 H2]%list_elem_of_filter). cbn [fst] in *. split; [by exists (k1, v)|].
    intros H%str_in_spec. congruence.
  - intros (([k1 v] & -> & H) & Hn). exists (k1, v). split; [done|]. apply list_elem_of_filter.
    split; [|done]. cbn [fst] in *. destruct (str_in k1 ks) eqn:E; [|done]. by apply str_in_spec in E.
Qed.

Lemma without_NoDup ks (kwargs : list (string * pyval)) :
  NoDup kwargs.*1 -> NoDup (without ks kwargs).*1.
Proof.
  unfold without. induction kwargs as [|[k v] kw IH]; [done|]. rewrite fmap_cons, filter_cons.
  intros [Hk Hd]%list.NoDup_cons. case_decide; [|by apply IH].
  rewrite fmap_cons. apply list.NoDup_cons. split; [|by apply IH].
  intros ([k1 v1] & E & Hin)%list_elem_of_fmap. apply list_elem_of_filter in Hin as [_ Hin].
  cbn [fst] in *. apply Hk. apply list_elem_of_fmap. by exists (k1, v1).
Qed.

Lemma without_get ks (kwargs : list (string * pyval)) k :
  k ∉ ks -> od_get k (without ks kwargs) = od_get k kwargs.
Proof.
  intros Hk. unfold without. induction kwargs as [|[k1 v1] kw IH]; [done|]. rewrite filter_cons. cbn [fst].
  case_decide as E; cbn [od_get]; rewrite IH; [done|]. destruct (decide (k1 = k)) as [->|]; [|done].
  destruct (str_in k ks) eqn:E2; [by apply str_in_spec in E2|done].
Qed.

Lemma bind_star_ok fn pos kwargs kw :
  bind_kwargs fn pos [] kwargs = Ok kw -> kw = kwargs /\ Forall (fun k => k ∉ pos) kwargs.*1.
Proof.
  unfold bind_kwargs. destruct (List.find _ _) eqn:E; [done|]. intros [= <-]. split; [done|].
  apply find_None in E. eapply list.Forall_impl; [exact E|]. intros k Hk Hin%str_in_spec.
  cbn in Hk. rewrite Hin in Hk. by destruct (str_in k _) in Hk.
Qed.
Lemma bind_star fn pos kwargs :
  Forall (fun k => k ∉ pos) kwargs.*1 -> bind_kwargs fn pos [] kwargs = Ok kwargs.
Proof.
  intros H. unfold bind_kwargs. rewrite (proj2 (find_None _ _)); [done|].
  eapply list.Forall_impl; [exact H|]. intros k Hk. cbn.
  destruct (str_in k pos) eqn:E; [by apply str_in_spec in E|]. by destruct (str_in k []) eqn:E2; [apply str_in_spec in E2; apply elem_of_nil in E2|].
Qed.

(** ** The cardinality contract *)

(** What a sampler does with its keyword labels: either every one is among
    [allowed] and one record is logged, whose fields are bounded and carry the
    labels, or it raises and logs nothing. *)
Definition samples (run : L unit) (allowed : list string) (kwargs : list (string * pyval)) : Prop :=
  forall logs,
    (Forall (fun k => k ∈ allowed) kwargs.*1 /\
     exists rec, run logs = (Ok tt, logs ++ [rec]) /\ lr_level rec = INFO /\
       (forall k, k ∈ (lr_extra rec).*1 -> k ∈ ["metric"; "duration_ms"; "n"; "value"] ++ _BOUNDED_LABEL_KEYS) /\
       (forall k, k ∈ _FORBIDDEN_LABEL_KEYS -> od_get k (lr_extra rec) = None) /\
       (forall k v, od_get k kwargs = Some v -> od_get k (lr_extra rec) = Some v)) \/
    (~ Forall (fun k => k ∈ allowed) kwargs.*1 /\ exists e, run logs = (Raise e, logs)).

(** The fields a sampler sets itself never clash with a log record. *)
Lemma sample_emit own labels msg args logs :
  Forall (fun k => k ∈ ["metric"; "duration_ms"; "n"; "value"; "event"; "status"]) own.*1 ->
  _assert_bounded labels = Ok tt ->
  let extra := od_update own labels in
  emit INFO msg args extra false logs = (Ok tt, logs ++ [LogRecord INFO msg args extra false]) /\
  (forall k, k ∈ extra.*1 -> k ∈ ["metric"; "duration_ms"; "n"; "value"] ++ _BOUNDED_LABEL_KEYS) /\
  (forall k, k ∈ _FORBIDDEN_LABEL_KEYS -> od_get k extra = None).
Proof.
  intros Hown Hl extra. apply assert_bounded_ok in Hl.
  assert (Hk : forall k, k ∈ extra.*1 -> k ∈ ["metric"; "duration_ms"; "n"; "value"] ++ _BOUNDED_LABEL_KEYS).
  { intros k Hin. apply od_update_keys in Hin as [Hin|Hin].
    - eapply list.Forall_forall in Hown; [|exact Hin]. unfold _BOUNDED_LABEL_KEYS. set_solver.
    - eapply list.Forall_forall in Hl; [|exact Hin]. by apply elem_of_app; right. }
  split_and!; [|done|].
  - apply emit_ok, list.Forall_forall. intros k Hin. apply Hk in Hin.
    apply not_true_is_false. intros Hr%str_in_spec. revert Hin Hr.
    unfold _BOUNDED_LABEL_KEYS, record_attributes. set_solver.
  - intros k Hf. apply od_get_None. intros Hin. apply Hk in Hin. revert Hin Hf.
    unfold _BOUNDED_LABEL_KEYS, _FORBIDDEN_LABEL_KEYS. set_solver.
Qed.

Definition sampler (fn msg : string) (pos own_kw : list string) (args : list pyval)
    (own : list (string * pyval) -> list (string * pyval)) (kwargs : list (string * pyval)) : L unit :=
  kw ← lift_result (bind_kwargs fn pos [] kwargs);
  let labels := without own_kw kw in
  lift_result (_assert_bounded labels) ≫= fun _ => emit INFO msg args (od_update (own kw) labels) false.

Lemma sampler_spec fn msg pos own_kw args own kwargs allowed :
  NoDup kwargs.*1 ->
  (forall k, k ∈ allowed <-> k ∉ pos /\ (k ∈ own_kw \/ k ∈ _BOUNDED_LABEL_KEYS)) ->
  Forall (fun k => k ∈ ["metric"; "duration_ms"; "n"; "value"; "event"; "status"]) (own kwargs).*1 ->
  (forall k v, k ∈ own_kw -> od_get k kwargs = Some v -> od_get k (own kwargs) = Some v) ->
  samples (sampler fn msg pos own_kw args own kwargs) allowed kwargs.
Proof.
  intros Hnd Hall Hown Hget logs. unfold sampler, mbind, act_bind, lift_result.
  destruct (bind_kwargs fn pos [] kwargs) as [kw|e] eqn:Hb.
  - apply bind_star_ok in Hb as [-> Hpos].
    destruct (assert_bounded_result (without own_kw kwargs)) as [Hl|[e Hl]]; rewrite Hl.
    + left. split.
      { apply list.Forall_forall. intros k Hk. apply Hall. split; [by eapply list.Forall_forall in Hpos|].
        destruct (decide (k ∈ own_kw)) as [|Hn]; [by left|right]. apply assert_bounded_ok in Hl.
        eapply list.Forall_forall in Hl; [done|]. by apply without_keys. }
      destruct (sample_emit (own kwargs) (without own_kw kwargs) msg args logs Hown Hl) as (He & Hk & Hf).
      eexists. split; [exact He|]. split_and!; [done|exact Hk|exact Hf|]. cbn [lr_extra].
      intros k v Hv. rewrite od_update_get by by apply without_NoDup.
      destruct (decide (k ∈ own_kw)) as [Hin|Hin].
      * rewrite (proj2 (od_get_None k (without own_kw kwargs))); [by apply Hget|].
        rewrite without_keys. naive_solver.
      * by rewrite without_get, Hv.
    + right. split; [|by eexists]. intros HF.
      assert (Ho : _assert_bounded (without own_kw kwargs) = Ok tt); [|congruence].
      apply assert_bounded_ok, list.Forall_forall. intros k [Hk Hn]%without_keys.
      eapply list.Forall_forall in HF; [|exact Hk]. apply Hall in HF. naive_solver.
  - right. split; [|by eexists]. intros HF. rewrite bind_star in Hb; [done|].
    eapply list.Forall_impl; [exact HF|]. intros k Hk%Hall. naive_solver.
Qed.

Lemma without_none (kwargs : list (string * pyval)) : without [] kwargs = kwargs.
Proof.
  unfold without. induction kwargs as [|kv kw IH]; [done|]. rewrite filter_cons, decide_True, IH; [done|].
  destruct (str_in kv.1 []) eqn:E; [|done]. by apply str_in_spec, elem_of_nil in E.
Qed.

Lemma metric_contract event value kwargs : NoDup kwargs.*1 ->
  samples (record_duration event value kwargs) ["status"; "subsystem"; "partner_slug"; "outcome"] kwargs.
Proof.
  intros H. apply (sampler_spec "record_duration" "%s metric" ["event"; "duration_ms"] ["status"] [VStr event]
    (fun kw => [("metric", VStr "duration"); ("event", VStr event); ("duration_ms", value);
                ("status", kw_or "status" (VStr "ok") kw)])); [done| |apply (bool_decide_unpack _); by vm_compute|].
  - intros k. unfold _BOUNDED_LABEL_KEYS. rewrite !elem_of_cons, elem_of_nil. naive_solver.
  - intros k v ->%list_elem_of_singleton Hv. unfold kw_or. by rewrite Hv.
Qed.

(** C37: the cardinality contract holds at every call.  Whatever keyword
    labels a call site passes, each of the three samplers either raises and
    logs nothing, which it does exactly when some label is outside the bounded
    allow-list (or would bind a parameter twice), or logs one INFO record; and
    that record holds only the sampler's own fields and allow-listed labels,
    no forbidden identifier, and every label passed. *)
Theorem metric_labels_bounded event value kwargs (H : NoDup kwargs.*1) :
  samples (record_duration event value kwargs) ["status"; "subsystem"; "partner_slug"; "outcome"] kwargs /\
  samples (record_counter event kwargs) ["n"; "status"; "subsystem"; "partner_slug"; "outcome"] kwargs /\
  samples (record_gauge event value kwargs) _BOUNDED_LABEL_KEYS kwargs.
Proof.
  split_and!.
  - by apply metric_contract.
  - apply (sampler_spec "record_counter" "%s counter" ["event"] ["status"; "n"] [VStr event]
      (fun kw => [("metric", VStr "counter"); ("event", VStr event); ("n", kw_or "n" (VInt 1) kw);
                  ("status", kw_or "status" (VStr "ok") kw)])); [done| |apply (bool_decide_unpack _); by vm_compute|].
    + intros k. unfold _BOUNDED_LABEL_KEYS. rewrite !elem_of_cons, elem_of_nil. naive_solver.
    + intros k v Hk Hv. unfold kw_or. rewrite !elem_of_cons, elem_of_nil in Hk.
      destruct Hk as [->|[->|[]]]; by rewrite Hv.
  - pose proof (sampler_spec "record_gauge" "%s gauge" ["name"; "value"] [] [VStr event]
      (fun _ => [("metric", VStr "gauge"); ("event", VStr event); ("value", value)]) kwargs _BOUNDED_LABEL_KEYS H)
      as Hs. intros logs. destruct (Hs ltac:(unfold _BOUNDED_LABEL_KEYS; set_solver)
        ltac:(apply (bool_decide_unpack _); by vm_compute) ltac:(set_solver) logs) as [Hl|Hr];
      unfold sampler, record_gauge, mbind, act_bind, lift_result in *;
      destruct (bind_kwargs "record_gauge" ["name"; "value"] [] kwargs); cbn zeta in *;
      rewrite ?without_none in *; auto.
Qed.

(** ** Wrappers leave the wrapped code alone *)

(** [log_duration] with keywords that fit a log record. *)
Lemma log_duration_logs (lv : level) msg args event ms ok extras exc logs :
  Forall (fun k => str_in k record_attributes = false) extras.*1 ->
  emit lv msg args (od_update [("event", VStr event); ("duration_ms", ms); ("ok", VBool ok)] extras) exc logs =
  (Ok tt, logs ++ [LogRecord lv msg args
     (od_update [("event", VStr event); ("duration_ms", ms); ("ok", VBool ok)] extras) exc]).
Proof.
  intros H. apply emit_ok, list.Forall_forall. intros k [Hk|Hk]%od_update_keys.
  - revert Hk. rewrite !fmap_cons, fmap_nil, !elem_of_cons, elem_of_nil. by intros [->|[->|[->|[]]]].
  - by eapply list.Forall_forall in H.
Qed.

Lemma record_metric_safe_ok event ms status extras logs :
  NoDup extras.*1 -> "event" ∉ extras.*1 -> "status" ∉ extras.*1 ->
  exists rec, _record_metric_safe event ms status extras logs = (Ok tt, logs ++ [rec]) /\
    lr_level rec = INFO /\ od_get "status" (lr_extra rec) = Some (VStr status) /\
    (forall k, k ∈ _FORBIDDEN_LABEL_KEYS -> od_get k (lr_extra rec) = None).
Proof.
  intros Hnd Hev Hst. unfold _record_metric_safe, mbind, act_bind, lift_result.
  set (bounded := filter _ extras).
  assert (Hin : forall k, k ∈ bounded.*1 -> k ∈ extras.*1 /\ k ∈ _BOUNDED_LABEL_KEYS).
  { intros k ([k1 v] & -> & [Hb Hk]%list_elem_of_filter)%list_elem_of_fmap. cbn [fst snd] in *.
    apply andb_true_iff in Hb as [Hb%str_in_spec _]. split; [|done]. apply list_elem_of_fmap. by exists (k1, v). }
  assert (Hbind : bind_kwargs "record_duration" [] [("status", VStr status)] bounded =
    Ok (("status", VStr status) :: bounded)).
  { unfold bind_kwargs. rewrite (proj2 (find_None _ _)); [done|]. apply list.Forall_forall. intros k Hk.
    apply Hin in Hk as [Hk _]. cbn. apply orb_false_iff. split; apply not_true_is_false; intros Hs%str_in_spec.
    - apply list_elem_of_singleton in Hs. by subst.
    - by apply elem_of_nil in Hs. }
  rewrite Hbind. assert (Hnd' : NoDup (("status", VStr status) :: bounded).*1).
  { rewrite fmap_cons. apply list.NoDup_cons. split; [by intros [? _]%Hin|].
    unfold bounded. clear -Hnd. induction extras as [|kv l IH]; [constructor|].
    rewrite fmap_cons in Hnd. apply list.NoDup_cons in Hnd as [Hk Hd]. rewrite filter_cons.
    case_decide; [|by apply IH]. rewrite fmap_cons. apply list.NoDup_cons. split; [|by apply IH].
    intros (kv' & E & [_ Hkv]%list_elem_of_filter)%list_elem_of_fmap. apply Hk.
    rewrite E. apply list_elem_of_fmap. eauto. }
  destruct (metric_contract event ms _ Hnd' logs) as [(_ & rec & Hrun & Hlv & _ & Hf & Hget)|[Hn _]].
  - exists rec. split_and!; [exact Hrun|done|by apply Hget|done].
  - exfalso. apply Hn. rewrite fmap_cons. constructor; [set_solver|]. apply list.Forall_forall.
    intros k Hk. destruct (Hin k Hk) as [Hk1 Hk2]. revert Hk2. unfold _BOUNDED_LABEL_KEYS.
    rewrite !elem_of_cons, elem_of_nil. intros [->|[->|[->|[->|[->|[]]]]]]; [done| |done| |]; naive_solver.
Qed.

(** The outcome of a timed block, and the record about it. *)
Definition duration_record (to_ms : Z -> Z -> pyval) (event : string) (extras : list (string * pyval)) (start stop : Z)
    (ok : bool) : log_record :=
  LogRecord (if ok then INFO else ERROR) (if ok then "%s completed in %.2fms" else "%s failed after %.2fms")
    [VStr event; to_ms start stop]
    (od_update [("event", VStr event); ("duration_ms", to_ms start stop); ("ok", VBool ok)] extras) (negb ok).

Lemma log_duration_outcome {A} to_ms event metric extras start stop (body : L A) logs r logs1 :
  body logs = (r, logs1) -> NoDup extras.*1 -> "event" ∉ extras.*1 ->
  Forall (fun k => str_in k record_attributes = false) extras.*1 ->
  (metric = true -> "status" ∉ extras.*1) ->
  exists sample, log_duration to_ms event metric extras start stop body logs =
      (r, logs1 ++ duration_record to_ms event extras start stop (returns r) :: sample) /\
    (if metric
     then exists rec, sample = [rec] /\
       od_get "status" (lr_extra rec) = Some (VStr (if returns r then "ok" else "error")) /\
       (forall k, k ∈ _FORBIDDEN_LABEL_KEYS -> od_get k (lr_extra rec) = None)
     else sample = []).
Proof.
  intros Hbody Hnd Hev Hrec Hst. unfold log_duration. rewrite Hbody. unfold mbind, act_bind.
  destruct r as [a|e]; rewrite log_duration_logs by done; (destruct metric;
    [match goal with |- context [_record_metric_safe event ?ms ?st extras ?l] =>
       destruct (record_metric_safe_ok event ms st extras l Hnd Hev (Hst eq_refl)) as (rec & -> & _ & Hs & Hf) end|]);
    unfold mret, act_ret, raise; rewrite <- ?app_assoc; cbn [app];
    eexists; (split; [reflexivity|]); eauto.
Qed.

(** Timing a block does not change it.  For keywords a log record
    accepts (and, when the sample is also sent to the metrics, no [status]
    among them), [log_duration] gives exactly the block's own value or
    exception; it adds one record after the block's own, INFO on success and
    ERROR with a traceback on any exception, which carries the event and
    every keyword, and with [metric] one sample whose status agrees and which
    holds no forbidden identifier even when the keywords do. *)
Theorem log_duration_transparent {A} to_ms event metric extras start stop (body : L A) logs r logs1
  (Hbody : body logs = (r, logs1)) (Hnd : NoDup extras.*1) (Hev : "event" ∉ extras.*1)
  (Hrec : Forall (fun k => str_in k record_attributes = false) extras.*1)
  (Hst : metric = true -> "status" ∉ extras.*1) :
  exists line sample, log_duration to_ms event metric extras start stop body logs = (r, logs1 ++ line :: sample) /\
    lr_level line = (if returns r then INFO else ERROR) /\ lr_exc_info line = negb (returns r) /\
    od_get "event" (lr_extra line) = Some (VStr event) /\
    (forall k v, od_get k extras = Some v -> od_get k (lr_extra line) = Some v) /\
    (if metric
     then exists rec, sample = [rec] /\
       od_get "status" (lr_extra rec) = Some (VStr (if returns r then "ok" else "error")) /\
       (forall k, k ∈ _FORBIDDEN_LABEL_KEYS -> od_get k (lr_extra rec) = None)
     else sample = []).
Proof.
  destruct (log_duration_outcome to_ms event metric extras start stop body logs r logs1) as (sample & H & Hs); try done.
  do 2 eexists. split; [exact H|]. split_and!; [done|done| | |exact Hs]; cbn [lr_extra duration_record].
  - rewrite od_update_get by done. by rewrite (proj2 (od_get_None "event" extras)).
  - intros k v Hv. rewrite od_update_get by done. by rewrite Hv.
Qed.

(** The keyword [status] of a timed block: the block's outcome is lost. *)
Lemma log_duration_status_clash {A} to_ms event s start stop (body : L A) logs r logs1 :
  body logs = (r, logs1) -> exists msg logs2,
    log_duration to_ms event true [("status", VStr s)] start stop body logs = (Raise (Builtin "TypeError" msg), logs2).
Proof.
  intros Hb. unfold log_duration. rewrite Hb. unfold mbind, act_bind.
  destruct r; (rewrite log_duration_logs by (apply (bool_decide_unpack _); by vm_compute));
    do 2 eexists; reflexivity.
Qed.

Section function_logger.
Context (seconds round_s round_ms : Z -> Z -> pyval) (module_of : py_exn -> string).

Lemma log_error_emits name start stop exc logs : exists a b,
  _log_error seconds round_s round_ms module_of name start stop exc logs = (Ok tt, logs ++ [a; b]) /\
  lr_level a = ERROR /\ lr_level b = DEBUG.
Proof.
  unfold _log_error, mbind, act_bind. rewrite !emit_ok by (apply (bool_decide_unpack _); by vm_compute).
  rewrite <- app_assoc. do 2 eexists. by split_and!.
Qed.

Lemma log_enter_ok enabled name args kwargs logs : exists pre,
  _log_enter enabled name args kwargs logs = (Ok tt, logs ++ pre) /\ (enabled = false -> pre = []).
Proof.
  unfold _log_enter. destruct enabled; cbn [negb]; [|exists []; by rewrite app_nil_r].
  rewrite emit_ok by (apply (bool_decide_unpack _); by vm_compute). by eexists.
Qed.

Lemma log_exit_ok enabled name r start stop logs : exists post,
  _log_exit round_s round_ms enabled name r start stop logs = (Ok tt, logs ++ post) /\
  (enabled = false -> post = []).
Proof.
  unfold _log_exit. destruct enabled; cbn [negb]; [|exists []; by rewrite app_nil_r].
  rewrite emit_ok by (apply (bool_decide_unpack _); by vm_compute). by eexists.
Qed.

(** The [@log_function] decorator is transparent: the wrapped callable runs
    once, on the same arguments, and its value or exception is the wrapper's.
    With tracing off nothing is logged unless it raises; an [Exception] always
    leaves an ERROR record. *)
Lemma log_function_transparent enabled name func args kwargs start stop logs :
  exists pre post,
    (let '(r, logs1) := func args kwargs (logs ++ pre) in
     log_function seconds round_s round_ms enabled module_of name func args kwargs start stop logs = (r, logs1 ++ post) /\
     (enabled = false -> pre = [] /\ (returns r = true -> post = [])) /\
     (forall e, r = Raise e -> is_exception e = true -> exists rec, rec ∈ post /\ lr_level rec = ERROR)).
Proof.
  unfold log_function, except, mbind, act_bind.
  destruct (log_enter_ok enabled name args kwargs logs) as (pre & -> & Hpre). exists pre.
  destruct (func args kwargs (logs ++ pre)) as [[r|e] logs1].
  - destruct (log_exit_ok enabled name r start stop logs1) as (post & -> & Hpost). exists post.
    split_and!; [reflexivity|naive_solver|done].
  - destruct (is_exception e) eqn:He.
    + destruct (log_error_emits name start stop e logs1) as (a & b & -> & Ha & _).
      exists [a; b]. split_and!; [reflexivity|naive_solver|]. intros e' _ _. exists a. split; [left|done].
    + exists []. rewrite app_nil_r. split_and!; [reflexivity|naive_solver|]. intros e' [= <-]. congruence.
Qed.
End function_logger.

(** ** Witnesses *)
Definition sample_labels : list (string * pyval) := [("partner_slug", VStr "acme"); ("outcome", VStr "timeout")].

Lemma metric_labels_bounded_witness :
  exists rec, record_counter "push" sample_labels [] = (Ok tt, [rec]) /\
    od_get "outcome" (lr_extra rec) = Some (VStr "timeout").
Proof.
  destruct (metric_labels_bounded "push" (VInt 3) sample_labels) as (_ & H & _);
    [apply (bool_decide_unpack _); by vm_compute|].
  destruct (H []) as [(_ & rec & Hr & _ & _ & _ & Hg)|[Hn _]].
  - exists rec. split; [exact Hr|]. apply Hg. reflexivity.
  - exfalso. apply Hn. apply (bool_decide_unpack _). by vm_compute.
Defined.

Lemma log_duration_transparent_witness :
  exists line sample, log_duration (fun a b => VInt (b - a)) "ses_send_email" true [("recipient_count", VInt 2)] 5 9
    (fun logs => (Ok tt, logs)) [] = (Ok tt, line :: sample) /\ od_get "recipient_count" (lr_extra line) = Some (VInt 2).
Proof.
  destruct (log_duration_transparent (fun a b => VInt (b - a)) "ses_send_email" true [("recipient_count", VInt 2)] 5 9
    (fun logs => (@Ok py_exn unit tt, logs)) [] (Ok tt) []) as (line & sample & H & _ & _ & _ & Hk & _);
    [reflexivity|apply (bool_decide_unpack _); by vm_compute..|intros _; apply (bool_decide_unpack _); by vm_compute|].
  exists line, sample. split; [exact H|]. apply Hk. reflexivity.
Defined.
