(* ===== verification/Middleware.v ===== *)
(** * The middleware stack

    [core/middleware/bind_request_id.py] and [request_logging.py], inside the
    stack that [MIDDLEWARE] of [config/settings/base.py] lists.  A request runs
    through the layers in that order, outermost first; the request-id slot of
    [Context] and the records of the logger are the state.  Every layer that is
    not the repository's, and the kit's [bind_to], is a parameter with its
    documented behaviour, the class [Stack]. *)
From stdpp Require Import base list gmap strings.
From Stdlib Require Import Lia ZArith.
From S2P Require Import Prelude PyStr PyVal Exceptions Context LogSanitize Utils Metrics Handler Responses Settings.

(** The context variables, the kit's own request-id slot, the log, and what the
    views and the layers keep outside of the process. *)
Record mw_state (W : Type) := MwState {
  mw_ctx : ctxs;
  mw_kit : option string;
  mw_log : list Metrics.log_record;
  mw_world : W;
}.
Arguments MwState {W}.
Arguments mw_ctx {W}.
Arguments mw_kit {W}.
Arguments mw_log {W}.
Arguments mw_world {W}.

Section middleware.
Context {W : Type}.
Abbreviation state := (mw_state W).
Abbreviation handler := (http_request -> act (mw_state W) py_exn http_response).

Definition with_ctx (c : ctxs) (s : state) : state := MwState c (mw_kit s) (mw_log s) (mw_world s).
Definition with_kit (k : option string) (s : state) : state := MwState (mw_ctx s) k (mw_log s) (mw_world s).
Definition with_log (l : list Metrics.log_record) (s : state) : state :=
  MwState (mw_ctx s) (mw_kit s) l (mw_world s).
Definition with_world (w : W) (s : state) : state := MwState (mw_ctx s) (mw_kit s) (mw_log s) w.
Definition rid_of (s : state) : option string := get_request_id (mw_ctx s).

(** [logger.info(msg, extra=extra)] through [RequestContextFilter]. *)
Definition filtered (c : ctxs) (r : Metrics.log_record) : Metrics.log_record :=
  LogRecord (lr_level r) (lr_msg r) (lr_args r) (request_context_filter c (lr_extra r)).2 (lr_exc_info r).
Definition info (msg : string) (extra : list (string * pyval)) : act state py_exn unit := fun s =>
  let '(r, records) := emit INFO msg [] extra false [] in
  (r, with_log (mw_log s ++ (filtered (mw_ctx s) <$> records)) s).

(** ** The repository's layers *)
Section layers.
Context (cfg : san_config) (use_xff : bool) (elapsed : state -> pyval).

(** [elapsed] is the rounded time between the two readings of the clock. *)
Definition RequestLoggingMiddleware (get_response : handler) : handler := fun request =>
  info "Incoming request"
    (safe_extra cfg [("method", VStr (q_method request)); ("path", short_path request);
                     ("user_id", get_user_id request);
                     ("remote_addr", VStr (client_ip use_xff (q_meta request)))]) ≫= fun _ =>
  response ← get_response request;
  s ← get_state;
  info "Request completed"
    (safe_extra cfg [("method", VStr (q_method request)); ("path", short_path request);
                     ("user_id", get_user_id request); ("status_code", VInt (p_status response));
                     ("duration_ms", elapsed s)]) ≫= fun _ =>
  mret response.

(** [with bind_to(request_id_ctx): return get_response(request)] *)
Context (bind_to : forall A, act state py_exn A -> act state py_exn A).
Definition BindRequestIdMiddleware (get_response : handler) : handler := fun request =>
  bind_to _ (get_response request).
End layers.

Definition request_id_name : string := "resilience_kit.adapters.django.middleware.RequestIdMiddleware".
Definition bind_name : string := "core.middleware.bind_request_id.BindRequestIdMiddleware".
Definition logging_name : string := "core.middleware.request_logging.RequestLoggingMiddleware".

(** The value [base.py] assigns to [MIDDLEWARE]. *)
Definition MIDDLEWARE : list string := assigned_strings "MIDDLEWARE" app_settings.

(** ** The layers that are not *)

(** A layer that answers itself, with an answer of [own], or calls the next
    one once, on a request that is the [same] for what follows, and gives back
    its answer or one of [own]; what it does beside leaves the state as [keep]
    says. *)
Definition passes (same : http_request -> http_request -> Prop) (keep : state -> state -> Prop)
    (own : result py_exn http_response -> Prop) (mw : handler -> handler) : Prop :=
  forall req s,
    (exists r s', (forall h, mw h req s = (r, s')) /\ keep s s' /\ own r) \/
    (exists q s1 post, (forall h, mw h req s = post (h q s1)) /\ same req q /\ keep s s1 /\
       forall out, keep out.2 (post out).2 /\ ((post out).1 = out.1 \/ own (post out).1)).

(** A layer that changes neither slot and keeps the id of the request. *)
Definition transparent (kit_id : http_request -> string) : (handler -> handler) -> Prop :=
  passes (fun req q => kit_id q = kit_id req) (fun s s' => mw_ctx s' = mw_ctx s /\ mw_kit s' = mw_kit s)
    (fun _ => True).

Class Stack := {
  third_party : string -> handler -> handler;
  kit_id : http_request -> string;
  bind_to : forall A, act state py_exn A -> act state py_exn A;
  error_page : py_exn -> http_response;
  sk_cfg : san_config;
  sk_use_xff : bool;
  sk_elapsed : state -> pyval;
}.

(** The kit's [RequestIdMiddleware] puts the request's id into the kit's slot
    for the time of the call; [bind_to] mirrors that slot into its target for
    the time of its block. *)
Class StackLaws `{Stack} : Prop := {
  third_transparent : forall name, name <> request_id_name -> transparent kit_id (third_party name);
  kit_stamps : forall h req s,
    third_party request_id_name h req s =
      let '(r, s') := h req (with_kit (Some (kit_id req)) s) in (r, with_kit (mw_kit s) s');
  bind_mirrors : forall s, exists enter leave,
    (forall A (body : act state py_exn A), bind_to A body s =
       let '(r, s') := body (with_ctx enter s) in (r, with_ctx (leave (mw_ctx s')) s')) /\
    get_request_id enter = mw_kit s /\ forall c, get_request_id (leave c) = rid_of s;
}.

Section stack.
Context `{HS : Stack}.

(** [convert_exception_to_response], around every layer and the view. *)
Definition convert (h : handler) : handler := fun req s =>
  match h req s with
  | (Raise e, s') => (Ok (error_page e), s')
  | out => out
  end.

Definition layer (name : string) (h : handler) : handler :=
  if String.eqb name bind_name then BindRequestIdMiddleware bind_to h
  else if String.eqb name logging_name then RequestLoggingMiddleware sk_cfg sk_use_xff sk_elapsed h
  else third_party name h.

(** [BaseHandler.load_middleware] *)
Definition load_middleware (names : list string) (view : handler) : handler :=
  foldr (fun name h => convert (layer name h)) (convert view) names.

(** ** Lemmas *)

(** Two handlers that agree on the requests of one id in the states [P] admits. *)
Definition agree (id : string) (P : state -> Prop) (h1 h2 : handler) : Prop :=
  forall q s, kit_id q = id -> P s -> h1 q s = h2 q s.

Lemma agree_convert id P h1 h2 : agree id P h1 h2 -> agree id P (convert h1) (convert h2).
Proof. intros Ha q s Hq Hs. unfold convert. by rewrite Ha. Qed.

(** [P] looks at the two slots only. *)
Definition slots_only (P : state -> Prop) : Prop :=
  forall s s', mw_ctx s' = mw_ctx s -> mw_kit s' = mw_kit s -> P s -> P s'.

Lemma agree_transparent id P mw h1 h2 :
  slots_only P -> transparent kit_id mw -> agree id P h1 h2 -> agree id P (mw h1) (mw h2).
Proof.
  intros HP Ht Ha q s Hq Hs. destruct (Ht q s) as [(r & s' & E & _)|(q1 & s1 & post & E & Hid & [Hc Hk] & _)].
  - by rewrite !E.
  - rewrite !E. f_equal. apply Ha; [congruence|eauto].
Qed.

Lemma emit_nil lv msg args extra b : exists r records, emit lv msg args extra b [] = (r, records).
Proof. eexists _, _. apply surjective_pairing. Qed.

Lemma info_log msg extra s r s' : info msg extra s = (r, s') -> exists l, s' = with_log l s.
Proof. unfold info. destruct (emit _ _ _ _ _ _). intros [= _ <-]. by eexists. Qed.

(** The logging layer passes every request on and gives every answer back,
    and touches the log only. *)
Lemma logging_passes (same : http_request -> http_request -> Prop) (keep : state -> state -> Prop)
    (own : result py_exn http_response -> Prop) cfg xff el :
  (forall q, same q q) -> (forall s l, keep s (with_log l s)) -> (forall s, keep s s) ->
  (forall e, own (Raise e)) -> passes same keep own (RequestLoggingMiddleware cfg xff el).
Proof.
  intros Hsame Hkeep Hrefl Hown req s. unfold RequestLoggingMiddleware, mbind, act_bind.
  destruct (info "Incoming request" _ s) as [[[]|e] s1] eqn:E1; apply info_log in E1 as [l ->].
  2: { left. by exists (Raise e), (with_log l s). }
  right. exists req, (with_log l s), (fun out : result py_exn http_response * state =>
    match out with
    | (Ok response, s2) =>
        (s ← get_state;
         info "Request completed"
           (safe_extra cfg [("method", VStr (q_method req)); ("path", short_path req);
              ("user_id", get_user_id req); ("status_code", VInt (p_status response));
              ("duration_ms", el s)]) ≫= fun _ => mret response) s2
    | (Raise e, s2) => (Raise e, s2)
    end).
  split_and!; [done|done|done|]. intros [[response|e] s2]; [|by auto]. unfold get_state, mbind, act_bind.
  destruct (info "Request completed" _ s2) as [[[]|e] s3] eqn:E2; apply info_log in E2 as [l2 ->];
    (split; [apply Hkeep|]); [left; reflexivity|right; apply Hown].
Qed.

Lemma logging_transparent cfg xff el : transparent kit_id (RequestLoggingMiddleware cfg xff el).
Proof. apply logging_passes; auto. Qed.

Context `{!StackLaws}.

Lemma agree_layer id P name h1 h2 :
  slots_only P -> name <> request_id_name -> name <> bind_name ->
  agree id P h1 h2 -> agree id P (layer name h1) (layer name h2).
Proof.
  intros HP Hr Hb Ha. unfold layer. rewrite (proj2 (String.eqb_neq name bind_name)) by done.
  destruct (String.eqb name logging_name); (apply agree_transparent; [done| |done]).
  - apply logging_transparent.
  - by apply third_transparent.
Qed.

Lemma agree_layers id P names h1 h2 :
  slots_only P -> request_id_name ∉ names -> bind_name ∉ names -> agree id P h1 h2 ->
  agree id P (foldr (fun name h => convert (layer name h)) h1 names)
             (foldr (fun name h => convert (layer name h)) h2 names).
Proof.
  intros HP. induction names as [|name names IH]; [done|]. rewrite !not_elem_of_cons. intros [Hr Hr'] [Hb Hb'] Ha.
  cbn [foldr]. apply agree_convert, agree_layer; auto.
Qed.

(** The bridge turns the kit's slot into the program's. *)
Lemma agree_bind id h1 h2 :
  agree id (fun s => rid_of s = Some id) h1 h2 ->
  agree id (fun s => mw_kit s = Some id) (layer bind_name h1) (layer bind_name h2).
Proof.
  intros Ha q s Hq Hs. change (layer bind_name) with (BindRequestIdMiddleware bind_to).
  unfold BindRequestIdMiddleware. destruct (bind_mirrors s) as (enter & leave & E & He & _).
  rewrite !E, Ha; [done|done|]. unfold rid_of. simpl. congruence.
Qed.

Lemma agree_request_id id h1 h2 :
  agree id (fun s => mw_kit s = Some id) h1 h2 ->
  agree id (fun _ => True) (layer request_id_name h1) (layer request_id_name h2).
Proof.
  intros Ha q s Hq _. change (layer request_id_name) with (third_party request_id_name).
  rewrite !kit_stamps, Ha; [done|done|]. simpl. by rewrite Hq.
Qed.

(** Handlers that leave the request-id slot as they found it. *)
Definition restores (h : handler) : Prop := forall q s, rid_of (h q s).2 = rid_of s.

Lemma restores_convert h : restores h -> restores (convert h).
Proof. intros Hh q s. specialize (Hh q s). unfold convert. by destruct (h q s) as [[]]. Qed.

Lemma restores_layer name h : restores h \/ name = bind_name -> restores (layer name h).
Proof.
  intros Hh q s. unfold layer. destruct (String.eqb_spec name bind_name) as [->|Hb].
  { unfold BindRequestIdMiddleware. destruct (bind_mirrors s) as (enter & leave & E & _ & Hl). rewrite E.
    destruct (h q _) as [r s']. cbn [snd]. unfold rid_of at 1. cbn [mw_ctx with_ctx]. apply Hl. }
  destruct Hh as [Hh|]; [|done].
  assert (forall mw, transparent kit_id mw -> rid_of (mw h q s).2 = rid_of s) as Ht.
  { intros mw Ht. destruct (Ht q s) as [(r & s' & E & [Hc _] & _)|(q1 & s1 & post & E & _ & [Hc _] & Hp)].
    - rewrite E. unfold rid_of. simpl. congruence.
    - rewrite E. destruct (Hp (h q1 s1)) as [[Hp' _] _]. unfold rid_of at 1. rewrite Hp'.
      etrans; [apply (Hh q1 s1)|]. unfold rid_of. congruence. }
  destruct (String.eqb name logging_name); [apply Ht, logging_transparent|].
  destruct (decide (name = request_id_name)) as [->|Hr]; [|by apply Ht, third_transparent].
  rewrite kit_stamps. specialize (Hh q (with_kit (Some (kit_id q)) s)). by destruct (h q _).
Qed.

Lemma restores_layers names h :
  restores h -> restores (foldr (fun name h => convert (layer name h)) h names).
Proof. intros Hh. induction names; [done|]. cbn [foldr]. apply restores_convert, restores_layer. by left. Qed.

Lemma convert_ok h q s : exists resp, (convert h q s).1 = Ok resp.
Proof. unfold convert. destruct (h q s) as [[]]; by eexists. Qed.

(** A record logged while the id is bound carries it. *)
Lemma info_stamped id msg extra s r s' :
  id <> "" -> rid_of s = Some id -> info msg extra s = (r, s') ->
  exists new : list Metrics.log_record, mw_log s' = mw_log s ++ new /\
    Forall (fun rec => od_get "request_id" (lr_extra rec) = Some (VStr id)) new.
Proof.
  intros Hid Hs. unfold info. destruct (emit _ _ _ _ _ _) as [r0 records]. intros [= <- <-]. cbn [mw_log with_log].
  exists (filtered (mw_ctx s) <$> records). split; [done|]. apply list.Forall_forall.
  intros rec (r1 & -> & _)%list_elem_of_fmap. cbn [filtered lr_extra].
  unfold request_context_filter. unfold rid_of in Hs. rewrite Hs. apply str_true_spec in Hid. rewrite Hid.
  cbn [snd]. assert (forall name v d, name <> "request_id" ->
    od_get "request_id" (attr_if_missing name v d) = od_get "request_id" d) as Ha.
  { intros name v d Hn. unfold attr_if_missing. destruct v; [|done]. destruct (od_mem name d); [done|].
    by rewrite od_get_set_ne. }
  rewrite !Ha by done. by rewrite od_get_set_eq.
Qed.

(** ** What the whole stack does around the view *)

(** The other layers seen from the state outside of the process: [keeps] bounds
    what they do to it, [own] what they answer themselves. *)
Class OuterLaws (same : http_request -> http_request -> Prop) (keeps : W -> W -> Prop)
    (own : result py_exn http_response -> Prop) : Prop := {
  same_preorder :: PreOrder same;
  keeps_preorder :: PreOrder keeps;
  third_passes : forall name, name <> request_id_name ->
    passes same (fun s s' => keeps (mw_world s) (mw_world s')) own (third_party name);
  own_raise : forall e, own (Raise e);
  own_page : forall e, own (Ok (error_page e));
}.

Section outer.
Context {same : http_request -> http_request -> Prop} {keeps : W -> W -> Prop}
  {own : result py_exn http_response -> Prop}.
Context `{!OuterLaws same keeps own}.
Abbreviation through := (passes same (fun s s' => keeps (mw_world s) (mw_world s')) own).

Lemma passes_convert : through convert.
Proof.
  intros req s. right. exists req, s, (fun out : result py_exn http_response * state =>
    match out with (Raise e, s') => (Ok (error_page e), s') | _ => out end).
  split_and!; [by intros h; unfold convert; destruct (h req s) as [[]]|done|done|].
  intros [[r|e] s']; (split; [done|]); [by left|right; apply own_page].
Qed.

Lemma passes_compose mw1 mw2 : through mw1 -> through mw2 -> through (fun h => mw1 (mw2 h)).
Proof.
  intros H1 H2 req s. destruct (H1 req s) as [(r & s' & E & ?)|(q1 & s1 & post1 & E1 & Hs1 & Hk1 & Hp1)].
  { left. exists r, s'. by split; [intros h; apply E|]. }
  destruct (H2 q1 s1) as [(r & s' & E2 & Hk2 & Ho)|(q2 & s2 & post2 & E2 & Hs2 & Hk2 & Hp2)].
  - left. exists (post1 (r, s')).1, (post1 (r, s')).2. destruct (Hp1 (r, s')) as [Hk Hr]. split_and!.
    + intros h. rewrite E1, E2. apply surjective_pairing.
    + etrans; [exact Hk1|]. by etrans.
    + by destruct Hr as [->|].
  - right. exists q2, s2, (fun out => post1 (post2 out)). split_and!.
    + intros h. by rewrite E1, E2.
    + by etrans.
    + by etrans.
    + intros out. destruct (Hp2 out) as [Hk Hr], (Hp1 (post2 out)) as [Hk' Hr']. split; [by etrans|].
      destruct Hr' as [->|]; auto.
Qed.

Lemma passes_layer name : through (layer name).
Proof.
  intros req s. destruct (decide (name = bind_name)) as [->|Hb]; [|destruct (decide (name = request_id_name)) as [->|Hr]].
  - destruct (bind_mirrors s) as (enter & leave & E & _). right.
    exists req, (with_ctx enter s), (fun '(r, s') => (r, with_ctx (leave (mw_ctx s')) s')).
    split_and!; [by intros h; apply E|done|done|]. intros [r s']. by split; [|left].
  - right. exists req, (with_kit (Some (kit_id req)) s), (fun '(r, s') => (r, with_kit (mw_kit s) s')).
    split_and!; [by intros h; apply kit_stamps|done|done|]. intros [r s']. by split; [|left].
  - unfold layer. rewrite (proj2 (String.eqb_neq name bind_name)) by done.
    destruct (String.eqb name logging_name); [|by apply third_passes].
    revert req s. change (through (RequestLoggingMiddleware sk_cfg sk_use_xff sk_elapsed)).
    apply logging_passes; [done|done|done|]. intros e. apply own_raise.
Qed.

Lemma passes_stack names : through (load_middleware names).
Proof.
  unfold load_middleware. induction names as [|name names IH]; [exact passes_convert|]. cbn [foldr].
  apply (passes_compose (fun h => convert (layer name h))); [|exact IH].
  apply passes_compose; [exact passes_convert|apply passes_layer].
Qed.
End outer.
End stack.
End middleware.
Arguments Stack : clear implicits.

(** The two names in the list of [base.py]: the bridge follows the kit's layer
    at once, and the logging layer is inside both. *)
Lemma middleware_order : exists outer inner : list string,
  MIDDLEWARE = outer ++ request_id_name :: bind_name :: inner /\
  request_id_name ∉ outer /\ bind_name ∉ outer /\ request_id_name ∉ inner /\ bind_name ∉ inner /\
  logging_name ∈ inner.
Proof.
  exists (take 5 MIDDLEWARE), (drop 7 MIDDLEWARE).
  split_and!; try (apply (bool_decide_unpack _); by vm_compute).
Qed.

(** The run of the whole stack depends on the view only at the states with the
    request's own id in the slot. *)
Lemma stack_agrees {W : Type} `{HS : Stack W} `{!StackLaws} (view view' : http_request -> act (mw_state W) py_exn http_response) req s :
  (forall q t, kit_id q = kit_id req -> rid_of t = Some (kit_id req) -> view q t = view' q t) ->
  load_middleware MIDDLEWARE view req s = load_middleware MIDDLEWARE view' req s.
Proof.
  destruct middleware_order as (outer & inner & E & Hro & Hbo & Hri & Hbi & _).
  unfold load_middleware. rewrite E. intros Hv. rewrite !foldr_app. cbn [foldr].
  set (id := kit_id req). refine (agree_layers id (fun _ => True) outer _ _ _ Hro Hbo _ req s eq_refl I); [done|].
  apply agree_convert, agree_request_id, agree_convert, agree_bind, agree_layers; [|done|done|].
  - intros t t' Hc _. unfold rid_of. by rewrite Hc.
  - apply agree_convert. intros q t Hq Ht. by apply Hv.
Qed.

(** C30: through the middleware stack that the settings list, a view only ever
    runs with the request's own id in the request-id slot, so the envelope and
    the log records it builds carry it (a view that differs in any other state
    gives the same run); whatever the view does to the slot, and however it
    ends, the slot afterwards is what it was before the request, and a response
    comes back. *)
Theorem request_id_in_force {W : Type} `{HS : Stack W} `{!StackLaws} (view : http_request -> act (mw_state W) py_exn http_response) req s :
  let run := fun v => load_middleware MIDDLEWARE v req s in
  (forall view', (forall q t, kit_id q = kit_id req -> rid_of t = Some (kit_id req) -> view q t = view' q t) ->
     run view = run view') /\
  rid_of (run view).2 = rid_of s /\
  exists resp, (run view).1 = Ok resp.
Proof.
  split; [intros view'; apply stack_agrees|].
  destruct middleware_order as (outer & inner & E & _). unfold load_middleware. rewrite E. split.
  - rewrite foldr_app. cbn [foldr]. apply restores_layers.
    apply restores_convert, restores_layer. left. apply restores_convert, restores_layer. by right.
  - destruct outer; cbn [app foldr]; apply convert_ok.
Qed.

(** A stack whose other layers only pass requests on. *)
Definition sample_id (req : http_request) : string := "req-" +:+ q_method req.
Definition sample_bind W A (body : act (mw_state W) py_exn A) : act (mw_state W) py_exn A := fun s =>
  let slot := request_id_ctx (mw_ctx s) in
  let '(r, s') := body (with_ctx (with_request_id (cv_set (mw_kit s) slot).2 (mw_ctx s)) s) in
  (r, with_ctx (with_request_id slot (mw_ctx s')) s').
Definition sample_third W (name : string) (h : http_request -> act (mw_state W) py_exn http_response)
    : http_request -> act (mw_state W) py_exn http_response := fun req s =>
  if String.eqb name request_id_name
  then let '(r, s') := h req (with_kit (Some (sample_id req)) s) in (r, with_kit (mw_kit s) s')
  else h req s.
Definition sample_san : san_config := SanConfig true 100 50 20 (fun k => contains "password" k) "***" [].
Definition sample_stack W : Stack W :=
  Build_Stack (sample_third W) sample_id (sample_bind W) (fun _ => HttpResponse 500 VNone) sample_san false (fun _ => VInt 1).

Lemma sample_stack_laws W : @StackLaws W (sample_stack W).
Proof.
  split; cbn.
  - intros name Hn req s. right. exists req, s, id. unfold sample_third.
    rewrite (proj2 (String.eqb_neq name request_id_name)) by done. split_and!; auto.
  - done.
  - intros s. eexists _, (fun c => with_request_id (request_id_ctx (mw_ctx s)) c).
    split_and!; [intros A body; unfold sample_bind; reflexivity|done|done].
Qed.

(** A view that answers with the id it sees and then clears the slot. *)
Definition echo_view : http_request -> act (mw_state unit) py_exn http_response := fun _ s =>
  (Ok (HttpResponse 200 (vopt_str (rid_of s))), with_ctx ctxs_empty s).

Lemma request_id_in_force_witness :
  let req := HttpRequest "GET" "/api/accounts/me/" None [] in
  let s := MwState ctxs_empty None [] tt in
  let run := fun v => @load_middleware unit (sample_stack unit) MIDDLEWARE v req s in
  run echo_view = run (fun _ t => (Ok (HttpResponse 200 (VStr "req-GET")), with_ctx ctxs_empty t)) /\
  rid_of (run echo_view).2 = None.
Proof.
  intros req s run.
  pose proof (@request_id_in_force unit (sample_stack unit) (sample_stack_laws unit) echo_view req s) as H.
  cbv zeta in H. destruct H as (H1 & H2 & _). subst run. cbv beta.
  split; [|rewrite H2; reflexivity]. apply H1. intros q t Hq Ht. unfold echo_view. rewrite Ht.
  change (sample_id q = sample_id req) in Hq. change (@kit_id unit (sample_stack unit) req) with (sample_id req). reflexivity.
Defined.

(** A view that leaves the slot alone: both records of the request log carry the id. *)
Lemma records_carry_the_id :
  let out := @load_middleware unit (sample_stack unit) MIDDLEWARE (fun _ s => (Ok (HttpResponse 200 (vopt_str (rid_of s))), s))
    (HttpRequest "GET" "/" None []) (MwState ctxs_empty None [] tt) in
  out.1 = Ok (HttpResponse 200 (VStr "req-GET")) /\
  (fun r => od_get "request_id" (lr_extra r)) <$> mw_log out.2 = [Some (VStr "req-GET"); Some (VStr "req-GET")].
Proof. split; vm_compute; reflexivity. Qed.
