(* ===== verification/Urls.v ===== *)
(** * The URL tables

    [config/urls.py], [core/urls.py] and [accounts/urls.py]: which view answers
    which path.  A table is a list of [path] entries; [path], [include] and the
    [int] converter act as Django documents them: a route without a converter
    is its own text, a converter takes a run of digits, [include] goes on below
    its prefix, and the first entry that matches wins.  What lies below a table
    of Django or of a package ([admin.site.urls]) is one opaque view. *)
From stdpp Require Import base list gmap strings pretty.
From Stdlib Require Import Ascii Lia ZArith.
From S2P Require Import Prelude PyStr PyVal.

(** ** Routes *)

Inductive segment := Lit (s : string) | IntParam (name : string).

Inductive url_pattern :=
| Path (route : list segment) (view : string) (name : option string)
| Mounted (route : list segment) (view : string)
| Include (route : list segment) (patterns : list url_pattern).

Abbreviation kwargs := (list (string * Z)).

(** The digits a string begins with. *)
Fixpoint digits (s : string) : string :=
  match s with
  | String c s' => if is_digit c then String c (digits s') else ""
  | EmptyString => ""
  end.

(** Match a route at the front of a path: the arguments and what is left. *)
Fixpoint match_route (route : list segment) (path : string) : option (kwargs * string) :=
  match route with
  | [] => Some ([], path)
  | Lit s :: rest => if startswith s path then match_route rest (sdrop (slen s) path) else None
  | IntParam name :: rest =>
      let d := digits path in
      if str_true d then
        z ← parse_int d;
        '(args, tail) ← match_route rest (sdrop (slen d) path);
        Some ((name, z) :: args, tail)
      else None
  end.

(** Every entry that matches, in order, with the arguments from the outside in. *)
Fixpoint matches (p : url_pattern) (path : string) : list (string * kwargs) :=
  match p with
  | Path route view _ =>
      match match_route route path with
      | Some (args, EmptyString) => [(view, args)]
      | _ => []
      end
  | Mounted route view =>
      match match_route route path with
      | Some (args, _) => [(view, args)]
      | None => []
      end
  | Include route patterns =>
      match match_route route path with
      | Some (args, tail) =>
          (fun m : string * kwargs => (m.1, args ++ m.2)) <$>
            ((fix all ps := match ps with [] => [] | p :: ps' => matches p tail ++ all ps' end) patterns)
      | None => []
      end
  end.
Definition matches_all (ps : list url_pattern) (path : string) : list (string * kwargs) :=
  ps ≫= fun p => matches p path.

(** [resolve]: the first match. *)
Definition resolve (ps : list url_pattern) (path : string) : option (string * kwargs) := head (matches_all ps path).

(** Full routes by name, with the view, and [reverse(name, kwargs)]: the keyword
    arguments must be those of the route, here in the route's order; the
    converter refuses a number it would not match. *)
Fixpoint named (prefix : list segment) (p : url_pattern) : list (string * (string * list segment)) :=
  match p with
  | Path route view (Some name) => [(name, (view, prefix ++ route))]
  | Path _ _ None | Mounted _ _ => []
  | Include route patterns =>
      (fix all ps := match ps with [] => [] | p :: ps' => named (prefix ++ route) p ++ all ps' end) patterns
  end.
Definition names (ps : list url_pattern) : list (string * (string * list segment)) := ps ≫= named [].
Fixpoint build (route : list segment) (args : kwargs) : option string :=
  match route, args with
  | [], [] => Some ""
  | Lit s :: rest, _ => t ← build rest args; Some (s +:+ t)
  | IntParam name :: rest, (k, z) :: args' =>
      t ← build rest args';
      if String.eqb k name && (0 <=? z)%Z then Some (str_int z +:+ t) else None
  | _, _ => None
  end.
Definition reverse_url (ps : list url_pattern) (name : string) (args : kwargs) : option string :=
  '(_, route) ← od_get name (names ps); build route args.

(** ** The tables *)

Definition core_urlpatterns : list url_pattern :=
  [Path [Lit "health/"] "core.views.health_check" None;
   Path [Lit "readiness/"] "core.views.readiness_check" None;
   Path [Lit "metrics"] "core.views.metrics_endpoint" (Some "core:metrics");
   Path [Lit "csp-report/"] "core.views.csp_report" (Some "core:csp-report")].

Definition accounts_urlpatterns : list url_pattern :=
  [Path [Lit "google/"] "accounts.views.GoogleLogin" (Some "accounts:google-login");
   Path [Lit "token/refresh/"] "accounts.views.token_refresh" (Some "accounts:token-refresh");
   Path [Lit "logout/"] "accounts.views.logout" (Some "accounts:auth-logout");
   Path [Lit "me/"] "accounts.views.me" (Some "accounts:auth-me");
   Path [Lit "api-keys/"; IntParam "pk"; Lit "/"] "accounts.views.APIKeyDeleteView" (Some "accounts:api-key-delete");
   Path [Lit "api-keys/"; IntParam "pk"; Lit "/revoke/"] "accounts.views.APIKeyRevokeView"
     (Some "accounts:api-key-revoke")].

Definition urlpatterns : list url_pattern :=
  [Mounted [Lit "admin/"] "admin.site";
   Include [Lit "api/"] core_urlpatterns;
   Include [Lit "api/accounts/"] accounts_urlpatterns;
   Path [Lit "api/schema/"] "SpectacularAPIView" (Some "schema");
   Path [Lit "api/docs/"] "SpectacularSwaggerView" (Some "swagger-ui");
   Path [Lit "api/redoc/"] "SpectacularRedocView" (Some "redoc")].

(** ** Lemmas *)

Lemma digits_prefix s : exists t, s = digits s +:+ t.
Proof.
  induction s as [|c s [t IH]]; [by exists ""|]. cbn [digits]. destruct (is_digit c); [|by exists (String c s)].
  exists t. simpl. by f_equal.
Qed.

Lemma digits_all s : all_digits (digits s) = true.
Proof. induction s as [|c s IH]; [done|]. cbn [digits]. destruct (is_digit c) eqn:E; [|done]. cbn. by rewrite E. Qed.

(** A run of digits stops at the first other character. *)
Lemma digits_app a c t : all_digits a = true -> is_digit c = false -> digits (a +:+ String c t) = a.
Proof.
  intros Ha Hc. induction a as [|d a IH]; cbn [String.append digits].
  - by rewrite Hc.
  - cbn [all_digits] in Ha. apply andb_true_iff in Ha as [-> Ha]. by rewrite IH.
Qed.

(** A route whose arguments are each followed by a literal that begins with a
    character that is no digit, or by the end. *)
Definition stops (s : string) : bool := match s with String c _ => negb (is_digit c) | EmptyString => true end.
Fixpoint delimited (route : list segment) : bool :=
  match route with
  | [] => true
  | Lit _ :: rest => delimited rest
  | IntParam _ :: rest =>
      match rest with
      | [] => true
      | Lit s :: _ => str_true s && stops s && delimited rest
      | IntParam _ :: _ => false
      end
  end.
Fixpoint ends_in_param (route : list segment) : bool :=
  match route with [] => false | [IntParam _] => true | _ :: rest => ends_in_param rest end.

Lemma digits_stops a t : all_digits a = true -> stops t = true -> digits (a +:+ t) = a.
Proof.
  intros Ha Ht. destruct t as [|c t].
  - rewrite str_app_nil_r. induction a as [|d a IH]; [done|]. cbn [all_digits digits] in *.
    apply andb_true_iff in Ha as [-> Ha]. by rewrite IH.
  - apply digits_app; [done|]. cbn in Ht. by apply negb_true_iff in Ht.
Qed.

(** [build] and [match_route] are inverse on a delimited route. *)
Lemma build_matches route : forall args p tail,
  delimited route = true -> stops tail || negb (ends_in_param route) = true ->
  build route args = Some p -> match_route route (p +:+ tail) = Some (args, tail).
Proof.
  induction route as [|[s|name] rest IH]; intros args p tail Hd He Hb.
  - destruct args; [|done]. by injection Hb as <-.
  - cbn [build] in Hb. destruct (build rest args) as [t|] eqn:Ht; [|done]. injection Hb as <-.
    cbn [match_route]. rewrite str_app_assoc, startswith_self, sdrop_app. apply IH; [done| |done].
    destruct rest; [by rewrite orb_true_r|done].
  - cbn [build] in Hb. destruct args as [|[k z] args]; [done|].
    destruct (build rest args) as [t|] eqn:Ht; [|done]. cbn in Hb.
    destruct (String.eqb_spec k name) as [->|]; [|done]. destruct (Z.leb_spec 0 z) as [Hz|]; [|done].
    injection Hb as <-. destruct (str_int_digits z Hz) as (Ha & Hs & Hv).
    assert (Hst : stops (t +:+ tail) = true).
    { destruct rest as [|[s|n] rest]; [|cbn [delimited] in Hd|done].
      - destruct args; [|done]. injection Ht as <-. cbn in He. by rewrite orb_false_r in He.
      - apply andb_true_iff in Hd as [[Hs1 Hs2]%andb_true_iff _]. cbn [build] in Ht.
        destruct (build rest args) as [u|]; [|done]. injection Ht as <-. by destruct s. }
    cbn [match_route]. rewrite str_app_assoc, digits_stops, Hs, parse_int_str_int, sdrop_app by done. cbn.
    rewrite (IH args t tail); [done| | |done].
    + destruct rest as [|[s|n] rest]; [done| |done]. cbn [delimited] in Hd.
      by apply andb_true_iff in Hd as [_ Hd].
    + destruct rest; [by rewrite orb_true_r|done].
Qed.

(** *** Tables as lists of full routes *)

(** A table read as full routes, each with its view, and whether the path has
    to end where the route does. *)
Definition entry : Type := list segment * bool * string.
Fixpoint flat (prefix : list segment) (p : url_pattern) : list entry :=
  match p with
  | Path route view _ => [(prefix ++ route, true, view)]
  | Mounted route view => [(prefix ++ route, false, view)]
  | Include route patterns =>
      (fix all ps := match ps with [] => [] | p :: ps' => flat (prefix ++ route) p ++ all ps' end) patterns
  end.
Definition entry_match (path : string) (e : entry) : list (string * kwargs) :=
  let '(route, exact, view) := e in
  match match_route route path with
  | Some (args, tail) => if exact && str_true tail then [] else [(view, args)]
  | None => []
  end.
Definition under (args : kwargs) (ms : list (string * kwargs)) : list (string * kwargs) :=
  (fun m : string * kwargs => (m.1, args ++ m.2)) <$> ms.

Lemma match_route_app r1 r2 path :
  match_route (r1 ++ r2) path =
    match match_route r1 path with
    | Some (a, t) => match match_route r2 t with Some (b, u) => Some (a ++ b, u) | None => None end
    | None => None
    end.
Proof.
  revert path. induction r1 as [|[s|n] r1 IH]; intros path; cbn.
  - by destruct (match_route r2 path) as [[]|].
  - destruct (startswith s path); [apply IH|done].
  - destruct (str_true (digits path)); [|done]. destruct (parse_int (digits path)); [|done]. cbn. rewrite IH.
    destruct (match_route r1 _) as [[a t]|]; [|done]. cbn. by destruct (match_route r2 t) as [[]|].
Qed.

(** Resolving entry by entry is resolving the full routes. *)
Fixpoint flat_matches (p : url_pattern) : forall prefix path,
  flat prefix p ≫= entry_match path =
    match match_route prefix path with Some (a, t) => under a (matches p t) | None => [] end.
Proof.
  intros prefix path. destruct p as [route view name|route view|route ps]; cbn [flat mbind list_bind].
  - rewrite app_nil_r. cbn [entry_match matches]. rewrite match_route_app.
    destruct (match_route prefix path) as [[a t]|]; [|done]. by destruct (match_route route t) as [[b []]|].
  - rewrite app_nil_r. cbn [entry_match matches]. rewrite match_route_app.
    destruct (match_route prefix path) as [[a t]|]; [|done]. by destruct (match_route route t) as [[b []]|].
  - induction ps as [|p ps IH].
    + cbn. destruct (match_route prefix path) as [[a t]|]; [|done]. by destruct (match_route route t) as [[b u]|].
    + rewrite bind_app, IH, flat_matches, match_route_app. cbn [matches].
      destruct (match_route prefix path) as [[a t]|]; [|done].
      destruct (match_route route t) as [[b u]|]; [|done].
      unfold under. rewrite !fmap_app, <- !list_fmap_compose. f_equal.
      apply list_fmap_ext. intros i m _. cbn. by rewrite app_assoc.
Qed.

Lemma under_nil ms : under [] ms = ms.
Proof. induction ms as [|[v a] ms IH]; [done|]. change (under [] ((v, a) :: ms)) with ((v, a) :: under [] ms). by rewrite IH. Qed.

Definition table (ps : list url_pattern) : list entry := ps ≫= flat [].
Lemma table_matches ps path : matches_all ps path = table ps ≫= entry_match path.
Proof.
  unfold table, matches_all. induction ps as [|p ps IH]; [done|]. cbn [mbind list_bind].
  rewrite bind_app, flat_matches, <- IH.
  cbn [match_route]. by rewrite under_nil.
Qed.

(** *** Routes that no path fits twice *)

Inductive token := Chr (c : ascii) | Num.
Fixpoint chars (s : string) : list token := match s with String c s' => Chr c :: chars s' | EmptyString => [] end.
Definition tokens (route : list segment) : list token :=
  route ≫= fun s => match s with Lit s => chars s | IntParam _ => [Num] end.

(** Two routes part: at some point one asks for a character the other cannot
    have there. *)
Fixpoint apart (l1 : list token) (exact1 : bool) (l2 : list token) (exact2 : bool) : bool :=
  match l1, l2 with
  | [], [] => false
  | [], _ :: _ => exact1
  | _ :: _, [] => exact2
  | Chr c :: l1', Chr d :: l2' => negb (Ascii.eqb c d) || apart l1' exact1 l2' exact2
  | Num :: l1', Num :: l2' => apart l1' exact1 l2' exact2
  | Chr c :: _, Num :: _ | Num :: _, Chr c :: _ => negb (is_digit c)
  end.
Fixpoint fits (l : list token) (exact : bool) (path : string) : bool :=
  match l with
  | [] => negb exact || negb (str_true path)
  | Chr c :: l' => match path with String d p => Ascii.eqb c d && fits l' exact p | EmptyString => false end
  | Num :: l' => let d := digits path in str_true d && fits l' exact (sdrop (slen d) path)
  end.
Definition entries_apart (e1 e2 : entry) : bool :=
  apart (tokens e1.1.1) e1.1.2 (tokens e2.1.1) e2.1.2.
Fixpoint all_apart (es : list entry) : bool :=
  match es with [] => true | e :: es' => forallb (entries_apart e) es' && all_apart es' end.

Lemma fits_chars s l exact p : fits (chars s ++ l) exact p = startswith s p && fits l exact (sdrop (slen s) p).
Proof.
  revert p. induction s as [|c s IH]; intros p; [done|]. destruct p as [|d p]; [done|]. cbn. rewrite IH.
  destruct (Ascii.eqb_spec c d) as [->|H]; [by rewrite bool_decide_true|by rewrite bool_decide_false].
Qed.

Lemma entry_fits path e : entry_match path e <> [] -> fits (tokens e.1.1) e.1.2 path = true.
Proof.
  destruct e as [[route exact] view]. cbn [fst snd entry_match].
  enough (forall args t, match_route route path = Some (args, t) -> exact && str_true t = false ->
            fits (tokens route) exact path = true) as H.
  { destruct (match_route route path) as [[args t]|]; [|done]. destruct (exact && str_true t) eqn:E; [done|].
    intros _. by eapply H. }
  revert path. induction route as [|[s|n] route IH]; intros path args t Hm He.
  - injection Hm as <- <-. cbn. by destruct exact, (str_true path).
  - cbn [match_route] in Hm. change (tokens (Lit s :: route)) with (chars s ++ tokens route). rewrite fits_chars.
    destruct (startswith s path); [|done]. by eapply IH.
  - cbn [match_route] in Hm. change (tokens (IntParam n :: route)) with (Num :: tokens route). cbn [fits].
    destruct (str_true (digits path)); [|done]. destruct (parse_int (digits path)); [|done]. cbn in Hm.
    destruct (match_route route _) as [[a u]|] eqn:E; [|done]. injection Hm as <- <-. by eapply IH.
Qed.

Lemma apart_fits l1 x1 : forall l2 x2 p,
  apart l1 x1 l2 x2 = true -> fits l1 x1 p = true -> fits l2 x2 p = true -> False.
Proof.
  assert (Hd : forall c p l x, negb (is_digit c) = true -> str_true (digits p) = true ->
            fits (Chr c :: l) x p = true -> False).
  { intros c [|d p] l x Hc Hp; [done|]. cbn [fits digits] in *. intros [->%Ascii.eqb_eq _]%andb_true_iff.
    by destruct (is_digit d). }
  induction l1 as [|[c|] l1 IH]; intros [|[d|] l2] x2 p Ha H1 H2; try done.
  - cbn in Ha, H1. subst x1. destruct p; vm_compute in H1, H2; discriminate.
  - cbn in Ha, H1. subst x1. destruct p; vm_compute in H1, H2; discriminate.
  - cbn in Ha, H2. subst x2. destruct p; vm_compute in H1, H2; discriminate.
  - cbn [apart fits] in *. destruct p as [|e p]; [discriminate|].
    apply andb_true_iff in H1 as [E1 H1], H2 as [E2 H2]. apply Ascii.eqb_eq in E1 as ->, E2 as ->.
    rewrite Ascii.eqb_refl in Ha. exact (IH _ _ _ Ha H1 H2).
  - apply andb_true_iff in H2 as [H2 _]. by eapply (Hd c p).
  - cbn in Ha, H2. subst x2. destruct p; vm_compute in H1, H2; discriminate.
  - apply andb_true_iff in H1 as [H1 _]. by eapply (Hd d p).
  - cbn [apart fits] in *. apply andb_true_iff in H1 as [_ H1], H2 as [_ H2]. by eapply IH.
Qed.

Lemma entry_match_one path e : length (entry_match path e) <= 1.
Proof.
  destruct e as [[route exact] view]. cbn. destruct (match_route route path) as [[]|]; [|cbn; lia].
  destruct (exact && _); cbn; lia.
Qed.

Lemma apart_unique es path : all_apart es = true -> length (es ≫= entry_match path) <= 1.
Proof.
  induction es as [|e es IH]; [cbn; lia|]. cbn [all_apart mbind list_bind]. intros [He Hes]%andb_true_iff.
  specialize (IH Hes). rewrite length_app. pose proof (entry_match_one path e) as H1.
  destruct (entry_match path e) as [|m ms] eqn:E; [cbn; lia|].
  enough (es ≫= entry_match path = []) as -> by (cbn in *; lia).
  clear IH. induction es as [|e' es IH]; [done|]. cbn [forallb all_apart mbind list_bind] in *.
  apply andb_true_iff in He as [He He'], Hes as [_ Hes]. change (entry_match path e' ++ (es ≫= entry_match path) = []).
  rewrite (IH He' Hes), app_nil_r. destruct (entry_match path e') eqn:E'; [done|exfalso].
  eapply (apart_fits _ _ _ _ path He); apply entry_fits; congruence.
Qed.

(** No path is answered by two entries of the tables. *)
Lemma one_view path : length (matches_all urlpatterns path) <= 1.
Proof. rewrite table_matches. apply apart_unique. by vm_compute. Qed.

(** A named route is an entry of the table. *)
Fixpoint named_flat (p : url_pattern) : forall prefix name view route,
  (name, (view, route)) ∈ named prefix p -> (route, true, view) ∈ flat prefix p.
Proof.
  intros prefix name view route. destruct p as [r v [n|]|r v|r ps]; cbn [named flat].
  - rewrite !list_elem_of_singleton. by intros [= -> -> ->].
  - by intros ?%not_elem_of_nil.
  - by intros ?%not_elem_of_nil.
  - induction ps as [|p ps IH]; [by intros ?%not_elem_of_nil|]. rewrite !elem_of_app. intros [H|H].
    + left. by eapply named_flat.
    + right. by apply IH.
Qed.

(** What a named route builds is answered by its view alone. *)
Lemma built_matches name view route args path :
  od_get name (names urlpatterns) = Some (view, route) -> build route args = Some path ->
  matches_all urlpatterns path = [(view, args)].
Proof.
  intros Hn H. apply od_get_elem in Hn.
  assert (Hd : forallb (fun n : string * (string * list segment) => delimited n.2.2) (names urlpatterns) = true)
    by (by vm_compute).
  rewrite forallb_forall in Hd. specialize (Hd _ (proj1 (list_elem_of_In _ _) Hn)). cbn in Hd.
  assert (Hm : (view, args) ∈ matches_all urlpatterns path).
  { rewrite table_matches. apply list_elem_of_bind. exists (route, true, view). split.
    - pose proof (build_matches route args path "" Hd eq_refl H) as Hr. rewrite str_app_nil_r in Hr.
      cbn. rewrite Hr. by apply list_elem_of_singleton.
    - apply list_elem_of_bind in Hn as (p & Hn & Hp). apply list_elem_of_bind. exists p. split; [|done].
      by eapply named_flat. }
  pose proof (one_view path) as H1.
  destruct (matches_all urlpatterns path) as [|m [|m' ms]]; [by apply not_elem_of_nil in Hm| |cbn in H1; lia].
  by apply list_elem_of_singleton in Hm as ->.
Qed.

(** C31: [reverse] and the resolver are inverse.  Whenever a named route can be
    built from its arguments, the path it gives is answered by exactly one
    entry of the three URL tables, the view the name stands for, with the
    arguments it was built from ([str] of a key read back by [int]); so no two
    routes shadow each other, with [api/] and [api/accounts/] nested as they
    are. *)
Theorem reverse_resolves name args path (H : reverse_url urlpatterns name args = Some path) :
  exists view route, od_get name (names urlpatterns) = Some (view, route) /\
    matches_all urlpatterns path = [(view, args)] /\ resolve urlpatterns path = Some (view, args).
Proof.
  unfold reverse_url in H. destruct (od_get name (names urlpatterns)) as [[view route]|] eqn:Hn; [|done].
  exists view, route. split; [done|]. unfold resolve. by rewrite (built_matches name view route args path).
Qed.
Lemma reverse_resolves_witness :
  reverse_url urlpatterns "accounts:api-key-revoke" [("pk", 42%Z)] = Some "api/accounts/api-keys/42/revoke/" /\
  matches_all urlpatterns "api/accounts/api-keys/42/revoke/" = [("accounts.views.APIKeyRevokeView", [("pk", 42%Z)])].
Proof.
  assert (H : reverse_url urlpatterns "accounts:api-key-revoke" [("pk", 42%Z)] =
              Some "api/accounts/api-keys/42/revoke/") by (by vm_compute).
  split; [exact H|]. destruct (reverse_resolves _ _ _ H) as (view & route & Hn & Hm & _).
  rewrite Hm. vm_compute in Hn. by injection Hn as <- _.
Defined.

(** The paths that docstrings and the published schema name are not the paths
    that answer. *)
Lemma documented_paths_unserved :
  (resolve urlpatterns <$>
     ["api/accounts/auth/me/"; "api/accounts/auth/token/refresh/"; "api/accounts/auth/logout/";
      "api/accounts/auth/google/"; "api/auth/login/"; "api/accounts/api-keys/"]) = replicate 6 None /\
  is_Some (resolve urlpatterns "api/accounts/me/") /\ is_Some (resolve urlpatterns "api/accounts/google/").
Proof. vm_compute. repeat split; eexists; reflexivity. Qed.
