(* ===== verification/Server.v ===== *)
(** * A request through the whole server

    The pieces that the other files verify one by one, put together as Django
    puts them together: the middleware list of the settings ([Middleware])
    around the URL tables ([Urls]) around the API-key views with their
    authentication, permission and exception handling ([Endpoints]).  The
    views of other parts, DRF's dispatcher and the layers of other packages
    are parameters; [OuterLaws] of [Middleware] and the hypotheses below say
    what is relied on. *)
From stdpp Require Import base list gmap strings pretty numbers.
From Stdlib Require Import Ascii Lia ZArith.
From S2P Require Import Prelude PyStr PyVal Exceptions Context Orm Service Cascade ServiceFacts Metrics Handler Responses Rbac.
From S2P Require Import AuthChain ApiKey Accounts Contract Endpoints Middleware Urls.

Section server.
Context `{Django} `{HS : Stack auth_world}.
Abbreviation state := (mw_state auth_world).
Abbreviation view := (http_request -> act (mw_state auth_world) py_exn http_response).

(** simple-jwt, the role assignments, and the parameters of the handler. *)
Context (jwt_authenticate : http_request -> act auth_world py_exn (option account)).
Context (jwt_header : http_request -> option string).
Context (roles : role_table).
Context (from_exception : pyval -> body * Z * list (string * string)).
Context (kit_str : exc -> string).
Context (exception_handler : string -> option (Z * pyval * list (string * string))).

(** DRF: the throttles, [dispatch] for a request with a given request id, the
    handlers [APIView] has for a method the view does not define, and the
    exception that leaves when the handler answers [None]. *)
Context (throttle : http_request -> option py_exn).
Context (dispatch : option string -> api_view -> http_request -> auth_world -> option response * auth_world).
Context (api_method : string -> option account -> act auth_world py_exn response).
Context (uncaught : py_exn).
(** The views of other parts. *)
Context (other_views : string -> kwargs -> view).

(** [request.META.get("HTTP_X_API_KEY")] *)
Definition api_key_header (r : http_request) : option string := od_get "HTTP_X_API_KEY" (q_meta r).

(** The view's handler for the request's method. *)
Definition for_method (method : string) (v : api_view) (r : http_request) : api_view :=
  if String.eqb (q_method r) method then v else ApiView (av_permission v) (api_method (q_method r)).

(** [as_view()] of a view that reads the request id with [rid]. *)
Definition as_view (rid : state -> option string) (v : option string -> http_request -> api_view) : view :=
  fun q s =>
  let '(out, a) := dispatch (rid s) (v (rid s) q) q (mw_world s) in
  match out with
  | Some r => (Ok (HttpResponse (resp_status r) (VDict (resp_body r))), with_world a s)
  | None => (Raise uncaught, with_world a s)
  end.

Definition key_delete (pk : Z) (rid : option string) (q : http_request) : api_view :=
  for_method "DELETE" (APIKeyDeleteView roles rid pk) q.
Definition key_revoke (pk : Z) (rid : option string) (q : http_request) : api_view :=
  for_method "POST" (APIKeyRevokeView roles rid pk) q.

(** The view a name of the URL tables stands for. *)
Definition view_named (rid : state -> option string) (name : string) (args : kwargs) : view :=
  match args with
  | [(_, pk)] =>
      if String.eqb name "accounts.views.APIKeyDeleteView" then as_view rid (key_delete pk)
      else if String.eqb name "accounts.views.APIKeyRevokeView" then as_view rid (key_revoke pk)
      else other_views name args
  | _ => other_views name args
  end.

(** The handler inside the stack: resolve the path, call the view. *)
Definition root (rid : state -> option string) : view := fun q s =>
  match q_path q with
  | String _ path =>
      match resolve urlpatterns path with
      | Some (name, args) => view_named rid name args q s
      | None => (Raise (Builtin "Http404" ""), s)
      end
  | EmptyString => (Raise (Builtin "Http404" ""), s)
  end.

(** The server. *)
Definition serve : view := load_middleware MIDDLEWARE (root rid_of).

(** ** Lemmas *)

(** The key rows are the same; the key row is the same but for [last_used_at]. *)
Definition same_keys (w w' : auth_world) : Prop :=
  forall pk, w_db (aw_world w') !! (key_model, pk) = w_db (aw_world w) !! (key_model, pk).
Definition key_kept (w w' : auth_world) (pk : Z) : Prop :=
  match w_db (aw_world w) !! (key_model, pk), w_db (aw_world w') !! (key_model, pk) with
  | Some r, Some r' => same_row r r'
  | None, None => True
  | _, _ => False
  end.

#[export] Instance same_keys_preorder : PreOrder same_keys.
Proof. split; [done|]. intros w1 w2 w3 H1 H2 pk. by rewrite H2, H1. Qed.

Lemma key_kept_touched w1 a0 a1 w2 pk :
  same_keys w1 a0 -> touched (w_db (aw_world a0)) (w_db (aw_world a1)) -> same_keys a1 w2 -> key_kept w1 w2 pk.
Proof. intros H1 Ht H2. unfold key_kept. rewrite H2, <- (H1 pk). apply Ht. Qed.

Lemma key_kept_same w1 w2 pk : same_keys w1 w2 -> key_kept w1 w2 pk.
Proof. intros Hk. by apply (key_kept_touched w1 w1 w1 w2). Qed.

Lemma keys_wf_same w w' : same_keys w w' -> keys_wf (w_db (aw_world w)) -> keys_wf (w_db (aw_world w')).
Proof. intros Hk. apply keys_wf_cols. intros pk r'. rewrite Hk. eauto. Qed.

(** Where the two key routes lead. *)
Definition revoke_path (pk : Z) : string := "/api/accounts/api-keys/" +:+ str_int pk +:+ "/revoke/".
Definition delete_path (pk : Z) : string := "/api/accounts/api-keys/" +:+ str_int pk +:+ "/".

Lemma root_named rid q s name v route pk path :
  od_get name (names urlpatterns) = Some (v, route) -> build route [("pk", pk)] = Some path ->
  q_path q = String "/" path -> root rid q s = view_named rid v [("pk", pk)] q s.
Proof. intros Hn Hb Hq. unfold root, resolve. by rewrite Hq, (built_matches _ _ _ _ _ Hn Hb). Qed.

Lemma root_revoke rid q s pk :
  (0 <= pk)%Z -> q_path q = revoke_path pk -> root rid q s = as_view rid (key_revoke pk) q s.
Proof.
  intros Hpk%Z.leb_le Hq. erewrite (root_named rid q s "accounts:api-key-revoke"); [|by vm_compute| |exact Hq]; [done|].
  cbn [build String.eqb Ascii.eqb Bool.eqb andb]. rewrite Hpk. reflexivity.
Qed.

Lemma root_delete rid q s pk :
  (0 <= pk)%Z -> q_path q = delete_path pk -> root rid q s = as_view rid (key_delete pk) q s.
Proof.
  intros Hpk%Z.leb_le Hq. erewrite (root_named rid q s "accounts:api-key-delete"); [|by vm_compute| |exact Hq]; [done|].
  cbn [build String.eqb Ascii.eqb Bool.eqb andb]. rewrite Hpk. reflexivity.
Qed.

(** *** What the program relies on *)

(** Layers of other packages leave the method, the path and the key header of a
    request as they are. *)
Definition same_target (r q : http_request) : Prop :=
  q_method q = q_method r /\ q_path q = q_path r /\ api_key_header q = api_key_header r.
#[export] Instance same_target_preorder : PreOrder same_target.
Proof. split; [done|]. intros r1 r2 r3 (? & ? & ?) (? & ? & ?). split_and!; congruence. Qed.

(** The body is an envelope that reports success. *)
Definition reports_success (r : http_response) : Prop :=
  exists d, p_body r = VDict d /\ od_get (KStr "success") d = Some (VBool true).

(** The layers write no API-key row and never report success on their own;
    neither do the handlers [APIView] has itself; DRF dispatches as
    documented. *)
Class ServerLaws (own : result py_exn http_response -> Prop) : Prop := {
  sl_outer :: OuterLaws same_target same_keys own;
  sl_own : forall r, own (Ok r) -> ~ reports_success r;
  sl_jwt : jwt_ok jwt_authenticate;
  sl_dispatch :: forall rid, Dispatch api_key_header jwt_authenticate jwt_header rid from_exception kit_str
    exception_handler throttle (dispatch rid);
  sl_method : forall m u a res a', api_method m u a = (res, a') -> a' = a /\
    forall r, res = Ok r -> od_get (KStr "success") (resp_body r) <> Some (VBool true);
}.

(** The authentication chain identifies a user whose roles allow the action. *)
Definition authorised (action : string) (req : http_request) (a : auth_world) : Prop :=
  exists u a1, authentication api_key_header jwt_authenticate jwt_header req a = (Ok (Some u), a1) /\
    a_authenticated u = true /\ allowed roles (a_id u) "api_key" action = true.

Section laws.
Context {own : result py_exn http_response -> Prop} `{!StackLaws} `{!ServerLaws own}.

(** A key view changes a key row only for its own method and an authorised
    caller. *)
Lemma run_guarded rid method action h q t :
  str_true action = true ->
  let out := as_view rid (fun r q => for_method method (resource_view roles "api_key" action (h r)) q) q t in
  (q_method q = method /\ authorised action q (mw_world t)) \/
  ((forall pk, key_kept (mw_world t) (mw_world out.2) pk) /\ forall r, out.1 = Ok r -> ~ reports_success r).
Proof.
  intros Hact out. subst out. unfold as_view.
  set (h' := if String.eqb (q_method q) method then h (rid t) else api_method (q_method q)).
  replace (for_method method (resource_view roles "api_key" action (h (rid t))) q)
    with (resource_view roles "api_key" action h') by (subst h'; unfold for_method; by destruct (String.eqb _ _)).
  destruct (dispatch (rid t) _ q (mw_world t)) as [out a'] eqn:Ed.
  apply (guarded api_key_header jwt_authenticate jwt_header roles (rid t) from_exception kit_str exception_handler
    throttle (dispatch (rid t))) in Ed as (au & a1 & Ha & Ht & Ed); [|apply sl_jwt|done|done].
  assert (Hkeep : forall pk, key_kept (mw_world t) a1 pk) by (intros pk; by apply (key_kept_touched _ (mw_world t) a1)).
  assert (Hfail : forall e, out = on_exception (rid t) from_exception kit_str exception_handler e ->
    forall r, (match out with
      | Some r => (Ok (HttpResponse (resp_status r) (VDict (resp_body r))), with_world a' t)
      | None => (Raise uncaught, with_world a' t) end).1 = Ok r -> ~ reports_success r).
  { intros e He r Hr (d & Hd & Hs). destruct out as [r0|]; [|done]. injection Hr as <-. injection Hd as <-.
    apply (on_exception_fails (rid t) from_exception kit_str exception_handler e). exists r0. by rewrite <- He. }
  destruct Ed as [(u & -> & Hau & Hal & Hh)|[-> (e & He)]].
  2: { right. split; [by destruct out|by eapply Hfail]. }
  subst h'. destruct (String.eqb_spec (q_method q) method) as [Hm|Hm].
  { left. split; [done|]. by exists u, a1. }
  right. destruct Hh as [(r & Hr & ->)|(e & Hr & He)]; apply sl_method in Hr as [-> Hr].
  - split; [done|]. intros r0 [= <-] (d & [= <-] & Hs). by eapply Hr.
  - split; [by destruct out|by eapply Hfail].
Qed.

(** The stack around a view: a request that no layer answers reaches it, with
    the key rows as they were, and they stay as it left them. *)
Lemma through_stack (v : view) req s resp s' :
  load_middleware MIDDLEWARE v req s = (Ok resp, s') ->
  (same_keys (mw_world s) (mw_world s') /\ ~ reports_success resp) \/
  (exists q t, same_target req q /\ same_keys (mw_world s) (mw_world t) /\
     same_keys (mw_world (v q t).2) (mw_world s') /\ ((v q t).1 = Ok resp \/ ~ reports_success resp)).
Proof.
  intros Hs. destruct (passes_stack (same := same_target) (keeps := same_keys) (own := own) MIDDLEWARE req s)
    as [(r & s1 & E & Hk & Ho)|(q & t & post & E & Hq & Hk & Hp)]; rewrite E in Hs.
  - left. injection Hs as -> ->. split; [exact Hk|by apply sl_own].
  - right. exists q, t. destruct (Hp (v q t)) as [Hk' Hr]. rewrite Hs in Hk', Hr. split_and!; [done|done|done|].
    destruct Hr as [Hr|Hr]; [by left|right; by apply sl_own].
Qed.

(** The server runs its views with the request's own id. *)
Lemma root_rid rid rid' q t : rid t = rid' t -> root rid q t = root rid' q t.
Proof.
  intros Hr. unfold root. destruct (q_path q); [done|]. destruct (resolve _ _) as [[name args]|]; [|done].
  unfold view_named, as_view. destruct args as [|[k z] []]; [done| |done].
  destruct (String.eqb _ _); [by rewrite Hr|]. destruct (String.eqb _ _); [by rewrite Hr|done].
Qed.

Lemma serve_own_id req s : serve req s = load_middleware MIDDLEWARE (root (fun _ => Some (kit_id req))) req s.
Proof. apply stack_agrees. intros q t _ Ht. by apply root_rid. Qed.

(** A key route through the stack. *)
Lemma through_route (v : (state -> option string) -> view) req s resp s' :
  (forall rid q t, q_path q = q_path req -> root rid q t = v rid q t) -> serve req s = (Ok resp, s') ->
  (same_keys (mw_world s) (mw_world s') /\ ~ reports_success resp) \/
  (exists q t, same_target req q /\ same_keys (mw_world s) (mw_world t) /\
     let out := v (fun _ => Some (kit_id req)) q t in
     same_keys (mw_world out.2) (mw_world s') /\ (out.1 = Ok resp \/ ~ reports_success resp)).
Proof.
  intros Hv. rewrite serve_own_id. intros [Hs|(q & t & Hq & Hk & Hs)]%through_stack; [by left|].
  right. exists q, t. rewrite Hv in Hs by apply Hq. done.
Qed.

Lemma key_kept_between w1 w2 w3 w4 pk :
  same_keys w1 w2 -> key_kept w2 w3 pk -> same_keys w3 w4 -> key_kept w1 w4 pk.
Proof. unfold key_kept. intros H1 H2 H3. by rewrite H3, <- (H1 pk). Qed.

(** C14: over HTTP, a request to one of the two API-key routes changes an
    API-key row, [last_used_at] aside, or is answered with a success envelope,
    only if its method is the route's and the authentication chain, run on the
    request as it reaches the view, identifies an authenticated user whose roles
    allow the route's action; this holds for every path the two patterns of
    the URL tables describe, below every layer that [MIDDLEWARE] lists. *)
Theorem key_routes_guarded pk method action path req s resp s' :
  (0 <= pk)%Z ->
  (method, action, path) ∈ [("DELETE", "delete", delete_path pk); ("POST", "update", revoke_path pk)] ->
  q_path req = path -> serve req s = (Ok resp, s') ->
  (q_method req = method /\
   exists q a, same_target req q /\ same_keys (mw_world s) a /\ authorised action q a) \/
  ((forall pk', key_kept (mw_world s) (mw_world s') pk') /\ ~ reports_success resp).
Proof.
  intros Hpk Hroute Hpath Hs.
  assert (Hv : exists h, str_true action = true /\ forall rid q t, q_path q = q_path req -> root rid q t =
      as_view rid (fun r q => for_method method (resource_view roles "api_key" action (h r)) q) q t).
  { rewrite Hpath. clear Hpath. revert Hroute. rewrite !elem_of_cons, elem_of_nil.
    intros [[= -> -> ->]|[[= -> -> ->]|[]]]; eexists; (split; [done|]); intros rid q t Hq.
    - rewrite (root_delete _ _ _ pk) by done. reflexivity.
    - rewrite (root_revoke _ _ _ pk) by done. reflexivity. }
  destruct Hv as (h & Hact & Hv).
  destruct (through_route _ _ _ _ _ Hv Hs) as [[Hk Hn]|(q & t & Hq & Hk & Hk' & Hr)].
  { right. split; [|done]. intros pk'. by apply key_kept_same. }
  destruct (run_guarded (fun _ => Some (kit_id req)) method action h q t Hact) as [[Hm Ha]|[Hkept Hno]].
  - left. split; [by rewrite <- Hm; symmetry; apply Hq|]. by exists q, (mw_world t).
  - right. split; [intros pk'; by eapply key_kept_between|]. destruct Hr as [Hr|Hr]; [by eapply Hno|done].
Qed.

(** The revoke view, when it reports success. *)
Lemma run_revoke rid pk q t resp :
  keys_wf (w_db (aw_world (mw_world t))) -> "revoked_at" ∈ field_names key_model ->
  let out := as_view rid (key_revoke pk) q t in
  out.1 = Ok resp -> reports_success resp ->
  (exists d, p_body resp = VDict d /\ od_get (KStr "request_id") d = Some (vopt_str (rid t))) /\
  (exists r r', w_db (aw_world (mw_world t)) !! (key_model, pk) = Some r /\ is_active_row r = true /\
     w_db (aw_world (mw_world out.2)) !! (key_model, pk) = Some r' /\ is_null "revoked_at" r' = false /\
     str_col "secret" r' = str_col "secret" r) /\
  keys_wf (w_db (aw_world (mw_world out.2))) /\
  forall pk', pk' <> pk -> key_kept (mw_world t) (mw_world out.2) pk'.
Proof.
  intros Hwf Hf out Hout Hs.
  destruct (run_guarded rid "POST" "update" (fun rid u => on_world (api_key_revoke rid pk (user_ref u))) q t eq_refl)
    as [[Hm _]|[_ Hno]]; [|by destruct (Hno resp Hout)].
  subst out. unfold as_view, key_revoke, for_method in *. rewrite Hm in *. cbn [String.eqb Ascii.eqb Bool.eqb] in *.
  destruct (dispatch (rid t) _ q (mw_world t)) as [out a'] eqn:Ed.
  apply (revoke_endpoint api_key_header jwt_authenticate jwt_header roles (rid t) from_exception kit_str
    exception_handler throttle (dispatch (rid t))) in Ed as (au & a1 & _ & Ht & Ed); [|apply sl_jwt|done|done].
  destruct Hs as (d & Hd & Hs). destruct out as [r0|]; [|done]. injection Hout as <-. injection Hd as <-.
  destruct Ed as [(_ & (r & [= <-] & Hid) & _ & Hr & Hwf' & Hk)|[Hno _]]; [|by destruct Hno; exists r0].
  split_and!; [by exists (resp_body r0)|exact Hr|exact Hwf'|].
  intros pk' Hne. unfold key_kept. cbn [snd mw_world with_world]. rewrite Hk by congruence. apply Ht.
Qed.

(** C13: over HTTP, when a request to the revoke route is answered with a
    success envelope, the envelope carries the request's own id, the key was a
    live row, no other key row changed but for [last_used_at], and from then on
    the key's secret is refused by authentication, whatever happens to the
    debounce cache and to the other tables. *)
Theorem revoke_over_http pk req s resp s' :
  (0 <= pk)%Z -> keys_wf (w_db (aw_world (mw_world s))) -> "revoked_at" ∈ field_names key_model ->
  q_path req = revoke_path pk -> serve req s = (Ok resp, s') -> reports_success resp ->
  (exists d, p_body resp = VDict d /\ od_get (KStr "request_id") d = Some (VStr (kit_id req))) /\
  (exists r, w_db (aw_world (mw_world s)) !! (key_model, pk) = Some r /\ is_active_row r = true /\
     forall a uid pk', same_keys (mw_world s') a ->
       (ApiKey.authenticate (Some (str_col "secret" r)) a).1 <> Ok (Some (uid, pk'))) /\
  forall pk', pk' <> pk -> key_kept (mw_world s) (mw_world s') pk'.
Proof.
  intros Hpk Hwf Hf Hpath Hs Hok.
  assert (Hv : forall rid q t, q_path q = q_path req -> root rid q t = as_view rid (key_revoke pk) q t).
  { intros rid q t Hq. apply root_revoke; congruence. }
  destruct (through_route _ _ _ _ _ Hv Hs) as [[_ Hn]|(q & t & Hq & Hk & Hk' & [Hr|Hr])]; [done| |done].
  destruct (run_revoke (fun _ => Some (kit_id req)) pk q t resp) as (Hid & (r & r' & Hr0 & Hact & Hr1 & Hnn & Hsec) & Hwf1 & Hoth);
    [by eapply keys_wf_same|done|done|done|].
  split_and!; [exact Hid| |].
  - exists r. split_and!; [by rewrite <- Hk|done|]. intros a uid pk' Ha. rewrite <- Hsec.
    apply (revoked_rejected a pk); [|by rewrite Ha, Hk'|done].
    eapply keys_wf_same, keys_wf_same, Hwf1; done.
  - intros pk' Hne. eapply key_kept_between; [done|by apply Hoth|done].
Qed.
End laws.
End server.

(** ** A server whose other layers pass requests on *)

#[local] Instance server_stack : Stack auth_world := sample_stack auth_world.
Definition plain (r : result py_exn http_response) : Prop := forall x, r = Ok x -> ~ reports_success x.
Definition no_method (m : string) (u : option account) : act auth_world py_exn response :=
  raise (Builtin "MethodNotAllowed" m).
Definition no_jwt (r : http_request) : act auth_world py_exn (option account) := mret None.

Lemma sample_outer : OuterLaws same_target same_keys plain.
Proof.
  split.
  - apply same_target_preorder.
  - apply same_keys_preorder.
  - intros name Hn req s. right. exists req, s, id. cbn [third_party server_stack sample_stack].
    unfold sample_third. rewrite (proj2 (String.eqb_neq name request_id_name)) by done.
    split; [done|]. split; [apply (reflexivity (R := same_target))|]. split; [done|]. intros out. split; [done|by left].
  - by intros e x.
  - intros e x [= <-] (d & Hd & _). done.
Qed.

Lemma sample_server_laws :
  @ServerLaws key_django server_stack no_jwt (fun _ => None) sample_kit e_message sample_drf
    (fun _ => None) (sample_dispatch api_key_header) no_method plain.
Proof.
  split.
  - exact sample_outer.
  - intros r Hr. by apply Hr.
  - split; [by intros req a res a2 [= _ <-]|done].
  - intros rid. apply sample_dispatches.
  - intros m u a res a' [= <- <-]. done.
Qed.

Definition sample_serve : http_request -> act (mw_state auth_world) py_exn http_response :=
  @serve key_django server_stack key_roles (sample_dispatch api_key_header) no_method (Builtin "Exception" "")
    (fun _ _ _ => raise (Builtin "Http404" "")).
Definition revoke_request (method : string) : http_request :=
  HttpRequest method (revoke_path 1) None [("HTTP_X_API_KEY", "abcdefgh-secret")].
Definition key_state : mw_state auth_world := MwState ctxs_empty None [] (AuthWorld key_world ∅).

Definition succeeds (out : result py_exn http_response * mw_state auth_world) : bool :=
  match out.1 with
  | Ok r => match p_body r with
            | VDict d => match od_get (KStr "success") d with Some (VBool b) => b | _ => false end
            | _ => false
            end
  | Raise _ => false
  end.
Lemma succeeds_spec out : succeeds out = true -> exists resp s', out = (Ok resp, s') /\ reports_success resp.
Proof.
  destruct out as [[resp|e] s']; [|done]. unfold succeeds, reports_success. cbn [fst].
  destruct (p_body resp) as [| | | | | | | | | | |] eqn:Eb; try done.
  destruct (od_get (KStr "success") _) as [[]|] eqn:E; try done. intros ->. exists resp, s'. split; [done|]. by eexists.
Qed.

(** The key's holder revokes it. *)
Lemma revoke_over_http_witness : exists resp s',
  sample_serve (revoke_request "POST") key_state = (Ok resp, s') /\
  (exists d, p_body resp = VDict d /\ od_get (KStr "request_id") d = Some (VStr "req-POST")) /\
  forall a uid pk', same_keys (mw_world s') a ->
    (@ApiKey.authenticate key_django (Some "abcdefgh-secret") a).1 <> Ok (Some (uid, pk')).
Proof.
  assert (Hrun : succeeds (sample_serve (revoke_request "POST") key_state) = true) by (by vm_compute).
  apply succeeds_spec in Hrun as (resp & s' & Hrun & Hok). exists resp, s'. split; [exact Hrun|].
  destruct (@revoke_over_http key_django server_stack no_jwt (fun _ => None) key_roles sample_kit e_message sample_drf
    (fun _ => None) (sample_dispatch api_key_header) no_method (Builtin "Exception" "")
    (fun _ _ _ => raise (Builtin "Http404" "")) plain (sample_stack_laws auth_world) sample_server_laws 1
    (revoke_request "POST") key_state resp s') as (Hid & (r & Hr & _ & Hno) & _).
  - lia.
  - exact key_db_wf.
  - apply (bool_decide_unpack _). by vm_compute.
  - reflexivity.
  - exact Hrun.
  - exact Hok.
  - split; [exact Hid|]. assert (Hk : key_db !! (key_model, 1%Z) = Some (key_row "abcdefgh-secret")) by reflexivity.
    simpl in Hr. assert (r = key_row "abcdefgh-secret") as -> by congruence. exact Hno.
Defined.

(** With another method the same request changes nothing. *)
Lemma key_routes_guarded_witness : exists resp s',
  sample_serve (revoke_request "GET") key_state = (Ok resp, s') /\ ~ reports_success resp /\
  key_kept (mw_world key_state) (mw_world s') 1.
Proof.
  destruct (sample_serve (revoke_request "GET") key_state) as [[resp|e] s'] eqn:Hrun.
  - exists resp, s'. split; [reflexivity|].
    destruct (@key_routes_guarded key_django server_stack no_jwt (fun _ => None) key_roles sample_kit e_message sample_drf
      (fun _ => None) (sample_dispatch api_key_header) no_method (Builtin "Exception" "")
      (fun _ _ _ => raise (Builtin "Http404" "")) plain (sample_stack_laws auth_world) sample_server_laws 1
      "POST" "update" (revoke_path 1) (revoke_request "GET") key_state resp s') as [[Hm _]|[Hk Hn]].
    + lia.
    + apply list_elem_of_further, list_elem_of_singleton; reflexivity.
    + reflexivity.
    + exact Hrun.
    + discriminate Hm.
    + split; [exact Hn|apply Hk].
  - exfalso. assert (Hb : match (sample_serve (revoke_request "GET") key_state).1 with Ok _ => true | Raise _ => false end = true)
      by (by vm_compute).
    rewrite Hrun in Hb. discriminate Hb.
Defined.
