(* ===== verification/Throttles.v ===== *)
(** * Throttles

    The rates of the authentication endpoints: [AuthEndpointThrottle] of
    [core/middleware/throttling.py], [AuthThrottle] and the [throttle_classes]
    of [accounts/views.py], and [DEFAULT_THROTTLE_RATES] of the settings.  DRF's
    rate throttling and the burst throttle of the resilience kit are not in the
    repository: the class [Throttling] has their operations and
    [ThrottlingLaws] what DRF documents of them for requests one after the
    other; requests that overlap may get more through, as DRF says and an
    example here shows.  Times are the seconds of the throttles' clock. *)
From stdpp Require Import base list gmap strings numbers sorting.
From Stdlib Require Import Lia ZArith.
From S2P Require Import Prelude PyStr PyVal Exceptions Settings Urls.

(** ** The declarations *)

(** A subclass of [AnonRateThrottle]: its [scope] and its own [rate]. *)
Record throttle_class := ThrottleClass { tc_scope : string; tc_rate : option string }.

Definition AuthThrottle : throttle_class := ThrottleClass "auth" None.
Definition AuthEndpointThrottle : throttle_class := ThrottleClass "auth_burst" (Some "5/min").

Inductive throttle := AnonRate (c : throttle_class) | BurstThrottle.
Inductive permission := AllowAny | IsAuthenticated.

(** What a view declares to [APIView.initial]; [None] for the configured
    authentication classes. *)
Record endpoint := Endpoint {
  ep_authenticates : bool;
  ep_permission : permission;
  ep_throttles : list throttle;
}.

Definition GoogleLogin_endpoint : endpoint :=
  Endpoint false AllowAny [BurstThrottle; AnonRate AuthThrottle; AnonRate AuthEndpointThrottle].
Definition token_refresh_endpoint : endpoint :=
  Endpoint true AllowAny [BurstThrottle; AnonRate AuthThrottle; AnonRate AuthEndpointThrottle].
Definition logout_endpoint : endpoint :=
  Endpoint true IsAuthenticated [BurstThrottle; AnonRate AuthThrottle; AnonRate AuthEndpointThrottle].
Definition me_endpoint : endpoint :=
  Endpoint true IsAuthenticated [BurstThrottle; AnonRate AuthThrottle; AnonRate AuthEndpointThrottle].
Definition auth_endpoints : list endpoint := [GoogleLogin_endpoint; token_refresh_endpoint; logout_endpoint; me_endpoint].

(** [DEFAULT_THROTTLE_RATES] in an environment. *)
Definition throttle_rates (env : environ) : list (string * string) :=
  match eval_items DEFAULT_THROTTLE_RATES env [] with
  | Ok items => omap (fun kv : string * pyval => match kv.2 with VStr r => Some (kv.1, r) | _ => None end) items
  | Raise _ => []
  end.

(** ** DRF *)

(** A request: when it comes, from which address, whether its credentials
    identify a user. *)
Record call := Call { c_time : Z; c_ident : string; c_user : bool }.

Inductive outcome := Served | Refused | Throttled | Misconfigured (e : py_exn).

(** A throttle with its rate looked up. *)
Inductive live := LiveRate (scope rate : string) | LiveBurst.

Class Throttling (S : Type) := {
  (** [get_rate] of a class with the given [rate] attribute and scope *)
  get_rate : option string -> string -> list (string * string) -> result py_exn string;
  (** requests per seconds *)
  parse_rate : string -> option (nat * Z);
  (** [allow_request] of an anonymous request, by rate, scope and address *)
  allow : string -> string * string -> Z -> S -> bool * S;
  (** when the requests were that the cache still counts, or once counted *)
  admitted : S -> string * string -> list Z;
  burst_allow : call -> S -> bool * S;
  (** [APIView.initial] and the handler *)
  initial : list (string * string) -> endpoint -> call -> S -> outcome * S;
}.

Section drf.
Context {S : Type} `{!Throttling S}.

(** [get_throttles()]: every class is instantiated, which looks up its rate. *)
Definition instantiate (rates : list (string * string)) (t : throttle) : result py_exn live :=
  match t with
  | AnonRate c => r ← get_rate (tc_rate c) (tc_scope c) rates; Ok (LiveRate (tc_scope c) r)
  | BurstThrottle => Ok LiveBurst
  end.
Fixpoint get_throttles (rates : list (string * string)) (ts : list throttle) : result py_exn (list live) :=
  match ts with
  | [] => Ok []
  | t :: ts' => l ← instantiate rates t; ls ← get_throttles rates ts'; Ok (l :: ls)
  end.

(** An anonymous-only throttle lets an authenticated request pass. *)
Definition ask (l : live) (user : bool) (c : call) (s : S) : bool * S :=
  match l with
  | LiveRate scope rate => if user then (true, s) else allow rate (scope, c_ident c) (c_time c) s
  | LiveBurst => burst_allow c s
  end.
(** [check_throttles] asks every throttle, whatever the others say. *)
Fixpoint check_throttles (ls : list live) (user : bool) (c : call) (s : S) : bool * S :=
  match ls with
  | [] => (true, s)
  | l :: ls' => let '(b, s1) := ask l user c s in let '(b', s2) := check_throttles ls' user c s1 in (b && b', s2)
  end.

Definition count (p : Z -> bool) (l : list Z) : nat := length (filter (fun t => p t = true) l).
Definition within (x d t : Z) : bool := ((x <=? t) && (t <? x + d))%Z.

(** DRF's documentation, for requests that are handled one after the other; of
    requests that overlap it says that its cache operations are not atomic and
    may let more through, and nothing here is assumed or proved of those.  The
    [rate] of a class goes before the settings; a rate
    is a number of requests per period; a request is let through when fewer than
    that number were in the period that ends with it, and then counts; the
    checks are, in this order, authentication, permissions, throttles. *)
Class ThrottlingLaws : Prop := {
  get_rate_spec : forall own scope rates,
    match own, od_get scope rates with
    | Some r, _ => str_true r = true -> get_rate own scope rates = Ok r
    | None, Some r => get_rate own scope rates = Ok r
    | None, None => exists msg, get_rate own scope rates = Raise (improperly msg)
    end;
  parse_rate_min : forall n, (0 <= n)%Z -> parse_rate (str_int n +:+ "/min") = Some (Z.to_nat n, 60%Z);
  parse_rate_hour : forall n, (0 <= n)%Z -> parse_rate (str_int n +:+ "/hour") = Some (Z.to_nat n, 3600%Z);
  allow_spec : forall rate key now s n d, parse_rate rate = Some (n, d) ->
    let '(b, s') := allow rate key now s in
    if b then count (within (now - d + 1) d) (admitted s key) < n /\ admitted s' key = now :: admitted s key
    else admitted s' key = admitted s key;
  allow_other : forall rate key now s key', key' <> key -> admitted (allow rate key now s).2 key' = admitted s key';
  burst_spec : forall c s key, admitted (burst_allow c s).2 key = admitted s key;
  initial_spec : forall rates ep c s,
    let user := ep_authenticates ep && c_user c in
    initial rates ep c s =
    if match ep_permission ep with IsAuthenticated => negb user | AllowAny => false end then (Refused, s)
    else match get_throttles rates (ep_throttles ep) with
         | Raise e => (Misconfigured e, s)
         | Ok ls => let '(b, s') := check_throttles ls user c s in (if b then Served else Throttled, s')
         end;
}.

(** ** Lemmas *)

(** A schedule of requests: the times at which anonymous requests from an
    address were served. *)
Fixpoint served (rates : list (string * string)) (i : string) (reqs : list (endpoint * call)) (s : S) : list Z :=
  match reqs with
  | [] => []
  | (ep, c) :: reqs' =>
      let '(o, s') := initial rates ep c s in
      (if match o with Served => negb (ep_authenticates ep && c_user c) && String.eqb (c_ident c) i | _ => false end
       then [c_time c] else []) ++ served rates i reqs' s'
  end.

Definition scopes (ls : list live) : list string :=
  omap (fun l => match l with LiveRate scope _ => Some scope | LiveBurst => None end) ls.

(** No window of [d] seconds holds more than [n] of the times. *)
Definition spread (n : nat) (d : Z) (l : list Z) : Prop := forall x, count (within x d) l <= n.

Lemma count_cons p t l : count p (t :: l) = (if p t then 1 else 0) + count p l.
Proof. unfold count. rewrite filter_cons. by destruct (p t). Qed.
Lemma count_app p l1 l2 : count p (l1 ++ l2) = count p l1 + count p l2.
Proof. unfold count. by rewrite filter_app, length_app. Qed.
Lemma count_mono (p q : Z -> bool) l : (forall t, t ∈ l -> p t = true -> q t = true) -> count p l <= count q l.
Proof.
  intros H. induction l as [|t l IH]; [done|]. rewrite !count_cons.
  specialize (IH (fun t' Ht' => H t' (list_elem_of_further _ _ _ Ht'))). specialize (H t (list_elem_of_here _ _)).
  destruct (p t), (q t); (lia || by rewrite H).
Qed.

(** A time later than all others may join when the period that ends with it has
    room. *)
Lemma spread_cons n d now l :
  Forall (fun t => (t <= now)%Z) l -> spread n d l -> count (within (now - d + 1) d) l < n -> spread n d (now :: l).
Proof.
  intros Hl Hs Hn x. rewrite count_cons. destruct (within x d now) eqn:E; [|apply Hs].
  enough (count (within x d) l <= count (within (now - d + 1) d) l) by lia.
  apply count_mono. intros t Ht. rewrite list.Forall_forall in Hl. specialize (Hl t Ht).
  unfold within in *. rewrite !andb_true_iff, !Z.leb_le, !Z.ltb_lt in *. lia.
Qed.

Context `{!ThrottlingLaws}.

Lemma ask_other l c s key :
  (forall rate, l = LiveRate key.1 rate -> c_ident c <> key.2) -> admitted (ask l false c s).2 key = admitted s key.
Proof.
  destruct l as [scope rate|]; [|intros _; apply burst_spec]. intros Hne. apply allow_other.
  destruct key as [k i]. intros [= -> ->]. by eapply Hne.
Qed.

Lemma check_other ls c s key : key.1 ∉ scopes ls -> admitted (check_throttles ls false c s).2 key = admitted s key.
Proof.
  revert s. induction ls as [|l ls IH]; intros s Hn; [done|]. cbn [check_throttles].
  pose proof (ask_other l c s key) as Ha. destruct (ask l false c s) as [b s1].
  specialize (IH s1). destruct (check_throttles ls false c s1) as [b' s2]. cbn in *. rewrite IH, Ha; [done| |].
  - intros rate ->. by apply not_elem_of_cons in Hn as [? _].
  - destruct l; [by apply not_elem_of_cons in Hn as [_ ?]|done].
Qed.

(** What a request does to the times of one scope and address. *)
Lemma check_step ls c s scope rate n d i :
  NoDup (scopes ls) -> LiveRate scope rate ∈ ls -> parse_rate rate = Some (n, d) ->
  let '(b, s') := check_throttles ls false c s in
  (admitted s' (scope, i) = admitted s (scope, i) /\ (b = true -> c_ident c <> i)) \/
  (c_ident c = i /\ count (within (c_time c - d + 1) d) (admitted s (scope, i)) < n /\
   admitted s' (scope, i) = c_time c :: admitted s (scope, i)).
Proof.
  intros Hnd Hin Hp. revert s. induction ls as [|l ls IH]; intros s; [by apply not_elem_of_nil in Hin|].
  cbn [check_throttles]. apply elem_of_cons in Hin as [<-|Hin].
  - cbn [scopes omap list_omap] in Hnd. apply list.NoDup_cons in Hnd as [Hn _].
    destruct (ask _ false c s) as [b1 s1] eqn:Ea. pose proof (check_other ls c s1 (scope, i) Hn) as Ho.
    destruct (check_throttles ls false c s1) as [b2 s2]. cbn in Ho, Ea. rewrite Ho.
    destruct (decide (c_ident c = i)) as [<-|Hne].
    + pose proof (allow_spec rate (scope, c_ident c) (c_time c) s n d Hp) as Hal. rewrite Ea in Hal.
      destruct b1; [right; naive_solver|left; by rewrite Hal].
    + left. split; [|done]. change s1 with (b1, s1).2. rewrite <- Ea. apply allow_other. congruence.
  - assert (NoDup (scopes ls) /\ forall r, l = LiveRate scope r -> False) as [Hnd' Hl].
    { destruct l as [sc r|]; [|by split]. cbn in Hnd. apply list.NoDup_cons in Hnd as [Hn Hnd]. split; [done|].
      intros r' [= -> ->]. apply Hn. apply list_elem_of_omap. by exists (LiveRate scope rate). }
    specialize (IH Hnd' Hin). pose proof (ask_other l c s (scope, i)) as Ha.
    destruct (ask l false c s) as [b1 s1]. specialize (IH s1). destruct (check_throttles ls false c s1) as [b2 s2].
    cbn [fst snd] in Ha. rewrite Ha in IH by (intros r Hr; by destruct (Hl r)).
    destruct IH as [[H1 H2]|HR]; [left|by right]. split; [done|]. intros [_ ?]%andb_true_iff. auto.
Qed.

(** An authenticated request counts nowhere. *)
Lemma check_user ls c s key : admitted (check_throttles ls true c s).2 key = admitted s key.
Proof.
  revert s. induction ls as [|l ls IH]; intros s; [done|]. cbn [check_throttles].
  assert (Ha : admitted (ask l true c s).2 key = admitted s key) by (destruct l; [done|apply burst_spec]).
  destruct (ask l true c s) as [b s1]. specialize (IH s1). destruct (check_throttles ls true c s1). cbn in *. congruence.
Qed.

(** The two classes are looked up on every authentication endpoint. *)
Lemma auth_throttles rates ep ls cls rate :
  ep ∈ auth_endpoints -> get_throttles rates (ep_throttles ep) = Ok ls ->
  cls ∈ [AuthThrottle; AuthEndpointThrottle] -> get_rate (tc_rate cls) (tc_scope cls) rates = Ok rate ->
  NoDup (scopes ls) /\ LiveRate (tc_scope cls) rate ∈ ls.
Proof.
  intros Hep. assert (ep_throttles ep = [BurstThrottle; AnonRate AuthThrottle; AnonRate AuthEndpointThrottle]) as ->.
  { unfold auth_endpoints in Hep. rewrite !elem_of_cons, elem_of_nil in Hep. naive_solver. }
  cbn [get_throttles instantiate]. cbn [tc_rate tc_scope AuthThrottle AuthEndpointThrottle].
  intros Hls Hcls Hr. destruct (get_rate None "auth" rates) as [r1|e] eqn:E1; [|done].
  destruct (get_rate (Some "5/min") "auth_burst" rates) as [r2|e] eqn:E2; [|done]. injection Hls as <-.
  split; [apply (bool_decide_unpack _); by vm_compute|].
  rewrite !elem_of_cons, elem_of_nil in Hcls. destruct Hcls as [->|[->|[]]]; cbn in Hr |- *.
  - assert (r1 = rate) as -> by congruence. rewrite !elem_of_cons. tauto.
  - assert (r2 = rate) as -> by congruence. rewrite !elem_of_cons. tauto.
Qed.

Lemma initial_step rates cls rate n d i ep c s :
  ep ∈ auth_endpoints -> cls ∈ [AuthThrottle; AuthEndpointThrottle] ->
  get_rate (tc_rate cls) (tc_scope cls) rates = Ok rate -> parse_rate rate = Some (n, d) ->
  let '(o, s') := initial rates ep c s in
  let key := (tc_scope cls, i) in
  (admitted s' key = admitted s key /\ (o = Served -> ep_authenticates ep && c_user c = false -> c_ident c <> i)) \/
  (c_ident c = i /\ count (within (c_time c - d + 1) d) (admitted s key) < n /\
   admitted s' key = c_time c :: admitted s key).
Proof.
  intros Hep Hcls Hr Hp. rewrite initial_spec.
  destruct (match ep_permission ep with IsAuthenticated => _ | AllowAny => _ end); [by left|].
  destruct (get_throttles rates (ep_throttles ep)) as [ls|e] eqn:Els; [|by left].
  destruct (auth_throttles _ _ _ _ _ Hep Els Hcls Hr) as [Hnd Hin]. destruct (ep_authenticates ep && c_user c) eqn:Eu.
  - pose proof (check_user ls c s (tc_scope cls, i)) as Hk. destruct (check_throttles ls true c s) as [b s'].
    left. split; [exact Hk|done].
  - pose proof (check_step ls c s _ _ _ _ i Hnd Hin Hp) as Hk. destruct (check_throttles ls false c s) as [b s'].
    destruct Hk as [[Hk Hb]|Hk]; [left|by right]. split; [done|]. intros Ho _. apply Hb. by destruct b.
Qed.

Definition in_order (reqs : list (endpoint * call)) : Prop := StronglySorted Z.le ((fun r => c_time r.2) <$> reqs).

Lemma rate_holds rates cls rate n d i reqs : forall s,
  cls ∈ [AuthThrottle; AuthEndpointThrottle] -> get_rate (tc_rate cls) (tc_scope cls) rates = Ok rate ->
  parse_rate rate = Some (n, d) -> Forall (fun r => r.1 ∈ auth_endpoints) reqs -> in_order reqs ->
  spread n d (admitted s (tc_scope cls, i)) ->
  Forall (fun r => Forall (fun t => (t <= c_time r.2)%Z) (admitted s (tc_scope cls, i))) reqs ->
  spread n d (admitted s (tc_scope cls, i) ++ served rates i reqs s).
Proof.
  induction reqs as [|[ep c] reqs IH]; intros s Hcls Hr Hp Hall Hord Hs Hle.
  { cbn. by rewrite app_nil_r. }
  apply Forall_cons_1 in Hall as [Hep Hall], Hle as [Hnow Hle].
  unfold in_order in Hord. cbn in Hord. apply StronglySorted_inv in Hord as [Hord Hlater].
  cbn [served]. pose proof (initial_step rates cls rate n d i ep c s Hep Hcls Hr Hp) as Hstep.
  destruct (initial rates ep c s) as [o s']. cbn [fst snd] in *.
  assert (Hs' : spread n d (admitted s' (tc_scope cls, i)) /\
     Forall (fun r => Forall (fun t => (t <= c_time r.2)%Z) (admitted s' (tc_scope cls, i))) reqs).
  { destruct Hstep as [[-> _]|(_ & Hn & ->)]; [done|]. split; [by apply spread_cons|].
    rewrite list.Forall_forall in Hle. rewrite list.Forall_forall in Hlater. apply list.Forall_forall. intros r Hin. constructor; [|by apply Hle].
    apply Hlater. apply list_elem_of_fmap. by exists r. }
  destruct Hs' as [Hs1 Hle1]. specialize (IH s' Hcls Hr Hp Hall Hord Hs1 Hle1). intros x. specialize (IH x).
  rewrite !count_app in *.
  set (mine := match o with Served => _ | _ => _ end).
  destruct Hstep as [[E Hno]|(_ & _ & E)]; rewrite E in IH.
  - assert (mine = false) as ->; [|exact IH]. subst mine. destruct o; try done.
    destruct (ep_authenticates ep && c_user c); [done|]. destruct (String.eqb_spec (c_ident c) i) as [Hi|]; [|done].
    by destruct (Hno eq_refl eq_refl).
  - rewrite count_cons in IH. destruct mine; [rewrite count_cons|]; cbn [count length filter] in *; unfold count at 2; cbn; lia.
Qed.

(** C15: of requests that are handled one after the other, whatever the
    environment sets, the authentication endpoints together serve at most 5
    anonymous requests of one address in any period of 60 seconds, for
    [RATE_LIMIT_AUTH_BURST] is never read; and unless [RATE_LIMIT_AUTH] is set,
    at most 20 in any hour.  The bound holds for every such sequence in the
    order of time, from any addresses, with any of the four views.  It is no
    bound for requests that overlap, as DRF's throttles check and count in
    separate cache operations ([overlapping_exceeds] below). *)
Theorem auth_endpoints_limited env i reqs s :
  Forall (fun r => r.1 ∈ auth_endpoints) reqs -> in_order reqs -> (forall key, admitted s key = []) ->
  spread 5 60 (served (throttle_rates env) i reqs s) /\
  (getenv env "RATE_LIMIT_AUTH" = None -> spread 20 3600 (served (throttle_rates env) i reqs s)).
Proof.
  intros Hall Hord Hs.
  assert (Hrun : forall cls rate n d, cls ∈ [AuthThrottle; AuthEndpointThrottle] ->
    get_rate (tc_rate cls) (tc_scope cls) (throttle_rates env) = Ok rate -> parse_rate rate = Some (n, d) ->
    spread n d (served (throttle_rates env) i reqs s)).
  { intros cls rate n d Hcls Hr Hp. pose proof (rate_holds _ cls rate n d i reqs s Hcls Hr Hp Hall Hord) as Hb.
    rewrite Hs in Hb. apply Hb; [intros x; cbn; lia|]. apply list.Forall_forall. by constructor. }
  split.
  - apply (Hrun AuthEndpointThrottle "5/min"); [set_solver| |by apply (parse_rate_min 5)].
    by apply (get_rate_spec (Some "5/min") "auth_burst" (throttle_rates env)).
  - intros Henv. apply (Hrun AuthThrottle "20/hour"); [set_solver| |by apply (parse_rate_hour 20)].
    pose proof (get_rate_spec None "auth" (throttle_rates env)) as Hg.
    unfold throttle_rates in Hg |- *. cbn in Hg |- *. unfold getenv_or in Hg |- *. rewrite Henv in Hg |- *. exact Hg.
Qed.

(** On [logout_endpoint] and [me_endpoint] the two classes never act: an anonymous caller is
    refused before any throttle is asked, and an authenticated one passes
    both, so the burst throttle decides alone. *)
Theorem auth_throttles_idle rates ep c s :
  ep ∈ [logout_endpoint; me_endpoint] ->
  initial rates ep c s = (Refused, s) \/
  (exists e, initial rates ep c s = (Misconfigured e, s)) \/
  initial rates ep c s = (if (burst_allow c s).1 then Served else Throttled, (burst_allow c s).2).
Proof.
  rewrite !elem_of_cons, elem_of_nil.
  intros [->|[->|[]]]; rewrite initial_spec; (destruct (c_user c); [right|by left]); cbn [ep_authenticates ep_permission ep_throttles logout_endpoint me_endpoint andb negb];
    cbn [get_throttles instantiate tc_rate tc_scope AuthThrottle AuthEndpointThrottle];
    (destruct (get_rate None _ _); [|left; by eexists]); (destruct (get_rate (Some _) _ _); [|left; by eexists]); right;
    cbn [mbind result_bind check_throttles ask]; destruct (burst_allow c s) as [[] s']; reflexivity.
Qed.
End drf.

(** ** Witness: an implementation that behaves as documented *)

Abbreviation histories := (string * string -> list Z).
Definition sample_parse (r : string) : option (nat * Z) :=
  z ← parse_int (digits r);
  let period := sdrop (slen (digits r)) r in
  if String.eqb period "/min" then Some (Z.to_nat z, 60%Z)
  else if String.eqb period "/hour" then Some (Z.to_nat z, 3600%Z) else None.
Definition sample_get_rate (own : option string) (scope : string) (rates : list (string * string)) : result py_exn string :=
  match own, od_get scope rates with
  | Some r, _ => Ok r
  | None, Some r => Ok r
  | None, None => Raise (improperly ("No default throttle rate set for " +:+ scope))
  end.
Definition sample_allow (rate : string) (key : string * string) (now : Z) (s : histories) : bool * histories :=
  match sample_parse rate with
  | Some (n, d) =>
      if bool_decide (count (within (now - d + 1) d) (s key) < n)
      then (true, fun k => if decide (k = key) then now :: s key else s k) else (false, s)
  | None => (false, s)
  end.
#[local] Instance sample_base : Throttling histories := {|
  get_rate := sample_get_rate; parse_rate := sample_parse; allow := sample_allow; admitted s := s;
  burst_allow _ s := (true, s); initial _ _ _ s := (Refused, s) |}.
Definition sample_initial (rates : list (string * string)) (ep : endpoint) (c : call) (s : histories) : outcome * histories :=
  let user := ep_authenticates ep && c_user c in
  if match ep_permission ep with IsAuthenticated => negb user | AllowAny => false end then (Refused, s)
  else match get_throttles rates (ep_throttles ep) with
       | Raise e => (Misconfigured e, s)
       | Ok ls => let '(b, s') := check_throttles ls user c s in (if b then Served else Throttled, s')
       end.
Definition sample_throttling : Throttling histories := {|
  get_rate := sample_get_rate; parse_rate := sample_parse; allow := sample_allow; admitted s := s;
  burst_allow _ s := (true, s); initial := sample_initial |}.

Lemma sample_parse_spec n period : (0 <= n)%Z -> stops period = true ->
  sample_parse (str_int n +:+ period) =
    if String.eqb period "/min" then Some (Z.to_nat n, 60%Z)
    else if String.eqb period "/hour" then Some (Z.to_nat n, 3600%Z) else None.
Proof.
  intros Hn Hp. destruct (str_int_digits n Hn) as (Ha & _ & _). unfold sample_parse.
  by rewrite (digits_stops _ _ Ha Hp), parse_int_str_int, sdrop_app.
Qed.

Lemma sample_throttling_laws : @ThrottlingLaws histories sample_throttling.
Proof.
  split; cbn [get_rate parse_rate allow admitted burst_allow initial sample_throttling].
  - intros own scope rates. unfold sample_get_rate. destruct own; [done|]. destruct (od_get scope rates); [done|by eexists].
  - intros n Hn. by rewrite sample_parse_spec.
  - intros n Hn. by rewrite sample_parse_spec.
  - intros rate key now s n d Hp. unfold sample_allow. rewrite Hp. case_bool_decide; [|done].
    by rewrite decide_True.
  - intros rate key now s key' Hne. unfold sample_allow. destruct (sample_parse rate) as [[n d]|]; [|done].
    case_bool_decide; [|done]. cbn. by rewrite decide_False.
  - done.
  - done.
Qed.

(** [sample_allow] is a check and a count; when both are cache operations of
    their own, six requests that all check before any counts all pass. *)
Example overlapping_exceeds :
  let key := ("auth_burst", "203.0.113.9") in
  let checks := (fun now => (sample_allow "5/min" key now (fun _ => [])).1) <$> [0; 1; 2; 3; 4; 5]%Z in
  checks = replicate 6 true.
Proof. by vm_compute. Qed.

(** Seven refresh requests, one a second: the first five are served. *)
Definition sample_schedule : list (endpoint * call) :=
  (fun t => (token_refresh_endpoint, Call t "203.0.113.9" false)) <$> [0; 1; 2; 3; 4; 5; 6]%Z.

Lemma auth_endpoints_limited_witness :
  let times := @served histories sample_throttling (throttle_rates [("RATE_LIMIT_AUTH_BURST", "1000/min")])
    "203.0.113.9" sample_schedule (fun _ => []) in
  times = [0; 1; 2; 3; 4]%Z /\ spread 5 60 times /\ spread 20 3600 times.
Proof.
  intros times. split; [by vm_compute|].
  destruct (@auth_endpoints_limited histories sample_throttling sample_throttling_laws
    [("RATE_LIMIT_AUTH_BURST", "1000/min")] "203.0.113.9" sample_schedule (fun _ => [])) as [H1 H2].
  - unfold sample_schedule. apply list.Forall_forall. intros r (t & -> & _)%list_elem_of_fmap. cbn.
    apply list_elem_of_further, list_elem_of_here.
  - unfold in_order, sample_schedule. cbn. repeat constructor; lia.
  - done.
  - split; [exact H1|]. by apply H2.
Defined.
