(* ===== verification/Operations.v ===== *)
(** * The documented operations

    The [extend_schema] arguments of [accounts/api_schemas] and
    [core/api_schemas/system.py] beside their responses, which are in
    [Contract]: identifiers, texts, tags and request bodies, set against the
    URL tables, the tag list of the settings and the fields a profile update
    takes.  A typographic dash is written [--]. *)
From stdpp Require Import base list gmap strings.
From S2P Require Import Prelude PyStr PyVal Accounts Contract Settings Urls.

(** The request serializer: a class, or one given in place by its fields with
    [required] and the help text. *)
Inductive request_schema :=
| Named (name : string)
| InlineRequest (name : string) (fields : list (string * bool * string)).

Record operation := Operation {
  op_id : string;
  op_summary : string;
  op_description : string;
  op_request : option request_schema;
  op_tags : list string;
  op_responses : documents;
}.

Definition google_login_operation : operation :=
  Operation "auth_google_login" "Google OAuth login"
    ("Exchange a Google authorization code for JWT access and refresh tokens." +:+ nl +:+ nl +:+
     "The frontend obtains an authorization code from Google's OAuth consent screen and sends it " +:+
     "here along with the redirect URI that was used. The backend exchanges the code for Google " +:+
     "tokens via allauth, creates or links the user account, and returns a JWT token pair." +:+ nl +:+ nl +:+
     "**Rate limit:** 20 requests/hour per IP.")
    (Some (Named "GoogleCallbackSerializer"))
    ["Auth"] google_login_schema.

Definition token_refresh_operation : operation :=
  Operation "auth_token_refresh" "Refresh JWT access token"
    ("Submit a valid refresh token to receive a new access/refresh token pair." +:+ nl +:+ nl +:+
     "Tokens are rotated on each refresh: the old refresh token is blacklisted and a new pair is " +:+
     "issued." +:+ nl +:+ nl +:+
     "**Rate limit:** 20 requests/hour per IP.")
    (Some (InlineRequest "TokenRefreshRequest"
      [("refresh", true, "JWT refresh token obtained from login or a previous refresh.")]))
    ["Auth"] token_refresh_schema.

Definition logout_operation : operation :=
  Operation "auth_logout" "Logout (blacklist refresh token)"
    ("Blacklist the provided refresh token so it can no longer be used to obtain new access " +:+
     "tokens. The client should also discard the access token." +:+ nl +:+ nl +:+
     "**Authentication:** Bearer JWT required.")
    (Some (InlineRequest "LogoutRequest"
      [("refresh", true, "JWT refresh token to blacklist.")]))
    ["Auth"] logout_schema.

Definition me_get_operation : operation :=
  Operation "auth_me_retrieve" "Get current user profile"
    ("Returns the authenticated user's profile including roles and social account status." +:+ nl +:+ nl +:+
     "**Authentication:** Bearer JWT required.")
    None
    ["Auth"] me_get_schema.

Definition me_patch_operation : operation :=
  Operation "auth_me_partial_update" "Update current user profile"
    ("Update the authenticated user's profile. Only `timezone`, `first_name`, and `last_name` are " +:+
     "accepted; other fields are ignored." +:+ nl +:+ nl +:+
     "**Authentication:** Bearer JWT required.")
    (Some (InlineRequest "MeUpdateRequest"
      [("timezone", false, "IANA timezone identifier.");
       ("first_name", false, "User's first name.");
       ("last_name", false, "User's last name.")]))
    ["Auth"] me_patch_schema.

Definition api_key_delete_operation : operation :=
  Operation "api_keys_delete" "Delete an API key"
    ("Soft-deletes an API key by setting ``is_active=False``. The row is retained for audit; the " +:+
     "raw key bytes were never persisted (only an HMAC-comparable encrypted form), so the " +:+
     "credential is irrecoverable once revoked." +:+ nl +:+ nl +:+
     "**Idempotent:** revoking an already-revoked key is a no-op and still returns ``204``." +:+ nl +:+ nl +:+
     "**Authentication:** Bearer JWT required." +:+ nl +:+
     "**RBAC:** ``API_KEY:DELETE``.")
    None
    ["API Keys"] api_key_delete_schema.

Definition api_key_revoke_operation : operation :=
  Operation "api_keys_revoke" "Revoke an API key"
    ("Soft-revokes an API key by stamping ``revoked_at``. The row stays around with " +:+
     "``is_active=True`` (distinct from delete) so the audit trail is preserved, but " +:+
     "``APIKeyAuthentication`` returns ``401`` on the next request that presents the key." +:+ nl +:+ nl +:+
     "**Idempotent:** revoking an already-revoked key returns ``200`` with a message indicating " +:+
     "no state change." +:+ nl +:+ nl +:+
     "**Authentication:** Bearer JWT required." +:+ nl +:+
     "**RBAC:** ``API_KEY:UPDATE``.")
    None
    ["API Keys"] api_key_revoke_schema.

Definition health_operation : operation :=
  Operation "system_health" "Service health check"
    ("Lightweight health probe for load balancers. Returns 200 when the database is reachable, " +:+
     "503 otherwise. Staff users additionally receive a ``checks`` map with component-level " +:+
     "status.")
    None
    ["System"] health_schema.

Definition readiness_operation : operation :=
  Operation "system_readiness" "Service readiness check"
    ("Readiness probe for orchestration systems (Kubernetes, ECS). Checks database, Valkey cache, " +:+
     "and Celery broker connectivity. Returns 200 when all dependencies are reachable, 503 " +:+
     "otherwise. Staff users additionally receive a ``checks`` map.")
    None
    ["System"] readiness_schema.

(** Which method of which view each one decorates. *)
Definition documented : list (string * string * operation) :=
  [("accounts.views.GoogleLogin", "POST", google_login_operation);
   ("accounts.views.token_refresh", "POST", token_refresh_operation);
   ("accounts.views.logout", "POST", logout_operation);
   ("accounts.views.me", "GET", me_get_operation);
   ("accounts.views.me", "PATCH", me_patch_operation);
   ("accounts.views.APIKeyDeleteView", "DELETE", api_key_delete_operation);
   ("accounts.views.APIKeyRevokeView", "POST", api_key_revoke_operation);
   ("core.views.health_check", "GET", health_operation);
   ("core.views.readiness_check", "GET", readiness_operation)].
Definition operations : list operation := (fun d => d.2) <$> documented.

(** ** What they agree with *)

Definition tag_names : list string :=
  match TAGS_METADATA with
  | VList tags => omap (fun t => match t with
                                 | VDict d => match od_get (KStr "name") d with Some (VStr n) => Some n | _ => None end
                                 | _ => None
                                 end) tags
  | _ => []
  end.
(** The views of the tables of the two apps. *)
Definition app_views : list string :=
  omap (fun p => match p with Path _ view _ => Some view | _ => None end) (core_urlpatterns ++ accounts_urlpatterns).
Definition field_names (r : option request_schema) : list string :=
  match r with Some (InlineRequest _ fields) => (fun f : string * bool * string => f.1.1) <$> fields | _ => [] end.

(** No two operations share an identifier, and no method of a view has two; the
    tags are those of the settings, each in use; every view of the two apps is
    documented but the metrics endpoint and the CSP collector, and every
    documented view is routed; the update body offers exactly the fields a
    profile update takes, none of them required. *)
Theorem operations_documented :
  NoDup (op_id <$> operations) /\ NoDup ((fun d : string * string * operation => d.1) <$> documented) /\
  (forall tag, tag ∈ operations ≫= op_tags <-> tag ∈ tag_names) /\
  (forall view, view ∈ app_views <->
     view ∈ (fun d : string * string * operation => d.1.1) <$> documented \/
     view ∈ ["core.views.metrics_endpoint"; "core.views.csp_report"]) /\
  field_names (op_request me_patch_operation) = UPDATABLE_PROFILE_FIELDS.
Proof.
  split; [apply (bool_decide_unpack _); by vm_compute|]. split; [apply (bool_decide_unpack _); by vm_compute|].
  assert (Htags : remove_dups (operations ≫= op_tags) ≡ₚ tag_names)
    by (apply (bool_decide_unpack _); by vm_compute).
  assert (Hviews : app_views ≡ₚ remove_dups ((fun d : string * string * operation => d.1.1) <$> documented) ++
      ["core.views.metrics_endpoint"; "core.views.csp_report"]) by (apply (bool_decide_unpack _); by vm_compute).
  split_and!; [|intros view; by rewrite Hviews, elem_of_app, elem_of_remove_dups|done].
  intros tag. by rewrite <- Htags, elem_of_remove_dups.
Qed.
