(* ===== verification/Entry.v ===== *)
(** * The entry points

    [manage.py], [config/wsgi.py], [config/asgi.py], [config/celery.py] and the
    first lines of [config/settings/__init__.py]: how each puts the application
    directory on [sys.path] and names the settings module, and the guard
    against the copies drifting apart.  A resolved path is the list of its
    segments below the root; the Django and Celery objects the modules build
    are not modelled. *)
From stdpp Require Import base list gmap strings.
From Stdlib Require Import Lia.
From S2P Require Import Prelude PyStr PyVal Exceptions.

Abbreviation path := (list string).

Definition parent (p : path) : path := removelast p.
(** [p.parents[n]] *)
Definition parents (n : nat) (p : path) : path := Nat.iter (S n) parent p.
Definition str_path (p : path) : string := "/" +:+ join "/" p.

(** What the modules change in the interpreter. *)
Record interpreter := Interpreter {
  sys_path : list string;
  environ : gmap string string;
}.

(** [if d not in sys.path: sys.path.insert(0, d)] *)
Definition add_path (d : string) (s : interpreter) : interpreter :=
  if str_in d (sys_path s) then s else Interpreter (d :: sys_path s) (environ s).
(** [os.environ.setdefault(k, v)] *)
Definition env_setdefault (k v : string) (s : interpreter) : interpreter :=
  match environ s !! k with
  | Some _ => s
  | None => Interpreter (sys_path s) (<[k := v]> (environ s))
  end.

Definition settings_variable : string := "DJANGO_SETTINGS_MODULE".

Section entries.
(** The directory of the project. *)
Context (root : path).

(** The [_apps_dir] of each module, from its own [__file__]. *)
Definition manage_apps_dir : string := str_path (parent (root ++ ["manage.py"]) ++ ["apps"]).
Definition celery_apps_dir : string := str_path (parent (parent (root ++ ["config"; "celery.py"])) ++ ["apps"]).
Definition wsgi_apps_dir : string := str_path (parent (parent (root ++ ["config"; "wsgi.py"])) ++ ["apps"]).
Definition asgi_apps_dir : string := str_path (parent (parent (root ++ ["config"; "asgi.py"])) ++ ["apps"]).
Definition settings_file : path := root ++ ["config"; "settings"; "__init__.py"].
Definition settings_apps_dir : string := str_path (parent (parent (parent settings_file)) ++ ["apps"]).
Definition guard_apps_dir : string := str_path (parents 2 settings_file ++ ["apps"]).

(** Importing [config], which imports [config.celery]. *)
Definition config_package (s : interpreter) : interpreter :=
  env_setdefault settings_variable "config.settings" (add_path celery_apps_dir s).

Definition wsgi (s : interpreter) : interpreter :=
  env_setdefault settings_variable "config.settings" (add_path wsgi_apps_dir (config_package s)).
Definition asgi (s : interpreter) : interpreter :=
  env_setdefault settings_variable "config.settings" (add_path asgi_apps_dir (config_package s)).
Definition manage (s : interpreter) : interpreter :=
  env_setdefault settings_variable "config.settings" (add_path manage_apps_dir s).

(** The head of the settings package, with its guard. *)
Definition drift_error : py_exn :=
  Builtin "RuntimeError" ("sys.path drift between config/settings/__init__.py (" +:+ repr_str settings_apps_dir +:+
    ") and config/celery.py (" +:+ repr_str guard_apps_dir +:+ "). Re-sync the two blocks.").
Definition settings_head : act interpreter py_exn unit := fun s =>
  let s1 := add_path settings_apps_dir s in
  if String.eqb settings_apps_dir guard_apps_dir then (Ok tt, s1) else (Raise drift_error, s1).

(** ** Lemmas *)

Definition apps_dir : string := str_path (root ++ ["apps"]).

Lemma same_apps_dir :
  manage_apps_dir = apps_dir /\ celery_apps_dir = apps_dir /\ wsgi_apps_dir = apps_dir /\
  asgi_apps_dir = apps_dir /\ settings_apps_dir = apps_dir /\ guard_apps_dir = apps_dir.
Proof.
  unfold manage_apps_dir, celery_apps_dir, wsgi_apps_dir, asgi_apps_dir, settings_apps_dir, guard_apps_dir, parents,
    settings_file, parent. cbn [Nat.iter nat_rect].
  repeat (rewrite removelast_app by done; cbn [removelast]). by rewrite !app_nil_r.
Qed.

(** Where every entry point leaves the interpreter. *)
Definition prepared (s : interpreter) : interpreter :=
  Interpreter (if str_in apps_dir (sys_path s) then sys_path s else apps_dir :: sys_path s)
    (<[settings_variable := default "config.settings" (environ s !! settings_variable)]> (environ s)).

Lemma add_path_twice d s : add_path d (add_path d s) = add_path d s.
Proof.
  unfold add_path. destruct (str_in d (sys_path s)) eqn:E; [by rewrite E|]. cbn [sys_path].
  assert (str_in d (d :: sys_path s) = true) as -> by (apply str_in_spec, elem_of_cons; by left). done.
Qed.

Lemma prepared_eq s : env_setdefault settings_variable "config.settings" (add_path apps_dir s) = prepared s.
Proof.
  unfold prepared, env_setdefault, add_path. destruct s as [p e]. cbn [sys_path environ].
  destruct (str_in apps_dir p); cbn [sys_path environ];
    (destruct (e !! settings_variable) as [v|] eqn:E; cbn [default]; [by rewrite insert_id|done]).
Qed.

Lemma prepared_twice s : prepared (prepared s) = prepared s.
Proof.
  unfold prepared at 1. cbn [sys_path environ prepared]. rewrite lookup_insert_eq. cbn [default].
  rewrite insert_insert_eq. unfold prepared. destruct (str_in apps_dir (sys_path s)) eqn:E; [by rewrite E|].
  assert (str_in apps_dir (apps_dir :: sys_path s) = true) as -> by (apply str_in_spec, elem_of_cons; by left). done.
Qed.

(** The entry points agree: wherever the project lies and whatever the
    interpreter holds, each of the four puts the same directory on [sys.path]
    once, before and without disturbing what was there, keeps a settings module
    named from outside, and running another one afterwards changes nothing; the
    settings package then adds nothing and raises nothing. *)
Theorem entry_points_agree s :
  config_package s = prepared s /\ wsgi s = prepared s /\ asgi s = prepared s /\ manage s = prepared s /\
  prepared (prepared s) = prepared s /\ settings_head (prepared s) = (Ok tt, prepared s).
Proof.
  destruct same_apps_dir as (Hm & Hc & Hw & Ha & Hs & Hg).
  assert (config_package s = prepared s) as Hcp by (unfold config_package; by rewrite Hc, prepared_eq).
  split; [done|]. unfold wsgi, asgi, manage. rewrite Hcp, Hm, Hw, Ha, !prepared_eq, !prepared_twice.
  split_and!; try done. unfold settings_head. rewrite Hs, Hg, String.eqb_refl. f_equal.
  unfold add_path. cbn [prepared sys_path]. destruct (str_in apps_dir (sys_path s)) eqn:E; [by rewrite E|].
  by assert (str_in apps_dir (apps_dir :: sys_path s) = true) as -> by (apply str_in_spec, elem_of_cons; by left).
Qed.

(** The guard compares two computations from the same file: it looks at no
    line of [config/celery.py] and never fires. *)
Lemma drift_guard_never_fires s : (settings_head s).1 = Ok tt.
Proof.
  destruct same_apps_dir as (_ & _ & _ & _ & Hs & Hg). unfold settings_head. by rewrite Hs, Hg, String.eqb_refl.
Qed.
End entries.
