(* ===== verification/Boot.v ===== *)
(** * The start of the process

    [core/apps.py], [core/api_log/apps.py] and [accounts/apps.py]: what
    [django.setup()] leaves behind.  The state is everything the three [ready]
    methods write: the exit hooks, the status registry of the exception handler
    ([Handler]), the resource registry ([Rbac]), the provider registry
    ([AuthChain]), the audit pipeline ([ApiLog]) and the service registry of the
    resilience kit, which is a parameter with its documented behaviour.
    [populate] calls the [ready] methods in the order of [INSTALLED_APPS]; the
    other applications of that list are not ours and do not touch this state. *)
From stdpp Require Import base list gmap strings.
From Stdlib Require Import Lia.
From S2P Require Import Prelude PyStr PyVal Exceptions Handler Rbac AuthChain Endpoints LogSanitize Settings FireForget ApiLog Models.

(** ** The kit's registry of services *)

Class KitRegistry (K : Type) := {
  register_service : string -> pyval -> act K py_exn unit;
  service : string -> K -> option pyval;
  has_breaker : string -> K -> bool;
}.

(** Registering sets the configuration of the name, and of no other, until a
    circuit breaker of that name has been created; then it raises [ValueError],
    for the configuration cannot change once the breaker is live. *)
Class KitRegistryLaws (K : Type) `{!KitRegistry K} : Prop := {
  register_spec : forall n cfg k,
    if has_breaker n k then exists msg, register_service n cfg k = (Raise (Builtin "ValueError" msg), k)
    else exists k', register_service n cfg k = (Ok tt, k') /\ service n k' = Some cfg /\
      (forall m, m <> n -> service m k' = service m k) /\ (forall m, has_breaker m k' = has_breaker m k);
}.

(** [with contextlib.suppress(ValueError)] *)
Definition value_errors : list string :=
  ["ValueError"; "UnicodeError"; "UnicodeDecodeError"; "UnicodeEncodeError"; "UnicodeTranslateError"].
Definition suppress_value_error {S} (m : act S py_exn unit) : act S py_exn unit := fun s =>
  match m s with
  | (Raise (Builtin cls msg), s') => if str_in cls value_errors then (Ok tt, s') else (Raise (Builtin cls msg), s')
  | out => out
  end.

(** ** The state *)
Section boot.
Context {W R U K : Type} `{!KitRegistry K}.
(** simple-jwt's authentication and its header; our key authentication; and
    the audit settings. *)
Context (jwt_authenticate : R -> act W py_exn (option U)) (jwt_header : R -> option string).
Context (key_authenticate : R -> act W py_exn (option U)).
Context (s : log_settings).

Record process := Process {
  ps_atexit : list string;
  ps_kit : K;
  ps_statuses : registry;
  ps_resources : resource_map;
  ps_auth : @auth_registry W R U;
  ps_log : pipeline;
}.

(** [atexit.register(f)] *)
Definition atexit_register (f : string) : act process py_exn unit :=
  modify (fun p => Process (ps_atexit p ++ [f]) (ps_kit p) (ps_statuses p) (ps_resources p) (ps_auth p) (ps_log p)).
Definition on_kit (m : act K py_exn unit) : act process py_exn unit := fun p =>
  let '(r, k) := m (ps_kit p) in
  (r, Process (ps_atexit p) k (ps_statuses p) (ps_resources p) (ps_auth p) (ps_log p)).
Definition map_exception (c : exn_class) (status_code : Z) : act process py_exn unit :=
  modify (fun p => Process (ps_atexit p) (ps_kit p) (register_exception_mapping c status_code (ps_statuses p))
                     (ps_resources p) (ps_auth p) (ps_log p)).
Definition add_resource (model resource : string) : act process py_exn unit := fun p =>
  match register_resource model resource (ps_resources p) with
  | Ok r => (Ok tt, Process (ps_atexit p) (ps_kit p) (ps_statuses p) r (ps_auth p) (ps_log p))
  | Raise e => (Raise e, p)
  end.
Definition add_provider (x : @provider W R U) : act process py_exn unit :=
  modify (fun p => Process (ps_atexit p) (ps_kit p) (ps_statuses p) (ps_resources p) (register x (ps_auth p)) (ps_log p)).

(** ** The [ready] methods *)

(** [_register_resilience_services] *)
Definition s3_service : pyval :=
  VDict [(KStr "circuit_breaker",
    VDict [(KStr "fail_max", VInt 5); (KStr "reset_timeout", VInt 30);
           (KStr "excluded_exceptions", VTuple [VStr "core.exceptions.infrastructure.S3NotFoundError"])])].
Definition _register_resilience_services : act process py_exn unit :=
  suppress_value_error (on_kit (register_service "s3" s3_service)).

Definition CoreConfig_ready : act process py_exn unit :=
  atexit_register "core.utils.db.dispose_all_engines" ≫= fun _ => _register_resilience_services.

Definition ApiLogConfig_ready : act process py_exn unit := fun p =>
  let '(r, log) := init_repository s (ps_log p) in
  (r, Process (ps_atexit p) (ps_kit p) (ps_statuses p) (ps_resources p) (ps_auth p) log).

Definition AccountsConfig_ready : act process py_exn unit :=
  for_each (fun cz : exn_class * Z => map_exception cz.1 cz.2) accounts_registrations ≫= fun _ =>
  for_each (fun mr : string * string => add_resource mr.1 mr.2) accounts_resources ≫= fun _ =>
  for_each add_provider [JWTProvider jwt_authenticate jwt_header; APIKeyProvider key_authenticate; GoogleOAuthProvider].

(** [apps.populate(INSTALLED_APPS)], its last phase. *)
Definition INSTALLED_APPS : list string := assigned_strings "INSTALLED_APPS" app_settings.
Definition ready (app : string) : act process py_exn unit :=
  if String.eqb app "core" then CoreConfig_ready
  else if String.eqb app "core.api_log" then ApiLogConfig_ready
  else if String.eqb app "accounts" then AccountsConfig_ready
  else mret tt.
Definition populate : act process py_exn unit := for_each ready INSTALLED_APPS.

(** The modules are imported: [core.exceptions.handler] has made its own
    registrations, the other registries are empty. *)
Definition imported (hooks : list string) (k : K) : process :=
  Process hooks k (register_all core_registrations registry_empty) [] (AuthRegistry [] []) (Pipeline None None []).

(** ** Lemmas *)

(** The applications that are not ours drop out. *)
Lemma populate_ours p : populate p = for_each ready ["core"; "core.api_log"; "accounts"] p.
Proof. reflexivity. Qed.

(** What [_register_resilience_services] leaves of the kit's registry. *)
Lemma s3_registered `{!KitRegistryLaws K} k :
  exists k', (forall p, ps_kit p = k -> _register_resilience_services p =
      (Ok tt, Process (ps_atexit p) k' (ps_statuses p) (ps_resources p) (ps_auth p) (ps_log p))) /\
    service "s3" k' = (if has_breaker "s3" k then service "s3" k else Some s3_service) /\
    has_breaker "s3" k' = has_breaker "s3" k /\ forall m, m <> "s3" -> service m k' = service m k.
Proof.
  unfold _register_resilience_services, suppress_value_error, on_kit.
  pose proof (register_spec "s3" s3_service k) as Hr. destruct (has_breaker "s3" k) eqn:E.
  - destruct Hr as [msg Hm]. exists k. split; [|done]. intros p <-. by rewrite Hm.
  - destruct Hr as (k' & Hk & Hs & Ho & Hb). exists k'. rewrite Hb, E. split; [|done]. intros p <-. by rewrite Hk.
Qed.

Definition providers : list (@provider W R U) :=
  [JWTProvider jwt_authenticate jwt_header; APIKeyProvider key_authenticate; GoogleOAuthProvider].

Lemma accounts_ready p r :
  register_each accounts_resources (ps_resources p) = Ok r ->
  AccountsConfig_ready p =
    (Ok tt, Process (ps_atexit p) (ps_kit p) (register_all accounts_registrations (ps_statuses p)) r
              (fold_left (fun a x => register x a) providers (ps_auth p)) (ps_log p)).
Proof.
  intros Hr. unfold AccountsConfig_ready. unfold mbind at 1, act_bind at 1.
  assert (Hs : for_each (fun cz : exn_class * Z => map_exception cz.1 cz.2) accounts_registrations p =
    (Ok tt, Process (ps_atexit p) (ps_kit p) (register_all accounts_registrations (ps_statuses p))
              (ps_resources p) (ps_auth p) (ps_log p))) by done.
  rewrite Hs. clear Hs. unfold mbind at 1, act_bind at 1.
  assert (Ha : forall l q r', register_each l (ps_resources q) = Ok r' ->
    for_each (fun mr : string * string => add_resource mr.1 mr.2) l q =
      (Ok tt, Process (ps_atexit q) (ps_kit q) (ps_statuses q) r' (ps_auth q) (ps_log q))).
  { clear. induction l as [|[m res] l IH]; intros q r'.
    - intros [= <-]. by destruct q.
    - cbn [register_each for_each fst snd]. unfold mbind, act_bind, result_bind, add_resource.
      destruct (register_resource m res (ps_resources q)) as [r1|]; [|done]. intros H. by rewrite (IH _ r'). }
  erewrite Ha by exact Hr. reflexivity.
Qed.

(** One run of [populate], from any state whose resources admit ours. *)
Lemma populate_run p k' r log :
  (forall q, ps_kit q = ps_kit p -> _register_resilience_services q =
     (Ok tt, Process (ps_atexit q) k' (ps_statuses q) (ps_resources q) (ps_auth q) (ps_log q))) ->
  init_repository s (ps_log p) = (Ok tt, log) ->
  register_each accounts_resources (ps_resources p) = Ok r ->
  populate p =
    (Ok tt, Process (ps_atexit p ++ ["core.utils.db.dispose_all_engines"]) k'
              (register_all accounts_registrations (ps_statuses p)) r
              (fold_left (fun a x => register x a) providers (ps_auth p)) log).
Proof.
  intros Hk Hl Hr. rewrite populate_ours. cbn [for_each]. unfold mbind, act_bind.
  change (ready "core") with CoreConfig_ready. change (ready "core.api_log") with ApiLogConfig_ready.
  change (ready "accounts") with AccountsConfig_ready.
  unfold CoreConfig_ready, atexit_register, modify. unfold mbind, act_bind. rewrite Hk by done.
  unfold ApiLogConfig_ready. cbn [ps_log ps_atexit ps_kit ps_statuses ps_resources ps_auth]. rewrite Hl.
  by rewrite (accounts_ready _ r) by exact Hr.
Qed.

(** A class that nothing in [m] covers is covered by no part of [m]. *)
Lemma first_match_part c m l : incl l m -> first_match c m = None -> first_match c l = None.
Proof.
  intros Hl Hm. induction l as [|[d z] l IH]; [done|]. cbn [first_match].
  destruct (subclass c d) eqn:E; [|apply IH; intros x Hx; apply Hl; by right].
  exfalso. assert (Hin : In (d, z) m) by (apply Hl; by left). clear -Hm Hin E.
  induction m as [|[d' z'] m IH]; [done|]. cbn [first_match] in Hm. destruct (subclass c d') eqn:E'; [done|].
  destruct Hin as [[= -> ->]|Hin]; [congruence|by apply IH].
Qed.

(** The provider registry after [ready] has run, once or again. *)
Lemma providers_registered :
  fold_left (fun a x => register x a) providers (AuthRegistry [] []) =
    AuthRegistry ((fun x => (p_name x, x)) <$> providers) [] /\
  fold_left (fun a x => register x a) providers (AuthRegistry ((fun x => (p_name x, x)) <$> providers) []) =
    AuthRegistry ((fun x => (p_name x, x)) <$> providers) [].
Proof. split; reflexivity. Qed.

(** A registry of statuses answers for a class what another one does. *)
Definition same_statuses (r1 r2 : registry) : Prop :=
  forall c, first_match c (builder r1) = first_match c (builder r2).

(** C34: with at least one worker configured for the audit queue, the process
    starts, into the state the rest of the development starts from, and
    starting again changes nothing that can be observed.  From freshly imported
    modules, whatever the kit's registry holds, [populate] raises nothing;
    afterwards the exception handler answers with the statuses of
    [Handler.booted], every model of the accounts application has a resource of
    the vocabulary, the configured authentication is simple-jwt, then the API
    key, the kit's registry has the [s3] entry of the source (or, if a breaker
    of that name was live, the one it had) and no other entry changed, the
    audit queue and its back end exist, and the engines are disposed of at
    exit.  A second run raises nothing, gives every exception the status it
    had, and leaves resources, providers, services and pipeline as they were.
    With no worker configured, [populate] ends with the [ValueError] of the
    thread pool, before the accounts application is ready. *)
Theorem boot_ready `{!KitRegistryLaws K} abstract_user hooks k :
  ((0 < API_LOG_QUEUE_WORKERS s)%Z ->
   exists p, populate (imported hooks k) = (Ok tt, p) /\
    ps_statuses p = booted /\
    (forall m model_name, m ∈ models abstract_user -> md_name m = "accounts." +:+ model_name ->
       exists res, resource_for "accounts" model_name (ps_resources p) = Some res /\ res ∈ Resource_values) /\
    (enabled_providers (Some AUTH_ENABLED_PROVIDERS) (ps_auth p)).1.1 =
      [JWTProvider jwt_authenticate jwt_header; APIKeyProvider key_authenticate] /\
    service "s3" (ps_kit p) = (if has_breaker "s3" k then service "s3" k else Some s3_service) /\
    (forall n, n <> "s3" -> service n (ps_kit p) = service n k) /\
    pl_queue (ps_log p) = Some (new_queue (API_LOG_QUEUE_MAX_IN_FLIGHT s) (Z.to_nat (API_LOG_QUEUE_WORKERS s))) /\
    pl_backend (ps_log p) = Some (_build_backend s).1 /\
    ps_atexit p = hooks ++ ["core.utils.db.dispose_all_engines"] /\
    exists p', populate p = (Ok tt, p') /\ same_statuses (ps_statuses p') (ps_statuses p) /\
      ps_resources p' = ps_resources p /\ ps_auth p' = ps_auth p /\
      (forall n, service n (ps_kit p') = service n (ps_kit p)) /\ ps_log p' = ps_log p) /\
  ((API_LOG_QUEUE_WORKERS s <= 0)%Z ->
   exists msg p, populate (imported hooks k) = (Raise (Builtin "ValueError" msg), p) /\
     ps_resources p = [] /\ ps_auth p = AuthRegistry [] [] /\ pl_queue (ps_log p) = None).
Proof.
  destruct (s3_registered k) as (k1 & Hk1 & Hs1 & Hb1 & Ho1).
  destruct (s3_registered k1) as (k2 & Hk2 & Hs2 & _ & Ho2).
  destruct providers_registered as [Hp1 Hp2].
  assert (Hback : exists logs, get_backend s (Pipeline None None []) =
    ((_build_backend s).1, Pipeline None (Some (_build_backend s).1) logs)).
  { unfold get_backend. cbn [pl_backend]. destruct (_build_backend s) as [b []]; by eexists. }
  destruct Hback as [logs Hback]. split; intros Hw.
  2: { unfold populate, imported. change (for_each ready INSTALLED_APPS) with populate. rewrite populate_ours.
       cbn [for_each]. unfold mbind, act_bind. change (ready "core") with CoreConfig_ready.
       change (ready "core.api_log") with ApiLogConfig_ready.
       unfold CoreConfig_ready, atexit_register, modify. unfold mbind, act_bind. rewrite Hk1 by done.
       unfold ApiLogConfig_ready, init_repository. cbn [ps_log ps_atexit ps_kit ps_statuses ps_resources ps_auth].
       rewrite Hback. cbn [snd]. unfold mbind, act_bind, _ensure_queue, make_queue. cbn [pl_queue].
       rewrite (proj2 (Z.leb_le _ _)) by exact Hw. by eexists _, _. }
  set (q := new_queue (API_LOG_QUEUE_MAX_IN_FLIGHT s) (Z.to_nat (API_LOG_QUEUE_WORKERS s))).
  set (log1 := Pipeline (Some q) (Some (_build_backend s).1) logs).
  assert (Hlog0 : init_repository s (Pipeline None None []) = (Ok tt, log1)).
  { unfold init_repository. rewrite Hback. cbn [snd]. unfold mbind, act_bind, _ensure_queue, make_queue.
    cbn [pl_queue]. by rewrite (proj2 (Z.leb_gt _ _)) by exact Hw. }
  assert (Hlog1 : init_repository s log1 = (Ok tt, log1)) by done.
  assert (H1 := populate_run (imported hooks k) k1 accounts_resources log1 Hk1 Hlog0 eq_refl).
  cbn [imported ps_auth] in H1. rewrite Hp1 in H1.
  eexists. split; [exact H1|]. cbn [ps_atexit ps_kit ps_statuses ps_resources ps_auth ps_log].
  split_and!; try done.
  - intros m model_name Hm Hname.
    assert (Hcase : forall n, md_name m = "accounts." +:+ n -> n = model_name).
    { intros n Hn. rewrite Hn in Hname. simpl in Hname. congruence. }
    unfold models in Hm. rewrite !elem_of_cons, elem_of_nil in Hm.
    destruct Hm as [->|[->|[->|[->|[->|[]]]]]].
    + rewrite <- (Hcase "Permission" eq_refl). exists "role". split; [by vm_compute|]. unfold Resource_values. set_solver.
    + rewrite <- (Hcase "Role" eq_refl). exists "role". split; [by vm_compute|]. unfold Resource_values. set_solver.
    + rewrite <- (Hcase "User" eq_refl). exists "account". split; [by vm_compute|]. unfold Resource_values. set_solver.
    + rewrite <- (Hcase "APIKey" eq_refl). exists "api_key". split; [by vm_compute|]. unfold Resource_values. set_solver.
    + exfalso. discriminate Hname.
  - eexists. split; [eapply (populate_run _ k2 accounts_resources log1); [exact Hk2|exact Hlog1|by vm_compute]|].
    cbn [ps_atexit ps_kit ps_statuses ps_resources ps_auth ps_log]. split_and!; try done.
    + intros c. rewrite register_all_builder, first_match_app.
      change (builder (register_all accounts_registrations _)) with (builder booted).
      destruct (first_match c (builder booted)) eqn:E; [done|].
      apply (first_match_part c (builder booted)); [|exact E].
      intros x Hx. unfold booted. rewrite !register_all_builder. apply in_app_iff. by right.
    + intros n. destruct (decide (n = "s3")) as [->|Hn]; [|by apply Ho2].
      rewrite Hs2, Hs1, Hb1. by destruct (has_breaker "s3" k).
Qed.
End boot.

(** ** A registry that keeps its entries in a list, and the names with a
    breaker in another *)
#[export] Instance list_kit : KitRegistry (list (string * pyval) * list string) := {|
  register_service n cfg := fun k =>
    if str_in n k.2 then (Raise (Builtin "ValueError" ("breaker of " +:+ n +:+ " exists")), k)
    else (Ok tt, (od_set n cfg k.1, k.2));
  service n k := od_get n k.1;
  has_breaker n k := str_in n k.2 |}.
#[export] Instance list_kit_laws : KitRegistryLaws (list (string * pyval) * list string).
Proof.
  split. intros n cfg k. cbn. destruct (str_in n k.2); [by eexists|]. eexists. split; [done|]. cbn.
  split; [by rewrite od_get_set_eq|]. split; [|done]. intros m Hm. by apply od_get_set_ne.
Qed.

Lemma boot_ready_witness :
  let s := LogSettings None 100 0 "noop" 5 1 (SanConfig true 10 10 10 (search_any sensitive_words) "***" []) in
  exists p, populate (W:=unit) (R:=unit) (U:=unit) (fun _ => mret None) (fun _ => None) (fun _ => mret None) s
      (imported [] ([("db", VNone)], [])) = (Ok tt, p) /\
    ps_statuses p = booted /\
    service "s3" (ps_kit p) = Some s3_service /\ service "db" (ps_kit p) = Some VNone.
Proof.
  intros s. destruct (boot_ready (W:=unit) (R:=unit) (U:=unit) (fun _ => mret None) (fun _ => None) (fun _ => mret None)
      s [] [] ([("db", VNone)], [])) as [H _].
  destruct (H eq_refl) as (p & Hp & Hs & _ & _ & H3 & Ho & _).
  exists p. split; [exact Hp|]. split; [exact Hs|]. split; [exact H3|]. exact (Ho "db" ltac:(done)).
Defined.
