(* ===== verification/Health.v ===== *)
(** * Health, readiness and the metrics endpoint

    [apps/core/lifecycle/healthcheck.py] and [apps/core/views.py].  The
    connections the probes open are parameters giving what each call returns
    or raises, and so is the query behind [has_superuser_role]; DRF's
    [@api_view], which authenticates before it calls a view and hands what
    the view raises to the exception handler, is the class [FunctionView].
    [ipaddress] is written out, for both address families, as far as the
    access check uses it. *)
From stdpp Require Import base list gmap strings pretty numbers.
From Stdlib Require Import Ascii Lia ZArith.
From S2P Require Import Prelude PyStr PyVal Exceptions Handler Orm Rbac AuthChain ApiKey Responses Contract Endpoints Metrics.

(** ** [core/lifecycle/healthcheck.py] *)

Record HealthCheckResult := HealthCheck {
  hc_name : string;
  hc_healthy : bool;
  hc_detail : string;
}.

(** A probe: its [__name__] and its body. *)
Record check := Probe { ck_name : option string; ck_run : L HealthCheckResult }.

(** [f"{type(exc).__name__}: {exc}"] *)
Definition exn_detail (exc : py_exn) : string := exn_type_name exc +:+ ": " +:+ exn_str exc.

(** [logger.exception(msg, *args)] on a fixed message. *)
Definition log_exception (msg : string) (args : list pyval) : L unit := emit ERROR msg args [] true.

Definition run_check (c : check) : L HealthCheckResult :=
  except (ck_run c) (fun exc =>
    log_exception "Health check %s raised" [VStr (default "?" (ck_name c))] ≫= fun _ =>
    mret (HealthCheck (default "check" (ck_name c)) false (exn_detail exc))).

Fixpoint run_each (checks : list check) : L (list HealthCheckResult) :=
  match checks with
  | [] => mret []
  | c :: checks' => r ← run_check c; rs ← run_each checks'; mret (r :: rs)
  end.
Definition run_checks (checks : list check) : L (list HealthCheckResult * bool) :=
  results ← run_each checks;
  mret (results, forallb hc_healthy results).

Section probes.
(** [SELECT 1] on the default connection; the cache of an alias, its [set]
    and the value its [get] then returns; [attempt_recover_all()];
    [celery_app.connection()], [ensure_connection] and [close]. *)
Context (select_1 : result py_exn unit).
Context (cache_alias : string -> result py_exn unit) (cache_set : string -> result py_exn unit)
        (cache_get : string -> result py_exn pyval) (attempt_recover_all : result py_exn pyval).
Context (broker_connection ensure_connection broker_close : result py_exn unit).

Definition failed (name : string) (exc : py_exn) : HealthCheckResult := HealthCheck name false (exn_detail exc).

Definition db_check : L HealthCheckResult :=
  except (lift_result select_1 ≫= fun _ => mret (HealthCheck "database" true "connected"))
    (fun exc => mret (failed "database" exc)).

(** The detail of a reachable cache: what the recovery reported, if anything. *)
Definition recovery_detail : L string :=
  except
    (recovered ← lift_result attempt_recover_all;
     if truthy recovered
     then match py_str recovered with
          | Some t => mret ("connected (recovered=" +:+ t +:+ ")")
          | None => raise (Builtin "Exception" "str() failed")
          end
     else mret "connected")
    (fun _ => log_exception "cache recovery dispatch failed" [] ≫= fun _ => mret "connected").

Definition is_ok (v : pyval) : bool := match v with VStr s => String.eqb s "ok" | _ => false end.

Definition cache_check (alias : string) : L HealthCheckResult :=
  let name := "cache[" +:+ alias +:+ "]" in
  except
    (lift_result (cache_alias alias) ≫= fun _ =>
     lift_result (cache_set alias) ≫= fun _ =>
     v ← lift_result (cache_get alias);
     if negb (is_ok v) then mret (HealthCheck name false "round-trip failed")
     else detail ← recovery_detail; mret (HealthCheck name true detail))
    (fun exc => mret (failed name exc)).

(** [try: ensure finally: close]: an exception of [close] replaces. *)
Definition finally {A} (m : result py_exn A) (f : result py_exn unit) : result py_exn A :=
  match f with Raise e => Raise e | Ok _ => m end.
Definition celery_broker_check : L HealthCheckResult :=
  except
    (lift_result broker_connection ≫= fun _ =>
     lift_result (finally ensure_connection broker_close) ≫= fun _ =>
     mret (HealthCheck "celery_broker" true "connected"))
    (fun exc => mret (failed "celery_broker" exc)).

(** ** [core/views.py] *)

Record view_response := ViewResponse { vr_status : Z; vr_data : option (list (string * pyval)) }.

(** [User.has_superuser_role], with what its query answers:
    [self.roles.filter(is_superuser_role=True).exists()]. *)
Definition superuser_role (exists_ : Z -> result py_exn bool) (u : account) : result py_exn bool :=
  match a_cached u with
  | Some b => Ok b
  | None => exists_ (a_id u)
  end.

(** [hasattr(request, "user") and getattr(request.user, "has_superuser_role",
    False)]; [None] is a user without the attribute.  [getattr] takes an
    [AttributeError] for a missing attribute and lets anything else out. *)
Definition _is_privileged (exists_ : Z -> result py_exn bool) (user : option account) : result py_exn bool :=
  match user with
  | None => Ok false
  | Some u =>
      match superuser_role exists_ u with
      | Raise (Builtin cls msg) => if String.eqb cls "AttributeError" then Ok false else Raise (Builtin cls msg)
      | r => r
      end
  end.

Definition _short (r : HealthCheckResult) : string :=
  if hc_healthy r then "connected"
  else if contains "database" (hc_name r) then "disconnected" else "unreachable".

Definition checks_dict (results : list HealthCheckResult) : list (pykey * pyval) :=
  od_update [] ((fun r => (KStr (hc_name r), VStr (str_or (hc_detail r) (_short r)))) <$> results).
Definition _attach_checks (payload : list (string * pyval)) (results : list HealthCheckResult) (privileged : bool)
    : list (string * pyval) :=
  if privileged then od_set "checks" (VDict (checks_dict results)) payload else payload.

Definition health_check (exists_ : Z -> result py_exn bool) (user : option account) : L view_response :=
  run_checks [Probe (Some "db_check") db_check] ≫= fun rh : list HealthCheckResult * bool =>
  let '(results, healthy) := rh in
  let payload := [("status", VStr (if healthy then "healthy" else "unhealthy"))] in
  privileged ← lift_result (_is_privileged exists_ user);
  mret (ViewResponse (if healthy then 200 else 503) (Some (_attach_checks payload results privileged))).

Definition readiness_probes : list check :=
  [Probe (Some "db_check") db_check; Probe (Some "cache_check") (cache_check "default");
   Probe (Some "celery_broker_check") celery_broker_check].
Definition readiness_check (exists_ : Z -> result py_exn bool) (user : option account) : L view_response :=
  run_checks readiness_probes ≫= fun rh : list HealthCheckResult * bool =>
  let '(results, healthy) := rh in
  let payload := [("status", VStr (if healthy then "ready" else "not_ready"))] in
  privileged ← lift_result (_is_privileged exists_ user);
  mret (ViewResponse (if healthy then 200 else 503) (Some (_attach_checks payload results privileged))).
End probes.

(** ** [@api_view]

    A view's own answer, or what the exception handler made of what the
    authentication or the view raised. *)
Inductive reply (A : Type) :=
| Answered (a : A)
| Handled (r : option response).
Arguments Answered {A} _.
Arguments Handled {A} _.

(** The request's headers are its [META]. *)
Abbreviation meta := (list (string * string)).

Section api_view.
Context `{Django}.
Context (jwt_authenticate : meta -> act auth_world py_exn (option account)) (jwt_header : meta -> option string).
Context (rid : option string) (from_exception : pyval -> body * Z * list (string * string)) (kit_str : exc -> string).
Context (exception_handler : string -> option (Z * pyval * list (string * string))).

Definition caller (m : meta) (a : auth_world) : result py_exn (option account) :=
  (authentication (od_get "HTTP_X_API_KEY") jwt_authenticate jwt_header m a).1.

Definition handled {A} (e : py_exn) : result py_exn (reply A) :=
  if is_exception e then Ok (Handled (on_exception rid from_exception kit_str exception_handler e)) else Raise e.

(** A function view under [AllowAny] without throttles: the request is
    authenticated first, then the function runs, and an [Exception] raised in
    either goes to the exception handler. *)
Class FunctionView
    (api_view : forall A, (option account -> L A) -> meta -> auth_world -> list log_record -> result py_exn (reply A)) : Prop := {
  api_view_spec : forall A view m a logs,
    api_view A view m a logs =
    match caller m a with
    | Raise e => handled e
    | Ok user =>
        match (view user logs).1 with
        | Ok r => Ok (Answered r)
        | Raise e => handled e
        end
    end
}.
End api_view.

(** [csp_report] on [request.data]. *)
Definition dict_or_nil (v : pyval) : list (pykey * pyval) := match v with VDict d => d | _ => [] end.
Definition clipped (v : pyval) (n : Z) : result py_exn pyval :=
  match py_str v with
  | Some s => Ok (VStr (slice_to s n))
  | None => Raise (Builtin "Exception" "str() failed")
  end.
Definition csp_field (report : list (pykey * pyval)) (k : string) : pyval :=
  default (VStr "") (od_get (KStr k) report).
Definition csp_report (data : result py_exn pyval) : L view_response :=
  d ← lift_result data;
  let body := dict_or_nil d in
  let report := match od_get (KStr "csp-report") body with Some (VDict r) => r | _ => body end in
  violated ← lift_result (clipped (csp_field report "violated-directive") 200);
  effective ← lift_result (clipped (csp_field report "effective-directive") 200);
  disposition ← lift_result (clipped (csp_field report "disposition") 50);
  emit INFO "csp_violation" []
    [("event", VStr "csp_violation"); ("violated_directive", violated); ("effective_directive", effective);
     ("disposition", disposition); ("status_code", default VNone (od_get (KStr "status-code") report))] false ≫= fun _ =>
  mret (ViewResponse 204 None).

(** ** [ipaddress] *)

Inductive ip := V4 (n : Z) | V6 (n : Z) (scope : option string).
#[export] Instance ip_eq_dec : EqDecision ip.
Proof. solve_decision. Defined.

(** Apply a parser to every piece, or fail. *)
Fixpoint all_some {A B} (f : A -> option B) (l : list A) : option (list B) :=
  match l with
  | [] => Some []
  | x :: l' => y ← f x; ys ← all_some f l'; Some (y :: ys)
  end.
Definition digits (s : string) : bool := str_true s && forallb is_digit (String.list_ascii_of_string s).

(** [IPv4Address._parse_octet] *)
Definition parse_octet (s : string) : option Z :=
  if negb (digits s) || (3 <? slen s) then None
  else if negb (String.eqb s "0") && startswith "0" s then None
  else match digits_val 0 false s with
       | Some n => if (255 <? n)%Z then None else Some n
       | None => None
       end.
Definition parse_ipv4 (s : string) : option Z :=
  match split_char "." s with
  | [a; b; c; d] =>
      octets ← all_some parse_octet [a; b; c; d];
      Some (fold_left (fun acc o => (256 * acc + o)%Z) octets 0%Z)
  | _ => None
  end.

(** [IPv6Address._parse_hextet] *)
Definition hex_val (c : ascii) : option Z :=
  let n := ord c in
  if is_digit c then Some (Z.of_nat (n - 48))
  else if (97 <=? n) && (n <=? 102) then Some (Z.of_nat (n - 87))
  else if (65 <=? n) && (n <=? 70) then Some (Z.of_nat (n - 55))
  else None.
Definition parse_hextet (s : string) : option Z :=
  if negb (str_true s) || (4 <? slen s) then None
  else ds ← all_some hex_val (String.list_ascii_of_string s);
       Some (fold_left (fun acc d => (16 * acc + d)%Z) ds 0%Z).

Definition last_piece {A} (l : list A) : option A := l !! (length l - 1).

(** The pieces between colons, a dotted quad at the end read as two. *)
Definition v6_parts (s : string) : option (list (string + Z)) :=
  let parts := split_char ":" s in
  if length parts <? 3 then None
  else match last_piece parts with
       | Some p =>
           if contains "." p
           then n ← parse_ipv4 p;
                Some ((inl <$> removelast parts) ++ [inr (Z.shiftr n 16); inr (Z.land n 65535)])
           else Some (inl <$> parts)
       | None => None
       end.
Definition part_empty (p : string + Z) : bool := match p with inl s => negb (str_true s) | inr _ => false end.
Definition part_val (p : string + Z) : option Z := match p with inl s => parse_hextet s | inr z => Some z end.
Definition hextets (parts : list (string + Z)) : option Z :=
  vs ← all_some part_val parts; Some (fold_left (fun acc d => (65536 * acc + d)%Z) vs 0%Z).

(** The indices strictly inside whose piece is empty: at most one, the [::]. *)
Definition skips (parts : list (string + Z)) : list nat :=
  filter (fun i => match parts !! i with Some p => part_empty p | None => false end = true)
    (seq 1 (length parts - 2)).
Definition first_empty (parts : list (string + Z)) : bool := match parts !! 0 with Some p => part_empty p | None => true end.
Definition last_empty (parts : list (string + Z)) : bool := match last_piece parts with Some p => part_empty p | None => true end.

Definition parse_v6_int (s : string) : option Z :=
  parts ← v6_parts s;
  let len := length parts in
  if 9 <? len then None
  else match skips parts with
       | [] =>
           if negb (len =? 8) || first_empty parts || last_empty parts then None else hextets parts
       | [k] =>
           let hi := if first_empty parts then k - 1 else k in
           let lo := if last_empty parts then len - k - 2 else len - k - 1 in
           if (first_empty parts && negb (hi =? 0)) || (last_empty parts && negb (lo =? 0)) || (8 <=? hi + lo)
           then None
           else h ← hextets (take hi parts);
                l ← hextets (drop (len - lo) parts);
                Some (Z.shiftl h (16 * Z.of_nat (8 - hi)) + l)%Z
       | _ => None
       end.
Definition parse_ipv6 (s : string) : option ip :=
  if contains "/" s then None
  else match cut_char "%" s with
       | (addr, None) => n ← parse_v6_int addr; Some (V6 n None)
       | (addr, Some scope) =>
           if negb (str_true scope) || contains "%" scope then None
           else n ← parse_v6_int addr; Some (V6 n (Some scope))
       end.

(** [ipaddress.ip_address]; [None] is the [ValueError]. *)
Definition ip_address (s : string) : option ip :=
  match parse_ipv4 s with Some n => Some (V4 n) | None => parse_ipv6 s end.

(** Networks: version, address and prefix length. *)
Record network := Network { nw_v6 : bool; nw_address : Z; nw_prefix : Z }.

Definition prefix_of_string (max : Z) (s : string) : option Z :=
  if negb (digits s) then None
  else match digits_val 0 false s with
       | Some n => if (max <? n)%Z then None else Some n
       | None => None
       end.
Definition ones_at (p : Z) : Z := Z.shiftl (Z.ones p) (32 - p).
(** [_prefix_from_ip_string]: a netmask, or a host mask. *)
Definition prefix_of_mask (s : string) : option Z :=
  n ← parse_ipv4 s;
  let is_mask m := List.find (fun p => (ones_at p =? m)%Z) (Z.of_nat <$> seq 0 33) in
  or_else (is_mask n) (is_mask (Z.lxor n (Z.ones 32))).
Definition v4_network (addr mask : string) : option network :=
  n ← parse_ipv4 addr;
  p ← or_else (prefix_of_string 32 mask) (prefix_of_mask mask);
  Some (Network false n p).
Definition v6_network (addr mask : string) : option network :=
  a ← parse_ipv6 addr;
  p ← prefix_of_string 128 mask;
  match a with V6 n _ => Some (Network true n p) | V4 _ => None end.
(** [ipaddress.ip_network(s, strict=False)] on a string with a slash. *)
Definition ip_network (s : string) : option network :=
  match split_char "/" s with
  | [addr; mask] => or_else (v4_network addr mask) (v6_network addr mask)
  | _ => None
  end.

(** [ip in network]: equal under the netmask; the versions must agree. *)
Definition netmask (bits p : Z) : Z := Z.shiftl (Z.ones p) (bits - p).
Definition in_network (a : ip) (nw : network) : bool :=
  let same bits n := (Z.land n (netmask bits (nw_prefix nw)) =? Z.land (nw_address nw) (netmask bits (nw_prefix nw)))%Z in
  match a with
  | V4 n => negb (nw_v6 nw) && same 32%Z n
  | V6 n _ => nw_v6 nw && same 128%Z n
  end.

(** ** The metrics endpoint *)

Definition entry_allows (a : ip) (entry : string) : bool :=
  if contains "/" entry
  then match ip_network entry with Some nw => in_network a nw | None => false end
  else match ip_address entry with Some b => bool_decide (a = b) | None => false end.
Definition _ip_allowed (client_ip : string) (allow_list : list string) : bool :=
  if negb (str_true client_ip) then false
  else match ip_address client_ip with
       | None => false
       | Some a => existsb (entry_allows a) allow_list
       end.

Definition _metrics_client_ip (meta : list (string * string)) : string := default "" (od_get "REMOTE_ADDR" meta).

Record http_text := HttpText { ht_body : string; ht_status : Z; ht_type : string }.
Definition plain_text (body : string) (status : Z) : http_text := HttpText body status "text/plain; charset=utf-8".
(** [prometheus] is [generate_latest()] and its content type, or [None] when
    the package is not installed. *)
Definition metrics_endpoint (allowed : option (list string)) (enabled : option bool)
    (prometheus : option (string * string)) (meta : list (string * string)) : http_text :=
  if negb (_ip_allowed (_metrics_client_ip meta) (default ["127.0.0.1"] allowed))
  then plain_text "forbidden: metrics endpoint is IP-restricted" 403
  else if negb (default false enabled)
  then plain_text "metrics exporter not configured" 503
  else match prometheus with
       | None => plain_text "metrics enabled but prometheus_client is not installed" 503
       | Some (body, ctype) => HttpText body 200 ctype
       end.

Example ip_v4 : ip_address "10.0.0.255" = Some (V4 167772415).
Proof. vm_compute. reflexivity. Qed.
Example ip_bad : ip_address <$> ["10.0.0.256"; "10.0.01.1"; "1.2.3"; ""; "::1::"; "1:2:3:4:5:6:7:8:9"; "fe80::1%"] = repeat None 7.
Proof. vm_compute. reflexivity. Qed.
Example ip_v6 : ip_address <$> ["::1"; "::"; "fe80::1%eth0"; "::ffff:1.2.3.4"; "1:2:3:4:5:6:7:8"; "1::"] =
  [Some (V6 1 None); Some (V6 0 None); Some (V6 338288524927261089654018896841347694593 (Some "eth0"));
   Some (V6 281470698652420 None); Some (V6 5192455318486707404433266433261576 None);
   Some (V6 5192296858534827628530496329220096 None)].
Proof. vm_compute. reflexivity. Qed.
Example acl : (fun e => _ip_allowed "10.2.3.4" [e]) <$> ["10.0.0.0/8"; "10.2.3.4"; "10.2.3.0/255.255.255.0"; "10.2.3.0/0.0.0.255"; "11.0.0.0/8"; "x/8"; "::/0"] =
  [true; true; true; true; false; false; false].
Proof. vm_compute. reflexivity. Qed.

(** ** The probes decide the status *)
Section readiness.
Context (select_1 : result py_exn unit).
Context (cache_alias cache_set : string -> result py_exn unit) (cache_get : string -> result py_exn pyval)
        (attempt_recover_all : result py_exn pyval).
Context (broker_connection ensure_connection broker_close : result py_exn unit).

(** The calls fail with [Exception]s, not with an interpreter exit. *)
Definition catchable {A} (r : result py_exn A) : Prop := forall e, r = Raise e -> is_exception e = true.
Record calls_catchable : Prop := {
  cc_db : catchable select_1;
  cc_cache : forall alias, catchable (cache_alias alias) /\ catchable (cache_set alias) /\ catchable (cache_get alias);
  cc_recover : catchable attempt_recover_all;
  cc_broker : catchable broker_connection /\ catchable ensure_connection /\ catchable broker_close;
}.

Definition db_up : bool := returns select_1.
Definition cache_up (alias : string) : bool :=
  returns (cache_alias alias) && returns (cache_set alias) &&
  match cache_get alias with Ok v => is_ok v | Raise _ => false end.
Definition broker_up : bool := returns broker_connection && returns ensure_connection && returns broker_close.

(** What a probe must do: report, under its own name, whether its dependency
    is up, and never raise. *)
Definition reports (m : L HealthCheckResult) (name : string) (up : bool) : Prop :=
  forall logs, exists r logs', m logs = (Ok r, logs') /\ hc_name r = name /\ hc_healthy r = up.

Lemma db_reports : calls_catchable -> reports (db_check select_1) "database" db_up.
Proof.
  intros [Hdb _ _ _] logs. unfold db_check, except, mbind, act_bind, lift_result, db_up.
  destruct select_1 as [[]|e]; [do 2 eexists; by split_and!|].
  rewrite (Hdb e eq_refl). do 2 eexists. by split_and!.
Qed.

Lemma recovery_total : calls_catchable ->
  forall logs, exists d logs', recovery_detail attempt_recover_all logs = (Ok d, logs').
Proof.
  intros [_ _ Hr _] logs. unfold recovery_detail, except, mbind, act_bind, lift_result.
  destruct attempt_recover_all as [v|e].
  - destruct (truthy v); [destruct (py_str v)|]; cbn; do 2 eexists; reflexivity.
  - rewrite (Hr e eq_refl). do 2 eexists. reflexivity.
Qed.

Lemma cache_reports alias : calls_catchable ->
  reports (cache_check cache_alias cache_set cache_get attempt_recover_all alias) ("cache[" +:+ alias +:+ "]")
    (cache_up alias).
Proof.
  intros Hcc logs. pose proof (cc_cache Hcc alias) as (Ha & Hs & Hg).
  unfold cache_check, except, mbind, act_bind, lift_result, cache_up.
  destruct (cache_alias alias) as [[]|e]; [|rewrite (Ha e eq_refl); do 2 eexists; by split_and!].
  destruct (cache_set alias) as [[]|e]; [|rewrite (Hs e eq_refl); do 2 eexists; by split_and!].
  destruct (cache_get alias) as [v|e]; [|rewrite (Hg e eq_refl); do 2 eexists; by split_and!].
  destruct (is_ok v); cbn [negb]; [|do 2 eexists; by split_and!].
  destruct (recovery_total Hcc logs) as (d & logs' & ->). do 2 eexists. by split_and!.
Qed.

Lemma broker_reports : calls_catchable ->
  reports (celery_broker_check broker_connection ensure_connection broker_close) "celery_broker" broker_up.
Proof.
  intros [_ _ _ (Hc & He & Hl)] logs.
  unfold celery_broker_check, except, mbind, act_bind, lift_result, finally, broker_up.
  destruct broker_connection as [[]|e]; [|rewrite (Hc e eq_refl); do 2 eexists; by split_and!].
  destruct broker_close as [[]|e]; [|rewrite (Hl e eq_refl), andb_false_r; do 2 eexists; by split_and!].
  destruct ensure_connection as [[]|e]; [|rewrite (He e eq_refl)]; do 2 eexists; by split_and!.
Qed.

(** Running probes that report: one result each, in order. *)
Lemma run_each_reports cs spec :
  Forall2 (fun c s => reports (ck_run c) s.1 s.2) cs spec ->
  forall logs, exists rs logs', run_each cs logs = (Ok rs, logs') /\ hc_name <$> rs = spec.*1 /\
    forallb hc_healthy rs = forallb snd spec.
Proof.
  induction 1 as [|c [name up] cs spec Hc _ IH]; intros logs; cbn [run_each].
  { exists [], logs. by split_and!. }
  destruct (Hc logs) as (r & logs1 & Hr & Hn & Hu). destruct (IH logs1) as (rs & logs2 & Hrs & Hns & Hus).
  unfold run_check, except, mbind, act_bind in *. rewrite Hr, Hrs. exists (r :: rs), logs2.
  cbn. by rewrite Hn, Hu, Hns, Hus.
Qed.

Lemma run_checks_reports cs spec :
  Forall2 (fun c s => reports (ck_run c) s.1 s.2) cs spec ->
  forall logs, exists rs logs', run_checks cs logs = (Ok (rs, forallb snd spec), logs') /\ hc_name <$> rs = spec.*1.
Proof.
  intros H logs. destruct (run_each_reports cs spec H logs) as (rs & logs' & Hr & Hn & Hu).
  unfold run_checks, mbind, act_bind. rewrite Hr. exists rs, logs'. by rewrite <- Hu.
Qed.

Lemma checks_dict_keys rs : NoDup (hc_name <$> rs) -> (checks_dict rs).*1 = KStr <$> (hc_name <$> rs).
Proof.
  intros Hnd. unfold checks_dict, od_update.
  set (e := (fun r => _) <$> rs). assert (He : e.*1 = KStr <$> (hc_name <$> rs)).
  { unfold e. rewrite <- !list_fmap_compose. done. }
  assert (Hnde : NoDup e.*1) by (rewrite He; by apply NoDup_fmap_2_strong; [intros ?? _ _ [=]|]).
  rewrite <- He. clear He. change e.*1 with (([] : list (pykey * pyval)).*1 ++ e.*1).
  assert (Hd : forall k, k ∈ ([] : list (pykey * pyval)).*1 -> k ∉ e.*1) by (intros k []%elem_of_nil).
  revert Hnde Hd. generalize ([] : list (pykey * pyval)). clear. induction e as [|[k v] e IH]; intros d Hnd Hd.
  { by rewrite app_nil_r. }
  cbn [fold_left fst snd]. rewrite fmap_cons in Hnd. apply list.NoDup_cons in Hnd as [Hk Hnd].
  assert (Hset : (od_set k v d).*1 = d.*1 ++ [k]).
  { rewrite od_set_keys, decide_False; [done|]. intros Hin. apply (Hd k Hin). left. }
  rewrite IH; [by rewrite Hset, <- app_assoc|done|].
  intros k1. rewrite Hset, elem_of_app, list_elem_of_singleton. intros [H1| ->]; [|done].
  intros H2. apply (Hd k1 H1). by right.
Qed.

Lemma attached (privileged : bool) results status :
  let data := _attach_checks [("status", VStr status)] results privileged in
  od_get "status" data = Some (VStr status) /\
  (privileged = false -> data = [("status", VStr status)]) /\
  (privileged = true -> NoDup (hc_name <$> results) ->
     exists d, od_get "checks" data = Some (VDict d) /\ d.*1 = KStr <$> (hc_name <$> results)).
Proof.
  unfold _attach_checks. destruct privileged; split_and!; try done.
  intros _ Hnd. eexists. split; [reflexivity|]. by apply checks_dict_keys.
Qed.

Section endpoint.
Context `{Django}.
Context (jwt_authenticate : meta -> act auth_world py_exn (option account)) (jwt_header : meta -> option string).
Context (rid : option string) (from_exception : pyval -> body * Z * list (string * string)) (kit_str : exc -> string).
Context (exception_handler : string -> option (Z * pyval * list (string * string))).
Context (api_view : forall A, (option account -> L A) -> meta -> auth_world -> list log_record -> result py_exn (reply A)).
Context `{!FunctionView jwt_authenticate jwt_header rid from_exception kit_str exception_handler api_view}.

Definition health_endpoint (exists_ : Z -> result py_exn bool) :=
  api_view _ (health_check select_1 exists_).
Definition readiness_endpoint (exists_ : Z -> result py_exn bool) :=
  api_view _ (readiness_check select_1 cache_alias cache_set cache_get attempt_recover_all broker_connection
                ensure_connection broker_close exists_).

(** A probe's own answer: the status and the word for [up], to a caller who
    is not privileged nothing else, to one who is an entry per check. *)
Definition probe_answer (up : bool) (yes no : string) (names : list string) (privileged : bool)
    (out : result py_exn (reply view_response)) : Prop :=
  exists data, out = Ok (Answered (ViewResponse (if up then 200 else 503) (Some data))) /\
    od_get "status" data = Some (VStr (if up then yes else no)) /\
    (privileged = false -> length data = 1) /\
    (privileged = true -> exists d, od_get "checks" data = Some (VDict d) /\ d.*1 = KStr <$> names).

Lemma probe_answered {yes no : string} probes spec (view : option account -> L view_response) exists_ user privileged m a logs :
  Forall2 (fun c s => reports (ck_run c) s.1 s.2) probes spec -> NoDup spec.*1 ->
  (view user = run_checks probes ≫= fun rh : list HealthCheckResult * bool =>
     let '(results, healthy) := rh in
     privileged ← lift_result (_is_privileged exists_ user);
     mret (ViewResponse (if healthy then 200 else 503)
       (Some (_attach_checks [("status", VStr (if healthy then yes else no))] results privileged)))) ->
  caller jwt_authenticate jwt_header m a = Ok user -> _is_privileged exists_ user = Ok privileged ->
  probe_answer (forallb snd spec) yes no spec.*1 privileged (api_view _ view m a logs).
Proof.
  intros Hs Hnd Hv Hc Hp. rewrite (api_view_spec jwt_authenticate jwt_header rid from_exception kit_str exception_handler), Hc, Hv, Hp. destruct (run_checks_reports _ _ Hs logs) as (rs & l' & Hr & Hn).
  unfold mbind at 1, act_bind at 1. rewrite Hr. cbn.
  destruct (attached privileged rs (if forallb snd spec then yes else no)) as (H1 & H2 & H3).
  eexists. split_and!; [reflexivity|exact H1|by intros ->%H2|]. intros Ht.
  destruct (H3 Ht) as (d & Hd & Hk); [by rewrite Hn|]. exists d. split; [done|]. by rewrite Hk, Hn.
Qed.

Lemma probe_handled {yes no : string} probes spec (view : option account -> L view_response) exists_ user e m a logs :
  Forall2 (fun c s => reports (ck_run c) s.1 s.2) probes spec ->
  (view user = run_checks probes ≫= fun rh : list HealthCheckResult * bool =>
     let '(results, healthy) := rh in
     privileged ← lift_result (_is_privileged exists_ user);
     mret (ViewResponse (if healthy then 200 else 503)
       (Some (_attach_checks [("status", VStr (if healthy then yes else no))] results privileged)))) ->
  caller jwt_authenticate jwt_header m a = Ok user -> _is_privileged exists_ user = Raise e ->
  api_view _ view m a logs = handled rid from_exception kit_str exception_handler e.
Proof.
  intros Hs Hv Hc Hp. rewrite (api_view_spec jwt_authenticate jwt_header rid from_exception kit_str exception_handler), Hc, Hv, Hp. destruct (run_checks_reports _ _ Hs logs) as (rs & l' & Hr & _).
  unfold mbind at 1, act_bind at 1. by rewrite Hr.
Qed.

Lemma anonymous_caller m a :
  (forall m a, od_get "HTTP_AUTHORIZATION" m = None -> jwt_authenticate m a = (Ok None, a)) ->
  od_get "HTTP_AUTHORIZATION" m = None -> od_get "HTTP_X_API_KEY" m = None ->
  caller jwt_authenticate jwt_header m a = Ok None.
Proof.
  intros Hj Hb Hk. unfold caller. rewrite authentication_chain.
  cbn [try_providers p_authenticate JWTProvider APIKeyProvider]. unfold mbind, act_bind. rewrite Hj by done.
  unfold api_key_authenticate. by rewrite Hk.
Qed.

End endpoint.
End readiness.

(** ** The probes' documents *)

Definition is_strv (kv : pykey * pyval) : Prop := is_str kv.2 = true.

Lemma od_set_strs k v (d : list (pykey * pyval)) :
  is_str v = true -> Forall is_strv d -> Forall is_strv (od_set k v d).
Proof.
  intros Hv. induction 1 as [|[k' v'] d Hx Hd IH]; simpl; [by repeat constructor|].
  case_decide; by constructor.
Qed.

Lemma checks_dict_strs rs : Forall is_strv (checks_dict rs).
Proof.
  unfold checks_dict, od_update. assert (H : Forall is_strv []) by constructor. revert H.
  generalize ([] : list (pykey * pyval)). induction rs as [|r rs IH]; intros d Hd; [done|].
  cbn. apply IH. by apply od_set_strs.
Qed.

Lemma str_member n ps (kv : pykey * pyval) :
  (forall k p, od_get k ps = Some p -> exists ex, p = example_of "string" ex) -> is_strv kv ->
  match od_get kv.1 ps with Some p => accepts (S n) p kv.2 | None => true end = true.
Proof.
  intros Hps Hv. destruct (od_get kv.1 ps) as [p|] eqn:E; [|done].
  destruct (Hps _ _ E) as [ex ->]. destruct kv as [k v]. unfold is_strv in Hv. simpl in *. by destruct v.
Qed.

Lemma checks_described names n d :
  Forall is_strv d ->
  accepts (S (S n)) (VDict [(KStr "type", VStr "object"); (KStr "nullable", VBool true);
     (KStr "properties", VDict ((fun n => (KStr n, example_of "string" (VStr "connected"))) <$> names))]) (VDict d) = true.
Proof.
  intros Hd. change (forallb (fun kv : pykey * pyval =>
    match od_get kv.1 ((fun n => (KStr n, example_of "string" (VStr "connected"))) <$> names) with
    | Some p => accepts (S n) p kv.2 | None => true end) d = true).
  apply forallb_forall. intros kv Hin. apply str_member.
  - intros k p Hp. apply od_get_elem in Hp. apply list_elem_of_fmap in Hp as (m & [= -> ->] & _). by eexists.
  - rewrite Stdlib.Lists.List.Forall_forall in Hd. by apply Hd.
Qed.

(** The two probes answer as documented, status by status, for every caller:
    the answer meets the schema published for its status. *)
Lemma probes_as_documented (privileged : bool) results (healthy : bool) (up down : string) (names : list string) :
  let data := _attach_checks [("status", VStr (if healthy then up else down))] results privileged in
  conforms (if healthy then status_schema up (Some names) else status_schema down None)
    (VDict ((fun kv : string * pyval => (KStr kv.1, kv.2)) <$> data)) = true.
Proof.
  cbv zeta. unfold _attach_checks, conforms. destruct healthy, privileged; try reflexivity.
  set (s := status_schema up (Some names)).
  set (cs := VDict [(KStr "type", VStr "object"); (KStr "nullable", VBool true);
     (KStr "properties", VDict ((fun n => (KStr n, example_of "string" (VStr "connected"))) <$> names))]).
  assert (vdepth cs < vdepth (VDict [(KStr "status", example_of "string" (VStr up)); (KStr "checks", cs)]))
    by (apply (vdepth_member (KStr "checks")); by right; left).
  assert (vdepth (VDict [(KStr "status", example_of "string" (VStr up)); (KStr "checks", cs)]) < vdepth s)
    by (apply (vdepth_member (KStr "properties")); by right; left).
  destruct (vdepth s) as [|[|m]]; [lia|lia|].
  change (true && (accepts (S (S m)) cs (VDict (checks_dict results)) && true) = true).
  pose proof (checks_described names m _ (checks_dict_strs results)) as Hc. fold cs in Hc. by rewrite Hc.
Qed.

(** ** Who may scrape the metrics *)

Lemma contains_char_free d s : contains (String d "") s = false -> free_of d s.
Proof.
  induction s as [|c s IH]; simpl; [intros _; apply free_of_nil|].
  intros [H1 H2]%orb_false_iff. rewrite free_of_cons. split; [|by apply IH].
  intros ->. by rewrite bool_decide_eq_true_2 in H1.
Qed.

Lemma contains_app_r p a b : contains p b = true -> contains p (a +:+ b) = true.
Proof.
  intros H. induction a as [|c a IH]; simpl; [done|]. rewrite IH. by rewrite orb_true_r.
Qed.

Definition octet (n : Z) : Prop := (0 <= n < 256)%Z.
Definition octet_good (n : Z) : bool :=
  bool_decide (parse_octet (str_int n) = Some n) && negb (contains "." (str_int n)) && negb (contains "/" (str_int n)).
Lemma octets_good : forallb octet_good (Z.of_nat <$> seq 0 256) = true.
Proof. vm_compute. reflexivity. Qed.
Lemma octet_ok n : octet n ->
  parse_octet (str_int n) = Some n /\ free_of "." (str_int n) /\ contains "/" (str_int n) = false.
Proof.
  intros Hn. pose proof octets_good as H. rewrite forallb_forall in H.
  specialize (H n). unfold octet_good in H. rewrite !andb_true_iff, !negb_true_iff, bool_decide_eq_true in H.
  destruct H as [[H1 H2] H3].
  { apply list_elem_of_In, list_elem_of_fmap. exists (Z.to_nat n). unfold octet in Hn.
    split; [lia|]. apply elem_of_seq. lia. }
  split_and!; [done|by apply contains_char_free|done].
Qed.

Definition prefix_good (n : Z) : bool :=
  bool_decide (prefix_of_string 32 (str_int n) = Some n) && negb (contains "/" (str_int n)).
Lemma prefixes_good : forallb prefix_good (Z.of_nat <$> seq 0 33) = true.
Proof. vm_compute. reflexivity. Qed.
Lemma prefix_ok n : (0 <= n <= 32)%Z -> prefix_of_string 32 (str_int n) = Some n /\ free_of "/" (str_int n).
Proof.
  intros Hn. pose proof prefixes_good as H. rewrite forallb_forall in H.
  specialize (H n). unfold prefix_good in H. rewrite !andb_true_iff, !negb_true_iff, bool_decide_eq_true in H.
  destruct H as [H1 H2]; [|by split; [|apply contains_char_free]].
  apply list_elem_of_In, list_elem_of_fmap. exists (Z.to_nat n). split; [lia|]. apply elem_of_seq. lia.
Qed.

(** An address written out, and its number. *)
Definition dotted (a b c d : Z) : string :=
  str_int a +:+ "." +:+ str_int b +:+ "." +:+ str_int c +:+ "." +:+ str_int d.
Definition number (a b c d : Z) : Z := (((a * 256 + b) * 256 + c) * 256 + d)%Z.

Lemma parse_dotted a b c d : octet a -> octet b -> octet c -> octet d ->
  parse_ipv4 (dotted a b c d) = Some (number a b c d).
Proof.
  intros Ha%octet_ok Hb%octet_ok Hc%octet_ok Hd%octet_ok. unfold parse_ipv4, dotted. cbn [String.append].
  rewrite !split_char_app by naive_solver. rewrite split_char_no_sep by naive_solver.
  cbn [all_some]. destruct Ha as [-> _], Hb as [-> _], Hc as [-> _], Hd as [-> _].
  cbn. unfold number. f_equal. lia.
Qed.

Lemma number_bound a b c d : octet a -> octet b -> octet c -> octet d ->
  (0 <= number a b c d < 2 ^ 32)%Z.
Proof. unfold octet, number. lia. Qed.

Lemma contains_char_app ch a b :
  contains (String ch "") (a +:+ b) = contains (String ch "") a || contains (String ch "") b.
Proof.
  induction a as [|c a IH]; simpl; [done|]. rewrite IH. by rewrite orb_assoc.
Qed.

Lemma dotted_no_slash a b c d : octet a -> octet b -> octet c -> octet d -> contains "/" (dotted a b c d) = false.
Proof.
  intros (_ & _ & Ha)%octet_ok (_ & _ & Hb)%octet_ok (_ & _ & Hc)%octet_ok (_ & _ & Hd)%octet_ok.
  unfold dotted. rewrite !contains_char_app, Ha, Hb, Hc, Hd. reflexivity.
Qed.

Lemma dotted_true a b c d : str_true (dotted a b c d) = true.
Proof.
  apply str_true_spec. intros E%(f_equal slen). unfold dotted in E. rewrite !slen_app in E.
  unfold slen in E. simpl in E. lia.
Qed.

(** Under the netmask of a prefix, two addresses agree when their leading
    bits do. *)
Lemma land_netmask x p : (0 <= x < 2 ^ 32)%Z -> (0 <= p <= 32)%Z ->
  Z.land x (netmask 32 p) = Z.shiftl (Z.shiftr x (32 - p)) (32 - p).
Proof.
  intros Hx Hp. unfold netmask. apply Z.bits_inj'. intros i Hi.
  rewrite Z.land_spec, Z.shiftl_spec by lia. destruct (decide (i < 32 - p)%Z) as [Hlt|Hge].
  - rewrite (Z.testbit_neg_r (Z.ones p)) by lia. rewrite andb_false_r.
    rewrite Z.shiftl_spec by lia. by rewrite Z.testbit_neg_r by lia.
  - rewrite Z.shiftl_spec, Z.shiftr_spec by lia. replace (i - (32 - p) + (32 - p))%Z with i by lia.
    destruct (decide (i < 32)%Z) as [H32|H32].
    + rewrite Z.ones_spec_low by lia. by rewrite andb_true_r.
    + rewrite Z.ones_spec_high by lia. rewrite andb_false_r. symmetry.
      destruct (decide (x = 0)%Z) as [->|Hne]; [apply Z.testbit_0_l|].
      apply Z.bits_above_log2; [lia|]. enough (Z.log2 x < 32)%Z by lia. apply Z.log2_lt_pow2; lia.
Qed.

Lemma same_network x y p : (0 <= x < 2 ^ 32)%Z -> (0 <= y < 2 ^ 32)%Z -> (0 <= p <= 32)%Z ->
  (Z.land x (netmask 32 p) =? Z.land y (netmask 32 p))%Z = (Z.shiftr x (32 - p) =? Z.shiftr y (32 - p))%Z.
Proof.
  intros Hx Hy Hp. rewrite !land_netmask by done. apply eq_true_iff_eq. rewrite !Z.eqb_eq. split; [|congruence].
  intros E%(f_equal (fun z => Z.shiftr z (32 - p))). by rewrite !Z.shiftr_shiftl_l, Z.sub_diag, !Z.shiftl_0_r in E by lia.
Qed.

(** *** The allow-list *)

Lemma allow_list_entries client l : _ip_allowed client l = existsb (fun e => _ip_allowed client [e]) l.
Proof.
  unfold _ip_allowed. destruct (negb (str_true client)).
  { by induction l. }
  destruct (ip_address client); [|by induction l]. induction l as [|e l IH]; [done|]. simpl. rewrite IH.
  by rewrite orb_false_r.
Qed.

Lemma dotted_allowed a b c d e f g h n : Forall octet [a; b; c; d; e; f; g; h] -> (0 <= n <= 32)%Z ->
  _ip_allowed (dotted a b c d) [dotted e f g h +:+ "/" +:+ str_int n] =
    (Z.shiftr (number a b c d) (32 - n) =? Z.shiftr (number e f g h) (32 - n))%Z /\
  _ip_allowed (dotted a b c d) [dotted e f g h] = (number a b c d =? number e f g h)%Z.
Proof.
  intros Ho Hn. repeat (apply Forall_cons_iff in Ho as [? Ho]).
  assert (Hc : ip_address (dotted a b c d) = Some (V4 (number a b c d)))
    by (unfold ip_address; by rewrite parse_dotted).
  unfold _ip_allowed. rewrite dotted_true, Hc. cbn [negb existsb]. rewrite !orb_false_r. unfold entry_allows. split.
  - destruct (prefix_ok n Hn) as [Hp Hf].
    rewrite contains_app_r by done. unfold ip_network. cbn [String.append].
    rewrite split_char_app by (apply contains_char_free, dotted_no_slash; done).
    rewrite split_char_no_sep by done. unfold v4_network. rewrite parse_dotted by done. cbn [mbind option_bind].
    rewrite Hp. cbn [or_else mbind option_bind in_network nw_v6 nw_address nw_prefix negb andb].
    by rewrite same_network by (try apply number_bound; done).
  - rewrite dotted_no_slash by done. unfold ip_address. rewrite parse_dotted by done.
    destruct (Z.eqb_spec (number a b c d) (number e f g h)) as [->|Hne]; [by apply bool_decide_eq_true|].
    apply bool_decide_eq_false. by intros [= ?].
Qed.

Section scrape.
Context `{Django}.
Context (jwt_authenticate : meta -> act auth_world py_exn (option account)) (jwt_header : meta -> option string).
Context (rid : option string) (from_exception : pyval -> body * Z * list (string * string)) (kit_str : exc -> string).
Context (exception_handler : string -> option (Z * pyval * list (string * string))).
Context (api_view : forall A, (option account -> L A) -> meta -> auth_world -> list log_record -> result py_exn (reply A)).
Context `{!FunctionView jwt_authenticate jwt_header rid from_exception kit_str exception_handler api_view}.

(** A [GET] of the endpoint. *)
Definition scrape allowed enabled prometheus (m : meta) : auth_world -> list log_record -> result py_exn (reply http_text) :=
  api_view _ (fun _ => mret (metrics_endpoint allowed enabled prometheus m)) m.

Lemma detail_errors code d : exists me, drf_errors code (VDict [(KStr "detail", VStr d)]) = Some me.
Proof.
  unfold drf_errors. change (od_get (KStr "detail") [(KStr "detail", VStr d)]) with (Some (VStr d)).
  change (od_del (KStr "detail") [(KStr "detail", VStr d)]) with (@nil (pykey * pyval)).
  unfold default, id. destruct (truthy (VStr d)); eexists; reflexivity.
Qed.

(** A bad API key, sent without a bearer token. *)
Lemma bad_key m a key msg :
  (forall m a, od_get "HTTP_AUTHORIZATION" m = None -> jwt_authenticate m a = (Ok None, a)) ->
  od_get "HTTP_AUTHORIZATION" m = None -> od_get "HTTP_X_API_KEY" m = Some key ->
  (ApiKey.authenticate (Some key) a).1 = Raise (Builtin "AuthenticationFailed" msg) ->
  caller jwt_authenticate jwt_header m a = Raise (Builtin "AuthenticationFailed" msg).
Proof.
  intros Hj Hb Hk Ha. unfold caller. rewrite authentication_chain.
  cbn [try_providers p_authenticate JWTProvider APIKeyProvider]. unfold mbind, act_bind. rewrite Hj by done.
  unfold api_key_authenticate. rewrite Hk. destruct (ApiKey.authenticate (Some key) a) as [r a']. cbn in Ha. by subst r.
Qed.

End scrape.

(** What a CSP report can put in the logs: five fields, three of them clipped
    text; the status code goes through as it came. *)
Lemma csp_report_bounded data logs r logs' :
  csp_report (Ok data) logs = (Ok r, logs') ->
  vr_status r = 204%Z /\ exists v e d st, logs' = logs ++ [LogRecord INFO "csp_violation" []
    [("event", VStr "csp_violation"); ("violated_directive", VStr v); ("effective_directive", VStr e);
     ("disposition", VStr d); ("status_code", st)] false] /\
    slen v <= 200 /\ slen e <= 200 /\ slen d <= 50.
Proof.
  assert (Hclip : forall v n x, clipped v n = Ok x -> (0 <= n)%Z -> exists s, x = VStr s /\ slen s <= Z.to_nat n).
  { intros v n x. unfold clipped. destruct (py_str v) as [s|]; [|done]. intros [= <-] Hn. eexists. split; [done|].
    unfold slice_to. rewrite slen_stake. unfold clamp_index. case_match; lia. }
  unfold csp_report, mbind, act_bind, lift_result. set (report := match od_get _ _ with Some (VDict r0) => r0 | _ => _ end).
  destruct (clipped (csp_field report "violated-directive") 200) as [v|] eqn:Hv; [|done].
  destruct (clipped (csp_field report "effective-directive") 200) as [e|] eqn:He; [|done].
  destruct (clipped (csp_field report "disposition") 50) as [d|] eqn:Hd; [|done].
  apply Hclip in Hv as (v' & -> & Hv); [|done]. apply Hclip in He as (e' & -> & He); [|done].
  apply Hclip in Hd as (d' & -> & Hd); [|done].
  rewrite emit_ok by (apply (bool_decide_unpack _); by vm_compute). intros [= <- <-]. split; [done|].
  do 4 eexists. split_and!; [reflexivity|done..].
Qed.

(** ** Witnesses *)
Lemma all_up : calls_catchable (Ok tt) (fun _ => Ok tt) (fun _ => Ok tt) (fun _ => Ok (VStr "ok")) (Ok (VInt 0))
  (Ok tt) (Raise (Builtin "OperationalError" "refused")) (Ok tt).
Proof. split; try (by intros e [= <-]); try (intros alias; split_and!; by intros e [=]); by split_and!; intros e [= <-]. Qed.

Section sample.
(** A bearer token names user 1; DRF knows its own exceptions; a wrapper that
    does what the class says. *)
Definition sample_jwt (m : meta) (a : auth_world) : result py_exn (option account) * auth_world :=
  match od_get "HTTP_AUTHORIZATION" m with
  | None => (Ok None, a)
  | Some _ => (Ok (Some (Account 1 true true None)), a)
  end.
Definition sample_drf (cls : string) : option (Z * pyval * list (string * string)) :=
  if String.eqb cls "AuthenticationFailed"
  then Some (401%Z, VDict [(KStr "detail", VStr "Invalid API key.")], [("WWW-Authenticate", "Bearer")]) else None.
Definition sample_kit (_ : pyval) : body * Z * list (string * string) := ([], 500%Z, []).
Context `{Django}.
Definition sample_api_view A (view : option account -> L A) (m : meta) (a : auth_world) (logs : list log_record)
    : result py_exn (reply A) :=
  match caller sample_jwt (fun _ => None) m a with
  | Raise e => handled None sample_kit e_message sample_drf e
  | Ok user =>
      match (view user logs).1 with
      | Ok r => Ok (Answered r)
      | Raise e => handled None sample_kit e_message sample_drf e
      end
  end.
#[export] Instance sample_view : FunctionView sample_jwt (fun _ => None) None sample_kit e_message sample_drf sample_api_view.
Proof. by split. Qed.
Lemma sample_jwt_none m a : od_get "HTTP_AUTHORIZATION" m = None -> sample_jwt m a = (Ok None, a).
Proof. unfold sample_jwt. by intros ->. Qed.
End sample.


Definition sample_world : auth_world := AuthWorld (World ∅ 0 1 []) ∅.
Definition sample_readiness :=
  readiness_endpoint (Ok tt) (fun _ => Ok tt) (fun _ => Ok tt) (fun _ => Ok (VStr "ok")) (Ok (VInt 0)) (Ok tt)
    (Raise (Builtin "OperationalError" "refused")) (Ok tt) (@sample_api_view key_django).


