(* ===== verification/S3.v ===== *)
(** * Object storage

    [core/utils/s3.py] and [core/utils/aws.py]: the URI helpers, the object
    keys, the error translation and every S3 operation.  The boto3 client, the
    JSON and UTF-8 codecs and the bracketed-host check of [urllib] are
    parameters; the rest of [urlsplit] is written out.  The retry and breaker
    policy that [@resilient] adds is the kit's and is not applied here. *)
From stdpp Require Import base list gmap strings pretty numbers.
From Stdlib Require Import Ascii Lia ZArith.
From S2P Require Import Prelude PyStr PyVal Exceptions LogSanitize Utils Metrics.

(** ** [urllib.parse.urlsplit] *)

(** ASCII control characters and space, stripped from the left. *)
Definition c0_or_space (c : ascii) : bool := ord c <=? 32.
(** Tab, line feed and carriage return, removed everywhere. *)
Definition unsafe_url_char (c : ascii) : bool := (ord c =? 9) || (ord c =? 10) || (ord c =? 13).
Fixpoint drop_chars (f : ascii -> bool) (s : string) : string :=
  match s with
  | EmptyString => EmptyString
  | String c s' => if f c then drop_chars f s' else String c (drop_chars f s')
  end.
Definition is_alpha (c : ascii) : bool := is_upper c || is_lower c.
Definition scheme_char (c : ascii) : bool :=
  is_alpha c || is_digit c || is_char "+" c || is_char "-" c || is_char "." c.
Fixpoint any_char (f : ascii -> bool) (s : string) : bool :=
  match s with EmptyString => false | String c s' => f c || any_char f s' end.

(** The text before the first character satisfying [f], and from it on. *)
Fixpoint span_until (f : ascii -> bool) (s : string) : string * string :=
  match s with
  | EmptyString => (EmptyString, EmptyString)
  | String c s' => if f c then (EmptyString, s) else let '(a, b) := span_until f s' in (String c a, b)
  end.

(** Scheme and remainder. *)
Definition split_scheme (url : string) : string * string :=
  match cut_char ":" url with
  | (pre, Some rest) =>
      match pre with
      | String c _ => if is_alpha c && all_chars scheme_char pre then (lower pre, rest) else ("", url)
      | EmptyString => ("", url)
      end
  | (_, None) => ("", url)
  end.
Definition delimiter (c : ascii) : bool := is_char "/" c || is_char "?" c || is_char "#" c.
Definition query_or_fragment (c : ascii) : bool := is_char "?" c || is_char "#" c.

Section s3.
(** [_check_bracketed_netloc], on a net location with both brackets. *)
Context (bracketed_ok : string -> bool).

Definition clean_url (url : string) : string := drop_chars unsafe_url_char (lstrip c0_or_space url).

(** [(scheme, netloc, path)] of [urlparse]. *)
Definition urlparse (url0 : string) : result py_exn (string * string * string) :=
  let '(scheme, url) := split_scheme (clean_url url0) in
  let '(netloc, rest) := if startswith "//" url then span_until delimiter (sdrop 2 url) else ("", url) in
  let opened := contains "[" netloc in
  let closed := contains "]" netloc in
  if xorb opened closed then Raise (Builtin "ValueError" "Invalid IPv6 URL")
  else if opened && closed && negb (bracketed_ok netloc) then Raise (Builtin "ValueError" "Invalid IPv6 URL")
  else Ok (scheme, netloc, (span_until query_or_fragment rest).1).

(** ** URIs and keys *)
Context (rid : option string).

Definition invalid (msg : string) : py_exn := Custom (base_init InvalidInputError (Some msg) None rid PPlain).

Definition parse_s3_uri (s3_uri : string) : result py_exn (string * string) :=
  '(scheme, netloc, path) ← urlparse s3_uri;
  if negb (String.eqb scheme "s3") || negb (str_true netloc)
  then Raise (invalid ("Invalid S3 URI format: " +:+ s3_uri))
  else
    let key := lstrip (is_char "/") path in
    if negb (str_true key) then Raise (invalid ("S3 URI is missing object key: " +:+ s3_uri))
    else Ok (netloc, key).

Definition build_s3_uri (bucket key : string) : result py_exn string :=
  if negb (str_true bucket) || negb (str_true key)
  then Raise (invalid ("Both bucket and key required (got bucket=" +:+ repr_str bucket +:+ ", key=" +:+
                       repr_str key +:+ ")."))
  else Ok ("s3://" +:+ bucket +:+ "/" +:+ lstrip (is_char "/") key).

(** [s.rsplit(c, 1)[-1]] *)
Definition after_last (d : ascii) (s : string) : string := List.last (split_char d s) "".

(** [[^A-Za-z0-9._-]+], every run replaced by one dash. *)
Definition file_char (c : ascii) : bool :=
  is_alpha c || is_digit c || is_char "." c || is_char "_" c || is_char "-" c.
Fixpoint sanitize_runs (in_run : bool) (s : string) : string :=
  match s with
  | EmptyString => EmptyString
  | String c s' =>
      if file_char c then String c (sanitize_runs false s')
      else if in_run then sanitize_runs true s' else String "-" (sanitize_runs true s')
  end.
Definition edge_char (c : ascii) : bool := is_char "-" c || is_char "." c || is_char "_" c.
Definition clean_name (filename : string) : string :=
  let base := str_or (strip (after_last "\" (after_last "/" filename))) "file" in
  str_or (strip_by edge_char (sanitize_runs false base)) "file".

(** [f"{now:%Y/%m}"] for years of four digits. *)
Definition pad2 (n : Z) : string := if (n <? 10)%Z then "0" +:+ str_int n else str_int n.
Definition year_month (year month : Z) : string := str_int year +:+ "/" +:+ pad2 month.

Definition with_ext (cleaned : string) (ext : option string) : string :=
  match ext with
  | Some e =>
      if str_true e && negb (endswith ("." +:+ lstrip (is_char ".") (lower e)) (lower cleaned))
      then cleaned +:+ "." +:+ lstrip (is_char ".") e
      else cleaned
  | None => cleaned
  end.
Definition generate_object_key (uuid4 : string) (year month : Z) (prefix filename : string) (ext : option string)
    : string :=
  let cleaned := with_ext (clean_name filename) ext in
  let folder := str_or (strip_by (is_char "/") prefix) "assets" in
  folder +:+ "/" +:+ year_month year month +:+ "/" +:+ uuid4 +:+ "__" +:+ cleaned.

(** ** The client *)

(** What the client raises: a [ClientError] with the code and text of its
    response, a [BotoCoreError], or anything else. *)
Inductive boto :=
| ClientError (code text : string)
| BotoCoreError (text : string)
| Other (e : py_exn).

Record s3_response := S3Response {
  ContentLength : option Z;
  ContentType : option string;
  ETag : option string;
  LastModified : pyval;
  Body : string;
}.

Context {St : Type}.
(** The client's calls, on the state [St] of the service; [Body] names the
    stream that [get_body], [response["Body"].read()], reads. *)
Context (get_aws_client : act St boto unit).
Context (presign : string -> string -> Z -> act St boto string).
Context (get_object : string -> string -> act St boto s3_response) (get_body : s3_response -> act St boto string).
Context (put_object : string -> string -> string -> string -> act St boto unit).
Context (upload_fileobj : string -> string -> string -> list (string * pyval) -> act St boto unit).
Context (delete_object : string -> string -> act St boto unit).
Context (head_object : string -> string -> act St boto s3_response).
(** The codecs: [json.loads] ([Raise] is a [JSONDecodeError]), [json.dumps],
    [bytes.decode("utf-8")] and [str.encode("utf-8")]. *)
Context (json_loads : string -> result string pyval) (json_dumps : pyval -> result py_exn string)
        (decode_utf8 encode_utf8 : string -> result py_exn string).
Context (cfg : san_config).

Abbreviation W := (St * list log_record)%type.
Abbreviation M := (act W py_exn).

Definition infra (c : exn_class) (msg : string) : py_exn := Custom (base_init c (Some msg) None rid PPlain).
Definition at_ (bucket key : string) : string := bucket +:+ "/" +:+ key.

(** A log call inside an operation. *)
Definition logged (m : L unit) : M unit := fun w =>
  let '(r, logs) := m w.2 in (r, (w.1, logs)).

Definition s3_failed (operation bucket key text : string) : M unit :=
  logged (emit ERROR "S3 %s failed" [VStr operation]
    (safe_extra cfg [("operation", VStr operation); ("bucket", VStr bucket); ("key", VStr key); ("error", VStr text)]) true).

Definition not_found_codes : list string := ["404"; "NoSuchKey"; "NotFound"].

(** [with _s3_call(operation, bucket, key): m] *)
Definition _s3_call {A} (operation bucket key : string) (m : act St boto A) : M A := fun w =>
  match m w.1 with
  | (Ok a, st) => (Ok a, (st, w.2))
  | (Raise (ClientError code text), st) =>
      if str_in code not_found_codes
      then (Raise (infra S3NotFoundError ("S3 object not found: " +:+ at_ bucket key)), (st, w.2))
      else (s3_failed operation bucket key text ≫= fun _ =>
            raise (infra S3Exception ("S3 " +:+ operation +:+ " failed for " +:+ at_ bucket key))) (st, w.2)
  | (Raise (BotoCoreError text), st) =>
      (s3_failed operation bucket key text ≫= fun _ =>
       raise (infra S3Exception ("S3 " +:+ operation +:+ " failed for " +:+ at_ bucket key))) (st, w.2)
  | (Raise (Other e), st) => (Raise e, (st, w.2))
  end.

(** ** Operations *)

Definition z_true (o : option Z) : bool := match o with Some z => negb (z =? 0)%Z | None => false end.

Definition generate_presigned_url (default_expiry : Z) (s3_uri : string) (expiry : option Z) : M string :=
  '(bucket, key) ← lift_result (parse_s3_uri s3_uri);
  let expiry := if z_true expiry then default 0%Z expiry else default_expiry in
  _s3_call "generate_presigned_url" bucket key (get_aws_client ≫= fun _ => presign bucket key expiry).

(** [except]-free part of the two readers: fetch, check the length, read. *)
Definition too_large (len max_size : Z) (bucket key : string) : boto :=
  Other (infra S3Exception ("S3 object too large (" +:+ str_int len +:+ " bytes, max " +:+ str_int max_size +:+
                            "): " +:+ at_ bucket key)).
Definition fetch_within (bucket key : string) (max_size : Z) : act St boto (s3_response * string) :=
  get_aws_client ≫= fun _ =>
  response ← get_object bucket key;
  let content_length := default 0%Z (ContentLength response) in
  if (max_size <? content_length)%Z then raise (too_large content_length max_size bucket key)
  else body ← get_body response; mret (response, body).

Definition fetch_json_from_s3 (s3_uri : string) (max_size : Z) : M pyval :=
  '(bucket, key) ← lift_result (parse_s3_uri s3_uri);
  body ← _s3_call "fetch_json" bucket key
    (rb ← fetch_within bucket key max_size;
     match decode_utf8 (snd rb) with Ok s => mret s | Raise e => raise (Other e) end);
  match json_loads body with
  | Ok v => mret v
  | Raise text =>
      logged (emit ERROR "S3 object is not valid JSON" []
        (safe_extra cfg [("bucket", VStr bucket); ("key", VStr key); ("error", VStr text)]) true) ≫= fun _ =>
      raise (infra S3Exception ("S3 object is not valid JSON: " +:+ at_ bucket key))
  end.

Definition fetch_bytes_from_s3 (s3_uri : string) (max_size : Z) : M (string * string) :=
  '(bucket, key) ← lift_result (parse_s3_uri s3_uri);
  _s3_call "fetch_bytes" bucket key
    (rb ← fetch_within bucket key max_size;
     mret (snd rb, default "application/octet-stream" (ContentType (fst rb)))).

Definition upload_json_to_s3 (data : pyval) (bucket key : string) : M string :=
  body ← lift_result (json_dumps data);
  _s3_call "upload_json" bucket key
    (get_aws_client ≫= fun _ =>
     match encode_utf8 body with
     | Ok bytes => put_object bucket key bytes "application/json"
     | Raise e => raise (Other e)
     end) ≫= fun _ =>
  lift_result (build_s3_uri bucket key).

(** [{str(k): str(v) for k, v in metadata.items()}] of strings. *)
Definition upload_file_to_s3 (file_obj bucket key content_type : string) (metadata : list (string * string)) : M string :=
  let extra_args := ("ContentType", VStr content_type) ::
    match metadata with
    | [] => []
    | _ => [("Metadata", VDict ((fun kv : string * string => (KStr kv.1, VStr kv.2)) <$> metadata))]
    end in
  _s3_call "upload_file" bucket key
    (get_aws_client ≫= fun _ => upload_fileobj file_obj bucket key extra_args) ≫= fun _ =>
  lift_result (build_s3_uri bucket key).

(** [except S3NotFoundError] *)
Definition is_not_found (e : py_exn) : bool :=
  match e with Custom c => subclass (e_class c) S3NotFoundError | Builtin _ _ => false end.
Definition catch_not_found {A} (m : M A) (h : M A) : M A := fun w =>
  match m w with
  | (Raise e, w') => if is_not_found e then h w' else (Raise e, w')
  | ok => ok
  end.

Definition delete_s3_object (s3_uri : string) : M unit :=
  '(bucket, key) ← lift_result (parse_s3_uri s3_uri);
  catch_not_found
    (_s3_call "delete" bucket key (get_aws_client ≫= fun _ => delete_object bucket key))
    (logged (emit INFO "delete_s3_object: object already absent" []
       (safe_extra cfg [("bucket", VStr bucket); ("key", VStr key)]) false)).

Definition opt_z (o : option Z) : pyval := match o with Some z => VInt z | None => VNone end.
Definition opt_s (o : option string) : pyval := match o with Some s => VStr s | None => VNone end.
Definition head_s3_object (s3_uri : string) : M (list (string * pyval)) :=
  '(bucket, key) ← lift_result (parse_s3_uri s3_uri);
  _s3_call "head" bucket key
    (get_aws_client ≫= fun _ =>
     response ← head_object bucket key;
     mret [("size", opt_z (ContentLength response)); ("content_type", opt_s (ContentType response));
           ("etag", VStr (strip_by (is_char dquote) (default "" (ETag response))));
           ("last_modified", LastModified response)]).

Definition object_exists (s3_uri : string) : M bool :=
  catch_not_found (head_s3_object s3_uri ≫= fun _ => mret true) (mret false).
End s3.

(** ** [core/utils/aws.py] *)
Section aws.
(** [boto3.client(service, region_name=region)]. *)
Context {Client : Type} (boto3_client : string -> string -> nat -> Client).

(** The attributes of the thread-local object, and how many clients were made. *)
Record aws_state := AwsState { aw_attrs : list (string * Client); aw_made : nat }.

Definition aws_region (setting region : option string) : string :=
  match region with
  | Some r => if str_true r then r else default "ap-south-1" setting
  | None => default "ap-south-1" setting
  end.
Definition aws_cache_key (service_name resolved_region : string) : string :=
  replace_char "-" "_" ("_aws_" +:+ service_name +:+ "_" +:+ resolved_region).
Definition aws_client (setting : option string) (service_name : string) (region : option string) (s : aws_state)
    : Client * aws_state :=
  let resolved := aws_region setting region in
  let key := aws_cache_key service_name resolved in
  match od_get key (aw_attrs s) with
  | Some c => (c, s)
  | None =>
      let c := boto3_client service_name resolved (aw_made s) in
      (c, AwsState (od_set key c (aw_attrs s)) (S (aw_made s)))
  end.

(** A thread keeps one client per service and region. *)
Lemma aws_client_cached setting service region s c s' :
  aws_client setting service region s = (c, s') -> aws_client setting service region s' = (c, s').
Proof.
  unfold aws_client. destruct (od_get _ (aw_attrs s)) as [c0|] eqn:E.
  - intros [= <- <-]. by rewrite E.
  - intros [= <- <-]. cbn [aw_attrs]. by rewrite od_get_set_eq.
Qed.

(** Two services whose names differ only by where a dash falls share a
    client. *)
Lemma aws_cache_key_collides : aws_cache_key "a-b" "c" = aws_cache_key "a" "b-c".
Proof. reflexivity. Qed.
End aws.

(** ** Lemmas on characters *)

Lemma all_chars_lstrip f g s : all_chars f s = true -> all_chars f (lstrip g s) = true.
Proof.
  induction s as [|c s IH]; simpl; [done|]. intros [Hc Hs]%andb_true_iff.
  destruct (g c); [by apply IH|]. simpl. by rewrite Hc, Hs.
Qed.

Lemma all_chars_rstrip f g s : all_chars f s = true -> all_chars f (rstrip g s) = true.
Proof.
  induction s as [|c s IH]; simpl; [done|]. intros [Hc Hs]%andb_true_iff. specialize (IH Hs).
  destruct (rstrip g s) as [|d t]; [destruct (g c); simpl; by rewrite ?Hc|].
  simpl in *. by rewrite Hc, IH.
Qed.

Lemma all_chars_strip f g s : all_chars f s = true -> all_chars f (strip_by g s) = true.
Proof. intros. by apply all_chars_rstrip, all_chars_lstrip. Qed.

Lemma all_chars_str_or f a b : all_chars f a = true -> all_chars f b = true -> all_chars f (str_or a b) = true.
Proof. unfold str_or. by destruct (str_true a). Qed.

Lemma all_chars_smap f g s : (forall c, f c = true -> f (g c) = true) -> all_chars f s = true -> all_chars f (smap g s) = true.
Proof. intros Hg. induction s as [|c s IH]; simpl; [done|]. rewrite !andb_true_iff. naive_solver. Qed.

Lemma drop_chars_id f s : all_chars (fun c => negb (f c)) s = true -> drop_chars f s = s.
Proof.
  induction s as [|c s IH]; simpl; [done|]. intros [Hc Hs]%andb_true_iff. apply negb_true_iff in Hc.
  rewrite Hc. by rewrite IH.
Qed.

Lemma span_until_app f a c b :
  all_chars (fun c => negb (f c)) a = true -> f c = true -> span_until f (a +:+ String c b) = (a, String c b).
Proof.
  intros Ha Hc. induction a as [|d a IH]; simpl in *; [by rewrite Hc|].
  apply andb_true_iff in Ha as [Hd Ha]. apply negb_true_iff in Hd. by rewrite Hd, (IH Ha).
Qed.

Lemma span_until_none f a : all_chars (fun c => negb (f c)) a = true -> span_until f a = (a, "").
Proof.
  induction a as [|d a IH]; simpl; [done|]. intros [Hd Ha]%andb_true_iff. apply negb_true_iff in Hd.
  by rewrite Hd, (IH Ha).
Qed.

Lemma contains_all_chars d s : all_chars (fun c => negb (is_char d c)) s = true -> contains (String d "") s = false.
Proof.
  unfold is_char. induction s as [|c s IH]; simpl; [done|]. intros [Hc Hs]%andb_true_iff.
  apply negb_true_iff, bool_decide_eq_false in Hc. rewrite bool_decide_eq_false_2 by congruence. by apply IH.
Qed.

Lemma sanitize_runs_chars r s : all_chars file_char (sanitize_runs r s) = true.
Proof.
  revert r. induction s as [|c s IH]; intros r; simpl; [done|]. destruct (file_char c) eqn:Hc.
  - simpl. by rewrite Hc, IH.
  - destruct r; [apply IH|]. simpl. apply IH.
Qed.

(** Numbers are written with digits and a sign. *)
Definition numeral_char (c : ascii) : bool := is_digit c || is_char "-" c.
Lemma pretty_N_go_chars n s : all_chars numeral_char s = true -> all_chars numeral_char (pretty_N_go n s) = true.
Proof.
  revert s. induction n as [n IH] using (well_founded_induction N.lt_wf_0). intros s Hs.
  destruct (decide (n = 0%N)) as [->|Hn]; [by rewrite pretty_N_go_0|].
  rewrite pretty_N_go_step by lia. apply IH; [apply N.div_lt; lia|]. simpl. rewrite Hs, andb_true_r.
  generalize (n `mod` 10)%N. intros m. destruct m as [|p]; [done|]. do 4 (destruct p as [p|p|]; try done).
Qed.
Lemma str_int_chars z : all_chars numeral_char (str_int z) = true.
Proof.
  assert (Hn : forall n, all_chars numeral_char (pretty (N.pos n)) = true).
  { intros n. unfold pretty, pretty_N. rewrite decide_False by lia. by apply pretty_N_go_chars. }
  unfold str_int, pretty, pretty_Z. destruct z as [|n|n]; [done|apply Hn|]. simpl. apply Hn.
Qed.

(** ** Keys and URIs *)

(** Characters a bucket and a key keep through [urlparse]. *)
Definition key_char (c : ascii) : bool := negb (unsafe_url_char c || query_or_fragment c).
Definition bucket_char (c : ascii) : bool :=
  negb (unsafe_url_char c || delimiter c || is_char "[" c || is_char "]" c).
Definition safe_bucket (bucket : string) : Prop := str_true bucket = true /\ all_chars bucket_char bucket = true.
Definition safe_key (key : string) : Prop :=
  str_true key = true /\ all_chars key_char key = true /\ startswith "/" key = false.

Ltac chars := intros [[] [] [] [] [] [] [] []]; vm_compute; try reflexivity; intros; discriminate.

Lemma lstrip_id f s : match s with EmptyString => True | String c _ => f c = false end -> lstrip f s = s.
Proof. destruct s as [|c s]; [done|]. simpl. by intros ->. Qed.

Lemma key_no_slash key : startswith "/" key = false -> lstrip (is_char "/") key = key.
Proof.
  intros H. apply lstrip_id. destruct key as [|c key]; [done|]. simpl in H.
  rewrite andb_true_r in H. unfold is_char. apply bool_decide_eq_false in H. apply bool_decide_eq_false. congruence.
Qed.

Lemma split_scheme_s3 x : split_scheme ("s3://" +:+ x) = ("s3", "//" +:+ x).
Proof. reflexivity. Qed.
Lemma after_slashes x : startswith "//" ("//" +:+ x) = true /\ sdrop 2 ("//" +:+ x) = x.
Proof. split; [|reflexivity]. apply startswith_spec. by exists x. Qed.

(** Building a URI and reading it back. *)
Lemma build_parse bracketed_ok rid bucket key : safe_bucket bucket -> safe_key key ->
  build_s3_uri rid bucket key = Ok ("s3://" +:+ bucket +:+ "/" +:+ key) /\
  parse_s3_uri bracketed_ok rid ("s3://" +:+ bucket +:+ "/" +:+ key) = Ok (bucket, key).
Proof.
  intros [Hb Hbc] (Hk & Hkc & Hks). unfold build_s3_uri. rewrite Hb, Hk. cbn [negb orb].
  rewrite key_no_slash by done. split; [done|].
  assert (Hclean : clean_url ("s3://" +:+ bucket +:+ "/" +:+ key) = "s3://" +:+ bucket +:+ "/" +:+ key).
  { unfold clean_url. cbn [String.append lstrip]. replace (c0_or_space "s") with false by (by vm_compute).
    apply drop_chars_id. simpl. rewrite all_chars_app. apply andb_true_iff. split.
    - eapply all_chars_impl; [|exact Hbc]. chars.
    - simpl. eapply all_chars_impl; [|exact Hkc]. chars. }
  unfold parse_s3_uri, urlparse. rewrite Hclean, split_scheme_s3. cbv iota beta.
  destruct (after_slashes (bucket +:+ "/" +:+ key)) as [-> ->].
  change ("/" +:+ key) with (String "/" key).
  rewrite span_until_app; [|eapply all_chars_impl; [|exact Hbc]; chars|by vm_compute].
  cbv zeta. rewrite !contains_all_chars by (eapply all_chars_impl; [|exact Hbc]; chars). cbn [xorb andb].
  rewrite span_until_none; [|simpl; eapply all_chars_impl; [|exact Hkc]; chars].
  unfold mbind, result_bind. cbn [fst]. rewrite Hb. cbn [String.eqb Ascii.eqb Bool.eqb negb orb lstrip].
  replace (is_char "/" "/") with true by (by vm_compute). rewrite key_no_slash by done. by rewrite Hk.
Qed.

Lemma lstrip_head f s : match lstrip f s with EmptyString => True | String c _ => f c = false end.
Proof. induction s as [|c s IH]; simpl; [done|]. by destruct (f c) eqn:E. Qed.
Lemma rstrip_head f s c t : rstrip f s = String c t -> exists u, s = String c u.
Proof.
  destruct s as [|d s]; simpl; [done|]. destruct (rstrip f s); [destruct (f d)|]; intros [= <- _]; eauto.
Qed.
Lemma strip_no_slash s : startswith "/" (strip_by (is_char "/") s) = false.
Proof.
  destruct (strip_by (is_char "/") s) as [|c t] eqn:E; [done|]. apply rstrip_head in E as [u E].
  pose proof (lstrip_head (is_char "/") s) as H. rewrite E in H. simpl. rewrite andb_true_r.
  unfold is_char in H. apply bool_decide_eq_false in H. apply bool_decide_eq_false. congruence.
Qed.

Lemma clean_name_chars filename :
  all_chars file_char (clean_name filename) = true /\ str_true (clean_name filename) = true.
Proof.
  unfold clean_name. set (x := strip_by _ _). split.
  - apply all_chars_str_or; [|done]. apply all_chars_strip, sanitize_runs_chars.
  - unfold str_or. by destruct (str_true x) eqn:E.
Qed.

Lemma with_ext_chars name ext :
  all_chars file_char name = true -> all_chars file_char (default "" ext) = true -> str_true name = true ->
  all_chars file_char (with_ext name ext) = true /\ str_true (with_ext name ext) = true.
Proof.
  intros Hn He Ht. unfold with_ext. destruct ext as [e|]; [|done].
  destruct (str_true e && _); [|done]. rewrite !all_chars_app, Hn. split.
  - change (all_chars file_char e = true) in He. apply (all_chars_lstrip _ (is_char ".")) in He. by rewrite He.
  - apply str_true_spec. apply str_true_spec in Ht. by destruct name.
Qed.

Lemma year_month_chars y m : all_chars key_char (year_month y m) = true.
Proof.
  assert (Hz : forall z, all_chars key_char (str_int z) = true).
  { intros z. eapply all_chars_impl; [|apply str_int_chars]. chars. }
  unfold year_month, pad2. destruct (m <? 10)%Z; rewrite !all_chars_app, !Hz; by vm_compute.
Qed.

(** An object stored under a generated key is found again.  For any file
    name whatever (paths, control characters, dots, nothing at all), a prefix,
    extension and bucket without URL delimiters, the generated key has the
    form [folder/yyyy/mm/uuid__name] where [name] is a non-empty run of
    letters, digits, dot, dash and underscore, so an uploaded name can neither
    add a path segment nor end the URI; and the URI built from the key parses
    back to exactly that bucket and key. *)
Theorem generated_key_roundtrip bracketed_ok rid uuid4 y m prefix filename ext bucket
  (Hb : safe_bucket bucket) (Hp : all_chars key_char prefix = true) (Hu : all_chars key_char uuid4 = true)
  (He : all_chars file_char (default "" ext) = true) :
  let key := generate_object_key uuid4 y m prefix filename ext in
  (exists folder name, key = folder +:+ "/" +:+ year_month y m +:+ "/" +:+ uuid4 +:+ "__" +:+ name /\
     all_chars file_char name = true /\ name <> "" /\ startswith "/" folder = false) /\
  (exists uri, build_s3_uri rid bucket key = Ok uri /\ parse_s3_uri bracketed_ok rid uri = Ok (bucket, key)).
Proof.
  intros key. destruct (clean_name_chars filename) as [Hn Hnt].
  destruct (with_ext_chars _ ext Hn He Hnt) as [Hx Hxt].
  set (folder := str_or (strip_by (is_char "/") prefix) "assets").
  assert (Hf : str_true folder = true /\ startswith "/" folder = false /\ all_chars key_char folder = true).
  { unfold folder, str_or. destruct (str_true (strip_by (is_char "/") prefix)) eqn:E; [|done].
    split_and!; [done|apply strip_no_slash|by apply all_chars_strip]. }
  destruct Hf as (Hft & Hfs & Hfc). split.
  - exists folder, (with_ext (clean_name filename) ext). split_and!; [done|done| |done].
    by apply str_true_spec.
  - eexists. apply build_parse; [done|]. unfold key, generate_object_key. fold folder. split_and!.
    + apply str_true_spec. apply str_true_spec in Hft. by destruct folder.
    + rewrite !all_chars_app, Hfc, year_month_chars, Hu. simpl. eapply all_chars_impl; [|exact Hx]. chars.
    + clear -Hft Hfs. destruct folder as [|c f]; [done|]. simpl in *. by destruct (bool_decide _).
Qed.

(** Outside those conditions the URI names another object: the query mark
    and the hash end the key, and an extension is used as it is given. *)
Lemma uri_loses_query bracketed_ok rid :
  build_s3_uri rid "b" "a?x#y" = Ok "s3://b/a?x#y" /\ parse_s3_uri bracketed_ok rid "s3://b/a?x#y" = Ok ("b", "a").
Proof. split; reflexivity. Qed.
Lemma ext_adds_segments : with_ext "report" (Some "pdf/../../x") = "report.pdf/../../x".
Proof. reflexivity. Qed.

(** ** What callers see of the store *)
Section store.
Context (bracketed_ok : string -> bool) (rid : option string) {St : Type}.
Context (get_aws_client : act St boto unit).
Context (get_object : string -> string -> act St boto s3_response) (get_body : s3_response -> act St boto string).
Context (put_object : string -> string -> string -> string -> act St boto unit).
Context (delete_object : string -> string -> act St boto unit) (head_object : string -> string -> act St boto s3_response).
Context (json_loads : string -> result string pyval) (json_dumps : pyval -> result py_exn string)
        (decode_utf8 encode_utf8 : string -> result py_exn string).
Context (cfg : san_config).

(** The bodies read off the wire so far. *)
Context (reads : St -> list string).

(** A thread's client is there; an object just put can be fetched, fetching
    answers with its headers and a stream, and it is reading the stream that
    transfers the body. *)
Class S3Store : Prop := {
  client_ready st : get_aws_client st = (Ok tt, st);
  put_get b k body ct st st' : put_object b k body ct st = (Ok tt, st') ->
    exists r st2 st3, get_object b k st' = (Ok r, st2) /\ ContentLength r = Some (Z.of_nat (slen body)) /\
      ContentType r = Some ct /\ get_body r st2 = (Ok body, st3) /\
      reads st2 = reads st' /\ reads st3 = reads st2 ++ [body];
}.
Context `{!S3Store}.

#[local] Abbreviation upload := (upload_json_to_s3 rid get_aws_client put_object json_dumps encode_utf8 cfg).
#[local] Abbreviation fetch_json := (fetch_json_from_s3 bracketed_ok rid get_aws_client get_object get_body json_loads decode_utf8 cfg).
#[local] Abbreviation fetch_bytes := (fetch_bytes_from_s3 bracketed_ok rid get_aws_client get_object get_body cfg).
#[local] Abbreviation exists_ := (object_exists bracketed_ok rid get_aws_client head_object cfg).
#[local] Abbreviation delete := (delete_s3_object bracketed_ok rid get_aws_client delete_object cfg).

(** C38: stored data comes back, and nothing oversized is read.  Uploading a
    value as JSON to a safe bucket and key gives a URI; fetching that URI
    gives the value the codecs make of it, as long as the stored bytes fit the
    limit, and reads the body once; beyond the limit both readers raise
    [S3Exception] without a log record, and no body has been read. *)
Theorem stored_json_roundtrip data text bytes data' bucket key st st1 logs
  (Hb : safe_bucket bucket) (Hk : safe_key key)
  (Hd : json_dumps data = Ok text) (He : encode_utf8 text = Ok bytes) (Hde : decode_utf8 bytes = Ok text)
  (Hl : json_loads text = Ok data') (Hput : put_object bucket key bytes "application/json" st = (Ok tt, st1)) :
  exists uri, upload data bucket key (st, logs) = (Ok uri, (st1, logs)) /\
  forall max_size,
    let fits := (Z.of_nat (slen bytes) <=? max_size)%Z in
    let refusal := infra rid S3Exception ("S3 object too large (" +:+ str_int (Z.of_nat (slen bytes)) +:+ " bytes, max " +:+
                     str_int max_size +:+ "): " +:+ at_ bucket key) in
    exists st2, reads st2 = reads st1 ++ (if fits then [bytes] else []) /\
      fetch_json uri max_size (st1, logs) = (if fits then Ok data' else Raise refusal, (st2, logs)) /\
      fetch_bytes uri max_size (st1, logs) =
        (if fits then Ok (bytes, "application/json") else Raise refusal, (st2, logs)).
Proof.
  destruct (build_parse bracketed_ok rid bucket key Hb Hk) as [Hbuild Hparse].
  destruct (put_get _ _ _ _ _ _ Hput) as (r & st2 & st3 & Hget & Hlen & Hct & Hbody & Hr2 & Hr3).
  eexists. split.
  - unfold upload_json_to_s3, mbind, act_bind, lift_result, _s3_call. rewrite Hd. cbn [fst snd].
    rewrite client_ready, He, Hput. cbn [fst snd]. by rewrite Hbuild.
  - intros max_size. cbv zeta.
    assert (Hf : fetch_within rid get_aws_client get_object get_body bucket key max_size st1 =
      if (Z.of_nat (slen bytes) <=? max_size)%Z then (Ok (r, bytes), st3)
      else (Raise (too_large rid (Z.of_nat (slen bytes)) max_size bucket key), st2)).
    { unfold fetch_within, mbind, act_bind. rewrite client_ready, Hget, Hlen.
      change (default 0%Z (Some (Z.of_nat (slen bytes)))) with (Z.of_nat (slen bytes)). rewrite Z.ltb_antisym.
      destruct (Z.of_nat (slen bytes) <=? max_size)%Z; cbn [negb]; cbv beta iota; [by rewrite Hbody|done]. }
    exists (if (Z.of_nat (slen bytes) <=? max_size)%Z then st3 else st2).
    unfold fetch_json_from_s3, fetch_bytes_from_s3, mbind, act_bind, lift_result, _s3_call. rewrite Hparse.
    cbn [fst snd]. rewrite Hf. destruct (Z.of_nat (slen bytes) <=? max_size)%Z; cbn [fst snd].
    + rewrite Hde. unfold mret, act_ret. rewrite Hl, Hct, Hr3, Hr2. done.
    + by rewrite Hr2, app_nil_r.
Qed.

(** What the translation makes of the client's outcome. *)
Lemma s3_call_spec {A} op bucket key (m : act St boto A) st logs r st' : m st = (r, st') ->
  _s3_call rid cfg op bucket key m (st, logs) =
  match r with
  | Ok a => (Ok a, (st', logs))
  | Raise (Other e) => (Raise e, (st', logs))
  | Raise (ClientError code text) =>
      if str_in code not_found_codes
      then (Raise (infra rid S3NotFoundError ("S3 object not found: " +:+ at_ bucket key)), (st', logs))
      else (Raise (infra rid S3Exception ("S3 " +:+ op +:+ " failed for " +:+ at_ bucket key)),
            (st', logs ++ [LogRecord ERROR "S3 %s failed" [VStr op] (safe_extra cfg
               [("operation", VStr op); ("bucket", VStr bucket); ("key", VStr key); ("error", VStr text)]) true]))
  | Raise (BotoCoreError text) =>
      (Raise (infra rid S3Exception ("S3 " +:+ op +:+ " failed for " +:+ at_ bucket key)),
       (st', logs ++ [LogRecord ERROR "S3 %s failed" [VStr op] (safe_extra cfg
          [("operation", VStr op); ("bucket", VStr bucket); ("key", VStr key); ("error", VStr text)]) true]))
  end.
Proof.
  intros Hm. unfold _s3_call. cbn [fst snd]. rewrite Hm.
  destruct r as [a|[code text|text|e]]; [done| | |done];
    [destruct (str_in code not_found_codes); [done|]|];
    unfold mbind, act_bind, s3_failed, logged; cbn [fst snd];
    rewrite emit_safe by (apply (bool_decide_unpack _); by vm_compute); reflexivity.
Qed.

Lemma not_found_class msg : is_not_found (infra rid S3NotFoundError msg) = true.
Proof. vm_compute. reflexivity. Qed.
Lemma failed_class msg : is_not_found (infra rid S3Exception msg) = false.
Proof. vm_compute. reflexivity. Qed.

(** Is the outcome of a call the report that the object is missing? *)
Definition missing {A} (r : result boto A) : bool :=
  match r with Raise (ClientError code _) => str_in code not_found_codes | _ => false end.

(** A missing object is an answer, not a failure.  On a URI that parses,
    [object_exists] is true when the store has the object, false when the
    store says it is missing, and raises [S3Exception], with one ERROR record,
    on any other client error; [delete_s3_object] succeeds both when the
    object was there and when it was already gone. *)
Theorem missing_object_handled uri bucket key st logs (Hp : parse_s3_uri bracketed_ok rid uri = Ok (bucket, key)) :
  (forall r st', head_object bucket key st = (r, st') -> (forall e, r = Raise (Other e) -> is_not_found e = false) ->
     match exists_ uri (st, logs) with
     | (Ok b, (st2, logs2)) => b = returns r /\ (returns r = true \/ missing r = true) /\ st2 = st' /\ logs2 = logs
     | (Raise e, (st2, logs2)) => returns r = false /\ missing r = false /\ st2 = st' /\
         ((forall e0, r <> Raise (Other e0)) ->
            e = infra rid S3Exception ("S3 head failed for " +:+ at_ bucket key) /\ length logs2 = S (length logs))
     end) /\
  (forall r st', delete_object bucket key st = (r, st') -> returns r = true \/ missing r = true ->
     exists logs2, delete uri (st, logs) = (Ok tt, (st', logs2))).
Proof.
  split.
  - intros r st' Hr Hno.
    assert (Hm : (get_aws_client ≫= fun _ => response ← head_object bucket key;
       mret [("size", opt_z (ContentLength response)); ("content_type", opt_s (ContentType response));
             ("etag", VStr (strip_by (is_char dquote) (default "" (ETag response))));
             ("last_modified", LastModified response)]) st =
      (match r with Ok resp => Ok [("size", opt_z (ContentLength resp)); ("content_type", opt_s (ContentType resp));
             ("etag", VStr (strip_by (is_char dquote) (default "" (ETag resp))));
             ("last_modified", LastModified resp)] | Raise e => Raise e end, st')).
    { unfold mbind, act_bind. rewrite client_ready, Hr. by destruct r. }
    unfold object_exists, catch_not_found, head_s3_object. unfold mbind at 1 2, act_bind at 1 2, lift_result.
    rewrite Hp. rewrite (s3_call_spec _ _ _ _ _ _ _ _ Hm). destruct r as [resp|[code text|text|e]].
    + cbn. auto.
    + destruct (str_in code not_found_codes) eqn:Ec; [rewrite not_found_class|rewrite failed_class];
        cbn [returns missing mret act_ret]; rewrite ?Ec; [by split_and!; auto|].
      split_and!; try done. intros _. by rewrite length_app; cbn [length]; rewrite Nat.add_1_r.
    + rewrite failed_class. split_and!; try done. intros _. by rewrite length_app; cbn [length]; rewrite Nat.add_1_r.
    + rewrite (Hno e eq_refl). split_and!; try done. intros Hne. by destruct (Hne e).
  - intros r st' Hr Hok.
    assert (Hm : (get_aws_client ≫= fun _ => delete_object bucket key) st = (r, st')).
    { unfold mbind, act_bind. by rewrite client_ready. }
    unfold delete_s3_object, catch_not_found. unfold mbind at 1, act_bind at 1, lift_result.
    rewrite Hp, (s3_call_spec _ _ _ _ _ _ _ _ Hm). destruct r as [[]|[code text|text|e]].
    + by eexists.
    + destruct Hok as [Hok|Hok]; [done|]. cbn in Hok. rewrite Hok, not_found_class.
      unfold logged. cbn [fst snd]. rewrite emit_safe by (apply (bool_decide_unpack _); by vm_compute). by eexists.
    + by destruct Hok.
    + by destruct Hok.
Qed.
End store.

(** ** Witnesses: a store in memory, and the bodies read *)
Record mem := Mem { mem_objects : list ((string * string) * (string * string)); mem_reads : list string }.
Definition mem_client : act mem boto unit := fun st => (Ok tt, st).
Definition mem_get (b k : string) : act mem boto s3_response := fun st =>
  (match od_get (b, k) (mem_objects st) with
   | Some (body, ct) => Ok (S3Response (Some (Z.of_nat (slen body))) (Some ct) None VNone body)
   | None => Raise (ClientError "NoSuchKey" "")
   end, st).
Definition mem_body (r : s3_response) : act mem boto string := fun st =>
  (Ok (Body r), Mem (mem_objects st) (mem_reads st ++ [Body r])).
Definition mem_put (b k body ct : string) : act mem boto unit := fun st =>
  (Ok tt, Mem (od_set (b, k) (body, ct) (mem_objects st)) (mem_reads st)).
Definition mem_delete (b k : string) : act mem boto unit := fun st =>
  (Ok tt, Mem (od_del (b, k) (mem_objects st)) (mem_reads st)).
Definition plain_cfg : san_config := _DEFAULTS.

#[export] Instance mem_store : S3Store mem_client mem_get mem_body mem_put mem_reads.
Proof.
  split; [done|]. intros b k body ct st st' [= <-]. unfold mem_get. cbn [mem_objects]. rewrite od_get_set_eq.
  do 3 eexists. by split_and!.
Qed.

Lemma generated_key_roundtrip_witness :
  exists uri, build_s3_uri None "files" (generate_object_key "9f1c" 2026 4 "uat/" "../../etc/pass wd?.pdf" (Some "pdf")) = Ok uri /\
    parse_s3_uri (fun _ => true) None uri = Ok ("files", "uat/2026/04/9f1c__pass-wd-.pdf").
Proof.
  destruct (generated_key_roundtrip (fun _ => true) None "9f1c" 2026 4 "uat/" "../../etc/pass wd?.pdf" (Some "pdf") "files")
    as (_ & uri & Hb & Hp); [by split|done..|]. exists uri. split; [exact Hb|exact Hp].
Defined.

Lemma stored_json_roundtrip_witness :
  let st := Mem [(("b", "k"), ("7", "application/json"))] [] in
  exists uri st2, fetch_json_from_s3 (fun _ => true) None mem_client mem_get mem_body (fun _ => Ok (VInt 7)) (fun s => Ok s)
    plain_cfg uri 10 (st, []) = (Ok (VInt 7), (st2, [])) /\ mem_reads st2 = ["7"].
Proof.
  destruct (stored_json_roundtrip (fun _ => true) None mem_client mem_get mem_body mem_put (fun _ => Ok (VInt 7))
    (fun _ => Ok "7") (fun s => Ok s) (fun s => Ok s) plain_cfg mem_reads (VInt 7) "7" "7" (VInt 7) "b" "k" (Mem [] [])
    (Mem [(("b", "k"), ("7", "application/json"))] []) []) as (uri & _ & H); [by split|by split_and!|done..|].
  exists uri. destruct (H 10%Z) as (st2 & Hr & Hj & _). exists st2. split; [exact Hj|exact Hr].
Defined.

Lemma missing_object_handled_witness : exists logs,
  delete_s3_object (fun _ => true) None mem_client mem_delete plain_cfg "s3://b/k" (Mem [] [], []) =
  (Ok tt, (Mem [] [], logs)).
Proof.
  destruct (missing_object_handled (fun _ => true) None mem_client mem_get mem_body mem_put mem_delete mem_get plain_cfg
    mem_reads "s3://b/k" "b" "k" (Mem [] []) []) as [_ H]; [vm_compute; reflexivity|].
  destruct (H (Ok tt) (Mem [] [])) as [logs Hl]; [reflexivity|by left|]. exists logs. exact Hl.
Defined.
