(* ===== verification/Mail.v ===== *)
(** * Outgoing mail

    [core/utils/ses.py]: the message that is built, the recipients it is
    sent to, and the sorting of client errors into retryable and permanent
    ones.  Rendering a message, the clock, the UUID, MIME-type guessing and
    the SES client are parameters; the retries of [@resilient] are the kit's. *)
From stdpp Require Import base list gmap strings pretty numbers.
From Stdlib Require Import Ascii Lia ZArith.
From S2P Require Import Prelude PyStr PyVal Exceptions LogSanitize Metrics S3.

Definition _SES_TRANSIENT_ERROR_CODES : list string :=
  ["Throttling"; "ThrottlingException"; "RequestLimitExceeded"; "TooManyRequestsException"; "ServiceUnavailable";
   "ServiceUnavailableException"; "InternalFailure"; "InternalServerError"; "RequestExpired"; "RequestTimeout";
   "RequestTimeoutException"].

(** [None] makes [get_aws_client] fall back to [AWS_REGION]. *)
Definition _ses_region (setting : option string) : option string :=
  match setting with Some r => if str_true r then Some r else None | None => None end.

Definition _sender_domain (sender : string) : string :=
  if contains "@" sender then str_or (strip (after_last "@" sender)) "localhost" else "localhost".
Definition _generate_message_id (uuid4_hex sender : string) : string :=
  "<" +:+ uuid4_hex +:+ "@" +:+ _sender_domain sender +:+ ">".

Record EmailAttachment := Attachment { at_filename : string; at_content_type : string; at_data : string }.

(** A MIME part with its subtype and the disposition's file name. *)
Inductive mime_part :=
| MIMEImage (data subtype filename : string)
| MIMEText (text subtype filename : string)
| MIMEApplication (data subtype filename : string).

(** The message: the HTML body, the parts that follow it in a
    [multipart/mixed] envelope ([None] for a bare HTML message), and the
    headers the code sets, in order. *)
Record message := Message {
  m_html : string;
  m_parts : option (list mime_part);
  m_headers : list (string * string);
}.

Record email := Email {
  recipient_emails : list string;
  subject : string;
  body_html : string;
  sender_email : option string;
  cc_emails : list string;
  bcc_emails : list string;
  in_reply_to : option string;
  references : list string;
  attachments : list EmailAttachment;
}.

Section mail.
Context (guess_extension : string -> option string) (decode_replace : string -> string).
Context (as_string : message -> result py_exn string).
Context (rid : option string) (cfg : san_config).
(** [send_raw_email(Source, Destinations, RawMessage)] of the client for a
    region: the [MessageId] of the response, if it has one. *)
Context (send_raw_email : option string -> string -> list string -> string -> result boto (option string)).

Definition _build_attachment_part (att : EmailAttachment) : mime_part :=
  let '(main, rest) := cut_char "/" (at_content_type att) in
  let sub := default "" rest in
  if String.eqb main "image" && str_true sub then MIMEImage (at_data att) sub (at_filename att)
  else if String.eqb main "text" then MIMEText (decode_replace (at_data att)) (str_or sub "plain") (at_filename att)
  else
    let sub' := str_or sub (str_or (default "" (guess_extension (at_content_type att))) "octet-stream") in
    MIMEApplication (at_data att) (lstrip (is_char ".") sub') (at_filename att).

Definition _classify_client_error (code text : string) : py_exn :=
  if str_in code _SES_TRANSIENT_ERROR_CODES
  then infra rid TransientError ("SES transient failure (" +:+ code +:+ "): " +:+ text)
  else infra rid SESException ("SES request failed (" +:+ str_or code "Unknown" +:+ "): " +:+ text).

(** [chain]: the references, ending with the message replied to unless they
    have it already. *)
Definition reference_chain (references : list string) (in_reply_to : string) : list string :=
  if str_in in_reply_to references then references else references ++ [in_reply_to].
Definition threaded (e : email) : option string :=
  match in_reply_to e with Some m => if str_true m then Some m else None | None => None end.

Definition build_message (e : email) (sender date message_id_header : string) : message :=
  Message (body_html e)
    (match attachments e with [] => None | l => Some (_build_attachment_part <$> l) end)
    ([("Subject", subject e); ("From", sender); ("To", join ", " (recipient_emails e))] ++
     match cc_emails e with [] => [] | cc => [("Cc", join ", " cc)] end ++
     [("Date", date); ("Message-ID", message_id_header)] ++
     match threaded e with
     | Some m => [("In-Reply-To", m); ("References", join " " (reference_chain (references e) m))]
     | None => []
     end).

Definition envelope_recipients (e : email) : list string := recipient_emails e ++ cc_emails e ++ bcc_emails e.
Definition len_val {A} (l : list A) : pyval := VInt (Z.of_nat (length l)).
Definition nonempty {A} (l : list A) : pyval := VBool (bool_decide (l <> [])).

(** The client call, with its errors translated. *)
Definition ses_call (e : email) (region : option string) (sender : string) (msg : message) : L (option string) :=
  match as_string msg with
  | Raise x => raise x
  | Ok raw =>
      match send_raw_email region sender (envelope_recipients e) raw with
      | Ok message_id => mret message_id
      | Raise (ClientError code text) =>
          emit ERROR "Failed to send email via SES" []
            (safe_extra cfg [("recipient_count", len_val (recipient_emails e)); ("subject", VStr (subject e));
                             ("error", VStr text); ("error_code", VStr code)]) true ≫= fun _ =>
          raise (_classify_client_error code text)
      | Raise (BotoCoreError text) =>
          emit ERROR "Transient SES failure" []
            (safe_extra cfg [("recipient_count", len_val (recipient_emails e)); ("subject", VStr (subject e));
                             ("error", VStr text)]) true ≫= fun _ =>
          raise (infra rid TransientError ("SES transport failure: " +:+ text))
      | Raise (Other x) => raise x
      end
  end.

Record sent := Sent { message_id : string; message_id_hdr : string; response : option string }.

Definition send_email (to_ms : Z -> Z -> pyval) (ses_sender ses_region : option string) (uuid4_hex date : string)
    (start stop : Z) (e : email) : L sent :=
  let sender := str_or (default "" (sender_email e)) (default "" ses_sender) in
  if negb (str_true sender)
  then raise (infra rid SESException "No sender email configured. Set SES_SENDER_EMAIL or pass sender_email.")
  else
    let message_id_header := _generate_message_id uuid4_hex sender in
    let msg := build_message e sender date message_id_header in
    emit INFO "Sending email via SES" []
      (safe_extra cfg
         [("recipient_count", len_val (recipient_emails e)); ("has_cc", nonempty (cc_emails e));
          ("has_bcc", nonempty (bcc_emails e)); ("attachment_count", len_val (attachments e));
          ("subject", VStr (subject e)); ("sender", VStr sender);
          ("threaded", VBool (match threaded e with Some _ => true | None => false end));
          ("message_id_header", VStr message_id_header)]) false ≫= fun _ =>
    response ← log_duration to_ms "ses_send_email" true
      [("recipient_count", len_val (recipient_emails e)); ("attachment_count", len_val (attachments e))] start stop
      (ses_call e (_ses_region ses_region) sender msg);
    let ses_message_id := default "" response in
    emit INFO "Email sent via SES" []
      (safe_extra cfg
         [("ses_message_id", VStr ses_message_id); ("message_id_header", VStr message_id_header);
          ("recipient_count", len_val (recipient_emails e)); ("subject", VStr (subject e))]) false ≫= fun _ =>
    mret (Sent ses_message_id message_id_header response).

(** ** What is sent, and what the caller sees *)

(** What a client error becomes. *)
Definition translated (b : boto) : py_exn :=
  match b with
  | ClientError code text => _classify_client_error code text
  | BotoCoreError text => infra rid TransientError ("SES transport failure: " +:+ text)
  | Other x => x
  end.

Lemma ses_call_spec e region sender msg raw logs : as_string msg = Ok raw ->
  exists logs', ses_call e region sender msg logs =
    (match send_raw_email region sender (envelope_recipients e) raw with
     | Ok m => Ok m
     | Raise b => Raise (translated b)
     end, logs ++ logs').
Proof.
  intros Hs. unfold ses_call. rewrite Hs.
  destruct (send_raw_email _ _ _ _) as [m|[code text|text|x]]; unfold mbind, act_bind;
    rewrite ?emit_safe by (apply (bool_decide_unpack _); by vm_compute); try (by eexists);
    exists []; by rewrite app_nil_r.
Qed.

Lemma transient_retried code text :
  (exists x, _classify_client_error code text = Custom x /\
     e_class x = if str_in code _SES_TRANSIENT_ERROR_CODES then TransientError else SESException).
Proof. unfold _classify_client_error. destruct (str_in _ _); by eexists. Qed.

(** One message, to exactly its recipients, or the right error.  With a
    sender configured and a message that renders, [send_email] makes one client
    call, to the To, Cc and Bcc addresses together; no header is named Bcc
    and the recipients named in the headers are the To and Cc lists only; the
    identifier returned is the Message-ID header; a reply carries the earlier
    references in order and the message replied to exactly once more if it
    was not among them.  A client error surfaces as [TransientError], which is
    retried, exactly for the throttling and internal codes and for transport
    failures, and as [SESException] otherwise; without a sender nothing is
    sent. *)
Theorem mail_sent_exact to_ms ses_sender ses_region uuid4_hex date start stop e logs :
  let sender := str_or (default "" (sender_email e)) (default "" ses_sender) in
  let hdr := _generate_message_id uuid4_hex sender in
  let msg := build_message e sender date hdr in
  let run := send_email to_ms ses_sender ses_region uuid4_hex date start stop e in
  (sender = "" -> exists x, run logs = (Raise (Custom x), logs) /\ e_class x = SESException) /\
  (forall raw, sender <> "" -> as_string msg = Ok raw ->
     exists logs', run logs =
       (match send_raw_email (_ses_region ses_region) sender (recipient_emails e ++ cc_emails e ++ bcc_emails e) raw with
        | Ok m => Ok (Sent (default "" m) hdr m)
        | Raise b => Raise (translated b)
        end, logs')) /\
  "Bcc" ∉ (m_headers msg).*1 /\
  od_get "To" (m_headers msg) = Some (join ", " (recipient_emails e)) /\
  (cc_emails e <> [] -> od_get "Cc" (m_headers msg) = Some (join ", " (cc_emails e))) /\
  od_get "Message-ID" (m_headers msg) = Some hdr /\
  (forall m, threaded e = Some m ->
     od_get "In-Reply-To" (m_headers msg) = Some m /\
     exists chain, od_get "References" (m_headers msg) = Some (join " " chain) /\ m ∈ chain /\
       (chain = references e \/ (chain = references e ++ [m] /\ m ∉ references e))) /\
  length (default [] (m_parts msg)) = length (attachments e).
Proof.
  intros sender hdr msg run. split; [|split].
  - intros Hs. unfold run, send_email. fold sender. rewrite Hs. cbn. by eexists.
  - intros raw Hs Hraw. unfold run, send_email. fold sender.
    rewrite (proj2 (str_true_spec sender) Hs). cbn [negb]. fold hdr msg. unfold mbind, act_bind.
    rewrite emit_safe by (apply (bool_decide_unpack _); by vm_compute).
    match goal with |- context [log_duration to_ms ?ev true ?ex start stop ?body ?l] =>
      destruct (ses_call_spec e (_ses_region ses_region) sender msg raw l Hraw) as [logs1 Hcall];
      destruct (log_duration_outcome to_ms ev true ex start stop body l _ _ Hcall) as (sample & Hd & _);
        [apply (bool_decide_unpack _); by vm_compute..|intros _; apply (bool_decide_unpack _); by vm_compute|]
    end.
    rewrite Hd. unfold envelope_recipients in *.
    destruct (send_raw_email _ _ _ _) as [m|b]; [|by eexists].
    rewrite emit_safe by (apply (bool_decide_unpack _); by vm_compute). by eexists.
  - unfold msg, build_message. cbn [m_headers m_parts]. split_and!.
    + rewrite !fmap_app. destruct (cc_emails e); destruct (threaded e); apply (bool_decide_unpack _); by vm_compute.
    + by destruct (cc_emails e).
    + by destruct (cc_emails e).
    + by destruct (cc_emails e).
    + intros m Hm. rewrite Hm. split; [by destruct (cc_emails e)|].
      exists (reference_chain (references e) m). split; [by destruct (cc_emails e)|].
      unfold reference_chain. destruct (str_in m (references e)) eqn:Hin.
      * apply str_in_spec in Hin. auto.
      * split; [apply elem_of_app; right; left|right]. split; [done|]. intros Hx%str_in_spec. congruence.
    + destruct (attachments e) as [|a l]; [done|]. cbn. by rewrite length_fmap.
Qed.
End mail.

(** ** Witness *)
Definition sample_mail : email :=
  Email ["a@x"] "Hello" "<p>" None ["c@x"] ["hidden@x"] (Some "<m1@x>") ["<m0@x>"] [].
Lemma mail_sent_exact_witness : exists logs',
  send_email (fun _ => None) (fun s => s) (fun _ => Ok "raw") None _DEFAULTS (fun _ _ _ _ => Raise (ClientError "Throttling" "slow"))
    (fun _ _ => VInt 1) (Some "from@x") None "u" "d" 0 1 sample_mail [] =
  (Raise (infra None TransientError "SES transient failure (Throttling): slow"), logs').
Proof.
  destruct (mail_sent_exact (fun _ => None) (fun s => s) (fun _ => Ok "raw") None _DEFAULTS
    (fun _ _ _ _ => Raise (ClientError "Throttling" "slow")) (fun _ _ => VInt 1) (Some "from@x") None "u" "d" 0 1
    sample_mail []) as (_ & H & _).
  destruct (H "raw") as [logs' Hl]; [done|reflexivity|]. exists logs'. exact Hl.
Defined.
