(* ===== verification/Database.v ===== *)
(** * External databases and the cache client

    [core/utils/db.py]: the row set, the URL builder, the engine cache with
    its double-checked lock under every interleaving of threads, queries and
    the probe; and [core/utils/valkey.py].  SQLAlchemy, SHA-256 and the cache
    backends are parameters. *)
From stdpp Require Import base list gmap strings pretty numbers.
From Stdlib Require Import Ascii Lia ZArith.
From S2P Require Import Prelude PyStr PyVal Exceptions Metrics.

(** ** [SqlRowSet] *)

Record SqlRowSet := RowSet { rows : list (list pyval); columns : list string; rowcount : Z }.

(** [dict(zip(self.columns, row, strict=False))] *)
Definition row_object (columns : list string) (row : list pyval) : list (string * pyval) :=
  od_update [] (zip columns row).
Definition objects (r : SqlRowSet) : list (list (string * pyval)) := row_object (columns r) <$> rows r.
Definition first (r : SqlRowSet) : option (list (string * pyval)) := row_object (columns r) <$> (rows r !! 0).
(** [rows[0][0]]: an [IndexError] on a row without columns. *)
Definition scalar (r : SqlRowSet) : result py_exn pyval :=
  match rows r with
  | [] => Ok VNone
  | row :: _ => match row with v :: _ => Ok v | [] => Raise (Builtin "IndexError" "tuple index out of range") end
  end.
Definition rowset_len (r : SqlRowSet) : Z := Z.of_nat (length (rows r)).
Definition rowset_bool (r : SqlRowSet) : bool := (0 <? rowset_len r)%Z.

Lemma first_of_objects r : first r = objects r !! 0.
Proof. unfold first, objects. by rewrite list_lookup_fmap. Qed.

(** ** [build_url] *)
Section url.
(** [make_url(s).render_as_string(hide_password=False)]. *)
Context (render : string -> result py_exn string).

Definition db_setting (settings : list (string * pyval)) (k : string) (dflt : pyval) : pyval :=
  default dflt (od_get k settings).
Definition or_val (a b : pyval) : pyval := if truthy a then a else b.
(** [int(v)] of a port. *)
Definition int_of (v : pyval) : result py_exn Z :=
  match v with
  | VInt z => Ok z
  | VBool b => Ok (if b then 1 else 0)%Z
  | VStr s => match parse_int s with
              | Some z => Ok z
              | None => Raise (Builtin "ValueError" ("invalid literal for int() with base 10: " +:+ repr_str s))
              end
  | _ => Raise (Builtin "TypeError" "int() argument must be a string or a number")
  end.
Definition text_of (v : pyval) : string := default "" (py_str v).

Definition build_url (db_settings : list (string * pyval)) (host : pyval) (port : pyval) (name user password : pyval)
    (driver : string) : result py_exn string :=
  let host := or_val host (db_setting db_settings "HOST" (VStr "localhost")) in
  p ← int_of (or_val port (db_setting db_settings "PORT" (VInt 5432)));
  let name := or_val name (db_setting db_settings "NAME" (VStr "")) in
  let user := or_val user (db_setting db_settings "USER" (VStr "")) in
  let password := or_val password (db_setting db_settings "PASSWORD" (VStr "")) in
  render (driver +:+ "://" +:+ text_of user +:+ ":" +:+ text_of password +:+ "@" +:+ text_of host +:+ ":" +:+
          str_int p +:+ "/" +:+ text_of name).

(** Called without a port, as its documentation shows, the configured port is
    never used: the parameter's default is already truthy. *)
Lemma build_url_ignores_port settings host name user password driver :
  build_url settings host (VInt 5432) name user password driver =
  build_url (od_set "PORT" (VInt 1) settings) host (VInt 5432) name user password driver.
Proof.
  unfold build_url, db_setting. rewrite !od_get_set_ne by done. reflexivity.
Qed.
End url.

(** ** Queries *)
Section queries.
(** A connection's [execute] gives the rows, the columns and the count;
    [commit] may raise.  [S] is the database. *)
Context {S : Type} (execute : string -> pyval -> act S py_exn (list (list pyval) * list string * Z))
        (commit : act S py_exn unit).

Definition _WRITE_PREFIXES : list string := ["INSERT"; "UPDATE"; "DELETE"; "CREATE"; "DROP"; "ALTER"; "TRUNCATE"].
Definition is_write (sql : string) : bool := existsb (fun p => startswith p (upper (strip sql))) _WRITE_PREFIXES.

(** The transaction a connection opens is rolled back when it is closed
    without a commit: [st] is restored. *)
Definition execute_query (sql : string) (params : pyval) : act S py_exn SqlRowSet := fun st =>
  match execute sql (or_val params (VDict [])) st with
  | (Raise e, _) => (Raise e, st)
  | (Ok (rs, cols, n), st1) =>
      if is_write sql
      then match commit st1 with
           | (Ok _, st2) => (Ok (RowSet [] [] n), st2)
           | (Raise e, _) => (Raise e, st)
           end
      else (Ok (RowSet rs cols n), st)
  end.

(** [ping_engine]: false, and one ERROR record, on any [Exception]. *)
Definition ping_engine (select_1 : result py_exn unit) : L bool :=
  except (lift_result select_1 ≫= fun _ => mret true)
    (fun _ => emit ERROR "Engine connectivity probe failed" [] [] true ≫= fun _ => mret false).

Lemma read_leaves_database sql params st : is_write sql = false -> (execute_query sql params st).2 = st.
Proof.
  intros H. unfold execute_query. destruct (execute _ _ st) as [[[[rs cols] n]|e] st1]; [|done]. by rewrite H.
Qed.
End queries.

(** A statement that writes behind a leading [WITH] is not committed. *)
Lemma cte_write_not_committed : is_write "WITH x AS (SELECT 1) INSERT INTO t SELECT * FROM x" = false.
Proof. vm_compute. reflexivity. Qed.

(** ** [core/utils/valkey.py] *)
Section valkey.
(** What the code looks at of a cache backend: the result of
    [cache.client.get_client()] when it has [client], and of
    [cache._cache.get_client()] when it has [_cache]. *)
Context {Client : Type}.
Record cache_backend := CacheBackend {
  cb_type : string;
  cb_client : option (result py_exn Client);
  cb_cache : option (result py_exn Client);
}.
Definition attribute_error (e : py_exn) : bool := match e with Builtin c _ => String.eqb c "AttributeError" | _ => false end.
Definition get_valkey_client (cache_alias : string) (cache : cache_backend) : result py_exn Client :=
  let missing : result py_exn Client := Raise (Builtin "AttributeError"
    ("Cannot get Valkey client from cache backend '" +:+ cache_alias +:+ "' (type: " +:+ cb_type cache +:+
     "). Expected django-valkey ValkeyCache.")) in
  match cb_client cache with
  | Some r => r
  | None =>
      match cb_cache cache with
      | None => missing
      | Some (Raise e) => if attribute_error e then missing else Raise e
      | Some ok => ok
      end
  end.
End valkey.

(** ** The engine cache, under every interleaving *)
Section engines.
(** [hashlib.sha256(url.encode()).hexdigest()]; whether [create_engine]
    accepts the URL; [_mask_url], [None] when [make_url] rejects the URL. *)
Context (sha256_hex : string -> string) (creates : string -> bool) (_mask_url : string -> option string).
Definition _cache_key (url : string) : string := sha256_hex url.

(** Where a thread is.  Engines are numbered in the order of creation. *)
Inductive pc :=
| GetStart (url : string)
| GetWait (url : string)
| GetLocked (url : string)
| GetCreated (url : string) (e : nat)
| GetReturn (url : string)
| Got (url : string) (e : option nat)
| DisposeWait (url : string)
| DisposeLocked (url : string)
| AllWait
| AllLocked
| Disposing (es : list nat)
| DisposeDone.

(** [created] and [popped] are ghosts: every engine made, with its key, and
    those taken out of the cache. *)
Record engines := Engines {
  _engine_cache : list (string * nat);
  _url_for_log : list (string * string);
  cache_lock : option nat;
  created : list (string * nat);
  popped : list nat;
  disposed : list nat;
  tasks : gmap nat pc;
}.

Definition at_ (s : engines) (t : nat) (p : pc) : engines :=
  Engines (_engine_cache s) (_url_for_log s) (cache_lock s) (created s) (popped s) (disposed s) (<[t := p]> (tasks s)).
Definition with_lock (l : option nat) (s : engines) : engines :=
  Engines (_engine_cache s) (_url_for_log s) l (created s) (popped s) (disposed s) (tasks s).
Definition with_created (k : string) (s : engines) : engines :=
  Engines (_engine_cache s) (_url_for_log s) (cache_lock s) (created s ++ [(k, length (created s))]) (popped s)
    (disposed s) (tasks s).
Definition with_cached (k masked : string) (e : nat) (s : engines) : engines :=
  Engines (od_set k e (_engine_cache s)) (od_set k masked (_url_for_log s)) (cache_lock s) (created s) (popped s)
    (disposed s) (tasks s).
Definition opt_list {A} (o : option A) : list A := match o with Some a => [a] | None => [] end.
Definition without_key (k : string) (s : engines) : engines :=
  Engines (od_del k (_engine_cache s)) (od_del k (_url_for_log s)) (cache_lock s) (created s)
    (popped s ++ opt_list (od_get k (_engine_cache s))) (disposed s) (tasks s).
Definition emptied (s : engines) : engines :=
  Engines [] [] (cache_lock s) (created s) (popped s ++ (_engine_cache s).*2) (disposed s) (tasks s).
Definition with_disposed (e : nat) (s : engines) : engines :=
  Engines (_engine_cache s) (_url_for_log s) (cache_lock s) (created s) (popped s) (disposed s ++ [e]) (tasks s).

Inductive step : engines -> engines -> Prop :=
| call s t p : tasks s !! t = None ->
    (exists url, p = GetStart url \/ p = DisposeWait url) \/ p = AllWait -> step s (at_ s t p)
(** [get_engine] *)
| get_hit s t url e : tasks s !! t = Some (GetStart url) -> od_get (_cache_key url) (_engine_cache s) = Some e ->
    step s (at_ s t (Got url (Some e)))
| get_miss s t url : tasks s !! t = Some (GetStart url) -> od_get (_cache_key url) (_engine_cache s) = None ->
    step s (at_ s t (GetWait url))
| get_acquire s t url : tasks s !! t = Some (GetWait url) -> cache_lock s = None ->
    step s (at_ (with_lock (Some t) s) t (GetLocked url))
| get_present s t url : tasks s !! t = Some (GetLocked url) -> od_mem (_cache_key url) (_engine_cache s) = true ->
    step s (at_ s t (GetReturn url))
| get_create s t url : tasks s !! t = Some (GetLocked url) -> od_mem (_cache_key url) (_engine_cache s) = false ->
    _mask_url url <> None -> creates url = true ->
    step s (at_ (with_created (_cache_key url) s) t (GetCreated url (length (created s))))
| get_raise s t url : tasks s !! t = Some (GetLocked url) -> od_mem (_cache_key url) (_engine_cache s) = false ->
    _mask_url url = None \/ creates url = false ->
    step s (at_ (with_lock None s) t (Got url None))
| get_store s t url e masked : tasks s !! t = Some (GetCreated url e) -> _mask_url url = Some masked ->
    step s (at_ (with_cached (_cache_key url) masked e s) t (GetReturn url))
| get_return s t url : tasks s !! t = Some (GetReturn url) ->
    step s (at_ (with_lock None s) t (Got url (od_get (_cache_key url) (_engine_cache s))))
(** [dispose_engine]; [dispose_all_engines].  [DisposeDone] is the end of the
    call, returned or raised: on a URL [make_url] rejects, [_mask_url] raises
    inside the lock, after a [pop] that found nothing ([get_engine] never
    caches such a URL; another URL of the same SHA-256 is left out). *)
| dispose_acquire s t url : tasks s !! t = Some (DisposeWait url) -> cache_lock s = None ->
    step s (at_ (with_lock (Some t) s) t (DisposeLocked url))
| dispose_pop s t url : tasks s !! t = Some (DisposeLocked url) -> _mask_url url <> None ->
    step s (at_ (with_lock None (without_key (_cache_key url) s)) t
              (Disposing (opt_list (od_get (_cache_key url) (_engine_cache s)))))
| dispose_raise s t url : tasks s !! t = Some (DisposeLocked url) -> _mask_url url = None ->
    od_get (_cache_key url) (_engine_cache s) = None ->
    step s (at_ (with_lock None s) t DisposeDone)
| all_acquire s t : tasks s !! t = Some AllWait -> cache_lock s = None ->
    step s (at_ (with_lock (Some t) s) t AllLocked)
| all_pop s t : tasks s !! t = Some AllLocked ->
    step s (at_ (with_lock None (emptied s)) t (Disposing (_engine_cache s).*2))
| dispose_one s t e es : tasks s !! t = Some (Disposing (e :: es)) ->
    step s (at_ (with_disposed e s) t (Disposing es))
| dispose_end s t : tasks s !! t = Some (Disposing []) -> step s (at_ s t DisposeDone).

Definition no_engines : engines := Engines [] [] None [] [] [] ∅.
Inductive reachable : engines -> Prop :=
| reach_init : reachable no_engines
| reach_step s s' : reachable s -> step s s' -> reachable s'.

Definition holds (p : pc) : bool :=
  match p with GetLocked _ | GetCreated _ _ | GetReturn _ | DisposeLocked _ | AllLocked => true | _ => false end.

(** What is known of a thread. *)
Definition pc_ok (s : engines) (p : pc) : Prop :=
  match p with
  | GetCreated url e => (_cache_key url, e) ∈ created s /\ e ∉ popped s /\
      od_get (_cache_key url) (_engine_cache s) = None
  | GetReturn url => od_mem (_cache_key url) (_engine_cache s) = true
  | Got url (Some e) => (_cache_key url, e) ∈ created s /\
      (e ∈ popped s \/ od_get (_cache_key url) (_engine_cache s) = Some e)
  | Disposing es => forall e, e ∈ es -> e ∈ popped s
  | _ => True
  end.

(** The thread that has made an engine and not stored it yet. *)
Definition storing (s : engines) (k : string) (e : nat) : Prop :=
  exists t url, tasks s !! t = Some (GetCreated url e) /\ k = _cache_key url.

Record engines_inv (s : engines) : Prop := {
  ei_lock t p : tasks s !! t = Some p -> holds p = true -> cache_lock s = Some t;
  ei_pc t p : tasks s !! t = Some p -> pc_ok s p;
  ei_cached k e : od_get k (_engine_cache s) = Some e -> (k, e) ∈ created s;
  ei_live k e : (k, e) ∈ created s -> e ∉ popped s -> od_get k (_engine_cache s) = Some e \/ storing s k e;
  ei_fresh k e : (k, e) ∈ created s -> e < length (created s);
  ei_popped e : e ∈ popped s -> e ∈ disposed s \/ exists t es, tasks s !! t = Some (Disposing es) /\ e ∈ es;
  ei_popped_made e : e ∈ popped s -> e < length (created s);
  ei_keys : NoDup (_engine_cache s).*1;
  ei_logged : (_engine_cache s).*1 = (_url_for_log s).*1;
}.

(** *** Dictionary facts *)
Lemma od_get_del_eq {A} k (d : list (string * A)) : NoDup d.*1 -> od_get k (od_del k d) = None.
Proof.
  induction d as [|[k1 a] d IH]; [done|]. rewrite fmap_cons. intros [Hk Hd]%list.NoDup_cons. cbn [od_del].
  case_decide as E; [subst; by apply od_get_None|]. cbn [od_get]. rewrite decide_False by done. by apply IH.
Qed.
Lemma od_del_same_keys {A B} k (d : list (string * A)) (e : list (string * B)) :
  d.*1 = e.*1 -> (od_del k d).*1 = (od_del k e).*1.
Proof.
  revert e. induction d as [|[k1 a] d IH]; intros [|[k2 b] e]; try done. rewrite !fmap_cons. cbn [fst].
  intros [= -> E]. cbn [od_del]. case_decide; [done|]. rewrite !fmap_cons. by rewrite (IH e E).
Qed.
Lemma od_del_keys_sub {A} k (d : list (string * A)) : (od_del k d).*1 `sublist_of` d.*1.
Proof.
  induction d as [|[k1 a] d IH]; [done|]. cbn [od_del]. rewrite fmap_cons. case_decide.
  - by apply sublist_cons.
  - rewrite fmap_cons. by apply sublist_skip.
Qed.
Lemma od_del_get {A} k k' (d : list (string * A)) a : NoDup d.*1 ->
  od_get k' (od_del k d) = Some a <-> k <> k' /\ od_get k' d = Some a.
Proof.
  intros Hd. destruct (decide (k = k')) as [->|Hne].
  - rewrite od_get_del_eq by done. naive_solver.
  - rewrite od_get_del_ne by done. naive_solver.
Qed.

(** *** One holder of the lock *)
Lemma holder s t p t' q :
  engines_inv s -> tasks s !! t = Some p -> holds p = true -> tasks s !! t' = Some q -> holds q = true -> t' = t.
Proof. intros I H Hp H' Hq. pose proof (ei_lock s I _ _ H Hp). pose proof (ei_lock s I _ _ H' Hq). congruence. Qed.

Lemma nobody_holds s t q : engines_inv s -> cache_lock s = None -> tasks s !! t = Some q -> holds q = false.
Proof. intros I Hl H. destruct (holds q) eqn:E; [|done]. pose proof (ei_lock s I _ _ H E). congruence. Qed.

(** A step that leaves the cache and the ghosts alone. *)
Lemma engines_move s t p' l :
  engines_inv s -> (forall url e, tasks s !! t <> Some (GetCreated url e)) ->
  (forall e es, tasks s !! t <> Some (Disposing (e :: es))) -> pc_ok s p' ->
  (holds p' = true -> l = Some t) ->
  (forall t' q, t' <> t -> tasks s !! t' = Some q -> holds q = true -> l = Some t') ->
  engines_inv (at_ (with_lock l s) t p').
Proof.
  intros [Il Ip Ic Iv If Io Im Ik Ig] Hc Hd Hok Hl Hoth. split; unfold at_, with_lock; cbn; auto.
  - intros t' q Hq Hh. lookup_cases Hq; eauto.
  - intros t' q Hq. lookup_cases Hq; [done|exact (Ip _ _ Hq)].
  - intros k e Hin Hn. destruct (Iv k e Hin Hn) as [H|(t' & url & Ht & ->)]; [by left|right].
    exists t', url. split; [|done]. cbn. rewrite lookup_insert_ne; [done|]. intros ->. by eapply Hc.
  - intros e He. destruct (Io e He) as [H|(t' & es & Ht & Hin)]; [by left|right].
    exists t', es. split; [|done]. rewrite lookup_insert_ne; [done|]. intros ->.
    destruct es as [|e1 es]; [by apply elem_of_nil in Hin|by eapply Hd].
Qed.

(** Making an engine. *)
Lemma engines_create s t url :
  engines_inv s -> tasks s !! t = Some (GetLocked url) -> od_mem (_cache_key url) (_engine_cache s) = false ->
  engines_inv (at_ (with_created (_cache_key url) s) t (GetCreated url (length (created s)))).
Proof.
  intros I Ht Hmem. pose proof (ei_lock s I _ _ Ht eq_refl) as Hlock.
  destruct I as [Il Ip Ic Iv If Io Im Ik Ig]. unfold at_, with_created.
  assert (Hno : od_get (_cache_key url) (_engine_cache s) = None).
  { unfold od_mem in Hmem. by destruct (od_get _ _). }
  split; cbn; auto.
  - intros t' q Hq Hh. lookup_cases Hq; eauto.
  - intros t' q Hq. lookup_cases Hq.
    + cbn. split_and!; [rewrite elem_of_app; right; left|intros He; apply Im in He; lia|done].
    + apply Ip in Hq. destruct q as [| | |u e| |u [e|]| | | | | |]; cbn in *; try done;
        rewrite elem_of_app; try tauto; naive_solver.
  - intros k e H. rewrite elem_of_app. left. by apply Ic.
  - intros k e [Hin| [= -> ->]%list_elem_of_singleton]%elem_of_app Hn.
    + destruct (Iv k e Hin Hn) as [H|(t' & u & Hu & ->)]; [by left|right]. exists t', u. split; [|done]. cbn.
      rewrite lookup_insert_ne; [done|]. intros ->. congruence.
    + right. exists t, url. cbn. by rewrite lookup_insert_eq.
  - intros k e [Hin| [= -> ->]%list_elem_of_singleton]%elem_of_app; rewrite length_app; cbn; [apply If in Hin|]; lia.
  - intros e He. destruct (Io e He) as [H|(t' & es & Hes & Hin)]; [by left|right]. exists t', es.
    split; [|done]. rewrite lookup_insert_ne; [done|]. intros ->. congruence.
  - intros e He. apply Im in He. rewrite length_app. lia.
Qed.

(** Storing it. *)
Lemma engines_store s t url e masked :
  engines_inv s -> tasks s !! t = Some (GetCreated url e) ->
  engines_inv (at_ (with_cached (_cache_key url) masked e s) t (GetReturn url)).
Proof.
  intros I Ht. pose proof (ei_lock s I _ _ Ht eq_refl) as Hlock. pose proof (ei_pc s I _ _ Ht) as (Hin & Hnp & Hno).
  assert (Hone : forall t' q, tasks s !! t' = Some q -> holds q = true -> t' = t).
  { intros t' q Hq Hh. by eapply holder. }
  destruct I as [Il Ip Ic Iv If Io Im Ik Ig]. unfold at_, with_cached. split; cbn; auto.
  - intros t' q Hq Hh. lookup_cases Hq; eauto.
  - intros t' q Hq. lookup_cases Hq; [by cbn; unfold od_mem; rewrite od_get_set_eq|].
    pose proof (Ip _ _ Hq) as Hok. destruct q as [| | | | |u [e1|]| | | | | |]; cbn in *; try done;
      try (by destruct (Hone _ _ Hq eq_refl)). destruct Hok as [? [?|Hg]]; [by auto|]. split; [done|right].
    rewrite od_get_set. case_decide as E; [|done]. rewrite <- E in Hg. congruence.
  - intros k e' H. rewrite od_get_set in H. case_decide; [|by apply Ic]. by simplify_eq.
  - intros k e' Hin' Hn. rewrite od_get_set. left. destruct (Iv k e' Hin' Hn) as [H|(t' & u & Hu & ->)].
    + case_decide; [|done]. subst. congruence.
    + assert (t' = t) as -> by by eapply Hone. rewrite Ht in Hu. injection Hu as <- <-.
      by rewrite decide_True.
  - intros e' He. destruct (Io e' He) as [H|(t' & es & Hes & Hie)]; [by left|right]. exists t', es.
    split; [|done]. rewrite lookup_insert_ne; [done|]. intros ->. congruence.
  - by apply od_set_NoDup.
  - rewrite !od_set_keys, Ig. done.
Qed.

(** Taking engines out of the cache: [gone] are the ones removed. *)
Lemma engines_pop s t p gone cache' urls' :
  engines_inv s -> tasks s !! t = Some p -> holds p = true -> (forall url e, p <> GetCreated url e) ->
  NoDup cache'.*1 -> cache'.*1 = urls'.*1 ->
  (forall k e, od_get k cache' = Some e -> od_get k (_engine_cache s) = Some e) ->
  (forall k e, od_get k (_engine_cache s) = Some e -> e ∉ gone -> od_get k cache' = Some e) ->
  (forall e, e ∈ gone -> exists k, (k, e) ∈ created s) ->
  engines_inv (Engines cache' urls' None (created s) (popped s ++ gone) (disposed s)
                 (<[t := Disposing gone]> (tasks s))).
Proof.
  intros I Ht Hh Hnc Hnd Hlog Hsub Hkeep Hgone.
  assert (Hone : forall t' q, tasks s !! t' = Some q -> holds q = true -> t' = t).
  { intros t' q Hq Hq'. by eapply holder. }
  destruct I as [Il Ip Ic Iv If Io Im Ik Ig]. split; cbn; auto.
  - intros t' q Hq Hh'. lookup_cases Hq; [done|]. by destruct (Hone _ _ Hq Hh').
  - intros t' q Hq. lookup_cases Hq; [cbn; intros e He; rewrite elem_of_app; by right|].
    pose proof (Ip _ _ Hq) as Hok. destruct q as [| | | | |u [e1|]| | | | | |]; cbn in *; try done;
      try (by destruct (Hone _ _ Hq eq_refl)).
    + destruct Hok as [? Hg]. split; [done|]. rewrite elem_of_app. destruct Hg as [?|Hg]; [by auto|].
      destruct (decide (e1 ∈ gone)); auto.
    + intros e He. rewrite elem_of_app. left. by apply Hok.
  - intros k e Hin Hn. rewrite elem_of_app in Hn. left. apply Hkeep; [|tauto].
    destruct (Iv k e Hin ltac:(tauto)) as [H|(t' & u & Hu & ->)]; [done|].
    assert (t' = t) as -> by by eapply Hone. exfalso. rewrite Ht in Hu. injection Hu as ->. by eapply Hnc.
  - intros e [He|He]%elem_of_app.
    + destruct (Io e He) as [H|(t' & es & Hes & Hin)]; [by left|right]. exists t', es. split; [|done].
      rewrite lookup_insert_ne; [done|]. intros ->. rewrite Ht in Hes. injection Hes as ->. done.
    + right. exists t, gone. by rewrite lookup_insert_eq.
  - intros e [He|He]%elem_of_app; [by apply Im|]. apply Hgone in He as [k He]. by eapply If.
Qed.

Lemma engines_dispose_one s t e es :
  engines_inv s -> tasks s !! t = Some (Disposing (e :: es)) ->
  engines_inv (at_ (with_disposed e s) t (Disposing es)).
Proof.
  intros [Il Ip Ic Iv If Io Im Ik Ig] Ht. unfold at_, with_disposed. split; cbn; auto.
  - intros t' q Hq Hh. lookup_cases Hq; eauto.
  - intros t' q Hq. lookup_cases Hq.
    + pose proof (Ip _ _ Ht) as Hok. cbn in *. intros e' He. apply Hok. by right.
    + pose proof (Ip _ _ Hq) as Hok. by destruct q.
  - intros k e' Hin Hn. destruct (Iv k e' Hin Hn) as [H|(t' & u & Hu & ->)]; [by left|right].
    exists t', u. split; [|done]. cbn. rewrite lookup_insert_ne; [done|]. intros ->. congruence.
  - intros e' He. rewrite elem_of_app. destruct (Io e' He) as [H|(t' & es' & Hes & Hin)]; [by left; left|].
    destruct (decide (t' = t)) as [->|Hne].
    + rewrite Ht in Hes. injection Hes as <-. apply elem_of_cons in Hin as [->|Hin]; [left; right; left|].
      right. exists t, es. by rewrite lookup_insert_eq.
    + right. exists t', es'. by rewrite lookup_insert_ne.
Qed.

Lemma engines_reachable s : reachable s -> engines_inv s.
Proof.
  induction 1 as [|s s' _ I Hstep].
  { split; cbn; try done; try (intros; by apply elem_of_nil in H || set_solver); constructor. }
  destruct Hstep as [s t p Ht Hp|s t url e Ht Hc|s t url Ht Hc|s t url Ht Hl|s t url Ht Hm|s t url Ht Hm Hmask Hcr
    |s t url Ht Hm Hbad|s t url e masked Ht Hmask|s t url Ht|s t url Ht Hl|s t url Ht Hmask|s t url Ht Hmask Hno|s t Ht Hl|s t Ht
    |s t e es Ht|s t Ht].
  - apply (engines_move s t p (cache_lock s) I); try congruence.
    + destruct Hp as [(u & [->| ->])| ->]; done.
    + by destruct Hp as [(u & [->| ->])| ->].
    + intros t' q _ Hq Hh. by apply (ei_lock s I _ _ Hq Hh).
  - apply (engines_move s t _ (cache_lock s) I); try congruence; try done; [by split; [apply (ei_cached s I)|right]|].
    intros t' q _ Hq Hh. by apply (ei_lock s I _ _ Hq Hh).
  - apply (engines_move s t _ (cache_lock s) I); try congruence; try done.
    intros t' q _ Hq Hh. by apply (ei_lock s I _ _ Hq Hh).
  - apply (engines_move s t _ (Some t) I); try congruence; try done.
    intros t' q _ Hq Hh. by rewrite (nobody_holds s t' q I Hl Hq) in Hh.
  - apply (engines_move s t _ (cache_lock s) I); try congruence; try done; try (intros _; by apply (ei_lock s I _ _ Ht)).
    intros t' q _ Hq Hh. by apply (ei_lock s I _ _ Hq Hh).
  - by apply engines_create.
  - apply (engines_move s t _ None I); try congruence; try done.
    intros t' q Hne Hq Hh. by destruct Hne; eapply holder.
  - by apply engines_store.
  - apply (engines_move s t _ None I); try congruence; [|done|].
    + pose proof (ei_pc s I _ _ Ht) as Hok. cbn in *. destruct (od_get _ _) eqn:E; [by split; [apply (ei_cached s I)|right]|done].
    + intros t' q Hne Hq Hh. by destruct Hne; eapply holder.
  - apply (engines_move s t _ (Some t) I); try congruence; try done.
    intros t' q _ Hq Hh. by rewrite (nobody_holds s t' q I Hl Hq) in Hh.
  - apply (engines_pop s t _ _ _ _ I Ht eq_refl); try done.
    + eapply sublist_NoDup; [apply (ei_keys s I)|apply od_del_keys_sub].
    + apply od_del_same_keys, (ei_logged s I).
    + intros k e H. by apply od_del_get in H as [_ H]; [|apply (ei_keys s I)].
    + intros k e H Hn. apply od_del_get; [apply (ei_keys s I)|]. split; [|done]. intros <-. rewrite H in Hn.
      apply Hn. left.
    + intros e He. destruct (od_get _ _) eqn:E; cbn in He; [|by apply elem_of_nil in He].
      apply list_elem_of_singleton in He as ->. eexists. by apply (ei_cached s I).
  - apply (engines_move s t _ None I); try congruence; try done.
    intros t' q Hne Hq Hh. by destruct Hne; eapply holder.
  - apply (engines_move s t _ (Some t) I); try congruence; try done.
    intros t' q _ Hq Hh. by rewrite (nobody_holds s t' q I Hl Hq) in Hh.
  - apply (engines_pop s t _ _ _ _ I Ht eq_refl); try done.
    + constructor.
    + intros k e H Hn. exfalso. apply Hn. apply od_get_elem in H. apply list_elem_of_fmap. by exists (k, e).
    + intros e ([k e'] & -> & H)%list_elem_of_fmap. exists k. apply (ei_cached s I).
      apply elem_od_get; [apply (ei_keys s I)|done].
  - by apply engines_dispose_one.
  - apply (engines_move s t _ (cache_lock s) I); try congruence; try done.
    intros t' q _ Hq Hh. by apply (ei_lock s I _ _ Hq Hh).
Qed.

(** C39: one pool per database, and no pool forgotten.  Under every
    interleaving of [get_engine], [dispose_engine] and [dispose_all_engines]:
    two calls of [get_engine] for the same URL that returned engines which
    nobody has taken out of the cache returned the same engine; a call that
    found the URL acceptable never comes back empty-handed from the locked
    section; every engine ever made is in the cache, about to be stored, or
    was taken out, and one that was taken out is disposed or waits for its
    [dispose()] in the call that took it; so when no call is under way and the
    cache is empty, every engine has been disposed.  The masked URLs kept for
    the log are those of the cached engines. *)
Theorem engines_unique s (H : reachable s) :
  (forall t t' url e e', tasks s !! t = Some (Got url (Some e)) -> tasks s !! t' = Some (Got url (Some e')) ->
     e ∉ popped s -> e' ∉ popped s -> e = e') /\
  (forall t url, tasks s !! t = Some (GetReturn url) -> od_mem (_cache_key url) (_engine_cache s) = true) /\
  (forall k e, (k, e) ∈ created s ->
     od_get k (_engine_cache s) = Some e \/ storing s k e \/ e ∈ disposed s \/
     exists t es, tasks s !! t = Some (Disposing es) /\ e ∈ es) /\
  ((forall t p, tasks s !! t = Some p -> p = DisposeDone \/ exists url o, p = Got url o) -> _engine_cache s = [] ->
     forall k e, (k, e) ∈ created s -> e ∈ disposed s) /\
  (_engine_cache s).*1 = (_url_for_log s).*1.
Proof.
  apply engines_reachable in H as I. split_and!.
  - intros t t' url e e' Ht Ht' He He'. destruct (ei_pc s I _ _ Ht) as [_ [?|H1]]; [done|].
    destruct (ei_pc s I _ _ Ht') as [_ [?|H2]]; [done|]. congruence.
  - intros t url Ht. exact (ei_pc s I _ _ Ht).
  - intros k e Hc. destruct (decide (e ∈ popped s)) as [Hp|Hp].
    + destruct (ei_popped s I e Hp); auto.
    + destruct (ei_live s I k e Hc Hp); auto.
  - intros Hidle Hempty k e Hc. destruct (decide (e ∈ popped s)) as [Hp|Hp].
    + destruct (ei_popped s I e Hp) as [Hd|(t & es & Ht & _)]; [done|].
      destruct (Hidle _ _ Ht) as [|(u & o & ?)]; done.
    + destruct (ei_live s I k e Hc Hp) as [Hg|(t & u & Ht & _)]; [by rewrite Hempty in Hg|].
      destruct (Hidle _ _ Ht) as [|(u' & o & ?)]; done.
  - apply (ei_logged s I).
Qed.
End engines.

(** ** Witness: two threads race for one URL *)
Ltac next R0 f :=
  match type of R0 with
  | reachable _ _ _ ?s =>
      let c := f s in let R := fresh "R" in
      pose proof (reach_step _ _ _ _ _ R0 c) as R; clear R0; rename R into R0
  end.

Lemma engines_unique_witness : exists s,
  tasks s !! 1 = Some (Got "u" (Some 0)) /\ tasks s !! 2 = Some (Got "u" (Some 0)) /\
  (_engine_cache s).*1 = (_url_for_log s).*1.
Proof.
  pose proof (reach_init (fun x => x) (fun _ => true) (fun x => Some x)) as R.
  next R ltac:(fun s => constr:(call (fun x => x) (fun _ => true) (fun x => Some x) s 1 (GetStart "u") eq_refl
    (or_introl (ex_intro _ "u" (or_introl eq_refl))))).
  next R ltac:(fun s => constr:(call (fun x => x) (fun _ => true) (fun x => Some x) s 2 (GetStart "u") eq_refl
    (or_introl (ex_intro _ "u" (or_introl eq_refl))))).
  next R ltac:(fun s => constr:(get_miss (fun x => x) (fun _ => true) (fun x => Some x) s 1 "u" eq_refl eq_refl)).
  next R ltac:(fun s => constr:(get_miss (fun x => x) (fun _ => true) (fun x => Some x) s 2 "u" eq_refl eq_refl)).
  next R ltac:(fun s => constr:(get_acquire (fun x => x) (fun _ => true) (fun x => Some x) s 1 "u" eq_refl eq_refl)).
  next R ltac:(fun s => constr:(get_create (fun x => x) (fun _ => true) (fun x => Some x) s 1 "u" eq_refl eq_refl
    (fun H : Some "u" = None => eq_ind (Some "u") (fun o => match o with Some _ => True | None => False end) I None H) eq_refl)).
  next R ltac:(fun s => constr:(get_store (fun x => x) (fun _ => true) (fun x => Some x) s 1 "u" 0 "u" eq_refl eq_refl)).
  next R ltac:(fun s => constr:(get_return (fun x => x) (fun _ => true) (fun x => Some x) s 1 "u" eq_refl)).
  next R ltac:(fun s => constr:(get_acquire (fun x => x) (fun _ => true) (fun x => Some x) s 2 "u" eq_refl eq_refl)).
  next R ltac:(fun s => constr:(get_present (fun x => x) (fun _ => true) (fun x => Some x) s 2 "u" eq_refl eq_refl)).
  next R ltac:(fun s => constr:(get_return (fun x => x) (fun _ => true) (fun x => Some x) s 2 "u" eq_refl)).
  match type of R with reachable _ _ _ ?s => exists s end.
  destruct (engines_unique _ _ _ _ R) as (_ & _ & _ & _ & Hlog).
  split; [vm_compute; reflexivity|]. split; [vm_compute; reflexivity|]. exact Hlog.
Defined.
