(* ===== verification/PyAst.v ===== *)
(** * Python syntax trees

    The part of Python's [ast] that the checkers of [scripts] look at: the
    node classes they name, with the fields they read; every other node is
    [Other] with its child nodes, and leaves without a field of interest
    (contexts, operators, aliases) are dropped.  [walk] is the
    standard library's [ast.walk], a breadth-first traversal. *)
From stdpp Require Import base list strings.
From Stdlib Require Import Lia.
From S2P Require Import Prelude PyStr.

Inductive node :=
| Name (id : string)
| Attribute (value : node) (attr : string)
| Subscript (value slice : node)
| Call (lineno : nat) (func : node) (args keywords : list node)
| Constant (repr : string) (str_value : option string)
| JoinedStr (kids : list node)
| BinOp (left_ right_ : node)
| DictLit (kids : list node)
| ListLit (elts : list node)
| SetLit (elts : list node)
| ImportStmt (lineno end_lineno : nat) (names : list string)
| ImportFrom (lineno end_lineno : nat) (module : option string) (names : list string) (level : nat)
| Assign (lineno : nat) (targets : list node) (value : node)
| AnnAssign (lineno : nat) (target annotation : node) (value : option node)
| AugAssign (target value : node)
| Del (targets : list node)
| FunctionDef (lineno : nat) (name : string) (args body decorator_list rest : list node)
| ClassDef (lineno : nat) (name : string) (bases keywords body decorator_list : list node)
| ModuleNode (body : list node)
| Other (kids : list node).

(** A file of the checkout: its path below the root, its text as lines,
    [ast.parse] of it ([None] for a [SyntaxError]) and [ast.get_docstring]. *)
Record source_file := SourceFile {
  path : list string;
  text : string;
  source_lines : list string;
  tree : option node;
  docstring : option string;
}.

(** [path.name], and [path.parts] of the absolute path. *)
Definition base_name (p : list string) : string := List.last p "".
Definition under (dir : list string) (f : source_file) : bool := bool_decide (dir `prefix_of` path f).
Definition is_py (f : source_file) : bool := endswith ".py" (base_name (path f)).

(** [rglob] of the pattern [*.py]: the Python files below [dir], in the listing's order. *)
Definition rglob_py (dir : list string) (files : list source_file) : list source_file :=
  List.filter (fun f => under dir f && is_py f) files.

(** [ast.iter_child_nodes], in field order. *)
Definition children (n : node) : list node :=
  match n with
  | Name _ | Constant _ _ | ImportStmt _ _ _ | ImportFrom _ _ _ _ _ => []
  | Attribute v _ => [v]
  | Subscript v s => [v; s]
  | Call _ f args kws => f :: args ++ kws
  | BinOp l r => [l; r]
  | JoinedStr l | DictLit l | ListLit l | SetLit l | Del l | ModuleNode l | Other l => l
  | Assign _ ts v => ts ++ [v]
  | AnnAssign _ t a v => t :: a :: option_list v
  | AugAssign t v => [t; v]
  | FunctionDef _ _ args body decs rest => args ++ body ++ decs ++ rest
  | ClassDef _ _ bases kws body decs => bases ++ kws ++ body ++ decs
  end.

(** How many nodes a tree has. *)
Fixpoint nodes (n : node) : nat :=
  let all := sum_list_with nodes in
  S (match n with
     | Name _ | Constant _ _ | ImportStmt _ _ _ | ImportFrom _ _ _ _ _ => 0
     | Attribute v _ => nodes v
     | Subscript v s => nodes v + nodes s
     | Call _ f args kws => nodes f + (all args + all kws)
     | BinOp l r => nodes l + nodes r
     | JoinedStr l | DictLit l | ListLit l | SetLit l | Del l | ModuleNode l | Other l => all l
     | Assign _ ts v => all ts + nodes v
     | AnnAssign _ t a v => nodes t + (nodes a + match v with Some x => nodes x | None => 0 end)
     | AugAssign t v => nodes t + nodes v
     | FunctionDef _ _ args body decs rest => all args + (all body + (all decs + all rest))
     | ClassDef _ _ bases kws body decs => all bases + (all kws + (all body + all decs))
     end).

(** The queue of [ast.walk]: take the first, put its children at the end. *)
Fixpoint walk_loop (fuel : nat) (todo : list node) : list node :=
  match fuel, todo with
  | S fuel', n :: rest => n :: walk_loop fuel' (rest ++ children n)
  | _, _ => []
  end.
Definition walk (n : node) : list node := walk_loop (nodes n) [n].

(** [m] occurs in [n], at any depth. *)
Inductive within : node -> node -> Prop :=
| within_self n : within n n
| within_child n c m : c ∈ children n -> within c m -> within n m.

(** ** Lemmas *)

Lemma nodes_children n : nodes n = S (sum_list_with nodes (children n)).
Proof. destruct n; simpl; rewrite ?sum_list_with_app; simpl; try lia. destruct value; simpl; lia. Qed.

Lemma within_inv n m : within n m <-> m = n \/ exists c, c ∈ children n /\ within c m.
Proof.
  split; [intros []; eauto|]. intros [-> | (c & ? & ?)]; [constructor|by eapply within_child].
Qed.

(** The walk visits every node of the trees it is given, and each only once. *)
Lemma walk_loop_spec fuel todo :
  sum_list_with nodes todo <= fuel ->
  length (walk_loop fuel todo) = sum_list_with nodes todo /\
  forall m, m ∈ walk_loop fuel todo <-> exists n, n ∈ todo /\ within n m.
Proof.
  revert todo. induction fuel as [|fuel IH]; intros [|n rest] Hf; simpl in *.
  1, 3: (split; [done|]; intros m; rewrite elem_of_nil; split; [done|]; intros (? & []%elem_of_nil & _)).
  { rewrite nodes_children in Hf. lia. }
  rewrite nodes_children in Hf.
  destruct (IH (rest ++ children n)) as [Hl He]; [rewrite sum_list_with_app; lia|].
  split; [rewrite Hl, sum_list_with_app, nodes_children; lia|]. intros m.
  rewrite elem_of_cons, He. setoid_rewrite elem_of_cons. setoid_rewrite elem_of_app. split.
  - intros [-> | (k & [Hk|Hk] & Hm)]; [exists n; split; [by left|constructor]|eauto|].
    exists n. split; [by left|]. by eapply within_child.
  - intros (k & [-> | Hk] & Hm); [|eauto]. apply within_inv in Hm as [->|(c & Hc & Hm)]; eauto.
Qed.

Lemma walk_within n m : m ∈ walk n <-> within n m.
Proof.
  unfold walk. destruct (walk_loop_spec (nodes n) [n]) as [_ He]; [simpl; lia|].
  rewrite He. split; [intros (k & ->%list_elem_of_singleton & ?); done|].
  intros Hm. exists n. split; [by left|done].
Qed.

Lemma walk_once n : length (walk n) = nodes n.
Proof. unfold walk. destruct (walk_loop_spec (nodes n) [n]) as [-> _]; simpl; lia. Qed.
