(* ===== verification/Gates.v ===== *)
(** * The checkers of the source tree

    [scripts/check_layering.py], [check_thread_safety.py],
    [check_openapi_metadata.py] and [check_dormant_imports.py]: what each
    reports about a checkout and the exit code it ends with.  A checkout is
    the list of its files in sorted order, each with its syntax tree as
    [PyAst] has it; a report is the list of offending places. *)
From stdpp Require Import base list gmap strings.
From Stdlib Require Import Ascii Lia.
From S2P Require Import Prelude PyStr PyVal Exceptions PyAst.

(** Path, line and subject of a report line. *)
Abbreviation report := (list (list string * nat * string)).

(** Run a check on each file; an exception ends the run. *)
Fixpoint scan {A} (check : source_file -> result py_exn (list A)) (files : list source_file)
    : result py_exn (list A) :=
  match files with
  | [] => Ok []
  | f :: rest =>
      found ← check f;
      more ← scan check rest;
      mret (found ++ more)
  end.

(** Report lines make the exit code 1. *)
Definition exit_code {A} (out : list A) : Z := match out with [] => 0 | _ :: _ => 1 end.
Definition conclude {A} (out : list A) : list A * Z := (out, exit_code out).

Definition syntax_error {A} (f : source_file) : result py_exn A :=
  Raise (Builtin "SyntaxError" (base_name (path f))).
Definition parse (f : source_file) : result py_exn node :=
  match tree f with Some t => Ok t | None => syntax_error f end.

(** [root] holds the parts of the absolute path of the checkout. *)
Definition tests_in_parts (root : list string) (f : source_file) : bool :=
  str_in "tests" (root ++ path f).

(** ** Layering *)

(** [_domain_apps]: the packages beside [core], as their [__init__.py] shows. *)
Definition domain_apps (files : list source_file) : list string :=
  omap (fun f => match path f with
                 | [top; name; file] =>
                     if String.eqb top "apps" && String.eqb file "__init__.py" && negb (String.eqb name "core")
                     then Some name else None
                 | _ => None
                 end) files.

Definition forbidden_prefixes (domain_apps : list string) : list string :=
  "config" :: (domain_apps ≫= fun app => ["apps." +:+ app; app]).

Definition at_or_below (prefix d : string) : bool :=
  String.eqb d prefix || startswith (prefix +:+ ".") d.

(** One entry per prefix that matches. *)
Definition layering_node (forbidden : list string) (n : node) : list (nat * string) :=
  match n with
  | ImportFrom lineno _ (Some m) _ _ =>
      if str_true m then forbidden ≫= fun p => if at_or_below p m then [(lineno, m)] else [] else []
  | ImportStmt lineno _ names =>
      names ≫= fun a => forbidden ≫= fun p => if at_or_below p a then [(lineno, a)] else []
  | _ => []
  end.

Definition layering_violations (forbidden : list string) (t : node) : list (nat * string) :=
  walk t ≫= layering_node forbidden.

Definition check_layering (root domain_apps : list string) (files : list source_file)
    : result py_exn (report * Z) :=
  out ← scan (fun f =>
      if tests_in_parts root f then Ok []
      else
        t ← parse f;
        mret ((fun v : nat * string => (path f, v.1, v.2)) <$>
                layering_violations (forbidden_prefixes domain_apps) t))
    (rglob_py ["apps"; "core"] files);
  mret (conclude out).

(** ** Thread safety *)

Definition mutable_call_names : gset string := {["dict"; "set"; "list"]}.
Definition lock_call_leaves : gset string := {["Lock"; "RLock"; "local"]}.
Definition waiver_tag : string := "thread-safety:".
Definition mutating_methods : gset string :=
  {["append"; "extend"; "insert"; "remove"; "pop"; "clear"; "add"; "discard"; "update"; "setdefault"; "popitem"]}.

Definition is_mutable_container_value (value : node) : bool :=
  match value with
  | DictLit _ | ListLit _ | SetLit _ => true
  | Call _ (Name id) _ _ => bool_decide (id ∈ mutable_call_names)
  | _ => false
  end.

Definition is_lock_call (value : node) : bool :=
  match value with
  | Call _ (Attribute _ attr) _ _ => bool_decide (attr ∈ lock_call_leaves)
  | Call _ (Name id) _ _ => bool_decide (id ∈ lock_call_leaves)
  | _ => false
  end.

(** [tree.body] *)
Definition body_of (t : node) : list node := match t with ModuleNode b => b | _ => [] end.

Definition module_has_lock (t : node) : bool :=
  existsb (fun n => match n with
                    | Assign _ _ v | AnnAssign _ _ _ (Some v) => is_lock_call v
                    | _ => false
                    end) (body_of t).

Definition thread_waiver (lines : list string) (lineno : nat) : bool :=
  if (lineno <? 1) || (length lines <? lineno) then false
  else contains waiver_tag (List.nth (lineno - 1) lines "").

Definition subscripted (target : node) : list string :=
  match target with Subscript (Name id) _ => [id] | _ => [] end.

(** The names one node mutates. *)
Definition mutated_by (n : node) : list string :=
  match n with
  | Assign _ targets _ => targets ≫= subscripted
  | AugAssign (Name id) _ => [id]
  | AugAssign target _ => subscripted target
  | Del targets => targets ≫= subscripted
  | Call _ (Attribute (Name id) attr) _ _ => if bool_decide (attr ∈ mutating_methods) then [id] else []
  | _ => []
  end.
Definition collect_mutated_names (t : node) : gset string := list_to_set (walk t ≫= mutated_by).

(** The line, targets and value of an assignment statement. *)
Definition assignment (n : node) : option (nat * list node * node) :=
  match n with
  | Assign lineno ts v => Some (lineno, ts, v)
  | AnnAssign lineno t _ (Some v) => Some (lineno, [t], v)
  | _ => None
  end.

Definition thread_node (mutated : gset string) (lines : list string) (n : node) : list (nat * string) :=
  match assignment n with
  | None => []
  | Some (lineno, targets, value) =>
      if negb (is_mutable_container_value value) then []
      else targets ≫= fun target =>
        match target with
        | Name id =>
            if startswith "__" id then []
            else if negb (bool_decide (id ∈ mutated)) then []
            else if thread_waiver lines lineno then []
            else [(lineno, id)]
        | _ => []
        end
  end.

Definition thread_violations (t : node) (lines : list string) : list (nat * string) :=
  if module_has_lock t then []
  else
    let mutated := collect_mutated_names t in
    if bool_decide (mutated = ∅) then [] else body_of t ≫= thread_node mutated lines.

Definition is_test_parts (parts : list string) : bool :=
  str_in "tests" parts || startswith "test_" (base_name parts).

(** A file that does not parse is reported, on line 0 here, and the run goes on. *)
Definition check_thread_safety (root : list string) (files : list source_file) : report * Z :=
  conclude (rglob_py ["apps"; "core"] files ≫= fun f =>
    if is_test_parts (root ++ path f) then []
    else match tree f with
         | None => [(path f, 0, "syntax error")]
         | Some t => (fun v : nat * string => (path f, v.1, v.2)) <$> thread_violations t (source_lines f)
         end).

(** ** OpenAPI metadata *)

Definition CBV_BASE_NAMES : gset string := list_to_set
  ["APIView"; "GenericAPIView"; "ViewSet"; "GenericViewSet"; "ModelViewSet"; "ReadOnlyModelViewSet";
   "ListAPIView"; "RetrieveAPIView"; "CreateAPIView"; "UpdateAPIView"; "DestroyAPIView";
   "ListCreateAPIView"; "RetrieveUpdateAPIView"; "RetrieveDestroyAPIView";
   "RetrieveUpdateDestroyAPIView"; "SocialLoginView"].
Definition VERB_METHODS : gset string := list_to_set
  ["get"; "post"; "put"; "patch"; "delete"; "head"; "options"; "list"; "retrieve"; "create"; "update";
   "partial_update"; "destroy"].

Definition leaf_name (n : node) : option string :=
  match n with
  | Name id => Some id
  | Attribute _ attr => Some attr
  | _ => None
  end.
Definition decorator_name (d : node) : option string :=
  match d with
  | Call _ f _ _ => leaf_name f
  | _ => leaf_name d
  end.

Definition has_extend_schema (decorators : list node) : bool :=
  existsb (fun d => match decorator_name d with
                    | Some n => String.eqb n "extend_schema" || (str_true n && endswith "_schema" n)
                    | None => false
                    end) decorators.
Definition is_api_view (decorators : list node) : bool :=
  existsb (fun d => bool_decide (decorator_name d = Some "api_view")) decorators.

Definition sets_serializer (stmt : node) : bool :=
  match stmt with
  | Assign _ targets _ =>
      existsb (fun t => match t with Name id => String.eqb id "serializer_class" | _ => false end) targets
  | _ => false
  end.
Definition documented_verb (stmt : node) : bool :=
  match stmt with
  | FunctionDef _ name _ _ decs _ => bool_decide (name ∈ VERB_METHODS) && has_extend_schema decs
  | _ => false
  end.

Definition class_violations (lineno : nat) (name : string) (bases body decs : list node)
    : list (nat * string * string) :=
  let base_names : gset string := list_to_set (omap leaf_name bases) in
  if bool_decide (base_names ∩ CBV_BASE_NAMES = ∅) then []
  else if existsb sets_serializer body || has_extend_schema decs then []
  else if existsb documented_verb body then []
  else [(lineno, name, "serializer_class or @extend_schema")].

Definition func_violations (lineno : nat) (name : string) (decs : list node) : list (nat * string * string) :=
  if negb (is_api_view decs) then []
  else if has_extend_schema decs then []
  else [(lineno, name, "@extend_schema")].

Definition openapi_violations (t : node) : list (nat * string * string) :=
  body_of t ≫= fun n =>
    match n with
    | ClassDef lineno name bases _ body decs => class_violations lineno name bases body decs
    | FunctionDef lineno name _ _ decs _ => func_violations lineno name decs
    | _ => []
    end.

(** [path.parent.name] *)
Definition parent_name (p : list string) : string := List.last (removelast p) "".

Definition check_openapi_metadata (files : list source_file)
    : result py_exn (list (list string * (nat * string * string)) * Z) :=
  out ← scan (fun f =>
      if String.eqb (parent_name (path f)) "core" then Ok []
      else t ← parse f; mret ((fun v => (path f, v)) <$> openapi_violations t))
    (List.filter (fun f => under ["apps"] f && String.eqb (base_name (path f)) "views.py") files);
  mret (conclude out).

(** ** Dormant modules *)

(** [re]'s word characters and [\s] below U+0100. *)
Definition is_word (c : ascii) : bool :=
  let n := ord c in
  is_upper c || is_lower c || is_digit c || (n =? 95) || (n =? 170) || (n =? 178) || (n =? 179) ||
  (n =? 181) || (n =? 185) || (n =? 186) || ((188 <=? n) && (n <=? 190)) ||
  ((192 <=? n) && negb (n =? 215) && negb (n =? 247)).

(** [_MARKER_RE.search]: the word, then a colon on the same line. *)
Fixpoint colon_follows (s : string) : bool :=
  match s with
  | EmptyString => false
  | String c s' => if ord c =? 58 then true else if ord c =? 10 then false else colon_follows s'
  end.
Definition word_ends (s : string) : bool :=
  match s with EmptyString => true | String c _ => negb (is_word c) end.
Fixpoint marker_search (after_word : bool) (s : string) : bool :=
  match s with
  | EmptyString => false
  | String c s' =>
      (negb after_word && startswith "Dormant" s && word_ends (sdrop 7 s) && colon_follows (sdrop 7 s)) ||
      marker_search (is_word c) s'
  end.

(** [_WAIVER_RE.search]: a hash, the tag and a reason. *)
Definition dormant_tag : string := "allow-dormant-import:".
Definition waiver_at (s : string) : bool :=
  match s with
  | String c s' =>
      (ord c =? 35) &&
      (let rest := lstrip is_space s' in
       startswith dormant_tag rest && str_true (lstrip is_space (sdrop (slen dormant_tag) rest)))
  | EmptyString => false
  end.
Fixpoint waiver_search (s : string) : bool :=
  waiver_at s || match s with EmptyString => false | String _ s' => waiver_search s' end.

Definition strip_inline_comment (line : string) : string := (cut_char "#" line).1.

(** [omit] is the value of the configuration key, split into lines. *)
Definition load_omit_paths (omit : list string) : list string :=
  List.filter (fun e => str_true e && startswith "apps/" e && negb (contains "*" e))
    ((fun line => strip (strip_inline_comment line)) <$> omit).

(** [str(path)] of a relative path. *)
Definition posix (p : list string) : string := join "/" p.

Definition module_docstring (f : source_file) : option string :=
  match tree f with Some _ => docstring f | None => None end.

(** [cwd] holds the parts of the working directory. *)
Definition scan_dormant_markers (cwd : list string) (files : list source_file) : gset string :=
  list_to_set (rglob_py ["apps"] files ≫= fun f =>
    if str_in "tests" (cwd ++ path f) || startswith "test_" (base_name (path f)) then []
    else match module_docstring f with
         | Some d => if str_true d && marker_search false d then [posix (path f)] else []
         | None => []
         end).

Inductive drift :=
| NoSuchFile (entry : string)
| NoMarker (entry : string)
| NotOmitted (entry : string).

Definition check_drift (omit : list string) (markers : gset string) (files : list source_file) : list drift :=
  let omit_set : gset string := list_to_set omit in
  ((fun e => if existsb (fun f => String.eqb (posix (path f)) e) files then NoMarker e else NoSuchFile e)
     <$> elements (omit_set ∖ markers)) ++
  (NotOmitted <$> elements (markers ∖ omit_set)).

Definition dotted_names_for (entry : string) : string :=
  let relative := if startswith "apps/" entry then sdrop 5 entry else entry in
  let stem := if endswith ".py" relative then stake (slen relative - 3) relative else relative in
  replace_char "/" "." stem.

Definition resolve_import_names (n : node) (p : list string) : list string :=
  let from base names :=
    if str_true base then
      base :: (names ≫= fun a => if String.eqb a "*" then [] else [base +:+ "." +:+ a])
    else [] in
  match n with
  | ImportStmt _ _ names => names
  | ImportFrom _ _ module names level =>
      let base := default "" module in
      if level =? 0 then from base names
      else
        let parts := match p with
                     | first :: rest => if String.eqb first "apps" then rest else p
                     | [] => p
                     end in
        let anchor := removelast parts in
        if length anchor <? level then []
        else
          let prefix_parts := take (length anchor - level + 1) anchor in
          from (if str_true base then join "." (prefix_parts ++ [base]) else join "." prefix_parts) names
  | _ => []
  end.

Definition dormant_waiver (lines : list string) (start end_ : nat) : bool :=
  let lo := Nat.max 1 start in
  let hi := Nat.min (length lines) end_ in
  existsb (fun lineno => waiver_search (List.nth (lineno - 1) lines "")) (seq lo (S hi - lo)).

(** First and last line of an import statement. *)
Definition import_span (n : node) : option (nat * nat) :=
  match n with
  | ImportStmt a b _ | ImportFrom a b _ _ _ => Some (a, b)
  | _ => None
  end.

(** One message per node: the first name that is dormant and not waived. *)
Definition dormant_node (dormant : gset string) (f : source_file) (n : node) : list (nat * string) :=
  match import_span n with
  | None => []
  | Some (start, end_) =>
      match List.find (fun d => bool_decide (d ∈ dormant) && negb (dormant_waiver (source_lines f) start end_))
              (resolve_import_names n (path f)) with
      | Some d => [(start, d)]
      | None => []
      end
  end.

Inductive dormant_report :=
| NoCoveragerc
| Drifted (msgs : list drift)
| Walked (out : report).

Definition walk_targets (files : list source_file) : list source_file :=
  List.filter (fun f => under ["apps"] f && is_py f || under ["config"] f && is_py f) files.

Definition walk_dormant (omit : list string) (files : list source_file) : report :=
  let dormant : gset string := list_to_set (dotted_names_for <$> omit) in
  walk_targets files ≫= fun f =>
    if str_in (posix (path f)) omit then []
    else if is_test_parts (path f) then []
    else match tree f with
         | None => [(path f, 0, "syntax error")]
         | Some t => (fun v : nat * string => (path f, v.1, v.2)) <$> (walk t ≫= dormant_node dormant f)
         end.

(** [rc] is the omit value of [.coveragerc], when the file exists. *)
Definition check_dormant_imports (cwd : list string) (rc : option (list string)) (files : list source_file)
    : dormant_report * Z :=
  match rc with
  | None => (NoCoveragerc, 2%Z)
  | Some omit =>
      let omit_paths := load_omit_paths omit in
      match check_drift omit_paths (scan_dormant_markers cwd files) files with
      | (_ :: _) as msgs => (Drifted msgs, 2%Z)
      | [] => let out := walk_dormant omit_paths files in (Walked out, exit_code out)
      end
  end.

(** ** Lemmas *)

Lemma exit_code_0 {A} (out : list A) : exit_code out = 0%Z <-> out = [].
Proof. by destruct out. Qed.

Lemma scan_ok {A} (check : source_file -> result py_exn (list A)) files out :
  scan check files = Ok out ->
  forall a, a ∈ out <-> exists f l, f ∈ files /\ check f = Ok l /\ a ∈ l.
Proof.
  revert out. induction files as [|f rest IH]; intros out; cbn [scan].
  { intros [= <-] a. rewrite elem_of_nil. split; [done|]. intros (? & ? & []%elem_of_nil & _). }
  rewrite result_bind_ok. intros (l & Hl & Hr). rewrite result_bind_ok in Hr.
  destruct Hr as (more & Hm & [= <-]). intros a. rewrite elem_of_app, (IH _ Hm). split.
  - intros [Ha | (g & k & Hg & Hk & Ha)]; [exists f, l; split; [by left|done]|].
    exists g, k. split; [by right|done].
  - intros (g & k & [-> | Hg]%elem_of_cons & Hk & Ha); [left|right; eauto 6]. congruence.
Qed.

Lemma at_or_below_spec p d : at_or_below p d = true <-> d = p \/ exists r, d = p +:+ "." +:+ r.
Proof.
  unfold at_or_below. rewrite orb_true_iff, String.eqb_eq, startswith_spec.
  by setoid_rewrite str_app_assoc.
Qed.

Lemma nil_spec {A} (l : list A) : l = [] <-> forall a, a ∉ l.
Proof.
  split; [intros ->; by intros a []%elem_of_nil|]. destruct l as [|a l]; [done|].
  intros Ha. destruct (Ha a). by left.
Qed.

Lemma elem_of_when {A} (b : bool) (x y : A) : x ∈ (if b then [y] else []) <-> b = true /\ x = y.
Proof. destruct b; rewrite ?list_elem_of_singleton, ?elem_of_nil; naive_solver. Qed.

(** ** What each checker decides *)

(** The dotted names an import statement names to the left. *)
Definition imported (n : node) : list string :=
  match n with
  | ImportFrom _ _ (Some m) _ _ => if str_true m then [m] else []
  | ImportStmt _ _ names => names
  | _ => []
  end.

Lemma layering_node_spec forbidden n :
  layering_node forbidden n = [] <->
  forall d p, d ∈ imported n -> p ∈ forbidden -> at_or_below p d = false.
Proof.
  assert (forall (lineno : nat) (a : string),
            (forbidden ≫= fun p => if at_or_below p a then [(lineno, a)] else []) = [] <->
            forall p, p ∈ forbidden -> at_or_below p a = false) as Hone.
  { intros lineno a. rewrite nil_spec. setoid_rewrite list_elem_of_bind. split.
    - intros H p Hp. destruct (at_or_below p a) eqn:E; [|done]. destruct (H (lineno, a)).
      exists p. rewrite E. split; [by left|done].
    - intros H x (p & Hx & Hp). rewrite (H _ Hp) in Hx. by apply elem_of_nil in Hx. }
  destruct n as [| | | | | | | | | |lineno e names|lineno e [m|] names level| | | | | | | |]; simpl;
    try (split; [intros _ d p []%elem_of_nil|done]).
  - rewrite nil_spec. setoid_rewrite list_elem_of_bind. split.
    + intros H d p Hd. apply (Hone lineno d). apply nil_spec. intros x Hx. by apply (H x); exists d.
    + intros H x (d & Hx & Hd). rewrite (proj2 (Hone lineno d)) in Hx by (intros; by apply H).
      by apply elem_of_nil in Hx.
  - destruct (str_true m); [|split; [intros _ d p []%elem_of_nil|done]].
    rewrite Hone. setoid_rewrite list_elem_of_singleton. naive_solver.
Qed.

(** The layering check passes exactly when no core file outside a [tests]
    directory names, in an import statement at any depth of its syntax tree, a
    module at or below [config] or a domain app, under either spelling. *)
Lemma layering_exact root apps files out code :
  check_layering root apps files = Ok (out, code) ->
  code = 0%Z <->
  forall f t n d p, f ∈ rglob_py ["apps"; "core"] files -> tests_in_parts root f = false ->
    tree f = Some t -> within t n -> d ∈ imported n -> p ∈ forbidden_prefixes apps ->
    ~ (d = p \/ exists r, d = p +:+ "." +:+ r).
Proof.
  unfold check_layering. rewrite result_bind_ok. intros (l & Hl & [= <- <-]).
  rewrite exit_code_0, nil_spec. pose proof (scan_ok _ _ _ Hl) as Hs. split.
  - intros Hn f t n d p Hf Htest Ht Hw Hd Hp Hbad%at_or_below_spec.
    assert (exists v, v ∈ layering_violations (forbidden_prefixes apps) t) as [v Hv].
    { destruct (layering_node (forbidden_prefixes apps) n) as [|v vs] eqn:E.
      - rewrite layering_node_spec in E. by rewrite (E _ _ Hd Hp) in Hbad.
      - exists v. apply list_elem_of_bind. exists n. rewrite walk_within, E. split; [by left|done]. }
    apply (Hn (path f, v.1, v.2)). apply Hs. exists f. eexists. split_and!; [done| |].
    + rewrite Htest. unfold parse. rewrite Ht. reflexivity.
    + apply list_elem_of_fmap. by exists v.
  - intros H x Hx. apply Hs in Hx as (f & l' & Hf & Hc & Hx).
    destruct (tests_in_parts root f) eqn:Htest; [injection Hc as <-; by apply elem_of_nil in Hx|].
    apply result_bind_ok in Hc as (t & Ht & [= <-]). unfold parse in Ht.
    destruct (tree f) as [t'|] eqn:Et; [|done]. injection Ht as ->.
    apply list_elem_of_fmap in Hx as (v & _ & Hv). apply list_elem_of_bind in Hv as (n & Hv & Hn%walk_within).
    assert (layering_node (forbidden_prefixes apps) n = []) as E.
    { apply layering_node_spec. intros d p Hd Hp. destruct (at_or_below p d) eqn:E; [|done].
      apply at_or_below_spec in E. by edestruct (H f t n d p). }
    rewrite E in Hv. by apply elem_of_nil in Hv.
Qed.

(** Below a directory called [tests] the check looks at nothing. *)
Lemma layering_skips_under_tests root apps files :
  "tests" ∈ root -> check_layering root apps files = Ok ([], 0%Z).
Proof.
  intros Hr. unfold check_layering.
  assert (forall fs, scan (fun f => if tests_in_parts root f then Ok [] else
      t ← parse f;
      mret ((fun v : nat * string => (path f, v.1, v.2)) <$>
         layering_violations (forbidden_prefixes apps) t)) fs = Ok []) as ->; [|done].
  induction fs as [|f fs IH]; [done|]. cbn [scan].
  assert (tests_in_parts root f = true) as ->.
  { unfold tests_in_parts. apply str_in_spec, elem_of_app. by left. }
  cbn. by rewrite IH.
Qed.

(** A package added under [apps] is forbidden to [core] at once, under both
    spellings. *)
Lemma new_app_forbidden files f name :
  f ∈ files -> path f = ["apps"; name; "__init__.py"] -> name <> "core" ->
  name ∈ forbidden_prefixes (domain_apps files) /\ "apps." +:+ name ∈ forbidden_prefixes (domain_apps files).
Proof.
  intros Hf Hp Hn. assert (Hd : name ∈ domain_apps files).
  { apply list_elem_of_omap. exists f. split; [done|]. rewrite Hp. cbn.
    by rewrite (proj2 (String.eqb_neq name "core")). }
  unfold forbidden_prefixes. split; right; apply list_elem_of_bind; exists name; (split; [|done]); set_solver.
Qed.

Definition core_file (body : list node) : source_file :=
  SourceFile ["apps"; "core"; "handlers.py"] "" [] (Some (ModuleNode body)) None.

(** [from apps import accounts] is not seen, [from apps.accounts import models] is. *)
Lemma layering_misses_from_apps :
  check_layering ["/"; "srv"] ["accounts"] [core_file [ImportFrom 1 1 (Some "apps") ["accounts"] 0]] = Ok ([], 0%Z) /\
  check_layering ["/"; "srv"] ["accounts"] [core_file [ImportFrom 1 1 (Some "apps.accounts") ["models"] 0]] =
    Ok ([(["apps"; "core"; "handlers.py"], 1, "apps.accounts")], 1%Z).
Proof. split; vm_compute; reflexivity. Qed.

(** The thread-safety check reports a name exactly when the module has no lock,
    the name is mutated somewhere in the tree, and a statement of the module's
    body binds it to a mutable container on a line without a waiver. *)
Lemma thread_violations_spec t lines lineno id :
  (lineno, id) ∈ thread_violations t lines <->
  module_has_lock t = false /\
  (exists n, within t n /\ id ∈ mutated_by n) /\
  (exists stmt targets value, stmt ∈ body_of t /\ assignment stmt = Some (lineno, targets, value) /\
     is_mutable_container_value value = true /\ Name id ∈ targets) /\
  startswith "__" id = false /\ thread_waiver lines lineno = false.
Proof.
  assert (Hm : id ∈ collect_mutated_names t <-> exists n, within t n /\ id ∈ mutated_by n).
  { unfold collect_mutated_names. rewrite elem_of_list_to_set, list_elem_of_bind.
    setoid_rewrite walk_within. naive_solver. }
  unfold thread_violations. destruct (module_has_lock t); [rewrite elem_of_nil; naive_solver|].
  rewrite <- Hm. destruct (bool_decide_reflect (collect_mutated_names t = ∅)) as [->|_].
  { rewrite elem_of_nil. set_solver. }
  rewrite list_elem_of_bind. unfold thread_node. split.
  - intros (stmt & Hin & Hs). destruct (assignment stmt) as [[[ln ts] v]|] eqn:Ea; [|by apply elem_of_nil in Hin].
    destruct (is_mutable_container_value v) eqn:Ev; [|by apply elem_of_nil in Hin].
    apply list_elem_of_bind in Hin as (target & Hin & Ht). destruct target; try by apply elem_of_nil in Hin.
    destruct (startswith "__" id0) eqn:Ed; [by apply elem_of_nil in Hin|].
    destruct (bool_decide_reflect (id0 ∈ collect_mutated_names t)) as [Hi|]; [|by apply elem_of_nil in Hin].
    cbn [negb] in Hin. destruct (thread_waiver lines ln) eqn:Ew; [by apply elem_of_nil in Hin|].
    apply list_elem_of_singleton in Hin as [= -> ->]. split_and!; eauto 8.
  - intros (_ & Hi & (stmt & ts & v & Hs & Ha & Hv & Ht) & Hd & Hw). exists stmt. split; [|done].
    rewrite Ha, Hv. cbn [negb]. apply list_elem_of_bind. exists (Name id). split; [|done].
    rewrite Hd, Hw, bool_decide_eq_true_2 by done. by left.
Qed.

(** An annotation does not matter, not even [Final]. *)
Lemma final_constant_flagged :
  check_thread_safety ["/"; "srv"]
    [core_file [AnnAssign 1 (Name "TABLE") (Name "Final") (Some (DictLit []));
                Assign 2 [Subscript (Name "TABLE") (Constant "'k'" (Some "k"))] (Name "v")]] =
  ([(["apps"; "core"; "handlers.py"], 1, "TABLE")], 1%Z).
Proof. vm_compute. reflexivity. Qed.

(** A class view passes when it sets a serializer, is decorated, or decorates a verb. *)
Lemma class_violations_spec lineno name bases body decs :
  class_violations lineno name bases body decs = [] <->
  (forall b n, b ∈ bases -> leaf_name b = Some n -> n ∉ CBV_BASE_NAMES) \/
  (exists s, s ∈ body /\ sets_serializer s = true) \/ has_extend_schema decs = true \/
  (exists s, s ∈ body /\ documented_verb s = true).
Proof.
  assert (forall f, existsb f body = true <-> exists s, s ∈ body /\ f s = true) as He.
  { intros f. rewrite existsb_exists. by setoid_rewrite list_elem_of_In. }
  unfold class_violations. set (names := list_to_set (omap leaf_name bases) : gset string).
  assert (names ∩ CBV_BASE_NAMES = ∅ <->
    forall b n, b ∈ bases -> leaf_name b = Some n -> n ∉ CBV_BASE_NAMES) as Hd.
  { assert (forall n, n ∈ names <-> exists b, b ∈ bases /\ leaf_name b = Some n) as Hn.
    { intros n. unfold names. rewrite elem_of_list_to_set, list_elem_of_omap. naive_solver. }
    split; [intros Hi b n Hb Hl Hc; assert (n ∈ names) by (apply Hn; eauto); set_solver|].
    intros H. apply set_eq. intros n. rewrite elem_of_intersection, Hn. set_solver. }
  rewrite <- Hd, <- !He. destruct (bool_decide_reflect (names ∩ CBV_BASE_NAMES = ∅)); [naive_solver|].
  destruct (existsb sets_serializer body), (has_extend_schema decs), (existsb documented_verb body);
    cbn; naive_solver.
Qed.

(** Drift is reported exactly when the two halves of the policy disagree. *)
Lemma drift_exact omit markers files :
  check_drift omit markers files = [] <-> list_to_set omit = markers.
Proof.
  unfold check_drift. set (s := list_to_set omit : gset string).
  assert (forall B (g : string -> B) (x : gset string), g <$> elements x = [] <-> x = ∅) as He.
  { intros B g x. rewrite <- leibniz_equiv_iff, <- elements_empty_iff. split; [apply fmap_nil_inv|by intros ->]. }
  split.
  - intros [H1 H2]%app_eq_nil. apply He in H1, H2. apply set_eq. intros e.
    destruct (decide (e ∈ s)), (decide (e ∈ markers)); set_solver.
  - intros ->. rewrite difference_diag_L. by rewrite elements_empty.
Qed.

(** Exit code 2 is the disagreement of the two halves (or no file to compare),
    whatever the imports are. *)
Lemma dormant_exit_2 cwd rc files :
  (check_dormant_imports cwd rc files).2 = 2%Z <->
  match rc with
  | None => True
  | Some omit => list_to_set (load_omit_paths omit) <> scan_dormant_markers cwd files
  end.
Proof.
  unfold check_dormant_imports. destruct rc as [omit|]; [|done].
  rewrite <- (drift_exact _ _ files).
  destruct (check_drift _ _ _); cbn [snd]; [|split; done].
  unfold exit_code. split; [destruct (walk_dormant _ _); done|done].
Qed.

(** The walk is silent exactly when every live, non-test file parses and each
    of its imports of a dormant module carries a waiver. *)
Lemma walk_dormant_silent omit files :
  walk_dormant omit files = [] <->
  forall f, f ∈ files -> (under ["apps"] f && is_py f || under ["config"] f && is_py f) = true ->
    posix (path f) ∉ omit -> is_test_parts (path f) = false ->
    exists t, tree f = Some t /\
      forall n start end_ d, within t n -> import_span n = Some (start, end_) ->
        d ∈ resolve_import_names n (path f) -> d ∈ dotted_names_for <$> omit ->
        dormant_waiver (source_lines f) start end_ = true.
Proof.
  unfold walk_dormant, walk_targets. rewrite nil_spec. setoid_rewrite list_elem_of_bind.
  setoid_rewrite list_elem_of_In at 2. setoid_rewrite filter_In. setoid_rewrite <- list_elem_of_In. split.
  - intros H f Hf Hu Ho Ht. apply Bool.not_true_iff_false in Ht as Ht'.
    assert (forall x, x ∉ match tree f with
         | None => [(path f, 0, "syntax error")]
         | Some t => (fun v : nat * string => (path f, v.1, v.2)) <$>
             (walk t ≫= dormant_node (list_to_set (dotted_names_for <$> omit)) f)
         end) as Hn.
    { intros x Hx. apply (H x). exists f. split; [|done].
      destruct (str_in (posix (path f)) omit) eqn:Es; [by apply str_in_spec in Es|]. by rewrite Ht. }
    destruct (tree f) as [t|]; [|by destruct (Hn (path f, 0, "syntax error")); left].
    exists t. split; [done|]. intros n start end_ d Hw Hs Hd Hdo.
    destruct (dormant_waiver _ _ _) eqn:Ew; [done|]. exfalso.
    destruct (List.find (fun d => bool_decide (d ∈ (list_to_set (dotted_names_for <$> omit) : gset string)) &&
        negb (dormant_waiver (source_lines f) start end_)) (resolve_import_names n (path f))) as [d'|] eqn:Ef.
    + apply (Hn (path f, start, d')). apply list_elem_of_fmap. exists (start, d'). split; [done|].
      apply list_elem_of_bind. exists n. rewrite walk_within. split; [|done].
      unfold dormant_node. rewrite Hs, Ef. by left.
    + apply list_elem_of_In in Hd. apply (find_none _ _ Ef) in Hd. rewrite Ew in Hd. cbn [negb] in Hd.
      rewrite andb_true_r in Hd. apply bool_decide_eq_false in Hd. by apply Hd, elem_of_list_to_set.
  - intros H x (f & Hx & Hf & Hu). destruct (str_in (posix (path f)) omit) eqn:Es; [by apply elem_of_nil in Hx|].
    destruct (is_test_parts (path f)) eqn:Et; [by apply elem_of_nil in Hx|].
    destruct (H f Hf Hu) as (t & Htree & Hall); [|done|].
    { intros Hin%str_in_spec. congruence. }
    rewrite Htree in Hx. apply list_elem_of_fmap in Hx as (v & _ & Hv).
    apply list_elem_of_bind in Hv as (n & Hv & Hw%walk_within). unfold dormant_node in Hv.
    destruct (import_span n) as [[start end_]|] eqn:Esp; [|by apply elem_of_nil in Hv].
    destruct (List.find _ _) as [d|] eqn:Ef; [|by apply elem_of_nil in Hv].
    apply find_some in Ef as [Hin%list_elem_of_In [Hd%bool_decide_eq_true Hwv]%andb_true_iff].
    apply elem_of_list_to_set in Hd. by rewrite (Hall _ _ _ _ Hw Esp Hin Hd) in Hwv.
Qed.

Definition dormant_tree (live : list node) : list source_file :=
  [SourceFile ["apps"; "core"; "services.py"] "" [] (Some (ModuleNode live)) None;
   SourceFile ["apps"; "core"; "utils"; "s3.py"] "" [] (Some (ModuleNode [])) (Some "S3. Dormant: no callers.")].

(** Every spelling without [apps] is seen, the other one is not. *)
Lemma dormant_misses_apps_spelling :
  let run := fun stmt => (check_dormant_imports ["/"; "srv"] (Some ["apps/core/utils/s3.py"]) (dormant_tree [stmt])).2 in
  run (ImportFrom 1 1 (Some "core.utils") ["s3"] 0) = 1%Z /\
  run (ImportFrom 1 1 (Some "utils") ["s3"] 1) = 1%Z /\
  run (ImportStmt 1 1 ["core.utils.s3"]) = 1%Z /\
  run (ImportStmt 1 1 ["apps.core.utils.s3"]) = 0%Z /\
  run (ImportFrom 1 1 (Some "apps.core.utils.s3") ["upload"] 0) = 0%Z.
Proof. vm_compute. repeat split. Qed.
