(* ===== verification/TextGates.v ===== *)
(** * The text checkers

    [scripts/check_dead_utils.py], [check_stale_refs.py] and
    [dump_settings_schema.py], on the trees of [PyAst]: public symbols nothing
    mentions, lines that match a stale pattern, and the table of environment
    variables kept in [docs/configuration.md].  The regular expressions of the
    pattern manifest are a parameter. *)
From stdpp Require Import base list gmap strings pretty.
From Stdlib Require Import Ascii Lia.
From S2P Require Import Prelude PyStr PyVal Exceptions PyAst Gates.

(** ** Dead symbols *)

Definition skip_dir_names : list string := ["__pycache__"; ".pytest_cache"; "migrations"].

(** [_iter_python_files(root)]; [root] holds the checkout's own path parts. *)
Definition iter_python_files (root : list string) (dir : list string) (files : list source_file)
    : list source_file :=
  List.filter (fun f => negb (existsb (fun part => str_in part skip_dir_names) (root ++ path f)))
    (rglob_py dir files).

Definition public (name : string) : bool := negb (startswith "_" name).
Definition public_symbols_of (n : node) : list string :=
  match n with
  | FunctionDef _ name _ _ _ _ | ClassDef _ name _ _ _ _ => if public name then [name] else []
  | Assign _ targets _ =>
      targets ≫= fun t => match t with Name id => if public id then [id] else [] | _ => [] end
  | _ => []
  end.
Definition collect_public_symbols (f : source_file) : list string :=
  match tree f with Some t => body_of t ≫= public_symbols_of | None => [] end.

Definition drop_py (name : string) : string :=
  if endswith ".py" name then stake (slen name - 3) name else name.
(** The path below [apps], dotted, without the suffix. *)
Definition module_dotted (p : list string) : string :=
  join "." (removelast (tail p) ++ [drop_py (base_name p)]).

Definition mentions (name : string) (defining f : source_file) : bool :=
  negb (bool_decide (path f = path defining)) && negb (String.eqb (base_name (path f)) "check_dead_utils.py") &&
  contains name (text f).
Definition has_reference (root : list string) (name : string) (defining : source_file)
    (files : list source_file) : bool :=
  existsb (fun dir => existsb (mentions name defining) (iter_python_files root [dir] files))
    ["apps"; "config"; "tests"].

(** [allowlist] is the parsed file, [None] when it is missing or unreadable. *)
Definition check_dead_utils (root : list string) (allowlist : option (list string)) (files : list source_file)
    : list (string * list string) * Z :=
  let allowed := default [] allowlist in
  conclude (iter_python_files root ["apps"; "core"] files ≫= fun f =>
    if tests_in_parts root f then []
    else collect_public_symbols f ≫= fun name =>
      let key := module_dotted (path f) +:+ ":" +:+ name in
      if str_in key allowed then []
      else if has_reference root name f files then [] else [(key, path f)]).

(** ** Stale references *)
Section stale.
(** [re.search(pattern, line)] is not [None]; [read path] is the file's lines,
    [None] for an [OSError]. *)
Context (search : string -> string -> bool) (read : string -> option (list string)).

Definition allow_marker : string := "# stale-refs: allow".
Definition exclude_prefixes : list string := [".code_review/"; "CHANGELOG.md"].
Definition exclude_substrings : list string := ["/migrations/"].

(** [entries] are the manifest's patterns and hints; an absent or empty
    pattern is skipped. *)
Definition load_manifest (entries : list (option string * string)) : list (string * string) :=
  omap (fun e : option string * string =>
          match e.1 with
          | Some p => if str_true p then Some (p, e.2) else None
          | None => None
          end) entries.

(** [globbed] are the files the globs match, sorted and without duplicates. *)
Definition discover_files (globbed : list string) : list string :=
  List.filter (fun rel => negb (existsb (fun p => startswith p rel) exclude_prefixes) &&
                          negb (existsb (fun sub => contains sub ("/" +:+ rel)) exclude_substrings)) globbed.

(** A hit: path, line number, snippet, hint. *)
Definition stale_line (patterns : list (string * string)) (rel : string) (lineno : nat) (line : string)
    : list (string * nat * string * string) :=
  if contains allow_marker line then []
  else patterns ≫= fun p => if search p.1 line then [(rel, lineno, stake 120 (strip line), p.2)] else [].

Definition stale_file (patterns : list (string * string)) (rel : string)
    : list (string * nat * string * string) :=
  match read rel with
  | None => []
  | Some lines => concat (imap (fun i line => stale_line patterns rel (S i) line) lines)
  end.

(** [manifest] is [None] when the file does not exist. *)
Definition check_stale_refs (manifest : option (list (option string * string))) (globbed : list string)
    : list (string * nat * string * string) * Z :=
  match manifest with
  | None => ([], 2%Z)
  | Some entries =>
      match load_manifest entries with
      | [] => ([], 0%Z)
      | patterns => conclude (discover_files globbed ≫= stale_file patterns)
      end
  end.

(** The check passes exactly when no pattern matches a line, without the allow
    marker, of a readable file in scope. *)
Lemma stale_exact entries globbed :
  (check_stale_refs (Some entries) globbed).2 = 0%Z <->
  forall rel lines line p, rel ∈ discover_files globbed -> read rel = Some lines -> line ∈ lines ->
    p ∈ load_manifest entries -> search p.1 line = true -> contains allow_marker line = true.
Proof.
  unfold check_stale_refs. destruct (load_manifest entries) as [|p0 ps] eqn:El.
  { split; [|done]. intros _ rel lines line p _ _ _ []%elem_of_nil. }
  rewrite <- El. clear p0 ps El. set (ps := load_manifest entries). unfold conclude. cbn [snd].
  rewrite exit_code_0, nil_spec. setoid_rewrite list_elem_of_bind. split.
  - intros H rel lines line p Hrel Hread Hl Hp Hs. destruct (contains allow_marker line) eqn:Ea; [done|].
    apply list_elem_of_lookup in Hl as [i Hi].
    destruct (H (rel, S i, stake 120 (strip line), p.2)). exists rel. split; [|done].
    unfold stale_file. rewrite Hread. rewrite list_elem_of_In, in_concat.
    exists (stale_line ps rel (S i) line). rewrite <- !list_elem_of_In. split.
    + apply list_elem_of_lookup. exists i. by rewrite list_lookup_imap, Hi.
    + unfold stale_line. rewrite Ea. apply list_elem_of_bind. exists p. rewrite Hs. split; [by left|done].
  - intros H x (rel & Hx & Hrel). unfold stale_file in Hx. destruct (read rel) as [lines|] eqn:Er.
    2: by apply elem_of_nil in Hx.
    apply list_elem_of_In, in_concat in Hx as (l & Hl & Hx). apply list_elem_of_In in Hl, Hx.
    apply list_elem_of_lookup in Hl as [i Hi]. rewrite list_lookup_imap in Hi.
    destruct (lines !! i) as [line|] eqn:Eli; [|done]. injection Hi as <-.
    unfold stale_line in Hx. destruct (contains allow_marker line) eqn:Ea; [by apply elem_of_nil in Hx|].
    apply list_elem_of_bind in Hx as (p & Hx & Hp). destruct (search p.1 line) eqn:Es.
    + rewrite (H rel lines line p) in Ea; try done. by eapply list_elem_of_lookup_2.
    + by apply elem_of_nil in Hx.
Qed.
End stale.

(** ** The settings table *)

Definition newline : string := String (chr 10) "".
Definition BEGIN_MARKER : string :=
  "<!-- BEGIN AUTO: env-vars table -- generated by scripts/dump_settings_schema.py -->".
Definition END_MARKER : string := "<!-- END AUTO -->".

Record EnvVar := MkEnvVar { ev_name : string; ev_default : string; ev_typ : string; ev_line : nat }.

Definition literal (n : node) : option string :=
  match n with
  | Constant repr _ => Some repr
  | JoinedStr _ => Some "<f-string>"
  | BinOp _ _ => Some "<expr>"
  | Call _ _ _ _ => Some "<call>"
  | Name id => Some id
  | _ => None
  end.

(** The type column for a reader of the environment. *)
Definition env_reader (func : node) : option string :=
  match func with
  | Name id => if String.eqb id "_env_int" then Some "int" else if String.eqb id "_env_bool" then Some "bool" else None
  | Attribute (Name os) attr => if String.eqb attr "getenv" && String.eqb os "os" then Some "str" else None
  | _ => None
  end.

(** The variable one call reads. *)
Definition env_read (n : node) : option EnvVar :=
  match n with
  | Call lineno func (Constant _ (Some name) :: more) _ =>
      typ ← env_reader func;
      let shown := match more with
                   | d :: _ => match literal d with
                               | Some s => str_or s "<expr>"
                               | None => "<expr>"
                               end
                   | [] => "--"
                   end in
      Some (MkEnvVar name shown typ lineno)
  | _ => None
  end.

(** The first occurrence of each name in walk order. *)
Definition first_reads (vars : list EnvVar) : list (string * EnvVar) :=
  fold_left (fun found v => od_setdefault (ev_name v) v found) vars [].

(** [sorted(..., key=name)]; the names are distinct. *)
Fixpoint insert_var (v : EnvVar) (l : list EnvVar) : list EnvVar :=
  match l with
  | [] => [v]
  | u :: l' => if String.leb (ev_name u) (ev_name v) then u :: insert_var v l' else v :: l
  end.
Definition sort_vars (l : list EnvVar) : list EnvVar := fold_left (fun acc v => insert_var v acc) l [].

Definition collect (t : node) : list EnvVar := sort_vars (first_reads (omap env_read (walk t))).*2.

Definition table_row (v : EnvVar) : string :=
  "| `" +:+ ev_name v +:+ "` | `" +:+ ev_typ v +:+ "` | " +:+ ev_default v +:+
  " | `config/settings/base.py:" +:+ pretty (ev_line v) +:+ "` |".
Definition table_head : list string :=
  [BEGIN_MARKER; ""; "| Env var | Type | Default | Source |"; "|---|---|---|---|"].
Definition render_table (vars : list EnvVar) : string :=
  join newline (table_head ++ (table_row <$> vars) ++ [""; END_MARKER]).

(** [s.partition(sep)], [None] when [sep] does not occur. *)
Fixpoint partition (sep s : string) : option (string * string) :=
  if startswith sep s then Some ("", sdrop (slen sep) s)
  else match s with
       | EmptyString => None
       | String c s' =>
           match partition sep s' with
           | Some (a, b) => Some (String c a, b)
           | None => None
           end
       end.

Definition doc_header : string :=
  "# Configuration" +:+ newline +:+ newline +:+
  "Every environment variable read by `config/settings/base.py`." +:+ newline +:+
  "The table below is regenerated by" +:+ newline +:+
  "`scripts/dump_settings_schema.py`. Do not hand-edit the rows" +:+ newline +:+
  "between the `BEGIN AUTO` / `END AUTO` markers -- run the script" +:+ newline +:+
  "instead. Prose around the markers is preserved." +:+ newline +:+ newline.

(** [existing] is the document, [None] when there is none. *)
Definition render_full_doc (existing : option string) (table : string) : string :=
  match existing with
  | None => doc_header +:+ table +:+ newline
  | Some doc =>
      if contains BEGIN_MARKER doc && contains END_MARKER doc then
        match partition BEGIN_MARKER doc with
        | Some (before, rest) =>
            before +:+ table +:+ match partition END_MARKER rest with Some (_, after) => after | None => "" end
        | None => doc +:+ table
        end
      else rstrip is_space doc +:+ newline +:+ newline +:+ table +:+ newline
  end.

Inductive mode := Show | Write | CheckMode.

(** The document afterwards and the exit code. *)
Definition dump_settings_schema (m : mode) (t : node) (doc : option string) : option string * Z :=
  let table := render_table (collect t) in
  match m with
  | Write => (Some (render_full_doc doc table), 0%Z)
  | CheckMode =>
      match doc with
      | None => (doc, 1%Z)
      | Some current => (doc, if String.eqb current (render_full_doc doc table) then 0%Z else 1%Z)
      end
  | Show => (doc, 0%Z)
  end.

(** ** Lemmas on substrings *)

(** A prefix without [d] ends before the first [d]. *)
Lemma startswith_stop p a d y :
  free_of d p -> startswith p (a +:+ String d y) = true -> startswith p a = true.
Proof.
  revert a. induction p as [|c p IH]; intros a Hf; [by destruct a|]. apply free_of_cons in Hf as [Hc Hf].
  destruct a as [|e a]; cbn [startswith String.append].
  - intros [?%bool_decide_eq_true _]%andb_true_iff. done.
  - intros [-> H]%andb_true_iff. by apply (IH a).
Qed.

(** A marker whose first character does not come back starts at most once
    where it is first written. *)
Lemma marker_stop c r a y :
  free_of c r -> startswith (String c r) (a +:+ String c r +:+ y) = true -> a <> "" ->
  startswith (String c r) a = true.
Proof.
  intros Hf Hs Ha. destruct a as [|d a]; [done|]. simpl in *. apply andb_true_iff in Hs as [Hd Hs].
  rewrite Hd. by apply (startswith_stop r a c (r +:+ y)).
Qed.

Lemma partition_app c r m x :
  free_of c r -> contains (String c r) m = false ->
  partition (String c r) (m +:+ String c r +:+ x) = Some (m, x).
Proof.
  intros Hf. induction m as [|d m IH]; intros Hc.
  - change ("" +:+ String c r +:+ x) with (String c r +:+ x).
    assert (forall s, startswith (String c r) s = true ->
      partition (String c r) s = Some ("", sdrop (slen (String c r)) s)) as ->.
    { intros s Hs. destruct s; cbn [partition]; by rewrite Hs. }
    + by rewrite sdrop_app.
    + apply startswith_self.
  - change (String d m +:+ String c r +:+ x) with (String d (m +:+ String c r +:+ x)).
    cbn [contains] in Hc. apply orb_false_iff in Hc as [Hs Hc]. cbn [partition].
    assert (startswith (String c r) (String d (m +:+ String c r +:+ x)) = false) as ->.
    { apply not_true_iff_false. intros Hs'. apply (marker_stop c r (String d m)) in Hs'; [congruence|done|done]. }
    by rewrite IH.
Qed.

Lemma partition_some p s a b : partition p s = Some (a, b) -> s = a +:+ p +:+ b /\ contains p a = (String.eqb p "").
Proof.
  revert a b. induction s as [|c s IH]; intros a b; cbn [partition].
  - destruct p; simpl; [|done]. by intros [= <- <-].
  - destruct (startswith p (String c s)) eqn:E.
    + intros [= <- <-]. apply startswith_spec in E as [t ->]. rewrite sdrop_app. split; [done|]. by destruct p.
    + destruct (partition p s) as [[a' b']|]; [|done]. intros [= <- <-]. destruct (IH _ _ eq_refl) as [-> Hc].
      split; [done|]. cbn [contains]. rewrite Hc. destruct p as [|d p]; [done|]. cbn [String.eqb].
      rewrite orb_false_r. apply not_true_iff_false. intros Hs.
      apply (startswith_app _ _ (String d p +:+ b')) in Hs. simpl in *. congruence.
Qed.

Lemma contains_app_l p a b : contains p a = true -> contains p (a +:+ b) = true.
Proof.
  induction a as [|c a IH].
  - destruct p; [by destruct b|done].
  - cbn [contains String.append]. rewrite !orb_true_iff. intros [H|H]; [left; by apply (startswith_app p (String c a))|].
    right. by apply IH.
Qed.

Lemma contains_mid p a b : contains p (a +:+ p +:+ b) = true.
Proof.
  induction a as [|c a IH].
  - assert (startswith p (p +:+ b) = true) by apply startswith_self. simpl.
    destruct (p +:+ b); cbn [contains]; by rewrite H.
  - simpl. by rewrite IH, orb_true_r.
Qed.

Lemma contains_stop p a d y :
  p <> "" -> free_of d p -> contains p a = false -> contains p y = false -> contains p (a +:+ String d y) = false.
Proof.
  intros Hp Hf Ha Hy. induction a as [|c a IH].
  - simpl. rewrite Hy, orb_false_r. destruct p as [|e p]; [done|]. apply free_of_cons in Hf as [He _].
    simpl. by rewrite bool_decide_eq_false_2.
  - cbn [contains] in Ha. apply orb_false_iff in Ha as [Hs Ha]. simpl. rewrite IH, orb_false_r by done.
    apply not_true_iff_false. intros H. apply (startswith_stop p (String c a) d y Hf) in H. congruence.
Qed.

Lemma rstrip_prefix f s : exists t, s = rstrip f s +:+ t.
Proof.
  induction s as [|c s [t IH]]; [by exists ""|]. cbn [rstrip].
  destruct (rstrip f s) as [|e s'] eqn:E.
  - destruct (f c); [by exists (String c s)|]. exists t. simpl. by f_equal.
  - exists t. simpl. by f_equal.
Qed.

Lemma join_app sep l a b : l <> [] -> join sep (l ++ a :: b) = join sep l +:+ sep +:+ join sep (a :: b).
Proof.
  induction l as [|x l IH]; [done|]. intros _. destruct l as [|y l].
  - by destruct b.
  - change (x +:+ sep +:+ join sep ((y :: l) ++ a :: b) = (x +:+ sep +:+ join sep (y :: l)) +:+ sep +:+ join sep (a :: b)).
    rewrite IH by done. by rewrite !str_app_assoc.
Qed.

(** ** What the checkers decide *)

(** Every orphan reported: a public symbol, not allow-listed, whose name occurs
    in no other scanned file; and every such symbol is reported. *)
Lemma dead_utils_exact root allowlist files :
  (check_dead_utils root allowlist files).2 = 0%Z <->
  forall f name, f ∈ iter_python_files root ["apps"; "core"] files -> tests_in_parts root f = false ->
    name ∈ collect_public_symbols f ->
    module_dotted (path f) +:+ ":" +:+ name ∈ default [] allowlist \/ has_reference root name f files = true.
Proof.
  unfold check_dead_utils, conclude. cbn [snd]. rewrite exit_code_0, nil_spec.
  setoid_rewrite list_elem_of_bind. split.
  - intros H f name Hf Ht Hn. destruct (str_in (module_dotted (path f) +:+ ":" +:+ name) (default [] allowlist)) eqn:Ea.
    { left. by apply str_in_spec. }
    right. destruct (has_reference root name f files) eqn:Er; [done|].
    destruct (H (module_dotted (path f) +:+ ":" +:+ name, path f)). exists f. split; [|done].
    rewrite Ht. apply list_elem_of_bind. exists name. split; [|done]. rewrite Ea, Er. by left.
  - intros H x (f & Hx & Hf). destruct (tests_in_parts root f) eqn:Et; [by apply elem_of_nil in Hx|].
    apply list_elem_of_bind in Hx as (name & Hx & Hn).
    destruct (H f name Hf Et Hn) as [Ha%str_in_spec|Hr]; rewrite ?Ha, ?Hr in Hx; repeat case_match;
      by apply elem_of_nil in Hx.
Qed.

(** A mention in a comment or inside a longer name counts as a caller. *)
Lemma dead_utils_substring :
  check_dead_utils ["/"; "srv"] None
    [SourceFile ["apps"; "core"; "utils"; "data.py"] "" []
       (Some (ModuleNode [FunctionDef 1 "parse" [] [] [] []])) None;
     SourceFile ["config"; "urls.py"] "# parser" [] (Some (ModuleNode [])) None] = ([], 0%Z).
Proof. vm_compute. reflexivity. Qed.

Lemma marker_heads :
  exists r1 r2, BEGIN_MARKER = String "<" r1 /\ free_of "<" r1 /\ END_MARKER = String "<" r2 /\ free_of "<" r2.
Proof.
  eexists _, _. split_and!; [reflexivity| |reflexivity|]; repeat (apply free_of_cons; split; [done|]);
    apply free_of_nil.
Qed.

(** The table between its markers. *)
Definition table_body (vars : list EnvVar) : string :=
  newline +:+ join newline (tail table_head ++ (table_row <$> vars) ++ [""]) +:+ newline.
Lemma render_table_split vars : render_table vars = BEGIN_MARKER +:+ table_body vars +:+ END_MARKER.
Proof.
  unfold render_table, table_body.
  replace (table_head ++ (table_row <$> vars) ++ [""; END_MARKER])
    with ((BEGIN_MARKER :: tail table_head ++ (table_row <$> vars) ++ [""]) ++ [END_MARKER])
    by (cbn; by rewrite <- app_assoc).
  rewrite join_app by done. change (join newline [END_MARKER]) with END_MARKER.
  rewrite !str_app_assoc. cbn [tail table_head app join]. by rewrite !str_app_assoc.
Qed.

Lemma render_known before body rest :
  contains BEGIN_MARKER before = false -> contains END_MARKER body = false ->
  render_full_doc (Some (before +:+ (BEGIN_MARKER +:+ body +:+ END_MARKER) +:+ rest))
    (BEGIN_MARKER +:+ body +:+ END_MARKER) =
  before +:+ (BEGIN_MARKER +:+ body +:+ END_MARKER) +:+ rest.
Proof.
  intros Hb He. destruct marker_heads as (r1 & r2 & E1 & F1 & E2 & F2). unfold render_full_doc.
  assert (contains BEGIN_MARKER (before +:+ (BEGIN_MARKER +:+ body +:+ END_MARKER) +:+ rest) = true) as ->
    by (rewrite str_app_assoc; apply contains_mid).
  assert (contains END_MARKER (before +:+ (BEGIN_MARKER +:+ body +:+ END_MARKER) +:+ rest) = true) as ->.
  { rewrite !str_app_assoc, <- (str_app_assoc before), <- (str_app_assoc (before +:+ BEGIN_MARKER)).
    apply contains_mid. }
  cbn [andb]. rewrite !str_app_assoc. rewrite E1 in Hb |- *. rewrite partition_app by done.
  rewrite E2 in He |- *. rewrite partition_app by done. by rewrite !str_app_assoc.
Qed.

(** Writing makes the check pass, and writing again changes nothing, unless
    the document has a begin marker without an end marker; the prose before
    the markers is kept. *)
Lemma write_then_check t doc :
  contains END_MARKER (table_body (collect t)) = false ->
  (forall d, doc = Some d -> contains BEGIN_MARKER d = true -> contains END_MARKER d = true) ->
  let written := (dump_settings_schema Write t doc).1 in
  (dump_settings_schema CheckMode t written).2 = 0%Z /\
  (dump_settings_schema Write t written).1 = written.
Proof.
  intros Hbody Hdoc. cbn [dump_settings_schema fst snd].
  set (table := render_table (collect t)).
  assert (exists before rest, render_full_doc doc table = before +:+ table +:+ rest /\
            contains BEGIN_MARKER before = false) as (before & rest & E & Hb).
  { unfold render_full_doc. destruct doc as [d|]; [|by exists doc_header, newline].
    destruct (contains BEGIN_MARKER d) eqn:Eb; cbn [andb].
    - rewrite (Hdoc d) by done. destruct (partition BEGIN_MARKER d) as [[before r]|] eqn:Ep.
      + apply partition_some in Ep as [_ Hc]. by eexists before, _.
      + exfalso. destruct marker_heads as (r1 & _ & E1 & _). rewrite E1 in Eb, Ep. clear - Eb Ep.
        induction d as [|c d IH]; cbn [partition contains] in *.
        { destruct (startswith (String "<" r1) ""); done. }
        destruct (startswith _ _); [done|]. apply IH; [done|]. by destruct (partition _ d) as [[]|].
    - exists (rstrip is_space d +:+ newline +:+ newline), newline. split; [by rewrite !str_app_assoc|].
      change (newline +:+ newline) with (String (chr 10) newline).
      apply contains_stop; [done| | |by vm_compute].
      + repeat (apply free_of_cons; split; [done|]); apply free_of_nil.
      + destruct (rstrip_prefix is_space d) as [tl Ed]. rewrite Ed in Eb.
        apply not_true_iff_false. intros Hc. apply (contains_app_l _ _ tl) in Hc. congruence. }
  rewrite E. unfold table in *. rewrite render_table_split in *.
  rewrite render_known by done. by rewrite String.eqb_refl.
Qed.

(** With a begin marker alone, the check fails right after a write. *)
Lemma write_without_end_marker :
  let t := ModuleNode [] in
  let doc := Some (BEGIN_MARKER +:+ newline +:+ "prose") in
  (dump_settings_schema CheckMode t (dump_settings_schema Write t doc).1).2 = 1%Z.
Proof. vm_compute. reflexivity. Qed.

(** The table lists each variable some call of the settings reads, once. *)
Lemma first_reads_names vars : forall found,
  NoDup found.*1 ->
  let all := fold_left (fun found v => od_setdefault (ev_name v) v found) vars found in
  NoDup all.*1 /\ (forall v, v ∈ all.*2 -> v ∈ vars \/ v ∈ found.*2) /\
  forall n, n ∈ all.*1 <-> n ∈ found.*1 \/ n ∈ ev_name <$> vars.
Proof.
  induction vars as [|v vars IH]; intros found Hnd; cbn [fold_left fmap list_fmap].
  { split_and!; [done|auto|]. intros n. rewrite elem_of_nil. tauto. }
  assert (od_setdefault (ev_name v) v found =
    if decide (ev_name v ∈ found.*1) then found else found ++ [(ev_name v, v)]) as ->.
  { unfold od_setdefault. destruct (decide (ev_name v ∈ found.*1)) as [Hin|Hin].
    - apply od_mem_spec in Hin. by rewrite Hin.
    - pose proof Hin as Hn. apply od_get_None in Hn. unfold od_mem. rewrite Hn. clear IH Hnd Hn.
      induction found as [|[k u] found IHf]; [done|]. rewrite fmap_cons, not_elem_of_cons in Hin.
      destruct Hin as [Hk Hin]. cbn [od_set fst]. rewrite decide_False by done. by rewrite IHf. }
  destruct (decide (ev_name v ∈ found.*1)) as [Hin|Hin].
  - destruct (IH found Hnd) as (H1 & H2 & H3). split_and!; [done| |].
    + intros u Hu. destruct (H2 u Hu); [left; by right|by right].
    + intros n. rewrite H3, elem_of_cons. naive_solver.
  - destruct (IH (found ++ [(ev_name v, v)])) as (H1 & H2 & H3).
    { rewrite fmap_app. apply NoDup_app. split_and!; [done| |apply NoDup_singleton].
      intros x Hx ->%list_elem_of_singleton. done. }
    split_and!; [done| |].
    + intros u Hu. destruct (H2 u Hu) as [|Hu']; [left; by right|].
      rewrite fmap_app, elem_of_app in Hu'. destruct Hu' as [| ->%list_elem_of_singleton]; [by right|left; by left].
    + intros n. rewrite H3, fmap_app, elem_of_app, elem_of_cons. cbn [fmap list_fmap fst].
      rewrite list_elem_of_singleton. tauto.
Qed.

Lemma sort_vars_perm l : sort_vars l ≡ₚ l.
Proof.
  assert (forall v l, insert_var v l ≡ₚ v :: l) as Hi.
  { intros v k. induction k as [|u k IH]; [done|]. cbn [insert_var].
    destruct (String.leb _ _); [|done]. rewrite IH. constructor. }
  unfold sort_vars. assert (forall acc, fold_left (fun acc v => insert_var v acc) l acc ≡ₚ l ++ acc) as H.
  { induction l as [|v l IH]; intros acc; cbn [fold_left]; [done|].
    rewrite IH, Hi. symmetry. apply Permutation_middle. }
  by rewrite H, app_nil_r.
Qed.

Lemma first_reads_keyed vars : Forall (fun kv : string * EnvVar => kv.1 = ev_name kv.2) (first_reads vars).
Proof.
  unfold first_reads. assert (forall found : list (string * EnvVar),
    Forall (fun kv : string * EnvVar => kv.1 = ev_name kv.2) found ->
    Forall (fun kv : string * EnvVar => kv.1 = ev_name kv.2)
      (fold_left (fun found v => od_setdefault (ev_name v) v found) vars found)) as H; [|by apply H].
  induction vars as [|v vars IH]; intros found Hf; cbn [fold_left]; [done|]. apply IH.
  unfold od_setdefault. destruct (od_mem _ _); [done|]. clear IH.
  induction found as [|[k u] found IHf]; cbn [od_set]; [by repeat constructor|].
  inversion Hf; subst. destruct (decide (k = ev_name v)) as [->|]; constructor; auto.
Qed.

Lemma collect_lists t :
  NoDup (ev_name <$> collect t) /\
  (forall v, v ∈ collect t -> exists n, within t n /\ env_read n = Some v) /\
  forall n v, within t n -> env_read n = Some v -> ev_name v ∈ ev_name <$> collect t.
Proof.
  unfold collect. set (vars := omap env_read (walk t)).
  destruct (first_reads_names vars []) as (H1 & H2 & H3); [constructor|]. fold (first_reads vars) in *.
  assert (forall l : list (string * EnvVar), Forall (fun kv => kv.1 = ev_name kv.2) l ->
            ev_name <$> l.*2 = l.*1) as Hk.
  { clear. intros l. induction 1 as [|[k v] l E _ IH]; [done|]. rewrite !fmap_cons, IH. cbn in *. by subst. }
  pose proof (Hk _ (first_reads_keyed vars)) as Ek.
  assert (forall v, v ∈ vars <-> exists n, within t n /\ env_read n = Some v) as Hv.
  { intros v. unfold vars. rewrite list_elem_of_omap. by setoid_rewrite walk_within. }
  rewrite !sort_vars_perm, Ek. split_and!; [done| |].
  - intros v Hin. rewrite sort_vars_perm in Hin. apply Hv. by destruct (H2 v Hin) as [|[]%elem_of_nil].
  - intros n v Hw He. rewrite sort_vars_perm, Ek. apply H3. right. apply list_elem_of_fmap. exists v.
    split; [done|]. apply Hv. eauto.
Qed.
