(* ===== verification/Globs.v ===== *)
(** * The scope of the reference checker

    [INCLUDE_GLOBS] of [scripts/check_stale_refs.py] with [Path.glob] of the
    standard library, and what [discover_files] scans. *)
From stdpp Require Import base list gmap strings.
From Stdlib Require Import Ascii Lia.
From S2P Require Import Prelude PyStr PyVal PyAst Gates TextGates.

(** A component of a pattern against one of a path: a star is any run. *)
Fixpoint component_match (p : string) : string -> bool :=
  match p with
  | EmptyString => fun s => negb (str_true s)
  | String c p' =>
      if Ascii.eqb c "*" then
        fix star (s : string) : bool :=
          component_match p' s || match s with String _ s' => star s' | EmptyString => false end
      else fun s => match s with String d s' => Ascii.eqb c d && component_match p' s' | EmptyString => false end
  end.

(** Two stars are any number of directories, none as well. *)
Fixpoint glob_match (pattern : list string) : list string -> bool :=
  match pattern with
  | [] => fun p => match p with [] => true | _ :: _ => false end
  | c :: rest =>
      if String.eqb c "**" then
        fix dirs (p : list string) : bool :=
          glob_match rest p || match p with _ :: p' => dirs p' | [] => false end
      else fun p => match p with d :: p' => component_match c d && glob_match rest p' | [] => false end
  end.

Definition INCLUDE_GLOBS : list string :=
  ["docs/**/*.md"; "CLAUDE.md"; "README.md"; "apps/*/CLAUDE.md"; "apps/*/*/CLAUDE.md"; "apps/**/*.py";
   "config/**/*.py"; "scripts/**/*.py"].
Definition included (p : list string) : bool :=
  existsb (fun g => glob_match (split_char "/" g) p) INCLUDE_GLOBS.

(** [REPO_ROOT.glob] over the files of the checkout, and the files scanned. *)
Definition globbed (files : list source_file) : list string :=
  posix <$> List.filter included (path <$> files).
Definition scanned (files : list source_file) : list string := discover_files (globbed files).

(** ** Lemmas *)

Definition plain (c : string) : bool := all_chars (fun a => negb (Ascii.eqb a "*")) c.

Lemma component_plain c s : plain c = true -> component_match c s = String.eqb c s.
Proof.
  unfold plain. revert s. induction c as [|a c IH]; intros s; [by destruct s|]. cbn [all_chars component_match].
  intros [Ha Hc]%andb_true_iff. destruct (Ascii.eqb a "*"); [done|].
  destruct s as [|d s]; [done|]. cbn [String.eqb]. rewrite IH by done. by destruct (Ascii.eqb a d).
Qed.

Lemma component_suffix c s : plain c = true -> component_match (String "*" c) s = true <-> exists pre, s = pre +:+ c.
Proof.
  intros Hc. change (component_match (String "*" c)) with
    (fix star (s : string) : bool :=
       component_match c s || match s with String _ s' => star s' | EmptyString => false end).
  induction s as [|a s IH]; rewrite orb_true_iff, (component_plain _ _ Hc), String.eqb_eq.
  - split; [intros [->|]; [by exists ""|done]|]. intros [[|d pre] Hp]; [by left|done].
  - rewrite IH. split.
    + intros [->|[pre ->]]; [by exists ""|by exists (String a pre)].
    + intros [[|d pre] Hp]; [by left|]. injection Hp as -> ->. right. by exists pre.
Qed.

Lemma component_star s : component_match "*" s = true.
Proof. apply (component_suffix ""); [done|]. exists s. by rewrite str_app_nil_r. Qed.

Lemma glob_cons c l p :
  String.eqb c "**" = false ->
  glob_match (c :: l) p = match p with d :: p' => component_match c d && glob_match l p' | [] => false end.
Proof. intros Hc. cbn [glob_match]. by rewrite Hc. Qed.

Lemma glob_dirs l p :
  glob_match ("**" :: l) p = glob_match l p || match p with _ :: p' => glob_match ("**" :: l) p' | [] => false end.
Proof. by destruct p. Qed.

Lemma plain_not_dirs c : plain c = true -> String.eqb c "**" = false /\ String.eqb (String "*" c) "**" = false.
Proof. intros Hc. split; apply String.eqb_neq; [intros ->|intros [= ->]]; discriminate Hc. Qed.

Lemma glob_literal c l p :
  plain c = true -> glob_match (c :: l) p = true <-> exists p', p = c :: p' /\ glob_match l p' = true.
Proof.
  intros Hc. rewrite glob_cons by by apply plain_not_dirs. destruct p as [|d p']; [split; [done|by intros (? & ? & _)]|].
  rewrite andb_true_iff, (component_plain _ _ Hc), String.eqb_eq. naive_solver.
Qed.

Lemma glob_any l p : glob_match ("*" :: l) p = true <-> exists a p', p = a :: p' /\ glob_match l p' = true.
Proof.
  rewrite glob_cons by done. destruct p as [|d p']; [split; [done|by intros (? & ? & ? & _)]|].
  rewrite component_star. cbn [andb]. naive_solver.
Qed.

Lemma glob_nil p : glob_match [] p = true <-> p = [].
Proof. by destruct p. Qed.

(** A pattern with any directories and a suffix below [top]. *)
Lemma glob_below top suffix p :
  plain top = true -> plain suffix = true ->
  glob_match [top; "**"; String "*" suffix] p = true <->
  exists rest pre, p = top :: rest /\ rest <> [] /\ base_name p = pre +:+ suffix.
Proof.
  intros Ht Hs. rewrite (glob_literal _ _ _ Ht).
  assert (Hd : forall rest, glob_match ["**"; String "*" suffix] rest = true <->
            rest <> [] /\ exists pre, List.last rest "" = pre +:+ suffix).
  { induction rest as [|d rest IH]; rewrite glob_dirs, glob_cons by by apply plain_not_dirs.
    { split; [done|by intros []]. }
    rewrite orb_true_iff, andb_true_iff, IH, glob_nil, (component_suffix _ _ Hs). split.
    - intros [[[pre ->] ->]|[Hr [pre Hp]]]; (split; [done|]); exists pre; [done|by destruct rest].
    - intros [_ [pre Hp]]. destruct rest; [left; split; [by exists pre|done]|right; split; [done|by exists pre]]. }
  setoid_rewrite Hd. split.
  - intros (rest & -> & Hr & pre & Hp). exists rest, pre. split_and!; [done|done|]. by destruct rest.
  - intros (rest & pre & -> & Hr & Hp). exists rest. split_and!; [done|done|]. exists pre. by destruct rest.
Qed.

(** A file is scanned exactly when it is a document below [docs], one of the
    two documents of the root, the notes of an app or of a package of an app,
    or a Python file below [apps], [config] or [scripts]. *)
Theorem included_exact p :
  included p = true <->
  (exists rest pre, p = "docs" :: rest /\ rest <> [] /\ base_name p = pre +:+ ".md") \/
  p = ["CLAUDE.md"] \/ p = ["README.md"] \/
  (exists a, p = ["apps"; a; "CLAUDE.md"]) \/ (exists a b, p = ["apps"; a; b; "CLAUDE.md"]) \/
  (exists top rest pre, top ∈ ["apps"; "config"; "scripts"] /\ p = top :: rest /\ rest <> [] /\
     base_name p = pre +:+ ".py").
Proof.
  assert (Hall : included p = true <->
    glob_match ["docs"; "**"; "*.md"] p = true \/ glob_match ["CLAUDE.md"] p = true \/
    glob_match ["README.md"] p = true \/ glob_match ["apps"; "*"; "CLAUDE.md"] p = true \/
    glob_match ["apps"; "*"; "*"; "CLAUDE.md"] p = true \/ glob_match ["apps"; "**"; "*.py"] p = true \/
    glob_match ["config"; "**"; "*.py"] p = true \/ glob_match ["scripts"; "**"; "*.py"] p = true).
  { unfold included, INCLUDE_GLOBS. cbn [existsb]. rewrite orb_false_r, !orb_true_iff.
    repeat match goal with |- context [split_char "/" ?g] =>
      let parts := eval vm_compute in (split_char "/" g) in change (split_char "/" g) with parts end.
    tauto. }
  rewrite Hall, !glob_below by done. rewrite !(glob_literal "apps"), (glob_literal "CLAUDE.md"), (glob_literal "README.md") by done.
  assert (Happ : forall rest, glob_match ["*"; "CLAUDE.md"] rest = true <-> exists a, rest = [a; "CLAUDE.md"]).
  { intros rest. rewrite glob_any. setoid_rewrite (glob_literal "CLAUDE.md"); [|done]. setoid_rewrite glob_nil. naive_solver. }
  assert (Hpkg : forall rest, glob_match ["*"; "*"; "CLAUDE.md"] rest = true <-> exists a b, rest = [a; b; "CLAUDE.md"]).
  { intros rest. rewrite glob_any. setoid_rewrite Happ. naive_solver. }
  setoid_rewrite Happ. setoid_rewrite Hpkg. setoid_rewrite glob_nil.
  setoid_rewrite elem_of_cons. setoid_rewrite elem_of_cons. setoid_rewrite list_elem_of_singleton.
  split.
  - intros [?|[(? & -> & ->)|[(? & -> & ->)|[(? & -> & a & ->)|[(? & -> & a & b & ->)|H]]]]]; eauto 10.
    do 5 right. destruct H as [(rest & pre & -> & H)|[(rest & pre & -> & H)|(rest & pre & -> & H)]]; eauto 12.
  - intros [?|[->|[->|[[a ->]|[(a & b & ->)|(top & rest & pre & Htop & -> & H)]]]]]; eauto 12.
    do 5 right. destruct Htop as [->|[->| ->]]; eauto 12.
Qed.

(** Neither of the excluded prefixes begins a path the globs match. *)
Theorem exclude_prefixes_unused p :
  included p = true -> existsb (fun prefix => startswith prefix (posix p)) exclude_prefixes = false.
Proof.
  rewrite included_exact.
  assert (Hcons : forall d rest, rest <> [] -> exists t, posix (d :: rest) = d +:+ "/" +:+ t).
  { intros d [|r rest] Hr; [done|]. by eexists. }
  intros [(rest & pre & -> & Hr & _)|[->|[->|[[a ->]|[(a & b & ->)|(top & rest & pre & Htop & -> & Hr & _)]]]]]; try reflexivity.
  - by destruct (Hcons "docs" rest Hr) as [t ->].
  - destruct (Hcons top rest Hr) as [t ->]. rewrite !elem_of_cons, elem_of_nil in Htop.
    by destruct Htop as [->|[->|[->|[]]]].
Qed.
