(* ===== verification/Imports.v ===== *)
(** * Loading modules

    Python's import of the modules of a project, for the packages of
    [src/apps/core] that re-export their submodules: [sys.modules], packages
    before their submodules, [from ... import ...] with submodules and the
    module-level [__getattr__], and what a failed body leaves behind.  The
    tables are in [Packages].  Only the imports among the project's own modules
    are followed: an import from outside is taken to bind its names and do
    nothing else, although a third-party module may fail to load (Django's
    models before the app registry is ready) or import project modules in its
    turn (Django REST framework resolves the classes its settings name).  A reference loader evaluates the modules one
    after another in a given order; the loader agrees with it whatever is
    imported first. *)
From stdpp Require Import base list gmap strings.
From Stdlib Require Import Lia.
From S2P Require Import Prelude.

(** A dotted name, by its components. *)
Notation modname := (list string).

(** What a name is bound to: an object a module makes, named by the module
    and the name it gives it, or a module. *)
Inductive value := Obj (m : modname) (n : string) | Mod (m : modname).
#[export] Instance value_eq_dec : EqDecision value. Proof. solve_decision. Defined.

(** A statement of a module as far as imports go: it binds names to objects it
    makes or takes from outside of the project, or imports from the project,
    each name with the one it gets here. *)
Inductive stmt := Binds (names : list string) | From (m : modname) (names : list (string * string)).

Inductive import_error := ModuleNotFound (m : modname) | CannotImport (n : string) (m : modname) | RecursionLimit.

Notation namespace := (gmap string value).
Notation sys_modules := (gmap modname namespace).

Inductive request := Import (m : modname) | FromImport (m : modname) (names : list string).

(** [a.b.c] as [a], [a.b] and [a.b.c]. *)
Fixpoint prefixes_from (parent m : modname) : list modname :=
  match m with [] => [] | a :: m' => (parent ++ [a]) :: prefixes_from (parent ++ [a]) m' end.
Definition prefixes : modname -> list modname := prefixes_from [].
Definition parent (m : modname) : modname := removelast m.
Definition tail (m : modname) : string := List.last m "".

Section Loader.
Context (code : modname -> option (list stmt)).
(** What the [__getattr__] of a module imports for a name, and from where. *)
Context (lazy : modname -> string -> option (modname * string)).

Definition bind_name (m : modname) (n : string) (v : value) : act sys_modules import_error unit :=
  modify (alter <[n := v]> m).
Definition attr (s : sys_modules) (m : modname) (n : string) : option value := s !! m ≫= (.!! n).
Definition lazy_attr (s : sys_modules) (m : modname) (n : string) : option (modname * string) :=
  match attr s m "__getattr__" with Some _ => lazy m n | None => None end.

(** A module not in [sys.modules] is entered, its body runs, and it becomes an
    attribute of its package; a body that raises takes it out again. *)
Definition load (exec : modname -> list stmt -> act sys_modules import_error unit) (m : modname)
  : act sys_modules import_error unit := fun s =>
  match s !! m with
  | Some _ => (Ok tt, s)
  | None =>
      match code m with
      | None => (Raise (ModuleNotFound m), s)
      | Some body =>
          match exec m body (<[m := ∅]> s) with
          | (Ok _, s') => (Ok tt, alter <[tail m := Mod m]> (parent m) s')
          | (Raise e, s') => (Raise e, delete m s')
          end
      end
  end.

Section Step.
Context (step : request -> act sys_modules import_error (list value)).

(** A name of the list that is no attribute is tried as a submodule. *)
Definition ensure (m : modname) (n : string) : act sys_modules import_error unit :=
  s ← get_state;
  match attr s m n, lazy_attr s m n, code (m ++ [n]) with
  | Some _, _, _ => mret tt
  | None, Some (t, n'), _ => step (FromImport t [n']) ≫= fun _ => mret tt
  | None, None, Some _ => step (Import (m ++ [n])) ≫= fun _ => mret tt
  | None, None, None => mret tt
  end.

(** The attribute, what [__getattr__] answers, or a module still loading. *)
Definition get (m : modname) (n : string) : act sys_modules import_error (list value) :=
  s ← get_state;
  match attr s m n, lazy_attr s m n, s !! (m ++ [n]) with
  | Some v, _, _ => mret [v]
  | None, Some (t, n'), _ => step (FromImport t [n'])
  | None, None, Some _ => mret [Mod (m ++ [n])]
  | None, None, None => raise (CannotImport n m)
  end.

Fixpoint get_all (m : modname) (names : list string) : act sys_modules import_error (list value) :=
  match names with
  | [] => mret []
  | n :: names' => v ← get m n; vs ← get_all m names'; mret (v ++ vs)
  end.

Definition run_stmt (m : modname) (st : stmt) : act sys_modules import_error unit :=
  match st with
  | Binds names => for_each (fun n => bind_name m n (Obj m n)) names
  | From x names =>
      vs ← step (FromImport x names.*1);
      for_each (fun nv => bind_name m nv.1 nv.2) (zip names.*2 vs)
  end.
End Step.

(** The fuel is the depth of the interpreter's stack. *)
Fixpoint step (fuel : nat) (r : request) : act sys_modules import_error (list value) :=
  match fuel with
  | 0 => raise RecursionLimit
  | S f =>
      match r with
      | Import m => for_each (load (fun x => for_each (run_stmt (step f) x))) (prefixes m) ≫= fun _ => mret []
      | FromImport m names =>
          step f (Import m) ≫= fun _ =>
          for_each (ensure (step f) m) names ≫= fun _ => get_all (step f) m names
      end
  end.

(** ** The reference: every module after the ones it imports *)

(** A name of [x]: bound by its body, or else a submodule. *)
Definition ref_attr (env : sys_modules) (x : modname) (n : string) : option value :=
  ns ← env !! x;
  match ns !! n, lazy x n, env !! (x ++ [n]) with
  | Some v, _, _ => Some v
  | None, None, Some _ => Some (Mod (x ++ [n]))
  | None, _, _ => None
  end.

Definition in_env (env : sys_modules) (m : modname) : bool := bool_decide (is_Some (env !! m)).

Definition bind_all (ns : namespace) (nvs : list (string * value)) : namespace :=
  foldl (fun acc nv => <[nv.1 := nv.2]> acc) ns nvs.

Definition ref_stmt (env : sys_modules) (m : modname) (ns : namespace) (st : stmt) : option namespace :=
  match st with
  | Binds names => Some (bind_all ns ((fun n => (n, Obj m n)) <$> names))
  | From x names =>
      if in_env env x && forallb (fun y => in_env env y || bool_decide (y ∈ prefixes m)) (prefixes x)
      then vs ← mapM (ref_attr env x) names.*1; Some (bind_all ns (zip names.*2 vs))
      else None
  end.

Fixpoint ref_body (env : sys_modules) (m : modname) (ns : namespace) (body : list stmt) : option namespace :=
  match body with
  | [] => Some ns
  | st :: body' => ns' ← ref_stmt env m ns st; ref_body env m ns' body'
  end.

Fixpoint reference (env : sys_modules) (order : list modname) : option sys_modules :=
  match order with
  | [] => Some env
  | m :: order' =>
      if in_env env m then None
      else body ← code m; ns ← ref_body env m ∅ body; reference (<[m := ns]> env) order'
  end.

(** What an import of the name from outside of the project gets: as
    [ref_attr], or through [__getattr__]. *)
Definition exported (env : sys_modules) (x : modname) (n : string) : option value :=
  match ref_attr env x n, attr env x "__getattr__", lazy x n with
  | Some v, _, _ => Some v
  | None, Some _, Some (t, n') => ref_attr env t n'
  | None, _, _ => None
  end.
Definition answer (env : sys_modules) (r : request) : option (list value) :=
  match r with
  | Import m => if in_env env m then Some [] else None
  | FromImport m names => if in_env env m then mapM (exported env m) names else None
  end.

(** Requests one after another. *)
Fixpoint session (fuel : nat) (rs : list request) : act sys_modules import_error (list (list value)) :=
  match rs with
  | [] => mret []
  | r :: rs' => v ← step fuel r; vs ← session fuel rs'; mret (v :: vs)
  end.

(** A table fits: its order loads, submodules are below packages of the table
    and shadow none of their names, and no [__getattr__] competes with a
    submodule. *)
Definition well_placed (env : sys_modules) (m : modname) : bool :=
  negb (bool_decide (m = [])) && (bool_decide (parent m = []) || in_env env (parent m)) &&
  bool_decide (attr env (parent m) (tail m) = None) && bool_decide (lazy (parent m) (tail m) = None).
Definition fits (order : list modname) (env : sys_modules) : bool :=
  bool_decide (reference ∅ order = Some env) && forallb (well_placed env) order.
End Loader.

(** ** Lemmas *)

Lemma parent_app m n : parent (m ++ [n]) = m.
Proof. apply removelast_last. Qed.

Lemma tail_app m n : tail (m ++ [n]) = n.
Proof. apply last_last. Qed.

Lemma parent_tail m : m <> [] -> parent m ++ [tail m] = m.
Proof. intros Hm. symmetry. by apply app_removelast_last. Qed.

Lemma prefixes_snoc p m n : prefixes_from p (m ++ [n]) = prefixes_from p m ++ [p ++ m ++ [n]].
Proof. revert p. induction m as [|a m IH]; intros p; cbn; [done|]. by rewrite IH, <- (app_assoc p). Qed.

Lemma prefixes_self m : m <> [] -> m ∈ prefixes m.
Proof.
  intros Hm. rewrite <- (parent_tail m Hm). unfold prefixes.
  rewrite prefixes_snoc, elem_of_app, list_elem_of_singleton. by right.
Qed.

Lemma for_each_fmap {S E A B} (f : A -> B) (body : B -> act S E unit) xs s :
  for_each body (f <$> xs) s = for_each (fun x => body (f x)) xs s.
Proof.
  revert s. induction xs as [|x xs IH]; intros s; cbn; [done|].
  unfold mbind, act_bind. destruct (body (f x) s) as [[]]; [apply IH|done].
Qed.

Lemma bind_names m nvs s :
  for_each (fun nv => bind_name m nv.1 nv.2) nvs s = (Ok tt, alter (fun ns => bind_all ns nvs) m s).
Proof.
  revert s. induction nvs as [|[n v] nvs IH]; intros s; cbn.
  - f_equal. symmetry. by apply alter_id.
  - unfold mbind, act_bind, bind_name at 1, modify. rewrite IH. f_equal. apply map_eq. intros k.
    destruct (decide (k = m)) as [->|]; [|by rewrite !lookup_alter_ne].
    rewrite !lookup_alter_eq. by destruct (s !! m).
Qed.

Section Agrees.
Context (code : modname -> option (list stmt)) (lazy : modname -> string -> option (modname * string)).
Context (order : list modname) (F : sys_modules).
Hypothesis Hfits : fits code lazy order F = true.

Notation step := (step code lazy).
Notation exec f := (fun x => for_each (run_stmt (step f) x)).

Lemma reference_sub E l G : reference code lazy E l = Some G -> forall y ns, E !! y = Some ns -> G !! y = Some ns.
Proof.
  revert E. induction l as [|m l IH]; intros E; cbn; [by intros [= ->]|].
  unfold in_env. case_bool_decide as Hm; [done|]. destruct (code m); [|done]. cbn.
  destruct (ref_body _ _ _ _ _) as [ns0|]; [|done]. cbn. intros HG y ns Hy. apply (IH _ HG).
  rewrite lookup_insert_ne; [done|]. intros ->. apply Hm. by exists ns.
Qed.

Lemma reference_dom E l G : reference code lazy E l = Some G -> forall y, is_Some (G !! y) <-> is_Some (E !! y) \/ y ∈ l.
Proof.
  revert E. induction l as [|m l IH]; intros E; cbn.
  - intros [= ->] y. rewrite elem_of_nil. tauto.
  - destruct (in_env E m); [done|]. destruct (code m); [|done]. cbn.
    destruct (ref_body _ _ _ _ _) as [ns0|]; [|done]. cbn. intros HG y.
    rewrite (IH _ HG), elem_of_cons, lookup_insert_is_Some'. naive_solver.
Qed.

Lemma fits_reference : reference code lazy ∅ order = Some F.
Proof. unfold fits in Hfits. by apply andb_true_iff in Hfits as [?%bool_decide_eq_true _]. Qed.

Lemma in_F y : is_Some (F !! y) <-> y ∈ order.
Proof. rewrite (reference_dom _ _ _ fits_reference), lookup_empty. split; [intros [[? [=]]|]|]; auto. Qed.

Lemma reference_code E l G : reference code lazy E l = Some G -> forall y, y ∈ l -> is_Some (code y).
Proof.
  revert E. induction l as [|m l IH]; intros E; cbn; [intros _ y Hy; by apply elem_of_nil in Hy|].
  destruct (in_env E m); [done|]. destruct (code m) as [body|] eqn:Hm; [|done]. cbn.
  destruct (ref_body _ _ _ _ _) as [ns0|]; [|done]. cbn. intros HG y [->|Hy]%elem_of_cons; [by exists body|eauto].
Qed.

Lemma F_code y : is_Some (F !! y) -> is_Some (code y).
Proof. intros Hy%in_F. by eapply reference_code; [apply fits_reference|]. Qed.

Lemma placed m : is_Some (F !! m) ->
  m <> [] /\ (parent m = [] \/ is_Some (F !! parent m)) /\ attr F (parent m) (tail m) = None /\
  lazy (parent m) (tail m) = None.
Proof.
  intros Hm%in_F. unfold fits in Hfits. apply andb_true_iff in Hfits as [_ Hp].
  rewrite forallb_forall in Hp. specialize (Hp m). rewrite <- list_elem_of_In in Hp. specialize (Hp Hm).
  unfold well_placed, in_env in Hp. rewrite !andb_true_iff, negb_true_iff, orb_true_iff, !bool_decide_eq_true, bool_decide_eq_false in Hp.
  tauto.
Qed.

Definition child (y : modname) (n : string) : Prop := is_Some (F !! (y ++ [n])).

Lemma child_fresh y n : child y n -> attr F y n = None /\ lazy y n = None.
Proof. intros Hc. apply placed in Hc as (_ & _ & Ha & Hl). by rewrite parent_app, tail_app in *. Qed.

(** Loading submodules adds them to a namespace and changes nothing else. *)
Definition extends (y : modname) (ns ns' : namespace) : Prop :=
  forall n, ns' !! n = ns !! n \/ child y n /\ ns' !! n = Some (Mod (y ++ [n])).
(** A namespace is the reference one but for submodules. *)
Definition matches (y : modname) (acc ns : namespace) : Prop :=
  forall n, match acc !! n with
       | Some v => ns !! n = Some v
       | None => ns !! n = None \/ child y n /\ ns !! n = Some (Mod (y ++ [n]))
       end.
Definition grows (s s' : sys_modules) : Prop :=
  forall y ns, s !! y = Some ns -> exists ns', s' !! y = Some ns' /\ extends y ns ns'.
Definition grows_but (m : modname) (s s' : sys_modules) : Prop :=
  forall y ns, y <> m -> s !! y = Some ns -> exists ns', s' !! y = Some ns' /\ extends y ns ns'.

(** Modules are loaded below their packages, and those that are not still
    running hold what the reference gives them. *)
Definition sound (busy : list modname) (s : sys_modules) : Prop :=
  forall y ns, s !! y = Some ns ->
    is_Some (F !! y) /\ (parent y = [] \/ is_Some (s !! parent y)) /\ (y ∉ busy -> matches y (F !!! y) ns).

Lemma extends_refl y ns : extends y ns ns.
Proof. by left. Qed.

Lemma extends_trans y a b c : extends y a b -> extends y b c -> extends y a c.
Proof. intros Hab Hbc n. destruct (Hbc n) as [->|?]; [apply Hab|by right]. Qed.

Lemma grows_refl s : grows s s.
Proof. intros y ns Hy. eauto using extends_refl. Qed.

Lemma grows_trans a b c : grows a b -> grows b c -> grows a c.
Proof.
  intros Hab Hbc y ns Hy. destruct (Hab y ns Hy) as (ns1 & Hy1 & H1). destruct (Hbc y ns1 Hy1) as (ns2 & Hy2 & H2).
  eauto using extends_trans.
Qed.

Lemma grows_but_trans m a b c : grows_but m a b -> grows_but m b c -> grows_but m a c.
Proof.
  intros Hab Hbc y ns Hm Hy. destruct (Hab y ns Hm Hy) as (ns1 & Hy1 & H1).
  destruct (Hbc y ns1 Hm Hy1) as (ns2 & Hy2 & H2). eauto using extends_trans.
Qed.

Lemma grows_grows_but m s s' : grows s s' -> grows_but m s s'.
Proof. intros Hg y ns _. apply Hg. Qed.

Lemma grows_some s s' y : grows s s' -> is_Some (s !! y) -> is_Some (s' !! y).
Proof. intros Hg [ns Hy]. destruct (Hg y ns Hy) as (ns' & Hy' & _). by exists ns'. Qed.

Lemma grows_attr s s' x n : grows s s' -> is_Some (attr s x n) -> is_Some (attr s' x n).
Proof.
  intros Hg [v Hv]. unfold attr in *. apply bind_Some in Hv as (ns & Hx & Hn). destruct (Hg x ns Hx) as (ns' & -> & He).
  cbn. destruct (He n) as [->|[_ ->]]; [rewrite Hn|]; eauto.
Qed.

Lemma matches_extends y acc ns ns' :
  (forall n, child y n -> acc !! n = None) -> matches y acc ns -> extends y ns ns' -> matches y acc ns'.
Proof.
  intros Hc Hm He n. specialize (Hm n). specialize (Hc n).
  destruct (He n) as [Hn|[Hch Hn]]; [by rewrite Hn|]. rewrite Hc by done. by right.
Qed.

Lemma matches_bind y nvs acc ns : matches y acc ns -> matches y (bind_all acc nvs) (bind_all ns nvs).
Proof.
  revert acc ns. induction nvs as [|[n v] nvs IH]; intros acc ns Hm; [done|]. cbn. apply IH. intros k.
  destruct (decide (k = n)) as [->|]; [by rewrite !lookup_insert_eq|]. rewrite !lookup_insert_ne by done. apply Hm.
Qed.

Lemma F_total y ns : F !! y = Some ns -> F !!! y = ns.
Proof. intros Hy. unfold lookup_total, map_lookup_total. by rewrite Hy. Qed.

Lemma child_none y n : child y n -> F !!! y !! n = None.
Proof.
  intros [Ha _]%child_fresh. unfold attr in Ha. destruct (F !! y) as [ns|] eqn:Hy.
  - by rewrite (F_total _ _ Hy).
  - unfold lookup_total, map_lookup_total. by rewrite Hy.
Qed.

(** A loaded module has its packages loaded. *)
Lemma sound_prefixes B s y : sound B s -> is_Some (s !! y) -> forall z, z ∈ prefixes y -> is_Some (s !! z).
Proof.
  intros Hs. induction y as [|n y IH] using rev_ind; intros Hy z Hz; [by apply elem_of_nil in Hz|].
  unfold prefixes in Hz. rewrite prefixes_snoc, elem_of_app, list_elem_of_singleton in Hz.
  destruct Hz as [Hz| ->]; [|done]. destruct Hy as [ns Hy]. destruct (Hs _ _ Hy) as (_ & Hp & _). rewrite parent_app in Hp.
  destruct Hp as [->|Hp]; [by apply elem_of_nil in Hz|]. by apply IH.
Qed.

(** *** Importing from a state in which a set of modules is ready *)

Definition ready (E : sys_modules) (k : nat) : Prop :=
  forall f m s B, k <= f -> is_Some (E !! m) -> sound B s -> (forall y, y ∈ B -> E !! y = None) ->
    parent m = [] \/ is_Some (s !! parent m) ->
    exists s', load code (exec f) m s = (Ok tt, s') /\ sound B s' /\ grows s s' /\ is_Some (s' !! m).

Section Ready.
Context (E : sys_modules) (k f : nat) (B : list modname).
Hypothesis HE : forall y ns, E !! y = Some ns -> F !! y = Some ns.
Hypothesis Hready : ready E k.
Hypothesis Hk : k <= f.
Hypothesis HB : forall y, y ∈ B -> E !! y = None.

Lemma loads_ok x p s :
  sound B s -> p = [] \/ is_Some (s !! p) ->
  (forall y, y ∈ prefixes_from p x -> is_Some (E !! y) \/ is_Some (s !! y)) ->
  exists s', for_each (load code (exec f)) (prefixes_from p x) s = (Ok tt, s') /\ sound B s' /\ grows s s' /\
    forall y, y ∈ prefixes_from p x -> is_Some (s' !! y).
Proof.
  revert p s. induction x as [|a x IH]; intros p s Hs Hp Hx; cbn [prefixes_from for_each].
  { exists s. split_and!; [done|done|apply grows_refl|]. intros y Hy. by apply elem_of_nil in Hy. }
  cbn [prefixes_from] in Hx.
  assert (Hl : exists s1, load code (exec f) (p ++ [a]) s = (Ok tt, s1) /\ sound B s1 /\ grows s s1 /\ is_Some (s1 !! (p ++ [a]))).
  { destruct (s !! (p ++ [a])) as [ns|] eqn:Hns.
    - exists s. unfold load. rewrite Hns. eauto using grows_refl.
    - apply (Hready f); [done| |done|done|by rewrite parent_app].
      destruct (Hx (p ++ [a])) as [?|[? [=]]]; [by left|done|congruence]. }
  destruct Hl as (s1 & Hl & Hs1 & Hg1 & Hp1). destruct (IH (p ++ [a]) s1 Hs1) as (s2 & Hf & Hs2 & Hg2 & Hd).
  { by right. }
  { intros y Hy. destruct (Hx y); [by right|by left|right; by eapply grows_some]. }
  exists s2. unfold mbind, act_bind. rewrite Hl. split_and!; [done|done|by eapply grows_trans|].
  intros y [->|Hy]%elem_of_cons; [by eapply grows_some|by apply Hd].
Qed.

Lemma import_ok x s :
  sound B s -> (forall y, y ∈ prefixes x -> is_Some (E !! y) \/ is_Some (s !! y)) ->
  exists s', step (S f) (Import x) s = (Ok [], s') /\ sound B s' /\ grows s s' /\
    forall y, y ∈ prefixes x -> is_Some (s' !! y).
Proof.
  intros Hs Hx. destruct (loads_ok x [] s Hs (or_introl eq_refl) Hx) as (s' & Hl & ?).
  exists s'. split; [|done]. cbn. unfold mbind, act_bind. unfold prefixes. by rewrite Hl.
Qed.

(** A name of the reference, in a state its module is loaded in. *)
Lemma ref_attr_cases x n v s :
  ref_attr lazy E x n = Some v -> sound B s -> is_Some (s !! x) ->
  attr s x n = Some v \/
  attr s x n = None /\ lazy x n = None /\ child x n /\ is_Some (E !! (x ++ [n])) /\ v = Mod (x ++ [n]).
Proof.
  intros Hr Hs [ns Hns]. unfold ref_attr in Hr. apply bind_Some in Hr as (nsE & HxE & Hr).
  destruct (Hs _ _ Hns) as (_ & _ & Hm). specialize (Hm (fun Hin => ltac:(by rewrite (HB _ Hin) in HxE)) n).
  rewrite (F_total _ _ (HE _ _ HxE)) in Hm. unfold attr. rewrite Hns. cbn.
  destruct (nsE !! n) as [v'|]; [injection Hr as ->; by left|]. destruct (lazy x n); [done|].
  destruct (E !! (x ++ [n])) as [nsc|] eqn:Hc; [|done]. injection Hr as <-.
  destruct Hm as [Hn|[Hch Hn]]; rewrite Hn; [right|by left]. split_and!; eauto.
  unfold child. rewrite (HE _ _ Hc). eauto.
Qed.

Definition held (s : sys_modules) (x : modname) (n : string) : Prop :=
  is_Some (attr s x n) \/ is_Some (s !! (x ++ [n])).

Lemma held_grows s s' x n : grows s s' -> held s x n -> held s' x n.
Proof. intros Hg [?|?]; [left; by eapply grows_attr|right; by eapply grows_some]. Qed.

Lemma ensure_ok x n v s :
  ref_attr lazy E x n = Some v -> sound B s -> is_Some (s !! x) ->
  exists s', ensure code lazy (step (S f)) x n s = (Ok tt, s') /\ sound B s' /\ grows s s' /\ held s' x n.
Proof.
  intros Hr Hs Hx. unfold ensure, get_state. unfold mbind at 1, act_bind at 1.
  destruct (ref_attr_cases x n v s Hr Hs Hx) as [Ha|(Ha & Hl & Hch & Hc & ->)]; rewrite Ha.
  { exists s. split_and!; [done|done|apply grows_refl|]. left. eauto. }
  assert (Hla : lazy_attr lazy s x n = None) by (unfold lazy_attr; rewrite Hl; by case_match). rewrite Hla.
  destruct (import_ok (x ++ [n]) s Hs) as (s' & Hi & Hs' & Hg & Hd).
  { intros y. unfold prefixes. rewrite prefixes_snoc, elem_of_app, list_elem_of_singleton.
    intros [Hy| ->]; [right; by eapply sound_prefixes|by left]. }
  destruct (F_code _ Hch) as [body Hbody]. rewrite Hbody.
  exists s'. unfold mbind, act_bind. rewrite Hi.
  assert (Hin : is_Some (s' !! (x ++ [n]))).
  { apply Hd. unfold prefixes. rewrite prefixes_snoc, elem_of_app, list_elem_of_singleton. by right. }
  split_and!; [done|done|done|by right].
Qed.

Lemma get_ok g x n v s :
  ref_attr lazy E x n = Some v -> sound B s -> is_Some (s !! x) -> held s x n -> get lazy g x n s = (Ok [v], s).
Proof.
  intros Hr Hs Hx Hh. unfold get, get_state. unfold mbind at 1, act_bind at 1.
  destruct (ref_attr_cases x n v s Hr Hs Hx) as [Ha|(Ha & Hl & Hch & Hc & ->)]; rewrite Ha; [done|].
  assert (Hla : lazy_attr lazy s x n = None) by (unfold lazy_attr; rewrite Hl; by case_match). rewrite Hla.
  destruct Hh as [[? Hh]|[? ->]]; [congruence|done].
Qed.

(** The names of a list, when each can be had. *)
Section Names.
Context (g : request -> act sys_modules import_error (list value)) (x : modname).
Context (want : string -> value -> Prop) (kept : sys_modules -> string -> Prop).
Hypothesis Hkept : forall s s' n, grows s s' -> kept s n -> kept s' n.
Hypothesis Hensure : forall n v s, want n v -> sound B s -> is_Some (s !! x) ->
  exists s', ensure code lazy g x n s = (Ok tt, s') /\ sound B s' /\ grows s s' /\ kept s' n.
Hypothesis Hget : forall n v s, want n v -> sound B s -> is_Some (s !! x) -> kept s n ->
  exists s', get lazy g x n s = (Ok [v], s') /\ sound B s' /\ grows s s'.

Lemma ensures_ok names vs s : Forall2 want names vs -> sound B s -> is_Some (s !! x) ->
  exists s', for_each (ensure code lazy g x) names s = (Ok tt, s') /\ sound B s' /\ grows s s' /\
    forall n, n ∈ names -> kept s' n.
Proof.
  intros Hw. revert s. induction Hw as [|n v names vs Hn Hw IH]; intros s Hs Hx.
  { exists s. split_and!; [done|done|apply grows_refl|]. intros n Hn. by apply elem_of_nil in Hn. }
  destruct (Hensure n v s Hn Hs Hx) as (s1 & He & Hs1 & Hg1 & Hk1).
  destruct (IH s1 Hs1 (grows_some _ _ _ Hg1 Hx)) as (s2 & He2 & Hs2 & Hg2 & Hk2).
  exists s2. cbn. unfold mbind, act_bind. rewrite He. split_and!; [done|done|by eapply grows_trans|].
  intros m [->|Hm]%elem_of_cons; [by eapply Hkept|by apply Hk2].
Qed.

Lemma gets_ok names vs s : Forall2 want names vs -> sound B s -> is_Some (s !! x) -> (forall n, n ∈ names -> kept s n) ->
  exists s', get_all lazy g x names s = (Ok vs, s') /\ sound B s' /\ grows s s'.
Proof.
  intros Hw. revert s. induction Hw as [|n v names vs Hn Hw IH]; intros s Hs Hx Hkp.
  { exists s. split_and!; [done|done|apply grows_refl]. }
  destruct (Hget n v s Hn Hs Hx) as (s1 & He & Hs1 & Hg1); [apply Hkp; by left|].
  destruct (IH s1 Hs1 (grows_some _ _ _ Hg1 Hx)) as (s2 & He2 & Hs2 & Hg2).
  { intros m Hm. eapply Hkept; [done|]. apply Hkp. by right. }
  exists s2. cbn. unfold mbind, act_bind. rewrite He, He2. split_and!; [done|done|by eapply grows_trans].
Qed.

Lemma names_ok names vs s : Forall2 want names vs -> sound B s -> is_Some (s !! x) ->
  exists s', (for_each (ensure code lazy g x) names ≫= fun _ => get_all lazy g x names) s = (Ok vs, s') /\
    sound B s' /\ grows s s'.
Proof.
  intros Hw Hs Hx. destruct (ensures_ok names vs s Hw Hs Hx) as (s1 & He & Hs1 & Hg1 & Hkp).
  destruct (gets_ok names vs s1 Hw Hs1 (grows_some _ _ _ Hg1 Hx) Hkp) as (s2 & Hge & Hs2 & Hg2).
  exists s2. unfold mbind, act_bind. rewrite He. split_and!; [done|done|by eapply grows_trans].
Qed.
End Names.

Lemma from_step g x names vs s s1 :
  g (Import x) s = (Ok [], s1) -> sound B s1 -> grows s s1 ->
  (exists s', (for_each (ensure code lazy g x) names ≫= fun _ => get_all lazy g x names) s1 = (Ok vs, s') /\
    sound B s' /\ grows s1 s') ->
  exists s', (g (Import x) ≫= fun _ => for_each (ensure code lazy g x) names ≫= fun _ => get_all lazy g x names) s
               = (Ok vs, s') /\ sound B s' /\ grows s s'.
Proof.
  intros Hg Hs1 Hg1 (s2 & Hn & Hs2 & Hg2). exists s2. unfold mbind at 1, act_bind at 1. rewrite Hg.
  split_and!; [done|done|by eapply grows_trans].
Qed.

Lemma from_ok x names vs s :
  mapM (ref_attr lazy E x) names = Some vs -> sound B s -> is_Some (E !! x) ->
  (forall y, y ∈ prefixes x -> is_Some (E !! y) \/ is_Some (s !! y)) ->
  exists s', step (S (S f)) (FromImport x names) s = (Ok vs, s') /\ sound B s' /\ grows s s'.
Proof.
  intros Hm%mapM_Some Hs Hx Hp. destruct (import_ok x s Hs Hp) as (s1 & Hi & Hs1 & Hg1 & Hd).
  eapply from_step; [done|done|done|]. eapply (names_ok _ x (fun n v => ref_attr lazy E x n = Some v) (fun s => held s x)).
  - intros s' s'' n. apply held_grows.
  - intros n v s' Hr Hs' Hx'. by apply ensure_ok with v.
  - intros n v s' Hr Hs' Hx' Hh. exists s'. split_and!; [by apply get_ok|done|apply grows_refl].
  - done.
  - done.
  - apply Hd, prefixes_self. destruct Hx as [ns Hx]. apply (placed x). rewrite (HE _ _ Hx). eauto.
Qed.

(** A running module keeps up with the reference. *)
Lemma bind_running m nvs acc ns s :
  m ∈ B -> sound B s -> s !! m = Some ns -> matches m acc ns ->
  let s' := alter (fun ns => bind_all ns nvs) m s in
  sound B s' /\ s' !! m = Some (bind_all ns nvs) /\ matches m (bind_all acc nvs) (bind_all ns nvs) /\ grows_but m s s'.
Proof.
  intros Hin Hs Hm Hma s'. assert (Hs'm : s' !! m = Some (bind_all ns nvs)) by (unfold s'; by rewrite lookup_alter_eq, Hm).
  assert (Hne : forall y, y <> m -> s' !! y = s !! y) by (intros y Hy; unfold s'; by rewrite lookup_alter_ne).
  assert (Hsome : forall y, is_Some (s !! y) -> is_Some (s' !! y)).
  { intros y Hy. destruct (decide (y = m)) as [->|Hd]; [rewrite Hs'm; eauto|by rewrite (Hne y Hd)]. }
  split_and!; [|done|by apply matches_bind|intros y ns' Hy Hns; rewrite (Hne y Hy); eauto using extends_refl].
  intros y ns' Hy. destruct (decide (y = m)) as [->|Hd].
  - destruct (Hs _ _ Hm) as (HF & Hp & _). split_and!; [done|naive_solver|done].
  - rewrite (Hne y Hd) in Hy. destruct (Hs _ _ Hy) as (HF & Hp & Hma'). split_and!; [done|naive_solver|done].
Qed.

Lemma stmt_ok m st acc acc' ns s :
  m ∈ B -> sound B s -> s !! m = Some ns -> (forall n, child m n -> acc !! n = None) -> matches m acc ns ->
  ref_stmt lazy E m acc st = Some acc' ->
  exists s' ns', run_stmt (step (S (S f))) m st s = (Ok tt, s') /\ sound B s' /\ s' !! m = Some ns' /\
    matches m acc' ns' /\ grows_but m s s'.
Proof.
  intros Hin Hs Hm Hc Hma Hr. destruct st as [names|x nns]; cbn [ref_stmt run_stmt] in *.
  - injection Hr as <-. rewrite <- (for_each_fmap (fun n => (n, Obj m n)) (fun nv => bind_name m nv.1 nv.2)), bind_names.
    destruct (bind_running m ((fun n => (n, Obj m n)) <$> names) acc ns s Hin Hs Hm Hma) as (? & ? & ? & ?). eauto 10.
  - destruct (in_env E x && _) eqn:Hp; [|done]. apply andb_true_iff in Hp as [Hx%bool_decide_eq_true Hp].
    apply bind_Some in Hr as (vs & Hvs & Hr). injection Hr as <-. rewrite forallb_forall in Hp.
    destruct (from_ok x nns.*1 vs s Hvs Hs Hx) as (s1 & Hf & Hs1 & Hg1).
    { intros y Hy%list_elem_of_In. apply Hp in Hy. unfold in_env in Hy.
      apply orb_true_iff in Hy as [?%bool_decide_eq_true|Hy%bool_decide_eq_true]; [by left|right].
      eapply sound_prefixes; [done|eauto|done]. }
    destruct (Hg1 _ _ Hm) as (ns1 & Hm1 & He).
    unfold mbind, act_bind. rewrite Hf, bind_names.
    destruct (bind_running m (zip nns.*2 vs) acc ns1 s1 Hin Hs1 Hm1) as (? & ? & ? & ?); [by eapply matches_extends|].
    do 2 eexists. split_and!; [done|done|done|done|]. eapply grows_but_trans; [by apply grows_grows_but|done].
Qed.

Lemma bind_all_some nvs acc n : is_Some (acc !! n) -> is_Some (bind_all acc nvs !! n).
Proof.
  revert acc. induction nvs as [|nv nvs IH]; intros acc Ha; [done|]. cbn. apply IH. rewrite lookup_insert_is_Some'. by right.
Qed.

Lemma ref_body_some m body acc G n : ref_body lazy E m acc body = Some G -> is_Some (acc !! n) -> is_Some (G !! n).
Proof.
  revert acc. induction body as [|st body IH]; intros acc; cbn; [by intros [= ->]|].
  intros (acc' & Hst & HG)%bind_Some Ha. apply (IH acc' HG). destruct st as [names|x nns]; cbn in Hst.
  - injection Hst as <-. by apply bind_all_some.
  - case_match; [|done]. apply bind_Some in Hst as (vs & _ & [= <-]). by apply bind_all_some.
Qed.

Lemma body_ok m body acc G ns s :
  m ∈ B -> sound B s -> s !! m = Some ns -> (forall n, child m n -> G !! n = None) -> matches m acc ns ->
  ref_body lazy E m acc body = Some G ->
  exists s' ns', for_each (run_stmt (step (S (S f))) m) body s = (Ok tt, s') /\ sound B s' /\ s' !! m = Some ns' /\
    matches m G ns' /\ grows_but m s s'.
Proof.
  intros Hin. revert acc ns s. induction body as [|st body IH]; intros acc ns s Hs Hm Hc Hma Hr; cbn [for_each ref_body] in *.
  { injection Hr as ->. do 2 eexists. split_and!; [done|done|done|done|]. apply grows_grows_but, grows_refl. }
  apply bind_Some in Hr as (acc' & Hst & Hr).
  destruct (stmt_ok m st acc acc' ns s Hin Hs Hm) as (s1 & ns1 & He & Hs1 & Hm1 & Hma1 & Hg1); [|done|done|].
  { intros n Hn. apply eq_None_not_Some. intros Ha. specialize (Hc n Hn).
    destruct (ref_body_some m (st :: body) acc G n) as [? ?]; [by cbn; rewrite Hst|done|congruence]. }
  destruct (IH acc' ns1 s1 Hs1 Hm1 Hc Hma1 Hr) as (s2 & ns2 & He2 & Hs2 & Hm2 & Hma2 & Hg2).
  exists s2, ns2. unfold mbind, act_bind. rewrite He. split_and!; [done|done|done|done|by eapply grows_but_trans].
Qed.
End Ready.

Lemma sound_enter B m s : is_Some (F !! m) -> parent m = [] \/ is_Some (s !! parent m) -> s !! m = None ->
  sound B s -> sound (m :: B) (<[m := ∅]> s).
Proof.
  intros HF Hp Hm Hs y ns [[<- <-]|[Hne Hy]]%lookup_insert_Some.
  - split_and!; [done| |by intros []; left]. destruct Hp as [|Hp]; [by left|right]. rewrite lookup_insert_is_Some'. by right.
  - destruct (Hs y ns Hy) as (HFy & Hpy & Hma). split_and!; [done| |].
    + destruct Hpy as [|Hpy]; [by left|right]. rewrite lookup_insert_is_Some'. by right.
    + intros Hnot. apply Hma. intros Hin. apply Hnot. by right.
Qed.

Lemma sound_leave B m G ns s : m <> [] -> F !! m = Some G -> sound (m :: B) s -> s !! m = Some ns -> matches m G ns ->
  sound B (alter <[tail m := Mod m]> (parent m) s) /\ grows s (alter <[tail m := Mod m]> (parent m) s).
Proof.
  intros Hm HF Hs Hns Hma. set (s' := alter _ _ s).
  assert (Hg : grows s s').
  { intros y nsy Hy. unfold s'. destruct (decide (y = parent m)) as [->|Hd].
    - rewrite lookup_alter_eq, Hy. eexists. split; [done|]. intros n.
      destruct (decide (n = tail m)) as [->|]; [right|left; by rewrite lookup_insert_ne].
      rewrite lookup_insert_eq. unfold child. rewrite parent_tail by done. eauto.
    - rewrite lookup_alter_ne by done. eauto using extends_refl. }
  split; [|done]. intros y nsy' Hy'.
  assert (Hy : exists nsy, s !! y = Some nsy).
  { unfold s' in Hy'. apply lookup_alter_Some in Hy' as [(<- & ? & ? & _)|[_ ?]]; eauto. }
  destruct Hy as [nsy Hy]. destruct (Hs y nsy Hy) as (HFy & Hp & Hmy). destruct (Hg y nsy Hy) as (ns' & Hns' & He).
  rewrite Hns' in Hy'. injection Hy' as ->. split_and!; [done| |].
  - destruct Hp as [|Hp]; [by left|right]. by eapply grows_some.
  - intros Hnot. apply (matches_extends y _ nsy); [intros n; apply child_none| |done].
    destruct (decide (y = m)) as [->|Hd]; [rewrite (F_total _ _ HF); by replace nsy with ns by congruence|]. apply Hmy.
    intros [->|?]%elem_of_cons; done.
Qed.

Lemma load_ready E k m body G :
  (forall y ns, E !! y = Some ns -> F !! y = Some ns) -> ready E k -> E !! m = None -> code m = Some body ->
  ref_body lazy E m ∅ body = Some G -> F !! m = Some G -> ready (<[m := G]> E) (S (S k)).
Proof.
  intros HE Hr Hm Hco Hb HF f x s B Hf Hx Hs HB Hp.
  destruct (decide (x = m)) as [->|Hd].
  2: { apply Hr; [lia| |done| |done].
    - apply lookup_insert_is_Some' in Hx as [->|]; done.
    - intros y Hy. by apply HB, lookup_insert_None in Hy as [? _]. }
  destruct f as [|[|f]]; [lia|lia|]. unfold load at 1. destruct (s !! m) as [ns0|] eqn:Hsm.
  { exists s. split_and!; [done|done|apply grows_refl|eauto]. }
  rewrite Hco. destruct (placed m) as (Hmn & _); [eauto|].
  destruct (body_ok E k f (m :: B) HE Hr ltac:(lia)) with (m := m) (body := body) (acc := ∅ : namespace) (G := G)
    (ns := ∅ : namespace) (s := <[m := ∅]> s) as (s1 & ns1 & He & Hs1 & Hm1 & Hma & Hg).
  - intros y [->|Hy]%elem_of_cons; [done|]. by apply HB, lookup_insert_None in Hy as [? _].
  - by left.
  - by apply sound_enter; [eauto| | |].
  - apply lookup_insert_eq.
  - intros n Hn%child_none. by rewrite (F_total _ _ HF) in Hn.
  - intros n. rewrite lookup_empty. by left.
  - done.
  - rewrite He. destruct (sound_leave B m G ns1 s1 Hmn HF Hs1 Hm1 Hma) as [Hs2 Hg2]. eexists. split_and!; [done|done| |].
    + intros y ns Hy. assert (y <> m) by congruence. destruct (Hg y ns) as (ns' & Hy' & He'); [done|by rewrite lookup_insert_ne|].
      destruct (Hg2 y ns' Hy') as (ns'' & ? & ?). eauto using extends_trans.
    + eapply grows_some; [done|eauto].
Qed.

Lemma ready_from E l k : reference code lazy E l = Some F -> ready E k -> ready F (k + 2 * length l).
Proof.
  revert E k. induction l as [|m l IH]; intros E k HR Hr.
  { cbn in *. injection HR as ->. by rewrite Nat.add_0_r. }
  pose proof HR as HR0. cbn in HR. destruct (in_env E m) eqn:Hm; [done|]. unfold in_env in Hm. apply bool_decide_eq_false in Hm.
  destruct (code m) as [body|] eqn:Hco; [|done]. cbn in HR. destruct (ref_body _ _ _ _ _) as [G|] eqn:Hb; [|done]. cbn in HR.
  replace (k + 2 * length (m :: l)) with (S (S k) + 2 * length l) by (cbn; lia). apply (IH _ _ HR).
  apply (load_ready E k m body G); [by eapply reference_sub|done|by apply eq_None_not_Some|done|done|].
  apply (reference_sub _ _ _ HR). apply lookup_insert_eq.
Qed.

Lemma all_ready : ready F (2 * length order).
Proof.
  apply (ready_from ∅ order 0); [apply fits_reference|]. intros f m s B _ [? Hm]. by rewrite lookup_empty in Hm.
Qed.

(** *** Requests from outside *)

Section Outside.
Context (f : nat).
Hypothesis Hf : 2 * length order <= f.

Let sub_refl : forall y ns, F !! y = Some ns -> F !! y = Some ns := fun _ _ H => H.
Let idle (y : modname) (Hy : y ∈ []) : F !! y = None := match not_elem_of_nil y Hy with end.

Lemma packages_in_F x : is_Some (F !! x) -> forall y, y ∈ prefixes x -> is_Some (F !! y).
Proof.
  induction x as [|n x IH] using rev_ind; intros Hx y; [by intros ?%elem_of_nil|]. unfold prefixes.
  rewrite prefixes_snoc, elem_of_app, list_elem_of_singleton. intros [Hy| ->]; [|done].
  destruct (placed _ Hx) as (_ & Hp & _). rewrite parent_app in Hp. destruct Hp as [->|Hp]; [by apply elem_of_nil in Hy|].
  by apply IH.
Qed.

(** What [exported] answers is an attribute or goes through [__getattr__]. *)
Lemma exported_cases x n v s :
  exported lazy F x n = Some v -> sound [] s -> is_Some (s !! x) ->
  ref_attr lazy F x n = Some v \/
  exists t n', attr s x n = None /\ lazy_attr lazy s x n = Some (t, n') /\ ref_attr lazy F t n' = Some v.
Proof.
  unfold exported. intros He Hs [ns Hx]. destruct (ref_attr lazy F x n) as [v'|] eqn:Hr; [injection He as ->; by left|right].
  destruct (attr F x "__getattr__") as [g|] eqn:Hg; [|done]. destruct (lazy x n) as [[t n']|] eqn:Hl; [|done].
  exists t, n'. destruct (Hs _ _ Hx) as (_ & _ & Hm). specialize (Hm (not_elem_of_nil _)).
  unfold attr in Hg. apply bind_Some in Hg as (nsF & HxF & Hg). rewrite (F_total _ _ HxF) in Hm.
  unfold ref_attr in Hr. rewrite HxF, Hl in Hr. cbn in Hr. destruct (nsF !! n) as [v'|] eqn:Hn; [done|]. split_and!; [| |done].
  - unfold attr. rewrite Hx. cbn. pose proof (Hm n) as Hm'. rewrite Hn in Hm'. destruct Hm' as [?|[Hch _]]; [done|].
    apply child_fresh in Hch as [_ Hl']. congruence.
  - unfold lazy_attr, attr. rewrite Hx. cbn. specialize (Hm "__getattr__"). rewrite Hg in Hm. by rewrite Hm.
Qed.

Lemma ref_attr_in x n v : ref_attr lazy F x n = Some v -> is_Some (F !! x).
Proof. unfold ref_attr. intros (? & -> & _)%bind_Some. eauto. Qed.

Lemma lazy_ok t n v s : ref_attr lazy F t n = Some v -> sound [] s ->
  exists s', step (S (S f)) (FromImport t [n]) s = (Ok [v], s') /\ sound [] s' /\ grows s s'.
Proof.
  intros Hr Hs. apply (from_ok F _ f [] sub_refl all_ready Hf idle).
  - cbn. by rewrite Hr.
  - done.
  - by eapply ref_attr_in.
  - intros y Hy. left. eapply packages_in_F; [by eapply ref_attr_in|done].
Qed.

Definition kept (x : modname) (s : sys_modules) (n : string) : Prop :=
  is_Some (ref_attr lazy F x n) -> held s x n.

Lemma exported_ensure x n v s :
  exported lazy F x n = Some v -> sound [] s -> is_Some (s !! x) ->
  exists s', ensure code lazy (step (S (S f))) x n s = (Ok tt, s') /\ sound [] s' /\ grows s s' /\ kept x s' n.
Proof.
  intros He Hs Hx. destruct (exported_cases x n v s He Hs Hx) as [Hr|(t & n' & Ha & Hl & Hr)].
  - destruct (ensure_ok F _ (S f) [] sub_refl all_ready ltac:(lia) idle x n v s Hr Hs Hx) as (s' & ? & ? & ? & ?).
    exists s'. split_and!; [done|done|done|by intros _].
  - destruct (lazy_ok t n' v s Hr Hs) as (s' & Hst & Hs' & Hg). exists s'. unfold ensure, get_state, mbind, act_bind.
    rewrite Ha, Hl, Hst. split_and!; [done|done|done|]. intros [w Hw].
    destruct (ref_attr_cases F [] sub_refl idle x n w s Hw Hs Hx) as [|(_ & Hn & _)]; [congruence|].
    unfold lazy_attr in Hl. case_match; congruence.
Qed.

Lemma exported_get x n v s :
  exported lazy F x n = Some v -> sound [] s -> is_Some (s !! x) -> kept x s n ->
  exists s', get lazy (step (S (S f))) x n s = (Ok [v], s') /\ sound [] s' /\ grows s s'.
Proof.
  intros He Hs Hx Hk. destruct (exported_cases x n v s He Hs Hx) as [Hr|(t & n' & Ha & Hl & Hr)].
  - exists s. split_and!; [|done|apply grows_refl].
    by apply (get_ok F [] sub_refl idle _ x n v s Hr Hs Hx), Hk.
  - destruct (lazy_ok t n' v s Hr Hs) as (s' & Hst & Hs' & Hg). exists s'. unfold get, get_state, mbind, act_bind.
    rewrite Ha, Hl, Hst. done.
Qed.

Lemma request_ok r vs s :
  answer lazy F r = Some vs -> sound [] s -> exists s', step (S (S (S f))) r s = (Ok vs, s') /\ sound [] s'.
Proof.
  intros Ha Hs.
  assert (Himp : forall x f', 2 * length order <= f' -> in_env F x = true -> exists s', step (S f') (Import x) s = (Ok [], s') /\
    sound [] s' /\ grows s s' /\ is_Some (s' !! x)).
  { intros x f' Hf' Hx%bool_decide_eq_true.
    destruct (import_ok F _ f' [] all_ready Hf' idle x s Hs) as (s' & ? & ? & ? & Hp);
      [intros y Hy; left; by eapply packages_in_F|].
    exists s'. split_and!; [done|done|done|]. apply Hp, prefixes_self. by apply (placed x). }
  destruct r as [x|x names]; cbn [answer] in Ha; (destruct (in_env F x) eqn:Hx; [|done]).
  - injection Ha as <-. destruct (Himp x (S (S f)) ltac:(lia) Hx) as (s' & ? & ? & _). eauto.
  - destruct (Himp x (S f) ltac:(lia) Hx) as (s1 & Hi & Hs1 & Hg1 & Hx1). apply mapM_Some in Ha.
    destruct (from_step [] (step (S (S f))) x names vs s s1 Hi Hs1 Hg1) as (s2 & Hst & Hs2 & _); [|by exists s2].
    apply (names_ok [] _ x (fun n v => exported lazy F x n = Some v) (kept x)); [| | |done|done|done].
    + intros s' s'' n Hg Hk Hr. eapply held_grows; [done|by apply Hk].
    + intros n v s' He Hs' Hx'. by eapply exported_ensure.
    + intros n v s' He Hs' Hx' Hk. by eapply exported_get.
Qed.

Lemma session_ok rs vss s :
  mapM (answer lazy F) rs = Some vss -> sound [] s ->
  exists s', session code lazy (S (S (S f))) rs s = (Ok vss, s') /\ sound [] s'.
Proof.
  intros Hm%mapM_Some. revert s. induction Hm as [|r vs rs vss Hr Hm IH]; intros s Hs; [by exists s|].
  destruct (request_ok r vs s Hr Hs) as (s1 & Hst & Hs1). destruct (IH s1 Hs1) as (s2 & Hse & Hs2).
  exists s2. cbn [session]. unfold mbind, act_bind. rewrite Hst. by rewrite Hse.
Qed.
End Outside.

(** From a fresh interpreter every request the reference answers is answered
    so, in any order, within a stack twice as deep as there are modules. *)
Lemma session_agrees fuel rs vss :
  2 * length order + 3 <= fuel -> mapM (answer lazy F) rs = Some vss ->
  exists s, session code lazy fuel rs ∅ = (Ok vss, s) /\ sound [] s.
Proof.
  intros Hf Hm. destruct fuel as [|[|[|f]]]; [lia..|]. apply session_ok; [lia|done|].
  intros y ns Hy. by rewrite lookup_empty in Hy.
Qed.
End Agrees.
