(* ===== verification/Packages.v ===== *)
(** * The modules of the apps

    What every module of [src/apps/core] and [src/apps/accounts] imports from
    the two apps and binds, in the order of its statements, with the
    [__getattr__] of [core/base/__init__.py] and [core/exceptions/repository.py],
    over the loader of [Imports].  Names taken from outside of the two apps are
    objects of the module that takes them, so what is shown here is that the
    apps' modules do not stand in each other's way, not that a bare interpreter
    can load them; blocks under [TYPE_CHECKING] and
    imports inside of functions do not run when a module loads. *)
From stdpp Require Import base list gmap strings.
From Stdlib Require Import Ascii Lia.
From S2P Require Import Prelude PyStr Imports.

Definition dotted (m : string) : modname := split_char "." m.
(** [from m import a, b]: no name changes. *)
Definition import_from (m : string) (names : list string) : stmt := From (dotted m) ((fun n => (n, n)) <$> names).

Definition accounts_adapters : list stmt :=
  [Binds ["annotations"; "logging"]; import_from "accounts.repositories" ["RoleRepository"]; Binds
   ["DefaultAccountAdapter"; "DefaultSocialAccountAdapter"; "transaction"; "logger"; "role_repository";
   "assign_default_roles"; "CustomAccountAdapter"; "CustomSocialAccountAdapter"]].
Definition accounts_admin : list stmt :=
  [import_from "accounts.models" ["APIKey"; "Permission"; "Role"; "User"]; import_from "core.base.admin"
   ["BaseModelAdmin"]; Binds ["admin"; "DjangoUserAdmin"; "HttpResponse"; "reverse"; "format_html"; "ModelAdmin";
   "UserAdmin"; "PermissionAdmin"; "RoleAdmin"; "APIKeyAdmin"]].
Definition accounts_api_schemas : list stmt :=
  [import_from "accounts.api_schemas.api_key" ["api_key_delete_schema"; "api_key_revoke_schema"]; import_from
   "accounts.api_schemas.auth" ["google_login_schema"; "logout_schema"; "token_refresh_schema"]; import_from
   "accounts.api_schemas.user" ["me_get_schema"; "me_patch_schema"]; Binds ["__all__"]].
Definition accounts_api_schemas__common : list stmt :=
  [Binds ["annotations"; "_error_response_schema"; "_validation_error_schema"; "_jwt_token_pair_schema";
   "_throttled_response_schema"; "_auth_required_schema"]].
Definition accounts_api_schemas_api_key : list stmt :=
  [import_from "accounts.api_schemas._common" ["_auth_required_schema"; "_error_response_schema"]; import_from
   "core.api_schemas" ["throttle_response"]; Binds ["OpenApiExample"; "OpenApiResponse"; "extend_schema";
   "api_key_delete_schema"; "api_key_revoke_schema"]].
Definition accounts_api_schemas_auth : list stmt :=
  [import_from "accounts.api_schemas._common" ["_auth_required_schema"; "_error_response_schema";
   "_jwt_token_pair_schema"; "_throttled_response_schema"; "_validation_error_schema"]; import_from
   "accounts.serializers" ["GoogleCallbackSerializer"]; import_from "core.api_schemas" ["throttle_response"]; Binds
   ["OpenApiExample"; "OpenApiResponse"; "inline_serializer"; "serializers"; "google_login_schema";
   "token_refresh_schema"; "logout_schema"]].
Definition accounts_api_schemas_user : list stmt :=
  [import_from "accounts.api_schemas._common" ["_auth_required_schema"; "_error_response_schema"]; import_from
   "accounts.serializers" ["UserProfileSerializer"]; import_from "core.api_schemas" ["throttle_response"]; Binds
   ["OpenApiExample"; "OpenApiResponse"; "inline_serializer"; "serializers"; "_user_profile_example";
   "me_get_schema"; "me_patch_schema"]].
Definition accounts_apps : list stmt :=
  [Binds ["AppConfig"; "AccountsConfig"]].
Definition accounts_auth_providers : list stmt :=
  [Binds ["annotations"; "Any"]; import_from "accounts.authentication" ["APIKeyAuthentication"]; Binds
   ["APIKeyProvider"; "JWTProvider"; "GoogleOAuthProvider"; "__all__"]].
Definition accounts_authentication : list stmt :=
  [Binds ["secrets"; "caches"; "timezone"; "OpenApiAuthenticationExtension"; "BaseAuthentication";
   "AuthenticationFailed"; "APIKeyAuthentication"; "APIKeyAuthenticationScheme"]].
Definition accounts_backends : list stmt :=
  [Binds ["annotations"]; import_from "core.enums" ["Action"]; import_from "core.rbac_registry" ["app_resources";
   "resource_for"]; Binds ["ModelBackend"; "RBACBackend"]].
Definition accounts_exceptions : list stmt :=
  [Binds ["annotations"]; import_from "core.base.exception" ["BaseCustomError"]; import_from
   "core.exceptions.infrastructure" ["InfrastructureError"]; Binds ["APIKeyGenerationError";
   "NoFieldsToUpdateError"; "InvalidTimezoneError"]].
Definition accounts_managers : list stmt :=
  [Binds ["DjangoUserManager"; "UserManager"]].
Definition accounts_models : list stmt :=
  [Binds ["secrets"; "cached_property"]; import_from "accounts.exceptions" ["APIKeyGenerationError"]; import_from
   "accounts.managers" ["UserManager"]; import_from "core.base.fields" ["EncryptedCharField"]; import_from
   "core.base.model" ["BaseModel"]; import_from "core.enums" ["Action"; "Resource"]; Binds ["AbstractUser";
   "IntegrityError"; "models"; "Q"; "Permission"; "Role"; "User"; "APIKey"]].
Definition accounts_permissions : list stmt :=
  [Binds ["annotations"]; import_from "accounts.models" ["User"]; Binds ["is_superuser_role"]].
Definition accounts_repositories : list stmt :=
  [import_from "accounts.models" ["Role"]; Binds ["get_user_model"; "transaction"; "QuerySet"; "User";
   "UserRepository"; "RoleRepository"]].
Definition accounts_serializers : list stmt :=
  [Binds ["annotations"]; import_from "accounts.models" ["Role"; "User"]; Binds ["serializers"; "RoleSerializer";
   "UserSerializer"; "UserProfileSerializer"; "GoogleCallbackSerializer"; "CustomJWTSerializer"]].
Definition accounts_services : list stmt :=
  [Binds ["annotations"; "logging"; "Any"]; import_from "accounts.exceptions" ["InvalidTimezoneError";
   "NoFieldsToUpdateError"]; import_from "accounts.models" ["APIKey"]; import_from "accounts.repositories"
   ["UserRepository"]; import_from "core.base.service" ["BaseService"]; Binds ["transaction"; "timezone"; "__all__";
   "logger"; "APIKeyService"; "UserService"]].
Definition accounts_urls : list stmt :=
  [import_from "accounts.views" ["APIKeyDeleteView"; "APIKeyRevokeView"; "GoogleLogin"; "logout"; "me";
   "token_refresh"]; Binds ["path"; "app_name"; "urlpatterns"]].
Definition accounts_views : list stmt :=
  [Binds ["annotations"; "logging"]; import_from "accounts.api_schemas" ["api_key_delete_schema";
   "api_key_revoke_schema"; "google_login_schema"; "logout_schema"; "me_get_schema"; "me_patch_schema";
   "token_refresh_schema"]; import_from "accounts.repositories" ["UserRepository"]; import_from
   "accounts.serializers" ["GoogleCallbackSerializer"; "UserProfileSerializer"]; import_from "accounts.services"
   ["APIKeyService"; "UserService"]; Binds ["GoogleOAuth2Adapter"; "OAuth2Client"]; import_from "core.enums"
   ["Action"; "Resource"]; import_from "core.middleware.throttling" ["AuthEndpointThrottle"]; import_from
   "core.permissions" ["HasResourcePermission"]; import_from "core.responses" ["ErrorResponse"; "SuccessResponse"];
   Binds ["SocialLoginView"; "extend_schema"; "BurstThrottle"; "status"; "api_view"; "permission_classes";
   "throttle_classes"; "AllowAny"; "IsAuthenticated"; "Request"; "Response"; "AnonRateThrottle"; "APIView";
   "TokenError"; "RefreshToken"; "logger"; "AuthThrottle"; "GoogleLogin"; "token_refresh"; "logout"; "me";
   "APIKeyDeleteView"; "APIKeyRevokeView"]].
Definition core_api_log : list stmt :=
  [Binds ["default_app_config"]].
Definition core_api_log_apps : list stmt :=
  [Binds ["AppConfig"; "ApiLogConfig"]].
Definition core_api_log_backends : list stmt :=
  [import_from "core.api_log.backends.base" ["ApiLogBackend"]; import_from "core.api_log.backends.noop"
   ["NoopApiLogBackend"]; import_from "core.api_log.backends.orm" ["OrmApiLogBackend"]; Binds ["__all__"]].
Definition core_api_log_backends_base : list stmt :=
  [Binds ["annotations"; "Protocol"; "ApiLogBackend"]].
Definition core_api_log_backends_noop : list stmt :=
  [Binds ["annotations"; "NoopApiLogBackend"]].
Definition core_api_log_backends_orm : list stmt :=
  [Binds ["annotations"; "logging"]; import_from "core.db" ["best_effort_atomic"]; Binds ["logger";
   "OrmApiLogBackend"]].
Definition core_api_log_dispatch : list stmt :=
  [Binds ["annotations"; "logging"; "uuid"; "Callable"; "Any"]; import_from "core.api_log" ["factory"]; import_from
   "core.utils.logging" ["_request_id_var"]; Binds ["logger"; "_correlation_extra"; "fire_and_forget";
   "capture_and_dispatch"; "__all__"]].
Definition core_api_log_error_messages : list stmt :=
  [Binds ["annotations"; "build_error_message"; "__all__"]].
Definition core_api_log_factory : list stmt :=
  [Binds ["annotations"; "logging"; "threading"]; import_from "core.api_log.backends" ["NoopApiLogBackend";
   "OrmApiLogBackend"]; import_from "core.api_log.backends.base" ["ApiLogBackend"]; import_from
   "core.dispatch.fire_and_forget" ["FireAndForgetQueue"; "get_queue"]; Binds ["settings"; "logger"; "_QUEUE_NAME";
   "_backend_lock"; "_backend"; "_build_backend"; "init_repository"; "_ensure_queue"; "get_backend";
   "get_apilog_queue"; "reset_for_tests"; "__all__"]].
Definition core_api_log_inbound : list stmt :=
  [Binds ["annotations"; "functools"; "Callable"; "Any"]; import_from "core.api_log.dispatch"
   ["capture_and_dispatch"]; import_from "core.api_log.error_messages" ["build_error_message"]; import_from
   "core.api_log.models" ["Direction"]; import_from "core.api_log.sanitizers" ["redact_headers"; "serialize_body";
   "summarise_body_for_audit"]; import_from "core.utils.logging" ["_request_id_var"]; Binds ["_request_from_args";
   "_request_headers"; "log_inbound"; "__all__"]].
Definition core_api_log_models : list stmt :=
  [Binds ["annotations"; "uuid"; "models"; "Direction"; "ApiLog"]].
Definition core_api_log_outbound : list stmt :=
  [Binds ["annotations"; "functools"; "Callable"; "Any"]; import_from "core.api_log.dispatch"
   ["capture_and_dispatch"]; import_from "core.api_log.error_messages" ["build_error_message"]; import_from
   "core.api_log.models" ["Direction"]; import_from "core.api_log.sanitizers" ["redact_headers"; "serialize_body"];
   import_from "core.utils.logging" ["_request_id_var"]; Binds ["log_outbound"; "__all__"]].
Definition core_api_log_sanitizers : list stmt :=
  [Binds ["annotations"; "functools"; "json"; "UTC"; "datetime"; "timedelta"; "Any"]; import_from
   "core.utils.log_sanitization" ["sanitize_for_log"]; Binds ["settings"; "setting_changed"; "UNSET";
   "_DEFAULT_SENSITIVE"; "_sensitive_headers"; "_bust_sensitive_headers_cache"; "redact_headers"; "truncate";
   "audit_safe"; "summarise_body_for_audit"; "serialize_error_body"; "serialize_body"; "_try_parse_json";
   "compute_ttl"; "__all__"]].
Definition core_api_schemas : list stmt :=
  [import_from "core.api_schemas.envelope" ["PAGINATION_PARAMETERS"; "envelope_example"; "envelope_schema";
   "error_envelope"; "error_example"; "paginated_envelope_schema"]; import_from "core.api_schemas.responses"
   ["auth_required_response"; "external_dependency_response"; "forbidden_response"; "not_found_response";
   "service_unavailable_response"; "throttle_response"; "validation_error_response"]; import_from
   "core.api_schemas.system" ["health_schema"; "readiness_schema"]; Binds ["__all__"]].
Definition core_api_schemas_envelope : list stmt :=
  [Binds ["annotations"; "Any"; "OpenApiParameter"; "PAGINATION_PARAMETERS"; "envelope_schema";
   "paginated_envelope_schema"; "error_envelope"; "envelope_example"; "error_example"]].
Definition core_api_schemas_responses : list stmt :=
  [Binds ["annotations"]; import_from "core.api_schemas.envelope" ["error_envelope"; "error_example"]; Binds
   ["OpenApiExample"; "OpenApiResponse"; "not_found_response"; "validation_error_response";
   "auth_required_response"; "forbidden_response"; "throttle_response"; "external_dependency_response";
   "service_unavailable_response"]].
Definition core_api_schemas_system : list stmt :=
  [Binds ["annotations"; "OpenApiExample"; "OpenApiResponse"; "extend_schema"; "health_schema";
   "readiness_schema"]].
Definition core_apps : list stmt :=
  [Binds ["atexit"; "contextlib"; "AppConfig"; "CoreConfig"]].
Definition core_auth : list stmt :=
  [import_from "core.auth.base" ["AuthProvider"]; import_from "core.auth.composite" ["CompositeAuthentication"];
   import_from "core.auth.registry" ["enabled_providers"; "register"; "registered_names"; "unregister"]; Binds
   ["__all__"]].
Definition core_auth_base : list stmt :=
  [Binds ["annotations"; "Any"; "Protocol"; "runtime_checkable"; "AuthProvider"; "__all__"]].
Definition core_auth_composite : list stmt :=
  [Binds ["annotations"; "contextlib"]; import_from "core.auth.registry" ["enabled_providers"]; Binds
   ["BaseAuthentication"; "CompositeAuthentication"]].
Definition core_auth_registry : list stmt :=
  [Binds ["annotations"; "logging"; "threading"]; import_from "core.auth.base" ["AuthProvider"]; Binds ["settings";
   "logger"; "_REGISTRY"; "_WARNED_UNKNOWN"; "_lock"; "register"; "unregister"; "registered_names";
   "enabled_providers"; "_reset"; "__all__"]].
Definition core_base : list stmt :=
  [Binds ["__all__"; "__getattr__"]].
Definition core_base_admin : list stmt :=
  [import_from "core.base.widgets" ["JsonEditorWidget"]; Binds ["GenericTabularInline"; "models"; "ModelAdmin";
   "TabularInline"; "BaseModelAdmin"; "BaseTabularInline"; "BaseGenericTabularInline"]].
Definition core_base_audit : list stmt :=
  [Binds ["annotations"; "Any"; "apply_audit_fields"; "_stamp"; "__all__"]].
Definition core_base_exception : list stmt :=
  [Binds ["annotations"; "re"; "Any"]; import_from "core.context" ["get_request_id"]; Binds ["ResilienceKitError";
   "derive_error_code"; "BaseCustomError"]].
Definition core_base_fields : list stmt :=
  [Binds ["EncryptedCharField"; "__all__"]].
Definition core_base_manager : list stmt :=
  [Binds ["annotations"; "models"; "SoftDeletableQuerySet"; "__all__"]].
Definition core_base_model : list stmt :=
  [Binds ["settings"; "models"; "F"; "Q"; "BaseModel"; "NamedBaseModel"]].
Definition core_base_repository : list stmt :=
  [Binds ["annotations"; "Any"; "Generic"; "TypeVar"]; import_from "core.base.audit" ["apply_audit_fields"]; Binds
   ["models"; "transaction"; "QuerySet"; "ModelType"; "BaseRepository"; "_has_is_active"; "__all__"]].
Definition core_base_response : list stmt :=
  [Binds ["annotations"; "Any"]; import_from "core.utils.logging" ["_request_id_var"]; Binds ["status"; "Response";
   "BaseResponse"]].
Definition core_base_schema : list stmt :=
  [Binds ["annotations"; "serializers"; "BaseSchema"; "BaseModelSchema"; "__all__"]].
Definition core_base_service : list stmt :=
  [Binds ["annotations"; "logging"; "ABC"; "deque"; "Any"; "Generic"; "TypeVar"]; import_from "core.base.audit"
   ["apply_audit_fields"]; import_from "core.exceptions" ["EntityNotFoundError"]; Binds ["models"; "transaction";
   "QuerySet"; "timezone"; "logger"; "ModelType"; "BaseService"]].
Definition core_base_widgets : list stmt :=
  [Binds ["annotations"; "json"; "Textarea"; "escape"; "escapejs"; "mark_safe"; "JsonEditorWidget"]].
Definition core_context : list stmt :=
  [Binds ["annotations"; "ContextVar"; "Token"; "request_id_ctx"; "set_request_context"; "clear_request_context";
   "get_request_id"; "__all__"]].
Definition core_db : list stmt :=
  [import_from "core.db.transaction" ["best_effort_atomic"]; Binds ["__all__"]].
Definition core_db_transaction : list stmt :=
  [Binds ["annotations"; "logging"; "Iterator"; "contextmanager"; "transaction"; "best_effort_atomic"; "__all__"]].
Definition core_dispatch : list stmt :=
  [import_from "core.dispatch.fire_and_forget" ["FireAndForgetQueue"; "drain_all"; "get_queue";
   "registered_queues"]].
Definition core_dispatch_fire_and_forget : list stmt :=
  [Binds ["annotations"; "logging"; "queue"; "threading"; "time"; "Callable"; "ThreadPoolExecutor"; "logger";
   "_registry_lock"; "_queues"; "FireAndForgetQueue"; "get_queue"; "registered_queues"; "drain_all"]].
Definition core_enums : list stmt :=
  [Binds ["models"; "Resource"; "Action"]].
Definition core_exceptions : list stmt :=
  [import_from "core.base.exception" ["BaseCustomError"]; import_from "core.exceptions.api" ["APIError"];
   import_from "core.exceptions.auth" ["APIKeyRevokedError"; "AuthenticationFailedError"; "PermissionDeniedError";
   "TokenExpiredError"; "TokenInvalidError"; "TokenRevokedError"]; import_from "core.exceptions.handler"
   ["api_exception_handler"; "register_exception_mapping"]; import_from "core.exceptions.infrastructure"
   ["ExternalServiceError"; "ExternalTimeoutError"; "InfrastructureError"; "OutboundURLNotAllowedError";
   "PartnerPushError"; "S3Exception"; "ServiceUnavailableError"; "SESException"; "TransientError"]; import_from
   "core.exceptions.rate_limit" ["RateLimitError"]; import_from "core.exceptions.repository" ["EntityNotFoundError";
   "InactiveParentError"; "RepositoryError"]; import_from "core.exceptions.utils" ["exception_response_payload";
   "exception_wire_status"; "normalize_outbound_exception"]; import_from "core.exceptions.validation"
   ["ValidationError"]; Binds ["__all__"]].
Definition core_exceptions_api : list stmt :=
  [Binds ["annotations"; "Any"]; import_from "core.base.exception" ["BaseCustomError"]; Binds ["APIError"]].
Definition core_exceptions_auth : list stmt :=
  [Binds ["annotations"]; import_from "core.base.exception" ["BaseCustomError"]; Binds ["AuthenticationFailedError";
   "APIKeyRevokedError"; "PermissionDeniedError"; "TokenExpiredError"; "TokenInvalidError"; "TokenRevokedError";
   "__all__"]].
Definition core_exceptions_handler : list stmt :=
  [Binds ["annotations"; "Lock"; "Any"]; import_from "core.base.exception" ["BaseCustomError"; "derive_error_code"];
   import_from "core.context" ["get_request_id"]; import_from "core.exceptions.infrastructure"
   ["ExternalServiceError"; "ExternalTimeoutError"; "OutboundURLNotAllowedError"; "S3Exception";
   "ServiceUnavailableError"; "SESException"]; import_from "core.exceptions.repository" ["EntityNotFoundError";
   "InactiveParentError"; "InvalidInputError"]; Binds ["status"; "Response"; "exception_handler";
   "_CUSTOM_STATUS_MAP_BUILDER"; "_CUSTOM_STATUS_MAP"; "_status_map_lock"; "_drf_error_code"; "_build_error_dict";
   "_get_status_map"; "api_exception_handler"; "register_exception_mapping"]].
Definition core_exceptions_infrastructure : list stmt :=
  [Binds ["annotations"; "Any"]; import_from "core.base.exception" ["BaseCustomError"]; Binds
   ["InfrastructureError"; "ServiceUnavailableError"; "ExternalServiceError"; "TransientError";
   "ExternalTimeoutError"; "S3Exception"; "S3NotFoundError"; "SESException"; "OutboundURLNotAllowedError";
   "PartnerPushError"]].
Definition core_exceptions_rate_limit : list stmt :=
  [Binds ["annotations"; "Any"]; import_from "core.base.exception" ["BaseCustomError"]; Binds ["RateLimitError";
   "__all__"]].
Definition core_exceptions_repository : list stmt :=
  [Binds ["annotations"; "Any"]; import_from "core.base.exception" ["BaseCustomError"]; Binds ["RepositoryError";
   "EntityNotFoundError"; "InactiveParentError"; "InvalidInputError"; "__getattr__"]].
Definition core_exceptions_utils : list stmt :=
  [Binds ["annotations"; "json"; "Any"; "status"; "exception_response_payload"; "exception_wire_status";
   "normalize_outbound_exception"; "__all__"]].
Definition core_exceptions_validation : list stmt :=
  [Binds ["annotations"; "Any"]; import_from "core.base.exception" ["BaseCustomError"]; Binds ["ValidationError";
   "__all__"]].
Definition core_lifecycle : list stmt :=
  [import_from "core.lifecycle.healthcheck" ["Check"; "HealthCheckResult"; "cache_check"; "celery_broker_check";
   "db_check"; "run_checks"]; Binds ["__all__"]].
Definition core_lifecycle_healthcheck : list stmt :=
  [Binds ["annotations"; "logging"; "Callable"; "dataclass"; "logger"; "HealthCheckResult"; "Check"; "run_checks";
   "db_check"; "cache_check"; "celery_broker_check"; "__all__"]].
Definition core_metrics : list stmt :=
  [Binds ["annotations"; "logging"; "Any"; "logger"; "_BOUNDED_LABEL_KEYS"; "_FORBIDDEN_LABEL_KEYS";
   "CardinalityViolation"; "_assert_bounded"; "record_duration"; "record_counter"; "record_gauge"]].
Definition core_middleware : list stmt :=
  [import_from "core.middleware.bind_request_id" ["BindRequestIdMiddleware"]; import_from
   "core.middleware.request_logging" ["RequestLoggingMiddleware"]; Binds ["__all__"]].
Definition core_middleware_bind_request_id : list stmt :=
  [Binds ["annotations"; "Callable"]; import_from "core.context" ["request_id_ctx"]; Binds ["HttpRequest";
   "HttpResponse"; "bind_to"; "BindRequestIdMiddleware"]].
Definition core_middleware_metrics_middleware : list stmt :=
  [Binds ["annotations"; "time"; "Callable"; "HttpRequest"; "HttpResponse"; "MetricsMiddleware"]].
Definition core_middleware_request_logging : list stmt :=
  [Binds ["logging"; "time"; "Callable"]; import_from "core.utils.log_sanitization" ["safe_log_dict";
   "truncate_for_log"]; import_from "core.utils.network" ["client_ip"]; Binds ["HttpRequest"; "HttpResponse";
   "logger"; "get_user_id"; "RequestLoggingMiddleware"]].
Definition core_middleware_throttling : list stmt :=
  [Binds ["annotations"; "AnonRateThrottle"; "AuthEndpointThrottle"]].
Definition core_openapi : list stmt :=
  [import_from "core.openapi.metadata" ["API_DESCRIPTION"; "DEFAULT_RESPONSES"; "RESPONSES_BAD_GATEWAY";
   "RESPONSES_BAD_REQUEST"; "RESPONSES_FORBIDDEN"; "RESPONSES_INTERNAL_SERVER_ERROR"; "RESPONSES_NOT_FOUND";
   "RESPONSES_RATE_LIMITED"; "RESPONSES_SERVICE_UNAVAILABLE"; "RESPONSES_UNAUTHORIZED"; "RESPONSES_VALIDATION";
   "TAGS_METADATA"; "ErrorEnvelopeSerializer"]; Binds ["__all__"]].
Definition core_openapi_metadata : list stmt :=
  [Binds ["annotations"; "OpenApiExample"; "OpenApiResponse"; "serializers"; "API_DESCRIPTION"; "TAGS_METADATA";
   "_ErrorItemSerializer"; "ErrorEnvelopeSerializer"; "_envelope_example"; "_err"; "RESPONSES_BAD_REQUEST";
   "RESPONSES_VALIDATION"; "RESPONSES_UNAUTHORIZED"; "RESPONSES_FORBIDDEN"; "RESPONSES_NOT_FOUND";
   "RESPONSES_RATE_LIMITED"; "RESPONSES_INTERNAL_SERVER_ERROR"; "RESPONSES_BAD_GATEWAY";
   "RESPONSES_SERVICE_UNAVAILABLE"; "DEFAULT_RESPONSES"; "__all__"]].
Definition core_permissions : list stmt :=
  [Binds ["annotations"; "Any"; "BasePermission"; "user_has_permission"; "HasResourcePermission"]].
Definition core_rbac_registry : list stmt :=
  [Binds ["annotations"; "Lock"; "_lock"; "_RESOURCE_FOR_MODEL"; "register_resource"; "resource_for";
   "app_resources"; "registered_mappings"]].
Definition core_registries : list stmt :=
  [Binds ["annotations"]; import_from "core.rbac_registry" ["app_resources"; "register_resource";
   "registered_mappings"; "resource_for"]; Binds ["resilience_registry"; "register_resilience_service"; "__all__"]].
Definition core_responses : list stmt :=
  [import_from "core.base.response" ["BaseResponse"]; import_from "core.responses.error" ["ErrorResponse"];
   import_from "core.responses.paginated" ["PaginatedResponse"]; import_from "core.responses.success"
   ["SuccessResponse"]; Binds ["__all__"]].
Definition core_responses_envelope_schema : list stmt :=
  [Binds ["annotations"; "Any"; "BaseModel"; "ResponseEnvelope"; "__all__"]].
Definition core_responses_error : list stmt :=
  [Binds ["annotations"; "Any"]; import_from "core.base.response" ["BaseResponse"]; Binds ["status";
   "ErrorResponse"]].
Definition core_responses_paginated : list stmt :=
  [Binds ["annotations"; "math"; "Any"]; import_from "core.base.response" ["BaseResponse"]; Binds ["Page"; "status";
   "PaginatedResponse"]].
Definition core_responses_success : list stmt :=
  [Binds ["annotations"; "Any"]; import_from "core.base.response" ["BaseResponse"]; Binds ["status";
   "SuccessResponse"]].
Definition core_tasks : list stmt :=
  [import_from "core.tasks.queue" ["enqueue"]; import_from "core.tasks.registry" ["register_task";
   "registered_tasks"]; Binds ["__all__"]].
Definition core_tasks_queue : list stmt :=
  [Binds ["annotations"; "datetime"; "Any"; "current_app"; "settings"; "enqueue"; "__all__"]].
Definition core_tasks_registry : list stmt :=
  [Binds ["annotations"; "threading"; "Callable"; "Any"; "shared_task"; "_registry"; "_lock"; "register_task";
   "registered_tasks"; "_reset_registry"; "__all__"]].
Definition core_urls : list stmt :=
  [import_from "core.views" ["csp_report"; "health_check"; "metrics_endpoint"; "readiness_check"]; Binds ["path";
   "app_name"; "urlpatterns"]].
Definition core_utils_aws : list stmt :=
  [Binds ["annotations"; "threading"; "boto3"; "settings"; "_thread_local"; "get_aws_client"]].
Definition core_utils_data : list stmt :=
  [Binds ["annotations"; "Any"]; import_from "core.exceptions.repository" ["InvalidInputError"]; Binds
   ["filter_dict_keys"; "sanitize_string"; "parse_bool"]].
Definition core_utils_db : list stmt :=
  [Binds ["annotations"; "hashlib"; "logging"; "Iterator"; "Sequence"; "dataclass"; "field"; "Lock";
   "SimpleNamespace"; "Any"; "settings"; "logger"; "SqlRowSet"; "build_url"; "_engine_cache"; "_url_for_log";
   "_engine_cache_lock"; "_cache_key"; "get_engine"; "dispose_engine"; "dispose_all_engines"; "_WRITE_PREFIXES";
   "execute_query"; "ping_engine"; "_mask_url"]].
Definition core_utils_filters : list stmt :=
  [Binds ["annotations"; "Any"]; import_from "core.exceptions.repository" ["InvalidInputError"]; Binds
   ["_BOOL_TRUE"; "_BOOL_FALSE"; "FilterParam"; "extract_filters"; "_coerce"]].
Definition core_utils_function_logger : list stmt :=
  [Binds ["annotations"; "asyncio"; "functools"; "logging"; "os"; "time"; "Callable"; "Any"; "ParamSpec"; "TypeVar";
   "cast"; "P"; "R"; "is_function_logging_enabled"; "_summarize"; "_log_enter"; "_log_exit"; "_log_error";
   "log_function"; "__all__"]].
Definition core_utils_log_sanitization : list stmt :=
  [Binds ["re"; "Any"; "settings"; "_DEFAULTS"; "_get_sanitization_config"; "sanitize_for_log"; "_sanitize_value";
   "_sanitize_string_for_log"; "_sanitize_dict_for_log"; "_sanitize_iterable_for_log"; "safe_log_dict";
   "truncate_for_log"]].
Definition core_utils_logging : list stmt :=
  [Binds ["contextvars"; "logging"; "time"; "Iterator"; "contextmanager"; "Any"]; From (dotted "core.context")
   [("clear_request_context", "_clear_request_context_with_token")]; From (dotted "core.context")
   [("request_id_ctx", "_request_id_var")]; From (dotted "core.context") [("set_request_context",
   "_set_request_context_with_token")]; Binds ["_partner_id_var"; "_app_number_var"; "_query_id_var";
   "set_request_context"; "clear_request_context"; "domain_context"; "RequestContextFilter"; "log_duration";
   "_record_metric_safe"]].
Definition core_utils_network : list stmt :=
  [Binds ["annotations"; "TYPE_CHECKING"; "settings"; "client_ip"; "__all__"]].
Definition core_utils_pagination : list stmt :=
  [Binds ["annotations"; "Any"]; import_from "core.responses.paginated" ["PaginatedResponse"]; Binds
   ["PageNumberPagination"; "StandardPageNumberPagination"]].
Definition core_utils_s3 : list stmt :=
  [Binds ["annotations"; "json"; "logging"; "re"; "uuid"; "Iterator"; "contextmanager"; "UTC"; "datetime"; "Any";
   "BinaryIO"; "urlparse"; "BotoCoreError"; "ClientError"]; import_from "core.exceptions.infrastructure"
   ["S3Exception"; "S3NotFoundError"]; import_from "core.exceptions.repository" ["InvalidInputError"]; import_from
   "core.utils.aws" ["get_aws_client"]; import_from "core.utils.log_sanitization" ["safe_log_dict"]; Binds
   ["settings"; "resilient"; "logger"; "parse_s3_uri"; "build_s3_uri"; "_FILENAME_SANITIZE_RE";
   "generate_object_key"; "_s3_call"; "generate_presigned_url"; "_DEFAULT_MAX_S3_JSON_SIZE"; "fetch_json_from_s3";
   "fetch_bytes_from_s3"; "upload_json_to_s3"; "upload_file_to_s3"; "delete_s3_object"; "head_s3_object";
   "object_exists"]].
Definition core_utils_ses : list stmt :=
  [Binds ["annotations"; "contextlib"; "logging"; "mimetypes"; "uuid"; "Iterable"; "dataclass"; "MIMEApplication";
   "MIMEImage"; "MIMEMultipart"; "MIMEText"; "formatdate"; "Any"; "BotoCoreError"; "ClientError"]; import_from
   "core.exceptions.infrastructure" ["ExternalTimeoutError"; "SESException"; "TransientError"]; import_from
   "core.utils.aws" ["get_aws_client"]; import_from "core.utils.log_sanitization" ["safe_log_dict"]; import_from
   "core.utils.logging" ["log_duration"]; Binds ["settings"; "resilient"; "logger"; "_SES_TRANSIENT_ERROR_CODES";
   "_ses_region"; "_sender_domain"; "_generate_message_id"; "EmailAttachment"; "_build_attachment_part";
   "_classify_client_error"; "send_email"; "__all__"]].
Definition core_utils_timing : list stmt :=
  [Binds ["annotations"; "time"; "Iterator"; "contextmanager"; "dataclass"; "field"; "PerfTimer"; "perf_timer";
   "__all__"]].
Definition core_utils_valkey : list stmt :=
  [Binds ["annotations"; "logging"; "Any"; "logger"; "get_valkey_client"]].
Definition core_views : list stmt :=
  [Binds ["ipaddress"; "logging"; "Any"]; import_from "core.api_schemas" ["health_schema"; "readiness_schema"];
   import_from "core.lifecycle.healthcheck" ["HealthCheckResult"; "cache_check"; "celery_broker_check"; "db_check";
   "run_checks"]; Binds ["settings"; "HttpResponse"; "never_cache"; "BurstThrottle"; "api_view";
   "permission_classes"; "throttle_classes"; "AllowAny"; "Request"; "Response"; "logger"; "_is_privileged";
   "_short"; "_attach_checks"; "health_check"; "readiness_check"; "csp_report"; "_metrics_client_ip";
   "metrics_endpoint"; "_ip_allowed"]].
Definition accounts_api_schemas_all : list string :=
  ["api_key_delete_schema"; "api_key_revoke_schema"; "google_login_schema"; "logout_schema"; "me_get_schema";
   "me_patch_schema"; "token_refresh_schema"].
Definition core_api_log_backends_all : list string :=
  ["ApiLogBackend"; "NoopApiLogBackend"; "OrmApiLogBackend"].
Definition core_api_schemas_all : list string :=
  ["PAGINATION_PARAMETERS"; "auth_required_response"; "envelope_example"; "envelope_schema"; "error_envelope";
   "error_example"; "external_dependency_response"; "forbidden_response"; "health_schema"; "not_found_response";
   "paginated_envelope_schema"; "readiness_schema"; "service_unavailable_response"; "throttle_response";
   "validation_error_response"].
Definition core_auth_all : list string :=
  ["AuthProvider"; "CompositeAuthentication"; "enabled_providers"; "register"; "registered_names"; "unregister"].
Definition core_base_all : list string :=
  ["BaseCustomError"; "BaseGenericTabularInline"; "BaseModel"; "BaseModelAdmin"; "BaseResponse"; "BaseService";
   "BaseTabularInline"; "NamedBaseModel"].
Definition core_db_all : list string :=
  ["best_effort_atomic"].
Definition core_exceptions_all : list string :=
  ["APIError"; "APIKeyRevokedError"; "AuthenticationFailedError"; "BaseCustomError"; "EntityNotFoundError";
   "ExternalServiceError"; "ExternalTimeoutError"; "InactiveParentError"; "InfrastructureError";
   "OutboundURLNotAllowedError"; "PartnerPushError"; "PermissionDeniedError"; "RateLimitError"; "RepositoryError";
   "S3Exception"; "SESException"; "ServiceUnavailableError"; "TokenExpiredError"; "TokenInvalidError";
   "TokenRevokedError"; "TransientError"; "ValidationError"; "api_exception_handler"; "exception_response_payload";
   "exception_wire_status"; "normalize_outbound_exception"; "register_exception_mapping"].
Definition core_lifecycle_all : list string :=
  ["Check"; "HealthCheckResult"; "cache_check"; "celery_broker_check"; "db_check"; "run_checks"].
Definition core_middleware_all : list string :=
  ["BindRequestIdMiddleware"; "RequestLoggingMiddleware"].
Definition core_openapi_all : list string :=
  ["API_DESCRIPTION"; "DEFAULT_RESPONSES"; "RESPONSES_BAD_GATEWAY"; "RESPONSES_BAD_REQUEST"; "RESPONSES_FORBIDDEN";
   "RESPONSES_INTERNAL_SERVER_ERROR"; "RESPONSES_NOT_FOUND"; "RESPONSES_RATE_LIMITED";
   "RESPONSES_SERVICE_UNAVAILABLE"; "RESPONSES_UNAUTHORIZED"; "RESPONSES_VALIDATION"; "TAGS_METADATA";
   "ErrorEnvelopeSerializer"].
Definition core_registries_all : list string :=
  ["app_resources"; "register_resilience_service"; "register_resource"; "registered_mappings";
   "resilience_registry"; "resource_for"].
Definition core_responses_all : list string :=
  ["BaseResponse"; "ErrorResponse"; "PaginatedResponse"; "SuccessResponse"].
Definition core_tasks_all : list string :=
  ["enqueue"; "register_task"; "registered_tasks"].
(** Every module, in the order of their names. *)
Definition modules : list (modname * list stmt) :=
  prod_map dotted id <$> [("accounts", []); ("accounts.adapters", accounts_adapters); ("accounts.admin",
   accounts_admin); ("accounts.api_schemas", accounts_api_schemas); ("accounts.api_schemas._common",
   accounts_api_schemas__common); ("accounts.api_schemas.api_key", accounts_api_schemas_api_key);
   ("accounts.api_schemas.auth", accounts_api_schemas_auth); ("accounts.api_schemas.user",
   accounts_api_schemas_user); ("accounts.apps", accounts_apps); ("accounts.auth_providers",
   accounts_auth_providers); ("accounts.authentication", accounts_authentication); ("accounts.backends",
   accounts_backends); ("accounts.exceptions", accounts_exceptions); ("accounts.managers", accounts_managers);
   ("accounts.models", accounts_models); ("accounts.permissions", accounts_permissions); ("accounts.repositories",
   accounts_repositories); ("accounts.serializers", accounts_serializers); ("accounts.services", accounts_services);
   ("accounts.urls", accounts_urls); ("accounts.views", accounts_views); ("core", []); ("core.api_log",
   core_api_log); ("core.api_log.apps", core_api_log_apps); ("core.api_log.backends", core_api_log_backends);
   ("core.api_log.backends.base", core_api_log_backends_base); ("core.api_log.backends.noop",
   core_api_log_backends_noop); ("core.api_log.backends.orm", core_api_log_backends_orm); ("core.api_log.dispatch",
   core_api_log_dispatch); ("core.api_log.error_messages", core_api_log_error_messages); ("core.api_log.factory",
   core_api_log_factory); ("core.api_log.inbound", core_api_log_inbound); ("core.api_log.models",
   core_api_log_models); ("core.api_log.outbound", core_api_log_outbound); ("core.api_log.sanitizers",
   core_api_log_sanitizers); ("core.api_schemas", core_api_schemas); ("core.api_schemas.envelope",
   core_api_schemas_envelope); ("core.api_schemas.responses", core_api_schemas_responses);
   ("core.api_schemas.system", core_api_schemas_system); ("core.apps", core_apps); ("core.auth", core_auth);
   ("core.auth.base", core_auth_base); ("core.auth.composite", core_auth_composite); ("core.auth.registry",
   core_auth_registry); ("core.base", core_base); ("core.base.admin", core_base_admin); ("core.base.audit",
   core_base_audit); ("core.base.exception", core_base_exception); ("core.base.fields", core_base_fields);
   ("core.base.manager", core_base_manager); ("core.base.model", core_base_model); ("core.base.repository",
   core_base_repository); ("core.base.response", core_base_response); ("core.base.schema", core_base_schema);
   ("core.base.service", core_base_service); ("core.base.widgets", core_base_widgets); ("core.constants", []);
   ("core.context", core_context); ("core.db", core_db); ("core.db.transaction", core_db_transaction);
   ("core.dispatch", core_dispatch); ("core.dispatch.fire_and_forget", core_dispatch_fire_and_forget);
   ("core.enums", core_enums); ("core.exceptions", core_exceptions); ("core.exceptions.api", core_exceptions_api);
   ("core.exceptions.auth", core_exceptions_auth); ("core.exceptions.handler", core_exceptions_handler);
   ("core.exceptions.infrastructure", core_exceptions_infrastructure); ("core.exceptions.rate_limit",
   core_exceptions_rate_limit); ("core.exceptions.repository", core_exceptions_repository);
   ("core.exceptions.utils", core_exceptions_utils); ("core.exceptions.validation", core_exceptions_validation);
   ("core.lifecycle", core_lifecycle); ("core.lifecycle.healthcheck", core_lifecycle_healthcheck); ("core.metrics",
   core_metrics); ("core.middleware", core_middleware); ("core.middleware.bind_request_id",
   core_middleware_bind_request_id); ("core.middleware.metrics_middleware", core_middleware_metrics_middleware);
   ("core.middleware.request_logging", core_middleware_request_logging); ("core.middleware.throttling",
   core_middleware_throttling); ("core.openapi", core_openapi); ("core.openapi.metadata", core_openapi_metadata);
   ("core.permissions", core_permissions); ("core.rbac_registry", core_rbac_registry); ("core.registries",
   core_registries); ("core.responses", core_responses); ("core.responses.envelope_schema",
   core_responses_envelope_schema); ("core.responses.error", core_responses_error); ("core.responses.paginated",
   core_responses_paginated); ("core.responses.success", core_responses_success); ("core.tasks", core_tasks);
   ("core.tasks.queue", core_tasks_queue); ("core.tasks.registry", core_tasks_registry); ("core.urls", core_urls);
   ("core.utils", []); ("core.utils.aws", core_utils_aws); ("core.utils.data", core_utils_data); ("core.utils.db",
   core_utils_db); ("core.utils.filters", core_utils_filters); ("core.utils.function_logger",
   core_utils_function_logger); ("core.utils.log_sanitization", core_utils_log_sanitization); ("core.utils.logging",
   core_utils_logging); ("core.utils.network", core_utils_network); ("core.utils.pagination",
   core_utils_pagination); ("core.utils.s3", core_utils_s3); ("core.utils.ses", core_utils_ses);
   ("core.utils.timing", core_utils_timing); ("core.utils.valkey", core_utils_valkey); ("core.views", core_views)].
(** What the packages export. *)
Definition packages : list (modname * list string) :=
  prod_map dotted id <$> [("accounts.api_schemas", accounts_api_schemas_all); ("core.api_log.backends",
   core_api_log_backends_all); ("core.api_schemas", core_api_schemas_all); ("core.auth", core_auth_all);
   ("core.base", core_base_all); ("core.db", core_db_all); ("core.exceptions", core_exceptions_all);
   ("core.lifecycle", core_lifecycle_all); ("core.middleware", core_middleware_all); ("core.openapi",
   core_openapi_all); ("core.registries", core_registries_all); ("core.responses", core_responses_all);
   ("core.tasks", core_tasks_all)].
(** An order in which every module comes after those it imports. *)
Definition load_order : list modname :=
  dotted <$> ["accounts"; "core"; "core.base"; "core.context"; "core.base.exception"; "core.exceptions.api";
   "core.exceptions.auth"; "core.exceptions.infrastructure"; "core.exceptions.repository";
   "core.exceptions.handler"; "core.exceptions.rate_limit"; "core.exceptions.utils"; "core.exceptions.validation";
   "core.exceptions"; "accounts.exceptions"; "accounts.managers"; "core.base.fields"; "core.base.model";
   "core.enums"; "accounts.models"; "accounts.repositories"; "accounts.adapters"; "core.base.widgets";
   "core.base.admin"; "accounts.admin"; "accounts.api_schemas._common"; "core.api_schemas.envelope";
   "core.api_schemas.responses"; "core.api_schemas.system"; "core.api_schemas"; "accounts.api_schemas.api_key";
   "accounts.serializers"; "accounts.api_schemas.auth"; "accounts.api_schemas.user"; "accounts.api_schemas";
   "accounts.apps"; "accounts.authentication"; "accounts.auth_providers"; "core.rbac_registry"; "accounts.backends";
   "accounts.permissions"; "core.base.audit"; "core.base.service"; "accounts.services";
   "core.middleware.bind_request_id"; "core.utils"; "core.utils.log_sanitization"; "core.utils.network";
   "core.middleware.request_logging"; "core.middleware"; "core.middleware.throttling"; "core.permissions";
   "core.utils.logging"; "core.base.response"; "core.responses.error"; "core.responses.paginated";
   "core.responses.success"; "core.responses"; "accounts.views"; "accounts.urls"; "core.api_log";
   "core.api_log.apps"; "core.api_log.backends.base"; "core.api_log.backends.noop"; "core.db.transaction";
   "core.db"; "core.api_log.backends.orm"; "core.api_log.backends"; "core.dispatch.fire_and_forget";
   "core.dispatch"; "core.api_log.factory"; "core.api_log.dispatch"; "core.api_log.error_messages";
   "core.api_log.models"; "core.api_log.sanitizers"; "core.api_log.inbound"; "core.api_log.outbound"; "core.apps";
   "core.auth.base"; "core.auth.registry"; "core.auth.composite"; "core.auth"; "core.base.manager";
   "core.base.repository"; "core.base.schema"; "core.constants"; "core.lifecycle.healthcheck"; "core.lifecycle";
   "core.metrics"; "core.middleware.metrics_middleware"; "core.openapi.metadata"; "core.openapi"; "core.registries";
   "core.responses.envelope_schema"; "core.tasks.queue"; "core.tasks.registry"; "core.tasks"; "core.views";
   "core.urls"; "core.utils.aws"; "core.utils.data"; "core.utils.db"; "core.utils.filters";
   "core.utils.function_logger"; "core.utils.pagination"; "core.utils.s3"; "core.utils.ses"; "core.utils.timing";
   "core.utils.valkey"].

Definition source : gmap modname (list stmt) := list_to_map modules.
Definition code (m : modname) : option (list stmt) := source !! m.

(** [__getattr__] of [core.base]. *)
Definition base_getattr (name : string) : option (modname * string) :=
  if String.eqb name "BaseCustomError" then Some (dotted "core.base.exception", "BaseCustomError")
  else if String.eqb name "BaseModel" then Some (dotted "core.base.model", "BaseModel")
  else if String.eqb name "NamedBaseModel" then Some (dotted "core.base.model", "NamedBaseModel")
  else if String.eqb name "BaseModelAdmin" then Some (dotted "core.base.admin", "BaseModelAdmin")
  else if String.eqb name "BaseTabularInline" then Some (dotted "core.base.admin", "BaseTabularInline")
  else if String.eqb name "BaseGenericTabularInline" then Some (dotted "core.base.admin", "BaseGenericTabularInline")
  else if String.eqb name "BaseResponse" then Some (dotted "core.base.response", "BaseResponse")
  else if String.eqb name "BaseService" then Some (dotted "core.base.service", "BaseService")
  else None.

(** [__getattr__] of [core.exceptions.repository]: the old name of the error. *)
Definition repository_getattr (name : string) : option (modname * string) :=
  if String.eqb name "InvalidOutboundURLError"
  then Some (dotted "core.exceptions.infrastructure", "OutboundURLNotAllowedError") else None.

Definition getattr_of (m : modname) (name : string) : option (modname * string) :=
  if bool_decide (m = dotted "core.base") then base_getattr name
  else if bool_decide (m = dotted "core.exceptions.repository") then repository_getattr name
  else None.

(** The names a module makes itself, or takes from outside of the two apps. *)
Definition made (m : modname) : list string :=
  concat ((fun st => match st with Binds names => names | From _ _ => [] end) <$> default [] (code m)).

(** What the modules hold, each evaluated after those it imports. *)
Definition reference_modules : sys_modules := default ∅ (reference code getattr_of ∅ load_order).

(** [core.base] with its imports at the top instead of in [__getattr__]. *)
Definition eager_base : list stmt :=
  import_from "core.base.exception" ["BaseCustomError"] :: import_from "core.base.model" ["BaseModel"; "NamedBaseModel"] ::
  import_from "core.base.admin" ["BaseModelAdmin"; "BaseTabularInline"; "BaseGenericTabularInline"] ::
  import_from "core.base.response" ["BaseResponse"] :: import_from "core.base.service" ["BaseService"] :: core_base.
Definition eager_code (m : modname) : option (list stmt) :=
  if bool_decide (m = dotted "core.base") then Some eager_base else code m.

(** An import of a module, or of all a package exports. *)
Definition of_the_apps (r : request) : Prop :=
  match r with Import m => is_Some (code m) | FromImport m names => (m, names) ∈ packages end.

(** ** Lemmas *)

Lemma table_fits : fits code getattr_of load_order reference_modules = true.
Proof. by vm_compute. Qed.

Lemma code_ordered m : is_Some (code m) -> m ∈ load_order.
Proof.
  intros [body Hm]. unfold code, source in Hm. apply elem_of_list_to_map_2, list_elem_of_In in Hm.
  assert (Hall : forallb (fun b => bool_decide (b.1 ∈ load_order)) modules = true) by by vm_compute.
  rewrite forallb_forall in Hall. by apply Hall, bool_decide_eq_true in Hm.
Qed.

(** What a package answers for a name it exports. *)
Definition origin_is (n : string) (v : value) : bool :=
  match v with Obj x k => String.eqb k n && bool_decide (n ∈ made x) | Mod _ => false end.
Definition exports_made (p : modname * list string) : bool :=
  match answer getattr_of reference_modules (FromImport p.1 p.2) with
  | Some vs => bool_decide (length vs = length p.2) && forallb (fun nv => origin_is nv.1 nv.2) (zip p.2 vs)
  | None => false
  end.

Lemma packages_export : forallb exports_made packages = true.
Proof. by vm_compute. Qed.

Lemma zip_origins names vs : length vs = length names -> forallb (fun nv => origin_is nv.1 nv.2) (zip names vs) = true ->
  Forall2 (fun n v => exists x, v = Obj x n /\ n ∈ made x) names vs.
Proof.
  revert vs. induction names as [|n names IH]; intros [|v vs]; cbn [length zip zip_with forallb fst snd]; try done.
  intros [= Hl] [Hv Hvs]%andb_true_iff. constructor; [|by apply IH]. unfold origin_is in Hv.
  destruct v as [x k|]; [|done]. apply andb_true_iff in Hv as [->%String.eqb_eq Hm%bool_decide_eq_true]. eauto.
Qed.

Definition answers_request (r : request) (vs : list value) : Prop :=
  match r with
  | Import _ => vs = []
  | FromImport m names => Forall2 (fun n v => exists x, v = Obj x n /\ n ∈ made x) names vs
  end.

Lemma request_answered r : of_the_apps r ->
  exists vs, answer getattr_of reference_modules r = Some vs /\ answers_request r vs.
Proof.
  destruct r as [m|m names]; cbn [of_the_apps answers_request].
  - intros Hm%code_ordered. exists []. split; [|done]. unfold answer, in_env.
    apply (in_F _ _ _ _ table_fits) in Hm. by rewrite bool_decide_eq_true_2.
  - intros Hp%list_elem_of_In. pose proof packages_export as Hall. rewrite forallb_forall in Hall.
    apply Hall in Hp. unfold exports_made in Hp. cbn [fst snd] in Hp.
    destruct (answer _ _ _) as [vs|]; [|done]. exists vs. split; [done|].
    apply andb_true_iff in Hp as [Hl%bool_decide_eq_true Hz]. by apply zip_origins.
Qed.

(** ** Properties *)

(** The imports among the two apps are free of order.  Whatever modules of the
    two apps are imported and whichever packages are imported from, in whatever
    order, starting with none loaded, and as long as the imports from outside
    succeed and enter no module of the apps, none of these imports fails or
    finds a module half loaded: every name a package lists in [__all__] is the
    object some module makes under that name, the same object in every order,
    and the stack never exceeds 221 frames of imports. *)
Theorem imports_in_any_order rs fuel :
  221 <= fuel -> Forall of_the_apps rs ->
  exists vss s, session code getattr_of fuel rs ∅ = (Ok vss, s) /\ Forall2 answers_request rs vss /\
    mapM (answer getattr_of reference_modules) rs = Some vss.
Proof.
  intros Hf Hrs.
  assert (Hans : exists vss, Forall2 (fun r vs => answer getattr_of reference_modules r = Some vs) rs vss /\
                        Forall2 answers_request rs vss).
  { induction Hrs as [|r rs Hr _ [vss [IH1 IH2]]]; [by exists []|].
    destruct (request_answered r Hr) as (vs & ? & ?). exists (vs :: vss). by split; constructor. }
  destruct Hans as (vss & Ha%mapM_Some & Hv).
  destruct (session_agrees code getattr_of load_order reference_modules table_fits fuel rs vss) as (s & Hs & _);
    [done|done|]. eauto.
Qed.

Lemma imports_in_any_order_witness :
  exists vss s, session code getattr_of 221
    [Import (dotted "core.exceptions.handler"); FromImport (dotted "core.base") core_base_all;
     FromImport (dotted "core.exceptions") core_exceptions_all] ∅ = (Ok vss, s) /\
    Forall2 answers_request
      [Import (dotted "core.exceptions.handler"); FromImport (dotted "core.base") core_base_all;
       FromImport (dotted "core.exceptions") core_exceptions_all] vss /\
    mapM (answer getattr_of reference_modules)
      [Import (dotted "core.exceptions.handler"); FromImport (dotted "core.base") core_base_all;
       FromImport (dotted "core.exceptions") core_exceptions_all] = Some vss.
Proof.
  apply (imports_in_any_order _ 221); [lia|].
  repeat constructor; [apply (bool_decide_unpack _); by vm_compute..].
Defined.

(** With the imports of [core.base] at its top the package of the exceptions
    could not be imported first: the service layer asks it for an exception
    while it is loading. *)
Theorem base_must_be_lazy :
  (step eager_code getattr_of 221 (Import (dotted "core.exceptions")) ∅).1 =
    Raise (CannotImport "EntityNotFoundError" (dotted "core.exceptions")) /\
  returns (step eager_code getattr_of 221 (Import (dotted "core.base.service")) ∅).1 = true.
Proof. by vm_compute. Qed.

(** The package of the audit log exports none of the names its documentation
    calls its public surface. *)
Theorem api_log_exports_nothing n :
  n ∈ ["log_inbound"; "log_outbound"; "ApiLog"; "Direction"] ->
  (step code getattr_of 221 (FromImport (dotted "core.api_log") [n]) ∅).1 =
    Raise (CannotImport n (dotted "core.api_log")).
Proof.
  rewrite !elem_of_cons, elem_of_nil. intros [->|[->|[->|[->|[]]]]]; by vm_compute.
Qed.

(** The old name of the refused-URL error is still the error. *)
Theorem old_name_resolves :
  (step code getattr_of 221 (FromImport (dotted "core.exceptions.repository") ["InvalidOutboundURLError"]) ∅).1 =
    Ok [Obj (dotted "core.exceptions.infrastructure") "OutboundURLNotAllowedError"].
Proof. by vm_compute. Qed.
