(* ===== verification/Profiler.v ===== *)
(** * The audit-path profiler

    [scripts/profile_audit_path.py]: the percentiles of the measured overhead
    and the exit status they decide.  Times are whole ticks of the clock; a
    percentile is kept as its numerator over 100, so [statistics.quantiles]
    with [n=100, method='inclusive'] (of Python 3.12, which the script names)
    is exact here where the script has floats. *)
From stdpp Require Import base list sorting strings.
From Stdlib Require Import Lia ZArith.
From S2P Require Import Prelude PyStr PyVal Exceptions.

(** ** Percentiles *)

(** One cut point, times 100: [data[j] * (n - delta) + data[j + 1] * delta]
    for [divmod(x, n)]; [None] is an [IndexError]. *)
Definition interpolated (data : list Z) (x : nat) : option Z :=
  let j := x / 100 in let delta := Z.of_nat (x mod 100) in
  a ← data !! j; b ← data !! S j; Some (a * (100 - delta) + b * delta)%Z.

Definition index_error : py_exn := Builtin "IndexError" "list index out of range".
Fixpoint cuts (data : list Z) (m : nat) (xs : list nat) : result py_exn (list Z) :=
  match xs with
  | [] => Ok []
  | i :: xs' =>
      match interpolated data (i * m) with
      | Some c => cs ← cuts data m xs'; Ok (c :: cs)
      | None => Raise index_error
      end
  end.

(** [quantiles(samples, n=100, method="inclusive")] *)
Definition quantiles (samples : list Z) : result py_exn (list Z) :=
  let data := merge_sort Z.le samples in
  if length data <? 2 then Raise (Builtin "StatisticsError" "must have at least two data points")
  else cuts data (length data - 1) (seq 1 99).

Definition _percentile (samples : list Z) (pct : Z) : result py_exn Z :=
  match samples with
  | [] => Ok 0%Z
  | _ =>
      cs ← quantiles samples;
      let idx := Z.to_nat (Z.max 0 (Z.min 98 (pct - 1))) in
      match cs !! idx with Some c => Ok c | None => Raise index_error end
  end.

(** ** The run *)

(** [run_profile]: the two readings of the clock around each call. *)
Definition run_profile (readings : nat -> Z * Z) (iterations : Z) : list Z :=
  (fun i => ((readings i).2 - (readings i).1)%Z) <$> seq 0 (Z.to_nat iterations).

(** [main]: the three percentiles printed and the exit status; the bound is
    [--max-p99-us] in the same unit as the percentiles. *)
Definition main (readings : nat -> Z * Z) (iterations max_p99 : Z) : result py_exn ((Z * Z * Z) * Z) :=
  let samples := run_profile readings iterations in
  p50 ← _percentile samples 50;
  p95 ← _percentile samples 95;
  p99 ← _percentile samples 99;
  Ok ((p50, p95, p99), if (max_p99 <? p99)%Z then 1%Z else 0%Z).

(** ** Lemmas *)

Lemma run_profile_length readings n : length (run_profile readings n) = Z.to_nat n.
Proof. unfold run_profile. by rewrite length_fmap, length_seq. Qed.

Definition entry (data : list Z) (j : nat) : Z := nth j data 0%Z.
(** The line through the data, times 100. *)
Definition line (data : list Z) (x : nat) : Z :=
  (entry data (x / 100) * (100 - Z.of_nat (x mod 100)) + entry data (S (x / 100)) * Z.of_nat (x mod 100))%Z.

Lemma interpolated_line data x : S (x / 100) < length data -> interpolated data x = Some (line data x).
Proof.
  intros Hl. unfold interpolated, line, entry.
  assert (Hn : forall j, j < length data -> data !! j = Some (nth j data 0%Z)).
  { intros j Hj. destruct (lookup_lt_is_Some_2 data j Hj) as [a Ha]. by rewrite Ha, (nth_lookup_Some _ _ _ _ Ha). }
  rewrite !Hn by lia. reflexivity.
Qed.

Lemma cuts_line data m xs :
  (forall i, i ∈ xs -> S (i * m / 100) < length data) -> cuts data m xs = Ok ((fun i => line data (i * m)) <$> xs).
Proof.
  induction xs as [|i xs IH]; intros H; [done|]. cbn [cuts].
  rewrite interpolated_line by (apply H, elem_of_cons; by left). rewrite IH; [done|].
  intros k Hk. apply H, elem_of_cons. by right.
Qed.

(** *** The line rises *)
Section sorted.
Context (data : list Z) (Hs : forall j, S j < length data -> (entry data j <= entry data (S j))%Z).

Lemma line_step x : S (x / 100) < length data -> (line data x <= line data (S x))%Z.
Proof.
  intros Hl. specialize (Hs (x / 100) Hl). unfold line.
  pose proof (Nat.div_mod_eq x 100) as Hx. pose proof (Nat.mod_upper_bound x 100) as Hb.
  destruct (decide (x mod 100 = 99)) as [E|E].
  - assert (S x / 100 = S (x / 100)) as -> by (symmetry; apply (Nat.div_unique _ 100 _ 0); lia).
    assert (S x mod 100 = 0) as -> by (symmetry; apply (Nat.mod_unique _ 100 (S (x / 100))); lia).
    rewrite E. lia.
  - assert (S x / 100 = x / 100) as -> by (symmetry; apply (Nat.div_unique _ 100 _ (S (x mod 100))); lia).
    assert (S x mod 100 = S (x mod 100)) as -> by (symmetry; apply (Nat.mod_unique _ 100 (x / 100)); lia).
    nia.
Qed.

Lemma line_mono x y : x <= y -> y <= 100 * (length data - 1) -> (line data x <= line data y)%Z.
Proof.
  intros Hxy Hy. induction Hxy as [|y Hxy IH]; [lia|]. etrans; [apply IH; lia|]. apply line_step.
  assert (y / 100 < length data - 1) by (apply Nat.Div0.div_lt_upper_bound; lia). lia.
Qed.
End sorted.

Lemma line_ends data : 0 < length data ->
  line data 0 = (100 * entry data 0)%Z /\
  line data (100 * (length data - 1)) = (100 * entry data (length data - 1))%Z.
Proof.
  intros Hl. unfold line. rewrite Nat.Div0.div_0_l, Nat.Div0.mod_0_l.
  rewrite (Nat.mul_comm 100), Nat.div_mul, Nat.Div0.mod_mul by lia. lia.
Qed.

Lemma sorted_entry data j : Sorted Z.le data -> S j < length data -> (entry data j <= entry data (S j))%Z.
Proof.
  intros Hs Hj. unfold entry. revert j Hj. induction Hs as [|a data Hs IH Ha]; [cbn; lia|].
  intros [|j] Hj; cbn in *; [|apply IH; lia]. destruct Ha as [|b data Hab]; [cbn in Hj; lia|done].
Qed.

Lemma merge_entries samples :
  let data := merge_sort Z.le samples in
  length data = length samples /\ (forall j, S j < length data -> (entry data j <= entry data (S j))%Z) /\
  forall j, j < length data -> entry data j ∈ samples.
Proof.
  intros data. pose proof (merge_sort_Permutation Z.le samples) as Hp.
  split; [by rewrite <- (Permutation_length Hp)|]. split.
  - intros j Hj. apply sorted_entry; [|done]. apply Sorted_merge_sort, _.
  - intros j Hj. rewrite <- Hp. apply list_elem_of_In, nth_In. done.
Qed.

(** A percentile in range. *)
Lemma percentile_line samples pct : 2 <= length samples ->
  let data := merge_sort Z.le samples in
  _percentile samples pct =
    Ok (line data (S (Z.to_nat (Z.max 0 (Z.min 98 (pct - 1)))) * (length data - 1))).
Proof.
  intros Hl data. destruct (merge_entries samples) as (Hd & _ & _). fold data in Hd.
  unfold _percentile. destruct samples as [|a samples]; [cbn in Hl; lia|]. unfold quantiles. fold data.
  assert (length data <? 2 = false) as -> by (apply Nat.ltb_ge; lia).
  rewrite cuts_line.
  - cbn [mbind result_bind]. set (idx := Z.to_nat _). assert (idx < 99) by (subst idx; lia).
    rewrite list_lookup_fmap, lookup_seq_lt by done. done.
  - intros i Hi. apply list_elem_of_In, in_seq in Hi.
    assert (i * (length data - 1) / 100 < length data - 1) by (apply Nat.Div0.div_lt_upper_bound; nia). lia.
Qed.

Lemma percentile_bounds samples lo hi pct c : 2 <= length samples ->
  (forall x, x ∈ samples -> lo <= x <= hi)%Z -> _percentile samples pct = Ok c -> (100 * lo <= c <= 100 * hi)%Z.
Proof.
  intros Hl Hb. rewrite percentile_line by done. intros [= <-].
  destruct (merge_entries samples) as (Hd & Hs & Hin). set (data := merge_sort Z.le samples) in *.
  destruct (line_ends data) as [H0 H1]; [lia|]. set (idx := Z.to_nat _). assert (idx < 99) by (subst idx; lia).
  pose proof (line_mono data Hs 0 (S idx * (length data - 1))) as Hlo.
  pose proof (line_mono data Hs (S idx * (length data - 1)) (100 * (length data - 1))) as Hhi.
  pose proof (Hb _ (Hin 0 ltac:(lia))). pose proof (Hb _ (Hin (length data - 1) ltac:(lia))).
  rewrite H0 in Hlo. rewrite H1 in Hhi. split; [etrans; [|apply Hlo]|etrans; [apply Hhi|]]; nia.
Qed.

Lemma percentile_mono samples p q a b : 2 <= length samples -> (p <= q)%Z ->
  _percentile samples p = Ok a -> _percentile samples q = Ok b -> (a <= b)%Z.
Proof.
  intros Hl Hpq. rewrite !percentile_line by done. intros [= <-] [= <-].
  destruct (merge_entries samples) as (Hd & Hs & _). set (n := length (merge_sort Z.le samples) - 1) in *.
  assert (Z.to_nat (Z.max 0 (Z.min 98 (p - 1))) <= Z.to_nat (Z.max 0 (Z.min 98 (q - 1))) <= 98) by lia.
  apply line_mono; [done|nia|]. subst n. rewrite Nat.mul_comm. nia.
Qed.

(** The profiler's verdict.  With two or more iterations it always answers:
    no index leaves the data, the three percentiles lie between the fastest and
    the slowest sample and come in order, and the exit status is 1 exactly when
    the 99th exceeds the bound.  Without iterations it reports zeros; with
    exactly one it dies of the [StatisticsError] that [_percentile], which
    guards the empty list only, does not expect. *)
Theorem profiler_verdict readings iterations max_p99 :
  ((iterations <= 0)%Z -> main readings iterations max_p99 = Ok ((0, 0, 0), if max_p99 <? 0 then 1 else 0)%Z) /\
  (iterations = 1%Z -> main readings iterations max_p99 =
     Raise (Builtin "StatisticsError" "must have at least two data points")) /\
  ((2 <= iterations)%Z -> exists p50 p95 p99 status,
     main readings iterations max_p99 = Ok ((p50, p95, p99), status) /\
     (p50 <= p95 <= p99)%Z /\ (status = 1%Z <-> (max_p99 < p99)%Z) /\
     forall lo hi : Z, (forall i : nat, i < Z.to_nat iterations -> (lo <= (readings i).2 - (readings i).1 <= hi)%Z) ->
       (100 * lo <= p50 /\ p99 <= 100 * hi)%Z).
Proof.
  split; [|split].
  - intros Hn. unfold main, run_profile. replace (Z.to_nat iterations) with 0 by lia. reflexivity.
  - intros ->. reflexivity.
  - intros Hn. unfold main. set (samples := run_profile readings iterations).
    assert (Hl : 2 <= length samples) by (subst samples; rewrite run_profile_length; lia).
    rewrite !percentile_line by done. cbn [mbind result_bind].
    eexists _, _, _, _. split; [reflexivity|]. split.
    { split; [apply (percentile_mono samples 50 95)|apply (percentile_mono samples 95 99)]; try done;
        by apply percentile_line. }
    split; [destruct (Z.ltb_spec max_p99 (line (merge_sort Z.le samples)
              (S (Z.to_nat (Z.max 0 (Z.min 98 (99 - 1)))) * (length (merge_sort Z.le samples) - 1)))); lia|].
    intros lo hi Hb.
    assert (Hb' : forall x, x ∈ samples -> (lo <= x <= hi)%Z).
    { intros x (i & -> & Hi)%list_elem_of_fmap. apply list_elem_of_In, in_seq in Hi. apply Hb. lia. }
    split; [eapply (percentile_bounds samples lo hi 50)|eapply (percentile_bounds samples lo hi 99)]; try done;
      by apply percentile_line.
Qed.
Lemma profiler_verdict_witness :
  exists p50 p95 p99 status, main (fun i => (0, Z.of_nat i)%Z) 3 150 = Ok ((p50, p95, p99), status) /\
    (p50 <= p95 <= p99)%Z /\ status = 1%Z.
Proof.
  destruct (profiler_verdict (fun i => (0, Z.of_nat i)%Z) 3 150) as (_ & _ & H).
  destruct (H ltac:(lia)) as (p50 & p95 & p99 & status & Hm & Ho & Hs & _).
  exists p50, p95, p99, status. split; [exact Hm|]. split; [exact Ho|].
  apply Hs. assert (Hv : main (fun i => (0, Z.of_nat i)%Z) 3 150 = Ok ((100, 190, 198), 1)%Z) by (by vm_compute).
  rewrite Hv in Hm. injection Hm as <- <- <- <-. lia.
Defined.
